(* ===== verification/_CoqProject ===== *)
-Q . S2P
Prelude.v
Mem.v
Lib.v
Machine.v
Memory.v
PageAlloc.v
NextFrames.v
Frames.v
OsAlloc.v
OsHeap.v
HeapInit.v
HeapSpec.v
PageTable.v
PageMap.v
Pages.v
Printf.v
Serial.v
Kbd.v
Kernel.v
Apic.v
Kmap.v
Idt.v
IdtSpec.v
GdtSpec.v
Context.v
Space.v
Teardown.v
Boot.v
Shell.v
Fork.v
ExecInit.v
Sched.v
Dsh.v
Entry.v
User.v
Timer.v
Syscalls.v
Typed.v
UserSpec.v
DshSpec.v
Main.v
BootSpec.v
