(* ===== verification/Prelude.v ===== *)
(** * gemOS: a verification development of the kernel

    gemOS (src/src/) is a small teaching kernel for x86-64: a boot sequence, a
    serial console and shell, a page-frame allocator and a small-object heap,
    four-level page tables, up to 16 execution contexts with a round-robin
    scheduler driven by the APIC timer, twelve system calls, and three user
    programs.  This library translates its C code into executable definitions
    and proves what the parts promise, up to the theorem that a machine that
    is switched on starts the first process from a typed command.

    ** How the code is modelled

    - Integers are [Z]; an assignment to an unsigned variable of a width is
      [u8] .. [u64] of the value, [s32] reads it as a signed one.
    - Memory is a finite map from addresses to bytes ([Mem]); the kernel runs on
      an identity mapping, so that a kernel pointer is a physical address.
      Bitmaps, page tables, descriptor tables, list nodes and heap chunks are
      bytes of this memory, at the offsets of the C structures.  The process
      table, the statistics and the configuration are records ([Kernel]).
    - What the kernel does to the outside (port and device writes, TLB and CR3
      instructions, output) is the trace of [Machine], latest event first.
      What a device or the processor answers is an argument.
    - Code that may run forever or read what is not there takes fuel or a list
      of answers and returns an option.  Kernel code that leaves for user mode,
      switches away or dereferences NULL runs in the monad [M] of [Kernel], with
      outcomes [Ret], [Leave] and [Undefined].
    - A user program is a tree of system calls, loads and stores ([User]).

    ** Files

    - [Prelude], [Mem], [Lib], [Machine]: integers, memory, the bit macros and
      byte loops (include/types.h, include/lib.h, lib.c), the trace.
    - [Memory], [PageAlloc], [NextFrames], [Frames]: the frame allocator (memory.c,
      first half), its invariant [mm_inv], its theorems, the list [next] of the
      frames it will give out, and the interface [FrameStore] with the laws
      [FrameLaws] against which its clients are verified.
    - [OsAlloc], [OsHeap], [HeapInit], [HeapSpec]: os_alloc, os_free and the node
      allocator (memory.c, second half; the lists of lib.c), the abstract heap
      [aheap] with its representation [heap_rep], and the refinement theorem.
    - [PageTable], [PageMap], [Pages]: get_user_pte, do_unmap_user,
      install_page_table (entry.c), install_ptable, install_ptable_multi
      (context.c), and their effect on the mappings.
    - [Printf], [Serial], [Kbd]: strings and formatted output (lib.c), the 16550
      driver (serial.c), the keyboard controller (kbd.c).
    - [Kernel], [Apic], [Kmap]: the kernel state and its monad; apic.c; the kernel
      half of an address space (install_os_pts of context.c, apic.c).
    - [Idt], [IdtSpec], [GdtSpec]: idt.c with the processor's view of its tables.
    - [Context], [Space], [ExecInit]: context.c; what create_context leaves; the
      address space that exec_init builds for the first process.
    - [Teardown], [Fork]: what pt_cleanup frees and what fork copies.
    - [Sched], [Timer], [Entry], [Syscalls], [Typed]: schedule.c and entry.c, the
      effect of ticks, system calls and faults, and the type of the process
      table, which every entry from user mode preserves.
    - [Shell], [Dsh], [DshSpec]: shell.c.
    - [User], [UserSpec]: user/init.c, user/init_args.c, user/init_clone.c.
    - [Boot], [Main], [BootSpec]: main.c and the boot from zeroed memory.

    A definition has the name of the C function it translates; a loop of the
    function is a Fixpoint next to it.  The shell and the boot call the other
    parts as the code does; clients of the frame allocator see it only through
    [Frames].

    ** What is shown

    - End to end: [main] reaches the shell from zeroed memory with every
      invariant in place ([main_boots]), and "init" with numbers, typed on the
      serial line, enters user mode with these arguments, in the registers that
      the code loads (the third and fourth exchanged), over a page table that
      maps the image of init, its data and stack, the memory of the kernel
      and nothing else ([boot_starts_init], [exec_init_enters]).
    - Frame allocator: freshness, the invariant of reachable states, round trip,
      start-up capacity, and the exact limit behind which frames repeat.
    - Heap: a refinement of size classes with FIFO free lists; the overlap of
      consecutive objects that the address computation causes.
    - Address spaces: a fault maps one page and nothing else; spaces stay apart;
      unmapping undoes a fault; the kernel half is the identity on 128 MB and
      out of reach of user mode; fork copies and shares; teardown frees each
      frame once.
    - Descriptors: what the processor reads in the IDT, the GDT and the TSS that
      the kernel sets up and loads.
    - Processes: every entry from user mode keeps the process table typed; the
      choice of the scheduler equals a cyclic search; a ready process runs
      within 15 ticks; the timer's sleep and alarm accounting.
    - System calls: write reads only mapped memory and sends what it reads up to
      the first 0, expand and shrink move the segment end within bounds, clone
      shares the space, a process that faults for good is ended, and the error
      paths.
    - Input and output: what printf transmits, lines and keys read back, numbers
      print and read back, parse_init, and the effect of each shell command.
    - User programs: the message of init_args; the child of init, run on the
      answers of the kernel, stores its message and touches only pages that
      the kernel maps for it.

    ** Bounds and fuel

    [pick_loop] gets 16 iterations and [pick_next_context_round_robin] shows that
    they suffice.  Loops with a static bound get it as a number.  The polling
    loops consume answers: they end when the device becomes ready.  The shell
    takes a number of iterations and fuel for the length of a line; the theorems
    ask for more fuel than the line has characters.  [page_steps] is the number
    of pages of a range, and 20 digits are enough for a 64-bit number.

    ** Not modelled

    - boot_64.S, link64.ld, the Makefile: assembly and build files.  The entry
      stubs appear as the register frames that handlers receive and return,
      [return_from_os] and [iretq] as the [Leave] outcomes.
    - The busy bit that ltr sets in the descriptor of the TSS; nothing reads it.
    - Code that is compiled out: the ACPI branch of the shell, dprintf.
    - rand_rdtsc of init_args.c, which nothing calls, and the copies of the
      system-call wrappers in init_args.c and init_clone.c, which are those of
      init.c.
    - User code and the kernel do not run in one state: [urun] takes the
      kernel's answers as a list.  The store of [invoke_sync_signal] to the
      user's stack is an event of the trace and changes no memory.
    - The variable saved_ebp with which exec_init and ret_from_user find the
      shell's stack; the return to the shell is the outcome [RetFromUser].
    - The permissions of the upper levels of a page table: a mapping is the
      entry of the last level, whose write bit the theorems state. *)
From stdpp Require Export base list gmap numbers strings.
From Stdlib Require Export ZArith Lia.
#[global] Open Scope Z_scope.

(** ** Machine-width integers *)

(** [u8], [u16], [u32] and [u64] of include/types.h: the unsigned integers of
    a width, as the residue that an assignment to a variable of that type
    keeps; [s32] is the two's-complement reading of C's [int]. *)
Definition u8 (z : Z) : Z := z mod 2^8.
Definition u16 (z : Z) : Z := z mod 2^16.
Definition u32 (z : Z) : Z := z mod 2^32.
Definition u64 (z : Z) : Z := z mod 2^64.
Definition s32 (z : Z) : Z := (z + 2^31) mod 2^32 - 2^31.
Definition s64 (z : Z) : Z := (z + 2^63) mod 2^64 - 2^63.

Declare Scope gemos_scope.
Delimit Scope gemos_scope with gemos.
Infix "+32" := (fun a b => u32 (a + b)) (at level 50, left associativity) : gemos_scope.
Infix "+64" := (fun a b => u64 (a + b)) (at level 50, left associativity) : gemos_scope.
Infix "<<" := Z.shiftl (at level 40, left associativity) : gemos_scope.
Infix ">>" := Z.shiftr (at level 40, left associativity) : gemos_scope.
Infix ".&" := Z.land (at level 42, left associativity) : gemos_scope.
Infix ".|" := Z.lor (at level 44, left associativity) : gemos_scope.

(** ** Automation *)

Create HintDb gemos discriminated.

(** [zcase] splits on the boolean integer comparisons of the goal. *)
Ltac zcase :=
  repeat match goal with
  | |- context [(?a =? ?b)%Z] => destruct (Z.eqb_spec a b)
  | |- context [(?a <? ?b)%Z] => destruct (Z.ltb_spec a b)
  | |- context [(?a <=? ?b)%Z] => destruct (Z.leb_spec a b)
  | |- context [(?a >? ?b)%Z] => rewrite (Z.gtb_ltb a b)
  | |- context [(?a >=? ?b)%Z] => rewrite (Z.geb_leb a b)
  end.

(** [zdm] solves linear goals with [/] and [mod] by constants. *)
Ltac zdm := Z.div_mod_to_equations; lia.

(** [zcase_in H] does the same on the comparisons of a hypothesis. *)
Ltac zcase_in H :=
  repeat match type of H with
  | context [(?a =? ?b)%Z] => destruct (Z.eqb_spec a b)
  | context [(?a <? ?b)%Z] => destruct (Z.ltb_spec a b)
  | context [(?a <=? ?b)%Z] => destruct (Z.leb_spec a b)
  end.

(** [wrap] removes a wrap-around whose argument is in range. *)
Ltac wrap := unfold u8, u16, u32, u64 in *; rewrite ?Z.mod_small by lia.

(** ** Generic lemmas *)

Lemma u32_small z : 0 <= z < 2^32 -> u32 z = z.
Proof. apply Z.mod_small. Qed.

Lemma u64_small z : 0 <= z < 2^64 -> u64 z = z.
Proof. apply Z.mod_small. Qed.

Lemma u32_range z : 0 <= u32 z < 2^32.
Proof. apply Z.mod_pos_bound. lia. Qed.

Lemma u64_range z : 0 <= u64 z < 2^64.
Proof. apply Z.mod_pos_bound. lia. Qed.

#[export] Hint Resolve u32_range u64_range : gemos.

(** The characters of a C string literal. *)
Fixpoint codes (s : string) : list Z :=
  match s with
  | EmptyString => []
  | String c s => Z.of_nat (Ascii.nat_of_ascii c) :: codes s
  end.

(** A number below [2^n] has no bit at or above [n]. *)
Lemma testbit_high w n i : 0 <= w < 2^n -> 0 <= n <= i -> Z.testbit w i = false.
Proof.
  intros Hw Hn. rewrite <- (Z.mod_small w (2^n)) by lia.
  apply Z.mod_pow2_bits_high. lia.
Qed.

(** [2^n - 1] is the only number below [2^n] with all [n] bits set. *)
Lemma testbit_all_ones w n :
  0 <= n -> 0 <= w < 2^n -> (forall i, 0 <= i < n -> Z.testbit w i = true) ->
  w = 2^n - 1.
Proof.
  intros Hn Hw Hb. replace (2^n - 1) with (Z.ones n) by (rewrite Z.ones_equiv; lia).
  apply Z.bits_inj'. intros i Hi.
  destruct (Z.ltb_spec i n).
  - rewrite Hb, Z.ones_spec_low by lia. done.
  - rewrite (testbit_high w n), Z.ones_spec_high by lia. done.
Qed.

Lemma testbit_pow2 n i : 0 <= n -> Z.testbit (Z.shiftl 1 n) i = (i =? n).
Proof.
  intros Hn. rewrite Z.shiftl_1_l. zcase; subst.
  - by apply Z.pow2_bits_true.
  - by apply Z.pow2_bits_false.
Qed.

Lemma shiftr_12 z : Z.shiftr z 12 = z / 4096.
Proof. by rewrite Z.shiftr_div_pow2 by lia. Qed.

Lemma shiftl_12 z : Z.shiftl z 12 = z * 4096.
Proof. by rewrite Z.shiftl_mul_pow2 by lia. Qed.

(** What [find] returns is the first element that satisfies the test. *)
Lemma find_split {A} (f : A -> bool) l x :
  find f l = Some x ->
  exists l1 l2, l = l1 ++ x :: l2 /\ f x = true /\ Forall (fun y => f y = false) l1.
Proof.
  induction l as [|y l IH]; [done|]. cbn [find]. destruct (f y) eqn:E.
  - intros [= <-]. by exists [], l.
  - intros (l1 & l2 & -> & Hx & Hl)%IH. exists (y :: l1), l2. by rewrite Forall_cons.
Qed.
