(* ===== verification/Mem.v ===== *)
(** * Physical memory

    The kernel runs on an identity mapping, so a kernel pointer is a physical
    address.  Memory is a finite map from addresses to bytes, 0 where nothing
    was stored; multi-byte accesses are little-endian as on x86-64. *)
From S2P Require Import Prelude.

Abbreviation mem := (gmap Z Z).

Definition ld8 (m : mem) (a : Z) : Z := default 0 (m !! a) mod 256.
Definition st8 (m : mem) (a v : Z) : mem := <[a := v mod 256]> m.

(** [ldn n m a] and [stn n m a v] access the [n] bytes at [a]. *)
Fixpoint ldn (n : nat) (m : mem) (a : Z) : Z :=
  match n with
  | O => 0
  | S k => ld8 m a + 256 * ldn k m (a + 1)
  end.

Fixpoint stn (n : nat) (m : mem) (a v : Z) : mem :=
  match n with
  | O => m
  | S k => stn k (st8 m a v) (a + 1) (v / 256)
  end.

Definition ld16 := ldn 2.
Definition ld32 := ldn 4.
Definition ld64 := ldn 8.
Definition st16 := stn 2.
Definition st32 := stn 4.
Definition st64 := stn 8.

(** Two memories are equivalent when every byte reads the same: a cell that
    holds 0 and a cell never written are not told apart. *)
Definition mem_equiv (m1 m2 : mem) : Prop := forall a, ld8 m1 a = ld8 m2 a.

(** [untouched P m m'] : [m'] reads as [m] at every address outside [P]. *)
Definition untouched (P : Z -> Prop) (m m' : mem) : Prop :=
  forall a, ~ P a -> ld8 m' a = ld8 m a.

#[export] Instance mem_equiv_equivalence : Equivalence mem_equiv.
Proof.
  split; unfold mem_equiv; [done | by intros ????|].
  intros ?? m3 H1 H2 a. by rewrite H1.
Qed.

(** ** Single bytes *)

Lemma ld8_range m a : 0 <= ld8 m a < 256.
Proof. apply Z.mod_pos_bound. lia. Qed.

Lemma ld8_st8 m a v b : ld8 (st8 m a v) b = if a =? b then v mod 256 else ld8 m b.
Proof.
  unfold ld8, st8. zcase; subst.
  - rewrite lookup_insert_eq. cbn. by rewrite Z.mod_mod by lia.
  - by rewrite lookup_insert_ne.
Qed.

Lemma ld8_empty a : ld8 ∅ a = 0.
Proof. unfold ld8. by rewrite lookup_empty. Qed.

(** ** Multi-byte accesses *)

Lemma ldn_range n m a : 0 <= ldn n m a < 2 ^ (8 * Z.of_nat n).
Proof.
  revert a. induction n as [|n IH]; intros a; cbn [ldn]; [cbn; lia|].
  specialize (IH (a + 1)). pose proof (ld8_range m a).
  replace (8 * Z.of_nat (S n)) with (8 + 8 * Z.of_nat n) by lia.
  rewrite Z.pow_add_r by lia. lia.
Qed.

Lemma ldn_ext n m1 m2 a :
  (forall b, a <= b < a + Z.of_nat n -> ld8 m1 b = ld8 m2 b) ->
  ldn n m1 a = ldn n m2 a.
Proof.
  revert a. induction n as [|n IH]; intros a H; cbn [ldn]; [done|].
  rewrite (H a) by lia. rewrite (IH (a + 1)); [done|]. intros; apply H; lia.
Qed.

Lemma ld8_stn n m a v b :
  ld8 (stn n m a v) b =
    if (a <=? b) && (b <? a + Z.of_nat n) then (v / 256 ^ (b - a)) mod 256 else ld8 m b.
Proof.
  revert m a v. induction n as [|n IH]; intros m a v; cbn [stn].
  { zcase; cbn; try done; lia. }
  rewrite IH, ld8_st8. destruct (Z.eqb_spec a b) as [->|Hne].
  - rewrite Z.sub_diag, Z.div_1_r. zcase; cbn; try lia; done.
  - zcase; cbn; try lia; try done.
    replace (b - a) with (1 + (b - (a + 1))) by lia.
    rewrite Z.pow_add_r, <- Z.div_div by lia. done.
Qed.

Lemma ld8_stn_out n m a v b :
  ~ (a <= b < a + Z.of_nat n) -> ld8 (stn n m a v) b = ld8 m b.
Proof. intros. rewrite ld8_stn. zcase; cbn; try done; lia. Qed.

Lemma ldn_stn_eq n m a v : ldn n (stn n m a v) a = v mod 2 ^ (8 * Z.of_nat n).
Proof.
  revert m a v. induction n as [|n IH]; intros m a v; cbn [ldn stn].
  { by rewrite Z.mod_1_r. }
  rewrite ld8_stn_out, ld8_st8, Z.eqb_refl by lia. rewrite IH.
  replace (8 * Z.of_nat (S n)) with (8 + 8 * Z.of_nat n) by lia.
  rewrite Z.pow_add_r by lia. change (2 ^ 8) with 256.
  rewrite Z.rem_mul_r by lia. done.
Qed.

Lemma ldn_stn_ne n k m a b v :
  b + Z.of_nat n <= a \/ a + Z.of_nat k <= b -> ldn n (stn k m a v) b = ldn n m b.
Proof. intros. apply ldn_ext. intros c ?. apply ld8_stn_out. lia. Qed.

Lemma ld32_range m a : 0 <= ld32 m a < 2^32.
Proof. apply (ldn_range 4). Qed.
Lemma ld64_range m a : 0 <= ld64 m a < 2^64.
Proof. apply (ldn_range 8). Qed.
Lemma ld32_st32_eq m a v : 0 <= v < 2^32 -> ld32 (st32 m a v) a = v.
Proof. intros. unfold ld32, st32. rewrite ldn_stn_eq. by apply Z.mod_small. Qed.
Lemma ld64_st64_eq m a v : 0 <= v < 2^64 -> ld64 (st64 m a v) a = v.
Proof. intros. unfold ld64, st64. rewrite ldn_stn_eq. by apply Z.mod_small. Qed.
Lemma ld32_st32_ne m a b v : b + 4 <= a \/ a + 4 <= b -> ld32 (st32 m a v) b = ld32 m b.
Proof. intros. apply (ldn_stn_ne 4 4). lia. Qed.
Lemma ld64_st64_ne m a b v : b + 8 <= a \/ a + 8 <= b -> ld64 (st64 m a v) b = ld64 m b.
Proof. intros. apply (ldn_stn_ne 8 8). lia. Qed.
Lemma ld32_st64_ne m a b v : b + 4 <= a \/ a + 8 <= b -> ld32 (st64 m a v) b = ld32 m b.
Proof. intros. apply (ldn_stn_ne 4 8). lia. Qed.
Lemma ld64_st32_ne m a b v : b + 8 <= a \/ a + 4 <= b -> ld64 (st32 m a v) b = ld64 m b.
Proof. intros. apply (ldn_stn_ne 8 4). lia. Qed.

(** Loads of equal bytes. *)
Lemma ld64_ext m m' a : (forall b, a <= b < a + 8 -> ld8 m' b = ld8 m b) -> ld64 m' a = ld64 m a.
Proof. intros H. apply ldn_ext. intros. apply H. lia. Qed.

Lemma ld16_ext m m' a : (forall b, a <= b < a + 2 -> ld8 m' b = ld8 m b) -> ld16 m' a = ld16 m a.
Proof. intros H. apply ldn_ext. intros. apply H. lia. Qed.
Lemma ld32_ext m m' a : (forall b, a <= b < a + 4 -> ld8 m' b = ld8 m b) -> ld32 m' a = ld32 m a.
Proof. intros H. apply ldn_ext. intros. apply H. lia. Qed.

#[export] Hint Resolve ld8_range ld32_range ld64_range : gemos.

(** ** Setoid reasoning *)

#[export] Instance ldn_proper n : Proper (mem_equiv ==> eq ==> eq) (ldn n).
Proof. intros m1 m2 H a ? <-. apply ldn_ext. intros; apply H. Qed.

#[export] Instance stn_proper n : Proper (mem_equiv ==> eq ==> eq ==> mem_equiv) (stn n).
Proof. intros m1 m2 H a ? <- v ? <- b. rewrite !ld8_stn. by rewrite H. Qed.

(** Storing back what a location holds changes nothing. *)
Lemma stn_ldn_same n m a : mem_equiv (stn n m a (ldn n m a)) m.
Proof.
  intros b. revert m a. induction n as [|n IH]; intros m a; cbn [stn ldn]; [done|].
  replace ((ld8 m a + 256 * ldn n m (a + 1)) / 256) with (ldn n m (a + 1))
    by (pose proof (ld8_range m a); zdm).
  rewrite (Z.mul_comm 256).
  assert (E : ldn n m (a + 1) = ldn n (st8 m a (ld8 m a + ldn n m (a + 1) * 256)) (a + 1)).
  { apply ldn_ext. intros c ?. rewrite ld8_st8. zcase; [lia | done]. }
  rewrite E at 2. rewrite IH. rewrite ld8_st8.
  zcase; [subst | done]. rewrite Z.mod_add by lia.
  apply Z.mod_small, ld8_range.
Qed.

(** A later store to the same location wins. *)
Lemma stn_stn_same n m a v w : mem_equiv (stn n (stn n m a v) a w) (stn n m a w).
Proof. intros b. rewrite !ld8_stn. by destruct (_ && _). Qed.

Lemma untouched_trans P m1 m2 m3 :
  untouched P m1 m2 -> untouched P m2 m3 -> untouched P m1 m3.
Proof. intros H1 H2 a Ha. by rewrite H2, H1. Qed.

Lemma untouched_refl P m : untouched P m m.
Proof. by intros ??. Qed.

Lemma untouched_weaken (P Q : Z -> Prop) m1 m2 :
  (forall a, P a -> Q a) -> untouched P m1 m2 -> untouched Q m1 m2.
Proof. intros HPQ H a Ha. apply H. auto. Qed.

Lemma untouched_stn (P : Z -> Prop) n m a v :
  (forall b, a <= b < a + Z.of_nat n -> P b) -> untouched P m (stn n m a v).
Proof. intros HP b Hb. apply ld8_stn_out. intros ?. by apply Hb, HP. Qed.

Lemma untouched_ldn P n m m' a :
  untouched P m m' -> (forall b, a <= b < a + Z.of_nat n -> ~ P b) ->
  ldn n m' a = ldn n m a.
Proof. intros H Hb. apply ldn_ext. intros c Hc. apply H, Hb, Hc. Qed.

#[export] Hint Resolve untouched_refl : gemos.
