(* ===== verification/Lib.v ===== *)
(** * lib.h bit macros and the memory loops of lib.c

    [set_bit], [flip_bit], [clear_bit] and [is_set] are the macros of
    include/lib.h; [bzero] and [memcpy] the byte loops of lib.c, run on the
    physical memory of [Mem]. *)
From S2P Require Import Prelude Mem.
Local Open Scope gemos_scope.

(** ** Bit macros (include/lib.h) *)

Definition set_bit (x pos : Z) : Z := x .| (1 << pos).
Definition flip_bit (x pos : Z) : Z := Z.lxor x (1 << pos).
Definition clear_bit (x pos : Z) : Z := Z.lxor x (((x >> pos) .& 1) << pos).
Definition is_set (x pos : Z) : Z := (x >> pos) .& 1.

(** ** Memory loops (lib.c) *)

(** [for(i=0;i<length;++i) ptr[i] = 0;] with [n] iterations to go. *)
Fixpoint bzero_loop (n : nat) (m : mem) (ptr i : Z) : mem :=
  match n with
  | O => m
  | S n => bzero_loop n (st8 m (ptr + i) 0) ptr (i + 1)
  end.

Definition bzero (m : mem) (ptr length : Z) : mem :=
  bzero_loop (Z.to_nat length) m ptr 0.

(** [for(ctr=0; ctr<size; ++ctr){ *d = *s; d++; s++; }]: a forward byte copy,
    which re-reads what it has already written when the ranges overlap. *)
Fixpoint memcpy_loop (n : nat) (m : mem) (d s : Z) : mem :=
  match n with
  | O => m
  | S n => memcpy_loop n (st8 m d (ld8 m s)) (d + 1) (s + 1)
  end.

Definition memcpy (m : mem) (d s size : Z) : mem :=
  memcpy_loop (Z.to_nat (u32 size)) m d s.

(** ** Lemmas *)

Lemma testbit_set_bit x pos i :
  0 <= pos -> Z.testbit (set_bit x pos) i = (i =? pos) || Z.testbit x i.
Proof.
  intros. unfold set_bit. rewrite Z.lor_spec, testbit_pow2 by lia. apply orb_comm.
Qed.

Lemma is_set_testbit x pos : 0 <= pos -> is_set x pos = Z.b2z (Z.testbit x pos).
Proof.
  intros. unfold is_set. rewrite Z.testbit_spec', <- Z.shiftr_div_pow2 by lia.
  by rewrite <- (Z.land_ones _ 1) by lia.
Qed.

Lemma testbit_clear_bit x pos i :
  0 <= pos -> 0 <= i ->
  Z.testbit (clear_bit x pos) i = negb (i =? pos) && Z.testbit x i.
Proof.
  intros Hp Hi. unfold clear_bit. fold (is_set x pos).
  rewrite is_set_testbit, Z.lxor_spec by lia.
  destruct (Z.eqb_spec i pos) as [->|Hne]; cbn.
  - rewrite Z.shiftl_spec, Z.sub_diag by lia. by destruct (Z.testbit x pos).
  - rewrite Z.shiftl_spec by lia. destruct (Z.ltb_spec i pos).
    + rewrite (Z.testbit_neg_r _ (i - pos)) by lia. apply xorb_false_r.
    + rewrite (testbit_high (Z.b2z _) 1); [apply xorb_false_r| |lia].
      destruct (Z.testbit x pos); cbv [Z.b2z]; lia.
Qed.

Lemma set_bit_range x pos n :
  0 <= x < 2^n -> 0 <= pos < n -> 0 <= set_bit x pos < 2^n.
Proof.
  intros Hx Hp. unfold set_bit. assert (0 <= Z.lor x (Z.shiftl 1 pos)).
  { apply Z.lor_nonneg. split; [lia|]. apply Z.shiftl_nonneg. lia. }
  split; [done|]. destruct (Z.eq_dec (Z.lor x (Z.shiftl 1 pos)) 0) as [->|]; [lia|].
  apply Z.log2_lt_pow2; [lia|]. rewrite Z.log2_lor by (try apply Z.shiftl_nonneg; lia).
  apply Z.max_lub_lt.
  - destruct (Z.eq_dec x 0) as [->|]; [cbn; lia|]. apply Z.log2_lt_pow2; lia.
  - rewrite Z.shiftl_1_l, Z.log2_pow2; lia.
Qed.

Lemma clear_bit_range x pos n :
  0 <= x < 2^n -> 0 <= pos < n -> 0 <= clear_bit x pos < 2^n.
Proof.
  intros Hx Hp.
  assert (E : clear_bit x pos = clear_bit x pos mod 2^n).
  { apply Z.bits_inj'. intros i Hi. destruct (Z.ltb_spec i n).
    - by rewrite Z.mod_pow2_bits_low by lia.
    - rewrite Z.mod_pow2_bits_high, testbit_clear_bit, (testbit_high x n) by lia.
      apply andb_false_r. }
  rewrite E. apply Z.mod_pos_bound. lia.
Qed.

Lemma ld8_bzero_loop n m ptr i a :
  ld8 (bzero_loop n m ptr i) a =
    if (ptr + i <=? a) && (a <? ptr + i + Z.of_nat n) then 0 else ld8 m a.
Proof.
  revert m i. induction n as [|n IH]; intros m i; cbn [bzero_loop].
  { zcase; cbn; try done; lia. }
  rewrite IH, ld8_st8. zcase; cbn; try done; lia.
Qed.

Lemma ld8_bzero m ptr len a :
  ld8 (bzero m ptr len) a = if (ptr <=? a) && (a <? ptr + len) then 0 else ld8 m a.
Proof. unfold bzero. rewrite ld8_bzero_loop. zcase; cbn; try done; lia. Qed.

Lemma ldn_zero n m a :
  (forall b, a <= b < a + Z.of_nat n -> ld8 m b = 0) -> ldn n m a = 0.
Proof.
  revert a. induction n as [|n IH]; intros a H; cbn [ldn]; [done|].
  rewrite H by lia. rewrite IH; [done|]. intros; apply H; lia.
Qed.

Lemma ldn_bzero_in n m ptr len a :
  ptr <= a -> a + Z.of_nat n <= ptr + len -> ldn n (bzero m ptr len) a = 0.
Proof.
  intros. apply ldn_zero. intros b ?. rewrite ld8_bzero. zcase; cbn; try done; lia.
Qed.

Lemma untouched_bzero (P : Z -> Prop) m ptr len :
  (forall b, ptr <= b < ptr + len -> P b) -> untouched P m (bzero m ptr len).
Proof.
  intros HP b Hb. rewrite ld8_bzero. zcase; cbn; try done.
  exfalso. apply Hb, HP. lia.
Qed.

Lemma ld8_memcpy_loop n m d s a :
  d + Z.of_nat n <= s \/ s + Z.of_nat n <= d ->
  ld8 (memcpy_loop n m d s) a =
    if (d <=? a) && (a <? d + Z.of_nat n) then ld8 m (s + (a - d)) else ld8 m a.
Proof.
  revert m d s. induction n as [|n IH]; intros m d s H; cbn [memcpy_loop].
  { zcase; cbn; try done; lia. }
  rewrite IH by lia. rewrite !ld8_st8.
  destruct (Z.eqb_spec d a) as [->|Hne].
  - rewrite Z.sub_diag, Z.add_0_r, Z.mod_small by apply ld8_range.
    zcase; cbn; try done; lia.
  - zcase; cbn; try done; try lia. f_equal. lia.
Qed.

(** For ranges that do not overlap, [memcpy] copies the source bytes and
    changes nothing else. *)
Lemma ld8_memcpy m d s size a :
  0 <= size < 2^32 -> d + size <= s \/ s + size <= d ->
  ld8 (memcpy m d s size) a =
    if (d <=? a) && (a <? d + size) then ld8 m (s + (a - d)) else ld8 m a.
Proof.
  intros. unfold memcpy. rewrite u32_small by lia.
  rewrite ld8_memcpy_loop by lia. by rewrite Z2Nat.id by lia.
Qed.

Lemma untouched_memcpy (P : Z -> Prop) m d s size :
  0 <= size < 2^32 -> (forall b, d <= b < d + size -> P b) ->
  untouched P m (memcpy m d s size).
Proof.
  intros Hs HP. unfold memcpy. rewrite u32_small by lia.
  assert (H : forall b, d <= b < d + Z.of_nat (Z.to_nat size) -> P b) by (intros; apply HP; lia).
  clear HP Hs. revert m d s H. generalize (Z.to_nat size) as n.
  induction n as [|n IH]; intros m d s H; cbn [memcpy_loop]; [apply untouched_refl|].
  eapply untouched_trans; [|apply IH; intros; apply H; lia].
  intros b Hb. rewrite ld8_st8. zcase; [|done]. subst. exfalso. apply Hb, H. lia.
Qed.
