(* ===== verification/Machine.v ===== *)
(** * The machine: physical memory and the trace of externally visible effects

    A kernel function changes memory and also acts on the world: it prints on
    the console, invalidates a TLB entry, loads CR3, acknowledges the APIC.
    These actions are recorded in order in [trace], latest first. *)
From S2P Require Import Prelude Mem.

(** An argument of a [printf] call: a number, or the text of a [%s]. *)
Inductive parg :=
| PInt (z : Z)
| PStr (s : list Z).

(** [EPrintUser] carries the characters sent on the serial line. *)
Inductive event :=
| EPrintf (fmt : string) (args : list parg)
| EPrintUser (sent : list Z)
| EInvlpg (addr : Z)
| ELoadCr3 (cr3 : Z)
| EMmio (addr v : Z)
| EClflush (addr : Z)
| ELidt (limit base : Z)
| ELgdt (limit base : Z)
| ELtr (selector : Z)
| EOutb (port v : Z)
| EInb (port v : Z)
| EUserStore (addr v : Z).

Record machine := Machine { ram : mem; trace : list event }.

Definition set_ram (m : mem) (s : machine) : machine := Machine m (trace s).
Definition emit (e : event) (s : machine) : machine := Machine (ram s) (e :: trace s).
Definition printf (fmt : string) (args : list parg) (s : machine) : machine :=
  emit (EPrintf fmt args) s.

#[export] Instance parg_eq_dec : EqDecision parg.
Proof. solve_decision. Defined.
#[export] Instance event_eq_dec : EqDecision event.
Proof. solve_decision. Defined.

Lemma ram_emit e s : ram (emit e s) = ram s.
Proof. done. Qed.
