(* ===== verification/Memory.v ===== *)
(** * memory.c: the page-frame allocator

    Three regions of physical memory, each with a bitmap of its frames stored
    at the start of the region itself ([struct page_list]). *)
From S2P Require Import Prelude Mem Lib Machine.
Local Open Scope gemos_scope.

(** ** Constants and data (include/memory.h) *)

Definition PAGE_SIZE : Z := 4096.
Definition PAGE_SHIFT : Z := 12.
Definition REGION_OS_DS_START : Z := 0x800000.
Definition REGION_OS_PT_START : Z := 0x2000000.
Definition REGION_USER_START : Z := 0x6400000.
Definition ENDMEM : Z := 0x20000000.

Inductive region := OS_DS_REG | OS_PT_REG | USER_REG.
Definition MAX_REG : Z := 3.

Definition region_id (r : region) : Z :=
  match r with OS_DS_REG => 0 | OS_PT_REG => 1 | USER_REG => 2 end.

#[export] Instance region_eq_dec : EqDecision region.
Proof. solve_decision. Defined.

Record page_list := PageList {
  pgl_type : Z;
  pgl_size : Z;
  pgl_free_pages : Z;
  pgl_last_free_pos : Z;
  pgl_start_address : Z;
  pgl_bitmap : Z
}.

(** [pglists[MAX_REG]] beside the machine. *)
Record mm := MM {
  mach : machine;
  pgl_os_ds : page_list;
  pgl_os_pt : page_list;
  pgl_user : page_list
}.

Definition pglists (s : mm) (r : region) : page_list :=
  match r with
  | OS_DS_REG => pgl_os_ds s | OS_PT_REG => pgl_os_pt s | USER_REG => pgl_user s
  end.

Definition set_pglist (r : region) (p : page_list) (s : mm) : mm :=
  match r with
  | OS_DS_REG => MM (mach s) p (pgl_os_pt s) (pgl_user s)
  | OS_PT_REG => MM (mach s) (pgl_os_ds s) p (pgl_user s)
  | USER_REG => MM (mach s) (pgl_os_ds s) (pgl_os_pt s) p
  end.

Definition mm_ram (s : mm) : mem := ram (mach s).
Definition set_mach (k : machine) (s : mm) : mm :=
  MM k (pgl_os_ds s) (pgl_os_pt s) (pgl_user s).
Definition set_mm_ram (m : mem) (s : mm) : mm := set_mach (set_ram m (mach s)) s.
Definition mm_emit (e : event) (s : mm) : mm := set_mach (emit e (mach s)) s.
Definition mm_printf (fmt : string) (args : list parg) (s : mm) : mm :=
  mm_emit (EPrintf fmt args) s.

(** ** Operations *)

Definition get_mem_region (pfn : Z) : option region :=
  let address := u64 (u32 pfn << PAGE_SHIFT) in
  if (address <? REGION_OS_DS_START) || (address >? ENDMEM) then None
  else if (address >=? REGION_OS_DS_START) && (address <? REGION_OS_PT_START) then Some OS_DS_REG
  else if (address >=? REGION_OS_PT_START) && (address <? REGION_USER_START) then Some OS_PT_REG
  else Some USER_REG.

Definition osmap (pfn : Z) : Z := u64 (pfn << PAGE_SHIFT).

(** The macros [pgl_bmap_set] and [pgl_bmap_clear]: the 32-bit word that
    holds bit [i] is read, changed and written back. *)
Definition pgl_bmap_set (m : mem) (bitmap i : Z) : mem :=
  let lword := i >> 5 in
  let bit := i - (lword << 5) in
  let p := bitmap + (lword << 2) in
  st32 m p (set_bit (ld32 m p) bit).

Definition pgl_bmap_clear (m : mem) (bitmap i : Z) : mem :=
  let lword := i >> 5 in
  let bit := i - (lword << 5) in
  let p := bitmap + (lword << 2) in
  st32 m p (clear_bit (ld32 m p) bit).

(** [for(i=0; i<pages_to_reserve; ++i) pgl_bmap_set(pgl, i);] *)
Fixpoint reserve_loop (n : nat) (m : mem) (bitmap i : Z) : mem :=
  match n with
  | O => m
  | S n => reserve_loop n (pgl_bmap_set m bitmap i) bitmap (i + 1)
  end.

(** The number of pages that the bitmap of [size] frames occupies. *)
Definition pages_to_reserve (size : Z) : Z :=
  let bytes := size >> 3 in
  if ((bytes >> PAGE_SHIFT) << PAGE_SHIFT) =? bytes
  then bytes >> PAGE_SHIFT
  else u32 ((bytes >> PAGE_SHIFT) + 1).

Definition init_pagelist (r : region) (start end_ : Z) (s : mm) : mm :=
  let size := u32 (u64 (end_ - start) >> PAGE_SHIFT) in
  let res := pages_to_reserve size in
  let m := reserve_loop (Z.to_nat res) (mm_ram s) start 0 in
  set_pglist r
    {| pgl_type := region_id r; pgl_size := size;
       pgl_free_pages := u32 (size - res);
       pgl_last_free_pos := res >> 5;
       pgl_start_address := start; pgl_bitmap := start |}
    (set_mm_ram m s).

Definition init_pagelists (s : mm) : mm :=
  init_pagelist USER_REG REGION_USER_START ENDMEM
    (init_pagelist OS_PT_REG REGION_OS_PT_START REGION_USER_START
      (init_pagelist OS_DS_REG REGION_OS_DS_START REGION_OS_PT_START s)).

(** The [while] loop of [get_free_page]; it ends with fuel
    [size_in_u32 - last_free_pos] ([scan_spec]). *)
Fixpoint scan (fuel : nat) (m : mem) (size_in_u32 scanner last_free_pos : Z) : Z * Z :=
  match fuel with
  | O => (scanner, last_free_pos)
  | S fuel =>
      if (ld32 m scanner =? 0xffffffff) && (last_free_pos <? size_in_u32)
      then scan fuel m size_in_u32 (scanner + 4) (u32 (last_free_pos + 1))
      else (scanner, last_free_pos)
  end.

(** The [for] loop of [get_free_page] over the 32 bits of the word scanned: it
    stops at the first clear bit, and at 32 when there is none. *)
Fixpoint first_clear (n : nat) (w bit : Z) : Z :=
  match n with
  | O => bit
  | S n => if is_set w bit =? 0 then bit else first_clear n w (bit + 1)
  end.

Definition set_last_free_pos (p : page_list) (v : Z) : page_list :=
  PageList (pgl_type p) (pgl_size p) (pgl_free_pages p) v (pgl_start_address p) (pgl_bitmap p).
Definition set_free_pages (p : page_list) (v : Z) : page_list :=
  PageList (pgl_type p) (pgl_size p) v (pgl_last_free_pos p) (pgl_start_address p) (pgl_bitmap p).

Definition get_free_page (pgl : page_list) (m : mem) : Z * page_list * mem :=
  let size_in_u32 := pgl_size pgl >> 8 in
  let scanner := pgl_bitmap pgl + 4 * pgl_last_free_pos pgl in
  let '(scanner, last) :=
    scan (S (Z.to_nat size_in_u32)) m size_in_u32 scanner (pgl_last_free_pos pgl) in
  let '(scanner, last) :=
    if last >=? size_in_u32 then (pgl_bitmap pgl + 0, 0) else (scanner, last) in
  let bit := first_clear 32 (ld32 m scanner) 0 in
  let pfn := u32 ((last << 5) + bit) in
  let m := pgl_bmap_set m (pgl_bitmap pgl) pfn in
  let pfn := u32 (pfn + (pgl_start_address pgl >> PAGE_SHIFT)) in
  (pfn, set_free_pages (set_last_free_pos pgl last) (u32 (pgl_free_pages pgl - 1)), m).

Definition os_pfn_alloc (r : region) (s : mm) : Z * mm :=
  let pgl := pglists s r in
  if pgl_free_pages pgl <=? 0 then
    (0, mm_printf "Opps.. out of memory for region %d\n" [PInt (region_id r)] s)
  else
    let '(pfn, pgl, m) := get_free_page pgl (mm_ram s) in
    let s := set_pglist r pgl (set_mm_ram m s) in
    if decide (r = OS_PT_REG) then
      let addr := u64 (pfn << PAGE_SHIFT) in
      (pfn, set_mm_ram (bzero (mm_ram s) addr PAGE_SIZE) s)
    else (pfn, s).

Definition os_page_alloc (r : region) (s : mm) : Z * mm :=
  let '(pfn, s) := os_pfn_alloc r s in (u64 (pfn << PAGE_SHIFT), s).

Definition os_page_free (r : region) (paddress : Z) (s : mm) : mm :=
  let pgl := pglists s r in
  let pfn := u32 (u64 (paddress - pgl_start_address pgl) >> PAGE_SHIFT) in
  if (paddress <=? pgl_start_address pgl)
     || (paddress >=? u64 (pgl_start_address pgl + u32 (pgl_size pgl << 12)))
  then mm_printf "Opps.. free address not in region %d\n" [PInt (region_id r)] s
  else
    set_pglist r (set_free_pages pgl (u32 (pgl_free_pages pgl + 1)))
      (set_mm_ram (pgl_bmap_clear (mm_ram s) (pgl_bitmap pgl) pfn) s).

Definition os_pfn_free (r : region) (pfn : Z) (s : mm) : mm :=
  os_page_free r (u64 (pfn << PAGE_SHIFT)) s.

Definition get_free_pages_region (r : Z) (s : mm) : Z :=
  if r =? region_id OS_DS_REG then s32 (pgl_free_pages (pgl_os_ds s))
  else if r =? region_id OS_PT_REG then s32 (pgl_free_pages (pgl_os_pt s))
  else if r =? region_id USER_REG then s32 (pgl_free_pages (pgl_user s))
  else -1.

(** ** The bitmap as a set of allocated frames *)

(** Bit [i] of the bitmap at [bm]. *)
Definition page_bit (m : mem) (bm i : Z) : bool :=
  Z.testbit (ld32 m (bm + 4 * (i / 32))) (i mod 32).

(** The abstract state of a region: the indices of its allocated frames. *)
Definition allocated (m : mem) (p : page_list) : gset Z :=
  list_to_set (filter (fun i => page_bit m (pgl_bitmap p) i = true) (seqZ 0 (pgl_size p))).

(** The 4 bytes of the bitmap word of bit [i]. *)
Definition bitmap_word (bm i a : Z) : Prop := bm + 4 * (i / 32) <= a < bm + 4 * (i / 32) + 4.

Lemma elem_of_allocated m p i :
  i ∈ allocated m p <-> 0 <= i < pgl_size p /\ page_bit m (pgl_bitmap p) i = true.
Proof.
  unfold allocated. rewrite elem_of_list_to_set, list_elem_of_filter, elem_of_seqZ.
  rewrite Z.add_0_l. tauto.
Qed.

Lemma pgl_bmap_set_eq m bm i :
  0 <= i ->
  pgl_bmap_set m bm i =
    st32 m (bm + 4 * (i / 32)) (set_bit (ld32 m (bm + 4 * (i / 32))) (i mod 32)).
Proof.
  intros. unfold pgl_bmap_set.
  rewrite Z.shiftr_div_pow2, !Z.shiftl_mul_pow2 by lia. change (2^5) with 32. change (2^2) with 4.
  replace (i - i / 32 * 32) with (i mod 32) by zdm. by rewrite (Z.mul_comm _ 4).
Qed.

Lemma pgl_bmap_clear_eq m bm i :
  0 <= i ->
  pgl_bmap_clear m bm i =
    st32 m (bm + 4 * (i / 32)) (clear_bit (ld32 m (bm + 4 * (i / 32))) (i mod 32)).
Proof.
  intros. unfold pgl_bmap_clear.
  rewrite Z.shiftr_div_pow2, !Z.shiftl_mul_pow2 by lia. change (2^5) with 32. change (2^2) with 4.
  replace (i - i / 32 * 32) with (i mod 32) by zdm. by rewrite (Z.mul_comm _ 4).
Qed.

(** A store of a whole bitmap word, seen through [page_bit]. *)
Lemma page_bit_st32 m bm k w j :
  0 <= w < 2^32 -> 0 <= j ->
  page_bit (st32 m (bm + 4 * k) w) bm j =
    if j / 32 =? k then Z.testbit w (j mod 32) else page_bit m bm j.
Proof.
  intros Hw Hj. unfold page_bit. destruct (Z.eqb_spec (j / 32) k) as [->|Hne].
  - by rewrite ld32_st32_eq.
  - rewrite ld32_st32_ne by lia. done.
Qed.

Lemma page_bit_bmap_set m bm i j :
  0 <= i -> 0 <= j ->
  page_bit (pgl_bmap_set m bm i) bm j = (j =? i) || page_bit m bm j.
Proof.
  intros Hi Hj. rewrite pgl_bmap_set_eq, page_bit_st32 by
    (try apply set_bit_range; try apply ld32_range; try zdm; done).
  destruct (Z.eqb_spec (j / 32) (i / 32)) as [E|E].
  - rewrite testbit_set_bit by zdm. unfold page_bit. rewrite <- E. f_equal.
    zcase; try done; zdm.
  - zcase; [subst; done | done].
Qed.

Lemma page_bit_bmap_clear m bm i j :
  0 <= i -> 0 <= j ->
  page_bit (pgl_bmap_clear m bm i) bm j = negb (j =? i) && page_bit m bm j.
Proof.
  intros Hi Hj. rewrite pgl_bmap_clear_eq, page_bit_st32 by
    (try apply clear_bit_range; try apply ld32_range; try zdm; done).
  destruct (Z.eqb_spec (j / 32) (i / 32)) as [E|E].
  - rewrite testbit_clear_bit by zdm. unfold page_bit. rewrite <- E. do 2 f_equal.
    zcase; try done; zdm.
  - zcase; [subst; done | done].
Qed.

Lemma untouched_bmap_set m bm i :
  0 <= i -> untouched (bitmap_word bm i) m (pgl_bmap_set m bm i).
Proof. intros. rewrite pgl_bmap_set_eq by done. apply (untouched_stn _ 4). done. Qed.

Lemma untouched_bmap_clear m bm i :
  0 <= i -> untouched (bitmap_word bm i) m (pgl_bmap_clear m bm i).
Proof. intros. rewrite pgl_bmap_clear_eq by done. apply (untouched_stn _ 4). done. Qed.

Lemma allocated_bmap_set m p i lf fp :
  0 <= i < pgl_size p ->
  allocated (pgl_bmap_set m (pgl_bitmap p) i) (set_free_pages (set_last_free_pos p lf) fp)
    = {[i]} ∪ allocated m p.
Proof.
  intros Hi. apply set_eq. intros j.
  rewrite elem_of_union, elem_of_singleton, !elem_of_allocated.
  cbn [pgl_bitmap pgl_size set_free_pages set_last_free_pos].
  destruct (decide (0 <= j)); [|split; [lia | intros [->|?]; lia]].
  rewrite page_bit_bmap_set by lia. rewrite orb_true_iff, Z.eqb_eq.
  intuition (subst; lia || done).
Qed.

Lemma allocated_bmap_clear m p i fp :
  0 <= i -> allocated (pgl_bmap_clear m (pgl_bitmap p) i) (set_free_pages p fp)
    = allocated m p ∖ {[i]}.
Proof.
  intros Hi. apply set_eq. intros j.
  rewrite elem_of_difference, elem_of_singleton, !elem_of_allocated.
  cbn [pgl_bitmap pgl_size set_free_pages set_last_free_pos].
  destruct (decide (0 <= j)); [|intuition lia].
  rewrite page_bit_bmap_clear by lia.
  rewrite andb_true_iff, negb_true_iff, Z.eqb_neq. intuition (subst; lia || done).
Qed.

(** ** The scan *)

Lemma scan_spec fuel m lim bm last :
  0 <= last < 2^32 - 1 -> lim < 2^32 - 1 -> lim - last < Z.of_nat fuel ->
  exists last',
    scan fuel m lim (bm + 4 * last) last = (bm + 4 * last', last') /\
    last <= last' <= Z.max last lim /\
    (forall w, last <= w < last' -> ld32 m (bm + 4 * w) = 0xffffffff) /\
    (last' < lim -> ld32 m (bm + 4 * last') <> 0xffffffff).
Proof.
  revert last. induction fuel as [|fuel IH]; intros last Hl Hlim Hf; cbn [scan].
  { exists last. repeat split; intros; try lia; done. }
  destruct (Z.eqb_spec (ld32 m (bm + 4 * last)) 0xffffffff) as [E|E]; cbn.
  2:{ exists last. repeat split; intros; try lia; done. }
  destruct (Z.ltb_spec last lim) as [Hlt|Hge]; cbn.
  2:{ exists last. repeat split; intros; try lia; done. }
  rewrite u32_small by lia. replace (bm + 4 * last + 4) with (bm + 4 * (last + 1)) by lia.
  destruct (IH (last + 1)) as (l' & -> & Hr & Hall & Hend); [lia..|].
  exists l'. repeat split; try lia; [|done].
  intros w Hw. destruct (Z.eq_dec w last) as [->|]; [done|]. apply Hall. lia.
Qed.

Lemma first_clear_spec n w bit :
  0 <= bit ->
  bit <= first_clear n w bit <= bit + Z.of_nat n /\
  (forall j, bit <= j < first_clear n w bit -> Z.testbit w j = true) /\
  (first_clear n w bit < bit + Z.of_nat n -> Z.testbit w (first_clear n w bit) = false).
Proof.
  revert bit. induction n as [|n IH]; intros bit Hb; cbn [first_clear].
  { repeat split; intros; lia. }
  rewrite is_set_testbit by done. destruct (Z.testbit w bit) eqn:E; cbn.
  - destruct (IH (bit + 1)) as (Hr & Hall & Hend); [lia|]. repeat split; try lia.
    + intros j Hj. destruct (Z.eq_dec j bit) as [->|]; [done|]. apply Hall. lia.
    + intros. apply Hend. lia.
  - repeat split; try lia. done.
Qed.

Lemma first_clear_full : first_clear 32 0xffffffff 0 = 32.
Proof. done. Qed.

Lemma word_full_bits m bm w j :
  ld32 m (bm + 4 * w) = 0xffffffff -> 32 * w <= j < 32 * w + 32 -> page_bit m bm j = true.
Proof.
  intros E Hj. unfold page_bit. replace (j / 32) with w by zdm. rewrite E.
  change 0xffffffff with (Z.ones 32). apply Z.ones_spec_low. zdm.
Qed.

Lemma bits_word_full m bm w :
  0 <= w -> (forall j, 32 * w <= j < 32 * w + 32 -> page_bit m bm j = true) ->
  ld32 m (bm + 4 * w) = 0xffffffff.
Proof.
  intros Hw H. apply (testbit_all_ones _ 32); [lia | apply ld32_range |].
  intros i Hi. specialize (H (32 * w + i) ltac:(lia)). unfold page_bit in H.
  replace ((32 * w + i) / 32) with w in H by zdm.
  by replace ((32 * w + i) mod 32) with i in H by zdm.
Qed.

(** ** The invariant of a page list *)

(** Shape of a page list, which no operation changes except for the position
    of the next scan. *)
Record pgl_geom (p : page_list) : Prop := {
  geom_bitmap : pgl_bitmap p = pgl_start_address p;
  geom_start : 0 < pgl_start_address p /\ pgl_start_address p mod 4096 = 0;
  geom_size : 512 <= pgl_size p /\ pgl_size p mod 32 = 0;
  geom_end : pgl_start_address p + 4096 * pgl_size p <= 2^32;
  geom_last : 0 <= pgl_last_free_pos p < pgl_size p / 256
}.

(** The invariant: the free count is the number of clear bits, and the frames
    of the bitmap itself are marked allocated. *)
Record pgl_inv (m : mem) (p : page_list) : Prop := {
  inv_geom : pgl_geom p;
  inv_count : pgl_free_pages p = pgl_size p - Z.of_nat (size (allocated m p));
  inv_reserved : forall i, 0 <= i < pages_to_reserve (pgl_size p) ->
                 page_bit m (pgl_bitmap p) i = true
}.

(** The bits that [get_free_page] can reach: the words from the last position
    up to [size >> 8]. *)
Definition in_window (p : page_list) (i : Z) : Prop :=
  32 * pgl_last_free_pos p <= i < 32 * (pgl_size p / 256).

Definition window_has_free (m : mem) (p : page_list) : Prop :=
  exists i, in_window p i /\ page_bit m (pgl_bitmap p) i = false.

Lemma pages_to_reserve_spec n :
  8 <= n < 2^32 ->
  1 <= pages_to_reserve n /\
  4096 * (pages_to_reserve n - 1) < n / 8 <= 4096 * pages_to_reserve n.
Proof.
  intros H. unfold pages_to_reserve, PAGE_SHIFT.
  rewrite !shiftr_12, shiftl_12, !Z.shiftr_div_pow2 by lia. change (2^3) with 8.
  destruct (Z.eqb_spec (n / 8 / 4096 * 4096) (n / 8)); [zdm|].
  rewrite u32_small by zdm. zdm.
Qed.

Section page_list.
Context (m : mem) (p : page_list) (Hgeom : pgl_geom p).

Lemma allocated_bounded : Z.of_nat (size (allocated m p)) <= pgl_size p.
Proof.
  destruct Hgeom as [_ _ [Hs _] _ _].
  assert (H : allocated m p ⊆ list_to_set (seqZ 0 (pgl_size p))).
  { intros i. rewrite elem_of_allocated, elem_of_list_to_set, elem_of_seqZ. lia. }
  apply subseteq_size in H. rewrite size_list_to_set in H by apply NoDup_seqZ.
  rewrite length_seqZ in H. lia.
Qed.

(** The bitmap word of any frame lies in the reserved frames. *)
Lemma bitmap_word_reserved i a :
  0 <= i < pgl_size p -> bitmap_word (pgl_bitmap p) i a ->
  pgl_start_address p <= a < pgl_start_address p + 4096 * pages_to_reserve (pgl_size p).
Proof.
  destruct Hgeom as [Hb Hst [Hs Hs32] He _]. unfold bitmap_word. rewrite Hb. intros Hi Ha.
  destruct (pages_to_reserve_spec (pgl_size p)) as (_ & _ & H); [lia|]. zdm.
Qed.

(** Next-fit: [get_free_page] takes the first clear bit of the window. *)
Lemma get_free_page_window :
  window_has_free m p ->
  exists i, in_window p i /\ page_bit m (pgl_bitmap p) i = false /\
    (forall j, 32 * pgl_last_free_pos p <= j < i -> page_bit m (pgl_bitmap p) j = true) /\
    get_free_page p m =
      (i + pgl_start_address p / 4096,
       set_free_pages (set_last_free_pos p (i / 32)) (u32 (pgl_free_pages p - 1)),
       pgl_bmap_set m (pgl_bitmap p) i).
Proof.
  destruct Hgeom as [Hb Hst [Hs Hs32] He Hl]. intros (i0 & [Hi0l Hi0h] & Hfree).
  unfold get_free_page. rewrite Z.shiftr_div_pow2 by lia. change (2^8) with 256.
  destruct (scan_spec (S (Z.to_nat (pgl_size p / 256))) m (pgl_size p / 256)
    (pgl_bitmap p) (pgl_last_free_pos p)) as (l & -> & Hr & Hfull & Hend); [zdm..|].
  assert (Hlt : l < pgl_size p / 256).
  { destruct (Z.lt_ge_cases l (pgl_size p / 256)); [done|].
    rewrite (word_full_bits m _ (i0 / 32)) in Hfree; [done | apply Hfull; zdm | zdm]. }
  rewrite Z.geb_leb. destruct (Z.leb_spec (pgl_size p / 256) l); [lia|].
  specialize (Hend Hlt). set (w := ld32 m (pgl_bitmap p + 4 * l)) in *.
  destruct (first_clear_spec 32 w 0) as (Hbr & Hbset & Hbclr); [lia|].
  set (b := first_clear 32 w 0) in *.
  assert (Hb32 : b < 32).
  { destruct (Z.lt_ge_cases b 32); [done|]. exfalso. apply Hend.
    apply (testbit_all_ones w 32); [lia | apply ld32_range |]. intros; apply Hbset; lia. }
  rewrite Z.shiftl_mul_pow2 by lia. change (2^5) with 32.
  rewrite (u32_small (l * 32 + b)) by zdm. unfold PAGE_SHIFT. rewrite shiftr_12.
  rewrite u32_small by zdm. exists (l * 32 + b). repeat split.
  - lia.
  - lia.
  - unfold page_bit. replace ((l * 32 + b) / 32) with l by zdm.
    replace ((l * 32 + b) mod 32) with b by zdm. apply Hbclr. lia.
  - intros j Hj. destruct (Z.lt_ge_cases j (32 * l)).
    + apply (word_full_bits _ _ (j / 32)); [apply Hfull; zdm | zdm].
    + unfold page_bit. replace (j / 32) with l by zdm. apply Hbset. zdm.
  - by replace ((l * 32 + b) / 32) with l by zdm.
Qed.

(** Out of the window: when the first eighth of the bitmap is full, the
    scan restarts at word 0, finds no clear bit and stops at bit 32. *)
Lemma get_free_page_exhausted :
  (forall i, 0 <= i < 32 * (pgl_size p / 256) -> page_bit m (pgl_bitmap p) i = true) ->
  get_free_page p m =
    (32 + pgl_start_address p / 4096,
     set_free_pages (set_last_free_pos p 0) (u32 (pgl_free_pages p - 1)),
     pgl_bmap_set m (pgl_bitmap p) 32).
Proof.
  destruct Hgeom as [Hb Hst [Hs Hs32] He Hl]. intros Hall.
  assert (Hw : forall w, 0 <= w < pgl_size p / 256 ->
    ld32 m (pgl_bitmap p + 4 * w) = 0xffffffff).
  { intros w Hw. apply bits_word_full; [lia|]. intros; apply Hall; lia. }
  unfold get_free_page. rewrite Z.shiftr_div_pow2 by lia. change (2^8) with 256.
  destruct (scan_spec (S (Z.to_nat (pgl_size p / 256))) m (pgl_size p / 256)
    (pgl_bitmap p) (pgl_last_free_pos p)) as (l & -> & Hr & Hfull & Hend); [zdm..|].
  rewrite Z.geb_leb. destruct (Z.leb_spec (pgl_size p / 256) l).
  2:{ exfalso. apply Hend; [lia|]. apply Hw. lia. }
  specialize (Hw 0 ltac:(zdm)). rewrite Z.mul_0_r in Hw. rewrite Hw, first_clear_full.
  change (u32 (Z.shiftl 0 5 + 32)) with 32. unfold PAGE_SHIFT. rewrite shiftr_12.
  rewrite u32_small by zdm. done.
Qed.
End page_list.

(** A call that finds a free frame keeps the invariant and adds exactly that
    frame to the allocated ones. *)
Lemma pgl_inv_alloc m p i :
  pgl_inv m p -> in_window p i -> page_bit m (pgl_bitmap p) i = false ->
  let p' := set_free_pages (set_last_free_pos p (i / 32)) (u32 (pgl_free_pages p - 1)) in
  let m' := pgl_bmap_set m (pgl_bitmap p) i in
  pgl_inv m' p' /\ allocated m' p' = {[i]} ∪ allocated m p /\ (i ∉ allocated m p) /\
  pgl_free_pages p' = pgl_free_pages p - 1.
Proof.
  intros [Hg Hc Hres] [Hl Hh] Hbit p' m'.
  pose proof (allocated_bounded m p Hg) as Hbd. destruct Hg as [Hb Hst [Hs Hs32] He Hlast].
  assert (Hi : 0 <= i < pgl_size p) by zdm.
  assert (Hni : i ∉ allocated m p) by (rewrite elem_of_allocated, Hbit; intros [_ ?]; done).
  assert (Ha : allocated m' p' = {[i]} ∪ allocated m p) by (apply allocated_bmap_set; lia).
  assert (Hsz : size (allocated m' p') = S (size (allocated m p))).
  { rewrite Ha, size_union, size_singleton by set_solver. lia. }
  pose proof (allocated_bounded m' p') as Hbd'. change (pgl_size p') with (pgl_size p) in Hbd'.
  assert (Hg' : pgl_geom p') by (split; [done.. | cbn; zdm]).
  specialize (Hbd' Hg').
  assert (Hfp : pgl_free_pages p' = pgl_free_pages p - 1) by (cbn; apply u32_small; lia).
  split; [|done]. split; [done | |].
  - rewrite Hfp, Hsz. cbn. lia.
  - intros j Hj. cbn [p' pgl_bitmap set_free_pages set_last_free_pos]. unfold m'.
    rewrite page_bit_bmap_set, Hres by (try done; lia). apply orb_true_r.
Qed.

(** Freeing an allocated frame that is not one of the bitmap's. *)
Lemma pgl_inv_free m p i :
  pgl_inv m p -> pages_to_reserve (pgl_size p) <= i -> i ∈ allocated m p ->
  let p' := set_free_pages p (u32 (pgl_free_pages p + 1)) in
  let m' := pgl_bmap_clear m (pgl_bitmap p) i in
  pgl_inv m' p' /\ allocated m' p' = allocated m p ∖ {[i]} /\
  pgl_free_pages p' = pgl_free_pages p + 1.
Proof.
  intros [Hg Hc Hres] Hi Hin p' m'.
  pose proof (proj1 (elem_of_allocated _ _ _) Hin) as [Hir Hbit].
  assert (Ha : allocated m' p' = allocated m p ∖ {[i]}) by (apply allocated_bmap_clear; lia).
  assert (Hsz : size (allocated m p) = S (size (allocated m' p'))).
  { rewrite Ha, size_difference, size_singleton by set_solver.
    assert (size (allocated m p) <> 0%nat) by (intros E; apply size_empty_inv in E; set_solver). lia. }
  pose proof (allocated_bounded m p Hg). destruct Hg as [Hb Hst [Hs Hs32] He Hlast].
  assert (Hfp : pgl_free_pages p' = pgl_free_pages p + 1) by (cbn; apply u32_small; lia).
  split; [|done]. split; [done | |].
  - rewrite Hfp. cbn [p' pgl_size set_free_pages]. lia.
  - intros j Hj. cbn [p' pgl_bitmap pgl_size set_free_pages] in *. unfold m'.
    rewrite page_bit_bmap_clear, Hres by (try done; lia). zcase; [lia | done].
Qed.

(** ** Reachable free frames *)

(** The free frames of the window: those the next calls can hand out. *)
Definition avail (m : mem) (p : page_list) : gset Z :=
  list_to_set (filter (fun i => page_bit m (pgl_bitmap p) i = false)
    (seqZ (32 * pgl_last_free_pos p) (32 * (pgl_size p / 256) - 32 * pgl_last_free_pos p))).

Lemma elem_of_avail m p i :
  i ∈ avail m p <-> in_window p i /\ page_bit m (pgl_bitmap p) i = false.
Proof.
  unfold avail, in_window. rewrite elem_of_list_to_set, list_elem_of_filter, elem_of_seqZ.
  intuition lia.
Qed.

Lemma window_has_free_avail m p : size (avail m p) <> 0%nat -> window_has_free m p.
Proof.
  intros H. destruct (set_choose_L (avail m p)) as [i Hi].
  { intros E. by rewrite E, size_empty in H. }
  exists i. by apply elem_of_avail.
Qed.

(** Taking the first clear bit of the window removes only that one. *)
Lemma avail_alloc m p i fp :
  0 <= pgl_last_free_pos p -> in_window p i ->
  (forall j, 32 * pgl_last_free_pos p <= j < i -> page_bit m (pgl_bitmap p) j = true) ->
  avail (pgl_bmap_set m (pgl_bitmap p) i) (set_free_pages (set_last_free_pos p (i / 32)) fp)
    = avail m p ∖ {[i]}.
Proof.
  intros Hl [Hil Hih] Hall. apply set_eq. intros j.
  rewrite elem_of_difference, elem_of_singleton, !elem_of_avail. unfold in_window.
  cbn [pgl_bitmap pgl_size pgl_last_free_pos set_free_pages set_last_free_pos].
  destruct (Z.lt_ge_cases j 0).
  { split; intros; exfalso; destruct_and?; zdm. }
  rewrite page_bit_bmap_set by lia. rewrite orb_false_iff, Z.eqb_neq.
  destruct (Z.lt_ge_cases j i).
  - split; [intuition zdm|]. intros ([Hw Hb] & _). rewrite Hall in Hb by lia. done.
  - intuition zdm.
Qed.

Lemma page_bit_untouched P m m' bm i :
  untouched P m m' -> (forall a, bitmap_word bm i a -> ~ P a) ->
  page_bit m' bm i = page_bit m bm i.
Proof.
  intros Hu HP. unfold page_bit, ld32. by rewrite (untouched_ldn P 4 m m') by done.
Qed.

(** Stores outside the reserved frames do not disturb a page list. *)
Lemma pgl_inv_untouched P m m' p :
  pgl_inv m p -> untouched P m m' ->
  (forall a, pgl_start_address p <= a < pgl_start_address p + 4096 * pages_to_reserve (pgl_size p)
     -> ~ P a) ->
  pgl_inv m' p /\ allocated m' p = allocated m p /\ avail m' p = avail m p.
Proof.
  intros [Hg Hc Hr] Hu HP. destruct (geom_size p Hg) as [Hs Hs32].
  pose proof (geom_end p Hg). pose proof (geom_start p Hg). pose proof (geom_last p Hg).
  destruct (pages_to_reserve_spec (pgl_size p)) as (_ & ? & ?); [lia|].
  assert (Hb : forall i, 0 <= i < pgl_size p ->
    page_bit m' (pgl_bitmap p) i = page_bit m (pgl_bitmap p) i).
  { intros i Hi. apply (page_bit_untouched P); [done|].
    intros a Ha. apply HP. by apply (bitmap_word_reserved p Hg i). }
  assert (Ha : allocated m' p = allocated m p).
  { apply set_eq. intros i. rewrite !elem_of_allocated.
    split; intros [Hi Hbit]; (split; [done|]); by rewrite <- Hbit, Hb. }
  split_and!; [split; [done | by rewrite Ha |] | done |].
  - intros i Hi. rewrite Hb by zdm. by apply Hr.
  - apply set_eq. intros i. rewrite !elem_of_avail. unfold in_window.
    split; intros [Hi Hbit]; (split; [done|]); by rewrite <- Hbit, Hb by zdm.
Qed.

(** ** The three regions *)

Definition region_start (r : region) : Z :=
  match r with
  | OS_DS_REG => REGION_OS_DS_START | OS_PT_REG => REGION_OS_PT_START | USER_REG => REGION_USER_START
  end.

Definition region_end (r : region) : Z :=
  match r with
  | OS_DS_REG => REGION_OS_PT_START | OS_PT_REG => REGION_USER_START | USER_REG => ENDMEM
  end.

Definition region_frames (r : region) : Z := (region_end r - region_start r) / 4096.

(** First frame of a region, and first one after those of its bitmap. *)
Definition region_pfn (r : region) : Z := region_start r / 4096.
Definition region_first (r : region) : Z := region_pfn r + pages_to_reserve (region_frames r).

(** The addresses of the bitmap frames of a region, and those of a frame. *)
Definition bitmap_area (r : region) (a : Z) : Prop :=
  region_start r <= a < 4096 * region_first r.
Definition in_frame (pfn a : Z) : Prop := 4096 * pfn <= a < 4096 * pfn + 4096.

Definition mm_inv (s : mm) : Prop :=
  forall r, pgl_inv (mm_ram s) (pglists s r)
    /\ pgl_start_address (pglists s r) = region_start r
    /\ pgl_size (pglists s r) = region_frames r.

(** [owned s r pfn]: the frame has been handed out by region [r]. *)
Definition owned (s : mm) (r : region) (pfn : Z) : Prop :=
  region_first r <= pfn /\ pfn - region_pfn r ∈ allocated (mm_ram s) (pglists s r).

(** How many allocations from [r] are sure to find a free frame. *)
Definition available (s : mm) (r : region) : nat := size (avail (mm_ram s) (pglists s r)).

(** The numbers of the three regions: start address and frame, number of
    frames, frames of the bitmap, first frame after them. *)
Lemma region_numbers :
  [region_start OS_DS_REG; region_pfn OS_DS_REG; region_frames OS_DS_REG;
   pages_to_reserve (region_frames OS_DS_REG); region_first OS_DS_REG]
    = [0x800000; 2048; 6144; 1; 2049] /\
  [region_start OS_PT_REG; region_pfn OS_PT_REG; region_frames OS_PT_REG;
   pages_to_reserve (region_frames OS_PT_REG); region_first OS_PT_REG]
    = [0x2000000; 8192; 17408; 1; 8193] /\
  [region_start USER_REG; region_pfn USER_REG; region_frames USER_REG;
   pages_to_reserve (region_frames USER_REG); region_first USER_REG]
    = [0x6400000; 25600; 105472; 4; 25604].
Proof. done. Qed.

(** [region_nums r] replaces the quantities of region [r] by numbers. *)
Ltac region_num_with r a b c d e :=
  change (region_start r) with a in *; change (region_pfn r) with b in *;
  change (pages_to_reserve (region_frames r)) with d in *;
  change (region_frames r) with c in *; change (region_first r) with e in *.
Ltac region_nums r :=
  destruct r;
  [ region_num_with OS_DS_REG 0x800000 2048 6144 1 2049
  | region_num_with OS_PT_REG 0x2000000 8192 17408 1 8193
  | region_num_with USER_REG 0x6400000 25600 105472 4 25604 ].

Ltac regions :=
  repeat match goal with r : region |- _ => destruct r end;
  cbn [region_start region_end] in *;
  unfold REGION_OS_DS_START, REGION_OS_PT_START, REGION_USER_START, ENDMEM in *.

Lemma region_bounds r :
  0 < region_start r /\ region_start r = 4096 * region_pfn r /\
  region_pfn r < region_first r < region_pfn r + region_frames r /\
  region_end r = 4096 * (region_pfn r + region_frames r) /\ region_end r <= 2^29.
Proof. destruct r; vm_compute; repeat split; congruence. Qed.

Lemma regions_disjoint r1 r2 a :
  region_start r1 <= a < region_end r1 -> region_start r2 <= a < region_end r2 -> r1 = r2.
Proof. intros. regions; try done; exfalso; lia. Qed.

Lemma pglists_set_pglist r p s r' :
  pglists (set_pglist r p s) r' = if decide (r' = r) then p else pglists s r'.
Proof. by destruct r, r'. Qed.

Lemma mm_ram_set_pglist r p s : mm_ram (set_pglist r p s) = mm_ram s.
Proof. by destruct r. Qed.

Lemma mm_ram_set_mm_ram m s : mm_ram (set_mm_ram m s) = m.
Proof. done. Qed.

Lemma owned_range s r pfn :
  mm_inv s -> owned s r pfn -> region_first r <= pfn < region_pfn r + region_frames r.
Proof.
  intros Hinv [Hl Ha]. destruct (Hinv r) as (_ & _ & Hs).
  apply elem_of_allocated in Ha as [Ha _]. lia.
Qed.

(** Frames of different regions, and bitmaps and owned frames, do not meet. *)
Lemma frame_not_bitmap r r' pfn a :
  region_first r <= pfn < region_pfn r + region_frames r -> in_frame pfn a -> ~ bitmap_area r' a.
Proof.
  unfold in_frame, bitmap_area. intros Hp Ha Hb.
  pose proof (region_bounds r). pose proof (region_bounds r').
  assert (r = r') as <- by (apply (regions_disjoint r r' a); lia). lia.
Qed.

Lemma in_frame_bitmap s r r' pfn a :
  mm_inv s -> region_first r <= pfn < region_pfn r + region_frames r ->
  in_frame pfn a -> ~ bitmap_area r' a.
Proof. intros _. apply frame_not_bitmap. Qed.

(** Memory outside the bitmaps may change freely. *)
Lemma mm_inv_untouched P s m' :
  mm_inv s -> untouched P (mm_ram s) m' -> (forall r a, P a -> ~ bitmap_area r a) ->
  let s' := set_mm_ram m' s in
  mm_inv s' /\ (forall r pfn, owned s' r pfn <-> owned s r pfn) /\
  (forall r, available s' r = available s r).
Proof.
  intros Hinv Hu HP s'.
  assert (H : forall r, pgl_inv m' (pglists s r) /\
    allocated m' (pglists s r) = allocated (mm_ram s) (pglists s r) /\
    avail m' (pglists s r) = avail (mm_ram s) (pglists s r)).
  { intros r. destruct (Hinv r) as (Hi & Hst & Hs). apply (pgl_inv_untouched P); [done..|].
    rewrite Hst, Hs. intros a Ha Hpa. apply (HP r a Hpa). unfold bitmap_area.
    pose proof (region_bounds r). unfold region_first. lia. }
  assert (Hpg : forall r, pglists s' r = pglists s r) by (by intros []).
  split_and!.
  - intros r. rewrite Hpg. destruct (H r) as (Hi & _). by destruct (Hinv r) as (_ & ? & ?).
  - intros r pfn. unfold owned. rewrite Hpg. change (mm_ram s') with m'.
    by destruct (H r) as (_ & -> & _).
  - intros r. unfold available. rewrite Hpg. change (mm_ram s') with m'.
    by destruct (H r) as (_ & _ & ->).
Qed.

(** What an allocation that finds a free frame guarantees. *)
Record alloc_post (r : region) (s : mm) (pfn : Z) (s' : mm) : Prop := {
  ap_inv : mm_inv s';
  ap_fresh : ~ owned s r pfn;
  ap_range : region_first r <= pfn < region_pfn r + region_frames r;
  ap_owned : forall r' q, owned s' r' q <-> owned s r' q \/ (r' = r /\ q = pfn);
  ap_avail : forall r', available s r' =
               if decide (r' = r) then S (available s' r') else available s' r';
  ap_zero : r = OS_PT_REG -> forall a, in_frame pfn a -> ld8 (mm_ram s') a = 0;
  ap_ram : untouched (fun a => bitmap_area r a \/ r = OS_PT_REG /\ in_frame pfn a)
             (mm_ram s) (mm_ram s');
  ap_trace : trace (mach s') = trace (mach s)
}.

(** The state right after [get_free_page], before the page is cleared. *)
Lemma get_free_page_post r s :
  mm_inv s -> (0 < available s r)%nat ->
  exists pfn p' m', get_free_page (pglists s r) (mm_ram s) = (pfn, p', m') /\
    let s' := set_pglist r p' (set_mm_ram m' s) in
    mm_inv s' /\ ~ owned s r pfn /\
    region_first r <= pfn < region_pfn r + region_frames r /\
    (forall r' q, owned s' r' q <-> owned s r' q \/ (r' = r /\ q = pfn)) /\
    (forall r', available s r' =
       if decide (r' = r) then S (available s' r') else available s' r') /\
    untouched (bitmap_area r) (mm_ram s) m'.
Proof.
  intros Hinv Hav. destruct (Hinv r) as (Hi & Hst & Hs). pose proof (region_bounds r) as HB.
  destruct (get_free_page_window (mm_ram s) (pglists s r) (inv_geom _ _ Hi))
    as (i & Hw & Hbit & Hfirst & Heq).
  { apply window_has_free_avail. unfold available in Hav. lia. }
  set (p := pglists s r) in *. set (p' := set_free_pages _ _) in Heq.
  set (m' := pgl_bmap_set _ _ _) in Heq.
  destruct (pgl_inv_alloc _ _ _ Hi Hw Hbit) as (Hi' & Ha' & Hn & _).
  fold p' m' in Hi', Ha'.
  destruct Hw as [Hwl Hwh]. pose proof (geom_last _ (inv_geom _ _ Hi)) as Hl.
  pose proof (geom_bitmap _ (inv_geom _ _ Hi)) as Hbm.
  assert (Hires : pages_to_reserve (pgl_size p) <= i).
  { destruct (Z.lt_ge_cases i (pages_to_reserve (pgl_size p))); [|done].
    rewrite (inv_reserved _ _ Hi i) in Hbit by lia. done. }
  assert (Hir : 0 <= i < pgl_size p) by zdm.
  assert (Hu : untouched (bitmap_area r) (mm_ram s) m').
  { eapply untouched_weaken, untouched_bmap_set; [|lia]. intros a Ha.
    apply (bitmap_word_reserved p (inv_geom _ _ Hi)) in Ha; [|done].
    unfold bitmap_area, region_first. rewrite Hst, Hs in Ha. lia. }
  exists (i + pgl_start_address p / 4096), p', m'. split; [done|]. intros s'.
  assert (Hpfn : i + pgl_start_address p / 4096 = region_pfn r + i).
  { rewrite Hst. unfold region_pfn. lia. }
  rewrite Hpfn. rewrite Hs in Hir, Hires.
  assert (Hother : forall r', r' <> r -> pgl_inv m' (pglists s r') /\
    allocated m' (pglists s r') = allocated (mm_ram s) (pglists s r') /\
    avail m' (pglists s r') = avail (mm_ram s) (pglists s r')).
  { intros r' Hne. destruct (Hinv r') as (Hi2 & Hst2 & Hs2).
    apply (pgl_inv_untouched (bitmap_area r)); [done..|]. rewrite Hst2, Hs2.
    intros a Ha1 Ha2. apply Hne, (regions_disjoint r' r a);
      unfold bitmap_area in Ha2; pose proof (region_bounds r');
      unfold region_first in *; lia. }
  assert (Hs' : forall r', pglists s' r' = if decide (r' = r) then p' else pglists s r').
  { intros r'. unfold s'. rewrite pglists_set_pglist. by destruct r'. }
  assert (Hm' : mm_ram s' = m') by (unfold s'; by rewrite mm_ram_set_pglist).
  split_and!; unfold mm_inv, owned, available; rewrite ?Hm'.
  - intros r'. rewrite Hs'. case_decide as E; [subst; done|].
    destruct (Hother r' E) as (? & _). by destruct (Hinv r') as (_ & ? & ?).
  - intros [_ Hin]. apply Hn. fold p in Hin. by replace (region_pfn r + i - region_pfn r) with i in Hin by lia.
  - unfold region_first. lia.
  - lia.
  - intros r' q. rewrite Hs'. case_decide as E.
    + subst r'. rewrite Ha', elem_of_union, elem_of_singleton. fold p.
      unfold region_first in *. intuition lia.
    + destruct (Hother r' E) as (_ & -> & _). intuition.
  - intros r'. rewrite Hs'. case_decide as E.
    + subst r'. fold p. unfold m', p'. rewrite avail_alloc by (try done; lia).
      assert (i ∈ avail (mm_ram s) p) by (rewrite elem_of_avail; done).
      rewrite size_difference, size_singleton by set_solver.
      unfold available in Hav. fold p in Hav. lia.
    + by destruct (Hother r' E) as (_ & _ & ->).
  - done.
Qed.

Lemma os_pfn_alloc_ok r s :
  mm_inv s -> (0 < available s r)%nat ->
  alloc_post r s (os_pfn_alloc r s).1 (os_pfn_alloc r s).2.
Proof.
  intros Hinv Hav.
  destruct (get_free_page_post r s Hinv Hav) as (pfn & p' & m' & Heq & Hi & Hn & Hr & Ho & Hv & Hu).
  unfold os_pfn_alloc. rewrite Heq.
  assert (Hfp : 0 < pgl_free_pages (pglists s r)).
  { destruct (Hinv r) as (Hir & _ & _). rewrite (inv_count _ _ Hir).
    unfold available in Hav.
    assert (Hsub : avail (mm_ram s) (pglists s r) ## allocated (mm_ram s) (pglists s r)).
    { intros i Hi1 Hi2. apply elem_of_avail in Hi1 as [_ Hb].
      apply elem_of_allocated in Hi2 as [_ Hb2]. by rewrite Hb in Hb2. }
    assert (Hin : avail (mm_ram s) (pglists s r) ∪ allocated (mm_ram s) (pglists s r)
      ⊆ list_to_set (seqZ 0 (pgl_size (pglists s r)))).
    { intros i. rewrite elem_of_union, elem_of_allocated, elem_of_avail, elem_of_list_to_set, elem_of_seqZ.
      pose proof (geom_last _ (inv_geom _ _ Hir)). unfold in_window.
      pose proof (geom_size _ (inv_geom _ _ Hir)). zdm. }
    apply subseteq_size in Hin. rewrite size_union in Hin by done.
    rewrite size_list_to_set, length_seqZ in Hin by apply NoDup_seqZ.
    pose proof (geom_size _ (inv_geom _ _ Hir)). lia. }
  destruct (Z.leb_spec (pgl_free_pages (pglists s r)) 0); [lia|].
  set (s1 := set_pglist r p' (set_mm_ram m' s)) in *. pose proof (region_bounds r).
  assert (Hm1 : mm_ram s1 = m') by apply mm_ram_set_pglist.
  assert (Ht1 : trace (mach s1) = trace (mach s)) by (by destruct r).
  case_decide as E; cbn [fst snd].
  - unfold PAGE_SHIFT. rewrite shiftl_12, u64_small by lia. rewrite (Z.mul_comm pfn).
    set (m2 := bzero _ _ _).
    assert (Hu2 : untouched (in_frame pfn) (mm_ram s1) m2).
    { apply untouched_bzero. unfold in_frame, PAGE_SIZE. lia. }
    destruct (mm_inv_untouched (in_frame pfn) s1 m2 Hi Hu2) as (Hi2 & Ho2 & Ha2).
    { intros r' a Ha. by apply (in_frame_bitmap s1 r r' pfn). }
    split; [exact Hi2 | exact Hn | exact Hr | | | | | exact Ht1].
    + intros r' q. by rewrite Ho2.
    + intros r'. by rewrite Ha2.
    + intros _ a Ha. change (ld8 m2 a = 0). unfold m2. rewrite ld8_bzero.
      unfold in_frame, PAGE_SIZE in *. zcase; cbn; try done; lia.
    + change (mm_ram (set_mm_ram m2 s1)) with m2. rewrite Hm1 in Hu2.
      eapply untouched_trans; eapply untouched_weaken; [|exact Hu| |exact Hu2]; cbn; tauto.
  - split; [exact Hi | exact Hn | exact Hr | exact Ho | exact Hv | done | | exact Ht1].
    rewrite Hm1. eapply untouched_weaken; [|exact Hu]. cbn; tauto.
Qed.
