(* ===== verification/PageAlloc.v ===== *)
(** * Properties of the page-frame allocator of memory.c

    Freshness of what [os_pfn_alloc] returns, the invariant of all reachable
    states, the round trip with [os_pfn_free], and the limits: the capacity
    after start-up and what happens behind it. *)
From S2P Require Import Prelude Mem Lib Machine Memory.
Local Open Scope gemos_scope.

(** ** Start-up *)

(** Before [init_mems] nothing has been stored in the bitmap frames. *)
Definition bitmaps_zero (s : mm) : Prop :=
  forall r a, bitmap_area r a -> ld8 (mm_ram s) a = 0.

Definition no_pglist : page_list := PageList 0 0 0 0 0 0.
Definition reset_mm : mm := MM (Machine ∅ []) no_pglist no_pglist no_pglist.
Definition boot_mm : mm := init_pagelists reset_mm.

Lemma page_bit_reserve_loop n m bm i j :
  0 <= i -> 0 <= j ->
  page_bit (reserve_loop n m bm i) bm j =
    ((i <=? j) && (j <? i + Z.of_nat n)) || page_bit m bm j.
Proof.
  intros Hi. revert m i Hi. induction n as [|n IH]; intros m i Hi Hj; cbn [reserve_loop].
  { zcase; cbn; try done; lia. }
  rewrite IH, page_bit_bmap_set by lia. zcase; cbn; try done; lia.
Qed.

Lemma untouched_reserve_loop (P : Z -> Prop) n m bm i :
  0 <= i -> (forall j a, i <= j < i + Z.of_nat n -> bitmap_word bm j a -> P a) ->
  untouched P m (reserve_loop n m bm i).
Proof.
  intros Hi. revert m i Hi. induction n as [|n IH]; intros m i Hi HP; cbn [reserve_loop].
  { apply untouched_refl. }
  eapply untouched_trans; [|apply IH; [lia|]; intros j a Hj; apply HP; lia].
  eapply untouched_weaken, untouched_bmap_set; [|done]. intros a. apply (HP i). lia.
Qed.

Lemma page_bit_zero m bm i :
  (forall a, bitmap_word bm i a -> ld8 m a = 0) -> page_bit m bm i = false.
Proof.
  intros H. unfold page_bit, ld32. rewrite ldn_zero; [apply Z.bits_0|].
  intros a Ha. by apply H.
Qed.

Lemma size_seqZ a n : 0 <= n -> size (list_to_set (seqZ a n) : gset Z) = Z.to_nat n.
Proof. intros. by rewrite size_list_to_set, length_seqZ by apply NoDup_seqZ. Qed.

(** One region: over zeroed bitmap frames [init_pagelist] establishes the
    invariant, with only the bitmap's own frames allocated. *)
Section init_pagelist.
Context (r : region) (s : mm) (Hz : forall a, bitmap_area r a -> ld8 (mm_ram s) a = 0).
Let s' := init_pagelist r (region_start r) (region_end r) s.
Let p' := pglists s' r.

Lemma init_pagelist_pgl :
  p' = {| pgl_type := region_id r; pgl_size := region_frames r;
          pgl_free_pages := region_frames r - pages_to_reserve (region_frames r);
          pgl_last_free_pos := 0;
          pgl_start_address := region_start r; pgl_bitmap := region_start r |}.
Proof using r s. clear Hz. unfold p', s'. by destruct r. Qed.

Lemma init_pagelist_ram :
  mm_ram s' = reserve_loop (Z.to_nat (pages_to_reserve (region_frames r)))
                (mm_ram s) (region_start r) 0.
Proof using r s. clear Hz. unfold s'. by destruct r. Qed.

Lemma init_pagelist_untouched : untouched (bitmap_area r) (mm_ram s) (mm_ram s').
Proof using r s.
  clear Hz. rewrite init_pagelist_ram. apply untouched_reserve_loop; [lia|].
  intros j a Hj. unfold bitmap_word, bitmap_area. region_nums r; zdm.
Qed.

Lemma init_pagelist_bit j :
  0 <= j < region_frames r ->
  page_bit (mm_ram s') (region_start r) j = (j <? pages_to_reserve (region_frames r)).
Proof.
  intros Hj. rewrite init_pagelist_ram, page_bit_reserve_loop by lia.
  rewrite page_bit_zero, orb_false_r.
  - assert (0 <= pages_to_reserve (region_frames r)) by (by destruct r).
    zcase; cbn; try done; lia.
  - intros a Ha. apply Hz. unfold bitmap_area, bitmap_word in *. clear Hz s' p'.
    region_nums r; zdm.
Qed.

Lemma init_pagelist_allocated :
  allocated (mm_ram s') p' = list_to_set (seqZ 0 (pages_to_reserve (region_frames r))).
Proof.
  apply set_eq. intros j. rewrite elem_of_allocated, elem_of_list_to_set, elem_of_seqZ.
  rewrite init_pagelist_pgl. cbn [pgl_size pgl_bitmap].
  assert (pages_to_reserve (region_frames r) <= region_frames r) by (by destruct r).
  split.
  - intros [Hj Hb]. rewrite init_pagelist_bit in Hb by done. apply Z.ltb_lt in Hb. lia.
  - intros Hj. split; [lia|]. rewrite init_pagelist_bit by lia. apply Z.ltb_lt. lia.
Qed.

Lemma init_pagelist_inv : pgl_inv (mm_ram s') p'.
Proof.
  split.
  - rewrite init_pagelist_pgl. split; cbn; try done; destruct r; vm_compute; repeat split; congruence.
  - rewrite init_pagelist_allocated, size_seqZ by (by destruct r).
    rewrite init_pagelist_pgl. cbn [pgl_free_pages pgl_size]. by destruct r.
  - intros i. rewrite init_pagelist_pgl. cbn [pgl_bitmap pgl_size]. intros Hi.
    assert (pages_to_reserve (region_frames r) <= region_frames r) by (by destruct r).
    rewrite init_pagelist_bit by lia. apply Z.ltb_lt. lia.
Qed.

Lemma init_pagelist_avail :
  avail (mm_ram s') p' =
    list_to_set (seqZ (pages_to_reserve (region_frames r))
      (32 * (region_frames r / 256) - pages_to_reserve (region_frames r))).
Proof.
  apply set_eq. intros j. rewrite elem_of_avail, elem_of_list_to_set, elem_of_seqZ.
  rewrite init_pagelist_pgl. unfold in_window. cbn [pgl_size pgl_bitmap pgl_last_free_pos].
  assert (0 <= pages_to_reserve (region_frames r)) by (by destruct r).
  assert (32 * (region_frames r / 256) <= region_frames r) by (by destruct r).
  split.
  - intros [Hj Hb]. rewrite init_pagelist_bit in Hb by lia. apply Z.ltb_ge in Hb. lia.
  - intros Hj. split; [lia|]. rewrite init_pagelist_bit by lia. apply Z.ltb_ge. lia.
Qed.
End init_pagelist.

Definition init_region (r : region) : mm -> mm :=
  init_pagelist r (region_start r) (region_end r).

Lemma init_pagelists_eq s :
  init_pagelists s = init_region USER_REG (init_region OS_PT_REG (init_region OS_DS_REG s)).
Proof. done. Qed.

(** What holds of region [r] once it is initialised. *)
Definition region_ready (r : region) (s : mm) : Prop :=
  (pgl_inv (mm_ram s) (pglists s r) /\ pgl_start_address (pglists s r) = region_start r
   /\ pgl_size (pglists s r) = region_frames r) /\
  allocated (mm_ram s) (pglists s r)
    = list_to_set (seqZ 0 (pages_to_reserve (region_frames r))) /\
  available s r = Z.to_nat (32 * (region_frames r / 256) - pages_to_reserve (region_frames r)).

Lemma init_region_ready r s :
  (forall a, bitmap_area r a -> ld8 (mm_ram s) a = 0) -> region_ready r (init_region r s).
Proof.
  intros Hz. pose proof (init_pagelist_inv r s Hz) as Hi.
  split_and!.
  - apply Hi.
  - unfold init_region. by rewrite init_pagelist_pgl.
  - unfold init_region. by rewrite init_pagelist_pgl.
  - by apply init_pagelist_allocated.
  - unfold available, init_region. rewrite init_pagelist_avail by done.
    apply size_seqZ. by destruct r.
Qed.

(** Initialising one region leaves the others as they were. *)
Lemma init_region_other r r' s :
  r <> r' -> untouched (bitmap_area r') (mm_ram s) (mm_ram (init_region r' s)) /\
  (region_ready r s -> region_ready r (init_region r' s)).
Proof.
  intros Hne. pose proof (init_pagelist_untouched r' s) as Hu.
  change (init_pagelist _ _ _ s) with (init_region r' s) in Hu. split; [exact Hu|].
  intros ((Hi & Hst & Hs) & Ha & Hv).
  assert (Hp : pglists (init_region r' s) r = pglists s r) by (destruct r, r'; reflexivity || by destruct Hne).
  destruct (pgl_inv_untouched _ _ _ _ Hi Hu) as (Hi' & Ha' & Hv').
  { rewrite Hst, Hs. intros a H1 H2. apply Hne, (regions_disjoint r r' a);
      unfold bitmap_area in H2; pose proof (region_bounds r); pose proof (region_bounds r');
      unfold region_first in *; lia. }
  unfold region_ready, available in *. rewrite Hp.
  split_and!; [done.. | by rewrite Ha' | by rewrite Hv'].
Qed.

Lemma init_pagelists_ready s r : bitmaps_zero s -> region_ready r (init_pagelists s).
Proof.
  intros Hz. rewrite init_pagelists_eq.
  assert (Hk : forall r' t, r <> r' -> (forall a, bitmap_area r a -> ld8 (mm_ram t) a = 0) ->
    forall a, bitmap_area r a -> ld8 (mm_ram (init_region r' t)) a = 0).
  { intros r' t Hne Ht a Ha. destruct (init_region_other r r' t Hne) as [Hu _].
    rewrite Hu; [by apply Ht|]. intros Ha'. apply Hne, (regions_disjoint r r' a);
      pose proof (region_bounds r); pose proof (region_bounds r'); unfold bitmap_area in *; lia. }
  destruct r.
  - apply init_region_other; [done|]. apply init_region_other; [done|].
    by apply init_region_ready, Hz.
  - apply init_region_other; [done|]. apply init_region_ready. apply Hk; [done|]. apply Hz.
  - apply init_region_ready. apply Hk; [done|]. apply Hk; [done|]. apply Hz.
Qed.

Lemma mm_inv_init_pagelists s : bitmaps_zero s -> mm_inv (init_pagelists s).
Proof. intros Hz r. by destruct (init_pagelists_ready s r Hz) as (? & _). Qed.

Lemma available_init_pagelists s r :
  bitmaps_zero s ->
  available (init_pagelists s) r =
    Z.to_nat match r with OS_DS_REG => 767 | OS_PT_REG => 2175 | USER_REG => 13180 end.
Proof.
  intros Hz. destruct (init_pagelists_ready s r Hz) as (_ & _ & ->). by destruct r.
Qed.

Lemma bitmaps_zero_reset : bitmaps_zero reset_mm.
Proof. intros r a _. apply ld8_empty. Qed.

Lemma boot_mm_inv : mm_inv boot_mm.
Proof. apply mm_inv_init_pagelists, bitmaps_zero_reset. Qed.

#[export] Hint Resolve boot_mm_inv bitmaps_zero_reset : gemos.

(** ** Freeing *)

(** The address computations of [os_page_free] on a frame of the region. *)
Lemma os_pfn_free_in_range r pfn s :
  mm_inv s -> region_first r <= pfn < region_pfn r + region_frames r ->
  os_pfn_free r pfn s =
    set_pglist r (set_free_pages (pglists s r) (u32 (pgl_free_pages (pglists s r) + 1)))
      (set_mm_ram (pgl_bmap_clear (mm_ram s) (region_start r) (pfn - region_pfn r)) s).
Proof.
  intros Hinv Hr. destruct (Hinv r) as (Hi & Hst & Hs).
  pose proof (geom_bitmap _ (inv_geom _ _ Hi)) as Hb. pose proof (region_bounds r).
  unfold os_pfn_free, os_page_free, PAGE_SHIFT. rewrite Hb, Hst, Hs, !shiftl_12, shiftr_12.
  rewrite (u64_small (pfn * 4096)), (u32_small (region_frames r * 4096)) by lia.
  rewrite (u64_small (pfn * 4096 - _)), (u64_small (region_start r + _)) by lia.
  rewrite (u32_small (_ / 4096)) by zdm. rewrite Z.geb_leb.
  replace ((pfn * 4096 - region_start r) / 4096) with (pfn - region_pfn r) by zdm.
  destruct (Z.leb_spec (pfn * 4096) (region_start r)); [lia|].
  by destruct (Z.leb_spec (region_start r + region_frames r * 4096) (pfn * 4096)); [lia|].
Qed.

(** Addresses that are not of the region are refused, with a message. *)
Lemma os_page_free_outside r a s :
  mm_inv s -> a <= region_start r \/ region_end r <= a ->
  os_page_free r a s =
    mm_printf "Opps.. free address not in region %d\n" [PInt (region_id r)] s.
Proof.
  intros Hinv Ha. destruct (Hinv r) as (_ & Hst & Hs). pose proof (region_bounds r).
  unfold os_page_free. rewrite Hst, Hs, shiftl_12.
  rewrite (u32_small (region_frames r * 4096)), (u64_small (region_start r + _)) by lia.
  rewrite Z.geb_leb. zcase; cbn; try done; lia.
Qed.

(** What freeing a frame that was handed out guarantees. *)
Record free_post (r : region) (s : mm) (pfn : Z) (s' : mm) : Prop := {
  fp_inv : mm_inv s';
  fp_owned : forall r' q, owned s' r' q <-> owned s r' q /\ ~ (r' = r /\ q = pfn);
  fp_count : pgl_free_pages (pglists s' r) = pgl_free_pages (pglists s r) + 1;
  fp_allocated : allocated (mm_ram s') (pglists s' r)
                   = allocated (mm_ram s) (pglists s r) ∖ {[pfn - region_pfn r]};
  fp_avail : forall r', (available s r' <= available s' r')%nat;
  fp_ram : untouched (bitmap_area r) (mm_ram s) (mm_ram s');
  fp_trace : trace (mach s') = trace (mach s)
}.

(** Region [r'] does not notice a change of the bitmap of region [r]. *)
Lemma pgl_inv_other_bitmap s r r' m' :
  mm_inv s -> r' <> r -> untouched (bitmap_area r) (mm_ram s) m' ->
  pgl_inv m' (pglists s r') /\
  allocated m' (pglists s r') = allocated (mm_ram s) (pglists s r') /\
  avail m' (pglists s r') = avail (mm_ram s) (pglists s r').
Proof.
  intros Hinv Hne Hu. destruct (Hinv r') as (Hi & Hst & Hs).
  apply (pgl_inv_untouched (bitmap_area r)); [done..|]. rewrite Hst, Hs.
  intros a H1 H2. apply Hne, (regions_disjoint r' r a);
    unfold bitmap_area in H2; pose proof (region_bounds r); pose proof (region_bounds r');
    unfold region_first in *; lia.
Qed.

Lemma avail_bmap_clear m p i fp :
  0 <= i -> 0 <= pgl_last_free_pos p ->
  avail m p ⊆ avail (pgl_bmap_clear m (pgl_bitmap p) i) (set_free_pages p fp).
Proof.
  intros Hi Hl j. rewrite !elem_of_avail. unfold in_window.
  cbn [pgl_bitmap pgl_size pgl_last_free_pos set_free_pages]. intros [Hw Hb].
  split; [done|]. rewrite page_bit_bmap_clear, Hb by lia. apply andb_false_r.
Qed.

Lemma os_pfn_free_ok r s pfn :
  mm_inv s -> owned s r pfn -> free_post r s pfn (os_pfn_free r pfn s).
Proof.
  intros Hinv Ho. pose proof (owned_range s r pfn Hinv Ho) as Hr.
  rewrite os_pfn_free_in_range by done. destruct Ho as [Hfirst Hin].
  destruct (Hinv r) as (Hi & Hst & Hs). pose proof (region_bounds r) as HB.
  pose proof (geom_bitmap _ (inv_geom _ _ Hi)) as Hbm. rewrite <- Hst, <- Hbm.
  set (i := pfn - region_pfn r) in *. set (p := pglists s r) in *.
  assert (Hires : pages_to_reserve (pgl_size p) <= i) by (rewrite Hs; unfold region_first in *; lia).
  destruct (pgl_inv_free _ _ _ Hi Hires Hin) as (Hi' & Ha' & Hf').
  set (p' := set_free_pages p _) in *. set (m' := pgl_bmap_clear _ _ _) in *.
  set (s' := set_pglist r p' _).
  assert (Hu : untouched (bitmap_area r) (mm_ram s) m').
  { eapply untouched_weaken, untouched_bmap_clear; [|lia]. intros a Ha.
    apply (bitmap_word_reserved p (inv_geom _ _ Hi)) in Ha; [|lia].
    unfold bitmap_area, region_first. rewrite Hst, Hs in Ha. lia. }
  assert (Hs' : forall r', pglists s' r' = if decide (r' = r) then p' else pglists s r').
  { intros r'. unfold s'. rewrite pglists_set_pglist. by destruct r'. }
  assert (Hm' : mm_ram s' = m') by (unfold s'; by rewrite mm_ram_set_pglist).
  pose proof (geom_last _ (inv_geom _ _ Hi)).
  split; unfold mm_inv, owned, available; rewrite ?Hm'.
  - intros r'. rewrite Hs'. case_decide as E; [by subst|].
    destruct (pgl_inv_other_bitmap s r r' m' Hinv E Hu) as (? & _). by destruct (Hinv r') as (_ & ? & ?).
  - intros r' q. rewrite Hs'. case_decide as E.
    + subst r'. rewrite Ha', elem_of_difference, elem_of_singleton. unfold i. intuition lia.
    + destruct (pgl_inv_other_bitmap s r r' m' Hinv E Hu) as (_ & -> & _). intuition.
  - rewrite Hs'. by rewrite decide_True.
  - rewrite Hs'. by rewrite decide_True.
  - intros r'. rewrite Hs'. case_decide as E.
    + subst r'. apply subseteq_size. apply avail_bmap_clear; lia.
    + by destruct (pgl_inv_other_bitmap s r r' m' Hinv E Hu) as (_ & _ & ->).
  - done.
  - by destruct r.
Qed.

(** ** Runs of the allocator *)

(** [n] consecutive allocations from one region. *)
Fixpoint alloc_run (n : nat) (r : region) (s : mm) : list Z * mm :=
  match n with
  | O => ([], s)
  | S n =>
      let '(pfn, s) := os_pfn_alloc r s in
      let '(l, s) := alloc_run n r s in (pfn :: l, s)
  end.

(** The clients of the allocator: they allocate while a free frame is in
    reach, free what they were given, and store in the frames they own. *)
Inductive mm_step : mm -> mm -> Prop :=
| step_alloc r s : (0 < available s r)%nat -> mm_step s (os_pfn_alloc r s).2
| step_free r pfn s : owned s r pfn -> mm_step s (os_pfn_free r pfn s)
| step_free_outside r a s :
    a <= region_start r \/ region_end r <= a -> mm_step s (os_page_free r a s)
| step_store r pfn n a v s :
    owned s r pfn -> (forall b, a <= b < a + Z.of_nat n -> in_frame pfn b) ->
    mm_step s (set_mm_ram (stn n (mm_ram s) a v) s).

Inductive mm_reachable : mm -> Prop :=
| reach_boot s : bitmaps_zero s -> mm_reachable (init_pagelists s)
| reach_step s s' : mm_reachable s -> mm_step s s' -> mm_reachable s'.

(** All the frames below word [size >> 8] of the bitmap are taken. *)
Definition window_exhausted (s : mm) (r : region) : Prop :=
  forall i, 0 <= i < 32 * (region_frames r / 256) ->
    page_bit (mm_ram s) (pgl_bitmap (pglists s r)) i = true.

Lemma mm_step_inv s s' : mm_inv s -> mm_step s s' -> mm_inv s'.
Proof.
  intros Hinv Hstep. revert Hinv.
  destruct Hstep as [r s1 Hav | r pfn s1 Ho | r a s1 Ha | r pfn n a v s1 Ho Hb]; intros Hinv.
  - by apply os_pfn_alloc_ok.
  - by apply os_pfn_free_ok.
  - rewrite os_page_free_outside by done. exact Hinv.
  - apply (mm_inv_untouched (in_frame pfn)); [done | by apply untouched_stn |].
    intros r' b Hin. apply (in_frame_bitmap s1 r r' pfn); [done | by apply (owned_range s1) | done].
Qed.

Lemma alloc_run_spec n r s :
  mm_inv s -> (n <= available s r)%nat ->
  mm_inv (alloc_run n r s).2 /\ length (alloc_run n r s).1 = n /\
  NoDup (alloc_run n r s).1 /\
  Forall (fun pfn => ~ owned s r pfn /\ owned (alloc_run n r s).2 r pfn) (alloc_run n r s).1 /\
  (forall r' q, owned s r' q -> owned (alloc_run n r s).2 r' q).
Proof.
  revert s. induction n as [|n IH]; intros s Hinv Hn; cbn [alloc_run].
  { split_and!; cbn; auto; constructor. }
  pose proof (os_pfn_alloc_ok r s Hinv ltac:(lia)) as Hp.
  destruct (os_pfn_alloc r s) as [pfn s1]. cbn [fst snd] in Hp.
  pose proof (ap_avail _ _ _ _ Hp r) as Hav. rewrite decide_True in Hav by done.
  destruct (IH s1 (ap_inv _ _ _ _ Hp) ltac:(lia)) as (Hi & Hl & Hnd & Hfresh & Hmono).
  destruct (alloc_run n r s1) as [l s2]. cbn [fst snd] in *.
  assert (Ho1 : owned s1 r pfn) by (apply (ap_owned _ _ _ _ Hp); auto).
  split_and!; [done | cbn [length]; by rewrite Hl | | |].
  - constructor; [|done]. intros Hin. rewrite Forall_forall in Hfresh.
    by apply (proj1 (Hfresh pfn Hin)).
  - constructor; [split; [apply Hp | by apply Hmono]|].
    eapply Forall_impl; [exact Hfresh|]. cbn. intros q [Hq ?]. split; [|done].
    intros Ho. apply Hq, (ap_owned _ _ _ _ Hp). by left.
  - intros r' q Ho. apply Hmono, (ap_owned _ _ _ _ Hp). by left.
Qed.

(** Owned frames and the bitmap's own determine the allocated ones. *)
Lemma allocated_owned s r i :
  mm_inv s ->
  i ∈ allocated (mm_ram s) (pglists s r) <->
    0 <= i < pages_to_reserve (region_frames r) \/ owned s r (region_pfn r + i).
Proof.
  intros Hinv. destruct (Hinv r) as ([Hg Hc Hres] & Hst & Hs). rewrite Hs in Hres.
  unfold owned, region_first. replace (region_pfn r + i - region_pfn r) with i by lia.
  split.
  - intros Hin. pose proof (proj1 (elem_of_allocated _ _ _) Hin) as [? _].
    destruct (Z.lt_ge_cases i (pages_to_reserve (region_frames r))); [left; lia|].
    right. split; [lia | done].
  - intros [Hi|[_ Hin]]; [|done]. apply elem_of_allocated. split; [|by apply Hres].
    rewrite Hs. clear - Hi. region_nums r; lia.
Qed.

(** Two states that agree on ownership agree on the bitmaps and the counts. *)
Lemma same_owned_same_count s1 s2 r :
  mm_inv s1 -> mm_inv s2 -> (forall q, owned s1 r q <-> owned s2 r q) ->
  allocated (mm_ram s1) (pglists s1 r) = allocated (mm_ram s2) (pglists s2 r) /\
  pgl_free_pages (pglists s1 r) = pgl_free_pages (pglists s2 r).
Proof.
  intros H1 H2 Ho.
  assert (Ha : allocated (mm_ram s1) (pglists s1 r) = allocated (mm_ram s2) (pglists s2 r)).
  { apply set_eq. intros i. by rewrite !allocated_owned, Ho by done. }
  split; [done|]. destruct (H1 r) as (Hi1 & _ & Hs1). destruct (H2 r) as (Hi2 & _ & Hs2).
  by rewrite (inv_count _ _ Hi1), (inv_count _ _ Hi2), Hs1, Hs2, Ha.
Qed.

(** Bitmaps that read the same have the same owned frames. *)
Lemma owned_same_bits s s' :
  (forall r, pgl_bitmap (pglists s' r) = pgl_bitmap (pglists s r)) ->
  (forall r, pgl_size (pglists s' r) = pgl_size (pglists s r)) ->
  (forall r i, 0 <= i < pgl_size (pglists s r) ->
     page_bit (mm_ram s') (pgl_bitmap (pglists s r)) i
       = page_bit (mm_ram s) (pgl_bitmap (pglists s r)) i) ->
  forall r, allocated (mm_ram s') (pglists s' r) = allocated (mm_ram s) (pglists s r).
Proof.
  intros Hb Hs H r. apply set_eq. intros i. rewrite !elem_of_allocated, Hb, Hs.
  split; intros [Hi Hbit]; (split; [done|]); by rewrite <- Hbit, H.
Qed.

(** Stores in a region's frames leave the bits of all bitmaps alone, and so
    does setting again a bit that is set. *)
Lemma page_bit_in_frame s pfn m' r r' i :
  mm_inv s -> region_first r <= pfn < region_pfn r + region_frames r ->
  untouched (in_frame pfn) (mm_ram s) m' -> 0 <= i < region_frames r' ->
  page_bit m' (region_start r') i = page_bit (mm_ram s) (region_start r') i.
Proof.
  intros Hinv Hp Hu Hi. apply (page_bit_untouched (in_frame pfn)); [done|].
  intros a Ha Hin. destruct (Hinv r') as (Hir & Hst & Hs).
  apply (in_frame_bitmap s r r' pfn a Hinv Hp Hin).
  rewrite <- Hst, <- (geom_bitmap _ (inv_geom _ _ Hir)) in Ha.
  apply (bitmap_word_reserved _ (inv_geom _ _ Hir)) in Ha; [|lia].
  pose proof (region_bounds r'). unfold bitmap_area, region_first. rewrite Hst, Hs in Ha. lia.
Qed.

Lemma page_bit_word_same r i m m' r' j :
  0 <= i < region_frames r -> 0 <= j < region_frames r' ->
  untouched (bitmap_word (region_start r) i) m m' ->
  (forall k, 0 <= k -> page_bit m' (region_start r) k = page_bit m (region_start r) k) ->
  page_bit m' (region_start r') j = page_bit m (region_start r') j.
Proof.
  intros Hi Hj Hu Hk. destruct (decide (r' = r)) as [->|Hne]; [apply Hk; lia|].
  apply (page_bit_untouched (bitmap_word (region_start r) i)); [done|].
  intros a Ha1 Ha2. apply Hne, (regions_disjoint r' r a); unfold bitmap_word in *.
  - clear - Ha1 Hj. region_nums r'; cbn [region_end];
    unfold REGION_OS_PT_START, REGION_USER_START, ENDMEM; zdm.
  - clear - Ha2 Hi. region_nums r; cbn [region_end];
    unfold REGION_OS_PT_START, REGION_USER_START, ENDMEM; zdm.
Qed.

(** What stays of the invariant when the free counts are wrong. *)
Definition mm_geom (s : mm) : Prop :=
  forall r, pgl_geom (pglists s r) /\ pgl_start_address (pglists s r) = region_start r /\ pgl_size (pglists s r) = region_frames r.

Lemma mm_inv_geom s : mm_inv s -> mm_geom s.
Proof. intros Hinv r. destruct (Hinv r) as ([Hg _ _] & Hst & Hs). done. Qed.

(** The state left behind when frame 32 of an exhausted region is "allocated"
    again: its bit is set again, and the frame perhaps cleared. *)
Lemma bits_after_duplicate r s m2 :
  mm_geom s -> page_bit (mm_ram s) (region_start r) 32 = true ->
  untouched (in_frame (region_pfn r + 32)) (pgl_bmap_set (mm_ram s) (region_start r) 32) m2 ->
  forall r' i, 0 <= i < region_frames r' ->
    page_bit m2 (region_start r') i = page_bit (mm_ram s) (region_start r') i.
Proof.
  intros Hinv Hb Hu r' i Hi. set (m1 := pgl_bmap_set _ _ _) in *.
  destruct (Hinv r') as (Hg & Hst & Hs).
  transitivity (page_bit m1 (region_start r') i).
  2:{ apply (page_bit_word_same r 32); [clear; region_nums r; lia | done | by apply untouched_bmap_set |].
      intros k Hk. unfold m1. rewrite page_bit_bmap_set by lia. zcase; [by subst | done]. }
  apply (page_bit_untouched (in_frame (region_pfn r + 32))); [done|].
  intros a Ha Hin. apply (frame_not_bitmap r r' (region_pfn r + 32) a); [|done|].
  { clear. region_nums r; lia. }
  rewrite <- Hst, <- (geom_bitmap _ Hg) in Ha.
  apply (bitmap_word_reserved _ Hg) in Ha; [|lia].
  pose proof (region_bounds r'). unfold bitmap_area, region_first. rewrite Hst, Hs in Ha. lia.
Qed.

(** What an allocation does once the first eighth of the region is taken. *)
Lemma os_pfn_alloc_exhausted_eq r s :
  mm_geom s -> window_exhausted s r -> 0 < pgl_free_pages (pglists s r) ->
  page_bit (mm_ram s) (region_start r) 32 = true /\
  exists m2,
    os_pfn_alloc r s =
      (region_pfn r + 32,
       set_mm_ram m2 (set_pglist r
         (set_free_pages (set_last_free_pos (pglists s r) 0)
            (u32 (pgl_free_pages (pglists s r) - 1))) s)) /\
    untouched (in_frame (region_pfn r + 32)) (pgl_bmap_set (mm_ram s) (region_start r) 32) m2.
Proof.
  intros Hinv Hex Hfree. destruct (Hinv r) as (Hg & Hst & Hs).
  pose proof (geom_bitmap _ Hg) as Hbm. rewrite Hst in Hbm.
  pose proof (geom_size _ Hg) as [Hsz _]. rewrite Hs in Hsz.
  unfold window_exhausted in Hex. rewrite Hbm in Hex. split; [apply Hex; clear - Hsz; zdm|].
  unfold os_pfn_alloc. rewrite get_free_page_exhausted by (try apply Hg; by rewrite ?Hs, ?Hbm).
  destruct (Z.leb_spec (pgl_free_pages (pglists s r)) 0); [lia|].
  rewrite Hst, Hbm. fold (region_pfn r). rewrite (Z.add_comm 32).
  case_decide as E.
  - subst r. eexists. split; [f_equal; reflexivity|]. rewrite mm_ram_set_pglist.
    apply untouched_bzero. unfold PAGE_SHIFT, PAGE_SIZE, in_frame. rewrite shiftl_12, u64_small.
    + lia.
    + by vm_compute.
  - exists (pgl_bmap_set (mm_ram s) (region_start r) 32).
    split; [f_equal; by destruct r | apply untouched_refl].
Qed.

(** One duplicate: nothing but the count of the region changes. *)
Lemma exhausted_step r s :
  mm_geom s -> window_exhausted s r -> 0 < pgl_free_pages (pglists s r) < 2^32 ->
  let s' := (os_pfn_alloc r s).2 in
  (os_pfn_alloc r s).1 = region_pfn r + 32 /\ mm_geom s' /\ window_exhausted s' r /\
  (forall r', allocated (mm_ram s') (pglists s' r') = allocated (mm_ram s) (pglists s r')) /\
  pgl_free_pages (pglists s' r) = pgl_free_pages (pglists s r) - 1.
Proof.
  intros Hg Hex Hfree. destruct (os_pfn_alloc_exhausted_eq r s Hg Hex (proj1 Hfree)) as (Hbit & m2 & -> & Hu2).
  cbn [fst snd]. set (p' := set_free_pages _ _). set (s2 := set_mm_ram m2 _).
  assert (Hp : forall r', pglists s2 r' = if decide (r' = r) then p' else pglists s r').
  { intros r'. rewrite <- pglists_set_pglist. by destruct r'. }
  pose proof (bits_after_duplicate r s m2 Hg Hbit Hu2) as Hbits. split; [done|]. split; [|split; [|split]].
  - intros r'. rewrite Hp. destruct (Hg r') as ([G1 G2 G3 G4 G5] & Hst & Hs). case_decide as E; [|done]. subst r'.
    split; [split; try done; cbn; lia|done].
  - intros i Hir. rewrite Hp, decide_True by done.
    change (page_bit m2 (pgl_bitmap (pglists s r)) i = true). rewrite <- (Hex i Hir).
    destruct (Hg r) as (Hgr & Hst & _). rewrite (geom_bitmap _ Hgr), Hst. apply Hbits. clear - Hir. region_nums r; zdm.
  - apply (owned_same_bits s s2); intros r'; rewrite ?Hp; try (by case_decide; [subst r' |]).
    destruct (Hg r') as (Hgr & Hst & ->). rewrite (geom_bitmap _ Hgr), Hst. apply Hbits.
  - rewrite Hp, decide_True by done. apply u32_small. lia.
Qed.

Lemma exhausted_run n r s :
  mm_geom s -> window_exhausted s r -> Z.of_nat n <= pgl_free_pages (pglists s r) < 2^32 ->
  let s' := (alloc_run n r s).2 in
  (alloc_run n r s).1 = replicate n (region_pfn r + 32) /\
  (forall r', allocated (mm_ram s') (pglists s' r') = allocated (mm_ram s) (pglists s r')) /\
  pgl_free_pages (pglists s' r) = pgl_free_pages (pglists s r) - Z.of_nat n /\
  pgl_size (pglists s' r) = region_frames r.
Proof.
  revert s. induction n as [|n IH]; intros s Hg Hex Hn; cbn [alloc_run replicate].
  { split; [done|]. split; [done|]. split; [cbn; lia|]. by destruct (Hg r) as (_ & _ & ?). }
  destruct (exhausted_step r s Hg Hex ltac:(lia)) as (E1 & Hg1 & Hex1 & Ha1 & Hf1).
  destruct (os_pfn_alloc r s) as [q s1]. cbn [fst snd] in *. subst q.
  destruct (IH s1 Hg1 Hex1 ltac:(lia)) as (E2 & Ha2 & Hf2 & Hs2).
  destruct (alloc_run n r s1) as [l s2]. cbn [fst snd] in *. subst l.
  split; [done|]. split; [|split; [lia|done]]. intros r'. by rewrite Ha2.
Qed.

(** ** Theorems *)

(** C2: while a free frame is within the reach of the scan, [os_pfn_alloc]
    hands out a frame of the region that nobody owned, adds exactly this frame
    to the owned ones, clears it when it is a page-table frame, changes no
    other memory than the region's bitmap and that frame, and keeps the
    allocator's invariant (bitmaps and free counts agree). *)
Theorem os_pfn_alloc_fresh r s :
  mm_inv s -> (0 < available s r)%nat ->
  alloc_post r s (os_pfn_alloc r s).1 (os_pfn_alloc r s).2.
Proof. apply os_pfn_alloc_ok. Qed.

(** C3: from a start over zeroed bitmaps, whatever clients do with their own
    frames, in every region the free count is the number of frames not marked
    in the bitmap, and the frames of the bitmap are never handed out. *)
Theorem mm_reachable_invariant s r :
  mm_reachable s ->
  pgl_free_pages (pglists s r)
    = region_frames r - Z.of_nat (size (allocated (mm_ram s) (pglists s r))) /\
  (forall pfn, owned s r pfn -> region_first r <= pfn < region_pfn r + region_frames r) /\
  (forall i, 0 <= i < pages_to_reserve (region_frames r) ->
     i ∈ allocated (mm_ram s) (pglists s r)).
Proof.
  intros Hr. assert (Hinv : mm_inv s).
  { induction Hr as [s Hz|s s' _ IH Hst]; [by apply mm_inv_init_pagelists|].
    by eapply mm_step_inv. }
  destruct (Hinv r) as ([Hg Hc Hres] & Hst & Hs). split_and!.
  - by rewrite Hc, Hs.
  - intros pfn Ho. by apply (owned_range s).
  - intros i Hi. apply elem_of_allocated. rewrite Hs in *. split; [|by apply Hres].
    clear - Hi. region_nums r; lia.
Qed.

(** No frame is given out twice: [n] allocations in a row, as many as
    there are free frames in reach, return [n] different frames, none of them
    owned before and all of them owned after. *)
Theorem alloc_run_no_duplicates n r s :
  mm_inv s -> (n <= available s r)%nat ->
  length (alloc_run n r s).1 = n /\ NoDup (alloc_run n r s).1 /\
  Forall (fun pfn => ~ owned s r pfn /\ owned (alloc_run n r s).2 r pfn) (alloc_run n r s).1.
Proof. intros. by destruct (alloc_run_spec n r s) as (_ & ? & ? & ? & _). Qed.

(** C29: start-up over zeroed bitmaps establishes the invariant with no frame
    handed out; but of the 6143, 17407 and 105468 frames counted free only the
    first 767, 2175 and 13180 are within reach of the scan. *)
Theorem init_pagelists_ready_capacity s :
  bitmaps_zero s ->
  mm_inv (init_pagelists s) /\
  (forall r pfn, ~ owned (init_pagelists s) r pfn) /\
  (forall r, pgl_free_pages (pglists (init_pagelists s) r) =
     match r with OS_DS_REG => 6143 | OS_PT_REG => 17407 | USER_REG => 105468 end) /\
  (forall r, available (init_pagelists s) r = Z.to_nat
     match r with OS_DS_REG => 767 | OS_PT_REG => 2175 | USER_REG => 13180 end).
Proof.
  intros Hz. split_and!.
  - by apply mm_inv_init_pagelists.
  - intros r pfn [Hf Ha]. destruct (init_pagelists_ready s r Hz) as (_ & Hal & _).
    rewrite Hal, elem_of_list_to_set, elem_of_seqZ in Ha. unfold region_first in Hf. lia.
  - by intros [].
  - intros r. by apply available_init_pagelists.
Qed.

(** C30: freeing a frame that was handed out undoes its allocation: the set of
    owned frames and the free count are those of before, in every region. *)
Theorem os_pfn_alloc_free_roundtrip r s :
  mm_inv s -> (0 < available s r)%nat ->
  let '(pfn, s1) := os_pfn_alloc r s in
  let s2 := os_pfn_free r pfn s1 in
  mm_inv s2 /\ (forall r' q, owned s2 r' q <-> owned s r' q) /\
  (forall r', allocated (mm_ram s2) (pglists s2 r') = allocated (mm_ram s) (pglists s r') /\
     pgl_free_pages (pglists s2 r') = pgl_free_pages (pglists s r')).
Proof.
  intros Hinv Hav. pose proof (os_pfn_alloc_ok r s Hinv Hav) as Hp.
  destruct (os_pfn_alloc r s) as [pfn s1]. cbn [fst snd] in Hp.
  pose proof (ap_owned _ _ _ _ Hp) as Hpo. pose proof (ap_fresh _ _ _ _ Hp) as Hpf.
  assert (Ho : owned s1 r pfn) by (apply Hpo; auto).
  pose proof (os_pfn_free_ok r s1 pfn (ap_inv _ _ _ _ Hp) Ho) as Hf. cbn zeta.
  pose proof (fp_inv _ _ _ _ Hf) as Hinv2.
  assert (Hown : forall r' q, owned (os_pfn_free r pfn s1) r' q <-> owned s r' q).
  { intros r' q. rewrite (fp_owned _ _ _ _ Hf), Hpo. split; [tauto|]. intros Hq.
    split; [by left|]. intros [-> ->]. done. }
  split_and!; [done | done |]. intros r'. by apply same_owned_same_count.
Qed.

(** A request that finds the region's free count at zero is refused: the
    result is 0, nothing changes and a message is printed. *)
Theorem os_pfn_alloc_out_of_memory r s :
  pgl_free_pages (pglists s r) = 0 ->
  os_pfn_alloc r s =
    (0, mm_printf "Opps.. out of memory for region %d\n" [PInt (region_id r)] s).
Proof. intros E. unfold os_pfn_alloc. by rewrite E. Qed.

(** C32: Once the first eighth of a region is taken, [os_pfn_alloc] no longer
    finds the free frames: as many requests in a row as the free count allows
    all return frame 32 of the region, which is already owned.  They allocate
    nothing, lower the count, and leave it different from the number of free
    frames; when it has reached 0 the next request is refused. *)
Theorem os_pfn_alloc_exhausted_duplicates n r s :
  mm_inv s -> window_exhausted s r -> Z.of_nat n <= pgl_free_pages (pglists s r) ->
  let '(l, s') := alloc_run n r s in
  l = replicate n (region_pfn r + 32) /\ owned s r (region_pfn r + 32) /\
  (forall r' q, owned s' r' q <-> owned s r' q) /\
  pgl_free_pages (pglists s' r) = pgl_free_pages (pglists s r) - Z.of_nat n /\
  (n <> 0%nat -> ~ mm_inv s') /\
  (Z.of_nat n = pgl_free_pages (pglists s r) -> (os_pfn_alloc r s').1 = 0).
Proof.
  intros Hinv Hex Hn. pose proof (mm_inv_geom s Hinv) as Hg. destruct (Hinv r) as (Hi & Hst & Hs).
  pose proof (inv_count _ _ Hi) as Hc. pose proof (geom_end _ (inv_geom _ _ Hi)). pose proof (geom_start _ (inv_geom _ _ Hi)).
  destruct (exhausted_run n r s Hg Hex ltac:(lia)) as (El & Ha & Hf & Hs2).
  destruct (alloc_run n r s) as [l s']. cbn [fst snd] in *. split; [exact El|]. split; [|split; [|split; [exact Hf|split]]].
  - split; [clear; region_nums r; lia|]. apply elem_of_allocated. rewrite Hs.
    replace (region_pfn r + 32 - region_pfn r) with 32 by lia. split; [clear; region_nums r; lia|].
    apply Hex. clear. region_nums r; zdm.
  - intros r' q. unfold owned. by rewrite Ha.
  - intros Hn0 Hinv2. destruct (Hinv2 r) as ([_ Hc2 _] & _). rewrite Hs2, Ha in Hc2. rewrite Hs in Hc. lia.
  - intros E. unfold os_pfn_alloc. by rewrite Hf, E, Z.sub_diag.
Qed.

(** [os_page_free] does not notice a frame freed twice: the second call
    changes no bitmap but raises the free count once more, so that the count
    exceeds the number of free frames. *)
Theorem os_pfn_free_twice_overcounts r s pfn :
  mm_inv s -> owned s r pfn ->
  let s1 := os_pfn_free r pfn s in
  let s2 := os_pfn_free r pfn s1 in
  (forall r' q, owned s2 r' q <-> owned s1 r' q) /\
  pgl_free_pages (pglists s2 r) = pgl_free_pages (pglists s r) + 2 /\ ~ mm_inv s2.
Proof.
  intros Hinv Ho s1 s2. pose proof (owned_range s r pfn Hinv Ho) as Hr.
  pose proof (os_pfn_free_ok r s pfn Hinv Ho) as Hf. fold s1 in Hf. pose proof (region_bounds r).
  pose proof (fp_inv _ _ _ _ Hf) as Hinv1. destruct (Hinv1 r) as (Hi & Hst & Hs).
  set (p' := set_free_pages (pglists s1 r) (u32 (pgl_free_pages (pglists s1 r) + 1))).
  assert (Hs2 : s2 = set_pglist r p'
    (set_mm_ram (pgl_bmap_clear (mm_ram s1) (region_start r) (pfn - region_pfn r)) s1))
    by (apply os_pfn_free_in_range; done).
  assert (Hbit : page_bit (mm_ram s1) (region_start r) (pfn - region_pfn r) = false).
  { destruct (page_bit _ _ _) eqn:E; [|done]. exfalso.
    apply (proj1 (fp_owned _ _ _ _ Hf r pfn)); [|done]. split; [lia|]. apply elem_of_allocated.
    rewrite (geom_bitmap _ (inv_geom _ _ Hi)), Hst, Hs.
    split; [lia | done]. }
  assert (Hp : forall r', pglists s2 r' = if decide (r' = r) then p' else pglists s1 r').
  { intros r'. rewrite Hs2, pglists_set_pglist. by destruct r'. }
  assert (Hal : forall r', allocated (mm_ram s2) (pglists s2 r') = allocated (mm_ram s1) (pglists s1 r')).
  { apply (owned_same_bits s1 s2); intros r'; rewrite ?Hp; try (by case_decide; [subst r' |]).
    destruct (Hinv1 r') as (Hi' & Hst' & ->). rewrite (geom_bitmap _ (inv_geom _ _ Hi')), Hst'.
    intros i Hir. rewrite Hs2, mm_ram_set_pglist, mm_ram_set_mm_ram.
    apply (page_bit_word_same r (pfn - region_pfn r)); [lia | done | apply untouched_bmap_clear; lia |].
    intros k Hk. rewrite page_bit_bmap_clear by lia. zcase; [by subst | done]. }
  assert (Hfp : pgl_free_pages (pglists s2 r) = pgl_free_pages (pglists s r) + 2).
  { rewrite Hp, decide_True by done. cbn. rewrite (fp_count _ _ _ _ Hf).
    destruct (Hinv r) as (Hi0 & _). pose proof (inv_count _ _ Hi0).
    pose proof (allocated_bounded (mm_ram s) _ (inv_geom _ _ Hi0)).
    pose proof (geom_end _ (inv_geom _ _ Hi0)). pose proof (geom_start _ (inv_geom _ _ Hi0)).
    rewrite u32_small by lia. lia. }
  split_and!; [|done|].
  - intros r' q. unfold owned. by rewrite Hal.
  - intros Hinv2. destruct (Hinv2 r) as ([_ Hc2 _] & _ & Hs3). pose proof (inv_count _ _ Hi) as Hc.
    rewrite Hs3, Hal in Hc2. rewrite Hs in Hc. rewrite (fp_count _ _ _ _ Hf) in Hc. lia.
Qed.

(** [get_mem_region] names the region of every frame that a region owns;
    the frame at ENDMEM, which no region contains, is also taken for a user
    frame because the bound is tested with [>]. *)
Theorem get_mem_region_correct :
  (forall s r pfn, mm_inv s -> owned s r pfn -> get_mem_region pfn = Some r) /\
  (forall pfn, 0 <= pfn < 2^32 -> 4096 * pfn < REGION_OS_DS_START \/ ENDMEM < 4096 * pfn ->
     get_mem_region pfn = None) /\
  get_mem_region (ENDMEM / 4096) = Some USER_REG.
Proof.
  split_and!; [| |done].
  - intros s r pfn Hinv Ho. apply (owned_range s) in Ho; [|done]. unfold get_mem_region.
    unfold PAGE_SHIFT. rewrite shiftl_12. rewrite Z.gtb_ltb, !Z.geb_leb.
    rewrite (u32_small pfn), u64_small by (clear - Ho; region_nums r; lia). clear Hinv.
    unfold REGION_OS_DS_START, REGION_OS_PT_START, REGION_USER_START, ENDMEM.
    region_nums r; zcase; cbn; try done; lia.
  - intros pfn Hp Hout. unfold get_mem_region, PAGE_SHIFT. rewrite shiftl_12, Z.gtb_ltb.
    rewrite (u32_small pfn), u64_small by lia. zcase; cbn; try done; lia.
Qed.

(** ** Concrete states for the witnesses *)

Lemma boot_available r : (0 < available boot_mm r)%nat.
Proof. unfold boot_mm. rewrite available_init_pagelists by apply bitmaps_zero_reset. destruct r; lia. Qed.

(** The OS data region with its first 768 frames taken. *)
Definition full_ds_mm : mm :=
  set_pglist OS_DS_REG (set_free_pages (pgl_os_ds boot_mm) (6144 - 768))
    (set_mm_ram (reserve_loop 768 (mm_ram boot_mm) (region_start OS_DS_REG) 0) boot_mm).

Lemma full_ds_untouched : untouched (bitmap_area OS_DS_REG) (mm_ram boot_mm) (mm_ram full_ds_mm).
Proof.
  apply untouched_reserve_loop; [lia|]. intros j a Hj. unfold bitmap_word, bitmap_area.
  region_num_with OS_DS_REG 0x800000 2048 6144 1 2049. zdm.
Qed.

Lemma full_ds_bit i :
  0 <= i < 6144 ->
  page_bit (mm_ram full_ds_mm) (region_start OS_DS_REG) i = (i <? 768).
Proof.
  intros Hi. change (mm_ram full_ds_mm) with
    (reserve_loop 768 (mm_ram boot_mm) (region_start OS_DS_REG) 0).
  rewrite page_bit_reserve_loop by lia.
  destruct (init_pagelists_ready reset_mm OS_DS_REG bitmaps_zero_reset) as (_ & Ha & _).
  fold boot_mm in Ha. pose proof (proj1 (set_eq _ _) Ha i) as Hal.
  rewrite elem_of_allocated, elem_of_list_to_set, elem_of_seqZ in Hal.
  change (pgl_bitmap (pglists boot_mm OS_DS_REG)) with (region_start OS_DS_REG) in Hal.
  change (pgl_size (pglists boot_mm OS_DS_REG)) with 6144 in Hal.
  change (pages_to_reserve (region_frames OS_DS_REG)) with 1 in Hal.
  clear Ha. change (Z.of_nat 768) with 768.
  destruct (page_bit (mm_ram boot_mm) (region_start OS_DS_REG) i).
  - pose proof (proj1 Hal (conj Hi eq_refl)). clear Hal. zcase; try reflexivity; lia.
  - clear Hal. zcase; try reflexivity; lia.
Qed.

Lemma full_ds_inv : mm_inv full_ds_mm.
Proof.
  intros r. destruct (decide (r = OS_DS_REG)) as [->|Hne].
  - split; [|done]. destruct (boot_mm_inv OS_DS_REG) as ([Hg _ _] & _).
    split; [destruct Hg; by split | |].
    + assert (E : allocated (mm_ram full_ds_mm) (pglists full_ds_mm OS_DS_REG)
        = list_to_set (seqZ 0 768)).
      { apply set_eq. intros i. rewrite elem_of_allocated, elem_of_list_to_set, elem_of_seqZ.
        change (pgl_bitmap (pglists full_ds_mm OS_DS_REG)) with (region_start OS_DS_REG).
        change (pgl_size (pglists full_ds_mm OS_DS_REG)) with 6144.
        split; [intros [Hi Hb]; rewrite full_ds_bit in Hb by done; apply Z.ltb_lt in Hb; lia|].
        intros Hi. split; [lia|]. rewrite full_ds_bit by lia. apply Z.ltb_lt. lia. }
      rewrite E, size_seqZ by lia. done.
    + intros i. change (pages_to_reserve _) with 1. intros Hi.
      change (pgl_bitmap _) with (region_start OS_DS_REG). rewrite full_ds_bit by lia.
      apply Z.ltb_lt. lia.
  - destruct (pgl_inv_other_bitmap boot_mm OS_DS_REG r (mm_ram full_ds_mm) boot_mm_inv Hne
      full_ds_untouched) as (Hi & _).
    destruct (boot_mm_inv r) as (_ & Hst & Hs). by destruct r.
Qed.

Lemma full_ds_exhausted : window_exhausted full_ds_mm OS_DS_REG.
Proof.
  intros i. change (region_frames OS_DS_REG) with 6144. intros Hi.
  change (pgl_bitmap _) with (region_start OS_DS_REG).
  rewrite full_ds_bit by (clear - Hi; zdm). apply Z.ltb_lt. clear - Hi; zdm.
Qed.

(** A frame handed out by the boot state. *)
Definition one_user_page : mm := (os_pfn_alloc USER_REG boot_mm).2.

Lemma one_user_page_inv : mm_inv one_user_page.
Proof. by apply os_pfn_alloc_ok; [apply boot_mm_inv | apply boot_available]. Qed.

Lemma one_user_page_owned : owned one_user_page USER_REG (os_pfn_alloc USER_REG boot_mm).1.
Proof.
  apply (ap_owned _ _ _ _ (os_pfn_alloc_ok USER_REG boot_mm boot_mm_inv (boot_available _))).
  by right.
Qed.

(** ** Witnesses *)

Lemma os_pfn_alloc_fresh_witness :
  alloc_post OS_PT_REG boot_mm (os_pfn_alloc OS_PT_REG boot_mm).1 (os_pfn_alloc OS_PT_REG boot_mm).2.
Proof. apply os_pfn_alloc_fresh; [exact boot_mm_inv | apply boot_available]. Defined.

Lemma mm_reachable_invariant_witness :
  pgl_free_pages (pglists one_user_page USER_REG) = 105472 - Z.of_nat
    (size (allocated (mm_ram one_user_page) (pglists one_user_page USER_REG))).
Proof.
  refine (proj1 (mm_reachable_invariant one_user_page USER_REG _)).
  apply (reach_step boot_mm); [apply reach_boot, bitmaps_zero_reset|].
  apply step_alloc, boot_available.
Defined.

Lemma alloc_run_no_duplicates_witness :
  length (alloc_run 700 OS_DS_REG boot_mm).1 = 700%nat /\ NoDup (alloc_run 700 OS_DS_REG boot_mm).1.
Proof.
  destruct (alloc_run_no_duplicates 700 OS_DS_REG boot_mm boot_mm_inv) as (H1 & H2 & _); [|by split].
  unfold boot_mm. rewrite available_init_pagelists by apply bitmaps_zero_reset. lia.
Defined.

Lemma init_pagelists_ready_capacity_witness : mm_inv (init_pagelists reset_mm).
Proof. apply init_pagelists_ready_capacity. exact bitmaps_zero_reset. Defined.

Lemma os_pfn_alloc_free_roundtrip_witness :
  let '(pfn, s1) := os_pfn_alloc USER_REG boot_mm in mm_inv (os_pfn_free USER_REG pfn s1).
Proof.
  pose proof (os_pfn_alloc_free_roundtrip USER_REG boot_mm boot_mm_inv (boot_available _)) as H.
  destruct (os_pfn_alloc USER_REG boot_mm). exact (proj1 H).
Defined.

Lemma os_pfn_alloc_out_of_memory_witness : (os_pfn_alloc USER_REG reset_mm).1 = 0.
Proof. rewrite os_pfn_alloc_out_of_memory; reflexivity. Defined.

Lemma os_pfn_alloc_exhausted_duplicates_witness :
  let '(l, s') := alloc_run 3 OS_DS_REG full_ds_mm in
  l = [2080; 2080; 2080] /\ owned full_ds_mm OS_DS_REG 2080 /\ ~ mm_inv s'.
Proof.
  pose proof (os_pfn_alloc_exhausted_duplicates 3 OS_DS_REG full_ds_mm full_ds_inv
    full_ds_exhausted ltac:(done)) as H.
  destruct (alloc_run 3 OS_DS_REG full_ds_mm) as [l s'].
  destruct H as (-> & H1 & _ & _ & H2 & _). split; [reflexivity|]. split; [exact H1|]. exact (H2 ltac:(discriminate)).
Defined.

Lemma os_pfn_free_twice_overcounts_witness :
  let pfn := (os_pfn_alloc USER_REG boot_mm).1 in
  ~ mm_inv (os_pfn_free USER_REG pfn (os_pfn_free USER_REG pfn one_user_page)).
Proof.
  apply (os_pfn_free_twice_overcounts USER_REG one_user_page).
  - exact one_user_page_inv.
  - exact one_user_page_owned.
Defined.
