(* ===== verification/NextFrames.v ===== *)
(** * The frames that come next

    The allocator of memory.c is deterministic: it hands out the free frames
    of its window in ascending order.  [next s r] lists them; an allocation
    takes the head. *)
From S2P Require Import Prelude Mem Lib Machine Memory PageAlloc.
#[local] Open Scope gemos_scope.

(** The clear bits of the window, in order. *)
Definition next_bits (m : mem) (p : page_list) : list Z :=
  filter (fun i => page_bit m (pgl_bitmap p) i = false)
    (seqZ (32 * pgl_last_free_pos p) (32 * (pgl_size p / 256) - 32 * pgl_last_free_pos p)).

Definition next (s : mm) (r : region) : list Z :=
  (fun i => region_pfn r + i) <$> next_bits (mm_ram s) (pglists s r).

Lemma available_next s r : available s r = length (next s r).
Proof.
  unfold available, next, avail. rewrite length_fmap. fold (next_bits (mm_ram s) (pglists s r)).
  apply size_list_to_set, NoDup_filter, NoDup_seqZ.
Qed.

Lemma seqZ_split a n b : a <= b <= a + n -> seqZ a n = seqZ a (b - a) ++ seqZ b (a + n - b).
Proof.
  intros Hb. replace n with ((b - a) + (a + n - b)) at 1 by lia. rewrite seqZ_app by lia.
  by replace (a + (b - a)) with b by lia.
Qed.

Lemma filter_none {A} (P : A -> Prop) `{!forall x, Decision (P x)} (l : list A) : (forall x, x ∈ l -> ~ P x) -> filter P l = [].
Proof.
  induction l as [|x l IH]; intros Hn; [done|]. rewrite filter_cons_False by (apply Hn; left).
  apply IH. intros y Hy. apply Hn. by right.
Qed.

Lemma filter_all {A} (P : A -> Prop) `{!forall x, Decision (P x)} (l : list A) : (forall x, x ∈ l -> P x) -> filter P l = l.
Proof.
  induction l as [|x l IH]; intros Hp; [done|]. rewrite filter_cons_True by (apply Hp; left).
  f_equal. apply IH. intros y Hy. apply Hp. by right.
Qed.

Lemma filter_same {A} (P Q : A -> Prop) `{!forall x, Decision (P x)} `{!forall x, Decision (Q x)} (l : list A) :
  (forall x, x ∈ l -> P x <-> Q x) -> filter P l = filter Q l.
Proof.
  induction l as [|x l IH]; intros Hpq; [done|].
  assert (IH' : filter P l = filter Q l) by (apply IH; intros y Hy; apply Hpq; by right).
  rewrite !filter_cons. rewrite IH'. pose proof (Hpq x ltac:(left)). repeat case_decide; tauto || done.
Qed.

(** Taking the first clear bit. *)
Lemma next_bits_alloc m p i fp :
  0 <= pgl_last_free_pos p -> in_window p i -> page_bit m (pgl_bitmap p) i = false ->
  (forall j, 32 * pgl_last_free_pos p <= j < i -> page_bit m (pgl_bitmap p) j = true) ->
  next_bits m p = i :: next_bits (pgl_bmap_set m (pgl_bitmap p) i) (set_free_pages (set_last_free_pos p (i / 32)) fp).
Proof.
  intros Hl [Hil Hih] Hi Hall. unfold next_bits.
  cbn [pgl_bitmap pgl_size pgl_last_free_pos set_free_pages set_last_free_pos].
  set (lo := 32 * pgl_last_free_pos p) in *. set (hi := 32 * (pgl_size p / 256)) in *.
  assert (Hb : forall j, 0 <= j -> page_bit (pgl_bmap_set m (pgl_bitmap p) i) (pgl_bitmap p) j = (j =? i) || page_bit m (pgl_bitmap p) j).
  { intros j Hj. by rewrite page_bit_bmap_set by (unfold lo in *; lia). }
  assert (Hlo : 0 <= lo) by (unfold lo; lia).
  rewrite (seqZ_split lo (hi - lo) i) by lia. rewrite (seqZ_split (32 * (i / 32)) (hi - 32 * (i / 32)) (i + 1)) by zdm.
  rewrite (seqZ_cons i) by lia. rewrite !filter_app.
  rewrite (filter_none _ (seqZ lo (i - lo))).
  2:{ intros j Hj%elem_of_seqZ. rewrite Hall by lia. done. }
  rewrite (filter_none _ (seqZ (32 * (i / 32)) (i + 1 - 32 * (i / 32)))).
  2:{ intros j Hj%elem_of_seqZ. rewrite Hb by zdm. destruct (Z.eqb_spec j i); [done|]. rewrite Hall; [done|]. unfold lo in *. zdm. }
  cbn [app]. rewrite filter_cons_True by done. f_equal.
  replace (Z.succ i) with (i + 1) by lia. replace (lo + (hi - lo) - i) with (hi - i) by lia.
  replace (Z.pred (hi - i)) with (32 * (i / 32) + (hi - 32 * (i / 32)) - (i + 1)) by lia.
  apply filter_same. intros j Hj%elem_of_seqZ. rewrite Hb by lia. by rewrite (proj2 (Z.eqb_neq j i)) by lia.
Qed.

(** Memory outside the bitmaps does not matter. *)
Lemma next_untouched P s s' r :
  mm_inv s -> untouched P (mm_ram s) (mm_ram s') -> (forall a, P a -> ~ bitmap_area r a) ->
  pglists s' r = pglists s r -> next s' r = next s r.
Proof.
  intros Hinv Hu HP E. unfold next, next_bits. rewrite E. f_equal. destruct (Hinv r) as (Hi & Hst & Hs).
  apply filter_same. intros j Hj%elem_of_seqZ. pose proof (inv_geom _ _ Hi) as Hg.
  pose proof (geom_last _ Hg). pose proof (geom_size _ Hg). pose proof (region_bounds r) as HB.
  rewrite (page_bit_untouched P (mm_ram s) (mm_ram s')); [done|exact Hu|]. intros a Ha Hp. apply (HP a Hp).
  apply (bitmap_word_reserved _ Hg) in Ha; [|zdm]. rewrite Hst, Hs in Ha. unfold bitmap_area, region_first. lia.
Qed.

Lemma next_emit e s r : next (mm_emit e s) r = next s r.
Proof. by destruct r. Qed.

Lemma next_store s r q m' r' :
  mm_inv s -> owned s r q -> untouched (in_frame q) (mm_ram s) m' -> next (set_mm_ram m' s) r' = next s r'.
Proof.
  intros Hinv Ho Hu. apply (next_untouched (in_frame q)); [done|exact Hu| |by destruct r'].
  intros a. apply (in_frame_bitmap s r r' q a Hinv). by apply (owned_range s).
Qed.

(** [get_free_page], by the bit it finds. *)
Lemma os_pfn_alloc_step r s :
  mm_inv s -> (0 < available s r)%nat ->
  exists i, let p := pglists s r in let s' := (os_pfn_alloc r s).2 in
    (os_pfn_alloc r s).1 = region_pfn r + i /\
    next_bits (mm_ram s) p = i :: next_bits (pgl_bmap_set (mm_ram s) (pgl_bitmap p) i) (pglists s' r) /\
    (forall r', r' <> r -> pglists s' r' = pglists s r') /\
    untouched (fun a => r = OS_PT_REG /\ in_frame (region_pfn r + i) a) (pgl_bmap_set (mm_ram s) (pgl_bitmap p) i) (mm_ram s').
Proof.
  intros Hinv Hav. pose proof (os_pfn_alloc_ok r s Hinv Hav) as Hp. destruct (Hinv r) as (Hi & Hst & Hs).
  destruct (get_free_page_window (mm_ram s) (pglists s r) (inv_geom _ _ Hi)) as (i & Hw & Hb & Hf & E).
  { apply window_has_free_avail. unfold available in Hav. lia. }
  exists i. cbv zeta. pose proof (ap_range _ _ _ _ Hp) as Hr. pose proof (region_bounds r) as HB.
  pose proof (next_bits_alloc (mm_ram s) (pglists s r) i (u32 (pgl_free_pages (pglists s r) - 1))
    (proj1 (geom_last _ (inv_geom _ _ Hi))) Hw Hb Hf) as En.
  unfold os_pfn_alloc in *. destruct (Z.leb_spec (pgl_free_pages (pglists s r)) 0); [cbn [fst] in Hr; lia|].
  rewrite E in *. assert (Epfn : i + pgl_start_address (pglists s r) / 4096 = region_pfn r + i) by (rewrite Hst; unfold region_pfn; lia).
  set (p' := set_free_pages _ _) in *. set (m1 := pgl_bmap_set _ _ _) in *. set (s1 := set_pglist r p' (set_mm_ram m1 s)) in *.
  assert (Hs1 : forall r', pglists s1 r' = if decide (r' = r) then p' else pglists s r').
  { intros r'. unfold s1. rewrite pglists_set_pglist. by destruct r'. }
  assert (Hm1 : mm_ram s1 = m1) by apply mm_ram_set_pglist. clearbody s1.
  rewrite Epfn in *. case_decide as Er; cbn [fst snd] in *.
  - split; [done|]. split; [|split].
    + change (pglists (set_mm_ram ?m s1) r) with (pglists s1 r). rewrite (Hs1 r), decide_True by done. exact En.
    + intros r' Hne. change (pglists (set_mm_ram ?m s1) r') with (pglists s1 r'). by rewrite (Hs1 r'), decide_False.
    + change (mm_ram (set_mm_ram ?m s1)) with m. rewrite Hm1. apply untouched_bzero.
      unfold PAGE_SHIFT, PAGE_SIZE, in_frame. rewrite shiftl_12, u64_small by lia. intros a Ha. split; [done|lia].
  - split; [done|]. split; [|split].
    + rewrite (Hs1 r), decide_True by done. exact En.
    + intros r' Hne. by rewrite (Hs1 r'), decide_False.
    + rewrite Hm1. apply untouched_refl.
Qed.

(** An allocation takes the head of its region's list, and no other. *)
Lemma next_alloc r s r' :
  mm_inv s -> (0 < available s r)%nat ->
  next s r' = if decide (r' = r) then (os_pfn_alloc r s).1 :: next (os_pfn_alloc r s).2 r' else next (os_pfn_alloc r s).2 r'.
Proof.
  intros Hinv Hav. pose proof (os_pfn_alloc_ok r s Hinv Hav) as Hp.
  destruct (os_pfn_alloc_step r s Hinv Hav) as (i & Eq & En & Eo & Hu). set (s' := (os_pfn_alloc r s).2) in *. rewrite Eq.
  case_decide as Er.
  - subst r'. unfold next. rewrite En, fmap_cons. do 2 f_equal. unfold next_bits. pose proof (ap_range _ _ _ _ Hp) as Hr. rewrite Eq in Hr.
    pose proof (ap_inv _ _ _ _ Hp r) as (Hi & Hst & Hs). fold s' in Hi, Hst, Hs.
    apply filter_same. intros j Hj%elem_of_seqZ. pose proof (inv_geom _ _ Hi) as Hg.
    pose proof (geom_last _ Hg). pose proof (geom_size _ Hg). pose proof (region_bounds r) as HB.
    rewrite (page_bit_untouched _ _ _ (pgl_bitmap (pglists s' r)) j Hu); [done|]. intros a Ha [_ Hin].
    apply (bitmap_word_reserved _ Hg) in Ha; [|zdm]. rewrite Hst, Hs in Ha. unfold in_frame, region_first in *. lia.
  - symmetry. apply (next_untouched (fun a => bitmap_area r a \/ r = OS_PT_REG /\ in_frame (region_pfn r + i) a)); [done| | |by apply Eo].
    + pose proof (ap_ram _ _ _ _ Hp) as Hm. rewrite Eq in Hm. exact Hm.
    + pose proof (ap_range _ _ _ _ Hp) as Hr. rewrite Eq in Hr. intros a [Ha|[_ Ha]] Hb.
      * apply Er. pose proof (region_bounds r). pose proof (region_bounds r'). unfold bitmap_area in *.
        apply (regions_disjoint r' r a); unfold region_first in *; lia.
      * by apply (in_frame_bitmap s r r' (region_pfn r + i) a Hinv Hr Ha).
Qed.

(** ** At start-up *)

Lemma init_pagelists_scan s r : pgl_last_free_pos (pglists (init_pagelists s) r) = 0.
Proof. by destruct r. Qed.

(** From zeroed bitmaps the frames come in order. *)
Lemma next_init_pagelists s r :
  bitmaps_zero s ->
  next (init_pagelists s) r = seqZ (region_first r) (32 * (region_frames r / 256) - pages_to_reserve (region_frames r)).
Proof.
  intros Hz. destruct (init_pagelists_ready s r Hz) as ((Hp & Hst & Hsz) & Ha & _).
  unfold next, next_bits. rewrite init_pagelists_scan, Hsz, Z.mul_0_r, Z.sub_0_r.
  set (m := mm_ram (init_pagelists s)) in *. set (p := pglists (init_pagelists s) r) in *. clearbody m p.
  assert (Hb : forall j, 0 <= j < region_frames r -> page_bit m (pgl_bitmap p) j = true <-> j < pages_to_reserve (region_frames r)).
  { intros j Hj. assert (E : j ∈ allocated m p <-> j < pages_to_reserve (region_frames r)).
    { rewrite Ha, elem_of_list_to_set, elem_of_seqZ. lia. }
    rewrite <- E. unfold allocated. rewrite elem_of_list_to_set, list_elem_of_filter, elem_of_seqZ, Hsz. intuition. }
  set (n := pages_to_reserve (region_frames r)) in *. assert (Hn : 0 <= n <= 32 * (region_frames r / 256)) by (unfold n; by destruct r).
  assert (Hf : 32 * (region_frames r / 256) <= region_frames r) by (by destruct r).
  rewrite (seqZ_split 0 _ n) by lia. rewrite filter_app, Z.sub_0_r, Z.add_0_l.
  rewrite filter_none. 2:{ intros j Hj%elem_of_seqZ. rewrite (proj2 (Hb j ltac:(lia))) by lia. done. }
  cbn [app]. replace (filter _ _) with (seqZ n (32 * (region_frames r / 256) - n)).
  - apply list_eq. intros i. rewrite list_lookup_fmap. destruct (decide (0 <= Z.of_nat i < 32 * (region_frames r / 256) - n)).
    + rewrite !lookup_seqZ_lt by lia. cbn. f_equal. unfold region_first. fold n. lia.
    + rewrite !lookup_seqZ_ge by lia. done.
  - symmetry. apply filter_all. intros j Hj%elem_of_seqZ. apply not_true_iff_false. rewrite Hb by lia. lia.
Qed.
