(* ===== verification/Frames.v ===== *)
(** * The interface between the page-frame allocator and its clients

    [FrameStore] is what page-table code uses: memory, allocation and freeing
    of frames, and the trace of effects.  [FrameLaws] is what it relies on.
    The clients' theorems are proved against the laws; [mm_frames] and
    [mm_frame_laws] discharge them for the allocator of memory.c. *)
From S2P Require Import Prelude Mem Lib Machine Memory PageAlloc NextFrames.

(** The memory below the regions: the kernel's image and the boot tables. *)
Definition low_memory (a : Z) : Prop := a < 0x800000.

Class FrameStore (S : Type) := {
  fs_ram : S -> mem;
  fs_set_ram : mem -> S -> S;
  fs_alloc : region -> S -> Z * S;
  fs_free : region -> Z -> S -> S;
  fs_emit : event -> S -> S
}.

(** [frames_same own s m]: [m] reads as the memory of [s] in all owned frames. *)
Definition frames_same {S} `{FrameStore S} (own : S -> region -> Z -> Prop)
    (s : S) (m' : mem) : Prop :=
  forall r q a, own s r q -> in_frame q a -> ld8 m' a = ld8 (fs_ram s) a.

Class FrameLaws (S : Type) `{FrameStore S} := {
  fl_inv : S -> Prop;
  fl_owned : S -> region -> Z -> Prop;
  fl_avail : S -> region -> nat;
  fl_next : S -> region -> list Z;
  fl_set_ram m s : fs_ram (fs_set_ram m s) = m;
  fl_emit_ram e s : fs_ram (fs_emit e s) = fs_ram s;
  fl_emit e s : fl_inv s ->
    fl_inv (fs_emit e s) /\ (forall r q, fl_owned (fs_emit e s) r q <-> fl_owned s r q) /\
    (forall r, fl_avail (fs_emit e s) r = fl_avail s r);
  fl_range s r q : fl_inv s -> fl_owned s r q ->
    region_first r <= q < region_pfn r + region_frames r;
  fl_store s r q m' : fl_inv s -> fl_owned s r q -> untouched (in_frame q) (fs_ram s) m' ->
    fl_inv (fs_set_ram m' s) /\
    (forall r' q', fl_owned (fs_set_ram m' s) r' q' <-> fl_owned s r' q') /\
    (forall r', fl_avail (fs_set_ram m' s) r' = fl_avail s r');
  fl_alloc s r : fl_inv s -> (0 < fl_avail s r)%nat ->
    let q := (fs_alloc r s).1 in let s' := (fs_alloc r s).2 in
    fl_inv s' /\ ~ fl_owned s r q /\ fl_owned s' r q /\
    (forall r' q', fl_owned s' r' q' <-> fl_owned s r' q' \/ (r' = r /\ q' = q)) /\
    (forall r', fl_avail s r' = if decide (r' = r) then Datatypes.S (fl_avail s' r') else fl_avail s' r') /\
    (r = OS_PT_REG -> forall a, in_frame q a -> ld8 (fs_ram s') a = 0) /\
    frames_same fl_owned s (fs_ram s');
  fl_alloc_low s r a : fl_inv s -> (0 < fl_avail s r)%nat -> low_memory a ->
    ld8 (fs_ram (fs_alloc r s).2) a = ld8 (fs_ram s) a;
  fl_free s r q : fl_inv s -> fl_owned s r q ->
    let s' := fs_free r q s in
    fl_inv s' /\
    (forall r' q', fl_owned s' r' q' <-> fl_owned s r' q' /\ ~ (r' = r /\ q' = q)) /\
    (forall r', (fl_avail s r' <= fl_avail s' r')%nat) /\
    frames_same fl_owned s (fs_ram s');
  fl_next_length s r : fl_avail s r = length (fl_next s r);
  fl_next_emit e s r : fl_next (fs_emit e s) r = fl_next s r;
  fl_next_store s r q m' r' : fl_inv s -> fl_owned s r q -> untouched (in_frame q) (fs_ram s) m' ->
    fl_next (fs_set_ram m' s) r' = fl_next s r';
  fl_next_alloc s r r' : fl_inv s -> (0 < fl_avail s r)%nat ->
    fl_next s r' = if decide (r' = r) then (fs_alloc r s).1 :: fl_next (fs_alloc r s).2 r' else fl_next (fs_alloc r s).2 r'
}.

(** Frames of different regions never coincide. *)
Lemma fl_region {S} `{FrameLaws S} s r r' q :
  fl_inv s -> fl_owned s r q -> fl_owned s r' q -> r = r'.
Proof.
  intros Hi H1 H2. apply fl_range in H1, H2; [|done..].
  pose proof (region_bounds r). pose proof (region_bounds r').
  apply (regions_disjoint r r' (4096 * q)); lia.
Qed.

Lemma fl_high {S} `{FrameLaws S} s r q a : fl_inv s -> fl_owned s r q -> in_frame q a -> ~ low_memory a.
Proof.
  intros Hi Ho Ha. apply fl_range in Ho; [|done]. unfold low_memory, in_frame in *. region_nums r; lia.
Qed.

(** ** memory.c implements the interface *)

#[export] Instance mm_frames : FrameStore mm := {
  fs_ram := mm_ram;
  fs_set_ram := set_mm_ram;
  fs_alloc := os_pfn_alloc;
  fs_free := os_pfn_free;
  fs_emit := mm_emit
}.

Lemma owned_not_bitmap s r r' q a :
  mm_inv s -> owned s r q -> in_frame q a -> ~ bitmap_area r' a.
Proof. intros Hi Ho. apply (in_frame_bitmap s r r' q); [done | by apply (owned_range s)]. Qed.

Lemma frames_distinct q q' a : in_frame q a -> in_frame q' a -> q = q'.
Proof. unfold in_frame. lia. Qed.

Lemma mm_emit_owned e s r q : owned (mm_emit e s) r q <-> owned s r q.
Proof. by destruct r. Qed.

#[export] Program Instance mm_frame_laws : FrameLaws mm := {
  fl_inv := mm_inv;
  fl_owned := owned;
  fl_avail := available;
  fl_next := next
}.
Next Obligation. done. Qed.
Next Obligation. done. Qed.
Next Obligation.
  intros e s Hinv. split_and!.
  - intros r. by destruct (Hinv r), r.
  - intros r q. apply mm_emit_owned.
  - by intros [].
Qed.
Next Obligation. intros s r q. apply owned_range. Qed.
Next Obligation.
  intros s r q m' Hinv Ho Hu. apply (mm_inv_untouched (in_frame q)); [done..|].
  intros r' a Ha. by apply (owned_not_bitmap s r r' q).
Qed.
Next Obligation.
  intros s r Hinv Hav. change (fs_alloc r s) with (os_pfn_alloc r s).
  pose proof (os_pfn_alloc_ok r s Hinv Hav) as Hp.
  destruct (os_pfn_alloc r s) as [q s']. cbn [fst snd] in *.
  pose proof (ap_owned _ _ _ _ Hp) as Ho. split_and!; [apply Hp | apply Hp | apply Ho; auto |
    exact Ho | exact (ap_avail _ _ _ _ Hp) | exact (ap_zero _ _ _ _ Hp) |].
  intros r' q' a Hq' Ha. apply (ap_ram _ _ _ _ Hp). intros [Hb|[-> Hin]].
  - by apply (owned_not_bitmap s r' r q' a).
  - assert (q' = q) as -> by (by apply (frames_distinct _ _ a)).
    pose proof (owned_range s r' _ Hinv Hq'). pose proof (ap_range _ _ _ _ Hp).
    pose proof (region_bounds OS_PT_REG). pose proof (region_bounds r').
    assert (r' = OS_PT_REG) as -> by (apply (regions_disjoint r' OS_PT_REG (4096 * q)); lia).
    exact (ap_fresh _ _ _ _ Hp Hq').
Qed.
Next Obligation.
  intros s r a Hinv Hav Ha. apply (ap_ram _ _ _ _ (os_pfn_alloc_ok r s Hinv Hav)).
  pose proof (ap_range _ _ _ _ (os_pfn_alloc_ok r s Hinv Hav)) as Hq. unfold low_memory, bitmap_area, in_frame in *.
  cbn. intros [Hb|[_ Hb]]; revert Hb Hq; region_nums r; lia.
Qed.
Next Obligation.
  intros s r q Hinv Ho s'. pose proof (os_pfn_free_ok r s q Hinv Ho) as Hf.
  split_and!; [apply Hf | exact (fp_owned _ _ _ _ Hf) | exact (fp_avail _ _ _ _ Hf) |].
  intros r' q' a Hq' Ha. apply (fp_ram _ _ _ _ Hf). by apply (owned_not_bitmap s r' r q').
Qed.
Next Obligation. exact available_next. Qed.
Next Obligation. exact next_emit. Qed.
Next Obligation. exact next_store. Qed.
Next Obligation. intros s r r'. exact (next_alloc r s r'). Qed.
