(* ===== verification/OsAlloc.v ===== *)
(** * The small-object heap: os_alloc, os_free and the node allocator

    The second half of memory.c and the list functions of lib.c.  The heap
    keeps its state in OS_DS frames: a page of [struct osalloc_chunk]s, one
    per size class, and 100 pages of 16-byte list nodes.  A function whose C
    body dereferences NULL, or whose loop leaves the node memory, is [None].

    Layout: [struct osalloc_chunk] is 48 bytes (chunk_size at 0, free_position
    at 2, current_pfn at 4, freelist at 8, bitmap at 32); [struct list] has
    head at 0, tail at 8 and size at 16; [struct node] is 16 bytes, value at 0
    and next (or prev) at 8. *)
From S2P Require Import Prelude Mem Lib Machine Memory PageAlloc Frames.
#[local] Open Scope gemos_scope.

Definition OSALLOC_MAX : Z := 7.
Definition NODE_MEM_PAGES : Z := 100.
Definition sizeof_osalloc_chunk : Z := 48.
Definition sizeof_node : Z := 16.

Record nodealloc_memory := NodeMem {
  next_free : Z; (* u32 *)
  num_free : Z;  (* u32 *)
  nodes : Z;     (* address of the first node *)
  node_end : Z   (* [end]: address after the last one *)
}.

Record heap := Heap {
  h_mm : mm;
  osalloc_base : Z;
  nodemem : nodealloc_memory
}.

Definition h_ram (h : heap) : mem := mm_ram (h_mm h).
Definition set_h_mm (s : mm) (h : heap) : heap := Heap s (osalloc_base h) (nodemem h).
Definition set_h_ram (m : mem) (h : heap) : heap := set_h_mm (set_mm_ram m (h_mm h)) h.
Definition set_nodemem (nm : nodealloc_memory) (h : heap) : heap := Heap (h_mm h) (osalloc_base h) nm.
Definition set_node_free (nf nu : Z) (h : heap) : heap :=
  set_nodemem (NodeMem nf nu (nodes (nodemem h)) (node_end (nodemem h))) h.
Definition h_printf (fmt : string) (args : list parg) (h : heap) : heap :=
  set_h_mm (mm_printf fmt args (h_mm h)) h.

(** ** struct node and struct list *)

Definition node_value (m : mem) (n : Z) : Z := ld64 m n.
Definition node_next (m : mem) (n : Z) : Z := ld64 m (n + 8).
Definition set_node_value (m : mem) (n v : Z) : mem := st64 m n v.
Definition set_node_next (m : mem) (n v : Z) : mem := st64 m (n + 8) v.
Definition list_head (m : mem) (l : Z) : Z := ld64 m l.
Definition list_tail (m : mem) (l : Z) : Z := ld64 m (l + 8).
Definition list_size (m : mem) (l : Z) : Z := ld64 m (l + 16).

Definition init_list (m : mem) (l : Z) : mem := st64 (st64 (st64 m l 0) (l + 8) 0) (l + 16) 0.
Definition is_empty (m : mem) (l : Z) : bool := list_size m l =? 0.

(** ** The node allocator *)

(** The first [while] of [node_alloc]: it stops at a node without successor,
    or at the end of the node memory, which costs [next_free] one step less. *)
Fixpoint node_scan (fuel : nat) (m : mem) (last n nf : Z) : option (Z * Z) :=
  match fuel with
  | O => None
  | S fuel =>
      if node_next m n =? 0 then Some (n, nf)
      else
        let n := n + sizeof_node in
        if n >=? last then Some (n, nf) else node_scan fuel m last n (u32 (nf + 1))
  end.

(** The second one, from the first node: it has no bound of its own. *)
Fixpoint node_rescan (fuel : nat) (m : mem) (n nf : Z) : option (Z * Z) :=
  match fuel with
  | O => None
  | S fuel => if node_next m n =? 0 then Some (n, nf) else node_rescan fuel m (n + sizeof_node) (u32 (nf + 1))
  end.

(** As many nodes as the node memory holds. *)
Definition node_fuel : nat := Z.to_nat (NODE_MEM_PAGES * 256).

Definition node_found (n nf : Z) (h : heap) : Z * heap :=
  (n, set_node_free (u32 (nf + 1)) (u32 (num_free (nodemem h) - 1)) h).

Definition node_alloc (h : heap) : option (Z * heap) :=
  let nm := nodemem h in
  let n := nodes nm + sizeof_node * next_free nm in
  if num_free nm =? 0 then Some (0, h_printf "node memory full\n" [] h)
  else if node_next (h_ram h) n =? 0 then Some (node_found n (next_free nm) h)
  else
    match node_scan (S node_fuel) (h_ram h) (node_end nm) n (next_free nm) with
    | None => None
    | Some (n, nf) =>
        if n >=? node_end nm then
          match node_rescan node_fuel (h_ram h) (nodes nm) 0 with
          | None => None
          | Some (n, nf) => Some (node_found n nf h)
          end
        else Some (node_found n nf h)
    end.

Definition node_free (n : Z) (h : heap) : heap :=
  set_h_ram (set_node_next (h_ram h) n 0)
    (set_node_free (next_free (nodemem h)) (u32 (num_free (nodemem h) + 1)) h).

(** ** Lists (lib.c) *)

(** [if(!l->head){ l->head = node_alloc(); l->tail = node_alloc(); }] *)
Definition list_ends (l : Z) (h : heap) : option heap :=
  if list_head (h_ram h) l =? 0 then
    match node_alloc h with
    | None => None
    | Some (hd, h) =>
        let h := set_h_ram (st64 (h_ram h) l hd) h in
        match node_alloc h with
        | None => None
        | Some (tl, h) => Some (set_h_ram (st64 (h_ram h) (l + 8) tl) h)
        end
    end
  else Some h.

Definition enqueue_tail (l item : Z) (h : heap) : option (Z * heap) :=
  match node_alloc h with
  | None => None
  | Some (n, h) =>
      if n =? 0 then None (* NULL is dereferenced *)
      else
        let h := set_h_ram (set_node_value (set_node_next (h_ram h) n 0) n item) h in
        let inc_ret h :=
          let m := st64 (h_ram h) (l + 16) (u64 (list_size (h_ram h) l + 1)) in
          Some (s32 (list_size m l), set_h_ram m h) in
        if is_empty (h_ram h) l then
          match list_ends l h with
          | None => None
          | Some h =>
              let m := h_ram h in
              if (list_head m l =? 0) || (list_tail m l =? 0) then None
              else
                let m := set_node_next m (list_head m l) n in
                let m := set_node_next m (list_tail m l) n in
                inc_ret (set_h_ram (set_node_next m n (list_tail m l)) h)
          end
        else
          let m := h_ram h in
          let m := set_node_next m (node_next m (list_tail m l)) n in
          inc_ret (set_h_ram (set_node_next m (list_tail m l) n) h)
  end.

Definition dequeue_front (l : Z) (h : heap) : option (Z * heap) :=
  let m := h_ram h in
  if is_empty m l then Some (0, h)
  else
    let n := node_next m (list_head m l) in
    if n =? 0 then None (* NULL is dereferenced *)
    else
      let m := set_node_next m (list_head m l) (node_next m n) in
      Some (n, set_h_ram (st64 m (l + 16) (u64 (list_size m l - 1))) h).

(** ** Size classes *)

(** [for(i=11; i>5; --i) if(is_set(size, i)) break;] *)
Fixpoint top_bit_loop (n : nat) (size i : Z) : Z :=
  match n with
  | O => i
  | S n => if negb (is_set size i =? 0) then i else top_bit_loop n size (i - 1)
  end.
Definition top_bit (size : Z) : Z := top_bit_loop 6 size 11.

Definition chunk_addr (base i : Z) : Z := base + sizeof_osalloc_chunk * (i - 5).
Definition free_position (m : mem) (ck : Z) : Z := ld16 m (ck + 2).
Definition current_pfn (m : mem) (ck : Z) : Z := ld32 m (ck + 4).
Definition freelist (ck : Z) : Z := ck + 8.

(** The position [free_position >> 5] in the bitmap is a byte offset, and the
    shift in [set_bit] takes the position modulo 32, as the shift of the
    machine does. *)
Definition mark_position (m : mem) (ck fp : Z) : mem :=
  let ptr := ck + 32 + (fp >> 5) in
  st32 m ptr (set_bit (ld32 m ptr) (fp mod 32)).

Definition os_alloc (size : Z) (h : heap) : option (Z * heap) :=
  if (size =? 0) || (size >? 2048) then Some (0, h)
  else
    let i := top_bit size in
    let i := if negb ((1 << i) =? size) then i + 1 else i in
    let ck := chunk_addr (osalloc_base h) i in
    if negb (is_empty (h_ram h) (freelist ck)) then
      match dequeue_front (freelist ck) h with
      | None => None
      | Some (mem, h) => Some (node_value (h_ram h) mem, node_free mem h)
      end
    else
      let h :=
        if free_position (h_ram h) ck >? (PAGE_SIZE >> i) then
          let '(pfn, s) := os_pfn_alloc OS_DS_REG (h_mm h) in
          set_h_mm (set_mm_ram (st16 (st32 (mm_ram s) (ck + 4) pfn) (ck + 2) 0) s) h
        else h in
      let m := h_ram h in
      let fp := free_position m ck in
      let retval := u64 ((current_pfn m ck << PAGE_SHIFT) + (fp >> i)) in
      let m := mark_position m ck fp in
      Some (retval, set_h_ram (st16 m (ck + 2) (u16 (fp + 1))) h).

Definition os_free (ptr size : Z) (h : heap) : option heap :=
  if (size =? 0) || (size >? 2048) then Some h
  else
    let ck := chunk_addr (osalloc_base h) (top_bit size) in
    match enqueue_tail (freelist ck) ptr h with
    | None => None
    | Some (_, h) => Some h
    end.

(** ** Initialisation *)

(** One iteration of the loop of [init_osalloc_chunks]. *)
Definition init_chunk (i : Z) (h : heap) : heap :=
  let ck := chunk_addr (osalloc_base h) (5 + i) in
  let m := st16 (h_ram h) ck (u16 (1 << (5 + i))) in
  let m := st16 m (ck + 2) 0 in
  let m := init_list m (freelist ck) in
  let m := bzero m (ck + 32) 16 in
  let '(pfn, s) := os_pfn_alloc OS_DS_REG (set_mm_ram m (h_mm h)) in
  set_h_mm (set_mm_ram (st32 (mm_ram s) (ck + 4) pfn) s) h.

Fixpoint init_chunks_loop (n : nat) (i : Z) (h : heap) : heap :=
  match n with
  | O => h
  | S n => init_chunks_loop n (i + 1) (init_chunk i h)
  end.

Definition init_osalloc_chunks (h : heap) : heap :=
  if sizeof_osalloc_chunk * OSALLOC_MAX >? PAGE_SIZE then h_printf "Reduce number of OSALLOC types\n" [] h
  else
    let '(base, s) := os_page_alloc OS_DS_REG (h_mm h) in
    init_chunks_loop (Z.to_nat OSALLOC_MAX) 0 (Heap s base (nodemem h)).

Fixpoint init_nodes_loop (n : nat) (prevpfn : Z) (h : heap) : heap :=
  match n with
  | O => h
  | S n =>
      let '(currentpfn, s) := os_pfn_alloc OS_DS_REG (h_mm h) in
      let h := set_h_mm s h in
      let h := if negb (currentpfn =? u32 (prevpfn + 1))
               then h_printf "Error in initmem %s\n" [PStr (codes "init_nodealloc_memory")] h else h in
      let nm := nodemem h in
      init_nodes_loop n currentpfn
        (set_node_free (next_free nm) (u32 (num_free nm + PAGE_SIZE / sizeof_node)) h)
  end.

Definition init_nodealloc_memory (h : heap) : heap :=
  let '(startpfn, s) := os_pfn_alloc OS_DS_REG (h_mm h) in
  let h := init_nodes_loop (Z.to_nat (NODE_MEM_PAGES - 1)) startpfn (set_h_mm s h) in
  let start := u64 (startpfn << PAGE_SHIFT) in
  set_nodemem (NodeMem 0 (num_free (nodemem h)) start (u64 (start + (NODE_MEM_PAGES << PAGE_SHIFT)))) h.

Definition init_mems (h : heap) : heap :=
  init_nodealloc_memory (init_osalloc_chunks (set_h_mm (init_pagelists (h_mm h)) h)).

(** ** Lists refine queues

    [queue_rep m nd l vs N]: the [struct list] at [l] holds the values [vs],
    in order.  [N] are the indices of its nodes from [nd]: none as long as
    nothing was queued, then head, tail and the nodes of the values. *)

Definition node_at (nd i : Z) : Z := nd + sizeof_node * i.

Fixpoint chain (m : mem) (nd i : Z) (ns : list Z) : Prop :=
  match ns with
  | [] => True
  | j :: ns => node_next m (node_at nd i) = node_at nd j /\ chain m nd j ns
  end.

(** The last node of a chain that starts at [i]. *)
Definition final (i : Z) (ns : list Z) : Z := fold_left (fun _ j => j) ns i.

Definition queue_rep (m : mem) (nd l : Z) (vs N : list Z) : Prop :=
  list_size m l = Z.of_nat (length vs) /\
  match N with
  | [] => vs = [] /\ list_head m l = 0
  | hd :: tl :: ns =>
      list_head m l = node_at nd hd /\ list_tail m l = node_at nd tl /\
      vs = (fun i => node_value m (node_at nd i)) <$> ns /\
      chain m nd hd ns /\
      (ns <> [] -> node_next m (node_at nd tl) = node_at nd (final hd ns))
  | _ => False
  end.

(** The bytes of a list header and of a set of nodes. *)
Definition header (l a : Z) : Prop := l <= a < l + 24.
Definition node_cell (nd i a : Z) : Prop := node_at nd i <= a < node_at nd i + 16.
Definition node_cells (nd : Z) (N : list Z) (a : Z) : Prop := exists i, i ∈ N /\ node_cell nd i a.

Lemma ld64_cell m m' nd N i o :
  (forall a, node_cells nd N a -> ld8 m' a = ld8 m a) -> i ∈ N -> 0 <= o <= 8 ->
  ld64 m' (node_at nd i + o) = ld64 m (node_at nd i + o).
Proof. intros H Hi Ho. apply ld64_ext. intros b Hb. apply H. exists i. unfold node_cell. split; [done|lia]. Qed.

Lemma node_same m m' nd N i :
  (forall a, node_cells nd N a -> ld8 m' a = ld8 m a) -> i ∈ N ->
  node_next m' (node_at nd i) = node_next m (node_at nd i) /\
  node_value m' (node_at nd i) = node_value m (node_at nd i).
Proof.
  intros H Hi. split; [by apply (ld64_cell _ _ _ N); [..|lia]|].
  unfold node_value. rewrite <- (Z.add_0_r (node_at nd i)). by apply (ld64_cell _ _ _ N); [..|lia].
Qed.

Lemma chain_same m m' nd N i ns :
  (forall a, node_cells nd N a -> ld8 m' a = ld8 m a) -> i ∈ N -> (forall j, j ∈ ns -> j ∈ N) ->
  chain m nd i ns -> chain m' nd i ns.
Proof.
  intros H. revert i. induction ns as [|j ns IH]; intros i Hi Hns; [done|]. cbn [chain].
  intros [E Hc]. destruct (node_same m m' nd N i H Hi) as [-> _].
  split; [done|]. apply IH; [apply Hns; set_solver | set_solver | done].
Qed.

(** A queue depends on its header and its nodes only. *)
Lemma queue_rep_same m m' nd l vs N :
  (forall a, header l a \/ node_cells nd N a -> ld8 m' a = ld8 m a) ->
  queue_rep m nd l vs N -> queue_rep m' nd l vs N.
Proof.
  intros H. unfold queue_rep, list_size, list_head, list_tail.
  rewrite !(ld64_ext m m') by (intros; apply H; left; unfold header; lia).
  intros [Hs Hq]. split; [done|]. destruct N as [|hd [|tl ns]]; [done..|].
  destruct Hq as (Hh & Ht & Hv & Hc & Hl).
  assert (HN : forall a, node_cells nd (hd :: tl :: ns) a -> ld8 m' a = ld8 m a) by auto.
  split; [done|]. split; [done|]. split; [|split].
  - rewrite Hv. apply list_fmap_ext. intros k i Hi. symmetry.
    apply (node_same m m' nd _ i HN). apply list_elem_of_lookup_2 in Hi. by do 2 right.
  - apply (chain_same m m' nd _ hd ns HN); [set_solver..|done].
  - intros Hne. destruct (node_same m m' nd _ tl HN) as [-> _]; [set_solver|]. by apply Hl.
Qed.

Lemma chain_snoc m nd i ns k :
  chain m nd i (ns ++ [k]) <-> chain m nd i ns /\ node_next m (node_at nd (final i ns)) = node_at nd k.
Proof. revert i. induction ns as [|j ns IH]; intros i; cbn; [tauto|]. rewrite IH. cbn. tauto. Qed.

Lemma final_snoc i ns k : final i (ns ++ [k]) = k.
Proof. unfold final. by rewrite fold_left_app. Qed.

Lemma final_in i ns : final i ns ∈ i :: ns.
Proof.
  revert i. induction ns as [|j ns IH]; intros i; [by left|]. right. apply IH.
Qed.

(** ** The node allocator before it wraps around

    [nodes_ok h k]: the next [k] allocations take the next [k] nodes, which
    have never been used. *)
Definition node_capacity : Z := NODE_MEM_PAGES * 256.

Record nodes_ok (h : heap) (k : Z) : Prop := {
  nk_range : 0 <= next_free (nodemem h) /\ next_free (nodemem h) + k <= node_capacity;
  nk_free : k <= num_free (nodemem h) < 2^32;
  nk_base : 0 < nodes (nodemem h) /\ nodes (nodemem h) + 16 * node_capacity < 2^32;
  nk_zero : forall i, next_free (nodemem h) <= i < node_capacity ->
              node_next (h_ram h) (node_at (nodes (nodemem h)) i) = 0
}.

Lemma node_alloc_fresh h k :
  0 <= k -> nodes_ok h (1 + k) ->
  let nm := nodemem h in
  let h' := set_node_free (next_free nm + 1) (num_free nm - 1) h in
  node_alloc h = Some (node_at (nodes nm) (next_free nm), h') /\ nodes_ok h' k.
Proof.
  intros Hk [Hr Hf Hb Hz] nm h'. unfold node_capacity in *. change (NODE_MEM_PAGES * 256) with 25600 in *. fold nm in Hr, Hf, Hb, Hz.
  split.
  - unfold node_alloc. fold nm. rewrite (proj2 (Z.eqb_neq _ _)) by lia.
    change (nodes nm + sizeof_node * next_free nm) with (node_at (nodes nm) (next_free nm)).
    rewrite Hz by lia. cbn [Z.eqb]. unfold node_found. fold nm. rewrite !u32_small by lia. done.
  - split; unfold node_capacity; change (NODE_MEM_PAGES * 256) with 25600; cbn [h' set_node_free set_nodemem nodemem next_free num_free nodes]; fold nm; try lia.
    intros i Hi. apply Hz. lia.
Qed.

(** Writing outside the unused nodes keeps the allocator. *)
Lemma nodes_ok_write h k m :
  nodes_ok h k ->
  (forall i a, next_free (nodemem h) <= i < node_capacity -> node_cell (nodes (nodemem h)) i a -> ld8 m a = ld8 (h_ram h) a) ->
  nodes_ok (set_h_ram m h) k.
Proof.
  intros [Hr Hf Hb Hz] H. split; try done. intros i Hi.
  change (node_next m (node_at (nodes (nodemem h)) i) = 0). rewrite <- (Hz i Hi).
  apply ld64_ext. intros a Ha. apply (H i); [done|]. unfold node_cell. cbn [set_h_ram set_h_mm nodemem] in *. lia.
Qed.

(** ** enqueue_tail appends *)

(** The next pointers that a chain reads. *)
Lemma chain_ext m m' nd i ns :
  NoDup (i :: ns) ->
  (forall j, j ∈ i :: ns -> j <> final i ns -> node_next m' (node_at nd j) = node_next m (node_at nd j)) ->
  chain m nd i ns -> chain m' nd i ns.
Proof.
  revert i. induction ns as [|j ns IH]; intros i Hnd H; [done|]. cbn [chain]. intros [E Hc].
  apply NoDup_cons in Hnd as [Hi Hnd]. split.
  - rewrite <- E. apply H; [by left|]. intros Hf. apply Hi. rewrite Hf. exact (final_in j ns).
  - apply IH; [done| |done]. intros k Hk Hf. apply H; [by right|done].
Qed.

Lemma is_empty_rep m nd l vs N :
  queue_rep m nd l vs N -> Z.of_nat (length vs) < 2^64 -> is_empty m l = bool_decide (vs = []).
Proof. intros [E _] _. unfold is_empty. rewrite E. destruct vs; [done|]. by apply Z.eqb_neq. Qed.

(** [m64] reads a 64-bit word through stores to distinct addresses. *)
Ltac m64 :=
  unfold node_next, node_value, set_node_next, set_node_value, list_head, list_tail, list_size, node_at, sizeof_node in *;
  repeat first [rewrite ld64_st64_eq by lia | rewrite ld64_st64_ne by lia].

(** A header of [l] lies outside the node memory. *)
Definition header_apart (nd l : Z) : Prop := 0 < l < 2^32 /\ (l + 24 <= nd \/ nd + 16 * 25600 <= l).

Section writes.
Context (m : mem) (nd l : Z) (vs : list Z) (item n : Z).
Context (Hnd : 0 < nd /\ nd + 16 * 25600 < 2^32) (Hl : header_apart nd l) (Hn : 0 <= n < 25600) (Hitem : 0 <= item < 2^64).
Context (Hlen : Z.of_nat (length vs) < 2^31 - 1).

(** The new node, without successor. *)
Definition new_node : mem := set_node_value (set_node_next m (node_at nd n) 0) (node_at nd n) item.

(** The stores of [enqueue_tail] to a list that holds a value... *)
Definition append_last (f tl : Z) : mem :=
  st64 (set_node_next (set_node_next new_node (node_at nd f) (node_at nd n)) (node_at nd tl) (node_at nd n))
    (l + 16) (Z.of_nat (length vs) + 1).

(** ... and to one that is empty but has its ends, once the new node is written. *)
Definition append_first (hd tl : Z) : mem :=
  st64 (set_node_next (set_node_next (set_node_next m (node_at nd hd) (node_at nd n)) (node_at nd tl) (node_at nd n))
    (node_at nd n) (node_at nd tl)) (l + 16) 1.

Lemma append_last_rep hd tl ns :
  queue_rep m nd l vs (hd :: tl :: ns) -> ns <> [] -> NoDup (n :: hd :: tl :: ns) ->
  (forall i, i ∈ hd :: tl :: ns -> 0 <= i < 25600) ->
  queue_rep (append_last (final hd ns) tl) nd l (vs ++ [item]) (hd :: tl :: ns ++ [n]).
Proof.
  intros [Hs (Hh & Ht & Hv & Hc & Hf)] Hne HND HR. specialize (Hf Hne). unfold header_apart in Hl.
  apply NoDup_cons in HND as [Hn1 HND]. apply NoDup_cons in HND as [Hhd HND]. apply NoDup_cons in HND as [Htl HND].
  pose proof (HR hd ltac:(set_solver)). pose proof (HR tl ltac:(set_solver)).
  assert (Hfin : final hd ns ∈ ns).
  { destruct ns as [|j ns]; [done|]. exact (final_in j ns). }
  set (f := final hd ns) in *. pose proof (HR f ltac:(set_solver)).
  assert (Hall : forall j, j ∈ ns -> j <> tl /\ j <> n /\ 0 <= j < 25600).
  { intros j Hj. split; [intros ->; done|]. split; [intros ->; set_solver|]. apply HR. set_solver. }
  destruct (Hall f Hfin) as (F1 & F2 & F3).
  assert (N1 : n <> hd) by set_solver. assert (N2 : n <> tl) by set_solver. assert (N3 : hd <> tl) by set_solver.
  unfold queue_rep, append_last, new_node. split; [|split; [|split; [|split; [|split]]]].
  - rewrite length_app. cbn [length]. m64. lia.
  - rewrite <- Hh. m64. done.
  - rewrite <- Ht. m64. done.
  - rewrite fmap_app. cbn [fmap list_fmap]. f_equal; [|f_equal; m64; done].
    etransitivity; [exact Hv|]. apply list_fmap_ext. intros k j Hj.
    apply list_elem_of_lookup_2 in Hj. destruct (Hall j Hj) as (A1 & A2 & A3). m64. done.
  - apply chain_snoc. fold f. split.
    + apply (chain_ext m); [apply NoDup_cons; split; [set_solver|done]| |done]. fold f. intros j Hj Hjf.
      assert (0 <= j < 25600 /\ j <> tl /\ j <> n) as (B1 & B2 & B3).
      { apply elem_of_cons in Hj as [->|Hj]; [done|]. by destruct (Hall j Hj) as (A1 & A2 & A3). }
      m64. done.
    + m64. done.
  - intros _. rewrite final_snoc. m64. done.
Qed.

Lemma append_first_rep hd tl :
  list_head m l = node_at nd hd -> list_tail m l = node_at nd tl -> node_value m (node_at nd n) = item ->
  NoDup [n; hd; tl] -> 0 <= hd < 25600 -> 0 <= tl < 25600 ->
  queue_rep (append_first hd tl) nd l [item] [hd; tl; n].
Proof.
  clear Hlen Hitem vs. intros Hh Ht Hi HND H1 H2. unfold header_apart in Hl.
  apply NoDup_cons in HND as [Hn1 HND]. apply NoDup_cons in HND as [Hhd _].
  assert (N1 : n <> hd) by set_solver. assert (N2 : n <> tl) by set_solver. assert (N3 : hd <> tl) by set_solver.
  unfold queue_rep, append_first. cbn [app length fmap list_fmap chain final fold_left].
  split; [|split; [|split; [|split; [|split]]]].
  - m64. lia.
  - rewrite <- Hh. m64. done.
  - rewrite <- Ht. m64. done.
  - f_equal. rewrite <- Hi. m64. done.
  - split; [|done]. m64. done.
  - intros _. m64. done.
Qed.
End writes.

Lemma untouched_st n (P : Z -> Prop) m m0 a v :
  untouched P m m0 -> (forall b, a <= b < a + Z.of_nat n -> P b) -> untouched P m (stn n m0 a v).
Proof. intros Hu HP. by eapply untouched_trans, untouched_stn. Qed.

Lemma untouched_st64 (P : Z -> Prop) m m0 a v :
  untouched P m m0 -> (forall b, a <= b < a + 8 -> P b) -> untouched P m (st64 m0 a v).
Proof. intros Hu HP. by apply (untouched_st 8). Qed.

(** The bytes of a list at [l] with nodes [N]. *)
Definition list_bytes (nd l : Z) (N : list Z) (a : Z) : Prop := header l a \/ node_cells nd N a.

Lemma untouched_header nd l N m m0 a v :
  untouched (list_bytes nd l N) m m0 -> l <= a -> a + 8 <= l + 24 -> untouched (list_bytes nd l N) m (st64 m0 a v).
Proof. intros Hu H1 H2. apply untouched_st64; [done|]. intros b Hb. left. unfold header. lia. Qed.

Lemma untouched_node_value nd l N m m0 i v :
  untouched (list_bytes nd l N) m m0 -> i ∈ N -> untouched (list_bytes nd l N) m (set_node_value m0 (node_at nd i) v).
Proof. intros Hu Hi. apply untouched_st64; [done|]. intros b Hb. right. exists i. unfold node_cell. split; [done|lia]. Qed.

Lemma untouched_node_next nd l N m m0 i v :
  untouched (list_bytes nd l N) m m0 -> i ∈ N -> untouched (list_bytes nd l N) m (set_node_next m0 (node_at nd i) v).
Proof. intros Hu Hi. apply untouched_st64; [done|]. intros b Hb. right. exists i. unfold node_cell. split; [done|lia]. Qed.

(** [untouched_list] shows that stores to a list touch only its bytes. *)
Ltac untouched_list :=
  repeat first [apply untouched_refl | apply untouched_node_next; [|done] | apply untouched_node_value; [|done]
    | apply untouched_header; [|lia..]].

Lemma untouched_new_node m nd l N n item :
  n ∈ N -> untouched (list_bytes nd l N) m (new_node m nd item n).
Proof. intros Hn. unfold new_node. untouched_list. Qed.

Lemma untouched_append_last m nd l vs item n f tl N :
  n ∈ N -> f ∈ N -> tl ∈ N -> untouched (list_bytes nd l N) m (append_last m nd l vs item n f tl).
Proof. intros. unfold append_last, new_node. untouched_list. Qed.

Lemma untouched_append_first m0 m nd l n hd tl N :
  untouched (list_bytes nd l N) m0 m -> n ∈ N -> hd ∈ N -> tl ∈ N ->
  untouched (list_bytes nd l N) m0 (append_first m nd l n hd tl).
Proof. intros. unfold append_first. repeat first [done | apply untouched_node_next; [|done] | apply untouched_header; [|lia..]]. Qed.

(** A heap whose memory and node counters have moved on. *)
Definition heap_with (m : mem) (nf nu : Z) (h : heap) : heap := set_h_ram m (set_node_free nf nu h).

Lemma heap_with_nodes m nf nu h : nodes (nodemem (heap_with m nf nu h)) = nodes (nodemem h).
Proof. done. Qed.

Lemma NoDup_range_length (N : list Z) n : NoDup N -> 0 <= n -> (forall i, i ∈ N -> 0 <= i < n) -> Z.of_nat (length N) <= n.
Proof.
  intros Hnd Hn H. assert (E : N ⊆+ seqZ 0 n).
  { apply NoDup_submseteq; [done|]. intros i Hi. apply elem_of_seqZ. apply H in Hi. lia. }
  apply submseteq_length in E. rewrite length_seqZ in E. lia.
Qed.

Lemma queue_rep_length m nd l vs N : queue_rep m nd l vs N -> (length vs <= length N)%nat.
Proof.
  intros [_ H]. destruct N as [|hd [|tl ns]]; [by destruct H as [-> _]|done|].
  destruct H as (_ & _ & -> & _). rewrite length_fmap. cbn. lia.
Qed.

(** What a queue of the heap may rely on. *)
Record queue_ok (h : heap) (l : Z) (vs N : list Z) : Prop := {
  qk_rep : queue_rep (h_ram h) (nodes (nodemem h)) l vs N;
  qk_apart : header_apart (nodes (nodemem h)) l;
  qk_nodup : NoDup N;
  qk_used : forall i, i ∈ N -> 0 <= i < next_free (nodemem h)
}.

(** [moved h h' l N']: [h'] differs from [h] in the list at [l], whose nodes
    are [N'], and in the node counters. *)
Record moved (h h' : heap) (l : Z) (N' : list Z) : Prop := {
  mv_heap : exists nf nu, h' = heap_with (h_ram h') nf nu h;
  mv_next : next_free (nodemem h) <= next_free (nodemem h');
  mv_bytes : untouched (list_bytes (nodes (nodemem h)) l N') (h_ram h) (h_ram h')
}.

Definition enqueue_cost (N : list Z) : Z := match N with [] => 3 | _ => 1 end.

Lemma node_at_nonzero h k i : nodes_ok h k -> 0 <= i -> node_at (nodes (nodemem h)) i <> 0.
Proof. intros [_ _ [Hb _] _] Hi. unfold node_at, sizeof_node. lia. Qed.

(** The queue is still there once the new node is written. *)
Lemma queue_rep_new_node m nd l vs N item n :
  queue_rep m nd l vs N -> header_apart nd l -> ~ n ∈ N -> 0 <= n < 25600 -> queue_rep (new_node m nd item n) nd l vs N.
Proof.
  intros Hq [Hl Ha] Hn Hr. apply (queue_rep_same m); [|done]. intros a Haddr.
  unfold new_node, set_node_value, set_node_next.
  assert (Hout : ~ (node_at nd n <= a < node_at nd n + 16)).
  { destruct Haddr as [Hh|(i & Hi & Hc)].
    - unfold header, node_at, sizeof_node in *. lia.
    - assert (i <> n) by (intros ->; done). unfold node_cell, node_at, sizeof_node in *. lia. }
  assert (O1 : ~ (node_at nd n <= a < node_at nd n + Z.of_nat 8)) by lia.
  assert (O2 : ~ (node_at nd n + 8 <= a < node_at nd n + 8 + Z.of_nat 8)) by lia.
  unfold st64. by rewrite !ld8_stn_out.
Qed.

Lemma h_ram_set m h : h_ram (set_h_ram m h) = m.
Proof. done. Qed.

Lemma set_h_ram_twice m m' h : set_h_ram m (set_h_ram m' h) = set_h_ram m h.
Proof. done. Qed.

(** [enqueue_tail] is [node_alloc] followed by the stores. *)
Section enqueue.
Context (h : heap) (l item : Z) (vs : list Z) (k : Z).
Let nd := nodes (nodemem h).
Let n := next_free (nodemem h).
Let m := h_ram h.
Context (Hitem : 0 <= item < 2^64) (Hk : 0 <= k).

Lemma enqueue_nonempty hd tl ns :
  queue_ok h l vs (hd :: tl :: ns) -> vs <> [] -> nodes_ok h (1 + k) ->
  exists nf nu, enqueue_tail l item h =
    Some (Z.of_nat (length vs) + 1, heap_with (append_last m nd l vs item n (final hd ns) tl) nf nu h) /\
    (nf = n + 1 /\ nu = num_free (nodemem h) - 1) /\
    nodes_ok (set_node_free nf nu h) k.
Proof.
  intros [Hq Ha Hnd Hu] Hne Hok. pose proof (node_alloc_fresh h k Hk Hok) as [E Hok']. cbv zeta in E, Hok'.
  exists (n + 1), (num_free (nodemem h) - 1). split; [|split; [done|exact Hok']].
  unfold enqueue_tail. rewrite E. fold nd n. destruct Hok as [Hr _ Hb _]. unfold node_capacity in *.
  change (NODE_MEM_PAGES * 256) with 25600 in *. fold nd n in Hq, Ha, Hu, Hr, Hb.
  rewrite (proj2 (Z.eqb_neq _ _)) by (unfold node_at, sizeof_node; lia).
  change (h_ram (set_node_free (n + 1) (num_free (nodemem h) - 1) h)) with m.
  assert (Hn : ~ n ∈ hd :: tl :: ns) by (intros Hi%Hu; lia).
  pose proof (queue_rep_new_node m nd l vs _ item n Hq Ha Hn ltac:(lia)) as Hq2.
  set (h2 := set_h_ram _ _). change (h_ram h2) with (new_node m nd item n).
  pose proof (queue_rep_length _ _ _ _ _ Hq). pose proof (NoDup_range_length _ n Hnd ltac:(lia) Hu) as Hlen.
  rewrite (is_empty_rep _ nd l vs _ Hq2) by lia. rewrite bool_decide_eq_false_2 by done.
  destruct Hq2 as [Hs (Hh & Ht & Hv & Hc & Hf)].
  assert (Hns : ns <> []) by (intros ->; apply Hne; rewrite Hv; done).
  rewrite Ht, (Hf Hns). set (f := final hd ns) in *.
  assert (HtlR : 0 <= tl < n) by (apply Hu; set_solver).
  assert (HfR : 0 <= f < n).
  { apply Hu. destruct ns as [|j ns']; [done|]. pose proof (final_in j ns'). do 2 right. exact H0. }
  unfold header_apart in Ha.
  assert (E3 : list_tail (set_node_next (new_node m nd item n) (node_at nd f) (node_at nd n)) l = node_at nd tl).
  { rewrite <- Ht. unfold new_node. m64. done. }
  rewrite E3, !h_ram_set.
  assert (E4 : list_size (set_node_next (set_node_next (new_node m nd item n) (node_at nd f) (node_at nd n))
    (node_at nd tl) (node_at nd n)) l = Z.of_nat (length vs)).
  { rewrite <- Hs. unfold new_node. m64. done. }
  rewrite E4, u64_small by lia. unfold list_size at 1. rewrite ld64_st64_eq by lia.
  unfold s32. rewrite Z.mod_small by lia. repeat f_equal. lia.
Qed.

(** The stores to an empty list that has its ends. *)
Lemma enqueue_ends m2 h2 hd tl :
  h_ram h2 = m2 -> list_head m2 l = node_at nd hd -> list_tail m2 l = node_at nd tl -> list_size m2 l = 0 ->
  header_apart nd l -> 0 < nd /\ nd + 16 * 25600 < 2^32 -> 0 <= n < 25600 ->
  0 <= hd < 25600 -> 0 <= tl < 25600 -> hd <> tl ->
  let m3 := set_node_next (set_node_next m2 (node_at nd hd) (node_at nd n))
    (list_tail (set_node_next m2 (node_at nd hd) (node_at nd n)) l) (node_at nd n) in
  let h3 := set_h_ram (set_node_next m3 (node_at nd n) (list_tail m3 l)) h2 in
  let m4 := st64 (h_ram h3) (l + 16) (u64 (list_size (h_ram h3) l + 1)) in
  s32 (list_size m4 l) = 1 /\ m4 = append_first m2 nd l n hd tl.
Proof.
  intros E Hh Ht Hs Ha Hb Hn Hhd Htl Hne m3 h3 m4. unfold header_apart in Ha.
  assert (E1 : list_tail (set_node_next m2 (node_at nd hd) (node_at nd n)) l = node_at nd tl).
  { rewrite <- Ht. m64. done. }
  assert (E2 : m3 = set_node_next (set_node_next m2 (node_at nd hd) (node_at nd n)) (node_at nd tl) (node_at nd n)).
  { unfold m3. by rewrite E1. }
  assert (E3 : list_tail m3 l = node_at nd tl) by (rewrite E2, <- Ht; m64; done).
  assert (E4 : list_size (h_ram h3) l = 0).
  { unfold h3. rewrite h_ram_set, E3, E2, <- Hs. m64. done. }
  assert (E5 : m4 = append_first m2 nd l n hd tl).
  { unfold m4, append_first. rewrite E4. unfold h3. by rewrite h_ram_set, E3, E2. }
  split; [|done].
  unfold m4. rewrite E4. unfold list_size. by rewrite ld64_st64_eq.
Qed.

Lemma enqueue_empty_ends hd tl :
  queue_ok h l [] [hd; tl] -> nodes_ok h (1 + k) ->
  exists nf nu m', enqueue_tail l item h = Some (1, heap_with m' nf nu h) /\ (nf = n + 1 /\ nu = num_free (nodemem h) - 1) /\
    nodes_ok (set_node_free nf nu h) k /\ queue_rep m' nd l [item] [hd; tl; n] /\
    untouched (list_bytes nd l [hd; tl; n]) m m'.
Proof.
  intros [Hq Ha Hnd Hu] Hok. pose proof (node_alloc_fresh h k Hk Hok) as [E Hok']. cbv zeta in E, Hok'.
  destruct Hok as [Hr _ Hb _]. unfold node_capacity in *. change (NODE_MEM_PAGES * 256) with 25600 in *. fold nd n in Hq, Ha, Hu, Hr, Hb.
  assert (Hhd : 0 <= hd < n) by (apply Hu; set_solver). assert (Htl : 0 <= tl < n) by (apply Hu; set_solver).
  assert (Hne : hd <> tl) by (apply NoDup_cons in Hnd as [Hnd _]; set_solver).
  assert (Hn : ~ n ∈ [hd; tl]) by (intros Hi%Hu; lia).
  pose proof (queue_rep_new_node m nd l [] _ item n Hq Ha Hn ltac:(lia)) as Hq2.
  exists (n + 1), (num_free (nodemem h) - 1), (append_first (new_node m nd item n) nd l n hd tl).
  destruct Hq2 as [Hs (Hh & Ht & _)]. cbn [length] in Hs.
  split; [|split; [done|split; [exact Hok'|split]]].
  - unfold enqueue_tail. rewrite E. fold nd n. rewrite (proj2 (Z.eqb_neq _ _)) by (unfold node_at, sizeof_node; lia).
    set (h2 := set_h_ram _ _). change (h_ram h2) with (new_node m nd item n).
    unfold is_empty. rewrite Hs. change (Z.of_nat 0 =? 0) with true. cbv iota. unfold list_ends. change (h_ram h2) with (new_node m nd item n).
    rewrite Hh. rewrite (proj2 (Z.eqb_neq _ _)) by (unfold node_at, sizeof_node; lia).
    change (h_ram h2) with (new_node m nd item n). rewrite Ht, Hh.
    rewrite !(proj2 (Z.eqb_neq _ _)) by (unfold node_at, sizeof_node; lia). cbn [orb].
    destruct (enqueue_ends (new_node m nd item n) h2 hd tl) as [R1 R2]; try done; try lia.
    rewrite R1. cbv zeta in R2. rewrite R2. done.
  - apply append_first_rep; try done; try lia.
    + unfold new_node. m64. done.
    + apply NoDup_cons. split; [done|]. done.
  - apply untouched_append_first; [|set_solver..]. apply untouched_new_node. set_solver.
Qed.

(** A list without ends takes three nodes. *)
Lemma enqueue_new :
  queue_ok h l [] [] -> nodes_ok h (3 + k) ->
  exists nf nu m', enqueue_tail l item h = Some (1, heap_with m' nf nu h) /\ (nf = n + 3 /\ nu = num_free (nodemem h) - 3) /\
    nodes_ok (set_node_free nf nu h) k /\ queue_rep m' nd l [item] [n + 1; n + 2; n] /\
    untouched (list_bytes nd l [n + 1; n + 2; n]) m m'.
Proof.
  intros [Hq Ha _ _] Hok. destruct (node_alloc_fresh h (2 + k) ltac:(lia)) as [E1 Hok1];
    [by replace (1 + (2 + k)) with (3 + k) by lia|]. cbv zeta in E1, Hok1.
  pose proof Hok as [Hr _ Hb _]. unfold node_capacity in Hr, Hb. change (NODE_MEM_PAGES * 256) with 25600 in Hr, Hb.
  fold nd n in Hq, Ha, Hr, Hb, E1. destruct Hq as [Hs [_ Hh]]. cbn [length] in Hs.
  set (h1 := set_node_free _ _ _) in E1, Hok1.
  set (m2 := new_node m nd item n). set (h2 := set_h_ram m2 h1).
  assert (HB : forall j a v, n + 1 <= j < 25600 -> header l a \/ node_cell nd n a -> node_cell nd j v -> a <> v).
  { intros j a v Hj Hc Hcv ->. unfold header_apart in Ha. unfold header, node_cell, node_at, sizeof_node in *. lia. }
  assert (Hok2 : nodes_ok h2 (2 + k)).
  { apply nodes_ok_write; [done|]. intros i a Hi Hc. change (n + 1 <= i < 25600) in Hi.
    apply (untouched_new_node m nd l [n] n item); [set_solver|]. intros Hcell.
    apply (HB i a a); [lia| |done|done]. destruct Hcell as [Hh'|(j & Hj & Hc')]; [by left|].
    apply list_elem_of_singleton in Hj as ->. by right. }
  destruct (node_alloc_fresh h2 (1 + k) ltac:(lia)) as [E2 Hok3];
    [by replace (1 + (1 + k)) with (2 + k) by lia|]. cbv zeta in E2, Hok3.
  change (nodes (nodemem h2)) with nd in E2. change (next_free (nodemem h2)) with (n + 1) in E2, Hok3.
  set (h3 := set_node_free _ _ h2) in E2, Hok3.
  set (m4 := st64 m2 l (node_at nd (n + 1))). set (h4 := set_h_ram m4 h3).
  assert (Hok4 : nodes_ok h4 (1 + k)).
  { apply nodes_ok_write; [done|]. intros i a Hi Hc. change (n + 1 + 1 <= i < 25600) in Hi.
    apply (ld8_stn_out 8). intros Hin. apply (HB i a a); [lia| |done|done]. left. unfold header. lia. }
  destruct (node_alloc_fresh h4 k Hk Hok4) as [E3 Hok5]. cbv zeta in E3, Hok5.
  change (nodes (nodemem h4)) with nd in E3. change (next_free (nodemem h4)) with (n + 1 + 1) in E3, Hok5.
  set (h5 := set_node_free _ _ h4) in E3, Hok5.
  replace (n + 1 + 1) with (n + 2) in E3 by lia.
  set (m6 := st64 m4 (l + 8) (node_at nd (n + 2))). set (h6 := set_h_ram m6 h5).
  unfold header_apart in Ha.
  assert (Hh6 : list_head m6 l = node_at nd (n + 1)) by (unfold m6, m4; m64; done).
  assert (Ht6 : list_tail m6 l = node_at nd (n + 2)) by (unfold m6; m64; done).
  assert (Hs6 : list_size m6 l = 0) by (transitivity (list_size m l); [unfold m6, m4, m2, new_node; m64; done | exact Hs]).
  assert (Hi6 : node_value m6 (node_at nd n) = item) by (unfold m6, m4, m2, new_node; m64; done).
  destruct (enqueue_ends m6 h6 (n + 1) (n + 2)) as [R1 R2]; try done; try lia. cbv zeta in R2.
  exists (n + 1 + 1 + 1), (num_free (nodemem h) - 1 - 1 - 1), (append_first m6 nd l n (n + 1) (n + 2)).
  split; [|split; [lia|split; [|split]]].
  - unfold enqueue_tail. rewrite E1. rewrite (proj2 (Z.eqb_neq _ _)) by (unfold node_at, sizeof_node; lia).
    change (set_h_ram _ h1) with h2. unfold is_empty.
    replace (list_size (h_ram h2) l) with 0
      by (symmetry; transitivity (list_size m l); [unfold h2; rewrite h_ram_set; unfold m2, new_node; m64; done | exact Hs]).
    change (0 =? 0) with true. cbv iota. unfold list_ends.
    replace (list_head (h_ram h2) l) with 0
      by (symmetry; transitivity (list_head m l); [unfold h2; rewrite h_ram_set; unfold m2, new_node; m64; done | exact Hh]).
    change (0 =? 0) with true. cbv iota. rewrite E2. change (set_h_ram (st64 (h_ram h3) l (node_at nd (n + 1))) h3) with h4.
    rewrite E3. change (set_h_ram (st64 (h_ram h5) (l + 8) (node_at nd (n + 2))) h5) with h6.
    change (h_ram h6) with m6. rewrite Ht6, Hh6. rewrite !(proj2 (Z.eqb_neq _ _)) by (unfold node_at, sizeof_node; lia).
    cbn [orb]. rewrite R1, R2. reflexivity.
  - destruct Hok as [Hr' Hf' Hb' Hz']. split; [|cbn; lia|done|].
    + change (0 <= n + 1 + 1 + 1 /\ n + 1 + 1 + 1 + k <= 25600). lia.
    + intros i Hi. change (n + 1 + 1 + 1 <= i < 25600) in Hi. apply Hz'. fold n. change node_capacity with 25600. lia.
  - apply append_first_rep; try done; try lia.
    apply NoDup_cons. split; [set_solver by lia|]. apply NoDup_cons. split; [set_solver by lia|apply NoDup_singleton].
  - apply untouched_append_first; [|set_solver..]. unfold m6, m4.
    apply untouched_header; [|lia..]. apply untouched_header; [|lia..]. apply untouched_new_node. set_solver.
Qed.
End enqueue.

(** The node allocator does not see the stores to lists. *)
Lemma nodes_ok_list h l N k m' nf nu :
  nodes_ok (set_node_free nf nu h) k -> header_apart (nodes (nodemem h)) l -> (forall i, i ∈ N -> 0 <= i < nf) ->
  untouched (list_bytes (nodes (nodemem h)) l N) (h_ram h) m' -> nodes_ok (heap_with m' nf nu h) k.
Proof.
  intros Hok [Hl Ha] HN Hu. pose proof Hok as [Hr _ _ _]. cbn in Hr. apply nodes_ok_write; [done|].
  intros i a Hi Hc. apply Hu. change (nf <= i < 25600) in Hi. change (node_cell (nodes (nodemem h)) i a) in Hc.
  unfold header, node_cell, node_at, sizeof_node in *. intros [Hh|(j & Hj%HN & Hc')].
  - unfold header in Hh. lia.
  - unfold node_cell, node_at, sizeof_node in Hc'. lia.
Qed.

(** What [enqueue_tail] does to a queue [vs] of the heap. *)
Record enqueued (h : heap) (l item : Z) (vs N : list Z) (k : Z) (h' : heap) (N' : list Z) : Prop := {
  nq_queue : queue_ok h' l (vs ++ [item]) N';
  nq_nodes : nodes_ok h' k;
  nq_moved : moved h h' l N';
  nq_new : forall i, i ∈ N' -> i ∈ N \/ next_free (nodemem h) <= i;
  nq_count : num_free (nodemem h') = num_free (nodemem h) - enqueue_cost N /\
             Z.of_nat (length N') = Z.of_nat (length N) + enqueue_cost N
}.

Lemma enqueue_tail_ok h l item vs N k :
  queue_ok h l vs N -> nodes_ok h (enqueue_cost N + k) -> 0 <= item < 2^64 -> 0 <= k ->
  exists h' N', enqueue_tail l item h = Some (Z.of_nat (length vs) + 1, h') /\ enqueued h l item vs N k h' N'.
Proof.
  intros Hq Hok Hitem Hk. pose proof Hq as [Hrep Ha Hnd Hu]. pose proof Hok as [Hr _ Hb _].
  change node_capacity with 25600 in Hr, Hb. set (n := next_free (nodemem h)) in *. set (nd := nodes (nodemem h)) in *.
  assert (Hfin : forall m' nf nu N' r, enqueue_tail l item h = Some (r, heap_with m' nf nu h) -> r = Z.of_nat (length vs) + 1 ->
    n <= nf -> nu = num_free (nodemem h) - enqueue_cost N -> Z.of_nat (length N') = Z.of_nat (length N) + enqueue_cost N ->
    nodes_ok (set_node_free nf nu h) k -> queue_rep m' nd l (vs ++ [item]) N' ->
    untouched (list_bytes nd l N') (h_ram h) m' -> NoDup N' -> (forall i, i ∈ N' -> (i ∈ N \/ n <= i) /\ 0 <= i < nf) ->
    exists h' N', enqueue_tail l item h = Some (Z.of_nat (length vs) + 1, h') /\ enqueued h l item vs N k h' N').
  { intros m' nf nu N' r E -> Hnf Hnu HlenN Hok' Hrep' Hun HND HN'. exists (heap_with m' nf nu h), N'. split; [done|]. split.
    - split; [done|done|done|]. intros i Hi. apply (HN' i Hi).
    - apply (nodes_ok_list _ l N'); [done..| |done]. intros i Hi. apply (HN' i Hi).
    - split; [by exists nf, nu|done|done].
    - intros i Hi. apply (HN' i Hi).
    - done. }
  destruct N as [|hd [|tl ns]]; cbn [enqueue_cost] in *.
  - destruct Hrep as [_ [-> _]]. destruct (enqueue_new h l item k Hitem Hk Hq Hok) as (nf & nu & m' & E & [-> ->] & A & B & C).
    eapply (Hfin _ _ _ [n + 1; n + 2; n]); [exact E|done|fold n; lia|done|cbn [length]; lia|exact A|exact B|exact C| |].
    + fold n. apply NoDup_cons. split; [set_solver by lia|]. apply NoDup_cons. split; [set_solver by lia|apply NoDup_singleton].
    + fold n. intros i. rewrite !elem_of_cons. intros [->|[->|[->|Hi]]]; [lia..|by apply not_elem_of_nil in Hi].
  - by destruct Hrep as [_ []].
  - destruct vs as [|v vs].
    + assert (ns = []) as ->.
      { destruct Hrep as (_ & _ & _ & Hv & _). by destruct ns. }
      destruct (enqueue_empty_ends h l item k Hitem Hk hd tl Hq Hok) as (nf & nu & m' & E & [-> ->] & A & B & C).
      eapply (Hfin _ _ _ [hd; tl; n]); [exact E|done|fold n; lia|done|cbn [length]; lia|exact A|exact B|exact C| |].
      * change [hd; tl; n] with ([hd; tl] ++ [n]). apply NoDup_app. split; [done|]. split; [|apply NoDup_singleton].
        intros i Hi%Hu. rewrite list_elem_of_singleton. lia.
      * fold n. intros i. change [hd; tl; n] with ([hd; tl] ++ [n]). rewrite elem_of_app, list_elem_of_singleton.
        intros [Hi| ->]; [pose proof (Hu i Hi); split; [by left|lia] | lia].
    + destruct (enqueue_nonempty h l item (v :: vs) k Hitem Hk hd tl ns Hq) as (nf & nu & E & [-> ->] & A); [done|done|].
      assert (HNn : forall i, i ∈ hd :: tl :: ns ++ [n] -> i ∈ hd :: tl :: ns \/ i = n).
      { intros i. rewrite !elem_of_cons, elem_of_app, list_elem_of_singleton. tauto. }
      assert (HndN : NoDup (hd :: tl :: ns ++ [n])).
      { change (hd :: tl :: ns ++ [n]) with ((hd :: tl :: ns) ++ [n]). apply NoDup_app. split; [done|]. split; [|apply NoDup_singleton].
        intros i Hi%Hu. rewrite list_elem_of_singleton. lia. }
      assert (Hns : ns <> []).
      { destruct Hrep as (_ & _ & _ & Hv & _). by destruct ns. }
      eapply (Hfin _ _ _ (hd :: tl :: ns ++ [n])); [exact E|done|fold n; lia|done| |exact A| | |exact HndN|].
      * cbn [length]. rewrite length_app. cbn [length]. lia.
      * apply append_last_rep; try done; try lia.
        -- apply queue_rep_length in Hrep. pose proof (NoDup_range_length _ n Hnd ltac:(lia) Hu). lia.
        -- apply NoDup_cons. split; [intros Hi%Hu; lia|done].
        -- intros i Hi%Hu. lia.
      * apply untouched_append_last; [set_solver| |set_solver].
        destruct ns as [|j ns']; [done|]. pose proof (final_in j ns'). set_solver.
      * fold n. intros i Hi%HNn. destruct Hi as [Hi| ->]; [pose proof (Hu i Hi); split; [by left|lia] | lia].
Qed.

(** ** dequeue_front takes the first *)

Lemma dequeue_front_ok h l v vs N :
  queue_ok h l (v :: vs) N -> nodes_ok h 0 ->
  exists hd tl n0 ns m', N = hd :: tl :: n0 :: ns /\
    dequeue_front l h = Some (node_at (nodes (nodemem h)) n0, set_h_ram m' h) /\
    node_value m' (node_at (nodes (nodemem h)) n0) = v /\
    queue_rep m' (nodes (nodemem h)) l vs (hd :: tl :: ns) /\
    untouched (list_bytes (nodes (nodemem h)) l [hd]) (h_ram h) m'.
Proof.
  intros [Hq Ha Hnd Hu] [Hr _ Hb _]. change node_capacity with 25600 in *.
  set (nd := nodes (nodemem h)) in *. set (m := h_ram h) in *.
  pose proof (queue_rep_length _ _ _ _ _ Hq) as HL. pose proof (NoDup_range_length _ (next_free (nodemem h)) Hnd ltac:(lia) Hu) as HL'.
  pose proof (is_empty_rep m nd l (v :: vs) N Hq ltac:(cbn [length] in *; lia)) as He.
  destruct Hq as [Hs Hq]. destruct N as [|hd [|tl [|n0 ns]]]; [by destruct Hq|done|by destruct Hq as (_ & _ & ? & _)|].
  destruct Hq as (Hh & Ht & Hv & [Hc0 Hc] & Hf). cbn [fmap list_fmap] in Hv. injection Hv as Hv0 Hv.
  exists hd, tl, n0, ns. unfold dequeue_front. fold m. rewrite He. cbn [bool_decide]. rewrite bool_decide_eq_false_2 by done.
  rewrite Hh, Hc0. unfold header_apart in Ha.
  assert (HR : forall i, i ∈ hd :: tl :: n0 :: ns -> 0 <= i < 25600) by (intros i Hi%Hu; lia).
  pose proof (HR hd ltac:(set_solver)). pose proof (HR tl ltac:(set_solver)). pose proof (HR n0 ltac:(set_solver)).
  assert (hd <> tl /\ hd <> n0 /\ ~ hd ∈ ns) as (D1 & D2 & D3).
  { apply NoDup_cons in Hnd as [Hn _]. set_solver. }
  rewrite (proj2 (Z.eqb_neq _ _)) by (unfold node_at, sizeof_node; lia).
  eexists. split; [done|]. split; [reflexivity|].
  set (m1 := set_node_next m (node_at nd hd) (node_next m (node_at nd n0))).
  assert (E1 : list_size m1 l = Z.of_nat (length vs) + 1).
  { unfold m1. transitivity (list_size m l); [m64; done|]. rewrite Hs. cbn [length]. lia. }
  rewrite E1. cbn [length] in *. rewrite u64_small by lia.
  assert (Hj : forall j, j ∈ ns -> 0 <= j < 25600 /\ j <> hd).
  { intros j Hj. split; [apply HR; set_solver|intros ->; done]. }
  split; [|split].
  - rewrite Hv0. unfold m1. m64. done.
  - unfold queue_rep. split; [|split; [|split; [|split; [|split]]]].
    + m64. lia.
    + rewrite <- Hh. unfold m1. m64. done.
    + rewrite <- Ht. unfold m1. m64. done.
    + etransitivity; [exact Hv|]. apply list_fmap_ext. intros k j Hk. apply list_elem_of_lookup_2 in Hk.
      destruct (Hj j Hk). unfold m1. m64. done.
    + destruct ns as [|j ns]; [done|]. destruct Hc as [Hc1 Hc]. destruct (Hj j ltac:(set_solver)). split.
      * rewrite <- Hc1. unfold m1. m64. done.
      * apply (chain_ext m); [|intros i Hi _|done].
        -- do 3 apply NoDup_cons in Hnd as [_ Hnd]. done.
        -- destruct (Hj i Hi). unfold m1. m64. done.
    + intros Hne. destruct ns as [|j ns]; [done|]. change (final hd (j :: ns)) with (final hd (n0 :: j :: ns)).
      rewrite <- Hf by done. unfold m1. m64. done.
  - apply untouched_header; [|lia..]. apply untouched_node_next; [apply untouched_refl|set_solver].
Qed.
