(* ===== verification/OsHeap.v ===== *)
(** * The contract of os_alloc and os_free

    [aheap] is what the heap promises: per size class a queue of freed
    objects, the current frame and the position in it.  [heap_step] says what
    an allocation or a deallocation of a given size does to it.  [heap_rep]
    relates it to the chunks, lists and nodes in memory, and the simulation
    theorem shows that os_alloc and os_free implement [heap_step]. *)
From S2P Require Import Prelude Mem Lib Machine Memory PageAlloc Frames OsAlloc.
#[local] Open Scope gemos_scope.

(** ** The abstract heap *)

Record aclass := AClass { ac_free : list Z; ac_pfn : Z; ac_pos : Z }.
Definition aheap := Z -> aclass.

(** Classes 5 to 11 hold objects of 32 to 2048 bytes.  Sizes below 32 are
    rounded up to 64 by an allocation and down to 32 by a deallocation. *)
Definition alloc_class (size : Z) : Z := if size <? 32 then 6 else Z.log2_up size.
Definition free_class (size : Z) : Z := Z.max 5 (Z.log2 size).
Definition size_ok (size : Z) : Prop := 0 < size <= 2048.
Definition is_class (i : Z) : Prop := 5 <= i <= 11.

Definition set_class (i : Z) (c : aclass) (A : aheap) : aheap := fun j => if j =? i then c else A j.

Inductive heap_op := OAlloc (size : Z) | OFree (ptr size : Z).

(** [heap_step owned op A r A']: [op] answers [r], given the frames [owned]. *)
Inductive heap_step (own : Z -> Prop) : heap_op -> aheap -> Z -> aheap -> Prop :=
| StepRefused size A : ~ size_ok size -> heap_step own (OAlloc size) A 0 A
| StepReuse size A p ps pfn pos : size_ok size ->
    A (alloc_class size) = AClass (p :: ps) pfn pos ->
    heap_step own (OAlloc size) A p (set_class (alloc_class size) (AClass ps pfn pos) A)
| StepBump size A pfn pos : size_ok size ->
    A (alloc_class size) = AClass [] pfn pos -> pos <= 4096 / 2 ^ alloc_class size ->
    heap_step own (OAlloc size) A (4096 * pfn + pos / 2 ^ alloc_class size)
      (set_class (alloc_class size) (AClass [] pfn (pos + 1)) A)
| StepFrame size A pfn pos q : size_ok size ->
    A (alloc_class size) = AClass [] pfn pos -> 4096 / 2 ^ alloc_class size < pos -> ~ own q ->
    heap_step own (OAlloc size) A (4096 * q) (set_class (alloc_class size) (AClass [] q 1) A)
| StepFreeRefused p size A : ~ size_ok size -> heap_step own (OFree p size) A 0 A
| StepFree p size A ps pfn pos : size_ok size ->
    A (free_class size) = AClass ps pfn pos ->
    heap_step own (OFree p size) A 0 (set_class (free_class size) (AClass (ps ++ [p]) pfn pos) A).

(** ** Size classes *)

Lemma top_bit_loop_spec n size i :
  5 < i -> Z.of_nat n = i - 5 -> 0 < size < 2 ^ Z.succ i -> top_bit_loop n size i = Z.max 5 (Z.log2 size).
Proof.
  revert i. induction n as [|n IH]; intros i Hi Hn Hs; [lia|]. cbn [top_bit_loop].
  rewrite is_set_testbit by lia. destruct (Z.testbit size i) eqn:E; cbn [Z.b2z negb Z.eqb].
  - assert (2 ^ i <= size).
    { destruct (Z.le_gt_cases (2 ^ i) size) as [|Hlt]; [done|]. rewrite (testbit_high size i i) in E by lia. done. }
    rewrite (Z.log2_unique size i); lia.
  - assert (Hlt : size < 2 ^ i).
    { destruct (Z.lt_ge_cases size (2 ^ i)) as [|Hge]; [done|].
      assert (El : Z.log2 size = i) by (apply Z.log2_unique; lia).
      rewrite <- El, Z.bit_log2 in E by lia. done. }
    destruct n as [|n]; cbn [top_bit_loop].
    + assert (i = 6) as -> by lia. pose proof (Z.log2_lt_pow2 size 6). lia.
    + apply IH; [lia|lia|]. replace (Z.succ (i - 1)) with i by lia. lia.
Qed.

Lemma top_bit_spec size : size_ok size -> top_bit size = free_class size.
Proof. intros [H1 H2]. apply top_bit_loop_spec; [lia|lia|]. change (2 ^ Z.succ 11) with 4096. lia. Qed.

Lemma alloc_class_spec size :
  size_ok size ->
  (let i := top_bit size in if negb ((1 << i) =? size) then i + 1 else i) = alloc_class size.
Proof.
  intros Hs. rewrite top_bit_spec by done. cbv zeta. unfold free_class, alloc_class. destruct Hs as [H1 H2].
  rewrite Z.shiftl_1_l. destruct (Z.ltb_spec size 32) as [Hlt|Hge].
  - assert (Z.log2 size < 5) by (apply Z.log2_lt_pow2; lia). rewrite Z.max_l by lia.
    rewrite (proj2 (Z.eqb_neq _ _)) by lia. done.
  - assert (Hl : 5 <= Z.log2 size) by (apply Z.log2_le_pow2; lia). rewrite Z.max_r by done.
    destruct (Z.eqb_spec (2 ^ Z.log2 size) size) as [E|E]; cbn [negb].
    + rewrite <- E at 2. by rewrite Z.log2_up_pow2 by lia.
    + pose proof (Z.log2_spec size ltac:(lia)). symmetry. apply Z.log2_up_unique; [lia|].
      replace (Z.pred (Z.log2 size + 1)) with (Z.log2 size) by lia.
      replace (Z.log2 size + 1) with (Z.succ (Z.log2 size)) by lia. lia.
Qed.

(** A class is wide enough for the size it is chosen for. *)
Lemma alloc_class_range size : size_ok size -> is_class (alloc_class size) /\ size <= 2 ^ alloc_class size.
Proof.
  intros [H1 H2]. unfold alloc_class, is_class. destruct (Z.ltb_spec size 32); [lia|].
  pose proof (Z.log2_up_spec size ltac:(lia)). split; [|lia]. split.
  - apply (Z.log2_up_le_mono 32 size). lia.
  - apply (Z.log2_up_le_mono size 2048). lia.
Qed.

Lemma free_class_range size : size_ok size -> is_class (free_class size).
Proof.
  intros [H1 H2]. unfold free_class, is_class. pose proof (Z.log2_le_mono size 2048 H2). change (Z.log2 2048) with 11 in *. lia.
Qed.

(** ** The heap in memory *)

Definition chunk_bytes (base i a : Z) : Prop := chunk_addr base i <= a < chunk_addr base i + 48.

(** Class [i] in memory, with the nodes [N] of its free list. *)
Record class_rep (h : heap) (i : Z) (c : aclass) (N : list Z) : Prop := {
  cr_queue : queue_ok h (freelist (chunk_addr (osalloc_base h) i)) (ac_free c) N;
  cr_pfn : current_pfn (h_ram h) (chunk_addr (osalloc_base h) i) = ac_pfn c;
  cr_pos : free_position (h_ram h) (chunk_addr (osalloc_base h) i) = ac_pos c;
  cr_range : 0 <= ac_pos c <= 4096 / 2 ^ i + 1;
  cr_own : owned (h_mm h) OS_DS_REG (ac_pfn c)
}.

(** The nodes of all classes. *)
Definition live (Nf : Z -> list Z) : Z :=
  Z.of_nat (length (Nf 5) + length (Nf 6) + length (Nf 7) + length (Nf 8) + length (Nf 9) + length (Nf 10) + length (Nf 11)).

Definition set_nodes (i : Z) (N : list Z) (Nf : Z -> list Z) : Z -> list Z := fun j => if j =? i then N else Nf j.

(** The chunks are in an owned frame, the nodes in 100 others, and the free
    lists of different classes share no node.  [k] more nodes can be taken. *)
Record heap_rep (h : heap) (A : aheap) (Nf : Z -> list Z) (k : Z) : Prop := {
  hr_mm : mm_inv (h_mm h);
  hr_base : exists q, osalloc_base h = 4096 * q /\ owned (h_mm h) OS_DS_REG q /\
              (osalloc_base h + 4096 <= nodes (nodemem h) \/ nodes (nodemem h) + 4096 * 100 <= osalloc_base h);
  hr_pages : exists q, nodes (nodemem h) = 4096 * q /\ forall j, 0 <= j < 100 -> owned (h_mm h) OS_DS_REG (q + j);
  hr_nodes : nodes_ok h k /\ 0 <= k;
  hr_class : forall i, is_class i -> class_rep h i (A i) (Nf i);
  hr_apart : forall i j x, is_class i -> is_class j -> x ∈ Nf i -> x ∈ Nf j -> i = j;
  hr_count : num_free (nodemem h) + live Nf <= node_capacity
}.

(** The bytes the heap keeps its state in. *)
Definition heap_area (h : heap) (a : Z) : Prop :=
  osalloc_base h <= a < osalloc_base h + 4096 \/ nodes (nodemem h) <= a < nodes (nodemem h) + 4096 * 100.

Lemma heap_area_owned h A Nf k a :
  heap_rep h A Nf k -> heap_area h a -> exists q, owned (h_mm h) OS_DS_REG q /\ in_frame q a.
Proof.
  intros [_ (q & Hq & Ho & _) (p & Hp & Hop) _ _ _ _] [Ha|Ha].
  - exists q. unfold in_frame. split; [done|lia].
  - exists (p + (a - nodes (nodemem h)) / 4096). unfold in_frame. split; [apply Hop|]; zdm.
Qed.

Lemma chunk_in_area h i a : is_class i -> chunk_bytes (osalloc_base h) i a -> heap_area h a.
Proof. unfold is_class, chunk_bytes, chunk_addr, sizeof_osalloc_chunk, heap_area. lia. Qed.

Lemma node_in_area h i a : 0 <= i < node_capacity -> node_cell (nodes (nodemem h)) i a -> heap_area h a.
Proof. change node_capacity with 25600. unfold node_cell, node_at, sizeof_node, heap_area. lia. Qed.

(** Stores to the heap area leave the page allocator alone. *)
Lemma heap_area_write h A Nf k m' :
  heap_rep h A Nf k -> untouched (heap_area h) (h_ram h) m' ->
  let s' := set_mm_ram m' (h_mm h) in
  mm_inv s' /\ (forall q, owned s' OS_DS_REG q <-> owned (h_mm h) OS_DS_REG q).
Proof.
  intros Hr Hu s'. pose proof (hr_mm _ _ _ _ Hr) as Hm.
  destruct (mm_inv_untouched (heap_area h) (h_mm h) m' Hm Hu) as (Hi & Ho & _).
  - intros r a Ha Hb. destruct (heap_area_owned h A Nf k a Hr Ha) as (q & Hq & Hin).
    by apply (owned_not_bitmap (h_mm h) OS_DS_REG r q a).
  - split; [exact Hi|]. intros q. apply Ho.
Qed.

(** [advanced h h']: the heap has kept its places, its frames and the nodes in use. *)
Record advanced (h h' : heap) : Prop := {
  ad_base : osalloc_base h' = osalloc_base h;
  ad_nodes : nodes (nodemem h') = nodes (nodemem h);
  ad_next : next_free (nodemem h) <= next_free (nodemem h');
  ad_owned : forall q, owned (h_mm h) OS_DS_REG q -> owned (h_mm h') OS_DS_REG q
}.

(** A class whose chunk and nodes are untouched is still there. *)
Lemma class_rep_same h h' i c N :
  advanced h h' ->
  (forall a, chunk_bytes (osalloc_base h) i a \/ node_cells (nodes (nodemem h)) N a -> ld8 (h_ram h') a = ld8 (h_ram h) a) ->
  class_rep h i c N -> class_rep h' i c N.
Proof.
  intros [Eb En Ex Eo] H [[Hq Ha Hd Hu] Hp Hf Hr Ho].
  assert (Hc : forall a, chunk_bytes (osalloc_base h) i a -> ld8 (h_ram h') a = ld8 (h_ram h) a) by auto.
  unfold chunk_bytes in Hc. split; [split| | |done|by apply Eo]; rewrite ?Eb, ?En.
  - apply (queue_rep_same (h_ram h)); [|done]. intros a [Ha'|Ha']; apply H; [left|by right].
    unfold chunk_bytes, header, freelist in *. lia.
  - done.
  - done.
  - intros x Hx. pose proof (Hu x Hx). lia.
  - rewrite <- Hp. apply ld32_ext. intros. apply Hc. lia.
  - rewrite <- Hf. apply ld16_ext. intros. apply Hc. lia.
Qed.

Lemma live_set Nf i N :
  is_class i -> live (set_nodes i N Nf) = live Nf - Z.of_nat (length (Nf i)) + Z.of_nat (length N).
Proof.
  unfold is_class. intros Hi. unfold live, set_nodes.
  assert (i = 5 \/ i = 6 \/ i = 7 \/ i = 8 \/ i = 9 \/ i = 10 \/ i = 11) as Hc by lia.
  destruct Hc as [->|[->|[->|[->|[->|[->| ->]]]]]]; cbn [Z.eqb Pos.eqb]; lia.
Qed.

(** One class of the heap moves on. *)
Lemma heap_rep_update h h' A Nf k k' i c N (W : Z -> Prop) :
  heap_rep h A Nf k -> is_class i -> advanced h h' -> mm_inv (h_mm h') -> nodes_ok h' k' -> 0 <= k' ->
  untouched W (h_ram h) (h_ram h') ->
  (forall a, W a -> heap_area h a -> chunk_bytes (osalloc_base h) i a \/
    exists x, 0 <= x < node_capacity /\ (x ∈ Nf i \/ next_free (nodemem h) <= x) /\ node_cell (nodes (nodemem h)) x a) ->
  class_rep h' i c N -> (forall x, x ∈ N -> x ∈ Nf i \/ next_free (nodemem h) <= x) ->
  num_free (nodemem h') + Z.of_nat (length N) <= num_free (nodemem h) + Z.of_nat (length (Nf i)) ->
  heap_rep h' (set_class i c A) (set_nodes i N Nf) k'.
Proof.
  intros [Hm (q & Hq & Hqo & Hqa) (p & Hp & Hpo) [Hn Hk0] Hc Ha Hct] Hi Had Hm' Hn' Hk Hu HW Hci HN Hcount.
  pose proof Had as [Eb En Ex Eo]. split; [done| | |done| | |].
  - exists q. rewrite Eb, En. auto.
  - exists p. rewrite En. auto.
  - intros j Hj. unfold set_class, set_nodes. destruct (Z.eqb_spec j i) as [->|Hne]; [done|].
    apply (class_rep_same h); [done| |by apply Hc]. intros a Hcell. apply Hu. intros Hw.
    pose proof (cr_queue _ _ _ _ (Hc j Hj)) as [_ _ _ Huj]. pose proof Hn as [Hnr _ _ _]. change node_capacity with 25600 in Hnr.
    pose proof (nk_range _ _ Hn') as [_ Hnr'].
    assert (Harea : heap_area h a).
    { destruct Hcell as [Hcb|(x & Hx & Hxc)]; [by apply (chunk_in_area h j)|].
      apply (node_in_area h x); [|done]. apply Huj in Hx. pose proof (nk_range _ _ Hn). unfold node_capacity in *. lia. }
    specialize (HW a Hw Harea).
    unfold chunk_bytes, chunk_addr, sizeof_osalloc_chunk, is_class, heap_area, node_cell, node_at, sizeof_node in *.
    destruct Hcell as [Hcb|(x & Hx & Hxc)]; destruct HW as [Hwb|(y & Hy0 & Hy & Hyc)];
      unfold node_cell, node_at, sizeof_node in *.
    + lia.
    + change node_capacity with 25600 in Hy0. lia.
    + pose proof (Huj x Hx). pose proof (nk_range _ _ Hn) as Hnr2. change node_capacity with 25600 in Hnr2. lia.
    + assert (x = y) as <- by lia. destruct Hy as [Hy|Hy]; [|apply Huj in Hx; lia].
      exfalso. apply Hne. by apply (Ha j i x).
  - intros a b x Ha' Hb'. unfold set_nodes. destruct (Z.eqb_spec a i), (Z.eqb_spec b i); subst; try done.
    + intros [Hx|Hx]%HN Hxb; [by apply (Ha i b x)|]. pose proof (cr_queue _ _ _ _ (Hc b Hb')) as [_ _ _ Hub]. apply Hub in Hxb. lia.
    + intros Hxa [Hx|Hx]%HN; [by apply (Ha a i x)|]. pose proof (cr_queue _ _ _ _ (Hc a Ha')) as [_ _ _ Hua]. apply Hua in Hxa. lia.
    + apply (Ha a b x); done.
  - rewrite live_set by done. lia.
Qed.

Lemma nodes_ok_weaken h k k' : nodes_ok h k -> k' <= k -> nodes_ok h k'.
Proof. intros [Hr Hf Hb Hz] Hk. split; [lia|lia|done|done]. Qed.

Section class.
Context (h : heap) (A : aheap) (Nf : Z -> list Z) (k i : Z).
Context (Hrep : heap_rep h A Nf k) (Hi : is_class i).
Let ck := chunk_addr (osalloc_base h) i.
Let nd := nodes (nodemem h).

Lemma class_numbers :
  0 < nd /\ nd + 16 * 25600 < 2^32 /\ 0 <= next_free (nodemem h) <= 25600 /\
  osalloc_base h <= ck /\ ck + 48 <= osalloc_base h + 4096 /\
  (osalloc_base h + 4096 <= nd \/ nd + 4096 * 100 <= osalloc_base h) /\
  (forall x, x ∈ Nf i -> 0 <= x < next_free (nodemem h)) /\
  0 <= num_free (nodemem h) <= 25600.
Proof.
  destruct Hrep as [_ (q & Hq & _ & Hap) _ [[Hr Hf Hb _] Hk] Hc _ Hct]. change node_capacity with 25600 in *.
  pose proof (cr_queue _ _ _ _ (Hc i Hi)) as [_ _ _ Hu]. unfold live in Hct.
  unfold ck, chunk_addr, sizeof_osalloc_chunk, is_class, nd in *. repeat split; lia || done || (intros; apply Hu; done) || idtac.
  all: intros; apply Hu; done.
Qed.

(** Words of the chunk outside the list header survive stores to the list. *)
Lemma list_bytes_chunk N m' a :
  (forall x, x ∈ N -> 0 <= x < 25600) -> untouched (list_bytes nd (freelist ck) N) (h_ram h) m' ->
  ck <= a < ck + 8 -> ld8 m' a = ld8 (h_ram h) a.
Proof.
  intros HN Hu Ha. pose proof class_numbers as (N1 & N2 & N3 & N4 & N5 & N6 & N7 & N8). apply Hu.
  intros [Hh|(x & Hx%HN & Hc)]; unfold header, freelist, node_cell, node_at, sizeof_node in *; lia.
Qed.

(** Stores to the list of a class. *)
Lemma class_list_step h' N vs pfn pos k' :
  A i = AClass (ac_free (A i)) pfn pos ->
  osalloc_base h' = osalloc_base h -> nodes (nodemem h') = nd -> next_free (nodemem h) <= next_free (nodemem h') ->
  h_mm h' = set_mm_ram (h_ram h') (h_mm h) ->
  queue_ok h' (freelist ck) vs N -> nodes_ok h' k' -> 0 <= k' ->
  untouched (list_bytes nd (freelist ck) (N ++ Nf i)) (h_ram h) (h_ram h') ->
  (forall x, x ∈ N -> x ∈ Nf i \/ next_free (nodemem h) <= x) ->
  num_free (nodemem h') + Z.of_nat (length N) <= num_free (nodemem h) + Z.of_nat (length (Nf i)) ->
  heap_rep h' (set_class i (AClass vs pfn pos) A) (set_nodes i N Nf) k'.
Proof.
  intros EA Eb En Ex Emm Hq Hn Hk Hu HN Hct. pose proof class_numbers as (N1 & N2 & N3 & N4 & N5 & N6 & N7 & N8).
  pose proof (hr_class _ _ _ _ Hrep i Hi) as [_ Hp Hf Hr Ho]. rewrite EA in Hp, Hf, Hr, Ho. cbn [ac_pfn ac_pos] in *.
  assert (HNr : forall x, x ∈ N ++ Nf i -> 0 <= x < 25600).
  { intros x [Hx|Hx]%elem_of_app.
    - pose proof (qk_used _ _ _ _ Hq x Hx). pose proof (nk_range _ _ Hn). change node_capacity with 25600 in *. lia.
    - apply N7 in Hx. lia. }
  assert (Harea : untouched (heap_area h) (h_ram h) (h_ram h')).
  { eapply untouched_weaken; [|exact Hu]. intros a [Hh|(x & Hx & Hc)].
    - left. unfold header, freelist in Hh. lia.
    - apply (node_in_area h x); [|done]. apply HNr in Hx. done. }
  destruct (heap_area_write h A Nf k _ Hrep Harea) as [Him Hom]. rewrite <- Emm in Him, Hom.
  assert (Had : advanced h h') by (split; [done..|]; intros q; apply Hom).
  apply (heap_rep_update h h' A Nf k k' i _ N (list_bytes nd (freelist ck) (N ++ Nf i)) Hrep); try done.
  - intros a [Hh|(x & Hx & Hc)] _.
    + left. fold ck. unfold chunk_bytes, header, freelist in *. fold ck. lia.
    + right. exists x. split; [by apply HNr|]. split; [|done]. apply elem_of_app in Hx as [Hx|Hx]; [by apply HN|by left].
  - split; cbn [ac_free ac_pfn ac_pos]; rewrite ?Eb; fold ck; try done.
    + rewrite <- Hp. fold ck. apply ld32_ext. intros. by apply (list_bytes_chunk (N ++ Nf i)); [..|lia].
    + rewrite <- Hf. fold ck. apply ld16_ext. intros. by apply (list_bytes_chunk (N ++ Nf i)); [..|lia].
    + by apply Hom.
Qed.
End class.

(** ** os_free queues the object in its class *)

Lemma os_free_ok h A Nf k p size :
  heap_rep h A Nf (3 + k) -> 0 <= k -> size_ok size -> 0 <= p < 2^64 ->
  exists h' Nf' ps pfn pos, A (free_class size) = AClass ps pfn pos /\ os_free p size h = Some h' /\
    heap_rep h' (set_class (free_class size) (AClass (ps ++ [p]) pfn pos) A) Nf' k.
Proof.
  intros Hrep Hk Hs Hp. pose proof (free_class_range size Hs) as Hi. set (i := free_class size) in *.
  pose proof (hr_class _ _ _ _ Hrep i Hi) as [Hq _ _ _ _]. destruct (A i) as [ps pfn pos] eqn:EA. cbn [ac_free] in Hq.
  pose proof (hr_nodes _ _ _ _ Hrep) as [Hn _].
  assert (Hcost : 1 <= enqueue_cost (Nf i) <= 3) by (destruct (Nf i); cbn; lia).
  destruct (enqueue_tail_ok h _ p ps (Nf i) (3 - enqueue_cost (Nf i) + k) Hq) as (h' & N & E & [Hq' Hn' Hmv Hnew Hct]);
    [by replace (enqueue_cost (Nf i) + (3 - enqueue_cost (Nf i) + k)) with (3 + k) by lia | done | lia |].
  destruct Hmv as [(nf & nu & Eh) Hnx Hby].
  exists h', (set_nodes i N Nf), ps, pfn, pos. split; [done|]. split.
  - unfold os_free. destruct Hs as [H1 H2]. rewrite (proj2 (Z.eqb_neq _ _)) by lia. rewrite Z.gtb_ltb, (proj2 (Z.ltb_ge _ _)) by lia.
    cbn [orb]. rewrite top_bit_spec by done. fold i. by rewrite E.
  - apply (class_list_step h A Nf (3 + k) i Hrep Hi); try done.
    + by rewrite EA.
    + by rewrite Eh.
    + by rewrite Eh.
    + by rewrite Eh.
    + apply (nodes_ok_weaken _ _ _ Hn'). lia.
    + eapply untouched_weaken; [|exact Hby]. intros a [Ha|(x & Hx & Ha)]; [by left|right]. exists x. split; [set_solver|done].
    + lia.
Qed.

(** ** os_alloc *)

(** [os_alloc] of a good size works on the chunk of its class. *)
Lemma os_alloc_eq size h :
  size_ok size ->
  os_alloc size h =
    let i := alloc_class size in
    let ck := chunk_addr (osalloc_base h) i in
    if negb (is_empty (h_ram h) (freelist ck)) then
      match dequeue_front (freelist ck) h with
      | None => None
      | Some (mem, h) => Some (node_value (h_ram h) mem, node_free mem h)
      end
    else
      let h :=
        if free_position (h_ram h) ck >? (PAGE_SIZE >> i) then
          let '(pfn, s) := os_pfn_alloc OS_DS_REG (h_mm h) in
          set_h_mm (set_mm_ram (st16 (st32 (mm_ram s) (ck + 4) pfn) (ck + 2) 0) s) h
        else h in
      let m := h_ram h in
      let fp := free_position m ck in
      let retval := u64 ((current_pfn m ck << PAGE_SHIFT) + (fp >> i)) in
      let m := mark_position m ck fp in
      Some (retval, set_h_ram (st16 m (ck + 2) (u16 (fp + 1))) h).
Proof.
  intros Hs. unfold os_alloc. rewrite <- alloc_class_spec by done. destruct Hs as [H1 H2].
  rewrite (proj2 (Z.eqb_neq _ _)) by lia. rewrite Z.gtb_ltb, (proj2 (Z.ltb_ge _ _)) by lia. done.
Qed.

Lemma os_alloc_reuse h A Nf k size p ps pfn pos :
  heap_rep h A Nf k -> size_ok size -> A (alloc_class size) = AClass (p :: ps) pfn pos ->
  exists h' Nf', os_alloc size h = Some (p, h') /\
    heap_rep h' (set_class (alloc_class size) (AClass ps pfn pos) A) Nf' k.
Proof.
  intros Hrep Hs EA. destruct (alloc_class_range size Hs) as [Hi _]. set (i := alloc_class size) in *.
  pose proof (hr_class _ _ _ _ Hrep i Hi) as [Hq _ _ _ _]. rewrite EA in Hq. cbn [ac_free] in Hq.
  pose proof (class_numbers h A Nf k i Hrep Hi) as (N1 & N2 & N3 & N4 & N5 & N6 & N7 & N8).
  destruct (hr_nodes _ _ _ _ Hrep) as [Hn Hk]. set (ck := chunk_addr (osalloc_base h) i) in *.
  destruct (dequeue_front_ok h (freelist ck) p ps (Nf i) Hq (nodes_ok_weaken _ _ _ Hn Hk))
    as (hd & tl & n0 & ns & m' & EN & Ed & Ev & Hrep' & Hu).
  pose proof Hq as [Hq0 Ha Hnd _]. pose proof (queue_rep_length _ _ _ _ _ Hq0) as HL.
  pose proof (NoDup_range_length _ (next_free (nodemem h)) Hnd ltac:(lia) N7) as HL'.
  set (nd := nodes (nodemem h)) in *. rewrite EN in HL', N7, Hnd.
  set (h1 := set_h_ram m' h) in *. exists (node_free (node_at nd n0) h1), (set_nodes i (hd :: tl :: ns) Nf).
  assert (Hn0 : ~ n0 ∈ hd :: tl :: ns).
  { apply NoDup_cons in Hnd as [D1 Hnd]. apply NoDup_cons in Hnd as [D2 Hnd]. apply NoDup_cons in Hnd as [D3 _]. set_solver. }
  assert (Hu' : untouched (list_bytes nd (freelist ck) (Nf i)) (h_ram h) (set_node_next m' (node_at nd n0) 0)).
  { apply untouched_node_next; [|rewrite EN; set_solver]. eapply untouched_weaken; [|exact Hu].
    intros a [Hx|(x & Hx & Hx')]; [by left|right]. exists x. split; [rewrite EN; set_solver|done]. }
  assert (Enf : u32 (num_free (nodemem h) + 1) = num_free (nodemem h) + 1) by (apply u32_small; lia).
  assert (Hcount : num_free (nodemem h) + Z.of_nat (length (Nf i)) <= 25600).
  { pose proof (hr_count _ _ _ _ Hrep). change node_capacity with 25600 in *. unfold live in *.
    assert (i = 5 \/ i = 6 \/ i = 7 \/ i = 8 \/ i = 9 \/ i = 10 \/ i = 11) as Hc by (unfold is_class in Hi; lia).
    clear - H Hc. destruct Hc as [->|[->|[->|[->|[->|[->| ->]]]]]]; lia. }
  split.
  - rewrite os_alloc_eq by done. cbv zeta. fold i. fold ck.
    rewrite (is_empty_rep _ nd _ (p :: ps) (Nf i)); [|done|rewrite EN in HL; cbn [length] in *; lia].
    rewrite bool_decide_eq_false_2 by done. cbn [negb]. rewrite Ed. unfold h1 at 1. by rewrite h_ram_set, Ev.
  - apply (class_list_step h A Nf k i Hrep Hi); try done.
    + by rewrite EA.
    + split; [|done| |].
      * apply (queue_rep_same m'); [|done]. intros a Haa. unfold node_free, set_node_next.
        change (ld8 (st64 m' (node_at nd n0 + 8) 0) a = ld8 m' a). apply (ld8_stn_out 8). unfold header_apart in Ha.
        assert (0 <= n0 < 25600) by (pose proof (N7 n0 ltac:(set_solver)); lia).
        destruct Haa as [Hx|(x & Hx & Hx')]; [unfold header, freelist, node_at, sizeof_node in *; lia|].
        assert (x <> n0) by (intros ->; done). assert (0 <= x < 25600) by (pose proof (N7 x ltac:(set_solver)); lia).
        change (node_cell nd x a) in Hx'. unfold node_cell, node_at, sizeof_node in *. lia.
      * apply NoDup_cons in Hnd as [D1 Hnd]. apply NoDup_cons in Hnd as [D2 Hnd]. apply NoDup_cons in Hnd as [D3 Hnd].
        apply NoDup_cons. split; [set_solver|]. apply NoDup_cons. split; [set_solver|done].
      * intros x Hx. apply N7. set_solver.
    + assert (Hok : nodes_ok (set_node_free (next_free (nodemem h)) (num_free (nodemem h) + 1) h) k).
      { destruct Hn as [Hr Hf Hb Hz]. split; [done|change (k <= num_free (nodemem h) + 1 < 2^32); lia|done|done]. }
      unfold node_free. change (num_free (nodemem h1)) with (num_free (nodemem h)). rewrite Enf.
      apply (nodes_ok_list h (freelist ck) (Nf i) k _ _ _ Hok Ha); [intros x Hx; apply N7; by rewrite <- EN|exact Hu'].
    + eapply untouched_weaken; [|exact Hu']. intros a [Hx|(x & Hx & Hx')]; [by left|right].
      exists x. split; [set_solver|done].
    + intros x Hx. left. rewrite EN. set_solver.
    + unfold node_free. cbn [nodemem set_node_free set_nodemem set_h_ram set_h_mm num_free]. rewrite EN. cbn [length].
      change (num_free (nodemem h1)) with (num_free (nodemem h)). rewrite Enf. lia.
Qed.

Lemma heap_rep_ext h A A' Nf k :
  heap_rep h A Nf k -> (forall i, is_class i -> A' i = A i) -> heap_rep h A' Nf k.
Proof. intros [? ? ? ? Hc ? ?] HA. split; try done. intros i Hi. rewrite HA by done. by apply Hc. Qed.

Lemma set_nodes_same Nf i j : set_nodes i (Nf i) Nf j = Nf j.
Proof. unfold set_nodes. by destruct (Z.eqb_spec j i) as [->|]. Qed.

Lemma heap_rep_nodes_ext h A Nf Nf' k :
  heap_rep h A Nf k -> (forall i, Nf' i = Nf i) -> heap_rep h A Nf' k.
Proof.
  intros [? ? ? ? Hc Ha Hl] HN. split; try done.
  - intros i Hi. rewrite HN. by apply Hc.
  - intros i j x. rewrite !HN. apply Ha.
  - unfold live in *. by rewrite !HN.
Qed.

(** Stores to the fields of a chunk next to its list header. *)
Definition chunk_field (ck a : Z) : Prop := ck <= a < ck + 8 \/ ck + 32 <= a < ck + 48.

Lemma chunk_field_step h A Nf k i h' pfn pos :
  heap_rep h A Nf k -> is_class i -> advanced h h' -> mm_inv (h_mm h') ->
  nodemem h' = nodemem h ->
  untouched (fun a => chunk_field (chunk_addr (osalloc_base h) i) a \/ ~ heap_area h a) (h_ram h) (h_ram h') ->
  current_pfn (h_ram h') (chunk_addr (osalloc_base h) i) = pfn ->
  free_position (h_ram h') (chunk_addr (osalloc_base h) i) = pos ->
  0 <= pos <= 4096 / 2 ^ i + 1 -> owned (h_mm h') OS_DS_REG pfn ->
  heap_rep h' (set_class i (AClass (ac_free (A i)) pfn pos) A) Nf k.
Proof.
  intros Hrep Hi Had Hm En Hu Hp Hf Hr Ho.
  pose proof (class_numbers h A Nf k i Hrep Hi) as (N1 & N2 & N3 & N4 & N5 & N6 & N7 & N8).
  pose proof (hr_nodes _ _ _ _ Hrep) as [[Kr Kf Kb Kz] Hk]. pose proof Had as [Eb _ Ex Eo].
  change node_capacity with 25600 in *. set (ck := chunk_addr (osalloc_base h) i) in *.
  assert (Hnode : forall x a, 0 <= x < 25600 -> node_cell (nodes (nodemem h)) x a -> ld8 (h_ram h') a = ld8 (h_ram h) a).
  { intros x a Hx Hc. apply Hu. intros [Hw|Hw].
    - unfold chunk_field, node_cell, node_at, sizeof_node in *. lia.
    - by apply Hw, (node_in_area h x). }
  apply (heap_rep_nodes_ext _ _ (set_nodes i (Nf i) Nf)); [|intros j; by rewrite set_nodes_same].
  apply (heap_rep_update h h' A Nf k k i _ (Nf i)
    (fun a => chunk_field ck a \/ ~ heap_area h a) Hrep); try done.
  - split; rewrite ?En; try done. change node_capacity with 25600. intros x Hx. rewrite <- (Kz x Hx).
    apply ld64_ext. intros a Ha. apply (Hnode x); [lia|]. unfold node_cell. lia.
  - intros a [Hw|Hw] Ha; [|done]. left. unfold chunk_bytes. fold ck. unfold chunk_field in Hw. lia.
  - pose proof (hr_class _ _ _ _ Hrep i Hi) as [[Q1 Q2 Q3 Q4] _ _ _ _]. split; cbn [ac_free ac_pfn ac_pos]; rewrite ?Eb; try done.
    split; rewrite ?En, ?Eb; try done.
    apply (queue_rep_same (h_ram h)); [|done]. intros a [Ha|(x & Hx & Hc)].
    + apply Hu. fold ck in Ha. unfold header, freelist, chunk_field, heap_area in *. intros [Hw|Hw]; lia.
    + apply (Hnode x); [|done]. apply N7 in Hx. lia.
  - by left.
  - rewrite En. lia.
Qed.

Lemma advanced_ram h A Nf k m' :
  heap_rep h A Nf k -> untouched (heap_area h) (h_ram h) m' ->
  advanced h (set_h_ram m' h) /\ mm_inv (h_mm (set_h_ram m' h)) /\
  (forall q, owned (h_mm (set_h_ram m' h)) OS_DS_REG q <-> owned (h_mm h) OS_DS_REG q).
Proof.
  intros Hr Hu. destruct (heap_area_write h A Nf k m' Hr Hu) as [H1 H2].
  split; [split; try done|by split]. intros q. apply H2.
Qed.

(** An object at the current position of the class. *)
Lemma class_pos_bound i : is_class i -> 0 < 2 ^ i /\ 4096 / 2 ^ i <= 128.
Proof.
  intros Hi. assert (i = 5 \/ i = 6 \/ i = 7 \/ i = 8 \/ i = 9 \/ i = 10 \/ i = 11) as Hc by (unfold is_class in Hi; lia).
  destruct Hc as [->|[->|[->|[->|[->|[->| ->]]]]]]; vm_compute; split; congruence.
Qed.

Lemma bump_step h A Nf k i pfn pos :
  heap_rep h A Nf k -> is_class i -> A i = AClass [] pfn pos -> pos <= 4096 / 2 ^ i ->
  let m := h_ram h in
  let ck := chunk_addr (osalloc_base h) i in
  let fp := free_position m ck in
  let h' := set_h_ram (st16 (mark_position m ck fp) (ck + 2) (u16 (fp + 1))) h in
  u64 ((current_pfn m ck << PAGE_SHIFT) + (fp >> i)) = 4096 * pfn + pos / 2 ^ i /\
  untouched (heap_area h) m (h_ram h') /\
  heap_rep h' (set_class i (AClass [] pfn (pos + 1)) A) Nf k.
Proof.
  intros Hrep Hi EA Hle m ck fp h'.
  pose proof (class_numbers h A Nf k i Hrep Hi) as (N1 & N2 & N3 & N4 & N5 & N6 & N7 & N8). fold ck in N4, N5.
  pose proof (hr_class _ _ _ _ Hrep i Hi) as [_ Hp Hf Hr Ho]. rewrite EA in Hp, Hf, Hr, Ho. cbn [ac_pfn ac_pos] in *.
  fold m ck in Hp, Hf. assert (Efp : fp = pos) by exact Hf.
  destruct (class_pos_bound i Hi) as [Hpw Hb].
  pose proof (owned_range _ _ _ (hr_mm _ _ _ _ Hrep) Ho) as Hor.
  change (region_first OS_DS_REG) with 2049 in Hor. change (region_pfn OS_DS_REG + region_frames OS_DS_REG) with 8192 in Hor.
  split.
  - rewrite Hp, Efp. unfold PAGE_SHIFT. rewrite shiftl_12, Z.shiftr_div_pow2 by (unfold is_class in Hi; lia).
    assert (0 <= pos / 2 ^ i <= 128).
    { split; [apply Z.div_pos; lia|]. apply Z.div_le_upper_bound; [lia|]. nia. }
    rewrite u64_small by lia. lia.
  - assert (E5 : 0 <= pos >> 5 <= 4) by (rewrite Z.shiftr_div_pow2 by lia; change (2^5) with 32; zdm).
    assert (Hch : untouched (chunk_field ck) m (st16 (mark_position m ck fp) (ck + 2) (u16 (fp + 1)))).
    { unfold mark_position. rewrite Efp. apply (untouched_st 2); [apply (untouched_st 4); [done|]|]; unfold chunk_field; lia. }
    assert (Hha : untouched (heap_area h) m (h_ram h')).
    { eapply untouched_weaken; [|exact Hch]. intros a Ha. left. unfold chunk_field in Ha. lia. }
    split; [exact Hha|].
    destruct (advanced_ram h A Nf k (h_ram h')) as (Had & Him & Hom); [done|exact Hha|].
    change (set_h_ram (h_ram h') h) with h' in Had, Him, Hom.
    replace (AClass [] pfn (pos + 1)) with (AClass (ac_free (A i)) pfn (pos + 1)) by (by rewrite EA).
    apply (chunk_field_step h A Nf k i h'); try done; fold ck.
    + eapply untouched_weaken; [|exact Hch]. by left.
    + rewrite <- Hp. apply ld32_ext. intros b Hb'. unfold h', mark_position. rewrite h_ram_set, Efp. unfold st16, st32.
      rewrite !ld8_stn_out; [done|lia|lia].
    + unfold free_position, h', ld16, st16. rewrite h_ram_set, ldn_stn_eq, Efp. unfold u16.
      rewrite (Z.mod_small (pos + 1)) by lia. apply Z.mod_small. change (8 * Z.of_nat 2) with 16. lia.
    + lia.
    + by apply Hom.
Qed.

Lemma os_alloc_bump h A Nf k size pfn pos :
  heap_rep h A Nf k -> size_ok size -> A (alloc_class size) = AClass [] pfn pos ->
  pos <= 4096 / 2 ^ alloc_class size ->
  exists m', os_alloc size h = Some (4096 * pfn + pos / 2 ^ alloc_class size, set_h_ram m' h) /\
    untouched (heap_area h) (h_ram h) m' /\
    heap_rep (set_h_ram m' h) (set_class (alloc_class size) (AClass [] pfn (pos + 1)) A) Nf k.
Proof.
  intros Hrep Hs EA Hle. destruct (alloc_class_range size Hs) as [Hi _]. set (i := alloc_class size) in *.
  destruct (bump_step h A Nf k i pfn pos Hrep Hi EA Hle) as (Er & Hu' & Hrep'). cbv zeta in Er, Hu', Hrep'.
  pose proof (hr_class _ _ _ _ Hrep i Hi) as [[Hq _ _ _] _ Hf _ _]. rewrite EA in Hq, Hf. cbn [ac_free ac_pos] in *.
  eexists. split; [|split; [exact Hu'|exact Hrep']]. rewrite os_alloc_eq by done. cbv zeta. fold i.
  rewrite (is_empty_rep _ _ _ [] (Nf i) Hq) by (cbn; lia). cbn [bool_decide negb].
  rewrite bool_decide_eq_true_2 by done. cbn [negb].
  assert (Hc : (free_position (h_ram h) (chunk_addr (osalloc_base h) i) >? PAGE_SIZE >> i) = false).
  { rewrite Hf, Z.gtb_ltb. apply Z.ltb_ge. unfold PAGE_SIZE. by rewrite Z.shiftr_div_pow2 by (unfold is_class in Hi; lia). }
  by rewrite Hc, Er.
Qed.

Lemma os_alloc_frame h A Nf k size pfn pos :
  heap_rep h A Nf k -> size_ok size -> A (alloc_class size) = AClass [] pfn pos ->
  4096 / 2 ^ alloc_class size < pos -> (0 < available (h_mm h) OS_DS_REG)%nat ->
  exists q h' A', ~ owned (h_mm h) OS_DS_REG q /\ os_alloc size h = Some (4096 * q, h') /\
    heap_rep h' A' Nf k /\ A' = set_class (alloc_class size) (AClass [] q 1) A.
Proof.
  intros Hrep Hs EA Hlt Hav. destruct (alloc_class_range size Hs) as [Hi _]. set (i := alloc_class size) in *.
  pose proof (class_numbers h A Nf k i Hrep Hi) as (N1 & N2 & N3 & N4 & N5 & N6 & N7 & N8).
  pose proof (hr_class _ _ _ _ Hrep i Hi) as [[Hq _ _ _] _ Hf _ _]. rewrite EA in Hq, Hf. cbn [ac_free ac_pos] in *.
  pose proof (os_pfn_alloc_ok OS_DS_REG (h_mm h) (hr_mm _ _ _ _ Hrep) Hav) as Hp.
  destruct (os_pfn_alloc OS_DS_REG (h_mm h)) as [q s] eqn:Eal. cbn [fst snd] in Hp.
  set (ck := chunk_addr (osalloc_base h) i) in *.
  pose proof (ap_range _ _ _ _ Hp) as Hqr. change (region_first OS_DS_REG) with 2049 in Hqr.
  change (region_pfn OS_DS_REG + region_frames OS_DS_REG) with 8192 in Hqr.
  set (m1 := st16 (st32 (mm_ram s) (ck + 4) q) (ck + 2) 0).
  set (h1 := set_h_mm (set_mm_ram m1 s) h).
  assert (Hother : forall a, heap_area h a -> ld8 (mm_ram s) a = ld8 (h_ram h) a).
  { intros a Ha. apply (ap_ram _ _ _ _ Hp). intros [Hb|[? _]]; [|done].
    destruct (heap_area_owned h A Nf k a Hrep Ha) as (p & Hpo & Hin).
    by apply (owned_not_bitmap (h_mm h) OS_DS_REG OS_DS_REG p a (hr_mm _ _ _ _ Hrep) Hpo Hin). }
  assert (Hm1 : untouched (chunk_field ck) (mm_ram s) m1).
  { unfold m1. apply (untouched_st 2); [apply (untouched_st 4); [done|]|]; unfold chunk_field; lia. }
  assert (Hs1 : mm_inv (set_mm_ram m1 s) /\ forall r p, owned (set_mm_ram m1 s) r p <-> owned s r p).
  { destruct (mm_inv_untouched (chunk_field ck) s m1 (ap_inv _ _ _ _ Hp) Hm1) as (I1 & I2 & _); [|done].
    intros r a Ha Hb. destruct (heap_area_owned h A Nf k a Hrep) as (p & Hpo & Hin); [left; unfold chunk_field in Ha; lia|].
    by apply (owned_not_bitmap (h_mm h) OS_DS_REG r p a (hr_mm _ _ _ _ Hrep) Hpo Hin). }
  destruct Hs1 as [Hi1 Ho1].
  assert (Had : advanced h h1).
  { split; try done. intros p Hpo. apply Ho1, (ap_owned _ _ _ _ Hp). by left. }
  assert (Hrep1 : heap_rep h1 (set_class i (AClass (ac_free (A i)) q 0) A) Nf k).
  { apply (chunk_field_step h A Nf k i h1); try done; fold ck.
    - intros a Ha. change (h_ram h1) with m1. rewrite (Hm1 a) by tauto. apply Hother.
      destruct (decide (heap_area h a)) as [|Hna]; [done|]. exfalso. apply Ha. by right.
    - change (h_ram h1) with m1. unfold current_pfn, m1, ld32, st16. rewrite (ldn_stn_ne 4 2) by lia. apply ld32_st32_eq. lia.
    - change (h_ram h1) with m1. unfold free_position, m1, ld16, st16. by rewrite ldn_stn_eq.
    - destruct (class_pos_bound i Hi). pose proof (Z.div_pos 4096 (2 ^ i)). lia.
    - apply Ho1, (ap_owned _ _ _ _ Hp). by right. }
  rewrite EA in Hrep1. cbn [ac_free] in Hrep1.
  destruct (bump_step h1 _ Nf k i q 0 Hrep1 Hi) as (Er & _ & Hrep2).
  { unfold set_class. by rewrite Z.eqb_refl. }
  { destruct (class_pos_bound i Hi). pose proof (Z.div_pos 4096 (2 ^ i)). lia. }
  cbv zeta in Er, Hrep2. change (osalloc_base h1) with (osalloc_base h) in Er, Hrep2. fold ck in Er, Hrep2.
  exists q. eexists. eexists. split; [exact (ap_fresh _ _ _ _ Hp)|]. split; [|split; [|reflexivity]].
  - rewrite os_alloc_eq by done. cbv zeta. fold i. fold ck.
    rewrite (is_empty_rep _ _ _ [] (Nf i) Hq) by (cbn; lia). rewrite bool_decide_eq_true_2 by done. cbn [negb].
    assert (Hc : (free_position (h_ram h) ck >? PAGE_SIZE >> i) = true).
    { rewrite Hf, Z.gtb_ltb. apply Z.ltb_lt. unfold PAGE_SIZE. by rewrite Z.shiftr_div_pow2 by (unfold is_class in Hi; lia). }
    rewrite Hc, Eal. fold m1. fold h1. rewrite Er. rewrite Z.div_0_l by (destruct (class_pos_bound i Hi); lia). by rewrite Z.add_0_r.
  - apply (heap_rep_ext _ _ _ _ _ Hrep2). intros j Hj. unfold set_class. by destruct (Z.eqb_spec j i).
Qed.

(** A heap whose own bytes and frames are as before. *)
Lemma heap_rep_same h h' A Nf k :
  heap_rep h A Nf k -> mm_inv (h_mm h') -> osalloc_base h' = osalloc_base h -> nodemem h' = nodemem h ->
  (forall q, owned (h_mm h') OS_DS_REG q <-> owned (h_mm h) OS_DS_REG q) ->
  (forall a, heap_area h a -> ld8 (h_ram h') a = ld8 (h_ram h) a) -> heap_rep h' A Nf k.
Proof.
  intros [Hm (q & Hq & Hqo & Hqa) (p & Hp & Hpo) [[Kr Kf Kb Kz] Hk0] Hc Ha Hct] Hm' Eb En Ho Hsame.
  change node_capacity with 25600 in *. split; rewrite ?Eb, ?En; try done.
  - exists q. by rewrite Ho.
  - exists p. split; [done|]. intros j Hj. rewrite Ho. by apply Hpo.
  - split; [|done]. split; rewrite ?En; try done. intros i Hi. rewrite <- (Kz i Hi). apply ld64_ext. intros a Hab. apply Hsame.
    apply (node_in_area _ i); [change node_capacity with 25600 in *; lia|]. unfold node_cell. lia.
  - intros i Hi. apply (class_rep_same h); [|intros a Hcell; apply Hsame|by apply Hc].
    + split; rewrite ?En; try done. intros x Hx. by apply Ho.
    + destruct Hcell as [Hcb|(x & Hx & Hxc)]; [by apply (chunk_in_area _ i)|].
      apply (node_in_area _ x); [|done]. pose proof (cr_queue _ _ _ _ (Hc i Hi)) as [_ _ _ Hu]. apply Hu in Hx.
      change node_capacity with 25600. lia.
Qed.

(** Stores to objects, which lie outside the heap's own bytes. *)
Lemma heap_rep_store P h A Nf k m' :
  heap_rep h A Nf k -> untouched P (h_ram h) m' -> (forall a, P a -> ~ heap_area h a) ->
  (forall r a, P a -> ~ bitmap_area r a) -> heap_rep (set_h_ram m' h) A Nf k.
Proof.
  intros Hr Hu Ha Hb. destruct (mm_inv_untouched P (h_mm h) m' (hr_mm _ _ _ _ Hr) Hu Hb) as (I & O & _).
  apply (heap_rep_same h); try done. intros a Harea. apply Hu. intros Hp. by apply (Ha a).
Qed.
