(* ===== verification/HeapInit.v ===== *)
(** * The heap after init_mems

    Memory is zero after a reset.  The frame allocator then hands out the
    frames of a region one after the other, so that the node pages are
    contiguous, and [init_mems] establishes the representation on which the
    contract of os_alloc and os_free rests. *)
From S2P Require Import Prelude Mem Lib Machine Memory PageAlloc NextFrames Frames OsAlloc OsHeap.
#[local] Open Scope gemos_scope.

(** ** A region whose frames are taken in order

    [front s j]: the frames of OS_DS that can still be handed out are those
    from number [j] to the end of the window. *)
Definition front (s : mm) (j : Z) : Prop :=
  mm_inv s /\ avail (mm_ram s) (pgl_os_ds s) = list_to_set (seqZ j (768 - j)).

(** Owned memory of OS_DS, next to the bitmap. *)
Definition ds_area (a : Z) : Prop := 4096 * 2049 <= a < 0x2000000.

Lemma ds_area_bitmap r a : ds_area a -> ~ bitmap_area r a.
Proof. unfold ds_area, bitmap_area. region_nums r; lia. Qed.

Lemma front_available s j : front s j -> 0 <= j <= 768 -> available s OS_DS_REG = Z.to_nat (768 - j).
Proof. intros [_ E] Hj. unfold available. cbn [pglists]. rewrite E. apply size_seqZ. lia. Qed.

Lemma front_write s j m' :
  front s j -> untouched ds_area (mm_ram s) m' ->
  front (set_mm_ram m' s) j /\ (forall q, owned (set_mm_ram m' s) OS_DS_REG q <-> owned s OS_DS_REG q).
Proof.
  intros [Hi Hv] Hu.
  destruct (mm_inv_untouched ds_area s m' Hi Hu) as (Hi' & Ho & _); [intros r a; apply ds_area_bitmap|].
  split; [split; [done|]|intros q; apply Ho].
  destruct (Hi OS_DS_REG) as (Hp & Hst & Hs).
  destruct (pgl_inv_untouched ds_area _ _ _ Hp Hu) as (_ & _ & Hv').
  { rewrite Hst, Hs. intros a Ha Hd. apply (ds_area_bitmap OS_DS_REG a Hd). unfold bitmap_area.
    change (region_first OS_DS_REG) with (2048 + pages_to_reserve (region_frames OS_DS_REG)).
    change (region_start OS_DS_REG) with (4096 * 2048) in *. lia. }
  rewrite <- Hv. exact Hv'.
Qed.

(** The next frame is number [j]. *)
Lemma front_alloc s j :
  front s j -> 0 <= j < 768 ->
  let q := (os_pfn_alloc OS_DS_REG s).1 in let s' := (os_pfn_alloc OS_DS_REG s).2 in
  q = 2048 + j /\ front s' (j + 1) /\ alloc_post OS_DS_REG s q s'.
Proof.
  intros [Hi Hv] Hj. assert (Hav : (0 < available s OS_DS_REG)%nat).
  { rewrite (front_available s j) by (done || lia). lia. }
  pose proof (os_pfn_alloc_ok OS_DS_REG s Hi Hav) as Hp. cbv zeta.
  destruct (Hi OS_DS_REG) as (Hpi & Hst & Hs). cbn [pglists] in *. set (p := pgl_os_ds s) in *.
  assert (Hin : forall i, i ∈ avail (mm_ram s) p <-> j <= i < 768).
  { intros i. rewrite Hv, elem_of_list_to_set, elem_of_seqZ. lia. }
  destruct (get_free_page_window (mm_ram s) p (inv_geom _ _ Hpi)) as (i & Hw & Hb & Hfst & E).
  { exists j. apply elem_of_avail, Hin. lia. }
  assert (i = j) as ->.
  { pose proof (proj1 (Hin i) (proj2 (elem_of_avail _ _ _) (conj Hw Hb))) as Hi1.
    destruct (proj1 (elem_of_avail _ _ _) (proj2 (Hin j) ltac:(lia))) as [[Hj1 _] Hjb].
    destruct (Z.eq_dec i j) as [|Hne]; [done|]. rewrite Hfst in Hjb by lia. done. }
  unfold os_pfn_alloc in *. cbn [pglists] in *. fold p in Hp |- *.
  destruct (Z.leb_spec (pgl_free_pages p) 0).
  { pose proof (ap_range _ _ _ _ Hp) as Hr. cbn [fst] in Hr. by vm_compute in Hr; destruct Hr. }
  rewrite E in *. destruct (decide (OS_DS_REG = OS_PT_REG)) as [Hf|_]; [discriminate Hf|]. cbn [fst snd] in *.
  rewrite Hst in *. split; [change (region_start OS_DS_REG / 4096) with 2048; lia|]. split; [|exact Hp].
  split; [apply Hp|].
  change (avail (pgl_bmap_set (mm_ram s) (pgl_bitmap p) j) (set_free_pages (set_last_free_pos p (j / 32)) (u32 (pgl_free_pages p - 1)))
    = list_to_set (seqZ (j + 1) (768 - (j + 1)))).
  rewrite avail_alloc; [|apply (geom_last _ (inv_geom _ _ Hpi))|done|exact Hfst].
  apply set_eq. intros i. rewrite elem_of_difference, Hin, elem_of_singleton, elem_of_list_to_set, elem_of_seqZ. lia.
Qed.

(** ** Initialising the chunks *)

(** A chunk as [init_chunk] leaves it. *)
Record fresh_chunk (m : mem) (ck pfn : Z) : Prop := {
  fc_pos : free_position m ck = 0;
  fc_pfn : current_pfn m ck = pfn;
  fc_head : list_head m (freelist ck) = 0;
  fc_size : list_size m (freelist ck) = 0
}.

Lemma fresh_chunk_same m m' ck pfn :
  (forall a, ck <= a < ck + 48 -> ld8 m' a = ld8 m a) -> fresh_chunk m ck pfn -> fresh_chunk m' ck pfn.
Proof.
  intros H [E1 E2 E3 E4]. unfold freelist in *.
  split; [rewrite <- E1; apply ld16_ext | rewrite <- E2; apply ld32_ext | rewrite <- E3; apply ld64_ext | rewrite <- E4; apply ld64_ext];
    intros; apply H; unfold freelist in *; lia.
Qed.

(** The owned frames of OS_DS are those below number [j]. *)
Definition owned_below (s : mm) (j : Z) : Prop := forall q, owned s OS_DS_REG q <-> 2049 <= q < 2048 + j.

Lemma owned_below_alloc s j q s' :
  owned_below s j -> 1 <= j -> q = 2048 + j -> alloc_post OS_DS_REG s q s' -> owned_below s' (j + 1).
Proof.
  intros Ho Hj -> Hp p. rewrite (ap_owned _ _ _ _ Hp), (Ho p).
  split; [intros [?|[_ ?]]; lia|]. intros. destruct (Z.eq_dec p (2048 + j)); [by right|left; lia].
Qed.

(** The bytes that [init_chunk] may change. *)
Definition ds_bitmap (a : Z) : Prop := bitmap_area OS_DS_REG a.

Lemma ds_bitmap_range a : ds_bitmap a -> a < 4096 * 2049.
Proof. unfold ds_bitmap, bitmap_area. change (region_first OS_DS_REG) with 2049. lia. Qed.

Lemma init_chunk_ok h j i :
  front (h_mm h) j -> owned_below (h_mm h) j -> 2 <= j < 768 -> 0 <= i < 7 -> osalloc_base h = 4096 * 2049 ->
  let h' := init_chunk i h in let ck := chunk_addr (osalloc_base h) (5 + i) in
  front (h_mm h') (j + 1) /\ owned_below (h_mm h') (j + 1) /\ osalloc_base h' = osalloc_base h /\
  nodemem h' = nodemem h /\ fresh_chunk (h_ram h') ck (2048 + j) /\
  untouched (fun a => ds_bitmap a \/ ck <= a < ck + 48) (h_ram h) (h_ram h') /\
  trace (mach (h_mm h')) = trace (mach (h_mm h)).
Proof.
  intros Hf Ho Hj Hi Hb h' ck.
  set (m := bzero (init_list (st16 (st16 (h_ram h) ck (u16 (1 << (5 + i)))) (ck + 2) 0) (freelist ck)) (ck + 32) 16).
  assert (Hck : ck = 4096 * 2049 + 48 * i).
  { unfold ck, chunk_addr, sizeof_osalloc_chunk. lia. }
  assert (Hm : untouched (fun a => ck <= a < ck + 48) (h_ram h) m).
  { eapply untouched_trans; [|apply untouched_bzero; intros; lia]. unfold init_list, freelist.
    repeat (apply (untouched_st 8); [|intros; lia]). repeat (apply (untouched_st 2); [|intros; lia]). done. }
  destruct (front_write (h_mm h) j m Hf) as [Hf1 Ho1].
  { eapply untouched_weaken; [|exact Hm]. unfold ds_area. lia. }
  set (s := set_mm_ram m (h_mm h)) in *.
  destruct (front_alloc s j Hf1 ltac:(lia)) as (Eq & Hf2 & Hp).
  destruct (os_pfn_alloc OS_DS_REG s) as [q s2] eqn:Eal. cbn [fst snd] in *.
  set (m3 := st32 (mm_ram s2) (ck + 4) q).
  assert (Eh' : h' = set_h_mm (set_mm_ram m3 s2) h).
  { unfold h', init_chunk. fold ck. fold m. fold s. rewrite Eal. done. }
  assert (Hu2 : untouched ds_bitmap m (mm_ram s2)).
  { eapply untouched_weaken; [|exact (ap_ram _ _ _ _ Hp)]. intros a [|[? _]]; done. }
  assert (Hm3 : untouched (fun a => ck <= a < ck + 48) (mm_ram s2) m3).
  { apply (untouched_st 4); [done|]. intros; lia. }
  destruct (front_write s2 (j + 1) m3 Hf2) as [Hf3 Ho3].
  { eapply untouched_weaken; [|exact Hm3]. unfold ds_area. lia. }
  rewrite Eh'. split; [exact Hf3|]. split; [|split; [done|split; [done|split; [|split]]]].
  - intros p. change (owned (set_mm_ram m3 s2) OS_DS_REG p <-> 2049 <= p < 2048 + (j + 1)). rewrite Ho3.
    apply (owned_below_alloc s j q s2); [|lia|done|done]. intros p'. by rewrite Ho1.
  - change (fresh_chunk m3 ck (2048 + j)). rewrite <- Eq.
    assert (Hsame : forall a, ck <= a < ck + 48 -> ld8 (mm_ram s2) a = ld8 m a).
    { intros a Ha. apply Hu2. intros Hb'%ds_bitmap_range. lia. }
    assert (Hmf : ld16 m (ck + 2) = 0 /\ ld64 m (ck + 8) = 0 /\ ld64 m (ck + 24) = 0).
    { unfold m, init_list, freelist, ld16, ld64, st16, st64.
      repeat split; rewrite (ldn_ext _ (bzero _ _ _) (stn 8 (stn 8 (stn 8 (stn 2 (stn 2 (h_ram h) ck (u16 (1 << (5 + i)))) (ck + 2) 0) (ck + 8) 0) (ck + 8 + 8) 0) (ck + 8 + 16) 0))
        by (intros; rewrite ld8_bzero; zcase; cbn; lia || done).
      - rewrite !(ldn_stn_ne 2 8) by lia. by rewrite ldn_stn_eq.
      - rewrite !(ldn_stn_ne 8 8) by lia. by rewrite ldn_stn_eq.
      - replace (ck + 24) with (ck + 8 + 16) by lia. by rewrite ldn_stn_eq. }
    destruct Hmf as (M1 & M2 & M3). split.
    + unfold free_position, m3, ld16, st32. rewrite (ldn_stn_ne 2 4) by lia. rewrite <- M1. apply ld16_ext. intros; apply Hsame; lia.
    + unfold current_pfn, m3. apply ld32_st32_eq. lia.
    + unfold list_head, freelist, m3, ld64, st32. rewrite (ldn_stn_ne 8 4) by lia. rewrite <- M2. apply ld64_ext. intros; apply Hsame; lia.
    + unfold list_size, freelist, m3. replace (ck + 8 + 16) with (ck + 24) by lia. unfold ld64, st32. rewrite (ldn_stn_ne 8 4) by lia.
      rewrite <- M3. apply ld64_ext. intros; apply Hsame; lia.
  - change (h_ram (set_h_mm (set_mm_ram m3 s2) h)) with m3.
    eapply untouched_trans; [(eapply untouched_weaken; [|exact Hm]; by right)|].
    eapply untouched_trans; [(eapply untouched_weaken; [|exact Hu2]; by left)|]. (eapply untouched_weaken; [|exact Hm3]; by right).
  - exact (ap_trace _ _ _ _ Hp).
Qed.

(** The chunks from class [i] on, initialised one after the other. *)
Lemma init_chunks_ok n i h j :
  front (h_mm h) j -> owned_below (h_mm h) j -> 2 <= j -> j + Z.of_nat n <= 768 -> 0 <= i -> i + Z.of_nat n <= 7 ->
  osalloc_base h = 4096 * 2049 ->
  let h' := init_chunks_loop n i h in
  front (h_mm h') (j + Z.of_nat n) /\ owned_below (h_mm h') (j + Z.of_nat n) /\
  osalloc_base h' = osalloc_base h /\ nodemem h' = nodemem h /\
  (forall c, i <= c < i + Z.of_nat n -> fresh_chunk (h_ram h') (chunk_addr (osalloc_base h) (5 + c)) (2048 + j + (c - i))) /\
  untouched (fun a => ds_bitmap a \/ 4096 * 2049 + 48 * i <= a < 4096 * 2049 + 48 * (i + Z.of_nat n)) (h_ram h) (h_ram h') /\
  trace (mach (h_mm h')) = trace (mach (h_mm h)).
Proof.
  revert i h j. induction n as [|n IH]; intros i h j Hf Ho Hj Hjn Hi Hin Hb h'; cbn [init_chunks_loop] in h'.
  { unfold h'. rewrite Nat2Z.inj_0, Z.add_0_r. do 4 (split; [done|]). split; [intros; lia|]. done. }
  destruct (init_chunk_ok h j i Hf Ho ltac:(lia) ltac:(lia) Hb) as (Hf1 & Ho1 & Hb1 & Hn1 & Hc1 & Hu1 & Ht1).
  set (h1 := init_chunk i h) in *. rewrite Hb in *.
  destruct (IH (i + 1) h1 (j + 1)) as (Hf2 & Ho2 & Hb2 & Hn2 & Hc2 & Hu2 & Ht2); try done; try lia.
  fold h' in Hf2, Ho2, Hb2, Hn2, Hc2, Hu2, Ht2. rewrite Hb1 in *.
  replace (j + 1 + Z.of_nat n) with (j + Z.of_nat (S n)) in * by lia.
  assert (Hck : forall c, chunk_addr (4096 * 2049) (5 + c) = 4096 * 2049 + 48 * c)
    by (intros c; unfold chunk_addr, sizeof_osalloc_chunk; lia).
  split; [done|]. split; [done|]. split; [done|]. split; [congruence|]. split; [|split; [|congruence]].
  - intros c Hc. destruct (Z.eq_dec c i) as [->|Hne].
    + rewrite Z.sub_diag, Z.add_0_r. apply (fresh_chunk_same (h_ram h1)); [|done]. intros a Ha. rewrite Hck in Ha.
      apply Hu2. intros [Hd%ds_bitmap_range|Hd]; lia.
    + replace (2048 + j + (c - i)) with (2048 + (j + 1) + (c - (i + 1))) by lia. apply Hc2. lia.
  - eapply untouched_trans; [eapply untouched_weaken; [|exact Hu1]|eapply untouched_weaken; [|exact Hu2]];
      cbn beta; rewrite ?Hck; intros a; lia || (intros [?|?]; [by left|right; lia]).
Qed.

(** The node pages follow each other, so nothing is printed. *)
Lemma init_nodes_ok n h j :
  front (h_mm h) j -> owned_below (h_mm h) j -> 2 <= j -> j + Z.of_nat n <= 768 ->
  0 <= num_free (nodemem h) -> num_free (nodemem h) + 256 * Z.of_nat n < 2^32 ->
  let h' := init_nodes_loop n (2048 + (j - 1)) h in
  front (h_mm h') (j + Z.of_nat n) /\ owned_below (h_mm h') (j + Z.of_nat n) /\
  osalloc_base h' = osalloc_base h /\ num_free (nodemem h') = num_free (nodemem h) + 256 * Z.of_nat n /\
  untouched ds_bitmap (h_ram h) (h_ram h') /\ trace (mach (h_mm h')) = trace (mach (h_mm h)).
Proof.
  revert h j. induction n as [|n IH]; intros h j Hf Ho Hj Hjn H0 Hb h'; cbn [init_nodes_loop] in h'.
  { unfold h'. rewrite Nat2Z.inj_0, !Z.add_0_r. done. }
  destruct (front_alloc (h_mm h) j Hf ltac:(lia)) as (Eq & Hf1 & Hp).
  destruct (os_pfn_alloc OS_DS_REG (h_mm h)) as [q s] eqn:Eal. cbn [fst snd] in *. subst q.
  set (h1 := set_node_free (next_free (nodemem h)) (num_free (nodemem h) + 256) (set_h_mm s h)).
  assert (Eh : h' = init_nodes_loop n (2048 + j) h1).
  { unfold h'. rewrite (u32_small (2048 + (j - 1) + 1)) by lia.
    replace (2048 + (j - 1) + 1) with (2048 + j) by lia. rewrite Z.eqb_refl. cbn [negb].
    change (PAGE_SIZE / sizeof_node) with 256. change (nodemem (set_h_mm s h)) with (nodemem h).
    by rewrite u32_small by lia. }
  clearbody h'. subst h'.
  destruct (IH h1 (j + 1)) as (Hf2 & Ho2 & Hb2 & Hn2 & Hu2 & Ht2); try done; try lia.
  { by apply (owned_below_alloc (h_mm h) j (2048 + j) s); [|lia|..]. }
  { change (0 <= num_free (nodemem h) + 256). lia. }
  { change (num_free (nodemem h) + 256 + 256 * Z.of_nat n < 2^32). lia. }
  replace (j + 1 - 1) with j in * by lia.
  replace (j + 1 + Z.of_nat n) with (j + Z.of_nat (S n)) in * by lia.
  split; [done|]. split; [done|]. split; [done|]. split; [|split].
  - rewrite Hn2. change (num_free (nodemem h1)) with (num_free (nodemem h) + 256). lia.
  - eapply untouched_trans; [|exact Hu2]. change (h_ram h1) with (mm_ram s).
    eapply untouched_weaken; [|exact (ap_ram _ _ _ _ Hp)]. intros a [|[? _]]; done.
  - rewrite Ht2. exact (ap_trace _ _ _ _ Hp).
Qed.

(** ** The heap is ready *)

(** The heap promises nothing yet: no freed objects, a frame per class. *)
Definition boot_classes : aheap := fun i => AClass [] (2050 + (i - 5)) 0.

(** Memory after a reset, and the statics of memory.c. *)
Definition power_up (h : heap) : Prop :=
  bitmaps_zero (h_mm h) /\ num_free (nodemem h) = 0 /\
  (forall a, ds_area a -> ld8 (h_ram h) a = 0).

Lemma front_init s : bitmaps_zero s -> front (init_pagelists s) 1 /\ owned_below (init_pagelists s) 1.
Proof.
  intros Hz. destruct (init_pagelists_ready s OS_DS_REG Hz) as (_ & Ha & _).
  pose proof (mm_inv_init_pagelists s Hz) as Hi. cbn [pglists] in Ha.
  set (p := pgl_os_ds (init_pagelists s)) in *. set (m := mm_ram (init_pagelists s)) in *.
  assert (Hbit : forall i, 0 <= i < 6144 -> page_bit m (pgl_bitmap p) i = (i <? 1)).
  { intros i Hr. assert (Hin : i ∈ allocated m p <-> i < 1).
    { rewrite Ha, elem_of_list_to_set, elem_of_seqZ. change (pages_to_reserve (region_frames OS_DS_REG)) with 1. lia. }
    rewrite elem_of_allocated in Hin. change (pgl_size p) with 6144 in Hin.
    apply eq_true_iff_eq. rewrite Z.ltb_lt. tauto. }
  split; [split; [done|]|].
  - fold m p. apply set_eq. intros i. rewrite elem_of_avail, elem_of_list_to_set, elem_of_seqZ. unfold in_window.
    change (pgl_last_free_pos p) with 0. change (pgl_size p / 256) with 24.
    split; [intros [H1 H2]|intros H1; split; [lia|]]; rewrite Hbit in * by lia; [apply Z.ltb_ge in H2|apply Z.ltb_ge]; lia.
  - intros q. unfold owned. cbn [pglists]. fold m p. rewrite Ha, elem_of_list_to_set, elem_of_seqZ.
    change (region_first OS_DS_REG) with 2049. change (region_pfn OS_DS_REG) with 2048.
    change (pages_to_reserve (region_frames OS_DS_REG)) with 1. lia.
Qed.

Lemma init_pagelists_ds s a : ds_area a -> ld8 (mm_ram (init_pagelists s)) a = ld8 (mm_ram s) a.
Proof.
  intros Ha. rewrite init_pagelists_eq. unfold init_region.
  rewrite !init_pagelist_untouched by (by apply ds_area_bitmap). done.
Qed.

Lemma ld64_zero m a : (forall b, a <= b < a + 8 -> ld8 m b = 0) -> ld64 m a = 0.
Proof. intros H. rewrite (ld64_ext ∅) by (intros; rewrite H, ld8_empty by done; done). done. Qed.

Lemma init_osalloc_chunks_eq h :
  init_osalloc_chunks h =
    let '(pfn, s) := os_pfn_alloc OS_DS_REG (h_mm h) in init_chunks_loop 7 0 (Heap s (u64 (pfn << PAGE_SHIFT)) (nodemem h)).
Proof.
  unfold init_osalloc_chunks. change (sizeof_osalloc_chunk * OSALLOC_MAX >? PAGE_SIZE) with false.
  unfold os_page_alloc. by destruct (os_pfn_alloc OS_DS_REG (h_mm h)).
Qed.

Lemma init_osalloc_chunks_ok h :
  front (h_mm h) 1 -> owned_below (h_mm h) 1 ->
  let h' := init_osalloc_chunks h in
  front (h_mm h') 9 /\ owned_below (h_mm h') 9 /\ osalloc_base h' = 4096 * 2049 /\ nodemem h' = nodemem h /\
  (forall c, 0 <= c < 7 -> fresh_chunk (h_ram h') (chunk_addr (4096 * 2049) (5 + c)) (2050 + c)) /\
  untouched (fun a => ds_bitmap a \/ 4096 * 2049 <= a < 4096 * 2049 + 48 * 7) (h_ram h) (h_ram h') /\
  trace (mach (h_mm h')) = trace (mach (h_mm h)).
Proof.
  intros Hf0 Ho0. cbv zeta. rewrite init_osalloc_chunks_eq.
  destruct (front_alloc (h_mm h) 1 Hf0 ltac:(lia)) as (Eq & Hf1 & Hp1).
  destruct (os_pfn_alloc OS_DS_REG (h_mm h)) as [q s1]. cbn [fst snd] in *. subst q.
  pose proof (owned_below_alloc _ 1 (2048 + 1) s1 Ho0 ltac:(lia) eq_refl Hp1) as Ho1.
  assert (Eb : u64 ((2048 + 1) << PAGE_SHIFT) = 4096 * 2049) by reflexivity. rewrite Eb.
  destruct (init_chunks_ok 7 0 (Heap s1 (4096 * 2049) (nodemem h)) 2 Hf1 Ho1) as (Hf2 & Ho2 & Hb2 & Hn2 & Hc2 & Hu2 & Ht2);
    [lia..|done|].
  set (h2 := init_chunks_loop 7 0 _) in *. clearbody h2. cbn [osalloc_base h_mm nodemem] in *.
  split; [done|]. split; [done|]. split; [done|]. split; [done|]. split; [|split].
  - intros c Hc. pose proof (Hc2 c ltac:(lia)) as Hx. by replace (2048 + 2 + (c - 0)) with (2050 + c) in Hx by lia.
  - eapply untouched_trans; [eapply untouched_weaken; [|exact (ap_ram _ _ _ _ Hp1)]|eapply untouched_weaken; [|exact Hu2]].
    + intros a [Ha|[Ha _]]; [by left|discriminate Ha].
    + intros a [Ha|Ha]; [by left|right; lia].
  - rewrite Ht2. exact (ap_trace _ _ _ _ Hp1).
Qed.

Lemma init_nodealloc_eq h :
  init_nodealloc_memory h =
    let '(startpfn, s) := os_pfn_alloc OS_DS_REG (h_mm h) in
    let h := init_nodes_loop 99 startpfn (set_h_mm s h) in
    set_nodemem (NodeMem 0 (num_free (nodemem h)) (u64 (startpfn << PAGE_SHIFT))
      (u64 (u64 (startpfn << PAGE_SHIFT) + (NODE_MEM_PAGES << PAGE_SHIFT)))) h.
Proof. unfold init_nodealloc_memory. by destruct (os_pfn_alloc OS_DS_REG (h_mm h)). Qed.

(** What the loop over the node pages has established. *)
Record nodes_ready (h h4 : heap) : Prop := {
  nr_front : front (h_mm h4) 109;
  nr_owned : owned_below (h_mm h4) 109;
  nr_base : osalloc_base h4 = osalloc_base h;
  nr_free : num_free (nodemem h4) = 25344;
  nr_ram : untouched ds_bitmap (h_ram h) (h_ram h4);
  nr_trace : trace (mach (h_mm h4)) = trace (mach (h_mm h))
}.

Lemma init_nodes_ready h s :
  front s 10 -> owned_below s 10 -> num_free (nodemem h) = 0 -> untouched ds_bitmap (h_ram h) (mm_ram s) ->
  trace (mach s) = trace (mach (h_mm h)) ->
  nodes_ready h (init_nodes_loop 99 2057 (set_h_mm s h)).
Proof.
  intros Hf Ho Hnum Hu Ht.
  destruct (init_nodes_ok 99 (set_h_mm s h) 10 Hf Ho) as (Hf4 & Ho4 & Hb4 & Hn4 & Hu4 & Ht4); [lia|lia| | |].
  { change (0 <= num_free (nodemem h)). lia. }
  { change (num_free (nodemem h) + 256 * Z.of_nat 99 < 2^32). lia. }
  replace (2048 + (10 - 1)) with 2057 in * by lia. replace (10 + Z.of_nat 99) with 109 in * by lia.
  split; [exact Hf4|exact Ho4|exact Hb4| | |].
  - rewrite Hn4. change (num_free (nodemem h) + 256 * Z.of_nat 99 = 25344). rewrite Hnum. reflexivity.
  - exact (untouched_trans _ _ _ _ Hu Hu4).
  - rewrite Ht4. exact Ht.
Qed.

Lemma init_nodealloc_ok h :
  front (h_mm h) 9 -> owned_below (h_mm h) 9 -> num_free (nodemem h) = 0 ->
  exists h4, init_nodealloc_memory h = set_nodemem (NodeMem 0 25344 (4096 * 2057) (4096 * 2157)) h4 /\ nodes_ready h h4.
Proof.
  intros Hf2 Ho2 Hnum. rewrite init_nodealloc_eq.
  destruct (front_alloc (h_mm h) 9 Hf2 ltac:(lia)) as (Eq & Hf3 & Hp3).
  destruct (os_pfn_alloc OS_DS_REG (h_mm h)) as [q s3]. cbn [fst snd] in *.
  pose proof (owned_below_alloc _ 9 q s3 Ho2 ltac:(lia) Eq Hp3) as Ho3.
  assert (Hu3 : untouched ds_bitmap (h_ram h) (mm_ram s3)).
  { eapply untouched_weaken; [|exact (ap_ram _ _ _ _ Hp3)]. intros a [Ha|[Ha _]]; [exact Ha|discriminate Ha]. }
  pose proof (init_nodes_ready h s3 Hf3 Ho3 Hnum Hu3 (ap_trace _ _ _ _ Hp3)) as Hr.
  replace (2048 + 9) with 2057 in Eq by lia. rewrite Eq.
  exists (init_nodes_loop 99 2057 (set_h_mm s3 h)). split; [|exact Hr].
  rewrite (nr_free _ _ Hr). reflexivity.
Qed.

Record boot_heap (h h' : heap) : Prop := {
  bh_rep : heap_rep h' boot_classes (fun _ => []) 25344;
  bh_front : front (h_mm h') 109;
  bh_owned : owned_below (h_mm h') 109;
  bh_trace : trace (mach (h_mm h')) = trace (mach (h_mm h));
  bh_places : osalloc_base h' = 4096 * 2049 /\ nodes (nodemem h') = 4096 * 2057;
  bh_ram : untouched (fun a => ds_bitmap a \/ ds_area a) (mm_ram (init_pagelists (h_mm h))) (h_ram h')
}.

Lemma init_mems_ok h : power_up h -> boot_heap h (init_mems h).
Proof.
  intros (Hz & Hnum & Hmem). unfold init_mems. destruct (front_init (h_mm h) Hz) as [Hf0 Ho0].
  pose proof (init_pagelists_ds (h_mm h)) as Hds.
  assert (Ht0 : trace (mach (init_pagelists (h_mm h))) = trace (mach (h_mm h))) by done.
  remember (init_pagelists (h_mm h)) as s0 eqn:Es0. set (h0 := set_h_mm s0 h).
  destruct (init_osalloc_chunks_ok h0 Hf0 Ho0) as (Hf2 & Ho2 & Hb2 & Hn2 & Hc2 & Hu2 & Ht2).
  set (h2 := init_osalloc_chunks h0) in *. clearbody h2.
  destruct (init_nodealloc_ok h2 Hf2 Ho2) as (h4 & -> & [Hf4 Ho4 Hb4 _ Hu4 Ht4]); [by rewrite Hn2|].
  set (h5 := set_nodemem _ h4). assert (Hn5 : nodemem h5 = NodeMem 0 25344 (4096 * 2057) (4096 * 2157)) by done.
  rewrite Hb2 in Hb4.
  assert (Hsame : forall a, ds_area a -> ld8 (h_ram h5) a = ld8 (h_ram h2) a).
  { intros a Ha. apply Hu4. intros Hb%ds_bitmap_range. unfold ds_area in Ha. lia. }
  assert (Hzero : forall a, 4096 * 2057 <= a < 4096 * 2157 -> ld8 (h_ram h5) a = 0).
  { intros a Ha. assert (Hd : ds_area a) by (unfold ds_area; lia). rewrite Hsame by done. rewrite Hu2.
    - change (ld8 (mm_ram s0) a = 0). rewrite Hds by done. by apply Hmem.
    - intros [Hb%ds_bitmap_range|Hb]; lia. }
  assert (Hown : forall p, 2049 <= p < 2157 -> owned (h_mm h5) OS_DS_REG p) by (intros p Hp; apply Ho4; lia).
  assert (Hbase : osalloc_base h5 = 4096 * 2049) by exact Hb4.
  split; [|exact Hf4|exact Ho4|exact (eq_trans Ht4 (eq_trans Ht2 Ht0))|by rewrite Hn5|].
  2:{ rewrite <- Es0. apply untouched_trans with (m2 := h_ram h2).
      - eapply untouched_weaken; [|exact Hu2]. intros a [Ha|Ha]; [by left|right; unfold ds_area; lia].
      - eapply untouched_weaken; [|exact Hu4]. by left. }
  split.
  - exact (proj1 Hf4).
  - exists 2049. split; [done|]. split; [apply Hown; lia|]. left. rewrite Hbase, Hn5.
    cbn [nodes]. lia.
  - exists 2057. rewrite Hn5. split; [done|]. intros p Hp. apply Hown. lia.
  - split; [|lia]. split; rewrite Hn5; cbn [next_free num_free nodes].
    { change (0 <= 0 /\ 0 + 25344 <= 25600). lia. }
    { change (25344 <= 25344 < 2^32). lia. }
    { change (0 < 4096 * 2057 /\ 4096 * 2057 + 16 * 25600 < 2^32). lia. }
      intros i Hi. change (0 <= i < 25600) in Hi. apply ld64_zero. intros a Ha.
      apply Hzero. unfold node_at, sizeof_node in Ha. lia.
  - intros i Hi. unfold is_class in Hi. unfold boot_classes.
      assert (Hck : chunk_addr (4096 * 2049) i = 4096 * 2049 + 48 * (i - 5)) by (unfold chunk_addr, sizeof_osalloc_chunk; lia).
      assert (Hfc : fresh_chunk (h_ram h5) (chunk_addr (4096 * 2049) i) (2050 + (i - 5))).
      { apply (fresh_chunk_same (h_ram h2)).
        - intros a Ha. apply Hsame. unfold ds_area. lia.
        - pose proof (Hc2 (i - 5) ltac:(lia)) as Hx. replace (5 + (i - 5)) with i in Hx by lia.
          done. }
      destruct Hfc as [F1 F2 F3 F4]. split; cbn [ac_free ac_pfn ac_pos]; rewrite ?Hbase; try done.
    + split; [split; [exact F4|done]| |constructor|intros x Hx; by apply not_elem_of_nil in Hx].
        rewrite Hn5. cbn [nodes]. unfold header_apart, freelist. lia.
    + split; [lia|]. destruct (class_pos_bound i Hi). pose proof (Z.div_pos 4096 (2 ^ i)). lia.
    + apply Hown. lia.
  - intros i j x _ _ Hx. by apply not_elem_of_nil in Hx.
  - rewrite Hn5. cbn [num_free]. unfold live, node_capacity, NODE_MEM_PAGES. cbn. lia.
Qed.

(** ** The other regions

    The object allocator takes its frames from OS_DS only. *)

Definition same_lists (s s' : mm) : Prop := pgl_os_pt s' = pgl_os_pt s /\ pgl_user s' = pgl_user s.

Lemma same_lists_trans s1 s2 s3 : same_lists s1 s2 -> same_lists s2 s3 -> same_lists s1 s3.
Proof. intros [E1 E2] [E3 E4]. split; congruence. Qed.

Lemma os_pfn_alloc_lists s : same_lists s (os_pfn_alloc OS_DS_REG s).2.
Proof. unfold os_pfn_alloc. case_match; [done|]. case_match. by case_match. Qed.

Lemma init_chunk_lists i h : same_lists (h_mm h) (h_mm (init_chunk i h)).
Proof.
  unfold init_chunk. set (m := bzero _ _ _). clearbody m.
  pose proof (os_pfn_alloc_lists (set_mm_ram m (h_mm h))) as H.
  destruct (os_pfn_alloc OS_DS_REG _) as [q s]. exact H.
Qed.

Lemma init_chunks_lists n i h : same_lists (h_mm h) (h_mm (init_chunks_loop n i h)).
Proof.
  revert i h. induction n as [|n IH]; intros i h; [done|]. cbn [init_chunks_loop].
  eapply same_lists_trans; [apply init_chunk_lists|apply IH].
Qed.

Lemma init_nodes_lists n p h : same_lists (h_mm h) (h_mm (init_nodes_loop n p h)).
Proof.
  revert p h. induction n as [|n IH]; intros p h; [done|]. cbn [init_nodes_loop].
  pose proof (os_pfn_alloc_lists (h_mm h)) as H. destruct (os_pfn_alloc OS_DS_REG (h_mm h)) as [q s].
  eapply same_lists_trans; [|apply IH]. case_match; exact H.
Qed.

Lemma init_chunks_from n s b nm h :
  same_lists (h_mm h) s -> same_lists (h_mm h) (h_mm (init_chunks_loop n 0 (Heap s b nm))).
Proof. intros H. exact (same_lists_trans _ _ _ H (init_chunks_lists n 0 (Heap s b nm))). Qed.

Lemma init_nodes_from n q s nm h :
  same_lists (h_mm h) s -> same_lists (h_mm h) (h_mm (set_nodemem nm (init_nodes_loop n q (set_h_mm s h)))).
Proof. intros H. exact (same_lists_trans _ _ _ H (init_nodes_lists n q (set_h_mm s h))). Qed.

Lemma init_osalloc_lists h : same_lists (h_mm h) (h_mm (init_osalloc_chunks h)).
Proof.
  rewrite init_osalloc_chunks_eq. pose proof (os_pfn_alloc_lists (h_mm h)) as H.
  destruct (os_pfn_alloc OS_DS_REG (h_mm h)) as [q s]. by apply init_chunks_from.
Qed.

Lemma init_nodealloc_lists h : same_lists (h_mm h) (h_mm (init_nodealloc_memory h)).
Proof.
  rewrite init_nodealloc_eq. pose proof (os_pfn_alloc_lists (h_mm h)) as H.
  destruct (os_pfn_alloc OS_DS_REG (h_mm h)) as [q s]. by apply init_nodes_from.
Qed.

Lemma init_mems_lists h : same_lists (init_pagelists (h_mm h)) (h_mm (init_mems h)).
Proof.
  unfold init_mems. set (h0 := set_h_mm (init_pagelists (h_mm h)) h).
  change (init_pagelists (h_mm h)) with (h_mm h0). clearbody h0.
  exact (same_lists_trans _ _ _ (init_osalloc_lists h0) (init_nodealloc_lists (init_osalloc_chunks h0))).
Qed.

Lemma ds_bitmap_bounds a : ds_bitmap a -> 0x800000 <= a < 4096 * 2049.
Proof. unfold ds_bitmap, bitmap_area. change (region_start OS_DS_REG) with 0x800000. change (region_first OS_DS_REG) with 2049. done. Qed.

(** The other regions see nothing of stores in the region of the heap. *)
Lemma ds_stores_other s s' r :
  mm_inv s -> same_lists s s' -> untouched (fun a => ds_bitmap a \/ ds_area a) (mm_ram s) (mm_ram s') -> r <> OS_DS_REG ->
  available s' r = available s r /\ next s' r = next s r.
Proof.
  intros Hi [E1 E2] Hu Hr. assert (E : next s' r = next s r); [|split; [by rewrite !available_next, E|done]].
  apply (next_untouched (fun a => ds_bitmap a \/ ds_area a)); [done|done| |by destruct r].
  intros a [Hd%ds_bitmap_bounds|Hd] Hb; unfold ds_area, bitmap_area in *; revert Hb; region_nums r; done || lia.
Qed.

Lemma boot_heap_other h h' r :
  boot_heap h h' -> mm_inv (init_pagelists (h_mm h)) -> same_lists (init_pagelists (h_mm h)) (h_mm h') -> r <> OS_DS_REG ->
  available (h_mm h') r = available (init_pagelists (h_mm h)) r /\ next (h_mm h') r = next (init_pagelists (h_mm h)) r.
Proof. intros B Hi Hs. exact (ds_stores_other _ (h_mm h') r Hi Hs (bh_ram _ _ B)). Qed.

Lemma boot_heap_low h h' a : boot_heap h h' -> low_memory a -> ld8 (h_ram h') a = ld8 (mm_ram (init_pagelists (h_mm h))) a.
Proof.
  intros B Ha. apply (bh_ram _ _ B). unfold low_memory in Ha. intros [Hd%ds_bitmap_bounds|Hd]; unfold ds_area in *; lia.
Qed.

(** What init_mems leaves for page tables and user pages. *)
Lemma init_mems_other h r :
  power_up h -> r <> OS_DS_REG ->
  available (h_mm (init_mems h)) r = available (init_pagelists (h_mm h)) r /\
  next (h_mm (init_mems h)) r = next (init_pagelists (h_mm h)) r.
Proof.
  intros Hp. exact (boot_heap_other h (init_mems h) r (init_mems_ok h Hp) (mm_inv_init_pagelists (h_mm h) (proj1 Hp)) (init_mems_lists h)).
Qed.

(** Start-up writes bitmaps only. *)
Lemma init_pagelists_low s a : low_memory a -> ld8 (mm_ram (init_pagelists s)) a = ld8 (mm_ram s) a.
Proof.
  intros Ha. rewrite init_pagelists_eq. unfold low_memory in Ha.
  assert (H : forall r t, ld8 (mm_ram (init_region r t)) a = ld8 (mm_ram t) a).
  { intros r t. pose proof (init_pagelist_untouched r t) as Hu. change (init_pagelist _ _ _ t) with (init_region r t) in Hu.
    apply Hu. unfold bitmap_area. region_nums r; lia. }
  by rewrite !H.
Qed.

Lemma init_mems_low h a : power_up h -> low_memory a -> ld8 (h_ram (init_mems h)) a = ld8 (h_ram h) a.
Proof.
  intros Hp Ha. transitivity (ld8 (mm_ram (init_pagelists (h_mm h))) a).
  - exact (boot_heap_low h (init_mems h) a (init_mems_ok h Hp) Ha).
  - exact (init_pagelists_low (h_mm h) a Ha).
Qed.
