(* ===== verification/HeapSpec.v ===== *)
(** * Theorems on the small-object heap

    The refinement of [aheap], the state after [init_mems], and the overlap of
    consecutive objects of one class. *)
From S2P Require Import Prelude Mem Lib Machine Memory PageAlloc Frames OsAlloc OsHeap HeapInit.
#[local] Open Scope gemos_scope.

(** One call of the heap's interface; [os_free] answers nothing. *)
Definition run_heap_op (op : heap_op) (h : heap) : option (Z * heap) :=
  match op with
  | OAlloc size => os_alloc size h
  | OFree p size => match os_free p size h with Some h => Some (0, h) | None => None end
  end.

(** Arguments of the C types: a [u32] size and a 64-bit pointer. *)
Definition op_ok (op : heap_op) : Prop :=
  match op with
  | OAlloc size => 0 <= size < 2^32
  | OFree p size => 0 <= p < 2^64 /\ 0 <= size < 2^32
  end.

#[export] Instance size_ok_dec size : Decision (size_ok size).
Proof. unfold size_ok. apply _. Defined.

Lemma os_alloc_refused size h : 0 <= size -> ~ size_ok size -> os_alloc size h = Some (0, h).
Proof.
  unfold size_ok, os_alloc. intros H0 H. rewrite Z.gtb_ltb. destruct (Z.eqb_spec size 0); [done|].
  rewrite (proj2 (Z.ltb_lt _ _)) by lia. done.
Qed.

Lemma os_free_refused p size h : 0 <= size -> ~ size_ok size -> os_free p size h = Some h.
Proof.
  unfold size_ok, os_free. intros H0 H. rewrite Z.gtb_ltb. destruct (Z.eqb_spec size 0); [done|].
  rewrite (proj2 (Z.ltb_lt _ _)) by lia. done.
Qed.

Lemma heap_rep_weaken h A Nf k k' : heap_rep h A Nf k -> 0 <= k' <= k -> heap_rep h A Nf k'.
Proof. intros [? ? ? [Hn _] ? ? ?] Hk. split; try done. split; [|lia]. apply (nodes_ok_weaken h k); [done|lia]. Qed.

(** os_alloc and os_free implement [heap_step]. *)
Lemma os_heap_step h A Nf k op :
  heap_rep h A Nf (3 + k) -> 0 <= k -> op_ok op -> (0 < available (h_mm h) OS_DS_REG)%nat ->
  exists r h' A' Nf', run_heap_op op h = Some (r, h') /\
    heap_step (owned (h_mm h) OS_DS_REG) op A r A' /\ heap_rep h' A' Nf' k.
Proof.
  intros Hrep Hk Hop Hav. pose proof (heap_rep_weaken _ _ _ _ k Hrep ltac:(lia)) as Hrepk.
  destruct op as [size|p size]; cbn [run_heap_op op_ok] in *; destruct (decide (size_ok size)) as [Hs|Hs].
  - destruct (A (alloc_class size)) as [[|p ps] pfn pos] eqn:EA.
    + destruct (Z.le_gt_cases pos (4096 / 2 ^ alloc_class size)) as [Hle|Hgt].
      * destruct (os_alloc_bump h A Nf k size pfn pos Hrepk Hs EA Hle) as (m' & E & _ & Hrep').
        eexists _, (set_h_ram m' h), _, Nf. split; [exact E|]. split; [by apply (StepBump _ size A pfn pos)|exact Hrep'].
      * destruct (os_alloc_frame h A Nf k size pfn pos Hrepk Hs EA Hgt Hav) as (q & h' & A' & Hq & E & Hrep' & ->).
        eexists _, h', _, Nf. split; [exact E|]. split; [by apply (StepFrame _ size A pfn pos)|exact Hrep'].
    + destruct (os_alloc_reuse h A Nf k size p ps pfn pos Hrepk Hs EA) as (h' & Nf' & E & Hrep').
      eexists _, h', _, Nf'. split; [exact E|]. split; [by apply (StepReuse _ size A p ps pfn pos)|exact Hrep'].
  - exists 0, h, A, Nf. split; [apply os_alloc_refused; [lia|done]|]. split; [by apply StepRefused|done].
  - destruct Hop as [Hp _]. destruct (os_free_ok h A Nf k p size Hrep Hk Hs Hp) as (h' & Nf' & ps & pfn & pos & EA & E & Hrep').
    eexists 0, h', _, Nf'. rewrite E. split; [done|]. split; [by apply (StepFree _ p size A ps pfn pos)|exact Hrep'].
  - exists 0, h, A, Nf. rewrite os_free_refused by (lia || done). split; [done|]. split; [by apply StepFreeRefused|done].
Qed.

(** The state of the machine when [main] starts, and after [init_mems]. *)
Definition reset_heap : heap := Heap reset_mm 0 (NodeMem 0 0 0 0).

Lemma reset_power_up : power_up reset_heap.
Proof.
  split; [exact bitmaps_zero_reset|]. split; [done|]. intros a _. apply ld8_empty.
Qed.

(** C10: os_alloc and os_free are a refinement of an abstract heap of size
    classes: an allocation reuses the oldest freed object of its class, else
    takes the current position of the class, else a fresh frame, and a
    deallocation queues the object in its class; the call always returns. *)
Theorem os_heap_refines h A Nf k op :
  heap_rep h A Nf (3 + k) -> 0 <= k -> op_ok op -> (0 < available (h_mm h) OS_DS_REG)%nat ->
  exists r h' A' Nf', run_heap_op op h = Some (r, h') /\
    heap_step (owned (h_mm h) OS_DS_REG) op A r A' /\ heap_rep h' A' Nf' k.
Proof. exact (os_heap_step h A Nf k op). Qed.

(** From zeroed memory, init_mems leaves a heap that promises nothing: no
    freed objects, one frame per size class from frame 2050 on, 25344 list
    nodes in the contiguous frames from 2057 on, and nothing is printed. *)
Theorem init_mems_heap h :
  power_up h ->
  heap_rep (init_mems h) boot_classes (fun _ => []) 25344 /\
  (forall q, owned (h_mm (init_mems h)) OS_DS_REG q <-> 2049 <= q < 2157) /\
  trace (mach (h_mm (init_mems h))) = trace (mach (h_mm h)).
Proof.
  intros Hp. destruct (init_mems_ok h Hp) as [Hr _ Ho Ht]. split; [exact Hr|]. split; [exact Ho|exact Ht].
Qed.

(** C35: os_alloc hands out overlapping objects: two allocations of the same
    size from a class without freed objects are at most one byte apart
    (position [>> i] where the object number must be shifted left). *)
Theorem os_alloc_overlaps h A Nf k size pfn pos :
  heap_rep h A Nf k -> 1 < size <= 2048 -> A (alloc_class size) = AClass [] pfn pos ->
  pos + 1 <= 4096 / 2 ^ alloc_class size ->
  exists p q h1 h2, os_alloc size h = Some (p, h1) /\ os_alloc size h1 = Some (q, h2) /\
    p <= q <= p + 1 /\ q < p + size.
Proof.
  intros Hrep Hs EA Hle. assert (Hok : size_ok size) by (unfold size_ok; lia).
  destruct (os_alloc_bump h A Nf k size pfn pos Hrep Hok EA ltac:(lia)) as (m1 & E1 & _ & Hrep1).
  set (h1 := set_h_ram m1 h) in *.
  destruct (os_alloc_bump h1 _ Nf k size pfn (pos + 1) Hrep1 Hok) as (m2 & E2 & _); [|lia|].
  { unfold set_class. by rewrite Z.eqb_refl. }
  eexists _, _, h1, (set_h_ram m2 h1). split; [exact E1|]. split; [exact E2|].
  destruct (alloc_class_range size Hok) as [Hi _]. destruct (class_pos_bound _ Hi) as [Hp _].
  set (d := 2 ^ alloc_class size) in *. assert (32 <= d).
  { unfold d. change 32 with (2^5). apply Z.pow_le_mono_r; unfold is_class in Hi; lia. }
  assert (pos / d <= (pos + 1) / d) by (apply Z.div_le_mono; lia).
  assert ((pos + 1) / d <= pos / d + 1).
  { rewrite <- (Z.div_add pos 1 d) by lia. apply Z.div_le_mono; lia. }
  lia.
Qed.

(** ** Witnesses *)

#[local] Opaque init_mems.

Lemma boot_ds_available : (0 < available (h_mm (init_mems reset_heap)) OS_DS_REG)%nat.
Proof.
  pose proof (bh_front _ _ (init_mems_ok reset_heap reset_power_up)) as Hf.
  rewrite (front_available _ 109 Hf) by lia. lia.
Qed.

(** The first allocation for [stats] is refined by a step. *)
Lemma os_heap_refines_witness : exists r h' A' Nf',
  run_heap_op (OAlloc 64) (init_mems reset_heap) = Some (r, h') /\
  heap_step (owned (h_mm (init_mems reset_heap)) OS_DS_REG) (OAlloc 64) boot_classes r A' /\ heap_rep h' A' Nf' 25341.
Proof.
  apply (os_heap_refines (init_mems reset_heap) boot_classes (fun _ => []) 25341 (OAlloc 64)).
  - exact (bh_rep _ _ (init_mems_ok reset_heap reset_power_up)).
  - discriminate.
  - split; [discriminate|reflexivity].
  - exact boot_ds_available.
Defined.

Lemma init_mems_heap_witness : heap_rep (init_mems reset_heap) boot_classes (fun _ => []) 25344.
Proof. exact (proj1 (init_mems_heap reset_heap reset_power_up)). Defined.

Lemma os_alloc_overlaps_witness : exists p q h1 h2,
  os_alloc 64 (init_mems reset_heap) = Some (p, h1) /\ os_alloc 64 h1 = Some (q, h2) /\ p <= q <= p + 1 /\ q < p + 64.
Proof.
  apply (os_alloc_overlaps (init_mems reset_heap) boot_classes (fun _ => []) 25344 64 2051 0).
  - exact (bh_rep _ _ (init_mems_ok reset_heap reset_power_up)).
  - split; [reflexivity|discriminate].
  - reflexivity.
  - discriminate.
Defined.
