(* ===== verification/PageTable.v ===== *)
(** * Page tables: entry.c and context.c

    The four-level page tables of a process, in physical memory: looking up a
    user mapping ([get_user_pte]), removing one ([do_unmap_user]), and the two
    routines that build the path of an address, [install_page_table] for page
    faults (entry.c) and [install_ptable], [install_ptable_multi] for start-up
    and fork (context.c).  They are written and verified against the frame
    allocator's interface of [Frames]. *)
From S2P Require Import Prelude Mem Lib Machine Memory Frames.
Local Open Scope gemos_scope.

(** ** Constants (include/memory.h) *)

Definition PGD_MASK : Z := 0xff8000000000.
Definition PUD_MASK : Z := 0x7fc0000000.
Definition PMD_MASK : Z := 0x3fe00000.
Definition PTE_MASK : Z := 0x1ff000.
Definition PGD_SHIFT : Z := 39.
Definition PUD_SHIFT : Z := 30.
Definition PMD_SHIFT : Z := 21.
Definition PTE_SHIFT : Z := 12.
Definition FLAG_MASK : Z := 0x3ffffffff000.

(** [struct mm_segment] and its access flags (include/context.h). *)
Record mm_segment := MMSegment {
  seg_start : Z;
  seg_end : Z;
  seg_next_free : Z;
  seg_access_flags : Z
}.
Definition MM_RD : Z := 1.
Definition MM_WR : Z := 2.
Definition MM_EX : Z := 4.
Definition MM_SH : Z := 8.

(** Entries are 64-bit words: adding [i] to a [u64 *] adds [8 * i]. *)
Definition pgd_index (addr : Z) : Z := (addr .& PGD_MASK) >> PGD_SHIFT.
Definition pud_index (addr : Z) : Z := (addr .& PUD_MASK) >> PUD_SHIFT.
Definition pmd_index (addr : Z) : Z := (addr .& PMD_MASK) >> PMD_SHIFT.
Definition pte_index (addr : Z) : Z := (addr .& PTE_MASK) >> PTE_SHIFT.

(** ** Lookup (entry.c) *)

(** The frame that an entry points to: its bits from 12 on, cut to 32 bits. *)
Definition entry_pfn (e : Z) : Z := (e >> PTE_SHIFT) .& 0xffffffff.

(** The test that an entry is not present (bit 0) or not for user mode (bit 2). *)
Definition not_user (e : Z) : bool := ((e .& 1) =? 0) || ((e .& 4) =? 0).

(** The address of the page-table entry of user address [addr], 0 for NULL. *)
Definition get_user_pte (m : mem) (pgd addr : Z) : Z :=
  let vaddr_base := osmap pgd in
  let entry := vaddr_base + 8 * pgd_index addr in
  let vaddr_base := osmap (entry_pfn (ld64 m entry)) in
  if not_user (ld64 m entry) then 0 else
  let entry := vaddr_base + 8 * pud_index addr in
  let vaddr_base := osmap (entry_pfn (ld64 m entry)) in
  if not_user (ld64 m entry) then 0 else
  let entry := vaddr_base + 8 * pmd_index addr in
  let vaddr_base := osmap (entry_pfn (ld64 m entry)) in
  if not_user (ld64 m entry) || ((ld64 m entry .& 0x80) =? 1) then 0 else
  let entry := vaddr_base + 8 * pte_index addr in
  if not_user (ld64 m entry) then 0 else entry.

(** [pt_walk] of context.c.  Its first access adds the index to a byte
    address, not to a [u64 *], unlike the three others. *)
Definition pt_walk (m : mem) (pgd : Z) (mm : mm_segment) (stack : Z) : Z :=
  let pt_base := u64 (pgd << PAGE_SHIFT) in
  let start := if stack =? 0 then seg_start mm else u64 (seg_end mm - PAGE_SIZE) in
  let entry := ld64 m (pt_base + pgd_index start) in
  if (entry .& 1) =? 0 then u32 (-1) else
  let pt_base := entry .& FLAG_MASK in
  let entry := ld64 m (pt_base + 8 * pud_index start) in
  if (entry .& 1) =? 0 then u32 (-1) else
  let pt_base := entry .& FLAG_MASK in
  let entry := ld64 m (pt_base + 8 * pmd_index start) in
  if (entry .& 1) =? 0 then u32 (-1) else
  let pt_base := entry .& FLAG_MASK in
  let entry := ld64 m (pt_base + 8 * pte_index start) in
  if (entry .& 1) =? 0 then u32 (-1) else u32 (entry >> PAGE_SHIFT).

Section operations.
Context {S : Type} `{FrameStore S}.

Definition store64 (a v : Z) (s : S) : S := fs_set_ram (st64 (fs_ram s) a v) s.

(** ** Removal and page-fault mapping (entry.c) *)

Definition do_unmap_user (pgd addr : Z) (s : S) : Z * S :=
  let pte_entry := get_user_pte (fs_ram s) pgd addr in
  if pte_entry =? 0 then (-1, s)
  else
    let s := fs_free USER_REG (entry_pfn (ld64 (fs_ram s) pte_entry)) s in
    let s := store64 pte_entry 0 s in
    (0, fs_emit (EInvlpg addr) s).

(** One level of [install_page_table]: follow the entry if it is present,
    else allocate a table and link it; the result is the table's address. *)
Definition next_table (ac_flags entry : Z) (s : S) : Z * S :=
  if negb ((ld64 (fs_ram s) entry .& 1) =? 0) then
    (osmap (entry_pfn (ld64 (fs_ram s) entry)), s)
  else
    let '(pfn, s) := fs_alloc OS_PT_REG s in
    (osmap pfn, store64 entry (u64 (pfn << PTE_SHIFT) .| ac_flags) s).

Definition install_page_table (pgd addr error_code : Z) (s : S) : S :=
  let ac_flags := 5 .| (error_code .& 2) in
  let vaddr_base := osmap pgd in
  let entry := vaddr_base + 8 * pgd_index addr in
  let '(vaddr_base, s) := next_table ac_flags entry s in
  let entry := vaddr_base + 8 * pud_index addr in
  let '(vaddr_base, s) := next_table ac_flags entry s in
  let entry := vaddr_base + 8 * pmd_index addr in
  let '(vaddr_base, s) := next_table ac_flags entry s in
  let entry := vaddr_base + 8 * pte_index addr in
  let '(pfn, s) := fs_alloc USER_REG s in
  store64 entry (u64 (pfn << PTE_SHIFT) .| ac_flags) s.

(** ** Start-up and fork mappings (context.c) *)

(** One level of [install_ptable]: the entry is followed when it is not 0,
    and a new table is cleared. *)
Definition ptable_next (ptep : Z) (s : S) : Z * S :=
  if ld64 (fs_ram s) ptep =? 0 then
    let '(pfn, s) := fs_alloc OS_PT_REG s in
    let s := store64 ptep (u64 (pfn << PAGE_SHIFT) .| 7) s in
    let os_addr := osmap pfn in
    (os_addr, fs_set_ram (bzero (fs_ram s) os_addr PAGE_SIZE) s)
  else (ld64 (fs_ram s) ptep .& FLAG_MASK, s).

Definition install_ptable (base : Z) (mm : mm_segment) (address upfn : Z) (s : S) : Z * S :=
  let address := if address =? 0 then seg_start mm else address in
  let ptep := base + 8 * pgd_index address in
  let '(os_addr, s) := ptable_next ptep s in
  let ptep := os_addr + 8 * pud_index address in
  let '(os_addr, s) := ptable_next ptep s in
  let ptep := os_addr + 8 * pmd_index address in
  let '(os_addr, s) := ptable_next ptep s in
  let ptep := os_addr + 8 * pte_index address in
  let '(upfn, s) := if upfn =? 0 then fs_alloc USER_REG s else (upfn, s) in
  let s := store64 ptep (u64 (upfn << PAGE_SHIFT) .| 5) s in
  let s :=
    if negb ((seg_access_flags mm .& MM_WR) =? 0)
    then store64 ptep (ld64 (fs_ram s) ptep .| 2) s else s in
  (upfn, s).

(** The loop of [install_ptable_multi], [n] pages to go. *)
Fixpoint ptable_multi_loop (n : nat) (ctr ptep start_pfn last_pfn : Z) (write : bool) (s : S) : S :=
  match n with
  | O => s
  | Datatypes.S n =>
      let '(pfn, s) :=
        if ctr =? 0 then (start_pfn, s)
        else
          let '(pfn, s) := fs_alloc USER_REG s in
          (pfn, if last_pfn =? u64 (pfn - 1) then s
                else fs_emit (EPrintf "BUG! PFN not in sequence\n" []) s) in
      let s := store64 ptep (u64 (pfn << PAGE_SHIFT) .| 5) s in
      let s := if write then store64 ptep (ld64 (fs_ram s) ptep .| 2) s else s in
      ptable_multi_loop n (ctr + 1) (ptep + 8) start_pfn pfn write s
  end.

Definition install_ptable_multi (pgd start count : Z) (write : bool) (s : S) : Z * S :=
  let ptep := pgd + 8 * pgd_index start in
  let '(os_addr, s) := ptable_next ptep s in
  let ptep := os_addr + 8 * pud_index start in
  let '(os_addr, s) := ptable_next ptep s in
  let ptep := os_addr + 8 * pmd_index start in
  let '(os_addr, s) := ptable_next ptep s in
  let ptep := os_addr + 8 * pte_index start in
  let '(start_pfn, s) := fs_alloc USER_REG s in
  (start_pfn, ptable_multi_loop (Z.to_nat count) 0 ptep start_pfn 0 write s).
End operations.

(** ** The tree of user tables *)

(** The index of [va] in the table [k] levels below the root. *)
Definition idx (k : nat) (va : Z) : Z := va / 2 ^ (39 - 9 * Z.of_nat k) mod 512.

(** The bits of [va] that select the table [k] levels below the root;
    [prefix 4] is the page number. *)
Definition prefix (k : nat) (va : Z) : Z :=
  va / 2 ^ (48 - 9 * Z.of_nat k) mod 2 ^ (9 * Z.of_nat k).

Definition ent (f : Z) (k : nat) (va : Z) : Z := 4096 * f + 8 * idx k va.

(** The table reached after [k] levels through user entries. *)
Fixpoint utable (m : mem) (k : nat) (root va : Z) : option Z :=
  match k with
  | O => Some root
  | S k =>
      match utable m k root va with
      | Some f => let e := ld64 m (ent f k va) in
                  if not_user e then None else Some (entry_pfn e)
      | None => None
      end
  end.

(** The user mapping of an address: the contents of its page-table entry, the
    last one of the walk.  Its write bit is what this entry permits; that
    [install_page_table] gives the tables above it only the permissions of the
    access that needed them is not part of the mapping. *)
Definition mapping (m : mem) (root va : Z) : option Z :=
  match utable m 3 root va with
  | Some f => let e := ld64 m (ent f 3 va) in if not_user e then None else Some e
  | None => None
  end.

Lemma idx_range k va : 0 <= idx k va < 512.
Proof. apply Z.mod_pos_bound. lia. Qed.

Lemma mask_index va mask s :
  0 <= s -> Z.shiftr mask s = 511 -> Z.shiftr (Z.land va mask) s = va / 2^s mod 512.
Proof.
  intros Hs E. rewrite Z.shiftr_land, E. change 511 with (Z.ones 9).
  by rewrite Z.land_ones, Z.shiftr_div_pow2 by lia.
Qed.

Lemma indices va :
  pgd_index va = idx 0 va /\ pud_index va = idx 1 va /\
  pmd_index va = idx 2 va /\ pte_index va = idx 3 va.
Proof. repeat split; by apply mask_index. Qed.

Lemma prefix_S k va : (k < 4)%nat -> prefix (S k) va = prefix k va * 512 + idx k va.
Proof.
  intros Hk. unfold prefix, idx.
  replace (48 - 9 * Z.of_nat (S k)) with (39 - 9 * Z.of_nat k) by lia.
  replace (48 - 9 * Z.of_nat k) with (39 - 9 * Z.of_nat k + 9) by lia.
  replace (9 * Z.of_nat (S k)) with (9 + 9 * Z.of_nat k) by lia.
  rewrite !Z.pow_add_r by lia. change (2^9) with 512.
  rewrite <- Z.div_div by lia. rewrite Z.rem_mul_r by lia. lia.
Qed.

Lemma prefix_S_inj k va wa :
  (k < 4)%nat -> prefix (S k) va = prefix (S k) wa ->
  prefix k va = prefix k wa /\ idx k va = idx k wa.
Proof.
  intros Hk E. rewrite !prefix_S in E by done.
  pose proof (idx_range k va). pose proof (idx_range k wa). lia.
Qed.

Lemma prefix_le j k va wa :
  (j <= k)%nat -> (k <= 4)%nat -> prefix k va = prefix k wa -> prefix j va = prefix j wa.
Proof.
  intros Hjk. induction Hjk as [|k Hjk IH]; intros Hk E; [done|].
  apply IH; [lia|]. by apply prefix_S_inj in E as [? _]; [|lia].
Qed.

Lemma utable_prefix m k root va wa :
  (k <= 4)%nat -> prefix k va = prefix k wa -> utable m k root va = utable m k root wa.
Proof.
  induction k as [|k IH]; intros Hk E; [done|]. apply prefix_S_inj in E as [E1 E2]; [|lia].
  cbn [utable]. rewrite IH by (done || lia). destruct (utable m k root wa); [|done].
  unfold ent. by rewrite E2.
Qed.

Lemma entry_pfn_eq e : entry_pfn e = e / 4096 mod 2^32.
Proof.
  unfold entry_pfn, PTE_SHIFT. rewrite shiftr_12. change 0xffffffff with (Z.ones 32).
  apply Z.land_ones. lia.
Qed.

Lemma entry_pfn_range e : 0 <= entry_pfn e < 2^32.
Proof. rewrite entry_pfn_eq. apply Z.mod_pos_bound. lia. Qed.

Lemma osmap_eq f : 0 <= f < 2^52 -> osmap f = 4096 * f.
Proof. intros. unfold osmap, PAGE_SHIFT. rewrite shiftl_12, u64_small by lia. lia. Qed.

Lemma utable_range m k root va f :
  0 <= root < 2^32 -> utable m k root va = Some f -> 0 <= f < 2^32.
Proof.
  intros Hr. destruct k; cbn [utable]; [by intros [= <-]|].
  destruct (utable m k root va); [|done]. case_match; [done|]. intros [= <-].
  apply entry_pfn_range.
Qed.

Lemma not_user_eq e : not_user e = negb (Z.testbit e 0 && Z.testbit e 2).
Proof.
  unfold not_user. change 4 with (Z.shiftl 1 2) at 1. change 1 with (Z.shiftl 1 0) at 1.
  assert (H : forall k, 0 <= k -> (Z.land e (Z.shiftl 1 k) =? 0) = negb (Z.testbit e k)).
  { intros k Hk. destruct (Z.testbit e k) eqn:E; cbn.
    - apply Z.eqb_neq. intros E2. apply (f_equal (fun z => Z.testbit z k)) in E2.
      by rewrite Z.land_spec, testbit_pow2, Z.eqb_refl, E, Z.bits_0 in E2.
    - apply Z.eqb_eq, Z.bits_inj'. intros i Hi. rewrite Z.land_spec, testbit_pow2, Z.bits_0 by done.
      destruct (Z.eqb_spec i k); [by subst; rewrite E | apply andb_false_r]. }
  rewrite !H by lia. by destruct (Z.testbit e 0), (Z.testbit e 2).
Qed.

Lemma huge_bit_never_one e : (Z.land e 0x80 =? 1) = false.
Proof.
  apply Z.eqb_neq. intros E. apply (f_equal (fun z => Z.testbit z 0)) in E.
  by rewrite Z.land_spec, andb_false_r in E.
Qed.

(** The code's walk is the walk of the tree. *)
Lemma get_user_pte_walk m root va :
  0 <= root < 2^32 ->
  get_user_pte m root va =
    match utable m 3 root va with
    | Some f => if not_user (ld64 m (ent f 3 va)) then 0 else ent f 3 va
    | None => 0
    end.
Proof.
  intros Hr. destruct (indices va) as (E0 & E1 & E2 & E3).
  unfold get_user_pte. rewrite E0, E1, E2, E3. cbn [utable].
  pose proof (fun e => entry_pfn_range e) as Hp.
  rewrite (osmap_eq root) by lia. fold (ent root 0 va).
  destruct (not_user (ld64 m (ent root 0 va))); [done|].
  set (f1 := entry_pfn _). assert (0 <= f1 < 2^32) by apply Hp.
  rewrite (osmap_eq f1) by lia. fold (ent f1 1 va).
  destruct (not_user (ld64 m (ent f1 1 va))); [done|].
  set (f2 := entry_pfn (ld64 m (ent f1 1 va))). assert (0 <= f2 < 2^32) by apply Hp.
  rewrite (osmap_eq f2) by lia. fold (ent f2 2 va).
  rewrite huge_bit_never_one, orb_false_r.
  destruct (not_user (ld64 m (ent f2 2 va))); [done|].
  set (f3 := entry_pfn (ld64 m (ent f2 2 va))). assert (0 <= f3 < 2^32) by apply Hp.
  rewrite (osmap_eq f3) by lia. by fold (ent f3 3 va).
Qed.

(** ** Well-formed trees *)

(** Every table reachable through user entries is one of the frames [own],
    and is reached by one path only. *)
Record pt_wf (own : Z -> Prop) (m : mem) (root : Z) : Prop := {
  wf_root : 0 <= root < 2^32;
  wf_own k va f : (k <= 3)%nat -> utable m k root va = Some f -> own f;
  wf_inj k va k' va' f : (k <= 3)%nat -> (k' <= 3)%nat ->
    utable m k root va = Some f -> utable m k' root va' = Some f ->
    k = k' /\ prefix k va = prefix k va'
}.

(** The 8 bytes of an entry. *)
Definition in_entry (f : Z) (k : nat) (va a : Z) : Prop := ent f k va <= a < ent f k va + 8.

Lemma in_entry_frame f k va a : in_entry f k va a -> in_frame f a.
Proof. unfold in_entry, in_frame, ent. pose proof (idx_range k va). lia. Qed.

Lemma ent_same_or_apart f k va f' k' va' :
  (f = f' /\ idx k va = idx k' va') \/ ent f k va + 8 <= ent f' k' va' \/
  ent f' k' va' + 8 <= ent f k va.
Proof. unfold ent. pose proof (idx_range k va). pose proof (idx_range k' va'). lia. Qed.

Section store.
Context (own : Z -> Prop) (m m' : mem) (root : Z) (Hwf : pt_wf own m root).

(** Tables and mappings depend on the owned frames only. *)
Lemma utable_same :
  (forall f a, own f -> in_frame f a -> ld8 m' a = ld8 m a) ->
  forall k va, (k <= 4)%nat -> utable m' k root va = utable m k root va.
Proof.
  intros Hs k va. induction k as [|k IH]; intros Hk; [done|]. cbn [utable].
  rewrite IH by lia. destruct (utable m k root va) as [f|] eqn:E; [|done].
  assert (Ho : own f) by (eapply wf_own; [done| |done]; lia).
  assert (El : ld64 m' (ent f k va) = ld64 m (ent f k va)).
  { apply (ldn_ext 8). intros b Hb. apply (Hs f); [done|]. by apply (in_entry_frame f k va). }
  by rewrite El.
Qed.

Lemma mapping_same :
  (forall f a, own f -> in_frame f a -> ld8 m' a = ld8 m a) ->
  forall va, mapping m' root va = mapping m root va.
Proof.
  intros Hs va. unfold mapping. rewrite utable_same by (done || lia).
  destruct (utable m 3 root va) as [f|] eqn:E; [|done].
  assert (Ho : own f) by (eapply wf_own; [done| |done]; lia).
  assert (El : ld64 m' (ent f 3 va) = ld64 m (ent f 3 va)); [|by rewrite El].
  apply (ldn_ext 8). intros b Hb. apply (Hs f); [done|]. by apply (in_entry_frame f 3 va).
Qed.

(** A change of one entry is felt only below it. *)
Context (k : nat) (va f : Z) (Hk : (k <= 3)%nat) (Hf : utable m k root va = Some f)
  (Hu : untouched (in_entry f k va) m m').

Lemma entry_other j wa f' :
  (j <= 3)%nat -> utable m j root wa = Some f' ->
  (j < k)%nat \/ prefix (S k) wa <> prefix (S k) va ->
  ld64 m' (ent f' j wa) = ld64 m (ent f' j wa).
Proof.
  intros Hj Hf' Hc. apply (untouched_ldn (in_entry f k va) 8); [done|].
  intros b Hb Hin. unfold in_entry in Hin.
  destruct (ent_same_or_apart f' j wa f k va) as [[-> Ei]|[?|?]]; [|lia..].
  destruct (wf_inj _ _ _ Hwf j wa k va f) as [-> Ep]; [done..|].
  destruct Hc as [?|Hne]; [lia|]. apply Hne. rewrite !prefix_S by lia. congruence.
Qed.

Lemma utable_other j wa :
  (j <= 4)%nat -> (j <= k)%nat \/ prefix (S k) wa <> prefix (S k) va ->
  utable m' j root wa = utable m j root wa.
Proof.
  induction j as [|j IH]; intros Hj Hc; [done|]. cbn [utable].
  rewrite IH by (destruct Hc; auto; lia).
  destruct (utable m j root wa) as [f'|] eqn:E; [|done].
  rewrite (entry_other j) by (try done; destruct Hc; auto; lia). done.
Qed.

Lemma mapping_other wa :
  prefix (S k) wa <> prefix (S k) va -> mapping m' root wa = mapping m root wa.
Proof.
  intros Hne. unfold mapping. rewrite utable_other by auto.
  destruct (utable m 3 root wa) as [f'|] eqn:E; [|done].
  by rewrite (entry_other 3) by auto.
Qed.
End store.

(** *** Storing in a last-level entry *)

Lemma leaf_store own m root va f v :
  pt_wf own m root -> utable m 3 root va = Some f -> 0 <= v < 2^64 ->
  let m' := st64 m (ent f 3 va) v in
  pt_wf own m' root /\ utable m' 3 root va = Some f /\
  (forall wa, mapping m' root wa =
     if decide (prefix 4 wa = prefix 4 va) then (if not_user v then None else Some v)
     else mapping m root wa).
Proof.
  intros Hwf Hf Hv m'.
  assert (Hu : untouched (in_entry f 3 va) m m') by (by apply untouched_stn).
  assert (Ht : forall j wa, (j <= 3)%nat -> utable m' j root wa = utable m j root wa).
  { intros j wa Hj. apply (utable_other own m m' root Hwf 3 va f); auto; lia. }
  split_and!; [|by rewrite Ht|].
  - split; [apply Hwf | |].
    + intros k wa g Hk. rewrite Ht by done. by apply Hwf.
    + intros k wa k' wa' g Hk Hk'. rewrite !Ht by done. by apply Hwf.
  - intros wa. case_decide as E.
    + unfold mapping. rewrite Ht by lia. apply prefix_S_inj in E as [E1 E2]; [|lia].
      rewrite (utable_prefix m 3 root wa va), Hf by (done || lia).
      unfold ent. rewrite E2. fold (ent f 3 va). unfold m'. by rewrite ld64_st64_eq.
    + by apply (mapping_other own m m' root Hwf 3 va f).
Qed.

(** The path of [va] is free of kernel entries: what is not a user entry is
    empty, and the user entries hold frame numbers of 32 bits. *)
Definition path_clear (m : mem) (root va : Z) : Prop :=
  forall k f, (k < 3)%nat -> utable m k root va = Some f ->
    let e := ld64 m (ent f k va) in if not_user e then e = 0 else e < 2^44.

Definition is_table (m : mem) (root q : Z) : Prop :=
  exists k va, (k <= 3)%nat /\ utable m k root va = Some q.

(** *** Linking a new table *)

Lemma utable_none m i j root va :
  (i <= j)%nat -> utable m i root va = None -> utable m j root va = None.
Proof. intros Hij. induction Hij as [|j Hij IH]; [done|]. intros E. cbn. by rewrite IH. Qed.

(** [g] is a zeroed frame outside the tree, linked at an entry of level [k]
    that was not a user entry. *)
Section link.
Context (own own' : Z -> Prop) (m : mem) (root : Z) (k : nat) (va f g v : Z).
Context (Hwf : pt_wf own m root) (Hk : (k < 3)%nat) (Hf : utable m k root va = Some f).
Context (Hold : not_user (ld64 m (ent f k va)) = true).
Context (Hmono : forall q, own q -> own' q) (Hg : own' g) (Hng : ~ own g).
Context (Hz : forall a, in_frame g a -> ld8 m a = 0).
Context (Hv : 0 <= v < 2^64) (Hnu : not_user v = false) (Hpfn : entry_pfn v = g).
Let m' := st64 m (ent f k va) v.

Lemma link_untouched : untouched (in_entry f k va) m m'.
Proof. by apply untouched_stn. Qed.

Lemma link_other j wa :
  (j <= 4)%nat -> (j <= k)%nat \/ prefix (S k) wa <> prefix (S k) va ->
  utable m' j root wa = utable m j root wa.
Proof. apply (utable_other own m m' root Hwf k va f); [lia | done | apply link_untouched]. Qed.

Lemma link_zero j wa : ld64 m' (ent g j wa) = 0.
Proof.
  apply (ldn_zero 8). intros b Hb. assert (Hin : in_frame g b) by (by apply (in_entry_frame g j wa)).
  rewrite link_untouched; [by apply Hz|]. intros Hin'. apply Hng.
  assert (f = g) as <-; [|by apply (wf_own _ _ _ Hwf k va); [lia|]].
  apply (frames_distinct f g b); [by apply (in_entry_frame f k va) | done].
Qed.

Lemma link_below wa :
  prefix (S k) wa = prefix (S k) va ->
  utable m' (S k) root wa = Some g /\ utable m' (S (S k)) root wa = None /\
  utable m (S k) root wa = None.
Proof.
  intros E. assert (E' : utable m' (S k) root wa = Some g).
  { rewrite (utable_prefix _ (S k) root wa va) by (done || lia). cbn [utable].
    rewrite link_other, Hf by (auto; lia). unfold m'. by rewrite ld64_st64_eq, Hnu, Hpfn. }
  split_and!; [done | |].
  - assert (H : utable m' (S (S k)) root wa =
      match utable m' (S k) root wa with
      | Some f => if not_user (ld64 m' (ent f (S k) wa)) then None
                  else Some (entry_pfn (ld64 m' (ent f (S k) wa))) | None => None end) by done.
    by rewrite H, E', link_zero.
  - rewrite (utable_prefix _ (S k) root wa va) by (done || lia). cbn [utable]. by rewrite Hf, Hold.
Qed.

Lemma link_char j wa h :
  (j <= 3)%nat -> utable m' j root wa = Some h ->
  (utable m j root wa = Some h /\ own h) \/
  (j = S k /\ prefix (S k) wa = prefix (S k) va /\ h = g).
Proof.
  intros Hj E. destruct (decide ((j <= k)%nat \/ prefix (S k) wa <> prefix (S k) va)) as [Hc|Hc].
  - left. rewrite link_other in E by (done || lia). split; [done|].
    by apply (wf_own _ _ _ Hwf j wa).
  - right. assert (Ep : prefix (S k) wa = prefix (S k) va) by (apply dec_stable; auto).
    destruct (link_below wa Ep) as (E1 & E2 & _). assert (~ (j <= k)%nat) by auto.
    destruct (decide (j = S k)) as [->|]; [split_and!; congruence|].
    rewrite (utable_none m' (S (S k)) j) in E by (done || lia). done.
Qed.

Lemma link_table :
  pt_wf own' m' root /\ utable m' (S k) root va = Some g /\
  (forall wa, ld64 m' (ent g (S k) wa) = 0) /\
  (forall j wa, (j <= k)%nat -> utable m' j root wa = utable m j root wa) /\
  (forall wa, mapping m' root wa = mapping m root wa).
Proof.
  split_and!.
  - split; [apply Hwf | |].
    + intros j wa h Hj E. apply link_char in E as [[_ ?]|(_ & _ & ->)]; auto.
    + intros j wa j' wa' h Hj Hj' E E'.
      apply link_char in E as [[E Ho]|(-> & Ep & ->)];
      apply link_char in E' as [[E' Ho']|(-> & Ep' & Eh)]; try done.
      * by apply (wf_inj _ _ _ Hwf j wa j' wa' h).
      * by subst h.
      * split; congruence.
  - by apply link_below.
  - intros. apply link_zero.
  - intros j wa Hj. apply link_other; [lia | by left].
  - intros wa. destruct (decide (prefix (S k) wa = prefix (S k) va)) as [E|E].
    + destruct (link_below wa E) as (E1 & E2 & E3). unfold mapping.
      rewrite (utable_none m (S k) 3) by (done || lia).
      destruct (decide (S k = 3%nat)) as [E4|]; [rewrite E4 in E1; by rewrite E1, link_zero|].
      by rewrite (utable_none m' (S (S k)) 3) by (done || lia).
    + apply (mapping_other own m m' root Hwf k va f); try done; [lia | apply link_untouched].
Qed.
(** [path_clear] survives, and no table appears but the new one. *)
Lemma link_path_clear wa : v < 2^44 -> path_clear m root wa -> path_clear m' root wa.
Proof.
  intros Hv44 Hc j h Hj E. destruct (link_char j wa h ltac:(lia) E) as [[E' Ho]|(-> & Ep & ->)].
  - destruct (ent_same_or_apart h j wa f k va) as [[-> Ei]|Hap].
    + assert (E2 : ld64 m' (ent f j wa) = v).
      { unfold ent. rewrite Ei. apply ld64_st64_eq. exact Hv. }
      cbn zeta. by rewrite E2, Hnu.
    + unfold m'. rewrite ld64_st64_ne by lia. by apply Hc.
  - cbn zeta. by rewrite link_zero.
Qed.

Lemma link_is_table q : is_table m' root q -> own q -> is_table m root q.
Proof.
  intros (j & wa & Hj & E) Ho.
  destruct (link_char j wa q Hj E) as [[E' _]|(-> & Ep & ->)]; [by exists j, wa | done].
Qed.
End link.

(** ** Entry values *)

Lemma land_page_flags p fl : 0 <= fl < 4096 -> Z.land (p * 4096) fl = 0.
Proof.
  intros Hf. apply Z.bits_inj'. intros i Hi. rewrite Z.land_spec, Z.bits_0.
  change 4096 with (2^12). destruct (Z.ltb_spec i 12).
  - by rewrite Z.mul_pow2_bits_low.
  - rewrite (testbit_high fl 12) by lia. apply andb_false_r.
Qed.

Lemma lor_page_flags p fl : 0 <= fl < 4096 -> Z.lor (p * 4096) fl = p * 4096 + fl.
Proof.
  intros Hf. pose proof (Z.add_lor_land (p * 4096) fl) as H.
  rewrite land_page_flags in H by done. lia.
Qed.

(** An entry built as [(pfn << 12) | flags]. *)
Lemma entry_value p fl :
  0 <= p < 2^32 -> 0 <= fl < 4096 ->
  Z.lor (u64 (Z.shiftl p 12)) fl = p * 4096 + fl /\
  entry_pfn (p * 4096 + fl) = p /\ not_user (p * 4096 + fl) = not_user fl.
Proof.
  intros Hp Hf. split_and!.
  - by rewrite shiftl_12, u64_small, lor_page_flags by lia.
  - rewrite entry_pfn_eq. rewrite Z.div_add_l, (Z.div_small fl), Z.add_0_r by lia.
    by apply Z.mod_small.
  - rewrite !not_user_eq, <- lor_page_flags, !Z.lor_spec by done. change 4096 with (2^12).
    by rewrite !Z.mul_pow2_bits_low by lia.
Qed.

Lemma flag_mask_pfn e : 0 <= e < 2^44 -> Z.land e FLAG_MASK = 4096 * entry_pfn e.
Proof.
  intros He. rewrite entry_pfn_eq. rewrite (Z.mod_small (e / 4096)) by zdm.
  apply Z.bits_inj'. intros i Hi. rewrite Z.land_spec, (Z.mul_comm 4096).
  change 4096 with (2^12) at 1. rewrite <- (Z.shiftl_mul_pow2 _ 12), Z.shiftl_spec by lia.
  change FLAG_MASK with (Z.shiftl (Z.ones 34) 12). rewrite Z.shiftl_spec by done.
  destruct (Z.ltb_spec i 12).
  { rewrite !(Z.testbit_neg_r _ (i - 12)) by lia. apply andb_false_r. }
  change 4096 with (2^12). rewrite Z.div_pow2_bits by lia. replace (i - 12 + 12) with i by lia.
  destruct (Z.ltb_spec (i - 12) 34).
  - rewrite Z.ones_spec_low by lia. apply andb_true_r.
  - rewrite (testbit_high e 44) by lia. done.
Qed.


(** ** Address spaces in the state *)

Section spaces.
Context {S : Type} `{FrameLaws S}.
Implicit Types s : S.
Abbreviation own_pt s := (fl_owned s OS_PT_REG).

(** A well-formed address space: the allocator's invariant holds and the
    tree below [root] is made of owned page-table frames. *)
Definition pt_ok s (root : Z) : Prop := fl_inv s /\ pt_wf (own_pt s) (fs_ram s) root.

Lemma pt_wf_same (own own' : Z -> Prop) m m' root :
  pt_wf own m root -> (forall q, own q -> own' q) ->
  (forall q a, own q -> in_frame q a -> ld8 m' a = ld8 m a) -> pt_wf own' m' root.
Proof.
  intros Hwf Hmono Hs. pose proof (utable_same own m m' root Hwf Hs) as Ht.
  split; [apply Hwf | |].
  - intros k va f Hk. rewrite Ht by lia. intros E. by apply Hmono, (wf_own _ _ _ Hwf k va).
  - intros k va k' va' f Hk Hk'. rewrite !Ht by lia. by apply Hwf.
Qed.

(** Memories that agree on the tables hold the same tree. *)
Record same_tree (m m' : mem) (root : Z) : Prop := {
  st_utable k va : (k <= 4)%nat -> utable m' k root va = utable m k root va;
  st_mapping va : mapping m' root va = mapping m root va;
  st_entry k va f j wa : (k <= 3)%nat -> utable m k root va = Some f ->
    ld64 m' (ent f j wa) = ld64 m (ent f j wa);
  st_clear va : path_clear m' root va <-> path_clear m root va;
  st_table q : is_table m' root q <-> is_table m root q
}.

Lemma same_tree_intro (own : Z -> Prop) m m' root :
  pt_wf own m root -> (forall q a, own q -> in_frame q a -> ld8 m' a = ld8 m a) ->
  same_tree m m' root.
Proof.
  intros Hwf Hs. pose proof (utable_same own m m' root Hwf Hs) as Ht.
  assert (He : forall k va f j wa, (k <= 3)%nat -> utable m k root va = Some f ->
    ld64 m' (ent f j wa) = ld64 m (ent f j wa)).
  { intros k va f j wa Hk E. apply (ldn_ext 8). intros b Hb.
    apply (Hs f); [by apply (wf_own _ _ _ Hwf k va) | by apply (in_entry_frame f j wa)]. }
  split; [done | by apply (mapping_same own) | done | |].
  - intros va. unfold path_clear. split; intros Hc k f Hk E.
    + rewrite <- (He k va f) by (done || lia). apply Hc; [done|]. by rewrite Ht by lia.
    + rewrite Ht in E by lia. rewrite (He k va f) by (done || lia). by apply Hc.
  - intros q. unfold is_table. split; intros (k & va & Hk & E); exists k, va;
      (split; [done|]); rewrite Ht in * by lia; done.
Qed.

(** Tables stay, new ones appear on the path of [va] only, and so do new
    entries. *)
Record grown (m m' : mem) (root va : Z) : Prop := {
  gr_mono j wa f : (j <= 3)%nat -> utable m j root wa = Some f -> utable m' j root wa = Some f;
  gr_other j wa : (j <= 3)%nat -> prefix j wa <> prefix j va -> utable m' j root wa = utable m j root wa;
  gr_entry j wa f : (j <= 3)%nat -> utable m j root wa = Some f -> prefix (Datatypes.S j) wa <> prefix (Datatypes.S j) va ->
    ld64 m' (ent f j wa) = ld64 m (ent f j wa);
  gr_link j wa f : (j <= 2)%nat -> utable m j root wa = Some f -> not_user (ld64 m (ent f j wa)) = false ->
    ld64 m' (ent f j wa) = ld64 m (ent f j wa)
}.

Lemma grown_refl m root va : grown m m root va.
Proof. by split. Qed.

Lemma grown_trans m1 m2 m3 root va : grown m1 m2 root va -> grown m2 m3 root va -> grown m1 m3 root va.
Proof.
  intros [A1 B1 C1 D1] [A2 B2 C2 D2]. split.
  - intros j wa f Hj E. by apply A2, A1.
  - intros j wa Hj Hne. by rewrite B2, B1.
  - intros j wa f Hj E Hne. rewrite C2; [by apply C1|done|by apply A1|done].
  - intros j wa f Hj E Hn. pose proof (D1 j wa f Hj E Hn) as E1. rewrite <- E1 in Hn. rewrite <- E1.
    apply D2; [done|apply A1; [lia|done]|done].
Qed.

Lemma grown_same m m' root va : same_tree m m' root -> grown m m' root va.
Proof.
  intros Hst. split.
  - intros j wa f Hj E. by rewrite (st_utable _ _ _ Hst) by lia.
  - intros j wa Hj _. apply (st_utable _ _ _ Hst). lia.
  - intros j wa f Hj E _. by apply (st_entry _ _ _ Hst j wa).
  - intros j wa f Hj E _. apply (st_entry _ _ _ Hst j wa); [lia|done].
Qed.

(** A store in one entry of the path. *)
Lemma grown_leaf (own : Z -> Prop) m m' root va f :
  pt_wf own m root -> utable m 3 root va = Some f -> untouched (in_entry f 3 va) m m' -> grown m m' root va.
Proof.
  intros Hwf Hf Hu.
  assert (E : forall j wa, (j <= 3)%nat -> utable m' j root wa = utable m j root wa).
  { intros j wa Hj. apply (utable_other own m m' root Hwf 3 va f); (done || lia || (left; lia)). }
  split.
  - intros j wa g Hj. by rewrite E.
  - intros j wa Hj _. by apply E.
  - intros j wa g Hj Hg Hne. apply (entry_other own m m' root Hwf 3 va f); try (done || lia).
    destruct (decide (j < 3)%nat); [by left|right]. by assert (j = 3)%nat as -> by lia.
  - intros j wa g Hj Hg _. apply (entry_other own m m' root Hwf 3 va f); done || lia || (left; lia).
Qed.

(** A new table linked at an entry of the path. *)
Lemma grown_link (own own' : Z -> Prop) m root k va f g v :
  pt_wf own m root -> (k < 3)%nat -> utable m k root va = Some f -> not_user (ld64 m (ent f k va)) = true ->
  (forall a, in_frame g a -> ld8 m a = 0) -> own' g -> ~ own g -> (forall q, own q -> own' q) ->
  0 <= v < 2^64 -> not_user v = false -> entry_pfn v = g ->
  grown m (st64 m (ent f k va) v) root va.
Proof.
  intros Hwf Hk Hf Hnu Hz Hg Hng Hmono Hv Hvu Hvp. set (m' := st64 _ _ _).
  assert (Hu : untouched (in_entry f k va) m m') by (by apply untouched_stn).
  assert (Hcut : forall j wa h, (k < j)%nat -> utable m j root wa = Some h -> prefix (Datatypes.S k) wa <> prefix (Datatypes.S k) va).
  { intros j wa h Hj E Ep. apply prefix_S_inj in Ep as [Ep Ei]; [|lia].
    rewrite (utable_none m (Datatypes.S k) j root wa) in E; [done|lia|]. cbn [utable].
    rewrite (utable_prefix m k root wa va) by (done || lia). rewrite Hf. unfold ent in *. rewrite Ei. by rewrite Hnu. }
  assert (Hsame : forall j wa, (j <= 3)%nat -> (j <= k)%nat \/ prefix (Datatypes.S k) wa <> prefix (Datatypes.S k) va ->
    utable m' j root wa = utable m j root wa).
  { intros j wa Hj Hc. by apply (utable_other own m m' root Hwf k va f); [lia|..|lia|]. }
  split.
  - intros j wa h Hj E. rewrite Hsame; [done|done|]. destruct (decide (j <= k)%nat); [by left|right].
    apply (Hcut j wa h); [lia|done].
  - intros j wa Hj Hne. destruct (decide (j <= k)%nat); [apply Hsame; [done|by left]|].
    destruct (decide (prefix (Datatypes.S k) wa = prefix (Datatypes.S k) va)) as [Ep|Ep]; [|apply Hsame; [done|by right]].
    assert (Hj2 : (Datatypes.S (Datatypes.S k) <= j)%nat).
    { destruct (decide (j = Datatypes.S k)) as [->|]; [done|lia]. }
    destruct (link_below own own' m root k va f g v Hwf Hk Hf Hnu Hg Hng Hz Hv Hvu Hvp wa Ep) as (_ & E1 & E2).
    fold m' in E1. rewrite (utable_none m' (Datatypes.S (Datatypes.S k)) j root wa) by done.
    by rewrite (utable_none m (Datatypes.S k) j root wa) by (done || lia).
  - intros j wa h Hj E Hne. apply (entry_other own m m' root Hwf k va f); try (done || lia).
    destruct (decide (j < k)%nat); [by left|right]. destruct (decide (j = k)) as [->|]; [done|]. apply (Hcut j wa h); [lia|done].
  - intros j wa h Hj E Hn. apply (entry_other own m m' root Hwf k va f); try (done || lia).
    destruct (decide (j < k)%nat); [by left|right]. destruct (decide (j = k)) as [->|]; [|apply (Hcut j wa h); [lia|done]].
    intros Ep. pose proof (prefix_S_inj k wa va ltac:(lia) Ep) as [Ep' Ei].
    rewrite (utable_prefix m k root wa va) in E by (done || lia). rewrite Hf in E. injection E as <-.
    unfold ent in Hn, Hnu. rewrite Ei in Hn. congruence.
Qed.

(** What building part of the path of [va] leaves as it was; [n] bounds the
    number of page-table frames taken. *)
Record ext_post (n : nat) s s' (root va : Z) : Prop := {
  ep_ok : pt_ok s' root;
  ep_grown : grown (fs_ram s) (fs_ram s') root va;
  ep_owned r q : fl_owned s r q -> fl_owned s' r q;
  ep_user q : fl_owned s' USER_REG q <-> fl_owned s USER_REG q;
  ep_mapping wa : mapping (fs_ram s') root wa = mapping (fs_ram s) root wa;
  ep_clear wa : path_clear (fs_ram s) root wa -> path_clear (fs_ram s') root wa;
  ep_next : fl_next s' USER_REG = fl_next s USER_REG;
  ep_avail_pt : (fl_avail s OS_PT_REG <= n + fl_avail s' OS_PT_REG)%nat;
  ep_table q : is_table (fs_ram s') root q -> own_pt s q -> is_table (fs_ram s) root q;
  ep_frame r q a : fl_owned s r q -> (r = OS_PT_REG -> ~ is_table (fs_ram s) root q) ->
    in_frame q a -> ld8 (fs_ram s') a = ld8 (fs_ram s) a;
  ep_low a : low_memory a -> ld8 (fs_ram s') a = ld8 (fs_ram s) a
}.

Lemma ep_avail_user n s s' root va : ext_post n s s' root va -> fl_avail s' USER_REG = fl_avail s USER_REG.
Proof. intros P. by rewrite !fl_next_length, (ep_next _ _ _ _ _ P). Qed.

Lemma ext_refl s root va : pt_ok s root -> ext_post 0 s s root va.
Proof. intros Hok. by split. Qed.

Lemma ext_trans n1 n2 s1 s2 s3 root va :
  ext_post n1 s1 s2 root va -> ext_post n2 s2 s3 root va -> ext_post (n1 + n2) s1 s3 root va.
Proof.
  intros H1 H2. split.
  - apply H2.
  - exact (grown_trans _ _ _ _ _ (ep_grown _ _ _ _ _ H1) (ep_grown _ _ _ _ _ H2)).
  - intros r q Ho. by apply (ep_owned _ _ _ _ _ H2), (ep_owned _ _ _ _ _ H1).
  - intros q. by rewrite (ep_user _ _ _ _ _ H2), (ep_user _ _ _ _ _ H1).
  - intros wa. by rewrite (ep_mapping _ _ _ _ _ H2), (ep_mapping _ _ _ _ _ H1).
  - intros wa Hc. by apply (ep_clear _ _ _ _ _ H2), (ep_clear _ _ _ _ _ H1).
  - by rewrite (ep_next _ _ _ _ _ H2), (ep_next _ _ _ _ _ H1).
  - pose proof (ep_avail_pt _ _ _ _ _ H2). pose proof (ep_avail_pt _ _ _ _ _ H1). lia.
  - intros q Ht Ho. apply (ep_table _ _ _ _ _ H1); [|done].
    apply (ep_table _ _ _ _ _ H2); [done|]. by apply (ep_owned _ _ _ _ _ H1).
  - intros r q a Ho Hnt Ha. rewrite (ep_frame _ _ _ _ _ H2 r q); [|by apply (ep_owned _ _ _ _ _ H1)| |done].
    + by apply (ep_frame _ _ _ _ _ H1 r q).
    + intros -> Ht. apply Hnt; [done|]. by apply (ep_table _ _ _ _ _ H1).
  - intros a Ha. by rewrite (ep_low _ _ _ _ _ H2), (ep_low _ _ _ _ _ H1).
Qed.

Lemma ext_weaken n n' s s' root va : (n <= n')%nat -> ext_post n s s' root va -> ext_post n' s s' root va.
Proof. intros Hn []. split; try done. lia. Qed.

(** Allocate a table and link it at an entry that is not a user entry. *)
Lemma alloc_link s root k va f fl :
  pt_ok s root -> (k < 3)%nat -> utable (fs_ram s) k root va = Some f ->
  not_user (ld64 (fs_ram s) (ent f k va)) = true -> (0 < fl_avail s OS_PT_REG)%nat ->
  0 <= fl < 4096 -> not_user fl = false ->
  let g := (fs_alloc OS_PT_REG s).1 in
  let s' := store64 (ent f k va) (Z.lor (u64 (Z.shiftl g 12)) fl) (fs_alloc OS_PT_REG s).2 in
  0 <= g < 2^32 /\ ext_post 1 s s' root va /\ utable (fs_ram s') (Datatypes.S k) root va = Some g /\
  own_pt s' g /\ (forall a, in_frame g a -> ld8 (fs_ram s') a = 0).
Proof.
  intros [Hinv Hwf] Hk Hf Hnu Hav Hfl Hflu g s'.
  destruct (fl_alloc s OS_PT_REG Hinv Hav) as (Hinv1 & Hng & Hg & Ho1 & Hav1 & Hz & Hfr).
  fold g in Hng, Hg, Ho1, Hz. set (s1 := (fs_alloc OS_PT_REG s).2) in *.
  specialize (Hz eq_refl).
  assert (Hgr : 0 <= g < 2^17).
  { apply fl_range in Hg; [|done]. change (region_first OS_PT_REG) with 8193 in Hg.
    change (region_pfn OS_PT_REG + region_frames OS_PT_REG) with 25600 in Hg. lia. }
  destruct (entry_value g fl) as (Ev & Ep & En); [lia|done|].
  set (v := Z.lor _ fl) in s'. assert (Hv : 0 <= v < 2^44) by (unfold v; lia).
  assert (Hvnu : not_user v = false) by (unfold v; rewrite Ev, En; done).
  assert (Hvp : entry_pfn v = g) by (unfold v; by rewrite Ev).
  clearbody v. clear Ev Ep En.
  assert (Hs1 : forall q a, own_pt s q -> in_frame q a -> ld8 (fs_ram s1) a = ld8 (fs_ram s) a)
    by (intros q a; apply Hfr).
  pose proof (pt_wf_same _ _ _ _ _ Hwf (fun q H => H) Hs1) as Hwf1.
  pose proof (same_tree_intro _ _ _ _ Hwf Hs1) as Hst.
  assert (Hmono : forall q, own_pt s q -> own_pt s1 q) by (intros; apply Ho1; auto).
  assert (Hof : own_pt s f) by (by apply (wf_own _ _ _ Hwf k va); [lia|]).
  assert (Hu : untouched (in_frame f) (fs_ram s1) (st64 (fs_ram s1) (ent f k va) v)).
  { apply untouched_stn. intros b Hb. by apply (in_entry_frame f k va). }
  destruct (fl_store s1 OS_PT_REG f _ Hinv1 (Hmono _ Hof) Hu) as (Hinv2 & Ho2 & Hav2).
  assert (Hram : fs_ram s' = st64 (fs_ram s1) (ent f k va) v) by apply fl_set_ram.
  assert (Hl := link_table (own_pt s) (own_pt s1) (fs_ram s1) root k va f g v Hwf1 Hk).
  rewrite (st_utable _ _ _ Hst), (st_entry _ _ _ Hst k va f) in Hl by (done || lia).
  destruct (Hl Hf Hnu Hmono Hg Hng Hz ltac:(lia) Hvnu Hvp) as (Lwf & Lg & Lz & Lu & Lm).
  rewrite <- Hram in Lwf, Lg, Lz, Lu, Lm.
  split; [lia|]. split; [|split_and!; [exact Lg | by apply Ho2 |]].
  - split.
    + split; [exact Hinv2|]. by apply (pt_wf_same (own_pt s1) _ (fs_ram s')); [|apply Ho2|].
    + eapply grown_trans; [apply grown_same; exact Hst|]. rewrite Hram.
      apply (grown_link (own_pt s) (own_pt s1) _ root k va f g v); try done; [| |lia].
      * by rewrite (st_utable _ _ _ Hst) by lia.
      * by rewrite (st_entry _ _ _ Hst k va f) by (done || lia).
    + intros r q Hq. apply Ho2, Ho1. by left.
    + intros q. unfold s', store64. rewrite Ho2, Ho1. intuition congruence.
    + intros wa. by rewrite Lm, (st_mapping _ _ _ Hst).
    + intros wa Hc. rewrite Hram. apply (st_clear _ _ _ Hst) in Hc.
      apply (link_path_clear (own_pt s) (own_pt s1) _ root k va f g v); try done; [| |lia..].
      * by rewrite (st_utable _ _ _ Hst) by lia.
      * by rewrite (st_entry _ _ _ Hst k va f) by (done || lia).
    + unfold s', store64. rewrite (fl_next_store s1 OS_PT_REG f) by auto.
      pose proof (fl_next_alloc s OS_PT_REG USER_REG Hinv Hav) as En. by rewrite decide_False in En.
    + unfold s', store64. rewrite Hav2. specialize (Hav1 OS_PT_REG). rewrite decide_True in Hav1 by done. lia.
    + intros q Htb Hq. rewrite Hram in Htb. apply (st_table _ _ _ Hst).
      apply (link_is_table (own_pt s) (own_pt s1) _ root k va f g v); try done; [| |lia..].
      * by rewrite (st_utable _ _ _ Hst) by lia.
      * by rewrite (st_entry _ _ _ Hst k va f) by (done || lia).
    + intros r q a Hq Hnt Ha. rewrite Hram, Hu; [by apply (Hfr r q)|]. intros Hin.
      assert (q = f) as -> by (by apply (frames_distinct q f a)).
      apply Hnt; [|by exists k, va; split; [lia|]].
      by apply (fl_region s r OS_PT_REG f).
    + intros a Ha. rewrite Hram, Hu; [by apply (fl_alloc_low s)|]. intros Hin. by apply (fl_high s OS_PT_REG f a).
  - intros a Ha. rewrite Hram, Hu; [by apply Hz|]. intros Hin.
    apply Hng. by rewrite (frames_distinct g f a).
Qed.

(** ** One level of the path *)

(** What both routines do at a level: they end in a table of the tree, linked
    on the way if there was none. *)
Definition level_step (nx : Z -> S -> Z * S) : Prop :=
  forall s root k va f, pt_ok s root -> (k < 3)%nat ->
    utable (fs_ram s) k root va = Some f -> path_clear (fs_ram s) root va ->
    (0 < fl_avail s OS_PT_REG)%nat ->
    let r := nx (ent f k va) s in
    ext_post 1 s r.2 root va /\
    exists g, 0 <= g < 2^32 /\ r.1 = 4096 * g /\ utable (fs_ram r.2) (Datatypes.S k) root va = Some g.

Lemma user_entry_present e : not_user e = false -> (Z.land e 1 =? 0) = false /\ e <> 0.
Proof.
  unfold not_user. rewrite orb_false_iff. intros [E _]. split; [done|]. by intros ->.
Qed.

Lemma next_table_step ac : 0 <= ac < 4096 -> not_user ac = false -> level_step (next_table ac).
Proof.
  intros Hac Hacu s root k va f Hok Hk Hf Hc Hav. cbn zeta. unfold next_table.
  specialize (Hc k f Hk Hf). cbn zeta in Hc.
  destruct (not_user (ld64 (fs_ram s) (ent f k va))) eqn:Hnu.
  - rewrite Hc. cbn [negb Z.land Z.eqb]. unfold PTE_SHIFT.
    destruct (alloc_link s root k va f ac Hok Hk Hf Hnu Hav Hac Hacu) as (Hg & He & Hu & _).
    destruct (fs_alloc OS_PT_REG s) as [g s1]. cbn [fst snd] in *. split; [done|].
    exists g. split_and!; [lia.. | apply osmap_eq; lia | done].
  - destruct (user_entry_present _ Hnu) as [-> _]. cbn [negb fst snd].
    split; [apply (ext_weaken 0); [lia|]; by apply ext_refl|].
    exists (entry_pfn (ld64 (fs_ram s) (ent f k va))).
    pose proof (entry_pfn_range (ld64 (fs_ram s) (ent f k va))).
    split_and!; [lia.. | apply osmap_eq; lia|]. cbn [utable]. by rewrite Hf, Hnu.
Qed.

Lemma ptable_next_step : level_step ptable_next.
Proof.
  intros s root k va f Hok Hk Hf Hc Hav. cbn zeta. unfold ptable_next.
  specialize (Hc k f Hk Hf). cbn zeta in Hc.
  destruct (not_user (ld64 (fs_ram s) (ent f k va))) eqn:Hnu.
  - rewrite Hc. cbn [Z.eqb]. unfold PAGE_SHIFT.
    destruct (alloc_link s root k va f 7 Hok Hk Hf Hnu Hav ltac:(lia) eq_refl)
      as (Hg & He & Hu & Hown & Hz).
    destruct (fs_alloc OS_PT_REG s) as [g s1]. cbn [fst snd] in *.
    set (s2 := store64 _ _ s1) in *. rewrite (osmap_eq g) in * by lia.
    set (m3 := bzero (fs_ram s2) (4096 * g) PAGE_SIZE).
    assert (Heq : forall a, ld8 m3 a = ld8 (fs_ram s2) a).
    { intros a. unfold m3. rewrite ld8_bzero. unfold PAGE_SIZE. zcase; cbn; try done.
      symmetry. apply Hz. unfold in_frame. lia. }
    clearbody m3.
    destruct (ep_ok _ _ _ _ _ He) as [Hinv2 Hwf2].
    destruct (fl_store s2 OS_PT_REG g m3 Hinv2 Hown) as (Hinv3 & Ho3 & Hav3); [by intros a _|].
    assert (Hram : fs_ram (fs_set_ram m3 s2) = m3) by apply fl_set_ram.
    pose proof (same_tree_intro _ _ m3 _ Hwf2 (fun q a _ _ => Heq a)) as Hst.
    split.
    + apply (ext_trans 1 0 _ s2); [done|]. split; rewrite ?Hram, ?Hav3; try done.
      * split; [done|]. rewrite Hram. apply (pt_wf_same (own_pt s2) _ (fs_ram s2)); auto.
        intros q. apply Ho3.
      * by apply grown_same.
      * intros r q. apply Ho3.
      * intros wa. by rewrite (st_mapping _ _ _ Hst).
      * intros wa. apply (st_clear _ _ _ Hst).
      * apply (fl_next_store s2 OS_PT_REG g); [done..|]. by intros a _.
      * intros q Ht _. by apply (st_table _ _ _ Hst).
    + exists g. rewrite Hram. split_and!; [lia.. | done |]. by rewrite (st_utable _ _ _ Hst) by lia.
  - destruct (user_entry_present _ Hnu) as [_ Hne].
    destruct (Z.eqb_spec (ld64 (fs_ram s) (ent f k va)) 0); [done|]. cbn [fst snd].
    split; [apply (ext_weaken 0); [lia|]; by apply ext_refl|].
    exists (entry_pfn (ld64 (fs_ram s) (ent f k va))).
    pose proof (entry_pfn_range (ld64 (fs_ram s) (ent f k va))).
    pose proof (ld64_range (fs_ram s) (ent f k va)).
    split_and!; [lia.. | apply flag_mask_pfn; lia|]. cbn [utable]. by rewrite Hf, Hnu.
Qed.

(** The three upper levels of a path. *)
Lemma descend nx s root va base :
  level_step nx -> pt_ok s root -> path_clear (fs_ram s) root va ->
  (3 <= fl_avail s OS_PT_REG)%nat -> base = 4096 * root ->
  let r1 := nx (base + 8 * pgd_index va) s in
  let r2 := nx (r1.1 + 8 * pud_index va) r1.2 in
  let r3 := nx (r2.1 + 8 * pmd_index va) r2.2 in
  ext_post 3 s r3.2 root va /\
  exists f, 0 <= f < 2^32 /\ r3.1 = 4096 * f /\ utable (fs_ram r3.2) 3 root va = Some f.
Proof.
  intros Hnx Hok Hc Hav -> r1 r2 r3. destruct (indices va) as (E0 & E1 & E2 & _).
  destruct (Hnx s root 0%nat va root) as (P1 & g1 & _ & B1 & U1); [done|lia|done|done|lia|].
  unfold ent in P1, B1, U1. rewrite <- E0 in P1, B1, U1. fold r1 in P1, B1, U1.
  pose proof (ep_avail_pt _ _ _ _ _ P1).
  destruct (Hnx r1.2 root 1%nat va g1) as (P2 & g2 & _ & B2 & U2);
    [apply P1 | lia | done | by apply (ep_clear _ _ _ _ _ P1) | lia |].
  unfold ent in P2, B2, U2. rewrite <- E1, <- B1 in P2, B2, U2. fold r2 in P2, B2, U2.
  pose proof (ep_avail_pt _ _ _ _ _ P2).
  destruct (Hnx r2.2 root 2%nat va g2) as (P3 & g3 & G3 & B3 & U3);
    [apply P2 | lia | done | by apply (ep_clear _ _ _ _ _ P2), (ep_clear _ _ _ _ _ P1) | lia |].
  unfold ent in P3, B3, U3. rewrite <- E2, <- B2 in P3, B3, U3. fold r3 in P3, B3, U3.
  split; [|by exists g3]. apply (ext_trans 1 2 _ r1.2); [done|]. by apply (ext_trans 1 1 _ r2.2).
Qed.

(** ** The last level *)

(** The effect on an address space of giving the page of [va] the entry [e];
    [new] is the user frame taken for it, if one is, and [n] bounds the number
    of page-table frames taken. *)
Record map_post (n : nat) s s' (root va : Z) (e new : option Z) : Prop := {
  mp_ok : pt_ok s' root;
  mp_grown : grown (fs_ram s) (fs_ram s') root va;
  mp_mapping wa : mapping (fs_ram s') root wa =
    if decide (prefix 4 wa = prefix 4 va) then e else mapping (fs_ram s) root wa;
  mp_clear wa : path_clear (fs_ram s) root wa -> path_clear (fs_ram s') root wa;
  mp_owned r q : fl_owned s r q -> fl_owned s' r q;
  mp_user q : fl_owned s' USER_REG q <-> fl_owned s USER_REG q \/ new = Some q;
  mp_new q : new = Some q -> ~ fl_owned s USER_REG q;
  mp_avail_pt : (fl_avail s OS_PT_REG <= n + fl_avail s' OS_PT_REG)%nat;
  mp_next : fl_next s USER_REG = option_list new ++ fl_next s' USER_REG;
  mp_table q : is_table (fs_ram s') root q -> own_pt s q -> is_table (fs_ram s) root q;
  mp_frame r q a : fl_owned s r q -> (r = OS_PT_REG -> ~ is_table (fs_ram s) root q) ->
    in_frame q a -> ld8 (fs_ram s') a = ld8 (fs_ram s) a;
  mp_low a : low_memory a -> ld8 (fs_ram s') a = ld8 (fs_ram s) a
}.

Lemma mp_avail_user n s s' root va e new : map_post n s s' root va e new ->
  fl_avail s USER_REG = ((if new is Some _ then 1 else 0) + fl_avail s' USER_REG)%nat.
Proof. intros P. rewrite !fl_next_length, (mp_next _ _ _ _ _ _ _ P), length_app. by destruct new. Qed.

Lemma leaf_ok s root va f v :
  pt_ok s root -> utable (fs_ram s) 3 root va = Some f -> 0 <= v < 2^64 ->
  let s' := store64 (ent f 3 va) v s in
  utable (fs_ram s') 3 root va = Some f /\
  map_post 0 s s' root va (if not_user v then None else Some v) None.
Proof.
  intros [Hinv Hwf] Hf Hv s'.
  destruct (leaf_store _ _ _ va f v Hwf Hf Hv) as (Lwf & Lf & Lm).
  assert (Hof : own_pt s f) by (by apply (wf_own _ _ _ Hwf 3 va); [lia|]).
  assert (Hue : untouched (in_entry f 3 va) (fs_ram s) (st64 (fs_ram s) (ent f 3 va) v))
    by (by apply untouched_stn).
  destruct (fl_store s OS_PT_REG f (st64 (fs_ram s) (ent f 3 va) v)) as (Hinv' & Ho & Hav);
    [done..| |].
  { eapply untouched_weaken; [|exact Hue]. intros a. apply in_entry_frame. }
  assert (Hram : fs_ram s' = st64 (fs_ram s) (ent f 3 va) v) by apply fl_set_ram.
  rewrite <- Hram in Lwf, Lf, Lm, Hue. fold (store64 (ent f 3 va) v s) in Ho, Hav, Hinv'.
  fold s' in Ho, Hav, Hinv'. split; [exact Lf|]. split.
  - split; [exact Hinv'|]. by apply (pt_wf_same _ _ _ _ _ Lwf); [intros q; apply Ho|].
  - by apply (grown_leaf (own_pt s) _ _ _ _ f).
  - exact Lm.
  - intros wa Hc k g Hk E.
    rewrite (utable_other _ _ _ root Hwf 3 va f) in E by (done || lia || (left; lia)).
    rewrite (entry_other _ _ _ root Hwf 3 va f) by (done || lia || (left; lia)). by apply Hc.
  - intros r q. apply Ho.
  - intros q. rewrite Ho. intuition congruence.
  - done.
  - rewrite Hav. lia.
  - unfold s', store64. rewrite (fl_next_store s OS_PT_REG f); [done..|].
    eapply untouched_weaken; [|rewrite <- Hram; exact Hue]. intros a. apply in_entry_frame.
  - intros q (k & wa & Hk & E) _. exists k, wa. split; [done|]. rewrite <- E. symmetry.
    apply (utable_other _ _ _ root Hwf 3 va f); [lia | done | done | lia | left; lia].
  - intros r q a Hq Hnt Ha. apply Hue. intros Hin. apply in_entry_frame in Hin.
    assert (q = f) as -> by (by apply (frames_distinct q f a)).
    apply Hnt; [by apply (fl_region s r OS_PT_REG f) | by exists 3%nat, va].
  - intros a Ha. apply Hue. intros Hin%in_entry_frame. by apply (fl_high s OS_PT_REG f a).
Qed.

(** Taking a user frame does not change the tree. *)
Lemma alloc_user_ok s root :
  pt_ok s root -> (0 < fl_avail s USER_REG)%nat ->
  let q := (fs_alloc USER_REG s).1 in let s' := (fs_alloc USER_REG s).2 in
  pt_ok s' root /\ same_tree (fs_ram s) (fs_ram s') root /\ 0 <= q < 2^32 /\
  ~ fl_owned s USER_REG q /\
  (forall r' q', fl_owned s' r' q' <-> fl_owned s r' q' \/ (r' = USER_REG /\ q' = q)) /\
  fl_next s USER_REG = q :: fl_next s' USER_REG /\
  fl_avail s OS_PT_REG = fl_avail s' OS_PT_REG /\ frames_same fl_owned s (fs_ram s') /\
  (forall a, low_memory a -> ld8 (fs_ram s') a = ld8 (fs_ram s) a).
Proof.
  intros [Hinv Hwf] Hav q s'.
  destruct (fl_alloc s USER_REG Hinv Hav) as (Hinv' & Hn & Hq & Ho & Hav' & _ & Hfr).
  fold q s' in Hinv', Hn, Hq, Ho, Hav', Hfr.
  assert (Hs : forall f a, own_pt s f -> in_frame f a -> ld8 (fs_ram s') a = ld8 (fs_ram s) a)
    by (intros f a; apply Hfr).
  pose proof (fl_next_alloc s USER_REG USER_REG Hinv Hav) as HavU. pose proof (Hav' OS_PT_REG) as HavP.
  rewrite decide_True in HavU by done. rewrite decide_False in HavP by done.
  pose proof (fun a => fl_alloc_low s USER_REG a Hinv Hav) as Hlow.
  split; [split; [done|]; apply (pt_wf_same _ _ _ _ _ Hwf); [intros f Hf; apply Ho; auto | done]|].
  split; [by apply (same_tree_intro (own_pt s))|]. split; [|done].
  apply fl_range in Hq; [|done]. change (region_first USER_REG) with 25604 in Hq.
  change (region_pfn USER_REG + region_frames USER_REG) with 131072 in Hq. lia.
Qed.

(** Path, then user frame, then entry. *)
Lemma map_post_compose {n} s s1 s2 s3 root va e new :
  ext_post n s s1 root va ->
  same_tree (fs_ram s1) (fs_ram s2) root -> pt_ok s2 root ->
  (forall r q, fl_owned s2 r q <-> fl_owned s1 r q \/ (r = USER_REG /\ new = Some q)) ->
  (forall q, new = Some q -> ~ fl_owned s1 USER_REG q) ->
  fl_next s1 USER_REG = option_list new ++ fl_next s2 USER_REG ->
  fl_avail s1 OS_PT_REG = fl_avail s2 OS_PT_REG ->
  frames_same fl_owned s1 (fs_ram s2) -> (forall a, low_memory a -> ld8 (fs_ram s2) a = ld8 (fs_ram s1) a) ->
  map_post 0 s2 s3 root va e None -> map_post n s s3 root va e new.
Proof.
  intros P1 Hst Hok Ho Hnew HavU HavP Hfr Hlow P3. split.
  - apply P3.
  - eapply grown_trans; [apply P1|]. eapply grown_trans; [apply grown_same; exact Hst|]. apply P3.
  - intros wa. rewrite (mp_mapping _ _ _ _ _ _ _ P3), (st_mapping _ _ _ Hst). by rewrite (ep_mapping _ _ _ _ _ P1).
  - intros wa Hc. apply (mp_clear _ _ _ _ _ _ _ P3), (st_clear _ _ _ Hst). by apply (ep_clear _ _ _ _ _ P1).
  - intros r q Hq. apply (mp_owned _ _ _ _ _ _ _ P3), Ho. left. by apply (ep_owned _ _ _ _ _ P1).
  - intros q. rewrite (mp_user _ _ _ _ _ _ _ P3), Ho, (ep_user _ _ _ _ _ P1). intuition congruence.
  - intros q E Hq. apply (Hnew q E). by apply (ep_user _ _ _ _ _ P1).
  - pose proof (mp_avail_pt _ _ _ _ _ _ _ P3). pose proof (ep_avail_pt _ _ _ _ _ P1). lia.
  - rewrite <- (ep_next _ _ _ _ _ P1), HavU. by rewrite (mp_next _ _ _ _ _ _ _ P3).
  - intros q Ht Hq. pose proof (ep_owned _ _ _ _ _ P1 _ _ Hq) as Hq1.
    apply (ep_table _ _ _ _ _ P1); [|done]. apply (st_table _ _ _ Hst).
    apply (mp_table _ _ _ _ _ _ _ P3); [done|]. apply Ho. by left.
  - intros r q a Hq Hnt Ha.
    assert (Hq1 : fl_owned s1 r q) by (by apply (ep_owned _ _ _ _ _ P1)).
    rewrite (mp_frame _ _ _ _ _ _ _ P3 r q), (Hfr r q); [|done..| by apply Ho; left | |done].
    + by apply (ep_frame _ _ _ _ _ P1 r q).
    + intros -> Ht. apply Hnt; [done|]. apply (ep_table _ _ _ _ _ P1); [|done].
      by apply (st_table _ _ _ Hst).
  - intros a Ha. by rewrite (mp_low _ _ _ _ _ _ _ P3), Hlow, (ep_low _ _ _ _ _ P1).
Qed.
End spaces.
