(* ===== verification/PageMap.v ===== *)
(** * What the page-table routines do to an address space

    The theorems on [install_page_table], [install_ptable] and
    [do_unmap_user] (entry.c, context.c), over any frame allocator that obeys
    [FrameLaws]; their witnesses run on the allocator of memory.c after
    start-up. *)
From S2P Require Import Prelude Mem Lib Machine Memory PageAlloc Frames PageTable.
Local Open Scope gemos_scope.

(** The start-up state of the witnesses: one page-table frame is the root. *)
Definition fresh_root : Z := (os_pfn_alloc OS_PT_REG boot_mm).1.
Definition fresh_space : mm := (os_pfn_alloc OS_PT_REG boot_mm).2.

(** Two trees that share no table. *)
Definition disjoint_spaces (m : mem) (A B : Z) : Prop :=
  forall q, is_table m A q -> ~ is_table m B q.

(** Addresses of the same page have the same mapping. *)
Lemma mapping_prefix m root va wa : prefix 4 va = prefix 4 wa -> mapping m root va = mapping m root wa.
Proof.
  intros E. apply prefix_S_inj in E as [E1 E2]; [|lia]. unfold mapping.
  rewrite (utable_prefix m 3 root va wa) by (done || lia). unfold ent. by rewrite E2.
Qed.

Lemma prefix4 va : 0 <= va < 2^48 -> prefix 4 va = va / 4096.
Proof.
  intros Hv. unfold prefix. change (2 ^ (48 - 9 * Z.of_nat 4)) with 4096.
  apply Z.mod_small. change (2 ^ (9 * Z.of_nat 4)) with (2^36). zdm.
Qed.

Lemma mapping_page m root va wa :
  0 <= va < 2^48 -> 0 <= wa < 2^48 -> va / 4096 = wa / 4096 -> mapping m root va = mapping m root wa.
Proof. intros Hv Hw E. apply mapping_prefix. by rewrite !prefix4. Qed.

Section pagemap.
Context {S : Type} `{FrameLaws S}.
Implicit Types s : S.
Abbreviation own_pt s := (fl_owned s OS_PT_REG).

(** ** New address spaces *)

Lemma empty_tables m root k va :
  (forall a, in_frame root a -> ld8 m a = 0) ->
  utable m k root va = match k with O => Some root | _ => None end.
Proof.
  intros Hz. destruct k as [|k]; [done|].
  apply (utable_none m 1); [lia|]. cbn [utable].
  assert (E : ld64 m (ent root 0 va) = 0); [|by rewrite E].
  apply (ldn_zero 8). intros b Hb. by apply Hz, (in_entry_frame root 0 va).
Qed.

Lemma empty_space_tree s g :
  fl_inv s -> own_pt s g -> (forall a, in_frame g a -> ld8 (fs_ram s) a = 0) ->
  pt_ok s g /\ (forall va, mapping (fs_ram s) g va = None) /\
  (forall va, path_clear (fs_ram s) g va) /\ (forall q, is_table (fs_ram s) g q <-> q = g).
Proof.
  intros Hinv Ho Hz. pose proof (fun k va => empty_tables (fs_ram s) g k va Hz) as Ht.
  assert (Hg : 0 <= g < 2^32).
  { apply fl_range in Ho; [|done]. change (region_first OS_PT_REG) with 8193 in Ho.
    change (region_pfn OS_PT_REG + region_frames OS_PT_REG) with 25600 in Ho. lia. }
  split_and!.
  - split; [done|]. split; [done| |].
    + intros [|k] va f _; rewrite Ht; congruence.
    + intros [|k] va [|k'] va' f _ _; rewrite !Ht; try congruence.
      intros _ _. split; [done|]. unfold prefix. cbn. by rewrite !Z.mod_1_r.
  - intros va. unfold mapping. by rewrite Ht.
  - intros va [|k] f Hk; rewrite Ht; [|congruence]. intros [= <-]. cbn zeta.
    assert (E : ld64 (fs_ram s) (ent g 0 va) = 0); [|by rewrite E].
    apply (ldn_zero 8). intros b Hb. by apply Hz, (in_entry_frame g 0 va).
  - intros q. split.
    + intros ([|k] & va & _ & E); rewrite Ht in E; congruence.
    + intros ->. exists 0%nat, 0. split; [lia|done].
Qed.

(** ** The two ways to map a page *)

Lemma ac_flags_ok ec : 0 <= 5 .| (ec .& 2) < 4096 /\ not_user (5 .| (ec .& 2)) = false.
Proof.
  assert (E : ec .& 2 = 0 \/ ec .& 2 = 2); [|by destruct E as [-> | ->]].
  change 2 with (Z.shiftl 1 1). destruct (Z.testbit ec 1) eqn:Eb; [right|left];
    apply Z.bits_inj'; intros i Hi; rewrite Z.land_spec; change (Z.shiftl 1 1) with (2^1);
    rewrite ?Z.bits_0, Z.pow2_bits_eqb by done;
    destruct (Z.eqb_spec 1 i) as [<-|]; rewrite ?Eb, ?andb_false_r; done.
Qed.

(** Descend, take a frame for the page, write its entry. *)
Lemma map_fresh_leaf nx s root va fl base :
  level_step nx -> pt_ok s root -> path_clear (fs_ram s) root va ->
  (3 <= fl_avail s OS_PT_REG)%nat -> (0 < fl_avail s USER_REG)%nat ->
  0 <= fl < 4096 -> not_user fl = false -> base = 4096 * root ->
  let r1 := nx (base + 8 * pgd_index va) s in
  let r2 := nx (r1.1 + 8 * pud_index va) r1.2 in
  let r3 := nx (r2.1 + 8 * pmd_index va) r2.2 in
  let q := (fs_alloc USER_REG r3.2).1 in
  let s3 := (fs_alloc USER_REG r3.2).2 in
  0 <= q < 2^32 /\
  exists f, r3.1 + 8 * pte_index va = ent f 3 va /\ utable (fs_ram s3) 3 root va = Some f /\
  pt_ok s3 root /\
  forall s4, map_post 0 s3 s4 root va (Some (4096 * q + fl)) None ->
    map_post 3 s s4 root va (Some (4096 * q + fl)) (Some q).
Proof.
  intros Hnx Hok Hc Hpt Hus Hfl Hflu Hb r1 r2 r3 q s3.
  destruct (descend nx s root va base Hnx Hok Hc Hpt Hb) as (P & f & Hf & Ef & Uf).
  fold r1 r2 r3 in P, Ef, Uf.
  assert (Hus3 : (0 < fl_avail r3.2 USER_REG)%nat) by (rewrite (ep_avail_user _ _ _ _ _ P); done).
  destruct (alloc_user_ok r3.2 root (ep_ok _ _ _ _ _ P) Hus3)
    as (Hok3 & Hst & Hq & Hnq & Ho & HavU & HavP & Hfr & Hlow).
  fold q s3 in Hok3, Hst, Hq, Hnq, Ho, HavU, HavP, Hfr, Hlow.
  split; [done|]. exists f. split_and!; [| |done|].
  - destruct (indices va) as (_ & _ & _ & ->). by rewrite Ef.
  - by rewrite (st_utable _ _ _ Hst) by lia.
  - intros s4 P4. apply (map_post_compose s r3.2 s3 s4); try done.
    + intros r q'. rewrite Ho. intuition congruence.
    + by intros q' [= <-].
Qed.

Lemma install_page_table_post s root va ec :
  pt_ok s root -> path_clear (fs_ram s) root va ->
  (3 <= fl_avail s OS_PT_REG)%nat -> (0 < fl_avail s USER_REG)%nat ->
  exists q, map_post 3 s (install_page_table root va ec s) root va
              (Some (4096 * q + (5 .| (ec .& 2)))) (Some q).
Proof.
  intros Hok Hc Hpt Hus. destruct (ac_flags_ok ec) as [Hfl Hflu].
  destruct (map_fresh_leaf (next_table (5 .| (ec .& 2))) s root va _ (osmap root)
    (next_table_step _ Hfl Hflu) Hok Hc Hpt Hus Hfl Hflu) as (Hq & f & Ee & Uf & Hok3 & Hfin).
  { apply osmap_eq. destruct Hok as [_ Hwf]. pose proof (wf_root _ _ _ Hwf). lia. }
  unfold install_page_table.
  destruct (next_table _ (osmap root + _) s) as [b1 s1]; cbn [fst snd] in *.
  destruct (next_table _ (b1 + _) s1) as [b2 s2]; cbn [fst snd] in *.
  destruct (next_table _ (b2 + _) s2) as [b3 s3]; cbn [fst snd] in *.
  destruct (fs_alloc USER_REG s3) as [q s4]; cbn [fst snd] in *.
  exists q. apply Hfin. rewrite Ee. unfold PTE_SHIFT.
  destruct (entry_value q _ Hq Hfl) as (Ev & _ & En).
  destruct (leaf_ok s4 root va f (Z.lor (u64 (Z.shiftl q 12)) (5 .| (ec .& 2))) Hok3 Uf)
    as [_ Hl]; [rewrite Ev; lia|]. rewrite Ev, En, Hflu in Hl. rewrite Ev.
  by rewrite (Z.mul_comm q) in *.
Qed.

(** The flags [install_ptable] gives a page of segment [mm]. *)
Definition seg_flags (mm : mm_segment) : Z := if (seg_access_flags mm .& MM_WR) =? 0 then 5 else 7.

(** The last two stores of [install_ptable]. *)
Definition write_leaf (ptep upfn : Z) (mm : mm_segment) (s : S) : S :=
  let s := store64 ptep (u64 (upfn << PAGE_SHIFT) .| 5) s in
  if negb ((seg_access_flags mm .& MM_WR) =? 0)
  then store64 ptep (ld64 (fs_ram s) ptep .| 2) s else s.

Lemma map_post_again s s1 s2 root va e1 e2 :
  map_post 0 s s1 root va e1 None -> map_post 0 s1 s2 root va e2 None ->
  map_post 0 s s2 root va e2 None.
Proof.
  intros P1 P2. split.
  - apply P2.
  - exact (grown_trans _ _ _ _ _ (mp_grown _ _ _ _ _ _ _ P1) (mp_grown _ _ _ _ _ _ _ P2)).
  - intros wa. rewrite (mp_mapping _ _ _ _ _ _ _ P2), (mp_mapping _ _ _ _ _ _ _ P1).
    by case_decide.
  - intros wa Hc. by apply (mp_clear _ _ _ _ _ _ _ P2), (mp_clear _ _ _ _ _ _ _ P1).
  - intros r q Hq. by apply (mp_owned _ _ _ _ _ _ _ P2), (mp_owned _ _ _ _ _ _ _ P1).
  - intros q. rewrite (mp_user _ _ _ _ _ _ _ P2), (mp_user _ _ _ _ _ _ _ P1). intuition congruence.
  - done.
  - pose proof (mp_avail_pt _ _ _ _ _ _ _ P1). pose proof (mp_avail_pt _ _ _ _ _ _ _ P2). lia.
  - by rewrite (mp_next _ _ _ _ _ _ _ P1), (mp_next _ _ _ _ _ _ _ P2).
  - intros q Ht Hq. apply (mp_table _ _ _ _ _ _ _ P1); [|done].
    apply (mp_table _ _ _ _ _ _ _ P2); [done|]. by apply (mp_owned _ _ _ _ _ _ _ P1).
  - intros r q a Hq Hnt Ha. rewrite (mp_frame _ _ _ _ _ _ _ P2 r q); [| | |done].
    + by apply (mp_frame _ _ _ _ _ _ _ P1 r q).
    + by apply (mp_owned _ _ _ _ _ _ _ P1).
    + intros -> Ht. apply Hnt; [done|]. by apply (mp_table _ _ _ _ _ _ _ P1).
  - intros a Ha. by rewrite (mp_low _ _ _ _ _ _ _ P2), (mp_low _ _ _ _ _ _ _ P1).
Qed.

Lemma write_leaf_ok s root va f q mm :
  pt_ok s root -> utable (fs_ram s) 3 root va = Some f -> 0 <= q < 2^32 ->
  map_post 0 s (write_leaf (ent f 3 va) q mm s) root va (Some (4096 * q + seg_flags mm)) None.
Proof.
  intros Hok Uf Hq. unfold write_leaf, seg_flags, PAGE_SHIFT.
  destruct (entry_value q 5 Hq ltac:(lia)) as (E5 & _ & N5).
  destruct (entry_value q 7 Hq ltac:(lia)) as (E7 & _ & N7).
  destruct (leaf_ok s root va f (Z.lor (u64 (Z.shiftl q 12)) 5) Hok Uf) as [U1 P1];
    [rewrite E5; lia|].
  replace (4096 * q) with (q * 4096) by lia.
  assert (P1' : map_post 0 s (store64 (ent f 3 va) (Z.lor (u64 (Z.shiftl q 12)) 5) s) root va
                  (Some (q * 4096 + 5)) None) by (rewrite E5, N5 in P1; by rewrite E5).
  set (s1 := store64 _ _ s) in *. destruct (seg_access_flags mm .& MM_WR =? 0); [done|].
  apply (map_post_again _ s1 _ _ _ _ _ P1').
  assert (El : ld64 (fs_ram s1) (ent f 3 va) = Z.lor (u64 (Z.shiftl q 12)) 5).
  { unfold s1, store64. rewrite fl_set_ram. apply ld64_st64_eq. rewrite E5. lia. }
  assert (E57 : Z.lor (Z.lor (u64 (Z.shiftl q 12)) 5) 2 = q * 4096 + 7)
    by (rewrite <- Z.lor_assoc; exact E7).
  cbn [negb]. rewrite El, E57.
  destruct (leaf_ok s1 root va f (q * 4096 + 7) (mp_ok _ _ _ _ _ _ _ P1) U1) as [_ P2]; [lia|].
  by rewrite N7 in P2.
Qed.

(** The address [install_ptable] maps: 0 stands for the segment's start. *)
Definition ptable_address (mm : mm_segment) (address : Z) : Z :=
  if address =? 0 then seg_start mm else address.

Lemma install_ptable_fresh s root mm address :
  let va := ptable_address mm address in
  pt_ok s root -> path_clear (fs_ram s) root va ->
  (3 <= fl_avail s OS_PT_REG)%nat -> (0 < fl_avail s USER_REG)%nat ->
  let r := install_ptable (4096 * root) mm address 0 s in
  map_post 3 s r.2 root va (Some (4096 * r.1 + seg_flags mm)) (Some r.1).
Proof.
  intros va Hok Hc Hpt Hus.
  assert (Hfl : 0 <= seg_flags mm < 4096 /\ not_user (seg_flags mm) = false)
    by (unfold seg_flags; by case_match).
  destruct Hfl as [Hfl Hflu].
  destruct (map_fresh_leaf ptable_next s root va _ (4096 * root) ptable_next_step
    Hok Hc Hpt Hus Hfl Hflu eq_refl) as (Hq & f & Ee & Uf & Hok3 & Hfin).
  unfold install_ptable. fold (ptable_address mm address). fold va.
  destruct (ptable_next (4096 * root + _) s) as [b1 s1]; cbn [fst snd] in *.
  destruct (ptable_next (b1 + _) s1) as [b2 s2]; cbn [fst snd] in *.
  destruct (ptable_next (b2 + _) s2) as [b3 s3]; cbn [fst snd] in *.
  cbn [Z.eqb]. destruct (fs_alloc USER_REG s3) as [q s4]; cbn [fst snd] in *.
  apply Hfin. rewrite Ee. by apply write_leaf_ok.
Qed.

Lemma install_ptable_given s root mm address upfn :
  let va := ptable_address mm address in
  pt_ok s root -> path_clear (fs_ram s) root va ->
  (3 <= fl_avail s OS_PT_REG)%nat -> 0 < upfn < 2^32 ->
  let r := install_ptable (4096 * root) mm address upfn s in
  r.1 = upfn /\ map_post 3 s r.2 root va (Some (4096 * upfn + seg_flags mm)) None.
Proof.
  intros va Hok Hc Hpt Hq.
  destruct (descend ptable_next s root va (4096 * root) ptable_next_step Hok Hc Hpt eq_refl)
    as (P & f & Hf & Ef & Uf).
  destruct (indices va) as (_ & _ & _ & E3).
  unfold install_ptable. fold (ptable_address mm address). fold va.
  destruct (ptable_next (4096 * root + _) s) as [b1 s1]; cbn [fst snd] in *.
  destruct (ptable_next (b1 + _) s1) as [b2 s2]; cbn [fst snd] in *.
  destruct (ptable_next (b2 + _) s2) as [b3 s3]; cbn [fst snd] in *.
  destruct (Z.eqb_spec upfn 0) as [->|_]; [lia|]. cbn [fst snd]. split; [done|].
  rewrite Ef, E3. fold (ent f 3 va).
  apply (map_post_compose s s3 s3); try done.
  - apply P.
  - intros r q'. intuition congruence.
  - apply write_leaf_ok; [apply P | done | lia].
Qed.

(** ** Several address spaces *)

Lemma map_post_other n s s' A B va e new :
  map_post n s s' A va e new -> pt_ok s A -> pt_ok s B -> disjoint_spaces (fs_ram s) A B ->
  pt_ok s' B /\ disjoint_spaces (fs_ram s') A B /\
  same_tree (fs_ram s) (fs_ram s') B.
Proof.
  intros P [_ HA] [_ HB] Hd.
  assert (Htb : forall q, is_table (fs_ram s) B q -> own_pt s q)
    by (intros q (k & wa & Hk & E); by apply (wf_own _ _ _ HB k wa)).
  assert (Hown : pt_wf (is_table (fs_ram s) B) (fs_ram s) B).
  { split; [apply HB | | apply HB]. intros k wa f Hk E. by exists k, wa. }
  assert (Hs : forall q a, is_table (fs_ram s) B q -> in_frame q a ->
    ld8 (fs_ram s') a = ld8 (fs_ram s) a).
  { intros q a Hq Ha. apply (mp_frame _ _ _ _ _ _ _ P OS_PT_REG q); [by apply Htb | | done].
    intros _ Ht. by apply (Hd q). }
  pose proof (same_tree_intro _ _ _ _ Hown Hs) as Hst. split_and!; [|intros q HqA HqB|done].
  - split; [apply P|]. apply (pt_wf_same (is_table (fs_ram s) B) _ (fs_ram s)); [done| |done].
    intros q Hq. by apply (mp_owned _ _ _ _ _ _ _ P), Htb.
  - apply (st_table _ _ _ Hst) in HqB. apply (Hd q); [|done].
    apply (mp_table _ _ _ _ _ _ _ P); [done|]. by apply Htb.
Qed.

(** ** Removing a page *)

(** The effect of taking the page of [va] and its frame [q] away. *)
Record unmap_post s s' (root va q : Z) : Prop := {
  up_ok : pt_ok s' root;
  up_mapping wa : mapping (fs_ram s') root wa =
    if decide (prefix 4 wa = prefix 4 va) then None else mapping (fs_ram s) root wa;
  up_owned r f : fl_owned s' r f <-> fl_owned s r f /\ ~ (r = USER_REG /\ f = q);
  up_clear wa : path_clear (fs_ram s) root wa -> path_clear (fs_ram s') root wa;
  up_frame r f a : fl_owned s r f -> (r = OS_PT_REG -> ~ is_table (fs_ram s) root f) ->
    in_frame f a -> ld8 (fs_ram s') a = ld8 (fs_ram s) a
}.

Lemma mapping_leaf m root va e :
  mapping m root va = Some e ->
  exists f, utable m 3 root va = Some f /\ ld64 m (ent f 3 va) = e /\ not_user e = false.
Proof.
  unfold mapping. destruct (utable m 3 root va) as [f|]; [|done].
  destruct (not_user _) eqn:E; [done|]. intros [= <-]. by exists f.
Qed.

(** An entry's address is not NULL when its table is an allocated frame. *)
Lemma ent_pos s f k va : fl_inv s -> own_pt s f -> 0 < ent f k va.
Proof.
  intros Hinv Ho. apply fl_range in Ho; [|done]. change (region_first OS_PT_REG) with 8193 in Ho.
  unfold ent. pose proof (idx_range k va). lia.
Qed.

Lemma do_unmap_user_mapped s root va e :
  pt_ok s root -> mapping (fs_ram s) root va = Some e -> fl_owned s USER_REG (entry_pfn e) ->
  let r := do_unmap_user root va s in
  r.1 = 0 /\ unmap_post s r.2 root va (entry_pfn e).
Proof.
  intros [Hinv Hwf] Hm Ho. destruct (mapping_leaf _ _ _ _ Hm) as (f & Uf & Ee & Nf).
  assert (Hof : own_pt s f) by (by apply (wf_own _ _ _ Hwf 3 va); [lia|]).
  unfold do_unmap_user. rewrite (get_user_pte_walk _ _ _ (wf_root _ _ _ Hwf)), Uf, Ee, Nf.
  pose proof (ent_pos s f 3 va Hinv Hof). destruct (Z.eqb_spec (ent f 3 va) 0); [lia|].
  rewrite Ee. cbn zeta. cbn [fst snd]. split; [done|].
  destruct (fl_free s USER_REG (entry_pfn e) Hinv Ho) as (Hinv1 & Ho1 & _ & Hfr).
  set (s1 := fs_free USER_REG (entry_pfn e) s) in *.
  assert (Hpt : forall g, own_pt s1 g <-> own_pt s g) by (intros g; rewrite Ho1; intuition congruence).
  assert (Hs : forall g a, own_pt s g -> in_frame g a -> ld8 (fs_ram s1) a = ld8 (fs_ram s) a)
    by (intros g a; apply Hfr).
  pose proof (same_tree_intro _ _ _ _ Hwf Hs) as Hst.
  assert (Hok1 : pt_ok s1 root).
  { split; [done|]. by apply (pt_wf_same _ _ _ _ _ Hwf); [intros g Hg; apply Hpt|]. }
  destruct (leaf_ok s1 root va f 0 Hok1) as [_ P]; [by rewrite (st_utable _ _ _ Hst) by lia | lia|].
  cbn [not_user Z.land Z.eqb orb] in P. set (s2 := store64 (ent f 3 va) 0 s1) in *.
  destruct (fl_emit (EInvlpg va) s2) as (Hinv3 & Ho3 & _); [apply P|].
  assert (Ho2 : forall r g, fl_owned s2 r g <-> fl_owned s1 r g).
  { destruct (fl_store s1 OS_PT_REG f (st64 (fs_ram s1) (ent f 3 va) 0) Hinv1) as (_ & E & _);
      [by apply Hpt | apply untouched_stn; intros b Hb; by apply (in_entry_frame f 3 va) | exact E]. }
  split; rewrite ?fl_emit_ram.
  - split; [done|]. rewrite fl_emit_ram. destruct (mp_ok _ _ _ _ _ _ _ P) as [_ Hwf2].
    apply (pt_wf_same _ _ _ _ _ Hwf2); [intros g Hg; by apply Ho3 | done].
  - intros wa. by rewrite (mp_mapping _ _ _ _ _ _ _ P), (st_mapping _ _ _ Hst).
  - intros r g. by rewrite Ho3, Ho2, Ho1.
  - intros wa Hc. by apply (mp_clear _ _ _ _ _ _ _ P), (st_clear _ _ _ Hst).
  - intros r g a Hg Hnt Ha. destruct (decide (r = USER_REG /\ g = entry_pfn e)) as [[-> ->]|Hne].
    + transitivity (ld8 (fs_ram s1) a); [|by apply (Hfr USER_REG (entry_pfn e))].
      unfold s2, store64. rewrite fl_set_ram.
      apply (untouched_stn (in_entry f 3 va)); [by intros ? ?|]. intros Hin. apply in_entry_frame in Hin.
      rewrite (frames_distinct _ _ _ Ha Hin) in Ho. by discriminate (fl_region s USER_REG OS_PT_REG f Hinv Ho Hof).
    + rewrite (mp_frame _ _ _ _ _ _ _ P r g); [by apply (Hfr r g) | by apply Ho1 | |done].
      intros -> Ht. apply Hnt; [done|]. by apply (st_table _ _ _ Hst).
Qed.

(** ** Properties *)

Lemma get_user_pte_correct_ok s root va :
  pt_ok s root ->
  match mapping (fs_ram s) root va with
  | Some e => get_user_pte (fs_ram s) root va <> 0 /\ ld64 (fs_ram s) (get_user_pte (fs_ram s) root va) = e
  | None => get_user_pte (fs_ram s) root va = 0
  end.
Proof.
  intros [Hinv Hwf]. rewrite (get_user_pte_walk _ _ _ (wf_root _ _ _ Hwf)). unfold mapping.
  destruct (utable (fs_ram s) 3 root va) as [f|] eqn:Uf; [|done].
  destruct (not_user (ld64 (fs_ram s) (ent f 3 va))); [done|]. split; [|done].
  pose proof (ent_pos s f 3 va Hinv (wf_own _ _ _ Hwf 3 va f ltac:(lia) Uf)). lia.
Qed.

(** [get_user_pte] finds the page-table entry of exactly the user-mapped
    addresses: the entry it points to is the mapping, and NULL means none. *)
Theorem get_user_pte_correct s root va :
  pt_ok s root ->
  match mapping (fs_ram s) root va with
  | Some e => get_user_pte (fs_ram s) root va <> 0 /\ ld64 (fs_ram s) (get_user_pte (fs_ram s) root va) = e
  | None => get_user_pte (fs_ram s) root va = 0
  end.
Proof. exact (get_user_pte_correct_ok s root va). Qed.

(** C6: a page fault handled by [install_page_table] maps exactly the page of
    the address, to a user frame that nobody owned, with the present and user
    bits and the write bit of the fault's error code; it changes no other
    mapping, no owned frame outside the tree's tables, and takes at most three
    page-table frames. *)
Theorem install_page_table_maps s root va error_code :
  pt_ok s root -> path_clear (fs_ram s) root va ->
  (3 <= fl_avail s OS_PT_REG)%nat -> (0 < fl_avail s USER_REG)%nat ->
  exists q, map_post 3 s (install_page_table root va error_code s) root va
              (Some (4096 * q + (5 .| (error_code .& 2)))) (Some q).
Proof. apply install_page_table_post. Qed.

(** C21: [install_ptable] maps exactly the page of the address (the segment's
    start when it is 0), writable iff the segment is, to the frame it is given
    or, when that is 0, to a fresh user frame, which it returns. *)
Theorem install_ptable_maps s root mm address upfn :
  let va := ptable_address mm address in
  pt_ok s root -> path_clear (fs_ram s) root va ->
  (3 <= fl_avail s OS_PT_REG)%nat -> (0 < fl_avail s USER_REG)%nat -> 0 <= upfn < 2^32 ->
  let r := install_ptable (4096 * root) mm address upfn s in
  map_post 3 s r.2 root va (Some (4096 * r.1 + seg_flags mm))
    (if upfn =? 0 then Some r.1 else None) /\
  (upfn <> 0 -> r.1 = upfn).
Proof.
  intros va Hok Hc Hpt Hus Hq. cbn zeta. destruct (Z.eqb_spec upfn 0) as [->|Hne].
  - split; [|done]. by apply install_ptable_fresh.
  - destruct (install_ptable_given s root mm address upfn Hok Hc Hpt ltac:(lia)) as [-> P]. done.
Qed.

(** C20: [do_unmap_user] answers -1 and changes nothing for an address without
    a user mapping; otherwise it removes that mapping alone, frees its frame
    alone, and leaves the contents of the other frames as they were. *)
Theorem do_unmap_user_spec s root va :
  pt_ok s root ->
  (forall e, mapping (fs_ram s) root va = Some e -> fl_owned s USER_REG (entry_pfn e)) ->
  match mapping (fs_ram s) root va with
  | None => do_unmap_user root va s = (-1, s)
  | Some e => (do_unmap_user root va s).1 = 0 /\
              unmap_post s (do_unmap_user root va s).2 root va (entry_pfn e)
  end.
Proof.
  intros Hok Ho. destruct (mapping (fs_ram s) root va) as [e|] eqn:Em.
  - apply do_unmap_user_mapped; auto.
  - destruct Hok as [_ Hwf]. unfold do_unmap_user.
    rewrite (get_user_pte_walk _ _ _ (wf_root _ _ _ Hwf)). unfold mapping in Em.
    destruct (utable (fs_ram s) 3 root va) as [f|]; [|done]. by destruct (not_user _).
Qed.

(** C27: unmapping the page that a page fault has mapped gives back the frame
    and leaves exactly the user frames and the mappings of before. *)
Theorem page_fault_unmap_roundtrip s root va error_code :
  pt_ok s root -> path_clear (fs_ram s) root va -> mapping (fs_ram s) root va = None ->
  (3 <= fl_avail s OS_PT_REG)%nat -> (0 < fl_avail s USER_REG)%nat ->
  let r := do_unmap_user root va (install_page_table root va error_code s) in
  r.1 = 0 /\ pt_ok r.2 root /\ (forall q, fl_owned r.2 USER_REG q <-> fl_owned s USER_REG q) /\
  (forall wa, mapping (fs_ram r.2) root wa = mapping (fs_ram s) root wa).
Proof.
  intros Hok Hc Hm Hpt Hus. destruct (install_page_table_post s root va error_code) as [q P]; [done..|].
  set (s1 := install_page_table root va error_code s) in *.
  assert (Hq : 0 <= q < 2^32).
  { assert (Ho : fl_owned s1 USER_REG q) by (apply (mp_user _ _ _ _ _ _ _ P); auto).
    apply fl_range in Ho; [|apply P]. change (region_first USER_REG) with 25604 in Ho.
    change (region_pfn USER_REG + region_frames USER_REG) with 131072 in Ho. lia. }
  destruct (ac_flags_ok error_code) as [Hfl _]. destruct (entry_value q _ Hq Hfl) as (_ & Ep & _).
  assert (Em : mapping (fs_ram s1) root va = Some (q * 4096 + (5 .| (error_code .& 2)))).
  { rewrite (mp_mapping _ _ _ _ _ _ _ P), decide_True by done. by rewrite Z.mul_comm. }
  destruct (do_unmap_user_mapped s1 root va _ (mp_ok _ _ _ _ _ _ _ P) Em) as [Hr U].
  { rewrite Ep. apply (mp_user _ _ _ _ _ _ _ P). auto. }
  rewrite Ep in U. pose proof (mp_new _ _ _ _ _ _ _ P q eq_refl) as Hn. split_and!; [done | apply U | |].
  - intros q'. rewrite (up_owned _ _ _ _ _ U), (mp_user _ _ _ _ _ _ _ P).
    split; [intros [[?|[= ->]] Hne]; [done|by destruct Hne]|]. intros ?. split; [auto|]. by intros [_ ->].
  - intros wa. rewrite (up_mapping _ _ _ _ _ U), (mp_mapping _ _ _ _ _ _ _ P). case_decide as E; [|done].
    rewrite <- Hm. unfold mapping. apply prefix_S_inj in E as [E1 E2]; [|lia].
    rewrite (utable_prefix _ 3 root wa va) by (done || lia). unfold ent. by rewrite E2.
Qed.

(** C7: processes are isolated: a page fault in one address space changes no
    mapping and no table of another that shares no table with it, and they
    still share none afterwards. *)
Theorem page_fault_isolation s A B va error_code :
  pt_ok s A -> pt_ok s B -> disjoint_spaces (fs_ram s) A B -> path_clear (fs_ram s) A va ->
  (3 <= fl_avail s OS_PT_REG)%nat -> (0 < fl_avail s USER_REG)%nat ->
  let s' := install_page_table A va error_code s in
  pt_ok s' A /\ pt_ok s' B /\ disjoint_spaces (fs_ram s') A B /\
  (forall wa, mapping (fs_ram s') B wa = mapping (fs_ram s) B wa) /\
  (forall wa, path_clear (fs_ram s') B wa <-> path_clear (fs_ram s) B wa).
Proof.
  intros HA HB Hd Hc Hpt Hus s'.
  destruct (install_page_table_post s A va error_code) as [q P]; [done..|]. fold s' in P.
  destruct (map_post_other _ _ _ _ B _ _ _ P HA HB Hd) as (HB' & Hd' & Hst).
  split_and!; [apply P | done | done | apply Hst | apply Hst].
Qed.
End pagemap.

(** ** Concrete address spaces for the witnesses *)

Lemma fresh_space_post : alloc_post OS_PT_REG boot_mm fresh_root fresh_space.
Proof. apply (os_pfn_alloc_ok OS_PT_REG boot_mm boot_mm_inv (boot_available _)). Qed.

Lemma fresh_space_tree :
  pt_ok fresh_space fresh_root /\ (forall va, mapping (fs_ram fresh_space) fresh_root va = None) /\
  (forall va, path_clear (fs_ram fresh_space) fresh_root va) /\
  (forall q, is_table (fs_ram fresh_space) fresh_root q <-> q = fresh_root).
Proof.
  apply (empty_space_tree fresh_space fresh_root).
  - apply (ap_inv _ _ _ _ fresh_space_post).
  - apply (ap_owned _ _ _ _ fresh_space_post). right; split; reflexivity.
  - by apply (ap_zero _ _ _ _ fresh_space_post).
Qed.

Definition fresh_space_ok := proj1 fresh_space_tree.
Definition fresh_space_clear := proj1 (proj2 (proj2 fresh_space_tree)).

Lemma alloc_avail r s q s' :
  alloc_post r s q s' ->
  available s r = Datatypes.S (available s' r) /\
  forall r', r' <> r -> available s' r' = available s r'.
Proof.
  intros P. pose proof (ap_avail _ _ _ _ P) as Ha. split.
  - rewrite (Ha r). by rewrite decide_True.
  - intros r' Hr. rewrite (Ha r'). by rewrite decide_False.
Qed.

Lemma fresh_space_available :
  (100 <= available fresh_space OS_PT_REG)%nat /\ (100 <= available fresh_space USER_REG)%nat.
Proof.
  destruct (alloc_avail _ _ _ _ fresh_space_post) as [Hp Hu].
  specialize (Hu USER_REG ltac:(discriminate)).
  pose proof (available_init_pagelists reset_mm OS_PT_REG bitmaps_zero_reset) as Bp.
  pose proof (available_init_pagelists reset_mm USER_REG bitmaps_zero_reset) as Bu.
  fold boot_mm in Bp, Bu. revert Hp Hu Bp Bu. generalize (available boot_mm OS_PT_REG) (available boot_mm USER_REG)
    (available fresh_space OS_PT_REG) (available fresh_space USER_REG). clear. lia.
Qed.

Lemma fresh_space_avail_pt : (3 <= fl_avail fresh_space OS_PT_REG)%nat.
Proof. change (fl_avail fresh_space OS_PT_REG) with (available fresh_space OS_PT_REG). pose proof (proj1 fresh_space_available). lia. Qed.

Lemma fresh_space_avail_user : (0 < fl_avail fresh_space USER_REG)%nat.
Proof. exact (Nat.lt_le_trans _ _ _ (Nat.lt_0_succ 99) (proj2 fresh_space_available)). Qed.

(** A second root: two empty address spaces. *)
Definition second_root : Z := (os_pfn_alloc OS_PT_REG fresh_space).1.
Definition two_spaces : mm := (os_pfn_alloc OS_PT_REG fresh_space).2.

Lemma two_spaces_ok :
  pt_ok two_spaces fresh_root /\ pt_ok two_spaces second_root /\
  disjoint_spaces (fs_ram two_spaces) second_root fresh_root /\
  (forall va, path_clear (fs_ram two_spaces) second_root va) /\
  (3 <= available two_spaces OS_PT_REG)%nat /\ (0 < available two_spaces USER_REG)%nat.
Proof.
  destruct fresh_space_tree as ([Hinv Hwf] & _ & _ & Ht). destruct fresh_space_available as [Hav Hus].
  assert (P : alloc_post OS_PT_REG fresh_space second_root two_spaces)
    by exact (os_pfn_alloc_ok OS_PT_REG fresh_space Hinv (Nat.lt_le_trans _ _ _ (Nat.lt_0_succ 99) Hav)).
  destruct (empty_space_tree two_spaces second_root) as (Hok2 & _ & Hc2 & Ht2).
  { apply P. } { apply (ap_owned _ _ _ _ P). right; split; reflexivity. } { by apply (ap_zero _ _ _ _ P). }
  assert (Hs : forall q a, fl_owned fresh_space OS_PT_REG q -> in_frame q a ->
    ld8 (fs_ram two_spaces) a = ld8 (fs_ram fresh_space) a).
  { intros q a Hq Ha. apply (ap_ram _ _ _ _ P). intros [Hb|[_ Hin]].
    - by apply (owned_not_bitmap fresh_space OS_PT_REG OS_PT_REG q a).
    - apply (ap_fresh _ _ _ _ P). by rewrite <- (frames_distinct q _ _ Ha Hin). }
  pose proof (same_tree_intro _ _ _ _ Hwf Hs) as Hst.
  destruct (alloc_avail _ _ _ _ P) as [Hp Hu]. specialize (Hu USER_REG ltac:(discriminate)).
  rewrite <- Hu in Hus. apply (Nat.lt_le_trans _ _ _ (Nat.lt_0_succ 99)) in Hus. split; [|split; [exact Hok2 | split; [|split; [exact Hc2 |]]]].
  - split; [apply P|]. apply (pt_wf_same _ _ _ _ _ Hwf); [|done].
    intros q Hq. apply (ap_owned _ _ _ _ P). by left.
  - intros q Hq. rewrite Ht2 in Hq. subst q. rewrite (st_table _ _ _ Hst), Ht. intros E.
    apply (ap_fresh _ _ _ _ P). rewrite E. apply (ap_owned _ _ _ _ fresh_space_post). right; split; reflexivity.
  - split; [|exact Hus]. revert Hp Hav. generalize (available fresh_space OS_PT_REG)
      (available two_spaces OS_PT_REG). clear. lia.
Qed.

(** ** Witnesses *)

Lemma install_page_table_maps_witness : exists q,
  map_post 3 fresh_space (install_page_table fresh_root 0x180001000 6 fresh_space) fresh_root
    0x180001000 (Some (4096 * q + 7)) (Some q).
Proof.
  apply (install_page_table_maps fresh_space fresh_root 0x180001000 6).
  - exact fresh_space_ok.
  - exact (fresh_space_clear _).
  - exact fresh_space_avail_pt.
  - exact fresh_space_avail_user.
Defined.

Definition text_segment : mm_segment := MMSegment 0x100000000 0x140000000 0x100001000 (MM_RD .| MM_WR).

Lemma install_ptable_maps_witness :
  let r := install_ptable (4096 * fresh_root) text_segment 0 0 fresh_space in
  map_post 3 fresh_space r.2 fresh_root 0x100000000 (Some (4096 * r.1 + 7)) (Some r.1).
Proof.
  apply (install_ptable_maps fresh_space fresh_root text_segment 0 0); [exact fresh_space_ok | exact (fresh_space_clear _) | | | done].
  - exact fresh_space_avail_pt.
  - exact fresh_space_avail_user.
Defined.

Lemma get_user_pte_correct_witness : get_user_pte (fs_ram fresh_space) fresh_root 0x180001000 = 0.
Proof.
  pose proof (get_user_pte_correct fresh_space fresh_root 0x180001000 (proj1 fresh_space_tree)) as E.
  by rewrite (proj1 (proj2 fresh_space_tree)) in E.
Defined.

(** The start-up space with one page mapped. *)
Definition one_page_space : mm := install_page_table fresh_root 0x180001000 6 fresh_space.

Lemma one_page_space_ok : exists q,
  pt_ok one_page_space fresh_root /\
  mapping (fs_ram one_page_space) fresh_root 0x180001000 = Some (4096 * q + 7) /\
  fl_owned one_page_space USER_REG (entry_pfn (4096 * q + 7)).
Proof.
  destruct (install_page_table_post fresh_space fresh_root 0x180001000 6) as [q P].
  - exact fresh_space_ok.
  - exact (fresh_space_clear _).
  - exact fresh_space_avail_pt.
  - exact fresh_space_avail_user.
  - exists q. split; [apply P|]. split; [rewrite (mp_mapping _ _ _ _ _ _ _ P); by rewrite decide_True|].
    assert (Ho : fl_owned one_page_space USER_REG q) by (apply (mp_user _ _ _ _ _ _ _ P); auto).
    rewrite (Z.mul_comm 4096). destruct (entry_value q 7) as (_ & -> & _); [|lia|done].
    apply fl_range in Ho; [|apply P]. change (region_first USER_REG) with 25604 in Ho.
    change (region_pfn USER_REG + region_frames USER_REG) with 131072 in Ho. lia.
Qed.

Lemma do_unmap_user_spec_witness :
  (do_unmap_user fresh_root 0x180001000 one_page_space).1 = 0 /\
  do_unmap_user fresh_root 0x180001000 fresh_space = (-1, fresh_space).
Proof.
  destruct one_page_space_ok as (q & Hok & Hm & Ho). destruct fresh_space_tree as (Hok0 & Hm0 & _).
  pose proof (do_unmap_user_spec one_page_space fresh_root 0x180001000 Hok) as H1.
  pose proof (do_unmap_user_spec fresh_space fresh_root 0x180001000 Hok0) as H0.
  rewrite Hm in H1. rewrite Hm0 in H0. split; [|exact (H0 (fun e E => ltac:(discriminate E)))].
  destruct H1 as [H1 _]; [|exact H1]. intros e E. injection E as <-. exact Ho.
Defined.

Lemma page_fault_unmap_roundtrip_witness :
  mapping (fs_ram (do_unmap_user fresh_root 0x180001000
    (install_page_table fresh_root 0x180001000 6 fresh_space)).2) fresh_root 0x180001000 = None.
Proof.
  destruct fresh_space_tree as (Hok & Hm & Hc & _). rewrite <- (Hm 0x180001000).
  pose proof (page_fault_unmap_roundtrip fresh_space fresh_root 0x180001000 6 Hok (Hc _) (Hm _)
    fresh_space_avail_pt fresh_space_avail_user) as (_ & _ & _ & E). exact (E 0x180001000).
Defined.

Lemma page_fault_isolation_witness :
  mapping (fs_ram (install_page_table second_root 0x180001000 6 two_spaces)) fresh_root 0x180001000
    = mapping (fs_ram two_spaces) fresh_root 0x180001000.
Proof.
  destruct two_spaces_ok as (HB & HA & Hd & Hc & Hp & Hu).
  pose proof (page_fault_isolation two_spaces second_root fresh_root 0x180001000 6 HA HB Hd (Hc _) Hp Hu)
    as (_ & _ & _ & Hm & _). exact (Hm 0x180001000).
Defined.
