(* ===== verification/Pages.v ===== *)
(** * Mapping several pages

    [maps n s s' root l]: from [s] to [s'] the pages of the list [l] were mapped
    in the space of [root], each to a user frame taken for it.  The list holds
    the address, the entry and the frame of each page, in order.
    [install_ptable_multi] (context.c) maps consecutive pages. *)
From S2P Require Import Prelude Mem Lib Machine Memory PageAlloc Frames PageTable PageMap.
#[local] Open Scope gemos_scope.

Definition page : Type := Z * Z * Z.
Definition page_frame (p : page) : Z := p.2.

(** The entry of the page of [wa] after the pages of [l] were mapped. *)
Fixpoint page_entry (l : list page) (wa : Z) (old : option Z) : option Z :=
  match l with
  | [] => old
  | (va, e, _) :: l => page_entry l wa (if decide (prefix 4 wa = prefix 4 va) then Some e else old)
  end.

Lemma page_entry_app l1 l2 wa old : page_entry (l1 ++ l2) wa old = page_entry l2 wa (page_entry l1 wa old).
Proof. revert old. induction l1 as [|[[va e] q] l1 IH]; intros old; [done|]. apply IH. Qed.

(** [n] consecutive pages in consecutive frames. *)
Fixpoint consecutive (n : nat) (va q fl : Z) : list page :=
  match n with O => [] | S n => (va, 4096 * q + fl, q) :: consecutive n (va + 4096) (q + 1) fl end.

Lemma consecutive_frames n va q fl : page_frame <$> consecutive n va q fl = seqZ q (Z.of_nat n).
Proof.
  revert va q. induction n as [|n IH]; intros va q; [done|]. cbn [consecutive]. rewrite fmap_cons, IH.
  rewrite (seqZ_cons q) by lia. f_equal. f_equal; lia.
Qed.

Lemma page_entry_consecutive n va q fl wa old :
  0 <= va -> va mod 4096 = 0 -> va + 4096 * Z.of_nat n <= 2^48 -> 0 <= wa < 2^48 ->
  page_entry (consecutive n va q fl) wa old =
    if (va <=? wa) && (wa <? va + 4096 * Z.of_nat n) then Some (4096 * (q + (wa - va) / 4096) + fl) else old.
Proof.
  revert va q old. induction n as [|n IH]; intros va q old H0 Hal Hle Hw; cbn [consecutive page_entry].
  { zcase; cbn [andb]; done || lia. }
  rewrite IH by (lia || zdm). rewrite !prefix4 by lia. case_decide as Ep.
  - zcase; cbn [andb]; try (done || zdm). f_equal. zdm.
  - zcase; cbn [andb]; try (done || zdm). f_equal. zdm.
Qed.

Section pages.
Context {S : Type} `{FrameLaws S}.
Implicit Types s : S.
Abbreviation own_pt s := (fl_owned s OS_PT_REG).

Record maps (n : nat) s s' (root : Z) (l : list page) : Prop := {
  ms_ok : pt_ok s' root;
  ms_mapping wa : mapping (fs_ram s') root wa = page_entry l wa (mapping (fs_ram s) root wa);
  ms_clear wa : path_clear (fs_ram s) root wa -> path_clear (fs_ram s') root wa;
  ms_owned r q : fl_owned s r q -> fl_owned s' r q;
  ms_user q : fl_owned s' USER_REG q <-> fl_owned s USER_REG q \/ q ∈ page_frame <$> l;
  ms_avail_pt : (fl_avail s OS_PT_REG <= n + fl_avail s' OS_PT_REG)%nat;
  ms_next : fl_next s USER_REG = (page_frame <$> l) ++ fl_next s' USER_REG;
  ms_table q : is_table (fs_ram s') root q -> own_pt s q -> is_table (fs_ram s) root q;
  ms_frame r q a : fl_owned s r q -> (r = OS_PT_REG -> ~ is_table (fs_ram s) root q) ->
    in_frame q a -> ld8 (fs_ram s') a = ld8 (fs_ram s) a;
  ms_low a : low_memory a -> ld8 (fs_ram s') a = ld8 (fs_ram s) a;
  ms_other j wa : (j <= 3)%nat -> Forall (fun p => prefix j wa <> prefix j p.1.1) l ->
    utable (fs_ram s') j root wa = utable (fs_ram s) j root wa
}.

Lemma maps_nil s root : pt_ok s root -> maps 0 s s root [].
Proof. intros Hok. split; try done. intros q. cbn. rewrite elem_of_nil. tauto. Qed.

Lemma maps_trans n m s1 s2 s3 root l1 l2 : maps n s1 s2 root l1 -> maps m s2 s3 root l2 -> maps (n + m) s1 s3 root (l1 ++ l2).
Proof.
  intros P1 P2. split.
  - apply P2.
  - intros wa. by rewrite page_entry_app, (ms_mapping _ _ _ _ _ P2), (ms_mapping _ _ _ _ _ P1).
  - intros wa Hc. by apply (ms_clear _ _ _ _ _ P2), (ms_clear _ _ _ _ _ P1).
  - intros r q Hq. by apply (ms_owned _ _ _ _ _ P2), (ms_owned _ _ _ _ _ P1).
  - intros q. rewrite (ms_user _ _ _ _ _ P2), (ms_user _ _ _ _ _ P1), fmap_app, elem_of_app. tauto.
  - pose proof (ms_avail_pt _ _ _ _ _ P1). pose proof (ms_avail_pt _ _ _ _ _ P2). lia.
  - by rewrite (ms_next _ _ _ _ _ P1), (ms_next _ _ _ _ _ P2), fmap_app, app_assoc.
  - intros q Ht Ho. apply (ms_table _ _ _ _ _ P1); [|done]. apply (ms_table _ _ _ _ _ P2); [done|]. by apply (ms_owned _ _ _ _ _ P1).
  - intros r q a Ho Hn Ha. rewrite (ms_frame _ _ _ _ _ P2 r q); [by apply (ms_frame _ _ _ _ _ P1 r q)|by apply (ms_owned _ _ _ _ _ P1)| |done].
    intros -> Ht. apply Hn; [done|]. by apply (ms_table _ _ _ _ _ P1).
  - intros a Ha. by rewrite (ms_low _ _ _ _ _ P2), (ms_low _ _ _ _ _ P1).
  - intros j wa Hj [F1 F2]%Forall_app. by rewrite (ms_other _ _ _ _ _ P2), (ms_other _ _ _ _ _ P1).
Qed.

Lemma maps_one n s s' root va e q : map_post n s s' root va (Some e) (Some q) -> maps n s s' root [(va, e, q)].
Proof.
  intros P. split; try apply P.
  - intros p. rewrite (mp_user _ _ _ _ _ _ _ P). cbn. rewrite list_elem_of_singleton. intuition congruence.
  - intros j wa Hj [F _]%Forall_cons. by apply (gr_other _ _ _ _ (mp_grown _ _ _ _ _ _ _ P)).
Qed.

Lemma maps_weaken n n' s s' root l : (n <= n')%nat -> maps n s s' root l -> maps n' s s' root l.
Proof. intros Hn []. split; try done. lia. Qed.

(** ** install_ptable_multi *)

Definition multi_flags (write : bool) : Z := if write then 7 else 5.

(** The stores of one iteration. *)
Definition multi_leaf (ptep pfn : Z) (write : bool) (s : S) : S :=
  let s := store64 ptep (u64 (pfn << PAGE_SHIFT) .| 5) s in
  if write then store64 ptep (ld64 (fs_ram s) ptep .| 2) s else s.

Lemma multi_leaf_ok s root va f q write :
  pt_ok s root -> utable (fs_ram s) 3 root va = Some f -> 0 <= q < 2^32 ->
  map_post 0 s (multi_leaf (ent f 3 va) q write s) root va (Some (4096 * q + multi_flags write)) None.
Proof.
  intros Hok Hf Hq. pose proof (write_leaf_ok s root va f q (MMSegment 0 0 0 (if write then MM_WR else 0)) Hok Hf Hq) as P.
  by destruct write.
Qed.

(** A fresh frame for a page whose table is there. *)
Lemma multi_page_ok s root va f write :
  pt_ok s root -> utable (fs_ram s) 3 root va = Some f -> (0 < fl_avail s USER_REG)%nat ->
  let q := (fs_alloc USER_REG s).1 in let s' := multi_leaf (ent f 3 va) q write (fs_alloc USER_REG s).2 in
  map_post 0 s s' root va (Some (4096 * q + multi_flags write)) (Some q) /\ utable (fs_ram s') 3 root va = Some f /\
  0 <= q < 2^32.
Proof.
  intros Hok Hf Hav. destruct (alloc_user_ok s root Hok Hav) as (Hok1 & Hst & Hq & Hn & Ho & Hnx & Hap & Hfr & Hlow).
  destruct (fs_alloc USER_REG s) as [q s1]. cbn [fst snd] in *.
  assert (Hf1 : utable (fs_ram s1) 3 root va = Some f) by (by rewrite (st_utable _ _ _ Hst) by lia).
  pose proof (multi_leaf_ok s1 root va f q write Hok1 Hf1 Hq) as P. cbv zeta. split; [|split; [|done]].
  - apply (map_post_compose s s s1); try done.
    + intros r p. rewrite Ho. intuition congruence.
    + by intros p [= <-].
  - apply (gr_mono _ _ _ _ (mp_grown _ _ _ _ _ _ _ P)); [lia|done].
Qed.

(** A path, then a page. *)
Lemma map_post_then n s s1 s2 root va e q :
  ext_post n s s1 root va -> map_post 0 s1 s2 root va e (Some q) -> map_post n s s2 root va e (Some q).
Proof.
  intros P Q. split.
  - apply Q.
  - eapply grown_trans; [apply P|apply Q].
  - intros wa. by rewrite (mp_mapping _ _ _ _ _ _ _ Q), (ep_mapping _ _ _ _ _ P).
  - intros wa Hc. by apply (mp_clear _ _ _ _ _ _ _ Q), (ep_clear _ _ _ _ _ P).
  - intros r p Hp. by apply (mp_owned _ _ _ _ _ _ _ Q), (ep_owned _ _ _ _ _ P).
  - intros p. by rewrite (mp_user _ _ _ _ _ _ _ Q), (ep_user _ _ _ _ _ P).
  - intros p E Hp. apply (mp_new _ _ _ _ _ _ _ Q p E). by apply (ep_user _ _ _ _ _ P).
  - pose proof (ep_avail_pt _ _ _ _ _ P). pose proof (mp_avail_pt _ _ _ _ _ _ _ Q). lia.
  - by rewrite <- (ep_next _ _ _ _ _ P), (mp_next _ _ _ _ _ _ _ Q).
  - intros p Ht Ho. apply (ep_table _ _ _ _ _ P); [|done]. apply (mp_table _ _ _ _ _ _ _ Q); [done|]. by apply (ep_owned _ _ _ _ _ P).
  - intros r p a Ho Hn Ha. rewrite (mp_frame _ _ _ _ _ _ _ Q r p); [by apply (ep_frame _ _ _ _ _ P r p)|by apply (ep_owned _ _ _ _ _ P)| |done].
    intros -> Ht. apply Hn; [done|]. by apply (ep_table _ _ _ _ _ P).
  - intros a Ha. by rewrite (mp_low _ _ _ _ _ _ _ Q), (ep_low _ _ _ _ _ P).
Qed.

(** The pages of one table. *)
Lemma same_table m root start i : 0 <= i -> start mod 2^21 + 4096 * i < 2^21 ->
  utable m 3 root (start + 4096 * i) = utable m 3 root start /\ idx 3 (start + 4096 * i) = idx 3 start + i.
Proof.
  intros Hi Hb. split.
  - apply utable_prefix; [lia|]. unfold prefix. change (2 ^ (48 - 9 * Z.of_nat 3)) with (2^21). f_equal. zdm.
  - unfold idx. change (2 ^ (39 - 9 * Z.of_nat 3)) with 4096. zdm.
Qed.

Lemma ptable_multi_loop_ok n ctr start f start_pfn last write s root :
  pt_ok s root -> utable (fs_ram s) 3 root start = Some f -> 0 < ctr ->
  start mod 2^21 + 4096 * (ctr + Z.of_nat n) <= 2^21 -> 0 <= last -> (n <= fl_avail s USER_REG)%nat ->
  take n (fl_next s USER_REG) = seqZ (last + 1) (Z.of_nat n) ->
  let s' := ptable_multi_loop n ctr (ent f 3 start + 8 * ctr) start_pfn last write s in
  maps 0 s s' root (consecutive n (start + 4096 * ctr) (last + 1) (multi_flags write)).
Proof.
  revert ctr last s. induction n as [|n IH]; intros ctr last s Hok Hf Hctr Hb Hl Hav Hnx; cbn [ptable_multi_loop consecutive].
  { by apply maps_nil. }
  destruct (Z.eqb_spec ctr 0); [lia|]. destruct (same_table (fs_ram s) root start ctr) as [Et Ei]; [lia..|].
  assert (Hf' : utable (fs_ram s) 3 root (start + 4096 * ctr) = Some f) by (by rewrite Et).
  destruct (multi_page_ok s root _ f write Hok Hf' ltac:(lia)) as (P & Hf2 & Hq).
  assert (Ee : ent f 3 (start + 4096 * ctr) = ent f 3 start + 8 * ctr) by (unfold ent; rewrite Ei; lia). rewrite Ee in P, Hf2. clear Ee.
  pose proof (mp_next _ _ _ _ _ _ _ P) as En. rewrite En in Hnx. rewrite (seqZ_cons (last + 1)) in Hnx by lia.
  destruct (fs_alloc USER_REG s) as [q s1]. cbn [fst snd option_list app take] in *. injection Hnx as -> Hnx.
  replace (last =? u64 (last + 1 - 1)) with true.
  2:{ symmetry. apply Z.eqb_eq. rewrite u64_small; lia. }
  set (s2 := if write then _ else _). change s2 with (multi_leaf (ent f 3 start + 8 * ctr) (last + 1) write s1). clear s2.
  apply (maps_trans 0 0 _ _ _ _ [_] _ (maps_one _ _ _ _ _ _ _ P)).
  set (s2 := multi_leaf _ _ _ s1) in *. clearbody s2.
  replace (ent f 3 start + 8 * ctr + 8) with (ent f 3 start + 8 * (ctr + 1)) by lia.
  replace (start + 4096 * ctr + 4096) with (start + 4096 * (ctr + 1)) by lia.
  apply IH; try lia.
  - apply P.
  - destruct (same_table (fs_ram s2) root start ctr) as [E _]; [lia..|]. by rewrite <- E.
  - pose proof (mp_avail_user _ _ _ _ _ _ _ P) as Ea. cbn iota in Ea. lia.
  - rewrite Hnx. f_equal; lia.
Qed.

Lemma install_ptable_multi_ok s root start count write q0 :
  pt_ok s root -> path_clear (fs_ram s) root start -> (3 <= fl_avail s OS_PT_REG)%nat ->
  (Z.to_nat count <= fl_avail s USER_REG)%nat -> 0 < count -> start mod 2^21 + 4096 * count <= 2^21 ->
  take (Z.to_nat count) (fl_next s USER_REG) = seqZ q0 count ->
  let r := install_ptable_multi (4096 * root) start count write s in
  r.1 = q0 /\ maps 3 s r.2 root (consecutive (Z.to_nat count) start q0 (multi_flags write)).
Proof.
  intros Hok Hc Hpt Hav Hcnt Hb Hnx.
  destruct (descend ptable_next s root start (4096 * root) ptable_next_step Hok Hc Hpt eq_refl) as (P & f & Hf & Ef & Uf).
  unfold install_ptable_multi. destruct (indices start) as (_ & _ & _ & E3).
  destruct (ptable_next (4096 * root + _) s) as [b1 s1]; cbn [fst snd] in *.
  destruct (ptable_next (b1 + _) s1) as [b2 s2]; cbn [fst snd] in *.
  destruct (ptable_next (b2 + _) s2) as [b3 s3]; cbn [fst snd] in *.
  rewrite Ef, E3. fold (ent f 3 start).
  assert (Hav3 : (0 < fl_avail s3 USER_REG)%nat) by (rewrite (ep_avail_user _ _ _ _ _ P); lia).
  destruct (multi_page_ok s3 root start f write (ep_ok _ _ _ _ _ P) Uf Hav3) as (P0 & Hf2 & Hq).
  rewrite <- (ep_next _ _ _ _ _ P) in Hnx. pose proof (mp_next _ _ _ _ _ _ _ P0) as En.
  rewrite En in Hnx. destruct (fs_alloc USER_REG s3) as [q s4]. cbn [fst snd option_list app] in *.
  replace (Z.to_nat count) with (Datatypes.S (Z.to_nat (count - 1))) in Hnx |- * by lia. cbn [take] in Hnx.
  rewrite (seqZ_cons q0) in Hnx by lia. injection Hnx as -> Hnx. split; [done|].
  cbn [ptable_multi_loop consecutive Z.eqb].
  set (s5 := if write then _ else _). change s5 with (multi_leaf (ent f 3 start) q0 write s4). clear s5.
  set (s5 := multi_leaf _ _ _ s4) in *. clearbody s5.
  assert (P1 : map_post 3 s s5 root start (Some (4096 * q0 + multi_flags write)) (Some q0)).
  { by apply (map_post_then 3 s s3). }
  apply (maps_trans 3 0 _ _ _ _ [_] _ (maps_one _ _ _ _ _ _ _ P1)).
  pose proof (ptable_multi_loop_ok (Z.to_nat (count - 1)) 1 start f q0 q0 write s5 root) as L.
  replace (ent f 3 start + 8) with (ent f 3 start + 8 * 1) by lia.
  replace (start + 4096) with (start + 4096 * 1) by lia. apply L; try lia.
  - apply P1.
  - done.
  - pose proof (mp_avail_user _ _ _ _ _ _ _ P1) as Ea. cbn iota in Ea. lia.
  - rewrite Hnx. f_equal; lia.
Qed.
End pages.
