(* ===== verification/Printf.v ===== *)
(** * Strings and formatted output (lib.c)

    The NUL-terminated string routines on the memory of [Mem], and [vprintf]
    as the list of characters it puts in its buffer.  A format that ends in a
    lone percent sign, which the kernel never uses, is not modelled. *)
From S2P Require Import Prelude Mem Lib Machine.
Local Open Scope gemos_scope.

(** ** Strings *)

(** A string at [a]: the bytes [s], none of them 0, then a 0. *)
Fixpoint cstr_at (m : mem) (a : Z) (s : list Z) : Prop :=
  match s with
  | [] => ld8 m a = 0
  | c :: s => ld8 m a = c /\ c <> 0 /\ cstr_at m (a + 1) s
  end.

(** The characters of an array before the first 0. *)
Fixpoint c_string (s : list Z) : list Z :=
  match s with [] => [] | c :: s => if c =? 0 then [] else c :: c_string s end.

(** Each loop is run with a bound on its iterations, and gives [None] when
    the bound does not suffice. *)
Fixpoint strlen_loop (n : nat) (m : mem) (ptr i : Z) : option Z :=
  match n with
  | O => None
  | S n => if negb (ld8 m (ptr + i) =? 0) && (i >=? 0) then strlen_loop n m ptr (s32 (i + 1)) else Some i
  end.
Definition strlen (n : nat) (m : mem) (ptr : Z) : option Z := strlen_loop n m ptr 0.

Fixpoint strcat_loop (n : nat) (m : mem) (dst app len i : Z) : option mem :=
  match n with
  | O => None
  | S n =>
      if negb (ld8 m (app + i) =? 0)
      then strcat_loop n (st8 m (dst + (i + len)) (ld8 m (app + i))) dst app len (i + 1)
      else Some (st8 m (dst + (i + len)) 0)
  end.
Definition strcat (n : nat) (m : mem) (dst app : Z) : option mem :=
  match strlen n m dst with Some len => strcat_loop n m dst app len 0 | None => None end.

Fixpoint strcmp_loop (n : nat) (m : mem) (s d ctr : Z) : option Z :=
  match n with
  | O => None
  | S n =>
      if negb (ld8 m (s + ctr) =? 0) && negb (ld8 m (d + ctr) =? 0) && (ld8 m (s + ctr) =? ld8 m (d + ctr))
      then strcmp_loop n m s d (ctr + 1)
      else if (ld8 m (s + ctr) =? 0) && (ld8 m (d + ctr) =? 0) then Some 0 else Some (-1)
  end.
Definition strcmp (n : nat) (m : mem) (s d : Z) : option Z := strcmp_loop n m s d 0.

(** A byte read as a [char]. *)
Definition s8 (z : Z) : Z := (z + 128) mod 256 - 128.

Fixpoint memcmp_loop (n : nat) (m : mem) (s d ctr : Z) : Z :=
  match n with
  | O => 0
  | S n => if ld8 m (s + ctr) =? ld8 m (d + ctr) then memcmp_loop n m s d (ctr + 1)
           else s8 (ld8 m (s + ctr)) - s8 (ld8 m (d + ctr))
  end.
Definition memcmp (m : mem) (s d len : Z) : Z := memcmp_loop (Z.to_nat (u32 len)) m s d 0.

(** ** Numbers *)

(** [while(tmp){ chars[count++] = '0' + tmp % 10; tmp /= 10; }] and the loop
    that copies [chars] backwards.  C's [/] and [%] round towards 0; an [int]
    has at most 10 digits. *)
Fixpoint dec_loop (n : nat) (tmp : Z) (chars : list Z) : list Z :=
  match n with
  | O => chars
  | S n => if tmp =? 0 then chars else dec_loop n (Z.quot tmp 10) (48 + Z.rem tmp 10 :: chars)
  end.

(** [%d] and [%u]: both read an [int]. *)
Definition print_dec (arg : Z) : list Z :=
  let num := s32 arg in
  if num =? 0 then [48]
  else if num <? 0 then 45 :: dec_loop 10 (s32 (- num)) []
  else dec_loop 10 num [].

Definition hex_char (d : Z) : Z := if d >? 9 then 65 + (d - 10) else 48 + d.

Fixpoint hex_loop (n : nat) (tmp : Z) (chars : list Z) : list Z :=
  match n with
  | O => chars
  | S n => if tmp =? 0 then chars else hex_loop n (Z.quot tmp 16) (hex_char (Z.rem tmp 16) :: chars)
  end.

(** [%x] reads a [long]; negative numbers get a sign. *)
Definition print_hex (arg : Z) : list Z :=
  let num := s64 arg in
  if num =? 0 then [48; 120; 48]
  else if num <? 0 then [45; 48; 120] ++ hex_loop 16 (s64 (- num)) []
  else [48; 120] ++ hex_loop 16 num [].

(** ** [vprintf] *)

Definition arg_int (a : option parg) : Z := match a with Some (PInt z) => z | _ => 0 end.
Definition arg_str (a : option parg) : list Z := match a with Some (PStr s) => s | _ => [] end.

(** The characters that the format and its arguments give. *)
Fixpoint vprintf (format : list Z) (args : list parg) : list Z :=
  match format with
  | [] => []
  | 37 :: ch :: format =>
      if ch =? 99 then u8 (arg_int (head args)) :: vprintf format (tail args)
      else if (ch =? 100) || (ch =? 117) then print_dec (arg_int (head args)) ++ vprintf format (tail args)
      else if ch =? 120 then print_hex (arg_int (head args)) ++ vprintf format (tail args)
      else if ch =? 115 then arg_str (head args) ++ vprintf format (tail args)
      else ch :: vprintf format args
  | ch :: format => ch :: vprintf format args
  end.

(** [sprintf] ends the string it writes. *)
Definition sprintf (format : list Z) (args : list parg) : list Z := vprintf format args ++ [0].

(** ** The string routines on strings *)

Lemma cstr_at_lookup m a s i c : cstr_at m a s -> s !! i = Some c -> ld8 m (a + Z.of_nat i) = c /\ c <> 0.
Proof.
  revert a i. induction s as [|x s IH]; intros a i; [done|]. intros (E & Hne & Hs).
  destruct i as [|i]; cbn [lookup list_lookup].
  - intros [= <-]. by rewrite Z.add_0_r.
  - intros Hi. destruct (IH _ _ Hs Hi) as [E' Hne']. by replace (a + Z.of_nat (S i)) with (a + 1 + Z.of_nat i) by lia.
Qed.

Lemma cstr_at_end m a s : cstr_at m a s -> ld8 m (a + Z.of_nat (length s)) = 0.
Proof.
  revert a. induction s as [|x s IH]; intros a; cbn [cstr_at length].
  - by rewrite Z.add_0_r.
  - intros (_ & _ & Hs). rewrite <- (IH _ Hs). f_equal. lia.
Qed.

Lemma cstr_at_intro m a s :
  (forall i c, s !! i = Some c -> ld8 m (a + Z.of_nat i) = c /\ c <> 0) ->
  ld8 m (a + Z.of_nat (length s)) = 0 -> cstr_at m a s.
Proof.
  revert a. induction s as [|x s IH]; intros a Hi Hend; cbn [cstr_at].
  - by rewrite Z.add_0_r in Hend.
  - destruct (Hi 0%nat x eq_refl) as [E0 Hne]. rewrite Z.add_0_r in E0. split_and!; [done..|].
    apply IH; [intros i c Hc | ].
    + replace (a + 1 + Z.of_nat i) with (a + Z.of_nat (S i)) by lia. by apply Hi.
    + rewrite <- Hend. cbn [length]. f_equal. lia.
Qed.

Lemma strlen_loop_spec n m a s i :
  cstr_at m a s -> (i <= length s)%nat -> (length s - i < n)%nat -> Z.of_nat (length s) < 2^31 ->
  strlen_loop n m a (Z.of_nat i) = Some (Z.of_nat (length s)).
Proof.
  revert i. induction n as [|n IH]; intros i Hs Hi Hn Hl; [lia|]. cbn [strlen_loop].
  destruct (decide (i = length s)) as [->|Hne].
  - rewrite cstr_at_end by done. done.
  - destruct (lookup_lt_is_Some_2 s i) as [c Hc]; [lia|]. destruct (cstr_at_lookup m a s i c) as [E Hc0]; [done..|].
    rewrite E. destruct (Z.eqb_spec c 0); [done|]. rewrite Z.geb_leb. destruct (Z.leb_spec 0 (Z.of_nat i)); [|lia].
    cbn [negb andb]. replace (s32 (Z.of_nat i + 1)) with (Z.of_nat (S i)) by (unfold s32; rewrite Z.mod_small; lia).
    apply IH; [done | lia..].
Qed.

(** [strlen] gives the length of every string shorter than 2^31. *)
Theorem strlen_correct n m a s :
  cstr_at m a s -> Z.of_nat (length s) < 2^31 -> (length s < n)%nat ->
  strlen n m a = Some (Z.of_nat (length s)).
Proof. intros. apply (strlen_loop_spec n m a s 0); [done | lia..]. Qed.

Lemma strcmp_loop_spec n m a b s t i :
  cstr_at m a s -> cstr_at m b t -> (i <= length s)%nat -> (i <= length t)%nat ->
  take i s = take i t -> (length s - i < n)%nat ->
  strcmp_loop n m a b (Z.of_nat i) = Some (if decide (s = t) then 0 else -1).
Proof.
  revert i. induction n as [|n IH]; intros i Hs Ht His Hit Heq Hn; [lia|]. cbn [strcmp_loop].
  assert (Hz : forall u d, cstr_at m d u -> (i <= length u)%nat ->
    ld8 m (d + Z.of_nat i) = default 0 (u !! i) /\ (ld8 m (d + Z.of_nat i) = 0 <-> i = length u)).
  { intros u d Hu Hi. destruct (u !! i) as [c|] eqn:Ec.
    - destruct (cstr_at_lookup m d u i c Hu Ec) as [-> Hc]. split; [done|].
      apply lookup_lt_Some in Ec. split; [done|lia].
    - apply lookup_ge_None in Ec. assert (i = length u) as -> by lia. rewrite cstr_at_end by done. done. }
  destruct (Hz s a Hs His) as [Es Zs]. destruct (Hz t b Ht Hit) as [Et Zt].
  destruct (Z.eqb_spec (ld8 m (a + Z.of_nat i)) 0) as [E1|E1];
    destruct (Z.eqb_spec (ld8 m (b + Z.of_nat i)) 0) as [E2|E2]; cbn [negb andb].
  - apply Zs in E1. apply Zt in E2. rewrite (take_ge s), (take_ge t) in Heq by lia. by rewrite decide_True.
  - rewrite decide_False; [done|]. intros ->. tauto.
  - rewrite decide_False; [done|]. intros ->. tauto.
  - assert (i <> length s) by tauto. assert (i <> length t) by tauto.
    destruct (Z.eqb_spec (ld8 m (a + Z.of_nat i)) (ld8 m (b + Z.of_nat i))) as [E|E].
    + replace (Z.of_nat i + 1) with (Z.of_nat (S i)) by lia. apply IH; try done; try lia.
      destruct (lookup_lt_is_Some_2 s i) as [c Hc]; [lia|]. destruct (lookup_lt_is_Some_2 t i) as [d Hd]; [lia|].
      rewrite (take_S_r s i c), (take_S_r t i d) by done. rewrite Hc in Es. rewrite Hd in Et. cbn in Es, Et. congruence.
    + rewrite decide_False; [done|]. intros ->. congruence.
Qed.

(** [strcmp] decides equality of strings: 0 when they are equal, else -1. *)
Theorem strcmp_correct n m a b s t :
  cstr_at m a s -> cstr_at m b t -> (length s < n)%nat ->
  strcmp n m a b = Some (if decide (s = t) then 0 else -1).
Proof. intros. apply (strcmp_loop_spec n m a b s t 0); (done || lia). Qed.

(** Where [strcat] has copied [i] characters. *)
Lemma strcat_loop_spec n m dst app s t i :
  cstr_at m app t -> (i <= length t)%nat -> (length t - i < n)%nat ->
  (forall j, (j < length s + i)%nat -> (s ++ t) !! j = Some (ld8 m (dst + Z.of_nat j))) ->
  dst + Z.of_nat (length s + length t) < app \/ app + Z.of_nat (length t) < dst ->
  Forall (fun c => 0 < c < 256) (s ++ t) ->
  exists m', strcat_loop n m dst app (Z.of_nat (length s)) (Z.of_nat i) = Some m' /\
    cstr_at m' dst (s ++ t) /\
    untouched (fun b => dst <= b <= dst + Z.of_nat (length s + length t)) m m'.
Proof.
  revert m i. induction n as [|n IH]; intros m i Ht Hi Hn Hpre Hsep Hc; [lia|]. cbn [strcat_loop].
  destruct (decide (i = length t)) as [->|Hne].
  - rewrite cstr_at_end by done. cbn [Z.eqb negb].
    set (e := dst + (Z.of_nat (length t) + Z.of_nat (length s))). exists (st8 m e 0). split; [done|]. split.
    + apply cstr_at_intro.
      * intros j c Hj. assert (Hlt := lookup_lt_Some _ _ _ Hj). rewrite length_app in Hlt.
        rewrite ld8_st8. destruct (Z.eqb_spec e (dst + Z.of_nat j)); [unfold e in *; lia|].
        rewrite Hpre in Hj by lia. injection Hj as <-. split; [done|].
        pose proof (Hpre j ltac:(lia)) as Hj. apply (Forall_lookup_1 _ _ _ _ Hc) in Hj. lia.
      * rewrite ld8_st8, length_app. destruct (Z.eqb_spec e (dst + Z.of_nat (length s + length t))); [done|].
        unfold e in *. lia.
    + intros b Hb. rewrite ld8_st8. destruct (Z.eqb_spec e b); [unfold e in *; lia|done].
  - destruct (lookup_lt_is_Some_2 t i) as [c Ec]; [lia|].
    destruct (cstr_at_lookup m app t i c) as [E Hc0]; [done..|]. rewrite E.
    destruct (Z.eqb_spec c 0); [done|]. cbn [negb].
    set (e := dst + (Z.of_nat i + Z.of_nat (length s))).
    assert (Hcr : 0 < c < 256).
    { apply (Forall_lookup_1 _ _ (length s + i)%nat _ Hc). rewrite lookup_app_r by lia. by rewrite Nat.add_comm, Nat.add_sub. }
    destruct (IH (st8 m e c) (Datatypes.S i)) as (m' & E' & Hs' & Hu'); [| lia | lia | | done | done |].
    + apply cstr_at_intro.
      * intros j d Hj. assert (Hlt := lookup_lt_Some _ _ _ Hj). rewrite ld8_st8.
        destruct (Z.eqb_spec e (app + Z.of_nat j)); [unfold e in *; lia|]. by apply (cstr_at_lookup m app t).
      * rewrite ld8_st8. destruct (Z.eqb_spec e (app + Z.of_nat (length t))); [unfold e in *; lia|].
        by apply cstr_at_end.
    + intros j Hj. rewrite ld8_st8. destruct (Z.eqb_spec e (dst + Z.of_nat j)) as [Ee|Ee].
      * assert (j = length s + i)%nat as -> by (unfold e in *; lia).
        rewrite lookup_app_r by lia. replace (length s + i - length s)%nat with i by lia.
        by rewrite Ec, Z.mod_small by lia.
      * apply Hpre. unfold e in *. lia.
    + exists m'. split; [|split; [done|]].
      * rewrite <- E'. f_equal; lia.
      * intros b Hb. rewrite Hu' by done. rewrite ld8_st8. destruct (Z.eqb_spec e b); [|done]. unfold e in *; lia.
Qed.

(** [strcat] leaves the concatenation at [dst], when the string it appends
    lies outside the bytes it writes, and changes nothing else. *)
Theorem strcat_correct n m dst app s t :
  cstr_at m dst s -> cstr_at m app t ->
  Forall (fun c => 0 < c < 256) (s ++ t) ->
  dst + Z.of_nat (length s + length t) < app \/ app + Z.of_nat (length t) < dst ->
  Z.of_nat (length s) < 2^31 -> (length s < n)%nat -> (length t < n)%nat ->
  exists m', strcat n m dst app = Some m' /\ cstr_at m' dst (s ++ t) /\
    untouched (fun b => dst <= b <= dst + Z.of_nat (length s + length t)) m m'.
Proof.
  intros Hs Ht Hc Hsep Hl Hn Hn'. unfold strcat, strlen.
  change 0 with (Z.of_nat 0) at 1. rewrite (strlen_loop_spec n m dst s 0) by (done || lia).
  apply (strcat_loop_spec n m dst app s t 0); try done; try lia.
  intros j Hj. rewrite lookup_app_l by lia. destruct (lookup_lt_is_Some_2 s j) as [c Ec]; [lia|].
  by destruct (cstr_at_lookup m dst s j c) as [-> _].
Qed.

(** ** Printing numbers *)

(** The number that a list of decimal digits reads as. *)
Definition read_dec (s : list Z) : Z := fold_left (fun acc c => 10 * acc + (c - 48)) s 0.

(** A sign and digits. *)
Definition read_signed (s : list Z) : Z :=
  match s with 45 :: s => - read_dec s | _ => read_dec s end.

Definition is_digit (c : Z) : Prop := 48 <= c <= 57.

Lemma fold_dec s acc : fold_left (fun a c => 10 * a + (c - 48)) s acc = acc * 10 ^ Z.of_nat (length s) + read_dec s.
Proof.
  revert acc. induction s as [|c s IH]; intros acc; cbn [fold_left length].
  - unfold read_dec. cbn. lia.
  - unfold read_dec. cbn [fold_left]. rewrite !IH, Nat2Z.inj_succ, Z.pow_succ_r by lia. lia.
Qed.

Lemma dec_loop_spec n z acc :
  0 <= z < 10 ^ Z.of_nat n -> Forall is_digit acc ->
  read_dec (dec_loop n z acc) = z * 10 ^ Z.of_nat (length acc) + read_dec acc /\
  Forall is_digit (dec_loop n z acc) /\ (z <> 0 -> dec_loop n z acc <> []).
Proof.
  revert z acc. induction n as [|n IH]; intros z acc Hz Ha; cbn [dec_loop].
  - assert (z = 0) as -> by (cbn in Hz; lia). done.
  - destruct (Z.eqb_spec z 0) as [->|Hne]; [done|].
    rewrite Z.quot_div_nonneg, Z.rem_mod_nonneg by lia.
    rewrite Nat2Z.inj_succ, Z.pow_succ_r in Hz by lia.
    destruct (IH (z / 10) (48 + z mod 10 :: acc)) as (E & Hd & _).
    + split; [apply Z.div_pos; lia|]. apply Z.div_lt_upper_bound; lia.
    + constructor; [unfold is_digit; pose proof (Z.mod_pos_bound z 10); lia | done].
    + split_and!; [|done|].
      * rewrite E. unfold read_dec at 1. cbn [fold_left]. rewrite fold_dec. cbn [length].
        rewrite Nat2Z.inj_succ, Z.pow_succ_r by lia.
        pose proof (Z.div_mod z 10 ltac:(lia)). set (p := 10 ^ Z.of_nat (length acc)) in *. nia.
      * intros _ E0. rewrite E0 in E. unfold read_dec at 1 in E. cbn [fold_left] in E.
        unfold read_dec in E. cbn [fold_left] in E. rewrite fold_dec in E. cbn [length] in E.
        rewrite Nat2Z.inj_succ, Z.pow_succ_r in E by lia.
        assert (0 <= read_dec acc).
        { clear -Ha. assert (G : forall a, 0 <= a -> 0 <= fold_left (fun a c => 10 * a + (c - 48)) acc a).
          { induction Ha as [|c s Hc _ IH]; intros a Ha; cbn [fold_left]; [done|]. apply IH. unfold is_digit in Hc. lia. }
          by apply G. }
        pose proof (Z.div_mod z 10 ltac:(lia)). pose proof (Z.mod_pos_bound z 10 ltac:(lia)).
        pose proof (Z.div_pos z 10 ltac:(lia) ltac:(lia)).
        pose proof (Z.pow_pos_nonneg 10 (Z.of_nat (length acc)) ltac:(lia) ltac:(lia)).
        set (p := 10 ^ Z.of_nat (length acc)) in *. nia.
Qed.

Lemma read_signed_digits s : Forall is_digit s -> read_signed s = read_dec s.
Proof.
  intros Hd. destruct Hd as [|c s Hc _]; [done|]. unfold is_digit in Hc. unfold read_signed.
  destruct (decide (c = 45)); [lia|]. destruct c as [|p|p]; [done| |done].
  repeat (destruct p as [p|p|]; try done).
Qed.

Lemma s32_range z : - 2^31 <= s32 z < 2^31.
Proof. unfold s32. pose proof (Z.mod_pos_bound (z + 2^31) (2^32)). lia. Qed.

Lemma print_dec_roundtrip_ok z :
  s32 z <> - 2^31 -> read_signed (print_dec z) = s32 z.
Proof.
  intros Hmin. pose proof (s32_range z). unfold print_dec. generalize dependent (s32 z). intros v Hmin Hv.
  destruct (Z.eqb_spec v 0) as [->|]; [done|]. destruct (Z.ltb_spec v 0).
  - cbn [read_signed]. assert (s32 (- v) = - v) as -> by (unfold s32; rewrite Z.mod_small; lia).
    destruct (dec_loop_spec 10 (- v) []) as (-> & _ & _); [cbn; lia | done|].
    cbn [length]. unfold read_dec. cbn [fold_left]. lia.
  - destruct (dec_loop_spec 10 v []) as (E & Hd & _); [cbn; lia | done|].
    rewrite read_signed_digits, E by done. cbn [length]. unfold read_dec. cbn [fold_left]. lia.
Qed.

(** What [%d] prints reads back as the [int] it was given, for every [int]
    but the smallest, whose negation overflows. *)
Theorem print_dec_roundtrip z :
  s32 z <> - 2^31 -> read_signed (print_dec z) = s32 z.
Proof. exact (print_dec_roundtrip_ok z). Qed.

(** [%u] prints an unsigned value of 2^31 or more as a negative number, and
    the smallest [int] comes out as characters that are not digits. *)
Theorem print_dec_unsigned_negative :
  (forall z, 2^31 < z < 2^32 -> read_signed (print_dec z) = z - 2^32 /\ head (print_dec z) = Some 45) /\
  ~ Forall is_digit (tail (print_dec (- 2^31))).
Proof.
  split.
  - intros z Hz. assert (E : s32 z = z - 2^32).
    { unfold s32. replace (z + 2^31) with (z - 2^31 + 1 * 2^32) by lia. rewrite Z.mod_add, Z.mod_small; lia. }
    split; [rewrite print_dec_roundtrip_ok; lia|]. unfold print_dec. rewrite E.
    destruct (Z.eqb_spec (z - 2^32) 0); [lia|]. destruct (Z.ltb_spec (z - 2^32) 0); [done|lia].
  - intros Hd. apply (Forall_lookup_1 _ _ 0%nat 46) in Hd; [unfold is_digit in Hd; lia|].
    by vm_compute.
Qed.

(** ** Witnesses *)

(** "init" at 1000 and "s" at 2000. *)
Definition two_strings : mem :=
  st8 (st8 (st8 (st8 (st8 ∅ 1000 105) 1001 110) 1002 105) 1003 116) 2000 115.

Lemma two_strings_at : cstr_at two_strings 1000 [105; 110; 105; 116] /\ cstr_at two_strings 2000 [115].
Proof. repeat split; (vm_compute; congruence). Qed.

Lemma strlen_correct_witness : strlen 10 two_strings 1000 = Some 4.
Proof. apply (strlen_correct 10 two_strings 1000 [105; 110; 105; 116]); [apply two_strings_at | cbn; lia | cbn; lia]. Defined.

Lemma strcmp_correct_witness : strcmp 10 two_strings 1000 2000 = Some (-1).
Proof.
  apply (strcmp_correct 10 two_strings 1000 2000 [105; 110; 105; 116] [115]);
    [apply two_strings_at | apply two_strings_at | cbn; lia].
Defined.

Lemma strcat_correct_witness : exists m',
  strcat 10 two_strings 1000 2000 = Some m' /\ cstr_at m' 1000 [105; 110; 105; 116; 115] /\
  untouched (fun b => 1000 <= b <= 1005) two_strings m'.
Proof.
  apply (strcat_correct 10 two_strings 1000 2000 [105; 110; 105; 116] [115]);
    [apply two_strings_at | apply two_strings_at | repeat constructor | left | | |]; cbn; lia.
Defined.

Lemma print_dec_roundtrip_witness : read_signed (print_dec (-450)) = -450.
Proof. apply (print_dec_roundtrip (-450)). by vm_compute. Defined.
