(* ===== verification/Serial.v ===== *)
(** * The serial console: serial.c, serial.h and the port I/O of types.h

    The device answers every [inb]; its answers are a list, in order.  A
    function that needs more answers than the list holds is still waiting for
    the device, and is [None].  Transmitted bytes are read off the trace. *)
From S2P Require Import Prelude Mem Lib Machine Printf.
#[local] Open Scope gemos_scope.

Record io := IO { io_mach : machine; io_in : list Z }.

Definition io_ram (s : io) : mem := ram (io_mach s).
Definition set_io_ram (m : mem) (s : io) : io := IO (set_ram m (io_mach s)) (io_in s).

Definition outb (port v : Z) (s : io) : io := IO (emit (EOutb (u16 port) (u8 v)) (io_mach s)) (io_in s).
Definition inb (port : Z) (s : io) : option (Z * io) :=
  match io_in s with
  | [] => None
  | v :: rest => Some (u8 v, IO (emit (EInb (u16 port) (u8 v)) (io_mach s)) rest)
  end.

(** ** Registers *)

Definition XMTRDY : Z := 0x20.
Definition RCVRDY : Z := 0x1.
Definition DLAB : Z := 0x80.
Definition TXR : Z := 0.
Definition RXR : Z := 0.
Definition IER : Z := 1.
Definition FCR : Z := 2.
Definition LCR : Z := 3.
Definition MCR : Z := 4.
Definition LSR : Z := 5.
Definition DLL : Z := 0.
Definition DLH : Z := 1.
Definition BAUD : Z := 9600.

(** ttyS0 *)
Definition base : Z := 0x3f8.

(** ** serial.c *)

Definition serial_init (s : io) : option io :=
  let div := 115200 / BAUD in
  let s := outb (base + LCR) 0x3 s in
  let s := outb (base + IER) 0 s in
  let s := outb (base + FCR) 0 s in
  let s := outb (base + MCR) 0x3 s in
  match inb (base + LCR) s with
  | None => None
  | Some (c, s) =>
      let s := outb (base + LCR) (c .| DLAB) s in
      let s := outb (base + DLL) (div .& 0xff) s in
      let s := outb (base + DLH) ((div >> 8) .& 0xff) s in
      Some (outb (base + LCR) (c .& Z.lnot DLAB) s)
  end.

(** [while((inb(base + LSR) & mask) == 0);]: one answer per iteration. *)
Fixpoint poll_loop (fuel : nat) (mask : Z) (s : io) : option io :=
  match fuel with
  | O => None
  | S fuel =>
      match inb (base + LSR) s with
      | None => None
      | Some (v, s) => if v .& mask =? 0 then poll_loop fuel mask s else Some s
      end
  end.
Definition poll (mask : Z) (s : io) : option io := poll_loop (length (io_in s)) mask s.

Definition serial_putc (ch : Z) (s : io) : option io :=
  match poll XMTRDY s with None => None | Some s => Some (outb (base + TXR) ch s) end.

(** [n] bounds the characters written. *)
Fixpoint serial_write (n : nat) (buf : Z) (s : io) : option io :=
  match n with
  | O => None
  | S n =>
      let ch := ld8 (io_ram s) buf in
      if ch =? 0 then Some s
      else
        match serial_putc ch s with
        | None => None
        | Some s =>
            if ch =? 10 then
              match serial_putc 13 s with None => None | Some s => serial_write n (buf + 1) s end
            else serial_write n (buf + 1) s
        end
  end.

Definition serial_getc (s : io) : option (Z * io) :=
  match poll RCVRDY s with None => None | Some s => inb (base + RXR) s end.

(** [while((ch=serial_getc()) != '\r') buf[ctr++] = ch;] *)
Fixpoint read_line_loop (fuel : nat) (buf ctr : Z) (s : io) : option (Z * io) :=
  match fuel with
  | O => None
  | S fuel =>
      match serial_getc s with
      | None => None
      | Some (ch, s) =>
          if ch =? 13 then Some (ctr, s)
          else read_line_loop fuel buf (u32 (ctr + 1)) (set_io_ram (st8 (io_ram s) (buf + ctr) ch) s)
      end
  end.

(** [while((ch=serial_getc()) != '\n');] *)
Fixpoint skip_line_loop (fuel : nat) (s : io) : option io :=
  match fuel with
  | O => None
  | S fuel =>
      match serial_getc s with
      | None => None
      | Some (ch, s) => if ch =? 10 then Some s else skip_line_loop fuel s
      end
  end.

Definition serial_read (buf : Z) (s : io) : option io :=
  match read_line_loop (length (io_in s)) buf 0 s with
  | None => None
  | Some (ctr, s) => skip_line_loop (length (io_in s)) (set_io_ram (st8 (io_ram s) (buf + ctr) 0) s)
  end.

(** ** The console functions of lib.c *)

Definition console_init (s : io) : option io := serial_init s.

(** [vprintf] stores its output in the buffer. *)
Fixpoint store_bytes (m : mem) (a : Z) (bs : list Z) : mem :=
  match bs with [] => m | b :: bs => store_bytes (st8 m a b) (a + 1) bs end.

Definition BUFF_SIZE : Z := 4096.

Definition console_printf (buff : Z) (format : list Z) (args : list parg) (s : io) : option io :=
  let text := vprintf format args in
  let m := store_bytes (bzero (io_ram s) buff BUFF_SIZE) buff text in
  serial_write (S (length text)) buff (set_io_ram m s).

Definition console_print_user (buff user length : Z) (s : io) : option io :=
  let m := memcpy (io_ram s) buff user length in
  serial_write (S (Z.to_nat length)) buff (set_io_ram (st8 m (buff + length) 0) s).

(** ** The device: what the writes to a 16550 do

    While DLAB is set in the line control register, the first two ports are
    the divisor latch; otherwise a write to the first one is transmitted. *)
Record uart := Uart { u_lcr : Z; u_dll : Z; u_dlh : Z; u_sent : list Z }.

Definition uart_out (p v : Z) (u : uart) : uart :=
  let dlab := negb (u_lcr u .& DLAB =? 0) in
  if p =? base + LCR then Uart v (u_dll u) (u_dlh u) (u_sent u)
  else if p =? base + TXR then
    if dlab then Uart (u_lcr u) v (u_dlh u) (u_sent u) else Uart (u_lcr u) (u_dll u) (u_dlh u) (u_sent u ++ [v])
  else if (p =? base + DLH) && dlab then Uart (u_lcr u) (u_dll u) v (u_sent u)
  else u.

(** The device after the writes of a trace, from [u0]. *)
Fixpoint uart_after (u0 : uart) (tr : list event) : uart :=
  match tr with
  | [] => u0
  | EOutb p v :: tr => uart_out p v (uart_after u0 tr)
  | _ :: tr => uart_after u0 tr
  end.
Definition uart_of (u0 : uart) (s : io) : uart := uart_after u0 (trace (io_mach s)).

Definition send (bs : list Z) (u : uart) : uart := Uart (u_lcr u) (u_dll u) (u_dlh u) (u_sent u ++ bs).

(** A newline is sent as a newline and a carriage return. *)
Definition crlf (text : list Z) : list Z := flat_map (fun c => if c =? 10 then [10; 13] else [c]) text.

(** [ready mask k inp rest]: the status reads of [inp] answer [k] polls, after
    any number of busy answers each, and leave [rest]. *)
Inductive ready (mask : Z) : nat -> list Z -> list Z -> Prop :=
| ready_done rest : ready mask 0 rest rest
| ready_busy k v inp rest : u8 v .& mask = 0 -> ready mask (S k) inp rest -> ready mask (S k) (v :: inp) rest
| ready_now k v inp rest : u8 v .& mask <> 0 -> ready mask k inp rest -> ready mask (S k) (v :: inp) rest.

(** [delivers cs inp rest]: the device delivers the bytes [cs], each after any
    number of reads that find nothing. *)
Inductive delivers : list Z -> list Z -> list Z -> Prop :=
| delivers_done rest : delivers [] rest rest
| delivers_wait c cs v inp rest : u8 v .& RCVRDY = 0 -> delivers (c :: cs) inp rest -> delivers (c :: cs) (v :: inp) rest
| delivers_byte c cs v inp rest : u8 v .& RCVRDY <> 0 -> 0 <= c < 256 ->
    delivers cs inp rest -> delivers (c :: cs) (v :: c :: inp) rest.

#[export] Hint Constructors ready delivers : gemos.

(** ** Polling *)

Lemma inb_cons port v rest m :
  inb port (IO m (v :: rest)) = Some (u8 v, IO (emit (EInb (u16 port) (u8 v)) m) rest).
Proof. done. Qed.

(** A step that only reads the device. *)
Record read_only (u0 : uart) (s s' : io) : Prop := {
  ro_ram : io_ram s' = io_ram s;
  ro_uart : uart_of u0 s' = uart_of u0 s
}.

Lemma poll_ready_loop u0 mask k inp rest : ready mask k inp rest ->
  forall k' fuel m, k = S k' -> (length inp <= fuel)%nat ->
  exists s' mid, poll_loop fuel mask (IO m inp) = Some s' /\ io_in s' = mid /\ ready mask k' mid rest /\
    read_only u0 (IO m inp) s'.
Proof.
  induction 1 as [rest|k v inp rest Hb Hr IH|k v inp rest Hv Hr IH]; intros k' fuel m Ek Hf; [done| |].
  - destruct fuel as [|fuel]; [cbn in Hf; lia|]. cbn [poll_loop]. rewrite inb_cons, Hb, Z.eqb_refl.
    destruct (IH k' fuel (emit (EInb (u16 (base + LSR)) (u8 v)) m) Ek) as (s' & mid & E & Em & Hm & [R1 R2]); [cbn in Hf; lia|].
    exists s', mid. do 3 (split; [done|]). split; [exact R1|exact R2].
  - destruct fuel as [|fuel]; [cbn in Hf; lia|]. cbn [poll_loop]. rewrite inb_cons.
    rewrite (proj2 (Z.eqb_neq _ _)) by done. injection Ek as ->.
    eexists _, inp. do 3 (split; [done|]). by split.
Qed.

Lemma poll_ready u0 mask k rest s :
  ready mask (S k) (io_in s) rest ->
  exists s', poll mask s = Some s' /\ ready mask k (io_in s') rest /\ read_only u0 s s'.
Proof.
  intros Hr. destruct s as [m inp].
  destruct (poll_ready_loop u0 mask (S k) inp rest Hr k (length inp) m eq_refl ltac:(done)) as (s' & mid & E & <- & Hm & R).
  exists s'. done.
Qed.

(** ** Transmission *)

(** What sending [bs] leaves behind. *)
Record sends (u0 : uart) (bs : list Z) (s s' : io) : Prop := {
  sd_ram : io_ram s' = io_ram s;
  sd_uart : uart_of u0 s' = send bs (uart_of u0 s)
}.

Lemma sends_app u0 a b s1 s2 s3 : sends u0 a s1 s2 -> sends u0 b s2 s3 -> sends u0 (a ++ b) s1 s3.
Proof.
  intros [R1 U1] [R2 U2]. split; [by rewrite R2|]. rewrite U2, U1. unfold send. cbn. by rewrite app_assoc.
Qed.

Lemma serial_putc_sends u0 ch k rest s :
  u_lcr (uart_of u0 s) .& DLAB = 0 -> 0 <= ch < 256 -> ready XMTRDY (S k) (io_in s) rest ->
  exists s', serial_putc ch s = Some s' /\ ready XMTRDY k (io_in s') rest /\ sends u0 [ch] s s'.
Proof.
  intros Hd Hc Hr. destruct (poll_ready u0 _ _ _ _ Hr) as (s1 & E & Hr1 & [R U]).
  unfold serial_putc. rewrite E. eexists. split; [reflexivity|]. split; [done|]. split; [done|].
  change (uart_of u0 (outb (base + TXR) ch s1)) with (uart_out (u16 (base + TXR)) (u8 ch) (uart_of u0 s1)).
  rewrite U. unfold uart_out. change (u16 (base + TXR)) with (base + TXR). rewrite Hd. cbn [Z.eqb negb].
  change (base + TXR =? base + LCR) with false. rewrite Z.eqb_refl. cbv iota.
  unfold u8. by rewrite Z.mod_small by lia.
Qed.

Lemma serial_write_sends u0 n buf s text rest :
  u_lcr (uart_of u0 s) .& DLAB = 0 -> cstr_at (io_ram s) buf text -> (length text < n)%nat ->
  ready XMTRDY (length (crlf text)) (io_in s) rest ->
  exists s', serial_write n buf s = Some s' /\ io_in s' = rest /\ sends u0 (crlf text) s s'.
Proof.
  revert n buf s. induction text as [|c text IH]; intros n buf s Hd Hs Hn Hr; (destruct n as [|n]; [cbn in Hn; lia|]); cbn [serial_write].
  - cbn [cstr_at] in Hs. rewrite Hs, Z.eqb_refl. exists s. inversion Hr; subst. split; [done|]. split; [done|].
    split; [done|]. unfold send. cbn [crlf flat_map]. rewrite app_nil_r. by destruct (uart_of u0 s).
  - destruct Hs as (Hc & Hne & Hs). rewrite Hc, (proj2 (Z.eqb_neq _ _)) by done.
    pose proof (ld8_range (io_ram s) buf) as Hrange. rewrite Hc in Hrange.
    cbn [crlf flat_map] in Hr |- *. destruct (Z.eqb_spec c 10) as [->|Hn10].
    + cbn [app length] in Hr. destruct (serial_putc_sends u0 10 _ rest s Hd Hrange Hr) as (s1 & E1 & Hr1 & S1). rewrite E1.
      assert (Hd1 : u_lcr (uart_of u0 s1) .& DLAB = 0) by (by rewrite (sd_uart _ _ _ _ S1)).
      destruct (serial_putc_sends u0 13 _ rest s1 Hd1 ltac:(lia) Hr1) as (s2 & E2 & Hr2 & S2). rewrite E2.
      assert (Hd2 : u_lcr (uart_of u0 s2) .& DLAB = 0) by (by rewrite (sd_uart _ _ _ _ S2)).
      destruct (IH n (buf + 1) s2 Hd2) as (s3 & E3 & Hr3 & S3); [|cbn in Hn; lia|done|].
      { by rewrite (sd_ram _ _ _ _ S2), (sd_ram _ _ _ _ S1). }
      exists s3. split; [done|]. split; [done|]. change ([10; 13] ++ ?x) with ([10] ++ [13] ++ x).
      by eapply sends_app, sends_app.
    + cbn [app length] in Hr. destruct (serial_putc_sends u0 c _ rest s Hd Hrange Hr) as (s1 & E1 & Hr1 & S1). rewrite E1.
      assert (Hd1 : u_lcr (uart_of u0 s1) .& DLAB = 0) by (by rewrite (sd_uart _ _ _ _ S1)).
      destruct (IH n (buf + 1) s1 Hd1) as (s3 & E3 & Hr3 & S3); [|cbn in Hn; lia|done|].
      { by rewrite (sd_ram _ _ _ _ S1). }
      exists s3. split; [done|]. split; [done|]. by eapply sends_app.
Qed.

(** ** Reception *)

Lemma delivers_poll u0 cs inp rest : delivers cs inp rest ->
  forall c cs' fuel m, cs = c :: cs' -> (length inp <= fuel)%nat ->
  exists s' after, poll_loop fuel RCVRDY (IO m inp) = Some s' /\ io_in s' = c :: after /\ 0 <= c < 256 /\
    delivers cs' after rest /\ read_only u0 (IO m inp) s'.
Proof.
  induction 1 as [rest|c0 cs v inp rest Hb Hd IH|c0 cs v inp rest Hv Hc Hd IH]; intros c cs' fuel m Ec Hf; [done| |];
    (destruct fuel as [|fuel]; [cbn in Hf; lia|]); cbn [poll_loop]; rewrite inb_cons.
  - rewrite Hb, Z.eqb_refl.
    destruct (IH c cs' fuel (emit (EInb (u16 (base + LSR)) (u8 v)) m) Ec) as (s' & after & E & Ei & Hr & Hd' & [R1 R2]);
      [cbn in Hf; lia|].
    exists s', after. do 4 (split; [done|]). split; [exact R1|exact R2].
  - rewrite (proj2 (Z.eqb_neq _ _)) by done. injection Ec as -> ->.
    eexists _, inp. do 4 (split; [done|]). by split.
Qed.

Lemma serial_getc_delivers u0 c cs rest s :
  delivers (c :: cs) (io_in s) rest ->
  exists s', serial_getc s = Some (c, s') /\ delivers cs (io_in s') rest /\ read_only u0 s s'.
Proof.
  intros Hd. destruct s as [m inp]. cbn [io_in] in Hd.
  destruct (delivers_poll u0 _ _ _ Hd c cs (length inp) m eq_refl ltac:(done)) as ([m' inp'] & after & E & Ei & Hr & Hd' & [R1 R2]).
  cbn in Ei. subst inp'. unfold serial_getc, poll. cbn [io_in]. rewrite E, inb_cons.
  unfold u8. rewrite Z.mod_small by lia. eexists. split; [done|]. split; [done|]. split; [exact R1|exact R2].
Qed.

Lemma delivers_length cs inp rest : delivers cs inp rest -> (length cs + length rest <= length inp)%nat.
Proof. induction 1; cbn [length] in *; lia. Qed.

Lemma store_bytes_untouched m a bs b : ~ (a <= b < a + Z.of_nat (length bs)) -> ld8 (store_bytes m a bs) b = ld8 m b.
Proof.
  revert m a. induction bs as [|c bs IH]; intros m a Hb; cbn [store_bytes length] in *; [done|].
  rewrite IH by lia. rewrite ld8_st8. zcase; [lia|done].
Qed.

Lemma store_bytes_app m a xs ys :
  store_bytes m a (xs ++ ys) = store_bytes (store_bytes m a xs) (a + Z.of_nat (length xs)) ys.
Proof.
  revert m a. induction xs as [|x xs IH]; intros m a; cbn [app store_bytes length].
  - by rewrite Z.add_0_r.
  - rewrite IH. f_equal. lia.
Qed.

(** Bytes without a 0, then a 0, are a string. *)
Lemma store_bytes_string m a bs :
  Forall (fun c => 0 < c < 256) bs -> ld8 m (a + Z.of_nat (length bs)) = 0 -> cstr_at (store_bytes m a bs) a bs.
Proof.
  revert m a. induction bs as [|c bs IH]; intros m a Hb Hz; cbn [store_bytes cstr_at length] in *.
  { by rewrite <- Hz, Z.add_0_r. }
  apply Forall_cons in Hb as [Hc Hb]. split; [|split; [lia|]].
  - rewrite store_bytes_untouched by lia. rewrite ld8_st8, Z.eqb_refl. by rewrite Z.mod_small by lia.
  - apply IH; [done|]. rewrite ld8_st8. zcase; [lia|]. rewrite <- Hz. f_equal. lia.
Qed.

Lemma read_line_delivers u0 line after rest buf ctr fuel s :
  delivers (line ++ 13 :: after) (io_in s) rest -> Forall (fun c => c <> 13) line ->
  (length line < fuel)%nat -> 0 <= ctr -> ctr + Z.of_nat (length line) < 2^32 ->
  exists s', read_line_loop fuel buf ctr s = Some (ctr + Z.of_nat (length line), s') /\
    delivers after (io_in s') rest /\ io_ram s' = store_bytes (io_ram s) (buf + ctr) line /\
    uart_of u0 s' = uart_of u0 s.
Proof.
  revert ctr fuel s. induction line as [|c line IH]; intros ctr fuel s Hd Hl Hf H0 Hb;
    (destruct fuel as [|fuel]; [lia|]); cbn [app] in Hd; cbn [read_line_loop].
  - destruct (serial_getc_delivers u0 _ _ _ _ Hd) as (s' & E & Hd' & [R1 R2]). rewrite E, Z.eqb_refl.
    exists s'. rewrite Z.add_0_r. done.
  - apply Forall_cons in Hl as [Hc Hl].
    destruct (serial_getc_delivers u0 _ _ _ _ Hd) as (s' & E & Hd' & [R1 R2]). rewrite E, (proj2 (Z.eqb_neq _ _)) by done.
    cbn [length] in *. rewrite u32_small by lia.
    destruct (IH (ctr + 1) fuel (set_io_ram (st8 (io_ram s') (buf + ctr) c) s')) as (s2 & E2 & Hd2 & Er & Eu); try done; try lia.
    exists s2. rewrite E2. split; [do 2 f_equal; lia|]. split; [done|]. split.
    + rewrite Er. cbn [store_bytes]. change (io_ram (set_io_ram ?m s')) with m. rewrite R1. by replace (buf + ctr + 1) with (buf + (ctr + 1)) by lia.
    + rewrite Eu. exact R2.
Qed.

Lemma skip_line_delivers u0 junk after rest fuel s :
  delivers (junk ++ 10 :: after) (io_in s) rest -> Forall (fun c => c <> 10) junk -> (length junk < fuel)%nat ->
  exists s', skip_line_loop fuel s = Some s' /\ delivers after (io_in s') rest /\ io_ram s' = io_ram s /\
    uart_of u0 s' = uart_of u0 s.
Proof.
  revert fuel s. induction junk as [|c junk IH]; intros fuel s Hd Hl Hf;
    (destruct fuel as [|fuel]; [lia|]); cbn [app] in Hd; cbn [skip_line_loop];
    destruct (serial_getc_delivers u0 _ _ _ _ Hd) as (s' & E & Hd' & [R1 R2]); rewrite E.
  - rewrite Z.eqb_refl. exists s'. done.
  - apply Forall_cons in Hl as [Hc Hl]. rewrite (proj2 (Z.eqb_neq _ _)) by done. cbn [length] in Hf.
    destruct (IH fuel s' Hd' Hl ltac:(lia)) as (s2 & E2 & Hd2 & Er & Eu). exists s2.
    split; [done|]. split; [done|]. split; [by rewrite Er|by rewrite Eu].
Qed.

(** ** Theorems *)

(** The text is transmitted, and nothing else changes. *)
Record printed (u0 : uart) (text : list Z) (s s' : io) (rest : list Z) : Prop := {
  pr_in : io_in s' = rest;
  pr_sent : uart_of u0 s' = send (crlf text) (uart_of u0 s)
}.

Lemma console_printf_ok u0 buff format args s rest :
  u_lcr (uart_of u0 s) .& DLAB = 0 ->
  Forall (fun c => 0 < c < 256) (vprintf format args) -> Z.of_nat (length (vprintf format args)) < BUFF_SIZE ->
  ready XMTRDY (length (crlf (vprintf format args))) (io_in s) rest ->
  exists s', console_printf buff format args s = Some s' /\ printed u0 (vprintf format args) s s' rest /\
    (forall a, ~ (buff <= a < buff + BUFF_SIZE) -> ld8 (io_ram s') a = ld8 (io_ram s) a).
Proof.
  intros Hd Hb Hlen Hr. unfold console_printf. set (text := vprintf format args) in *. set (m := store_bytes _ _ _).
  assert (Hs : cstr_at m buff text).
  { apply store_bytes_string; [done|]. rewrite ld8_bzero. unfold BUFF_SIZE in *. zcase; cbn; try done; lia. }
  destruct (serial_write_sends u0 (S (length text)) buff (set_io_ram m s) text rest Hd Hs ltac:(lia) Hr) as (s' & E & Hi & [R U]).
  exists s'. split; [done|]. split; [by split|]. intros a Ha. rewrite R. change (io_ram (set_io_ram m s)) with m. unfold m.
  unfold BUFF_SIZE in *. rewrite store_bytes_untouched by lia. rewrite ld8_bzero. zcase; cbn; try done; lia.
Qed.

(** The [n] bytes at [a]. *)
Fixpoint load_bytes (n : nat) (m : mem) (a : Z) : list Z :=
  match n with O => [] | S n => ld8 m a :: load_bytes n m (a + 1) end.

Lemma load_bytes_ext n m m' a a' :
  (forall i, 0 <= i < Z.of_nat n -> ld8 m' (a' + i) = ld8 m (a + i)) -> load_bytes n m' a' = load_bytes n m a.
Proof.
  revert a a'. induction n as [|n IH]; intros a a' H; cbn [load_bytes]; [done|]. f_equal.
  - specialize (H 0 ltac:(lia)). by rewrite !Z.add_0_r in H.
  - apply IH. intros i Hi. rewrite <- !Z.add_assoc. apply H. lia.
Qed.

Lemma cstr_at_c_string n m a : ld8 m (a + Z.of_nat n) = 0 -> cstr_at m a (c_string (load_bytes n m a)).
Proof.
  revert a. induction n as [|n IH]; intros a Hz; cbn [load_bytes c_string].
  - by rewrite Z.add_0_r in Hz.
  - destruct (Z.eqb_spec (ld8 m a) 0) as [E|Hne]; [exact E|]. split; [done|]. split; [done|].
    apply IH. rewrite <- Hz. f_equal. lia.
Qed.

Lemma length_c_string l : (length (c_string l) <= length l)%nat.
Proof. induction l as [|c l IH]; cbn [c_string length]; [lia|]. destruct (c =? 0); cbn [length]; lia. Qed.

(** print_user sends the bytes it is given up to their first 0, each newline
    followed by a carriage return; only its buffer changes. *)
Lemma print_user_transmits u0 buff user length s rest :
  let text := c_string (load_bytes (Z.to_nat length) (io_ram s) user) in
  u_lcr (uart_of u0 s) .& DLAB = 0 -> 0 <= length < BUFF_SIZE ->
  user + length <= buff \/ buff + BUFF_SIZE <= user ->
  ready XMTRDY (List.length (crlf text)) (io_in s) rest ->
  exists s', console_print_user buff user length s = Some s' /\ printed u0 text s s' rest /\
    (forall a, ~ (buff <= a < buff + BUFF_SIZE) -> ld8 (io_ram s') a = ld8 (io_ram s) a).
Proof.
  intros text Hd Hlen Hap Hr. unfold BUFF_SIZE, console_print_user in *.
  set (m := st8 (memcpy (io_ram s) buff user length) (buff + length) 0).
  assert (Hm : forall a, ld8 m a = if a =? buff + length then 0
    else if (buff <=? a) && (a <? buff + length) then ld8 (io_ram s) (user + (a - buff)) else ld8 (io_ram s) a).
  { intros a. unfold m. rewrite ld8_st8, ld8_memcpy by lia. by rewrite (Z.eqb_sym a). }
  assert (El : load_bytes (Z.to_nat length) m buff = load_bytes (Z.to_nat length) (io_ram s) user).
  { apply load_bytes_ext. intros i Hi. rewrite Hm. zcase; cbn [andb]; try lia. f_equal. lia. }
  assert (Hs : cstr_at m buff text).
  { unfold text. rewrite <- El. apply cstr_at_c_string. rewrite Hm, Z2Nat.id by lia. by rewrite Z.eqb_refl. }
  destruct (serial_write_sends u0 (S (Z.to_nat length)) buff (set_io_ram m s) text rest Hd Hs) as (s' & E & Hi & [R U]); [|exact Hr|].
  { pose proof (length_c_string (load_bytes (Z.to_nat length) (io_ram s) user)) as H. fold text in H.
    assert (Hl : forall n m a, List.length (load_bytes n m a) = n) by (induction n; intros; cbn; [done|by f_equal]). rewrite Hl in H. lia. }
  exists s'. split; [exact E|]. split; [by split|]. intros a Ha. rewrite R. change (io_ram (set_io_ram m s)) with m. rewrite Hm. zcase; cbn [andb]; try done; lia.
Qed.

(** C36: printf sends exactly the formatted text over the serial line, each
    newline followed by a carriage return, and returns as soon as the device
    has been ready once per character; only its buffer changes. *)
Theorem printf_transmits u0 buff format args s rest :
  u_lcr (uart_of u0 s) .& DLAB = 0 ->
  Forall (fun c => 0 < c < 256) (vprintf format args) -> Z.of_nat (length (vprintf format args)) < BUFF_SIZE ->
  ready XMTRDY (length (crlf (vprintf format args))) (io_in s) rest ->
  exists s', console_printf buff format args s = Some s' /\ printed u0 (vprintf format args) s s' rest /\
    (forall a, ~ (buff <= a < buff + BUFF_SIZE) -> ld8 (io_ram s') a = ld8 (io_ram s) a).
Proof. exact (console_printf_ok u0 buff format args s rest). Qed.

Lemma serial_read_ok u0 buf line junk rest s :
  delivers (line ++ 13 :: junk ++ [10]) (io_in s) rest ->
  Forall (fun c => c <> 13) line -> Forall (fun c => c <> 10) junk -> Z.of_nat (length line) < 2^32 ->
  exists s', serial_read buf s = Some s' /\ io_in s' = rest /\
    io_ram s' = st8 (store_bytes (io_ram s) buf line) (buf + Z.of_nat (length line)) 0 /\
    uart_of u0 s' = uart_of u0 s.
Proof.
  intros Hd Hl Hj Hlen. pose proof (delivers_length _ _ _ Hd) as HL. rewrite length_app in HL. cbn [length] in HL.
  destruct (read_line_delivers u0 line _ rest buf 0 (length (io_in s)) s Hd Hl) as (s1 & E1 & Hd1 & Er1 & Eu1); [lia..|].
  unfold serial_read. rewrite E1. rewrite Z.add_0_r in Er1. rewrite Z.add_0_l.
  pose proof (delivers_length _ _ _ Hd1) as HL1. rewrite length_app in HL1. cbn [length] in HL1.
  destruct (skip_line_delivers u0 junk [] rest (length (io_in s1)) (set_io_ram (st8 (io_ram s1) (buf + Z.of_nat (length line)) 0) s1) Hd1 Hj)
    as (s2 & E2 & Hd2 & Er2 & Eu2); [lia|].
  exists s2. split; [done|]. split; [by inversion Hd2|]. split; [by rewrite Er2, <- Er1|]. rewrite Eu2. exact Eu1.
Qed.

(** C37: serial_read stores the line up to the carriage return, ended by a NUL,
    drops what follows up to the newline, and returns as soon as the device
    has delivered it; the buffer's size plays no role. *)
Theorem serial_read_line u0 buf line junk rest s :
  delivers (line ++ 13 :: junk ++ [10]) (io_in s) rest ->
  Forall (fun c => c <> 13) line -> Forall (fun c => c <> 10) junk -> Z.of_nat (length line) < 2^32 ->
  exists s', serial_read buf s = Some s' /\ io_in s' = rest /\
    io_ram s' = st8 (store_bytes (io_ram s) buf line) (buf + Z.of_nat (length line)) 0 /\
    uart_of u0 s' = uart_of u0 s.
Proof. exact (serial_read_ok u0 buf line junk rest s). Qed.

(** serial_init programs 9600 baud, leaves the divisor latch closed and
    sends nothing. *)
Lemma serial_init_ok u0 s c rest :
  io_in s = c :: rest ->
  exists s', serial_init s = Some s' /\ io_in s' = rest /\ io_ram s' = io_ram s /\
    115200 / (u_dll (uart_of u0 s') + 256 * u_dlh (uart_of u0 s')) = BAUD /\
    u_lcr (uart_of u0 s') .& DLAB = 0 /\ u_sent (uart_of u0 s') = u_sent (uart_of u0 s).
Proof.
  intros Hc. destruct s as [m inp]. cbn in Hc. subst inp. unfold serial_init. cbn [inb io_in outb].
  eexists. split; [reflexivity|]. split; [done|]. split; [done|].
  set (u := uart_of u0 (IO m (c :: rest))).
  assert (Hw : forall v, 0 <= v < 256 -> Z.land (u8 (v .| DLAB)) DLAB <> 0 /\ Z.land (u8 (v .& Z.lnot DLAB)) DLAB = 0).
  { intros v Hv. split.
    - intros E. apply (f_equal (fun z => Z.testbit z 7)) in E. revert E.
      rewrite Z.land_spec, Z.bits_0. unfold u8. rewrite Z.mod_pow2_bits_low by lia. rewrite Z.lor_spec.
      change (Z.testbit DLAB 7) with true. by rewrite orb_true_r.
    - apply Z.bits_inj'. intros i Hi. rewrite Z.land_spec, Z.bits_0. unfold u8.
      destruct (Z.eq_dec i 7) as [->|Hne].
      + rewrite Z.mod_pow2_bits_low by lia. rewrite Z.land_spec, Z.lnot_spec by lia.
        change (Z.testbit DLAB 7) with true. cbn. by rewrite andb_false_r.
      + change DLAB with (2 ^ 7) at 2. rewrite (Z.pow2_bits_false 7 i) by lia. by rewrite andb_false_r. }
  destruct (Hw (u8 c)) as [H1 H2]; [apply Z.mod_pos_bound; lia|].
  set (v1 := u8 (u8 c .| DLAB)) in *. set (v2 := u8 (u8 c .& Z.lnot DLAB)) in *.
  match goal with |- context [uart_of u0 ?x] => assert (Hu : uart_of u0 x = Uart v2 12 0 (u_sent u)) end.
  2:{ rewrite Hu. split; [reflexivity|]. by split. }
  transitivity (uart_out 0x3fb v2 (uart_out 0x3f9 0 (uart_out 0x3f8 12 (uart_out 0x3fb v1
    (uart_out 0x3fc 3 (uart_out 0x3fa 0 (uart_out 0x3f9 0 (uart_out 0x3fb 3 u)))))))); [reflexivity|].
  change (uart_out 0x3fc 3 (uart_out 0x3fa 0 (uart_out 0x3f9 0 (uart_out 0x3fb 3 u)))) with (Uart 3 (u_dll u) (u_dlh u) (u_sent u)).
  change (uart_out 0x3fb v1 (Uart 3 (u_dll u) (u_dlh u) (u_sent u))) with (Uart v1 (u_dll u) (u_dlh u) (u_sent u)).
  assert (E1 : (v1 .& DLAB =? 0) = false) by (by apply Z.eqb_neq).
  assert (E2 : uart_out 0x3f8 12 (Uart v1 (u_dll u) (u_dlh u) (u_sent u)) = Uart v1 12 (u_dlh u) (u_sent u)).
  { unfold uart_out. cbn [u_lcr]. by rewrite E1. }
  assert (E3 : uart_out 0x3f9 0 (Uart v1 12 (u_dlh u) (u_sent u)) = Uart v1 12 0 (u_sent u)).
  { unfold uart_out. cbn [u_lcr]. by rewrite E1. }
  rewrite E2, E3. reflexivity.
Qed.

(** ** A console for the witnesses: the device is always ready *)

Definition idle_uart : uart := Uart 3 12 0 [].
Definition console (m : mem) (answers : list Z) : io := IO (Machine m []) answers.

(** Ranges of concrete bytes are checked by computation. *)
Lemma Forall_between lo hi l : forallb (fun c => (lo <=? c) && (c <? hi)) l = true -> Forall (fun c => lo <= c < hi) l.
Proof. rewrite forallb_forall, List.Forall_forall. intros H c Hc%H. lia. Qed.

Lemma ready_now_n n rest : ready XMTRDY n (replicate n 0x20 ++ rest) rest.
Proof. induction n; cbn [replicate app]; [constructor|]. by apply ready_now. Qed.

(** The prompt of the shell. *)
Lemma printf_transmits_witness : exists s',
  console_printf 0x5000 (codes "GemOS# ") [] (console ∅ (replicate 7 0x20)) = Some s' /\
  u_sent (uart_of idle_uart s') = codes "GemOS# ".
Proof.
  destruct (printf_transmits idle_uart 0x5000 (codes "GemOS# ") [] (console ∅ (replicate 7 0x20)) []) as (s' & E & [_ P] & _).
  - reflexivity.
  - eapply List.Forall_impl; [|apply (Forall_between 1 256); reflexivity]. cbv beta. lia.
  - reflexivity.
  - rewrite <- (app_nil_r (replicate 7 0x20)). exact (ready_now_n 7 []).
  - exists s'. split; [exact E|]. rewrite P. reflexivity.
Defined.

Lemma delivers_ready cs rest :
  Forall (fun c => 0 <= c < 256) cs -> delivers cs (flat_map (fun c => [1; c]) cs ++ rest) rest.
Proof.
  induction 1 as [|c cs Hc _ IH]; cbn [flat_map app]; [constructor|]. by apply delivers_byte.
Qed.

(** The user types "stats". *)
Lemma serial_read_line_witness : exists s',
  serial_read 0x6000 (console ∅ (flat_map (fun c => [1; c]) (codes "stats" ++ [13; 10]))) = Some s' /\
  io_ram s' = st8 (store_bytes ∅ 0x6000 (codes "stats")) 0x6005 0.
Proof.
  destruct (serial_read_line idle_uart 0x6000 (codes "stats") [] [] (console ∅ (flat_map (fun c => [1; c]) (codes "stats" ++ [13; 10]))))
    as (s' & E & _ & R & _).
  - assert (H : Forall (fun c => 0 <= c < 256) (codes "stats" ++ 13 :: [] ++ [10])) by (by apply Forall_between).
    pose proof (delivers_ready _ [] H) as D. rewrite app_nil_r in D. exact D.
  - eapply List.Forall_impl; [|apply (Forall_between 14 256); reflexivity]. cbv beta. lia.
  - constructor.
  - reflexivity.
  - exists s'. split; [exact E|exact R].
Defined.
