(* ===== verification/Kbd.v ===== *)
(** * The keyboard: kbd.c and kbd.h

    [kbd_read] polls the controller, decodes scancodes and keeps the state of
    the shift and caps-lock keys in the static [kbd_status].  The device's
    answers are those of [Serial.inb]. *)
From S2P Require Import Prelude Mem Lib Machine Printf Serial.
#[local] Open Scope gemos_scope.

Definition KBD_CTRL_PORT : Z := 0x64.
Definition KBD_DATA_PORT : Z := 0x60.
Definition KBD_CDATA_BIT : Z := 0.
Definition KBD_DDATA_BIT : Z := 1.
Definition KBRD_RESET : Z := 0xFE.

Definition SC_ERROR : Z := 0.
Definition SC_CAPS : Z := 58.
Definition SC_LSFT : Z := 42.
Definition SC_RSFT : Z := 54.
Definition SC_LSFT_REL : Z := 170.
Definition SC_RSFT_REL : Z := 182.

(** The bits of [kbd_status]. *)
Definition CAPS_ON : Z := 0.
Definition LSHIFT : Z := 1.
Definition RSHIFT : Z := 2.

(** The key maps; entries past the end are 0. *)
Definition kbmap_base : list Z :=
  [0; 27] ++ codes "1234567890-=" ++ [8; 9] ++ codes "qwertyuiop[]" ++ [10; 0] ++
  codes "asdfghjkl;'`" ++ [0; 92] ++ codes "zxcvbnm,./" ++ [0; 0; 0; 32; 0; 0; 0; 0; 0].

Definition kbmap_upper : list Z :=
  [0; 27] ++ codes "!@#$%^&*()_+" ++ [8; 9] ++ codes "QWERTYUIOP{}" ++ [10; 0] ++
  codes "ASDFGHJKL:" ++ [34] ++ codes "~" ++ [0] ++ codes "|" ++ codes "ZXCVBNM<>?" ++ [0; 0; 0; 32; 0; 0; 0; 0; 0].

Definition key (kbmap : list Z) (scancode : Z) : Z := nth (Z.to_nat scancode) kbmap 0.

(** Everything [kbd_read] works on: the machine and the static status. *)
Record kbd := Kbd { kb_io : io; kbd_status : Z }.

(** The [switch] on a key release. *)
Definition release_status (scancode st : Z) : Z :=
  if scancode =? SC_LSFT_REL then flip_bit st LSHIFT
  else if scancode =? SC_RSFT_REL then flip_bit st RSHIFT
  else st.

(** The character of an ordinary key. *)
Definition key_char (scancode st : Z) : Z :=
  if (st =? 1) || (st =? 2) || (st =? 4) then key kbmap_upper scancode else key kbmap_base scancode.

(** [fuel] is the number of answers the device has. *)
Fixpoint kbd_read_loop (fuel : nat) (s ctr : Z) (k : kbd) : option kbd :=
  match fuel with
  | O => None
  | S fuel =>
      match inb KBD_CTRL_PORT (kb_io k) with
      | None => None
      | Some (v, d) =>
          if v .& 1 =? 0 then kbd_read_loop fuel s ctr (Kbd d (kbd_status k))
          else
            match inb KBD_DATA_PORT d with
            | None => None
            | Some (scancode, d) =>
                let st := kbd_status k in
                if negb (scancode .& 0x80 =? 0) then kbd_read_loop fuel s ctr (Kbd d (release_status scancode st))
                else if scancode =? SC_ERROR then kbd_read_loop fuel s ctr (Kbd d st)
                else if scancode =? SC_CAPS then kbd_read_loop fuel s ctr (Kbd d (flip_bit st CAPS_ON))
                else if scancode =? SC_LSFT then kbd_read_loop fuel s ctr (Kbd d (flip_bit st LSHIFT))
                else if scancode =? SC_RSFT then kbd_read_loop fuel s ctr (Kbd d (flip_bit st RSHIFT))
                else
                  let ch := key_char scancode st in
                  let d := IO (emit (EPrintf "%c" [PInt ch]) (io_mach d)) (io_in d) in
                  let d := set_io_ram (st8 (io_ram d) (s + ctr) ch) d in
                  if key kbmap_base scancode =? 10 then
                    Some (Kbd (set_io_ram (st8 (io_ram d) (s + ctr) 0) d) st)
                  else kbd_read_loop fuel s (u32 (ctr + 1)) (Kbd d st)
            end
      end
  end.

Definition kbd_read (s : Z) (k : kbd) : option kbd := kbd_read_loop (length (io_in (kb_io k))) s 0 k.

(** The loop of [kbd_reboot] that empties the buffers. *)
Fixpoint drain_loop (fuel : nat) (d : io) : option io :=
  match fuel with
  | O => None
  | S fuel =>
      match inb KBD_CTRL_PORT d with
      | None => None
      | Some (temp, d) =>
          let d := if negb (temp .& (1 << KBD_CDATA_BIT) =? 0)
                   then match inb KBD_DATA_PORT d with None => None | Some (_, d) => Some d end
                   else Some d in
          match d with
          | None => None
          | Some d => if negb (temp .& (1 << KBD_DDATA_BIT) =? 0) then drain_loop fuel d else Some d
          end
      end
  end.

(** The machine as [kbd_reboot] halts for ever, unless the reset line has reset it. *)
Definition kbd_reboot (d : io) : option io :=
  match drain_loop (length (io_in d)) d with
  | None => None
  | Some d => Some (outb KBD_CTRL_PORT KBRD_RESET d)
  end.

(** ** Typing *)

(** [presses scs inp rest]: the keyboard reports the scancodes [scs]. *)
Inductive presses : list Z -> list Z -> list Z -> Prop :=
| presses_done rest : presses [] rest rest
| presses_wait sc scs v inp rest : u8 v .& 1 = 0 -> presses (sc :: scs) inp rest -> presses (sc :: scs) (v :: inp) rest
| presses_key sc scs v inp rest : u8 v .& 1 <> 0 -> 0 <= sc < 256 ->
    presses scs inp rest -> presses (sc :: scs) (v :: sc :: inp) rest.

(** The position of a character in a key map. *)
Fixpoint index_of (c : Z) (l : list Z) (i : Z) : option Z :=
  match l with
  | [] => None
  | x :: l => if x =? c then Some i else index_of c l (i + 1)
  end.

(** The keys a typist presses for a character: the key itself, or the key
    between pressing and releasing the left shift. *)
Definition keys_for (c : Z) : option (list Z) :=
  match index_of c kbmap_base 0 with
  | Some sc => Some [sc]
  | None => match index_of c kbmap_upper 0 with
            | Some sc => Some [SC_LSFT; sc; SC_LSFT_REL]
            | None => None
            end
  end.

(** Characters that can be typed on a line. *)
Definition typeable (c : Z) : bool :=
  (32 <=? c) && (c <? 127) && match keys_for c with Some _ => true | None => false end.

Definition keys_of (text : list Z) : list Z := flat_map (fun c => default [] (keys_for c)) text.
Definition SC_ENTER : Z := 28.

(** Every printable character has keys, and they give it back. *)
Lemma typeable_all : forallb typeable (map Z.of_nat (seq 32 95)) = true.
Proof. reflexivity. Qed.

(** A key that is neither a release nor one of the special keys, and not Enter. *)
Definition plain_key (sc : Z) : bool :=
  (sc <? 128) && negb (sc =? SC_ERROR) && negb (sc =? SC_CAPS) && negb (sc =? SC_LSFT) && negb (sc =? SC_RSFT)
  && negb (key kbmap_base sc =? 10) && (0 <=? sc).

Definition keys_good (c : Z) : bool :=
  match keys_for c with
  | Some [sc] => plain_key sc && (key_char sc 0 =? c)
  | Some [sh; sc; rel] => (sh =? SC_LSFT) && (rel =? SC_LSFT_REL) && plain_key sc && (key_char sc 2 =? c)
  | _ => false
  end.

Lemma keys_good_all : forallb keys_good (map Z.of_nat (seq 32 95)) = true.
Proof. reflexivity. Qed.

Lemma keys_good_printable c : 32 <= c < 127 -> keys_good c = true.
Proof.
  intros Hc. pose proof keys_good_all as H. rewrite forallb_forall in H. apply H.
  apply in_map_iff. exists (Z.to_nat c). split; [lia|]. apply in_seq. lia.
Qed.

(** What the loop does with a scancode. *)
Definition on_key (fuel : nat) (s ctr sc : Z) (d : io) (st : Z) : option kbd :=
  if negb (sc .& 0x80 =? 0) then kbd_read_loop fuel s ctr (Kbd d (release_status sc st))
  else if sc =? SC_ERROR then kbd_read_loop fuel s ctr (Kbd d st)
  else if sc =? SC_CAPS then kbd_read_loop fuel s ctr (Kbd d (flip_bit st CAPS_ON))
  else if sc =? SC_LSFT then kbd_read_loop fuel s ctr (Kbd d (flip_bit st LSHIFT))
  else if sc =? SC_RSFT then kbd_read_loop fuel s ctr (Kbd d (flip_bit st RSHIFT))
  else
    let ch := key_char sc st in
    let d := IO (emit (EPrintf "%c" [PInt ch]) (io_mach d)) (io_in d) in
    let d := set_io_ram (st8 (io_ram d) (s + ctr) ch) d in
    if key kbmap_base sc =? 10 then Some (Kbd (set_io_ram (st8 (io_ram d) (s + ctr) 0) d) st)
    else kbd_read_loop fuel s (u32 (ctr + 1)) (Kbd d st).

(** The loop reads the next scancode. *)
Lemma kbd_press l inp rest : presses l inp rest ->
  forall sc scs fuel m st s ctr, l = sc :: scs -> (length inp <= fuel)%nat ->
  exists fuel' m' inp', kbd_read_loop fuel s ctr (Kbd (IO m inp) st) = on_key fuel' s ctr sc (IO m' inp') st /\
    (length inp' <= fuel')%nat /\ ram m' = ram m /\ presses scs inp' rest.
Proof.
  induction 1 as [rest|sc0 scs0 v inp rest Hb Hp IH|sc0 scs0 v inp rest Hv Hc Hp IH]; intros sc scs fuel m st s ctr El Hf; [done| |];
    (destruct fuel as [|fuel]; [cbn in Hf; lia|]); cbn [kbd_read_loop kb_io kbd_status]; rewrite inb_cons.
  - rewrite Hb, Z.eqb_refl. destruct (IH sc scs fuel (emit (EInb (u16 KBD_CTRL_PORT) (u8 v)) m) st s ctr El) as (f & m' & inp' & E & Hl & Hr & Hp');
      [cbn in Hf; lia|].
    exists f, m', inp'. done.
  - rewrite (proj2 (Z.eqb_neq _ _)) by done. rewrite inb_cons. injection El as -> ->.
    replace (u8 sc) with sc by (symmetry; apply Z.mod_small; lia).
    eexists fuel, _, inp. split; [reflexivity|]. split; [cbn in Hf; lia|]. done.
Qed.

(** An ordinary key stores its character. *)
Lemma kbd_plain sc scs inp rest fuel m st s ctr :
  presses (sc :: scs) inp rest -> (length inp <= fuel)%nat -> plain_key sc = true -> 0 <= ctr < 2^32 - 1 ->
  exists fuel' m' inp', kbd_read_loop fuel s ctr (Kbd (IO m inp) st) = kbd_read_loop fuel' s (ctr + 1) (Kbd (IO m' inp') st) /\
    (length inp' <= fuel')%nat /\ ram m' = st8 (ram m) (s + ctr) (key_char sc st) /\ presses scs inp' rest.
Proof.
  intros Hp Hf Hk Hctr. destruct (kbd_press _ _ _ Hp sc scs fuel m st s ctr eq_refl Hf) as (f & m' & inp' & E & Hl & Hr & Hp').
  unfold plain_key in Hk. rewrite !andb_true_iff, !negb_true_iff in Hk. destruct Hk as [[[[[[K1 K2] K3] K4] K5] K6] K7].
  rewrite E. unfold on_key. rewrite K2, K3, K4, K5, K6.
  assert (Ehi : sc .& 0x80 = 0).
  { change 0x80 with (2^7). apply Z.bits_inj'. intros i Hi. rewrite Z.land_spec, Z.bits_0.
    destruct (Z.eq_dec i 7) as [->|Hne]; [|by rewrite (Z.pow2_bits_false 7 i), andb_false_r by lia].
    rewrite (testbit_high sc 7 7) by lia. done. }
  rewrite Ehi. cbn [Z.eqb negb]. rewrite u32_small by lia.
  eexists f, _, inp'. split; [reflexivity|]. split; [done|]. split; [|done].
  cbn [io_mach set_io_ram set_ram ram io_ram emit]. unfold io_ram. cbn [io_mach ram emit]. by rewrite Hr.
Qed.

(** The left shift, pressed or released. *)
Lemma kbd_shift sc scs inp rest fuel m st s ctr :
  presses (sc :: scs) inp rest -> (length inp <= fuel)%nat -> sc = SC_LSFT \/ sc = SC_LSFT_REL ->
  exists fuel' m' inp', kbd_read_loop fuel s ctr (Kbd (IO m inp) st) = kbd_read_loop fuel' s ctr (Kbd (IO m' inp') (flip_bit st LSHIFT)) /\
    (length inp' <= fuel')%nat /\ ram m' = ram m /\ presses scs inp' rest.
Proof.
  intros Hp Hf Hk. destruct (kbd_press _ _ _ Hp sc scs fuel m st s ctr eq_refl Hf) as (f & m' & inp' & E & Hl & Hr & Hp').
  exists f, m', inp'. rewrite E. split; [|done]. by destruct Hk as [->| ->].
Qed.

(** The keys of a character store it, and leave no shift behind. *)
Lemma kbd_types c scs inp rest fuel m s ctr :
  32 <= c < 127 -> presses (default [] (keys_for c) ++ scs) inp rest -> (length inp <= fuel)%nat -> 0 <= ctr < 2^32 - 1 ->
  exists fuel' m' inp', kbd_read_loop fuel s ctr (Kbd (IO m inp) 0) = kbd_read_loop fuel' s (ctr + 1) (Kbd (IO m' inp') 0) /\
    (length inp' <= fuel')%nat /\ ram m' = st8 (ram m) (s + ctr) c /\ presses scs inp' rest.
Proof.
  intros Hc Hp Hf Hctr. pose proof (keys_good_printable c Hc) as Hg. unfold keys_good in Hg.
  destruct (keys_for c) as [[|a [|b [|d [|]]]]|]; try discriminate Hg; cbn [default from_option id app] in Hp.
  - apply andb_true_iff in Hg as [Hk Hch%Z.eqb_eq].
    destruct (kbd_plain a scs inp rest fuel m 0 s ctr Hp Hf Hk Hctr) as (f & m' & inp' & E & Hl & Hr & Hp').
    exists f, m', inp'. rewrite E, Hr, Hch. done.
  - apply andb_true_iff in Hg as [Hg Hch%Z.eqb_eq]. apply andb_true_iff in Hg as [Hg Hk].
    apply andb_true_iff in Hg as [->%Z.eqb_eq ->%Z.eqb_eq].
    destruct (kbd_shift _ _ inp rest fuel m 0 s ctr Hp Hf (or_introl eq_refl)) as (f1 & m1 & inp1 & E1 & Hl1 & Hr1 & Hp1).
    change (flip_bit 0 LSHIFT) with 2 in E1.
    destruct (kbd_plain b _ inp1 rest f1 m1 2 s ctr Hp1 Hl1 Hk Hctr) as (f2 & m2 & inp2 & E2 & Hl2 & Hr2 & Hp2).
    destruct (kbd_shift _ _ inp2 rest f2 m2 2 s (ctr + 1) Hp2 Hl2 (or_intror eq_refl)) as (f3 & m3 & inp3 & E3 & Hl3 & Hr3 & Hp3).
    change (flip_bit 2 LSHIFT) with 0 in E3.
    exists f3, m3, inp3. rewrite E1, E2, E3. split; [done|]. split; [done|]. split; [|done].
    by rewrite Hr3, Hr2, Hr1, Hch.
Qed.

Lemma kbd_types_text text inp rest fuel m s ctr :
  Forall (fun c => 32 <= c < 127) text -> presses (keys_of text ++ [SC_ENTER]) inp rest -> (length inp <= fuel)%nat ->
  0 <= ctr -> ctr + Z.of_nat (length text) < 2^32 - 1 ->
  exists k', kbd_read_loop fuel s ctr (Kbd (IO m inp) 0) = Some k' /\ io_in (kb_io k') = rest /\ kbd_status k' = 0 /\
    mem_equiv (io_ram (kb_io k')) (st8 (store_bytes (ram m) (s + ctr) text) (s + ctr + Z.of_nat (length text)) 0).
Proof.
  revert fuel m inp ctr. induction text as [|c text IH]; intros fuel m inp ctr Ht Hp Hf H0 Hb; cbn [keys_of flat_map app] in Hp.
  - destruct (kbd_press _ _ _ Hp SC_ENTER [] fuel m 0 s ctr eq_refl Hf) as (f & m' & inp' & E & Hl & Hr & Hp').
    inversion Hp'; subst. rewrite E. eexists. split; [reflexivity|]. split; [done|]. split; [done|].
    cbn [kb_io store_bytes length]. intros a. unfold io_ram. cbn [set_io_ram io_mach set_ram ram emit].
    rewrite Nat2Z.inj_0, Z.add_0_r, Hr, !ld8_st8. by destruct (s + ctr =? a).
  - apply Forall_cons in Ht as [Hc Ht]. rewrite <- app_assoc in Hp. cbn [length] in Hb.
    destruct (kbd_types c _ inp rest fuel m s ctr Hc Hp Hf ltac:(lia)) as (f & m' & inp' & E & Hl & Hr & Hp').
    destruct (IH f m' inp' (ctr + 1) Ht Hp' Hl ltac:(lia) ltac:(lia)) as (k' & E' & Hi & Hs & Hm).
    exists k'. rewrite E, E'. split; [done|]. split; [done|]. split; [done|]. intros a. rewrite Hm, Hr. cbn [store_bytes length].
    replace (s + (ctr + 1)) with (s + ctr + 1) by lia.
    by replace (s + ctr + 1 + Z.of_nat (length text)) with (s + ctr + Z.of_nat (S (length text))) by lia.
Qed.

(** What the controller says while its buffers are emptied: the data to read
    with a status [v], and statuses until one says that the input buffer is
    empty. *)
Definition data_of (v : Z) (ds : list Z) : Prop :=
  if u8 v .& (1 << KBD_CDATA_BIT) =? 0 then ds = [] else exists c, ds = [c].

Inductive drained : list Z -> list Z -> Prop :=
| drained_last v ds rest : data_of v ds -> u8 v .& (1 << KBD_DDATA_BIT) = 0 -> drained (v :: ds ++ rest) rest
| drained_more v ds inp rest : data_of v ds -> u8 v .& (1 << KBD_DDATA_BIT) <> 0 -> drained inp rest ->
    drained (v :: ds ++ inp) rest.

Definition is_read (e : event) : Prop := exists port v, e = EInb port v.

(** One status and its data. *)
Lemma drain_loop_step fuel v ds inp m :
  data_of v ds -> exists reads, Forall is_read reads /\
    drain_loop (S fuel) (IO m (v :: ds ++ inp)) =
      (if negb (u8 v .& (1 << KBD_DDATA_BIT) =? 0) then drain_loop fuel (IO (Machine (ram m) (reads ++ trace m)) inp)
       else Some (IO (Machine (ram m) (reads ++ trace m)) inp)).
Proof.
  intros Hd. unfold data_of in Hd. cbn [drain_loop]. rewrite inb_cons. destruct (u8 v .& (1 << KBD_CDATA_BIT) =? 0).
  - subst ds. exists [EInb (u16 KBD_CTRL_PORT) (u8 v)]. split; [by repeat econstructor|reflexivity].
  - destruct Hd as [c ->]. exists [EInb (u16 KBD_DATA_PORT) (u8 c); EInb (u16 KBD_CTRL_PORT) (u8 v)].
    split; [by repeat econstructor|reflexivity].
Qed.

Lemma drain_loop_drained inp rest : drained inp rest -> forall fuel m, (length inp <= fuel)%nat ->
  exists reads, Forall is_read reads /\ drain_loop fuel (IO m inp) = Some (IO (Machine (ram m) (reads ++ trace m)) rest).
Proof.
  induction 1 as [v ds rest Hd Hs|v ds inp rest Hd Hs _ IH]; intros fuel m Hf; (destruct fuel as [|fuel]; [cbn in Hf; lia|]).
  - destruct (drain_loop_step fuel v ds rest m Hd) as (reads & Hr & E). exists reads. split; [done|].
    rewrite E, Hs. reflexivity.
  - destruct (drain_loop_step fuel v ds inp m Hd) as (reads & Hr & E). cbn [length] in Hf. rewrite length_app in Hf.
    destruct (IH fuel (Machine (ram m) (reads ++ trace m)) ltac:(lia)) as (reads' & Hr' & E').
    exists (reads' ++ reads). split; [by apply Forall_app|]. rewrite E, (proj2 (Z.eqb_neq _ _)) by done. cbn [negb].
    rewrite E'. cbn [ram trace]. by rewrite app_assoc.
Qed.

(** [kbd_reboot] empties the buffers and then pulses the reset line. *)
Lemma kbd_reboot_resets inp rest m : drained inp rest ->
  exists reads, Forall is_read reads /\
    kbd_reboot (IO m inp) = Some (IO (Machine (ram m) (EOutb KBD_CTRL_PORT KBRD_RESET :: reads ++ trace m)) rest).
Proof.
  intros Hd. destruct (drain_loop_drained inp rest Hd (length inp) m ltac:(done)) as (reads & Hr & E).
  exists reads. split; [done|]. unfold kbd_reboot. cbn [io_in]. by rewrite E.
Qed.

(** C38: typing a line of printable characters, with the left shift where a
    character needs it, and Enter makes kbd_read store exactly that line,
    ended by a NUL, and leaves the shift state as it was. *)
Theorem kbd_read_types text inp rest m s :
  Forall (fun c => 32 <= c < 127) text -> presses (keys_of text ++ [SC_ENTER]) inp rest ->
  Z.of_nat (length text) < 2^32 - 1 ->
  exists k', kbd_read s (Kbd (IO m inp) 0) = Some k' /\ io_in (kb_io k') = rest /\ kbd_status k' = 0 /\
    mem_equiv (io_ram (kb_io k')) (st8 (store_bytes (ram m) s text) (s + Z.of_nat (length text)) 0).
Proof.
  intros Ht Hp Hl. destruct (kbd_types_text text inp rest (length inp) m s 0 Ht Hp ltac:(done) ltac:(lia) ltac:(lia))
    as (k' & E & H). rewrite Z.add_0_r in H. by exists k'.
Qed.

(** With caps lock on, shift gives the unshifted character. *)
Lemma caps_and_shift : key_char 30 (flip_bit (flip_bit 0 CAPS_ON) LSHIFT) = 97 /\ key_char 30 (flip_bit 0 CAPS_ON) = 65.
Proof. done. Qed.

Lemma presses_ready scs rest :
  Forall (fun c => 0 <= c < 256) scs -> presses scs (flat_map (fun c => [1; c]) scs ++ rest) rest.
Proof. induction 1 as [|c cs Hc _ IH]; cbn [flat_map app]; [constructor|]. by apply presses_key. Qed.

(** "Hi 5!" *)
Lemma kbd_read_types_witness : exists k',
  kbd_read 0x6000 (Kbd (IO (Machine ∅ []) (flat_map (fun c => [1; c]) (keys_of (codes "Hi 5!") ++ [SC_ENTER]))) 0) = Some k' /\
  mem_equiv (io_ram (kb_io k')) (st8 (store_bytes ∅ 0x6000 (codes "Hi 5!")) 0x6005 0).
Proof.
  destruct (kbd_read_types (codes "Hi 5!") (flat_map (fun c => [1; c]) (keys_of (codes "Hi 5!") ++ [SC_ENTER])) [] (Machine ∅ []) 0x6000)
    as (k' & E & _ & _ & H).
  - eapply List.Forall_impl; [|apply (Forall_between 32 127); reflexivity]. cbv beta. lia.
  - assert (H : Forall (fun c => 0 <= c < 256) (keys_of (codes "Hi 5!") ++ [SC_ENTER])) by (by apply Forall_between).
    pose proof (presses_ready _ [] H) as D. rewrite app_nil_r in D. exact D.
  - reflexivity.
  - exists k'. exact (conj E H).
Defined.
