(* ===== verification/Kernel.v ===== *)
(** * The kernel's state: contexts, statistics, configuration

    The process table [ctx_list] and [current] of context.c, the counters and
    options of include/entry.h, and the variables of apic.c and idt.c that the
    process code uses, beside the memory of [Memory].  A [struct exec_context *]
    is an index into the table; NULL is [None].  [M] is the monad of kernel
    code that may leave the kernel or dereference NULL. *)
From S2P Require Import Prelude Mem Lib Machine Memory PageAlloc NextFrames Frames PageTable.
Local Open Scope gemos_scope.

(** ** Execution contexts (include/context.h, include/schedule.h) *)

Definition CNAME_MAX : Z := 64.
Definition MAX_PROCESSES : Z := 16.

Definition EXEC_CTX_BOOT : Z := 0.
Definition EXEC_CTX_OS : Z := 1.
Definition EXEC_CTX_USER : Z := 2.

Inductive segment := MM_SEG_CODE | MM_SEG_RODATA | MM_SEG_DATA | MM_SEG_STACK.

Definition CODE_START : Z := 0x100000000.
Definition RODATA_START : Z := 0x140000000.
Definition DATA_START : Z := 0x180000000.
Definition STACK_START : Z := 0x800000000.
Definition CODE_PAGES : Z := 8.
Definition MAX_STACK_SIZE : Z := 0x1000000.

Definition SIGSEGV : Z := 0.
Definition SIGFPE : Z := 1.
Definition SIGALRM : Z := 2.
Definition MAX_SIGNALS : Z := 3.

Inductive process_state := UNUSED | NEW | READY | RUNNING | WAITING | EXITING.
Definition MAX_STATE : Z := 6.

#[export] Instance process_state_eq_dec : EqDecision process_state.
Proof. solve_decision. Defined.
#[export] Instance segment_eq_dec : EqDecision segment.
Proof. solve_decision. Defined.

(** The values of the enumeration. *)
Definition process_state_of (z : Z) : process_state :=
  match z with 0 => UNUSED | 1 => NEW | 2 => READY | 3 => RUNNING | 4 => WAITING | _ => EXITING end.

Record user_regs := UserRegs {
  r15 : Z; r14 : Z; r13 : Z; r12 : Z; r11 : Z; r10 : Z; r9 : Z; r8 : Z;
  rbp : Z; rdi : Z; rsi : Z; rdx : Z; rcx : Z; rbx : Z; rax : Z;
  entry_rip : Z; entry_cs : Z; entry_rflags : Z; entry_rsp : Z; entry_ss : Z
}.

Definition zero_regs : user_regs := UserRegs 0 0 0 0 0 0 0 0 0 0 0 0 0 0 0 0 0 0 0 0.

(** The words of [struct user_regs] in memory order. *)
Definition regs_words (r : user_regs) : list Z :=
  [r15 r; r14 r; r13 r; r12 r; r11 r; r10 r; r9 r; r8 r; rbp r; rdi r; rsi r; rdx r; rcx r;
   rbx r; rax r; entry_rip r; entry_cs r; entry_rflags r; entry_rsp r; entry_ss r].
Definition sizeof_user_regs : Z := 160.

Definition regs_set_rip_rsp (rip rsp : Z) (r : user_regs) : user_regs :=
  UserRegs (r15 r) (r14 r) (r13 r) (r12 r) (r11 r) (r10 r) (r9 r) (r8 r) (rbp r) (rdi r)
    (rsi r) (rdx r) (rcx r) (rbx r) (rax r) rip (entry_cs r) (entry_rflags r) rsp (entry_ss r).
Definition regs_set_rbp (v : Z) (r : user_regs) : user_regs :=
  UserRegs (r15 r) (r14 r) (r13 r) (r12 r) (r11 r) (r10 r) (r9 r) (r8 r) v (rdi r)
    (rsi r) (rdx r) (rcx r) (rbx r) (rax r) (entry_rip r) (entry_cs r) (entry_rflags r)
    (entry_rsp r) (entry_ss r).

Record exec_context := ExecContext {
  pid : Z;
  ppid : Z;
  ctype : Z;
  state : process_state;
  used_mem : Z;
  pgd : Z;
  os_stack_pfn : Z;
  os_rsp : Z;
  mm_code : mm_segment;
  mm_rodata : mm_segment;
  mm_data : mm_segment;
  mm_stack : mm_segment;
  name : list Z;
  regs : user_regs;
  pending_signal_bitmap : Z;
  sighandlers : list Z;
  ticks_to_sleep : Z;
  alarm_config_time : Z;
  ticks_to_alarm : Z
}.

Definition zero_segment : mm_segment := MMSegment 0 0 0 0.
Definition zero_context : exec_context :=
  ExecContext 0 0 0 UNUSED 0 0 0 0 zero_segment zero_segment zero_segment zero_segment
    (replicate 64 0) zero_regs 0 [0; 0; 0] 0 0 0.

(** [ctx->mms[i]]. *)
Definition mms (c : exec_context) (i : segment) : mm_segment :=
  match i with
  | MM_SEG_CODE => mm_code c | MM_SEG_RODATA => mm_rodata c
  | MM_SEG_DATA => mm_data c | MM_SEG_STACK => mm_stack c
  end.

(** Assignments to the fields. *)
Definition set_pid (v : Z) (c : exec_context) : exec_context :=
  ExecContext v (ppid c) (ctype c) (state c) (used_mem c) (pgd c) (os_stack_pfn c) (os_rsp c)
    (mm_code c) (mm_rodata c) (mm_data c) (mm_stack c) (name c) (regs c) (pending_signal_bitmap c)
    (sighandlers c) (ticks_to_sleep c) (alarm_config_time c) (ticks_to_alarm c).
Definition set_ppid (v : Z) (c : exec_context) : exec_context :=
  ExecContext (pid c) v (ctype c) (state c) (used_mem c) (pgd c) (os_stack_pfn c) (os_rsp c)
    (mm_code c) (mm_rodata c) (mm_data c) (mm_stack c) (name c) (regs c) (pending_signal_bitmap c)
    (sighandlers c) (ticks_to_sleep c) (alarm_config_time c) (ticks_to_alarm c).
Definition set_ctype (v : Z) (c : exec_context) : exec_context :=
  ExecContext (pid c) (ppid c) v (state c) (used_mem c) (pgd c) (os_stack_pfn c) (os_rsp c)
    (mm_code c) (mm_rodata c) (mm_data c) (mm_stack c) (name c) (regs c) (pending_signal_bitmap c)
    (sighandlers c) (ticks_to_sleep c) (alarm_config_time c) (ticks_to_alarm c).
Definition set_state (v : process_state) (c : exec_context) : exec_context :=
  ExecContext (pid c) (ppid c) (ctype c) v (used_mem c) (pgd c) (os_stack_pfn c) (os_rsp c)
    (mm_code c) (mm_rodata c) (mm_data c) (mm_stack c) (name c) (regs c) (pending_signal_bitmap c)
    (sighandlers c) (ticks_to_sleep c) (alarm_config_time c) (ticks_to_alarm c).
Definition set_used_mem (v : Z) (c : exec_context) : exec_context :=
  ExecContext (pid c) (ppid c) (ctype c) (state c) v (pgd c) (os_stack_pfn c) (os_rsp c)
    (mm_code c) (mm_rodata c) (mm_data c) (mm_stack c) (name c) (regs c) (pending_signal_bitmap c)
    (sighandlers c) (ticks_to_sleep c) (alarm_config_time c) (ticks_to_alarm c).
Definition set_pgd (v : Z) (c : exec_context) : exec_context :=
  ExecContext (pid c) (ppid c) (ctype c) (state c) (used_mem c) v (os_stack_pfn c) (os_rsp c)
    (mm_code c) (mm_rodata c) (mm_data c) (mm_stack c) (name c) (regs c) (pending_signal_bitmap c)
    (sighandlers c) (ticks_to_sleep c) (alarm_config_time c) (ticks_to_alarm c).
Definition set_os_stack (pfn rsp : Z) (c : exec_context) : exec_context :=
  ExecContext (pid c) (ppid c) (ctype c) (state c) (used_mem c) (pgd c) pfn rsp
    (mm_code c) (mm_rodata c) (mm_data c) (mm_stack c) (name c) (regs c) (pending_signal_bitmap c)
    (sighandlers c) (ticks_to_sleep c) (alarm_config_time c) (ticks_to_alarm c).
Definition set_mms (i : segment) (v : mm_segment) (c : exec_context) : exec_context :=
  ExecContext (pid c) (ppid c) (ctype c) (state c) (used_mem c) (pgd c) (os_stack_pfn c) (os_rsp c)
    (if decide (i = MM_SEG_CODE) then v else mm_code c)
    (if decide (i = MM_SEG_RODATA) then v else mm_rodata c)
    (if decide (i = MM_SEG_DATA) then v else mm_data c)
    (if decide (i = MM_SEG_STACK) then v else mm_stack c)
    (name c) (regs c) (pending_signal_bitmap c)
    (sighandlers c) (ticks_to_sleep c) (alarm_config_time c) (ticks_to_alarm c).
Definition set_name (v : list Z) (c : exec_context) : exec_context :=
  ExecContext (pid c) (ppid c) (ctype c) (state c) (used_mem c) (pgd c) (os_stack_pfn c) (os_rsp c)
    (mm_code c) (mm_rodata c) (mm_data c) (mm_stack c) v (regs c) (pending_signal_bitmap c)
    (sighandlers c) (ticks_to_sleep c) (alarm_config_time c) (ticks_to_alarm c).
Definition set_regs (v : user_regs) (c : exec_context) : exec_context :=
  ExecContext (pid c) (ppid c) (ctype c) (state c) (used_mem c) (pgd c) (os_stack_pfn c) (os_rsp c)
    (mm_code c) (mm_rodata c) (mm_data c) (mm_stack c) (name c) v (pending_signal_bitmap c)
    (sighandlers c) (ticks_to_sleep c) (alarm_config_time c) (ticks_to_alarm c).
Definition set_signals (bitmap : Z) (handlers : list Z) (c : exec_context) : exec_context :=
  ExecContext (pid c) (ppid c) (ctype c) (state c) (used_mem c) (pgd c) (os_stack_pfn c) (os_rsp c)
    (mm_code c) (mm_rodata c) (mm_data c) (mm_stack c) (name c) (regs c) bitmap
    handlers (ticks_to_sleep c) (alarm_config_time c) (ticks_to_alarm c).
Definition set_ticks (sleep config alarm : Z) (c : exec_context) : exec_context :=
  ExecContext (pid c) (ppid c) (ctype c) (state c) (used_mem c) (pgd c) (os_stack_pfn c) (os_rsp c)
    (mm_code c) (mm_rodata c) (mm_data c) (mm_stack c) (name c) (regs c) (pending_signal_bitmap c)
    (sighandlers c) sleep config alarm.

(** ** Statistics and configuration (include/entry.h) *)

Record os_stats := OsStats {
  swapper_invocations : Z;
  context_switches : Z;
  lw_context_switches : Z;
  ticks : Z;
  page_faults : Z;
  syscalls : Z;
  used_memory : Z;
  num_processes : Z
}.

Record os_configs := OsConfigs {
  global_mapping : Z;
  apic_tick_interval : Z;
  debug : Z;
  adv_global : Z
}.

(** ** The state *)

Record kernel := Kernel {
  k_mm : mm;
  ctx_list : list exec_context;
  current : option nat;
  stats : os_stats;
  config : os_configs;
  os_pmd_pfn : Z;
  apic_base : Z;
  tss_page : Z
}.

Definition set_k_mm (v : mm) (k : kernel) : kernel :=
  Kernel v (ctx_list k) (current k) (stats k) (config k) (os_pmd_pfn k) (apic_base k) (tss_page k).
Definition set_ctx_list (v : list exec_context) (k : kernel) : kernel :=
  Kernel (k_mm k) v (current k) (stats k) (config k) (os_pmd_pfn k) (apic_base k) (tss_page k).
Definition set_current (v : option nat) (k : kernel) : kernel :=
  Kernel (k_mm k) (ctx_list k) v (stats k) (config k) (os_pmd_pfn k) (apic_base k) (tss_page k).
Definition set_stats (v : os_stats) (k : kernel) : kernel :=
  Kernel (k_mm k) (ctx_list k) (current k) v (config k) (os_pmd_pfn k) (apic_base k) (tss_page k).
Definition set_config (v : os_configs) (k : kernel) : kernel :=
  Kernel (k_mm k) (ctx_list k) (current k) (stats k) v (os_pmd_pfn k) (apic_base k) (tss_page k).
Definition set_os_pmd_pfn (v : Z) (k : kernel) : kernel :=
  Kernel (k_mm k) (ctx_list k) (current k) (stats k) (config k) v (apic_base k) (tss_page k).

(** A context of the table; an index is below [MAX_PROCESSES] wherever the
    code dereferences it. *)
Definition ctx_at (k : kernel) (i : nat) : exec_context := default zero_context (ctx_list k !! i).
Definition upd_ctx (i : nat) (f : exec_context -> exec_context) (k : kernel) : kernel :=
  set_ctx_list (alter f i (ctx_list k)) k.

Lemma ctx_at_upd i f k j :
  (i < length (ctx_list k))%nat ->
  ctx_at (upd_ctx i f k) j = if decide (i = j) then f (ctx_at k j) else ctx_at k j.
Proof.
  intros Hi. unfold ctx_at, upd_ctx. cbn [ctx_list set_ctx_list]. case_decide as E.
  - subst j. rewrite list_lookup_alter_eq. destruct (lookup_lt_is_Some_2 (ctx_list k) i Hi) as [c ->]. done.
  - by rewrite list_lookup_alter_ne.
Qed.

Lemma length_upd_ctx i f k : length (ctx_list (upd_ctx i f k)) = length (ctx_list k).
Proof. apply length_alter. Qed.

(** Kernel code sees memory and frames through [k_mm]. *)
#[export] Instance kernel_frames : FrameStore kernel := {
  fs_ram k := mm_ram (k_mm k);
  fs_set_ram m k := set_k_mm (set_mm_ram m (k_mm k)) k;
  fs_alloc r k := let '(q, s) := os_pfn_alloc r (k_mm k) in (q, set_k_mm s k);
  fs_free r q k := set_k_mm (os_pfn_free r q (k_mm k)) k;
  fs_emit e k := set_k_mm (mm_emit e (k_mm k)) k
}.

Definition kprintf (fmt : string) (args : list parg) (k : kernel) : kernel :=
  fs_emit (EPrintf fmt args) k.

#[export] Program Instance kernel_frame_laws : FrameLaws kernel := {
  fl_inv k := mm_inv (k_mm k);
  fl_owned k := owned (k_mm k);
  fl_avail k := available (k_mm k);
  fl_next k := next (k_mm k)
}.
Next Obligation. done. Qed.
Next Obligation. done. Qed.
Next Obligation. intros e k. apply (Frames.fl_emit (S := mm) (FrameLaws := mm_frame_laws) e (k_mm k)). Qed.
Next Obligation. intros k r q. apply (Frames.fl_range (S := mm) (FrameLaws := mm_frame_laws) (k_mm k)). Qed.
Next Obligation. intros k r q m'. apply (Frames.fl_store (S := mm) (FrameLaws := mm_frame_laws) (k_mm k) r q m'). Qed.
Next Obligation.
  intros k r Hi Ha. pose proof (Frames.fl_alloc (S := mm) (FrameLaws := mm_frame_laws) (k_mm k) r Hi Ha) as H.
  change (fs_alloc r (k_mm k)) with (os_pfn_alloc r (k_mm k)) in H.
  unfold fs_alloc, kernel_frames. destruct (os_pfn_alloc r (k_mm k)) as [q s]. exact H.
Qed.
Next Obligation.
  intros k r a Hi Hav Ha. pose proof (Frames.fl_alloc_low (S := mm) (FrameLaws := mm_frame_laws) (k_mm k) r a Hi Hav Ha) as E.
  unfold fs_alloc, kernel_frames. change (fs_alloc r (k_mm k)) with (os_pfn_alloc r (k_mm k)) in E.
  by destruct (os_pfn_alloc r (k_mm k)).
Qed.
Next Obligation. intros k r q Hi Ho. exact (Frames.fl_free (S := mm) (FrameLaws := mm_frame_laws) (k_mm k) r q Hi Ho). Qed.
Next Obligation. intros k r. apply available_next. Qed.
Next Obligation. intros e k r. apply next_emit. Qed.
Next Obligation. intros k r q m' r'. apply (next_store (k_mm k)). Qed.
Next Obligation.
  intros k r r' Hi Ha. pose proof (next_alloc r (k_mm k) r' Hi Ha) as E. unfold fs_alloc, kernel_frames.
  destruct (os_pfn_alloc r (k_mm k)) as [q s]. exact E.
Qed.

(** ** Leaving the kernel, and NULL *)

(** The registers with which [exec_init] leaves: the frame of the [iretq], of
    whose flags the kernel only sets [ie_rflags_set], the four data segment
    registers, and the registers loaded from its [struct init_args]. *)
Record init_entry := InitEntry {
  ie_rip : Z; ie_cs : Z; ie_rflags_set : Z; ie_rsp : Z; ie_ss : Z;
  ie_data : Z;
  ie_rdi : Z; ie_rsi : Z; ie_rcx : Z; ie_rdx : Z; ie_r8 : Z
}.

(** [schedule] ends in [return_from_os] on a given stack, [exec_init] in an
    [iretq], [do_cleanup] in [ret_from_user]: none returns to its caller. *)
Inductive leave :=
| ReturnFromOs (rsp : Z)
| EnterInit (e : init_entry)
| RetFromUser.

Inductive outcome (A : Type) :=
| Ret (a : A) (k : kernel)
| Leave (l : leave) (k : kernel)
| Undefined (k : kernel).
Arguments Ret {A} a k.
Arguments Leave {A} l k.
Arguments Undefined {A} k.

Definition M (A : Type) : Type := kernel -> outcome A.
Definition ret {A} (a : A) : M A := fun k => Ret a k.
Definition bind {A B} (x : M A) (f : A -> M B) : M B := fun k =>
  match x k with
  | Ret a k => f a k
  | Leave l k => Leave l k
  | Undefined k => Undefined k
  end.
Definition modify (f : kernel -> kernel) : M () := fun k => Ret tt (f k).
Definition gets {A} (f : kernel -> A) : M A := fun k => Ret (f k) k.
Definition leave_with {A} (l : leave) : M A := fun k => Leave l k.

(** A call of a routine that always returns. *)
Definition run {A} (f : kernel -> A * kernel) : M A := fun k => let '(a, k) := f k in Ret a k.

(** The use of a pointer. *)
Definition deref {A} (p : option A) : M A := fun k =>
  match p with Some a => Ret a k | None => Undefined k end.

Notation "x <- c ;; d" := (bind c (fun x => d))
  (at level 100, c at next level, right associativity) : gemos_scope.
Notation "c ;;; d" := (bind c (fun _ => d)) (at level 100, right associativity) : gemos_scope.

(** [get_current_ctx()] followed by an access through it. *)
Definition get_current_ctx : M nat := fun k => deref (current k) k.

Definition outcome_kernel {A} (o : outcome A) : kernel :=
  match o with Ret _ k | Leave _ k | Undefined k => k end.

(** [mrun] runs the monad's plumbing; the hypothesis that a context is
    current is used where it is in the context. *)
Ltac mrun :=
  repeat (unfold bind, modify, gets, ret, run, leave_with, get_current_ctx; cbn beta iota zeta;
          try match goal with H : current ?k = Some _ |- context [current ?k] => rewrite H; cbn [deref] end).

(** Page-table code changes memory and page lists only. *)
Definition frame_only (k k' : kernel) : Prop := k' = set_k_mm (k_mm k') k.

Lemma frame_only_refl k : frame_only k k.
Proof. by destruct k. Qed.

Lemma frame_only_trans k1 k2 k3 : frame_only k1 k2 -> frame_only k2 k3 -> frame_only k1 k3.
Proof. unfold frame_only. intros E2 E3. rewrite E3, E2. done. Qed.

Lemma frame_only_set_k_mm s k : frame_only k (set_k_mm s k).
Proof. done. Qed.

Lemma frame_only_alloc r k : frame_only k (fs_alloc r k).2.
Proof. unfold fs_alloc, kernel_frames. by destruct (os_pfn_alloc r (k_mm k)). Qed.

#[export] Hint Resolve frame_only_refl frame_only_set_k_mm frame_only_alloc : gemos.

(** [frame_step c] uses that the call [c] only changes memory. *)
Ltac frame_step H :=
  eapply frame_only_trans; [exact H|].

Lemma frame_only_next_table ac e k : frame_only k (next_table ac e k).2.
Proof.
  unfold next_table. case_match; [auto with gemos|]. pose proof (frame_only_alloc OS_PT_REG k) as H1.
  destruct (fs_alloc OS_PT_REG k) as [q k1]. cbn [snd] in *. frame_step H1. reflexivity.
Qed.

Lemma frame_only_ptable_next e k : frame_only k (ptable_next e k).2.
Proof.
  unfold ptable_next. case_match; [|auto with gemos]. pose proof (frame_only_alloc OS_PT_REG k) as H1.
  destruct (fs_alloc OS_PT_REG k) as [q k1]. cbn [snd] in *. frame_step H1. reflexivity.
Qed.

Lemma frame_only_install_page_table root va ec k : frame_only k (install_page_table root va ec k).
Proof.
  unfold install_page_table.
  pose proof (frame_only_next_table (5 .| (ec .& 2)) (osmap root + 8 * pgd_index va) k) as H1.
  destruct (next_table _ _ k) as [b1 k1]. frame_step H1. clear H1.
  pose proof (frame_only_next_table (5 .| (ec .& 2)) (b1 + 8 * pud_index va) k1) as H1.
  destruct (next_table _ _ k1) as [b2 k2]. frame_step H1. clear H1.
  pose proof (frame_only_next_table (5 .| (ec .& 2)) (b2 + 8 * pmd_index va) k2) as H1.
  destruct (next_table _ _ k2) as [b3 k3]. frame_step H1. clear H1.
  pose proof (frame_only_alloc USER_REG k3) as H1. destruct (fs_alloc USER_REG k3) as [q k4].
  frame_step H1. reflexivity.
Qed.

Lemma frame_only_install_ptable base seg va upfn k : frame_only k (install_ptable base seg va upfn k).2.
Proof.
  unfold install_ptable. set (a := if va =? 0 then _ else _). clearbody a.
  pose proof (frame_only_ptable_next (base + 8 * pgd_index a) k) as H1.
  destruct (ptable_next _ k) as [b1 k1]. frame_step H1. clear H1.
  pose proof (frame_only_ptable_next (b1 + 8 * pud_index a) k1) as H1.
  destruct (ptable_next _ k1) as [b2 k2]. frame_step H1. clear H1.
  pose proof (frame_only_ptable_next (b2 + 8 * pmd_index a) k2) as H1.
  destruct (ptable_next _ k2) as [b3 k3]. frame_step H1. clear H1.
  assert (H1 : frame_only k3 (if upfn =? 0 then fs_alloc USER_REG k3 else (upfn, k3)).2)
    by (case_match; auto with gemos).
  destruct (if upfn =? 0 then _ else _) as [q k4]. frame_step H1. clear H1. case_match; reflexivity.
Qed.

Lemma frame_only_do_unmap_user root va k : frame_only k (do_unmap_user root va k).2.
Proof. unfold do_unmap_user. case_match; [auto with gemos | reflexivity]. Qed.

(** ** Code that changes one context *)

(** [k'] has the process table of [k], but for context [i], which is [v]. *)
Record upd_at (k k' : kernel) (i : nat) (v : exec_context) : Prop := {
  ua_length : length (ctx_list k') = length (ctx_list k);
  ua_current : current k' = current k;
  ua_stats : stats k' = stats k;
  ua_value : ctx_at k' i = v;
  ua_others j : j <> i -> ctx_at k' j = ctx_at k j
}.

Lemma upd_at_refl k i : upd_at k k i (ctx_at k i).
Proof. by split. Qed.

Lemma upd_at_step k k' i v f :
  upd_at k k' i v -> (i < length (ctx_list k))%nat -> upd_at k (upd_ctx i f k') i (f v).
Proof.
  intros [El Ec Es Ev Eo] Hi. split.
  - by rewrite length_upd_ctx.
  - done.
  - done.
  - rewrite ctx_at_upd by lia. rewrite decide_True by done. by rewrite Ev.
  - intros j Hj. rewrite ctx_at_upd by lia. rewrite decide_False by congruence. by apply Eo.
Qed.

Lemma upd_at_frame k k1 k2 i v : upd_at k k1 i v -> frame_only k1 k2 -> upd_at k k2 i v.
Proof. intros [El Ec Es Ev Eo] ->. by split. Qed.

Lemma bind_ret {A B} (x : M A) (f : A -> M B) k a k1 : x k = Ret a k1 -> bind x f k = f a k1.
Proof. unfold bind. by intros ->. Qed.

Lemma get_current_ok k c : current k = Some c -> get_current_ctx k = Ret c k.
Proof. unfold get_current_ctx. by intros ->. Qed.
