(* ===== verification/Apic.v ===== *)
(** * apic.c and the OS half of an address space

    The local APIC (set-up, acknowledging an interrupt) and the entries that
    map the kernel into an address space: the APIC page
    ([install_apic_mapping], [remove_apic_mapping]) and the low memory
    ([install_os_pts] of context.c).  The APIC's registers are a device: what
    it answers to a read is a parameter, a write is an event. *)
From S2P Require Import Prelude Mem Lib Machine Memory PageAlloc Frames PageTable PageMap Kernel.
Local Open Scope gemos_scope.

Definition APIC_INTERVAL : Z := 4.
Definition APIC_ID_OFFSET : Z := 0x20.
Definition APIC_VERSION_OFFSET : Z := 0x30.
Definition APIC_EOI_OFFSET : Z := 0xB0.
Definition APIC_LDR_OFFSET : Z := 0xD0.
Definition APIC_DFR_OFFSET : Z := 0xE0.
Definition APIC_SPURIOUS_VECTOR_OFFSET : Z := 0xF0.
Definition APIC_LVT_TIMER_OFFSET : Z := 0x320.
Definition APIC_TIMER_INIT_COUNT_OFFSET : Z := 0x380.
Definition APIC_TIMER_CURRENT_COUNT_OFFSET : Z := 0x390.
Definition APIC_TIMER_DIVIDE_CONFIG_OFFSET : Z := 0x3E0.
Definition APIC_TIMER : Z := 32.
Definition IRQ_SPURIOUS : Z := 255.
Definition OS_PT_MAPS : Z := 64.

(** ** The device *)

(** A 32-bit store to a register of the APIC. *)
Definition mmio (a v : Z) (k : kernel) : kernel := fs_emit (EMmio a v) k.
Definition clflush (a : Z) (k : kernel) : kernel := fs_emit (EClflush a) k.

(** PERIODIC_TIMER is not defined: the timer is reloaded at each interrupt. *)
Definition ack_irq (k : kernel) : kernel :=
  let vector := u64 (apic_base k + APIC_TIMER_INIT_COUNT_OFFSET) in
  let k := clflush vector (mmio vector APIC_INTERVAL k) in
  let vector := u64 (apic_base k + APIC_TIMER_CURRENT_COUNT_OFFSET) in
  let k := clflush vector (mmio vector APIC_INTERVAL k) in
  let vector := u64 (apic_base k + APIC_EOI_OFFSET) in
  mmio vector 0 k.

Definition is_apic_base (pfn : Z) (k : kernel) : Z :=
  if pfn =? apic_base k >> PAGE_SHIFT then 1 else 0.

Definition set_apic_base (v : Z) (k : kernel) : kernel :=
  Kernel (k_mm k) (ctx_list k) (current k) (stats k) (config k) (os_pmd_pfn k) v (tss_page k).

(** [msr_high] and [msr_low] are the answer of [rdmsr], [ldr] the value
    read from the LDR register.  [dprintf] is empty without DEBUG. *)
Definition init_apic (msr_high msr_low ldr ldr' : Z) (k : kernel) : kernel :=
  let k := kprintf "Initializing APIC\n" [] k in
  let base_high := u64 (msr_high << 32) .| msr_low in
  let base_high := u64 ((base_high >> 12) << 12) in
  let k := set_apic_base base_high k in
  let vector := u64 (base_high + APIC_DFR_OFFSET) in
  let k := clflush vector (mmio vector 0xffffffff k) in
  let vector := u64 (base_high + APIC_LDR_OFFSET) in
  let k := mmio vector (ldr .& 0xffffff) k in
  let k := mmio vector (ldr' .| 1) k in
  let vector := u64 (base_high + APIC_SPURIOUS_VECTOR_OFFSET) in
  let k := clflush vector (mmio vector ((1 << 8) .| IRQ_SPURIOUS) k) in
  let vector := u64 (base_high + APIC_TIMER_DIVIDE_CONFIG_OFFSET) in
  let k := clflush vector (mmio vector 10 k) in
  let vector := u64 (base_high + APIC_TIMER_INIT_COUNT_OFFSET) in
  let k := clflush vector (mmio vector APIC_INTERVAL k) in
  let vector := u64 (base_high + APIC_TIMER_CURRENT_COUNT_OFFSET) in
  let k := clflush vector (mmio vector APIC_INTERVAL k) in
  let vector := u64 (base_high + APIC_LVT_TIMER_OFFSET) in
  mmio vector APIC_TIMER k.

(** ** Mapping the APIC's page *)

(** A level of [install_apic_mapping]: the table below [entry], made if the
    entry is not present. *)
Definition apic_next (entry : Z) (k : kernel) : Z * kernel :=
  if (ld64 (fs_ram k) entry .& 1) =? 0 then
    let '(pfn, k) := fs_alloc OS_PT_REG k in
    let pfn := u64 (pfn << PAGE_SHIFT) in
    (pfn, store64 entry (pfn .| 3) k)
  else (u64 ((ld64 (fs_ram k) entry >> PAGE_SHIFT) << PAGE_SHIFT), k).

Definition install_apic_mapping (pl4 : Z) (k : kernel) : kernel :=
  let address := u64 ((apic_base k >> 21) << 21) in
  let pl4 := u64 (pl4 << PAGE_SHIFT) in
  let '(pfn, k) := apic_next (pl4 + 8 * pgd_index address) k in
  let '(pfn, k) := apic_next (pfn + 8 * pud_index address) k in
  let pmd := pfn + 8 * pmd_index address in
  let k := if negb ((ld64 (fs_ram k) pmd .& 1) =? 0) then kprintf "BUG!\n" [] k else k in
  store64 pmd
    (if negb (global_mapping (config k) =? 0) && negb (adv_global (config k) =? 0)
     then (address .| 0x183) .| (1 << 52)
     else if negb (global_mapping (config k) =? 0) then address .| 0x183
     else address .| 0x83) k.

(** Where an entry is not present, the code goes on with an uninitialised
    (first level) or stale table address: the first is undefined. *)
Definition remove_apic_mapping (pl4 : Z) : M () := fun k =>
  let address := u64 ((apic_base k >> 21) << 21) in
  let pl4 := u64 (pl4 << PAGE_SHIFT) in
  let pgd := pl4 + 8 * pgd_index address in
  if (ld64 (fs_ram k) pgd .& 1) =? 0 then Undefined (kprintf "APIC free BUG! pgd\n" [] k)
  else
    let pfn := u64 ((ld64 (fs_ram k) pgd >> PAGE_SHIFT) << PAGE_SHIFT) in
    let pud := pfn + 8 * pud_index address in
    let '(pfn, k) :=
      if (ld64 (fs_ram k) pud .& 1) =? 0 then (pfn, kprintf "APIC free BUG! pud\n" [] k)
      else (u64 ((ld64 (fs_ram k) pud >> PAGE_SHIFT) << PAGE_SHIFT), k) in
    let pmd := pfn + 8 * pmd_index address in
    let k := if negb ((ld64 (fs_ram k) pmd .& 1) =? 1) then kprintf "APIC free BUG!\n" [] k else k in
    Ret tt (store64 pmd 0 k).

(** ** Mapping low memory (context.c) *)

(** The loop that fills the page-middle directory, [n] entries to go. *)
Fixpoint os_maps_loop (n : nat) (pfn entry : Z) (k : kernel) : kernel :=
  match n with
  | O => k
  | S n =>
      let k := store64 entry
        (u64 (pfn << 21) .| (if negb (global_mapping (config k) =? 0) then 0x183 else 0x83)) k in
      os_maps_loop n (pfn + 1) (entry + 8) k
  end.

Definition install_os_pts (pl4 : Z) (k : kernel) : Z * kernel :=
  let pt_base := u64 (pl4 << PAGE_SHIFT) in
  let entry := pt_base in
  let '(pt_base, k) :=
    if ld64 (fs_ram k) entry =? 0 then
      let '(pfn, k) := fs_alloc OS_PT_REG k in
      (u64 (pfn << PAGE_SHIFT), store64 entry (u64 (pfn << PAGE_SHIFT) .| 3) k)
    else (ld64 (fs_ram k) entry .& FLAG_MASK, k) in
  let entry := pt_base in
  let '(pt_base, k) :=
    if negb (ld64 (fs_ram k) entry =? 0) then (ld64 (fs_ram k) entry .& FLAG_MASK, k)
    else
      let '(pfn, k) := fs_alloc OS_PT_REG k in
      let k := set_os_pmd_pfn pfn k in
      (u64 (pfn << PAGE_SHIFT), store64 entry (u64 (pfn << PAGE_SHIFT) .| 3) k) in
  let k := os_maps_loop (Z.to_nat OS_PT_MAPS) 0 pt_base k in
  (0, install_apic_mapping pl4 k).
