(* ===== verification/Kmap.v ===== *)
(** * The kernel's half of an address space

    [install_os_pts] (context.c) links the kernel's low memory and the page of
    the APIC below a process's tables, with entries that user mode cannot
    use.  [kwalk] is the processor's walk in supervisor mode, by the rules of
    the architecture; the theorem is that it finds the low 128 MB at their own
    addresses and the APIC, and that the user mappings stay as they are. *)
From S2P Require Import Prelude Mem Lib Machine Memory PageAlloc Frames PageTable PageMap Kernel Apic.
#[local] Open Scope gemos_scope.

(** ** The processor's walk *)

Definition frame_of (e : Z) : Z := e / 4096 mod 2^40.

(** Bit 0 of an entry is its presence; bit 7 makes an entry of the second or
    third level a page of 1 GB or 2 MB. *)
Definition kwalk (m : mem) (root va : Z) : option Z :=
  let e0 := ld64 m (ent root 0 va) in
  if negb (Z.testbit e0 0) then None else
  let e1 := ld64 m (ent (frame_of e0) 1 va) in
  if negb (Z.testbit e1 0) then None else
  if Z.testbit e1 7 then Some (2^30 * (e1 / 2^30 mod 2^22) + va mod 2^30) else
  let e2 := ld64 m (ent (frame_of e1) 2 va) in
  if negb (Z.testbit e2 0) then None else
  if Z.testbit e2 7 then Some (2^21 * (e2 / 2^21 mod 2^31) + va mod 2^21) else
  let e3 := ld64 m (ent (frame_of e2) 3 va) in
  if negb (Z.testbit e3 0) then None else Some (4096 * frame_of e3 + va mod 4096).

(** ** Entries that user mode does not see *)

Lemma kernel_entry (own : Z -> Prop) m root k va f v :
  pt_wf own m root -> (k <= 3)%nat -> utable m k root va = Some f ->
  not_user (ld64 m (ent f k va)) = true -> not_user v = true -> 0 <= v < 2^64 ->
  let m' := st64 m (ent f k va) v in
  (forall j wa, (j <= 4)%nat -> utable m' j root wa = utable m j root wa) /\
  (forall wa, mapping m' root wa = mapping m root wa) /\
  (forall wa, prefix (S k) wa <> prefix (S k) va -> path_clear m root wa -> path_clear m' root wa).
Proof.
  intros Hwf Hk Hf Ho Hv Hr m'.
  assert (Hu : untouched (in_entry f k va) m m') by (by apply untouched_stn).
  assert (He : ld64 m' (ent f k va) = v) by (by apply ld64_st64_eq).
  assert (Hcut : forall x wa, prefix (S k) wa = prefix (S k) va -> utable x k root wa = Some f ->
    not_user (ld64 x (ent f k va)) = true -> utable x (S k) root wa = None).
  { intros x wa Ep E Hn. apply prefix_S_inj in Ep as [_ Ei]; [|lia]. cbn [utable]. rewrite E.
    unfold ent in *. rewrite Ei. by rewrite Hn. }
  assert (Hin : forall wa, prefix (S k) wa = prefix (S k) va ->
    utable m k root wa = Some f /\ utable m' k root wa = Some f).
  { intros wa Ep. pose proof (prefix_S_inj k wa va ltac:(lia) Ep) as [Ep' _].
    rewrite (utable_other own m m' root Hwf k va f) by (done || lia || (left; lia)).
    rewrite (utable_prefix m k root wa va) by (done || lia). done. }
  assert (Ht : forall j wa, (j <= 4)%nat -> utable m' j root wa = utable m j root wa).
  { intros j wa Hj. destruct (decide (prefix (S k) wa = prefix (S k) va)) as [Ep|Ep].
    - destruct (decide (j <= k)%nat); [apply (utable_other own m m' root Hwf k va f); (done || lia || (left; lia))|].
      destruct (Hin wa Ep) as [E1 E2].
      rewrite (utable_none m' (S k) j), (utable_none m (S k) j); [done|lia| |lia|]; apply Hcut; try done. by rewrite He.
    - apply (utable_other own m m' root Hwf k va f); (done || lia || (right; done)). }
  split; [done|]. split.
  - intros wa. destruct (decide (prefix (S k) wa = prefix (S k) va)) as [Ep|Ep].
    2:{ by apply (mapping_other own m m' root Hwf k va f). }
    unfold mapping. rewrite Ht by lia. destruct (decide (k = 3)%nat) as [->|].
    + destruct (Hin wa Ep) as [E1 _]. rewrite E1. apply prefix_S_inj in Ep as [_ Ei]; [|lia].
      unfold ent in *. rewrite Ei, He, Hv. by rewrite Ho.
    + destruct (Hin wa Ep) as [E1 _]. rewrite (utable_none m (S k) 3); [done|lia|]. by apply Hcut.
  - intros wa Hne Hc j g Hj Hg. rewrite Ht in Hg by lia. specialize (Hc j g Hj Hg).
    assert (E : ld64 m' (ent g j wa) = ld64 m (ent g j wa)); [|by rewrite E].
    apply (entry_other own m m' root Hwf k va f); try (done || lia).
Qed.

Section kernel_part.
Context {S : Type} `{FrameLaws S}.
Implicit Types s : S.
Abbreviation own_pt s := (fl_owned s OS_PT_REG).

(** What a step of the kernel's half leaves as it was: it takes [n]
    page-table frames, stores in [W] and in the frames it takes, and keeps the
    paths of the addresses in [P] clear. *)
Record kstep (n : nat) s s' (root : Z) (P W : Z -> Prop) : Prop := {
  ks_ok : pt_ok s' root;
  ks_utable j wa : (j <= 4)%nat -> utable (fs_ram s') j root wa = utable (fs_ram s) j root wa;
  ks_mapping wa : mapping (fs_ram s') root wa = mapping (fs_ram s) root wa;
  ks_clear wa : P wa -> path_clear (fs_ram s) root wa -> path_clear (fs_ram s') root wa;
  ks_owned r q : fl_owned s r q -> fl_owned s' r q;
  ks_user q : fl_owned s' USER_REG q <-> fl_owned s USER_REG q;
  ks_next : fl_next s' USER_REG = fl_next s USER_REG;
  ks_avail : fl_avail s OS_PT_REG = (n + fl_avail s' OS_PT_REG)%nat;
  ks_ram r q a : fl_owned s r q -> in_frame q a -> ~ W a -> ld8 (fs_ram s') a = ld8 (fs_ram s) a;
  ks_low a : low_memory a -> ld8 (fs_ram s') a = ld8 (fs_ram s) a;
  ks_new : exists l, length l = n /\ NoDup l /\ (forall q, q ∈ l -> ~ fl_owned s OS_PT_REG q) /\
    forall r q, fl_owned s' r q <-> fl_owned s r q \/ r = OS_PT_REG /\ q ∈ l
}.

Lemma kstep_trans n1 n2 s1 s2 s3 root P W1 W2 :
  kstep n1 s1 s2 root P W1 -> kstep n2 s2 s3 root P W2 -> kstep (n1 + n2) s1 s3 root P (fun a => W1 a \/ W2 a).
Proof.
  intros K1 K2. split.
  - apply K2.
  - intros j wa Hj. by rewrite (ks_utable _ _ _ _ _ _ K2), (ks_utable _ _ _ _ _ _ K1).
  - intros wa. by rewrite (ks_mapping _ _ _ _ _ _ K2), (ks_mapping _ _ _ _ _ _ K1).
  - intros wa Hp Hc. by apply (ks_clear _ _ _ _ _ _ K2), (ks_clear _ _ _ _ _ _ K1).
  - intros r q Hq. by apply (ks_owned _ _ _ _ _ _ K2), (ks_owned _ _ _ _ _ _ K1).
  - intros q. by rewrite (ks_user _ _ _ _ _ _ K2), (ks_user _ _ _ _ _ _ K1).
  - by rewrite (ks_next _ _ _ _ _ _ K2), (ks_next _ _ _ _ _ _ K1).
  - rewrite (ks_avail _ _ _ _ _ _ K1), (ks_avail _ _ _ _ _ _ K2). lia.
  - intros r q a Hq Ha Hw. rewrite (ks_ram _ _ _ _ _ _ K2 r q); [|by apply (ks_owned _ _ _ _ _ _ K1)|done|tauto].
    apply (ks_ram _ _ _ _ _ _ K1 r q); [done..|tauto].
  - intros a Ha. by rewrite (ks_low _ _ _ _ _ _ K2), (ks_low _ _ _ _ _ _ K1).
  - destruct (ks_new _ _ _ _ _ _ K1) as (l1 & L1 & D1 & N1 & O1), (ks_new _ _ _ _ _ _ K2) as (l2 & L2 & D2 & N2 & O2).
    assert (Hn : forall q, q ∈ l2 -> ~ fl_owned s1 OS_PT_REG q /\ q ∉ l1).
    { intros q Hq. split; intros Hq'; apply (N2 q Hq), O1; tauto. }
    exists (l1 ++ l2). split; [by rewrite length_app, L1, L2|]. split; [|split].
    + apply NoDup_app. split; [done|]. split; [|done]. intros q Hq1 Hq2. by apply (Hn q Hq2).
    + intros q [Hq|Hq]%elem_of_app; [by apply N1|by apply Hn].
    + intros r q. rewrite O2, O1, elem_of_app. tauto.
Qed.

Lemma kstep_weaken n s s' root (P W W' : Z -> Prop) :
  (forall a, W a -> W' a) -> kstep n s s' root P W -> kstep n s s' root P W'.
Proof. intros Hw []. split; try done. intros r q a Hq Ha Hn. eauto. Qed.

Lemma kstep_part n s s' root (P P' W : Z -> Prop) :
  (forall a, P' a -> P a) -> kstep n s s' root P W -> kstep n s s' root P' W.
Proof. intros Hp []. split; auto. Qed.

(** What is stored in a frame that was not owned is not seen. *)
Lemma kstep_hide n s s' root P W g :
  fl_owned s' OS_PT_REG g -> ~ fl_owned s OS_PT_REG g ->
  kstep n s s' root P (fun a => W a \/ in_frame g a) -> kstep n s s' root P W.
Proof.
  intros Hg Hng K. split; try apply K. intros r q a Hq Ha Hw. apply (ks_ram _ _ _ _ _ _ K r q); [done..|].
  intros [|Hin]; [done|]. assert (q = g) as -> by (by apply (frames_distinct q g a)). apply Hng.
  rewrite <- (fl_region s' r OS_PT_REG g (proj1 (ks_ok _ _ _ _ _ _ K)) (ks_owned _ _ _ _ _ _ K _ _ Hq) Hg). exact Hq.
Qed.

Lemma kstep_table n s s' root P W q : kstep n s s' root P W -> is_table (fs_ram s') root q <-> is_table (fs_ram s) root q.
Proof.
  intros K. split; intros (j & wa & Hj & E); exists j, wa; (split; [done|]); rewrite <- E;
    [symmetry|]; apply (ks_utable _ _ _ _ _ _ K); lia.
Qed.

(** A store in a frame that is not one of the tree's tables. *)
Lemma side_store s root g m' P :
  pt_ok s root -> own_pt s g -> ~ is_table (fs_ram s) root g -> untouched (in_frame g) (fs_ram s) m' ->
  kstep 0 s (fs_set_ram m' s) root P (in_frame g).
Proof.
  intros [Hinv Hwf] Hg Hng Hu. destruct (fl_store s OS_PT_REG g m' Hinv Hg Hu) as (Hinv' & Ho & Hav).
  pose proof (fl_next_store s OS_PT_REG g m' USER_REG Hinv Hg Hu) as Hn.
  assert (Hown : pt_wf (is_table (fs_ram s) root) (fs_ram s) root).
  { split; [apply Hwf | | apply Hwf]. intros k wa f Hk E. by exists k, wa. }
  assert (Hs : forall q a, is_table (fs_ram s) root q -> in_frame q a -> ld8 m' a = ld8 (fs_ram s) a).
  { intros q a Hq Ha. apply Hu. intros Ha'. apply Hng. by rewrite (frames_distinct g q a). }
  pose proof (same_tree_intro _ _ m' _ Hown Hs) as Hst.
  split; rewrite ?fl_set_ram.
  - split; [done|]. rewrite fl_set_ram. apply (pt_wf_same (is_table (fs_ram s) root) _ (fs_ram s)); [done| |done].
    intros q (k & wa & Hk & E). apply Ho. by apply (wf_own _ _ _ Hwf k wa).
  - intros j wa Hj. by apply Hst.
  - intros wa. apply Hst.
  - intros wa _. apply Hst.
  - intros r q. apply Ho.
  - intros q. apply Ho.
  - exact Hn.
  - by rewrite Hav.
  - intros r q a _ _. apply Hu.
  - intros a Ha. apply Hu. intros Hin. by apply (fl_high s OS_PT_REG g a).
  - exists []. split; [done|]. split; [constructor|]. split; [intros q Hq; by apply elem_of_nil in Hq|].
    intros r q. rewrite Ho, elem_of_nil. tauto.
Qed.

(** A table for the kernel, linked at an entry that user mode does not see. *)
Lemma kernel_link s root k va f v :
  pt_ok s root -> (k <= 3)%nat -> utable (fs_ram s) k root va = Some f ->
  not_user (ld64 (fs_ram s) (ent f k va)) = true -> (0 < fl_avail s OS_PT_REG)%nat ->
  (forall g, 0 <= g < 2^17 -> 0 <= v g < 2^64 /\ not_user (v g) = true) ->
  let g := (fs_alloc OS_PT_REG s).1 in let s1 := (fs_alloc OS_PT_REG s).2 in
  let s' := store64 (ent f k va) (v g) s1 in
  0 <= g < 2^17 /\ own_pt s' g /\ ~ own_pt s g /\ ~ is_table (fs_ram s') root g /\
  ld64 (fs_ram s') (ent f k va) = v g /\ (forall a, in_frame g a -> ld8 (fs_ram s') a = 0) /\
  kstep 1 s s' root (fun wa => prefix (Datatypes.S k) wa <> prefix (Datatypes.S k) va) (in_entry f k va).
Proof.
  intros [Hinv Hwf] Hk Hf Ho Hav Hv g s1 s'.
  destruct (fl_alloc s OS_PT_REG Hinv Hav) as (Hinv1 & Hng & Hg & Ho1 & Hav1 & Hz & Hfr).
  pose proof (fl_next_alloc s OS_PT_REG USER_REG Hinv Hav) as Hn1. rewrite decide_False in Hn1 by done.
  fold g s1 in Hinv1, Hng, Hg, Ho1, Hav1, Hz, Hfr, Hn1. specialize (Hz eq_refl).
  assert (Hgr : 0 <= g < 2^17).
  { apply fl_range in Hg; [|done]. change (region_first OS_PT_REG) with 8193 in Hg.
    change (region_pfn OS_PT_REG + region_frames OS_PT_REG) with 25600 in Hg. lia. }
  destruct (Hv g Hgr) as [Hvr Hvn].
  assert (Hs1 : forall q a, own_pt s q -> in_frame q a -> ld8 (fs_ram s1) a = ld8 (fs_ram s) a) by (intros q a; apply Hfr).
  pose proof (pt_wf_same _ (own_pt s) _ _ _ Hwf (fun q H => H) Hs1) as Hwf1.
  pose proof (same_tree_intro _ _ _ _ Hwf Hs1) as Hst.
  assert (Hof : own_pt s f) by (by apply (wf_own _ _ _ Hwf k va)).
  assert (Hf1 : utable (fs_ram s1) k root va = Some f) by (by rewrite (st_utable _ _ _ Hst) by lia).
  assert (Ho' : not_user (ld64 (fs_ram s1) (ent f k va)) = true) by (by rewrite (st_entry _ _ _ Hst k va f)).
  destruct (kernel_entry (own_pt s) (fs_ram s1) root k va f (v g) Hwf1 Hk Hf1 Ho' Hvn Hvr) as (Kt & Km & Kc).
  set (m2 := st64 (fs_ram s1) (ent f k va) (v g)) in *.
  assert (Hue : untouched (in_entry f k va) (fs_ram s1) m2) by (by apply untouched_stn).
  assert (Huf : untouched (in_frame f) (fs_ram s1) m2) by (eapply untouched_weaken; [|exact Hue]; intros a; apply in_entry_frame).
  destruct (fl_store s1 OS_PT_REG f m2 Hinv1 (proj2 (Ho1 _ _) (or_introl Hof)) Huf) as (Hinv2 & Ho2 & Hav2).
  pose proof (fl_next_store s1 OS_PT_REG f m2 USER_REG Hinv1 (proj2 (Ho1 _ _) (or_introl Hof)) Huf) as Hn2.
  assert (He : ld64 m2 (ent f k va) = v g) by (by apply ld64_st64_eq).
  assert (Es : s' = fs_set_ram m2 s1) by reflexivity. rewrite Es. clearbody m2. clear Es s'. rewrite !fl_set_ram.
  assert (Hfg : f <> g) by (intros ->; contradiction).
  split; [done|]. split; [by apply Ho2|]. split; [done|]. split; [|split; [|split]].
  - intros (j & wa & Hj & E). rewrite Kt, (st_utable _ _ _ Hst) in E by lia. apply Hng. by apply (wf_own _ _ _ Hwf j wa).
  - exact He.
  - intros a Ha. rewrite Hue; [by apply Hz|]. intros Hin%in_entry_frame. apply Hfg. by apply (frames_distinct f g a).
  - split; rewrite ?fl_set_ram.
    + split; [done|]. rewrite fl_set_ram. split; [apply Hwf| |].
      * intros j wa h Hj E. rewrite Kt, (st_utable _ _ _ Hst) in E by lia. apply Ho2, Ho1. left. by apply (wf_own _ _ _ Hwf j wa).
      * intros j wa j' wa' h Hj Hj' E E'. rewrite Kt, (st_utable _ _ _ Hst) in E, E' by lia. by apply (wf_inj _ _ _ Hwf j wa j' wa' h).
    + intros j wa Hj. by rewrite Kt, (st_utable _ _ _ Hst).
    + intros wa. by rewrite Km, (st_mapping _ _ _ Hst).
    + intros wa Hne Hc. apply Kc; [done|]. by apply (st_clear _ _ _ Hst).
    + intros r q Hq. apply Ho2, Ho1. by left.
    + intros q. rewrite Ho2, Ho1. intuition congruence.
    + by rewrite Hn2.
    + rewrite Hav2. specialize (Hav1 OS_PT_REG). by rewrite decide_True in Hav1.
    + intros r q a Hq Ha Hw. rewrite Hue by done. by apply (Hfr r q).
    + intros a Ha. rewrite Huf; [by apply fl_alloc_low|]. intros Hin. by apply (fl_high s OS_PT_REG f a).
    + exists [g]. split; [done|]. split; [apply NoDup_singleton|]. split; [by intros q ->%list_elem_of_singleton|].
      intros r q. rewrite Ho2, Ho1, list_elem_of_singleton. intuition.
Qed.
End kernel_part.

Lemma ks_ld64 {S} `{FrameLaws S} n (s s' : S) root P W r q a :
  kstep n s s' root P W -> fl_owned s r q -> (forall b, a <= b < a + 8 -> in_frame q b /\ ~ W b) ->
  ld64 (fs_ram s') a = ld64 (fs_ram s) a.
Proof. intros K Hq Hb. apply ld64_ext. intros b Hin. destruct (Hb b Hin). by apply (ks_ram _ _ _ _ _ _ K r q). Qed.

Lemma ent_in_frame f k va b : ent f k va <= b < ent f k va + 8 -> in_frame f b.
Proof. intros Hb. by apply (in_entry_frame f k va). Qed.

(** Only memory and page lists matter. *)
Lemma kstep_mm n k k1 k2 root P W : k_mm k2 = k_mm k1 -> kstep n k k1 root P W -> kstep n k k2 root P W.
Proof.
  intros E K. assert (Er : fs_ram k2 = fs_ram k1) by (unfold fs_ram, kernel_frames; by rewrite E). split.
  - destruct (ks_ok _ _ _ _ _ _ K) as [Hi Hw]. split; unfold fl_inv, fl_owned, kernel_frame_laws in *; by rewrite ?Er, E.
  - intros j wa Hj. rewrite Er. by apply K.
  - intros wa. rewrite Er. apply K.
  - intros wa. rewrite Er. apply K.
  - intros r q Hq. pose proof (ks_owned _ _ _ _ _ _ K r q Hq) as Hq'. unfold fl_owned, kernel_frame_laws in *. by rewrite E.
  - intros q. pose proof (ks_user _ _ _ _ _ _ K q) as Hq'. unfold fl_owned, kernel_frame_laws in *. by rewrite E.
  - pose proof (ks_next _ _ _ _ _ _ K) as Hn. unfold fl_next, kernel_frame_laws in *. by rewrite E.
  - pose proof (ks_avail _ _ _ _ _ _ K) as Hn. unfold fl_avail, kernel_frame_laws in *. by rewrite E.
  - intros r q a. rewrite Er. apply K.
  - intros a. rewrite Er. apply K.
  - pose proof (ks_new _ _ _ _ _ _ K) as Hn. unfold fl_owned, kernel_frame_laws in *. by rewrite E.
Qed.

(** ** The 2 MB pages of low memory *)

Definition kmap_flags (k : kernel) : Z := if negb (global_mapping (config k) =? 0) then 0x183 else 0x83.

Lemma huge_entry p fl : 0 <= p < 2^31 -> fl = 0x83 \/ fl = 0x183 ->
  u64 (p << 21) .| fl = 2^21 * p + fl /\ Z.testbit (2^21 * p + fl) 0 = true /\ Z.testbit (2^21 * p + fl) 7 = true /\
  (2^21 * p + fl) / 2^21 mod 2^31 = p /\ not_user (2^21 * p + fl) = true.
Proof.
  intros Hp Hfl. rewrite Z.shiftl_mul_pow2 by lia. rewrite u64_small by lia.
  assert (Hlo : forall i, 0 <= i < 21 -> Z.testbit (2^21 * p + fl) i = Z.testbit fl i).
  { intros i Hi. rewrite <- (Z.mod_pow2_bits_low _ 21 i) by lia.
    replace (2^21 * p + fl) with (fl + p * 2^21) by lia. rewrite Z.mod_add by lia. by rewrite Z.mod_small by lia. }
  split; [|split; [|split; [|split]]].
  - replace (p * 2^21) with (p * 512 * 4096) by lia. rewrite lor_page_flags by lia. lia.
  - rewrite Hlo by lia. by destruct Hfl as [->| ->].
  - rewrite Hlo by lia. by destruct Hfl as [->| ->].
  - replace (2^21 * p + fl) with (fl + p * 2^21) by lia. rewrite Z.div_add by lia. rewrite (Z.div_small fl) by lia. rewrite Z.mod_small; lia.
  - rewrite not_user_eq, !Hlo by lia. by destruct Hfl as [->| ->].
Qed.

Lemma lor_high x n : 0 <= n -> 0 <= x < 2^n -> x .| 2^n = x + 2^n.
Proof.
  intros Hn Hx. pose proof (Z.add_lor_land x (2^n)) as H. enough (Z.land x (2^n) = 0) by lia.
  apply Z.bits_inj'. intros i Hi. rewrite Z.land_spec, Z.bits_0, Z.pow2_bits_eqb by lia.
  destruct (Z.eqb_spec n i) as [<-|]; [|apply andb_false_r]. by rewrite (testbit_high x n) by lia.
Qed.

(** The loop over the 64 pages of low memory. *)
Lemma os_maps_ok n p e k :
  0 <= p -> p + Z.of_nat n <= 2^31 ->
  exists m', os_maps_loop n p e k = fs_set_ram m' k /\
    untouched (fun a => e <= a < e + 8 * Z.of_nat n) (fs_ram k) m' /\
    forall i, 0 <= i < Z.of_nat n -> ld64 m' (e + 8 * i) = 2^21 * (p + i) + kmap_flags k.
Proof.
  revert p e k. induction n as [|n IH]; intros p e k Hp Hle; cbn [os_maps_loop].
  { exists (fs_ram k). split; [destruct k as [[[] ? ? ?] ? ? ? ? ? ? ?]; reflexivity|]. split; [apply untouched_refl|]. lia. }
  cbv zeta. fold (kmap_flags k). assert (Hfl : kmap_flags k = 0x83 \/ kmap_flags k = 0x183).
  { unfold kmap_flags. destruct (negb _); auto. }
  destruct (huge_entry p (kmap_flags k) ltac:(lia) Hfl) as (-> & _). set (v := 2^21 * p + kmap_flags k).
  assert (Hv : 0 <= v < 2^64) by (unfold v; lia). set (k1 := store64 e v k).
  destruct (IH (p + 1) (e + 8) k1 ltac:(lia) ltac:(lia)) as (m' & E & Hu & Hat). exists m'.
  split; [exact E|]. split.
  - apply (untouched_trans _ _ (fs_ram k1)); [apply untouched_stn; lia|]. eapply untouched_weaken; [|exact Hu]. cbv beta. lia.
  - intros i Hi. destruct (decide (i = 0)) as [->|Hne].
    + rewrite Z.mul_0_r, !Z.add_0_r. fold v.
      rewrite (untouched_ldn _ 8 (fs_ram k1) m') by (exact Hu || (cbv beta; lia)). by apply ld64_st64_eq.
    + replace (e + 8 * i) with (e + 8 + 8 * (i - 1)) by lia. rewrite Hat by lia.
      change (kmap_flags k1) with (kmap_flags k). f_equal. lia.
Qed.

(** ** install_os_pts *)

(** The APIC's registers are above the first GB. *)
Definition apic_placed (k : kernel) : Prop := 2^30 <= apic_base k < 2^39.
Definition apic_page (k : kernel) : Z := 2^21 * (apic_base k / 2^21).

(** Where the kernel's half is linked: below the entries for address 0 and
    for the APIC in the second-level table [pud]. *)
Record kernel_slots (k : kernel) (root pud : Z) : Prop := {
  sl_apic : apic_placed k;
  sl_pud : utable (fs_ram k) 1 root 0 = Some pud;
  sl_low : utable (fs_ram k) 2 root 0 = None;
  sl_high : utable (fs_ram k) 2 root (apic_page k) = None;
  sl_clear_low : path_clear (fs_ram k) root 0;
  sl_clear_high : path_clear (fs_ram k) root (apic_page k)
}.

Lemma apic_page_eq k : apic_placed k -> u64 ((apic_base k >> 21) << 21) = apic_page k /\ 2^30 <= apic_page k < 2^39.
Proof.
  intros Ha. unfold apic_placed, apic_page in *. rewrite Z.shiftr_div_pow2, Z.shiftl_mul_pow2 by lia.
  assert (0 <= apic_base k / 2^21 * 2^21 < 2^39) by zdm. rewrite u64_small by lia. split; [lia|zdm].
Qed.

Lemma idx_low a : 0 <= a < 2^27 -> idx 0 a = 0 /\ idx 1 a = 0 /\ idx 2 a = a / 2^21 /\ idx 0 0 = 0 /\ idx 1 0 = 0.
Proof. intros Ha. unfold idx. change (39 - 9 * Z.of_nat 0) with 39. change (39 - 9 * Z.of_nat 1) with 30. change (39 - 9 * Z.of_nat 2) with 21. zdm. Qed.

Lemma idx_apic k : apic_placed k -> idx 0 (apic_page k) = 0 /\ idx 1 (apic_page k) <> 0.
Proof.
  intros Ha. destruct (apic_page_eq k Ha) as [_ Hr]. unfold idx.
  change (39 - 9 * Z.of_nat 0) with 39. change (39 - 9 * Z.of_nat 1) with 30. zdm.
Qed.

(** The entry of the root that leads to [pud]. *)
Lemma root_entry k root pud va :
  utable (fs_ram k) 1 root 0 = Some pud -> path_clear (fs_ram k) root 0 -> idx 0 va = 0 ->
  let e := ld64 (fs_ram k) (ent root 0 va) in
  not_user e = false /\ 0 <= e < 2^44 /\ entry_pfn e = pud /\ frame_of e = pud /\ utable (fs_ram k) 1 root va = Some pud.
Proof.
  intros Hu Hc Hi. assert (Ee : ent root 0 va = ent root 0 0) by (unfold ent; by rewrite Hi). cbv zeta. rewrite Ee.
  specialize (Hc 0%nat root ltac:(lia) eq_refl). cbv zeta in Hc. cbn [utable] in Hu |- *. rewrite Ee.
  pose proof (ld64_range (fs_ram k) (ent root 0 0)) as Hr. set (e := ld64 _ _) in *. clearbody e. clear Ee.
  destruct (not_user e) eqn:En; [done|]. injection Hu as Hu.
  split; [done|]. split; [lia|]. split; [done|]. split; [|by f_equal].
  rewrite <- Hu, entry_pfn_eq. unfold frame_of. zdm.
Qed.

(** The slot is empty. *)
Lemma slot_empty k root pud va :
  utable (fs_ram k) 1 root va = Some pud -> utable (fs_ram k) 2 root va = None -> path_clear (fs_ram k) root va ->
  ld64 (fs_ram k) (ent pud 1 va) = 0.
Proof.
  intros H1 H2 Hc. specialize (Hc 1%nat pud ltac:(lia) H1). cbv zeta in Hc.
  change (utable (fs_ram k) 2 root va) with (match utable (fs_ram k) 1 root va with Some f =>
    let e := ld64 (fs_ram k) (ent f 1 va) in if not_user e then None else Some (entry_pfn e) | None => None end) in H2.
  rewrite H1 in H2. cbv zeta in H2. set (e := ld64 _ _) in *. clearbody e. destruct (not_user e); [exact Hc|discriminate].
Qed.

Lemma link_value g : 0 <= g < 2^17 -> 0 <= u64 (g << 12) .| 3 < 2^64 /\ not_user (u64 (g << 12) .| 3) = true.
Proof. intros Hg. destruct (entry_value g 3 ltac:(lia) ltac:(lia)) as (-> & _ & En). rewrite En. split; [lia|done]. Qed.

Lemma kernel_entry_bits g : 0 <= g < 2^17 ->
  u64 (g << 12) .| 3 = 4096 * g + 3 /\ Z.testbit (4096 * g + 3) 0 = true /\ Z.testbit (4096 * g + 3) 7 = false /\ frame_of (4096 * g + 3) = g.
Proof.
  intros Hg. destruct (entry_value g 3 ltac:(lia) ltac:(lia)) as (-> & _ & _). split; [lia|].
  assert (Hlo : forall i, 0 <= i < 12 -> Z.testbit (4096 * g + 3) i = Z.testbit 3 i).
  { intros i Hi. rewrite <- (Z.mod_pow2_bits_low _ 12 i) by lia.
    replace (4096 * g + 3) with (3 + g * 2^12) by lia. rewrite Z.mod_add by lia. by rewrite Z.mod_small by lia. }
  rewrite !Hlo by lia. split; [done|]. split; [done|]. unfold frame_of. zdm.
Qed.

(** The first half: low memory. *)
Lemma low_half k root pud :
  pt_ok k root -> kernel_slots k root pud -> (0 < fl_avail k OS_PT_REG)%nat ->
  exists q k2, (install_os_pts root k).2 = install_apic_mapping root k2 /\
    k2 = set_os_pmd_pfn q (set_k_mm (k_mm k2) k) /\ 0 <= q < 2^17 /\
    owned (k_mm k2) OS_PT_REG q /\ ~ owned (k_mm k) OS_PT_REG q /\ ~ is_table (fs_ram k2) root q /\
    kstep 1 k k2 root (fun wa => prefix 2 wa <> prefix 2 0) (fun a => in_entry pud 1 0 a \/ in_frame q a) /\
    ld64 (fs_ram k2) (ent pud 1 0) = 4096 * q + 3 /\
    forall i, 0 <= i < 64 -> ld64 (fs_ram k2) (4096 * q + 8 * i) = 2^21 * i + kmap_flags k.
Proof.
  intros Hok [Ha Hp Hl Hh Hcl Hch] Hav. unfold install_os_pts. cbv zeta.
  pose proof (wf_root _ _ _ (proj2 Hok)) as Hr. unfold PAGE_SHIFT. rewrite shiftl_12, (u64_small (root * 4096)) by lia.
  destruct (root_entry k root pud 0 Hp Hcl eq_refl) as (En & Hlt & Epfn & _ & _).
  assert (Ee : root * 4096 = ent root 0 0) by (unfold ent; change (idx 0 0) with 0; lia). rewrite Ee.
  destruct (user_entry_present _ En) as [_ Hne]. destruct (Z.eqb_spec (ld64 (fs_ram k) (ent root 0 0)) 0); [done|].
  rewrite flag_mask_pfn, Epfn by done.
  assert (Ep : 4096 * pud = ent pud 1 0) by (unfold ent; change (idx 1 0) with 0; lia). rewrite Ep.
  pose proof (slot_empty k root pud 0 Hp Hl Hcl) as E0. rewrite E0. cbn [Z.eqb negb].
  destruct (kernel_link k root 1 0 pud (fun g => u64 (g << 12) .| 3) Hok ltac:(lia) Hp) as (Hg & Ho & Hno & Hnt & Hle & Hz & K1);
    [by rewrite E0|done|exact link_value|].
  destruct (fs_alloc OS_PT_REG k) as [q k0] eqn:Eal. cbn [fst snd] in *.
  rewrite shiftl_12, (u64_small (q * 4096)) in * by lia.
  set (k1 := store64 (ent pud 1 0) (q * 4096 .| 3) (set_os_pmd_pfn q k0)).
  assert (Ek1 : k_mm k1 = k_mm (store64 (ent pud 1 0) (q * 4096 .| 3) k0)) by reflexivity.
  destruct (os_maps_ok (Z.to_nat OS_PT_MAPS) 0 (q * 4096) k1 ltac:(lia) ltac:(vm_compute; congruence)) as (m2 & E2 & Hu2 & Hat).
  rewrite E2. cbn [snd]. exists q, (fs_set_ram m2 k1). split; [done|].
  change (Z.of_nat (Z.to_nat OS_PT_MAPS)) with 64 in *.
  destruct (kernel_entry_bits q Hg) as (Ev & _). rewrite shiftl_12, (u64_small (q * 4096)) in Ev by lia.
  apply (kstep_mm 1 k _ k1) in K1; [|exact Ek1]. pose proof (ks_ok _ _ _ _ _ _ K1) as Hok1.
  assert (Er : fs_ram k1 = fs_ram (store64 (ent pud 1 0) (q * 4096 .| 3) k0)) by reflexivity. rewrite <- Er in Hnt, Hle, Hz.
  assert (Ho1 : owned (k_mm k1) OS_PT_REG q) by exact Ho.
  pose proof (frame_only_alloc OS_PT_REG k) as Ek0. rewrite Eal in Ek0. cbn [snd] in Ek0. unfold frame_only in Ek0.
  assert (E1 : k1 = set_os_pmd_pfn q (set_k_mm (k_mm k1) k)) by (unfold k1; rewrite Ek0; reflexivity).
  clearbody k1. clear Ho Ek1 Er Eal Ek0.
  assert (Huq : untouched (in_frame q) (fs_ram k1) m2).
  { eapply untouched_weaken; [|exact Hu2]. unfold in_frame. cbv beta. lia. }
  pose proof (side_store k1 root q m2 (fun wa => prefix 2 wa <> prefix 2 0) Hok1 Ho1 Hnt Huq) as K2.
  assert (Hpq : pud <> q).
  { intros ->. apply Hno. by apply (wf_own _ _ _ (proj2 Hok) 1%nat 0); [lia|]. }
  assert (Hop : owned (k_mm k) OS_PT_REG pud) by (by apply (wf_own _ _ _ (proj2 Hok) 1%nat 0); [lia|]).
  split; [by rewrite E1|]. split; [done|]. split; [exact (ks_owned _ _ _ _ _ _ K2 OS_PT_REG q Ho1)|]. split; [exact Hno|]. split; [|split; [|split]].
  - intros (j & wa & Hj & E). apply Hnt. exists j, wa. split; [done|]. rewrite <- E. symmetry. apply (ks_utable _ _ _ _ _ _ K2). lia.
  - exact (kstep_trans 1 0 _ _ _ _ _ _ _ K1 K2).
  - rewrite (ks_ld64 _ _ _ _ _ _ OS_PT_REG pud _ K2), Hle; [exact Ev|exact (ks_owned _ _ _ _ _ _ K1 OS_PT_REG pud Hop)|].
    intros b Hb. pose proof (ent_in_frame pud 1 0 b Hb) as Hin. split; [done|]. intros Hq. apply Hpq. by apply (frames_distinct pud q b).
  - intros i Hi. rewrite fl_set_ram, (Z.mul_comm 4096 q), Hat by lia. rewrite Z.add_0_l. f_equal. rewrite E1. reflexivity.
Qed.

(** The entry of the APIC's page. *)
Definition apic_entry (k : kernel) : Z :=
  if negb (global_mapping (config k) =? 0) && negb (adv_global (config k) =? 0)
  then (apic_page k .| 0x183) .| (1 << 52)
  else if negb (global_mapping (config k) =? 0) then apic_page k .| 0x183
  else apic_page k .| 0x83.

Lemma apic_entry_bits k : apic_placed k ->
  0 <= apic_entry k < 2^64 /\ Z.testbit (apic_entry k) 0 = true /\ Z.testbit (apic_entry k) 7 = true /\
  apic_entry k / 2^21 mod 2^31 = apic_base k / 2^21.
Proof.
  intros Ha. destruct (apic_page_eq k Ha) as [_ Hr]. unfold apic_placed in Ha. set (p := apic_base k / 2^21).
  assert (Hp : 0 <= p < 2^18) by (unfold p; zdm).
  assert (Hv : forall fl, fl = 0x83 \/ fl = 0x183 -> apic_page k .| fl = 2^21 * p + fl).
  { intros fl Hfl. destruct (huge_entry p fl ltac:(lia) Hfl) as (E & _). rewrite <- E.
    rewrite Z.shiftl_mul_pow2, u64_small by lia. unfold apic_page. fold p. by rewrite Z.mul_comm. }
  unfold apic_entry. destruct (negb (global_mapping (config k) =? 0)); cbn [andb].
  - rewrite (Hv 0x183) by auto. destruct (huge_entry p 0x183 ltac:(lia) ltac:(auto)) as (_ & B0 & B7 & Ed & _).
    destruct (negb (adv_global (config k) =? 0)); [|split_and!; [lia|lia|done|done|done]].
    change (1 << 52) with (2^52). rewrite !Z.lor_spec, B0, B7. rewrite lor_high by lia. split_and!; [lia|lia|done|done|].
    replace (2^21 * p + 0x183 + 2^52) with (2^21 * p + 0x183 + 2^31 * 2^21) by lia. rewrite Z.div_add by lia.
    rewrite <- Ed at 2. by rewrite <- (Z.mod_add (_ / 2^21) 1 (2^31)) by lia.
  - rewrite (Hv 0x83) by auto. destruct (huge_entry p 0x83 ltac:(lia) ltac:(auto)) as (_ & B0 & B7 & Ed & _).
    split_and!; [lia|lia|done|done|done].
Qed.

(** What [install_apic_mapping] does when the second-level table is there. *)
Lemma install_apic_eq k root pud e0 :
  0 <= root < 2^32 -> apic_placed k -> ld64 (fs_ram k) (ent root 0 (apic_page k)) = e0 ->
  not_user e0 = false -> 0 <= e0 < 2^44 -> entry_pfn e0 = pud -> ld64 (fs_ram k) (ent pud 1 (apic_page k)) = 0 ->
  let q := (fs_alloc OS_PT_REG k).1 in
  let k1 := store64 (ent pud 1 (apic_page k)) (u64 (q << 12) .| 3) (fs_alloc OS_PT_REG k).2 in
  0 <= q < 2^17 -> (forall a, in_frame q a -> ld8 (fs_ram k1) a = 0) -> config k1 = config k ->
  install_apic_mapping root k = store64 (ent q 2 (apic_page k)) (apic_entry k) k1.
Proof.
  intros Hroot Ha E0 Hnu Hlt Hpfn Es q k1 Hg Hz Ec. destruct (apic_page_eq k Ha) as [Eap Hr].
  destruct (indices (apic_page k)) as (I0 & I1 & I2 & _).
  unfold install_apic_mapping. rewrite Eap. unfold PAGE_SHIFT. rewrite shiftl_12, (u64_small (root * 4096)) by lia.
  assert (Ee : root * 4096 + 8 * pgd_index (apic_page k) = ent root 0 (apic_page k)) by (unfold ent; rewrite I0; lia).
  rewrite Ee. cbv zeta. unfold apic_next. rewrite E0. destruct (user_entry_present _ Hnu) as [-> _].
  unfold PAGE_SHIFT. rewrite shiftr_12, shiftl_12.
  assert (Epud : u64 (e0 / 4096 * 4096) = 4096 * pud). { rewrite <- Hpfn, entry_pfn_eq. rewrite u64_small by zdm. zdm. }
  assert (Ep : 4096 * pud + 8 * pud_index (apic_page k) = ent pud 1 (apic_page k)) by (unfold ent; by rewrite I1).
  rewrite Epud, Ep, Es. change (0 .& 1 =? 0) with true. cbn iota. subst k1. revert Hg Hz Ec. subst q.
  destruct (fs_alloc OS_PT_REG k) as [q k0]. cbn [fst snd]. intros Hg Hz Ec.
  rewrite shiftl_12, (u64_small (q * 4096)) in * by lia. set (k1 := store64 _ _ k0) in *.
  assert (Eq : q * 4096 + 8 * pmd_index (apic_page k) = ent q 2 (apic_page k)) by (unfold ent; rewrite I2; lia). rewrite Eq.
  assert (Ez : ld64 (fs_ram k1) (ent q 2 (apic_page k)) = 0).
  { apply (ldn_zero 8). intros b Hb. apply Hz. by apply (ent_in_frame q 2 (apic_page k)). }
  rewrite Ez. change (negb (0 .& 1 =? 0)) with false. cbn iota. unfold apic_entry. by rewrite Ec.
Qed.

(** The second half: the APIC. *)
Lemma high_half k root pud e0 :
  pt_ok k root -> apic_placed k -> utable (fs_ram k) 1 root (apic_page k) = Some pud ->
  ld64 (fs_ram k) (ent root 0 (apic_page k)) = e0 -> not_user e0 = false -> 0 <= e0 < 2^44 -> entry_pfn e0 = pud ->
  ld64 (fs_ram k) (ent pud 1 (apic_page k)) = 0 -> (0 < fl_avail k OS_PT_REG)%nat ->
  let k' := install_apic_mapping root k in
  k' = set_k_mm (k_mm k') k /\ exists q,
    0 <= q < 2^17 /\ owned (k_mm k') OS_PT_REG q /\ ~ owned (k_mm k) OS_PT_REG q /\
    kstep 1 k k' root (fun wa => prefix 2 wa <> prefix 2 (apic_page k)) (fun a => in_entry pud 1 (apic_page k) a \/ in_frame q a) /\
    ld64 (fs_ram k') (ent pud 1 (apic_page k)) = 4096 * q + 3 /\
    ld64 (fs_ram k') (ent q 2 (apic_page k)) = apic_entry k.
Proof.
  intros Hok Ha Hp E0 Hnu Hlt Hpfn Es Hav k'. destruct (apic_entry_bits k Ha) as (Her & _).
  pose proof (wf_root _ _ _ (proj2 Hok)) as Hroot.
  destruct (kernel_link k root 1 (apic_page k) pud (fun g => u64 (g << 12) .| 3) Hok ltac:(lia) Hp) as (Hg & Ho & Hno & Hnt & Hle & Hz & K1);
    [by rewrite Es|done|exact link_value|].
  pose proof (frame_only_alloc OS_PT_REG k) as Ek0. unfold frame_only in Ek0.
  assert (E : k' = store64 (ent (fs_alloc OS_PT_REG k).1 2 (apic_page k)) (apic_entry k)
    (store64 (ent pud 1 (apic_page k)) (u64 ((fs_alloc OS_PT_REG k).1 << 12) .| 3) (fs_alloc OS_PT_REG k).2)).
  { apply (install_apic_eq k root pud e0); try done. rewrite Ek0. reflexivity. }
  rewrite E. clear E k'. set (q := (fs_alloc OS_PT_REG k).1) in *. destruct (kernel_entry_bits q Hg) as (Ev & _).
  set (k1 := store64 (ent pud 1 (apic_page k)) (u64 (q << 12) .| 3) _) in *.
  assert (E1 : k1 = set_k_mm (k_mm k1) k) by (unfold k1; rewrite Ek0; reflexivity). clearbody k1 q. clear Ek0.
  pose proof (ks_ok _ _ _ _ _ _ K1) as Hok1.
  assert (Huq : untouched (in_frame q) (fs_ram k1) (st64 (fs_ram k1) (ent q 2 (apic_page k)) (apic_entry k))).
  { apply untouched_stn. intros b Hb. by apply (ent_in_frame q 2 (apic_page k)). }
  pose proof (side_store k1 root q _ (fun wa => prefix 2 wa <> prefix 2 (apic_page k)) Hok1 Ho Hnt Huq) as K2.
  assert (Hpq : pud <> q) by (intros ->; apply Hno; by apply (wf_own _ _ _ (proj2 Hok) 1%nat (apic_page k)); [lia|]).
  assert (Hop : owned (k_mm k) OS_PT_REG pud) by (by apply (wf_own _ _ _ (proj2 Hok) 1%nat (apic_page k)); [lia|]).
  unfold store64. split; [by rewrite E1|]. exists q. split; [done|]. split; [exact (ks_owned _ _ _ _ _ _ K2 OS_PT_REG q Ho)|].
  split; [exact Hno|]. split; [exact (kstep_trans 1 0 _ _ _ _ _ _ _ K1 K2)|]. split.
  - rewrite (ks_ld64 _ _ _ _ _ _ OS_PT_REG pud _ K2), Hle; [exact Ev|exact (ks_owned _ _ _ _ _ _ K1 OS_PT_REG pud Hop)|].
    intros b Hb. pose proof (ent_in_frame pud 1 _ b Hb) as Hin. split; [done|]. intros Hq. apply Hpq. by apply (frames_distinct pud q b).
  - rewrite fl_set_ram. by apply ld64_st64_eq.
Qed.

(** ** The whole *)

(** The kernel's tables below [root]: [q1] holds the pages of low memory, [q2]
    that of the APIC, at address [ap]. *)
Record kernel_tables (m : mem) (root pud q1 q2 ap : Z) : Prop := {
  kt_present : Z.testbit (ld64 m (ent root 0 0)) 0 = true;
  kt_pud : frame_of (ld64 m (ent root 0 0)) = pud;
  kt_link1 : ld64 m (ent pud 1 0) = 4096 * q1 + 3;
  kt_link2 : ld64 m (ent pud 1 ap) = 4096 * q2 + 3;
  kt_low i : 0 <= i < 64 -> exists fl, (fl = 0x83 \/ fl = 0x183) /\ ld64 m (4096 * q1 + 8 * i) = 2^21 * i + fl;
  kt_apic : let e := ld64 m (ent q2 2 ap) in
    Z.testbit e 0 = true /\ Z.testbit e 7 = true /\ 2^21 * (e / 2^21 mod 2^31) = ap
}.

Lemma kernel_walks m root pud q1 q2 ap :
  kernel_tables m root pud q1 q2 ap -> 0 <= q1 < 2^17 -> 0 <= q2 < 2^17 -> 2^30 <= ap < 2^39 -> ap mod 2^21 = 0 ->
  (forall a, 0 <= a < 2^27 -> kwalk m root a = Some a) /\
  (forall a, ap <= a < ap + 2^21 -> kwalk m root a = Some a).
Proof.
  intros [H0 H1 L1 L2 Hl Ha] Hq1 Hq2 Hap Hal.
  destruct (kernel_entry_bits q1 Hq1) as (_ & A0 & A7 & Af). destruct (kernel_entry_bits q2 Hq2) as (_ & B0 & B7 & Bf). split.
  - intros a Hr. destruct (idx_low a Hr) as (I0 & I1 & I2 & J0 & J1). unfold kwalk.
    assert (E0 : ent root 0 a = ent root 0 0) by (unfold ent; by rewrite I0, J0). rewrite E0, H0, H1. cbn [negb].
    assert (E1 : ent pud 1 a = ent pud 1 0) by (unfold ent; by rewrite I1, J1). rewrite E1, L1, A0, A7, Af. cbn [negb].
    unfold ent. rewrite I2. destruct (Hl (a / 2^21) ltac:(zdm)) as (fl & Hfl & ->).
    destruct (huge_entry (a / 2^21) fl ltac:(zdm) Hfl) as (_ & -> & -> & -> & _). cbn [negb]. f_equal. zdm.
  - intros a Hr. assert (I : idx 0 a = 0 /\ idx 1 a = idx 1 ap /\ idx 2 a = idx 2 ap).
    { unfold idx. change (39 - 9 * Z.of_nat 0) with 39. change (39 - 9 * Z.of_nat 1) with 30. change (39 - 9 * Z.of_nat 2) with 21.
      zdm. }
    destruct I as (I0 & I1 & I2). unfold kwalk.
    assert (E0 : ent root 0 a = ent root 0 0) by (unfold ent; rewrite I0; by change (idx 0 0) with 0). rewrite E0, H0, H1. cbn [negb].
    assert (E1 : ent pud 1 a = ent pud 1 ap) by (unfold ent; by rewrite I1). rewrite E1, L2, B0, B7, Bf. cbn [negb].
    assert (E2 : ent q2 2 a = ent q2 2 ap) by (unfold ent; by rewrite I2). rewrite E2. destruct Ha as (-> & -> & ->). cbn [negb].
    f_equal. zdm.
Qed.

(** The kernel's half of the space of [root], in a state: [q1] and [q2] are
    frames of the kernel and none of the process's tables. *)
Record kernel_half (k : kernel) (root ap q1 q2 : Z) : Prop := {
  kh_tables : exists pud, kernel_tables (fs_ram k) root pud q1 q2 ap /\ utable (fs_ram k) 1 root 0 = Some pud;
  kh_low : owned (k_mm k) OS_PT_REG q1 /\ ~ is_table (fs_ram k) root q1;
  kh_high : owned (k_mm k) OS_PT_REG q2 /\ ~ is_table (fs_ram k) root q2;
  kh_place : 2^30 <= ap < 2^39 /\ ap mod 2^21 = 0
}.

Lemma owned_pt_number k q : mm_inv (k_mm k) -> owned (k_mm k) OS_PT_REG q -> 0 <= q < 2^17.
Proof.
  intros Hi Ho. pose proof (owned_range _ _ _ Hi Ho) as Hr. change (region_first OS_PT_REG) with 8193 in Hr.
  change (region_pfn OS_PT_REG + region_frames OS_PT_REG) with 25600 in Hr. lia.
Qed.

Lemma kernel_half_walks k root ap q1 q2 : mm_inv (k_mm k) -> kernel_half k root ap q1 q2 ->
  (forall a, 0 <= a < 2^27 -> kwalk (fs_ram k) root a = Some a) /\
  (forall a, ap <= a < ap + 2^21 -> kwalk (fs_ram k) root a = Some a).
Proof.
  intros Hi [(pud & Kt & _) [Ho1 _] [Ho2 _] [Hr Hal]].
  by apply (kernel_walks _ _ pud q1 q2); [|by apply (owned_pt_number k)..| |].
Qed.

(** The addresses that share no second-level entry with the kernel. *)
Definition user_part (ap wa : Z) : Prop := prefix 2 wa <> prefix 2 0 /\ prefix 2 wa <> prefix 2 ap.

Lemma install_os_pts_ok k root pud :
  pt_ok k root -> kernel_slots k root pud -> (2 <= fl_avail k OS_PT_REG)%nat ->
  let k' := (install_os_pts root k).2 in
  kstep 2 k k' root (user_part (apic_page k)) (in_frame pud) /\
  (exists q2, kernel_half k' root (apic_page k) (os_pmd_pfn k') q2 /\ ~ owned (k_mm k) OS_PT_REG q2 /\ os_pmd_pfn k' <> q2) /\
  k' = set_os_pmd_pfn (os_pmd_pfn k') (set_k_mm (k_mm k') k) /\
  owned (k_mm k') OS_PT_REG (os_pmd_pfn k') /\ ~ owned (k_mm k) OS_PT_REG (os_pmd_pfn k').
Proof.
  intros Hok Hsl Hav. pose proof Hsl as [Ha Hp Hl Hh Hcl Hch].
  destruct (low_half k root pud Hok Hsl ltac:(lia)) as (q1 & k2 & E & Ek2 & Hq1 & Ho1 & Hn1 & Ht1 & K1 & L1 & Hat).
  rewrite E. clear E. pose proof (idx_apic k Ha) as [Ia0 Ia1].
  destruct (root_entry k root pud (apic_page k) Hp Hcl Ia0) as (En & Hlt & Epfn & Efr & Hpa).
  set (e0 := ld64 (fs_ram k) (ent root 0 (apic_page k))) in *.
  pose proof (slot_empty k root pud (apic_page k) Hpa Hh Hch) as Es.
  assert (Hop : owned (k_mm k) OS_PT_REG pud) by (by apply (wf_own _ _ _ (proj2 Hok) 1%nat 0); [lia|]).
  assert (Hor : owned (k_mm k) OS_PT_REG root) by (by apply (wf_own _ _ _ (proj2 Hok) 0%nat 0); [lia|]).
  assert (Hrp : root <> pud).
  { intros ->. destruct (wf_inj _ _ _ (proj2 Hok) 0%nat 0 1%nat 0 pud) as [? _]; (done || lia). }
  assert (Hq1r : q1 <> root) by (by intros ->). assert (Hq1p : q1 <> pud) by (by intros ->).
  assert (Ap : apic_page k2 = apic_page k) by (by rewrite Ek2).
  assert (Er : ld64 (fs_ram k2) (ent root 0 (apic_page k)) = e0).
  { apply (ks_ld64 _ _ _ _ _ _ OS_PT_REG root _ K1 Hor). intros b Hb. pose proof (ent_in_frame _ _ _ _ Hb) as Hin. split; [done|].
    intros [Hb'%in_entry_frame|Hb']; [apply Hrp|apply Hq1r; symmetry]; by apply (frames_distinct _ _ b). }
  assert (Ea : ld64 (fs_ram k2) (ent pud 1 (apic_page k)) = 0).
  { rewrite <- Es. apply (ks_ld64 _ _ _ _ _ _ OS_PT_REG pud _ K1 Hop). intros b Hb. pose proof (ent_in_frame _ _ _ _ Hb) as Hin. split; [done|].
    intros [Hb'|Hb']; [|apply Hq1p; symmetry; by apply (frames_distinct _ _ b)].
    unfold in_entry, ent in *. change (idx 1 0) with 0 in Hb'. lia. }
  destruct (high_half k2 root pud e0) as (Ek3 & q2 & Hq2 & Ho2 & Hn2 & K2 & L2 & Hae); try done.
  { apply K1. }
  { by rewrite Ek2. }
  { rewrite Ap, (ks_utable _ _ _ _ _ _ K1) by lia. exact Hpa. }
  { by rewrite Ap. }
  { by rewrite Ap. }
  { pose proof (ks_avail _ _ _ _ _ _ K1). lia. }
  rewrite Ap in *. set (k3 := install_apic_mapping root k2) in *. clearbody k3.
  assert (Hq2r : q2 <> root) by (intros ->; apply Hn2; by apply (ks_owned _ _ _ _ _ _ K1)).
  assert (Hq2p : q2 <> pud) by (intros ->; apply Hn2; by apply (ks_owned _ _ _ _ _ _ K1)).
  assert (Hq12 : q1 <> q2) by (by intros ->).
  pose proof (kstep_hide _ _ _ _ _ _ q1 Ho1 Hn1 K1) as K1'. pose proof (kstep_hide _ _ _ _ _ _ q2 Ho2 Hn2 K2) as K2'.
  assert (Hfar : forall a, ~ (in_entry pud 1 (apic_page k) a /\ in_entry pud 1 0 a)).
  { intros a [H1 H2]. unfold in_entry, ent in *. change (idx 1 0) with 0 in H2. lia. }
  split; [|split; [|split; [|split]]].
  - apply (kstep_weaken 2 _ _ _ _ (fun a => in_entry pud 1 0 a \/ in_entry pud 1 (apic_page k) a)).
    { intros a [Hb|Hb]; by apply in_entry_frame in Hb. }
    apply (kstep_trans 1 1 k k2 k3); (eapply kstep_part; [|eassumption]); unfold user_part; tauto.
  - assert (Epmd : os_pmd_pfn k3 = q1) by (by rewrite Ek3, Ek2). rewrite Epmd.
    exists q2. split; [|split; [intros Ho; by apply Hn2, (ks_owned _ _ _ _ _ _ K1)|exact Hq12]].
    split; [exists pud| | |split; [exact (proj2 (apic_page_eq k Ha))|unfold apic_page; zdm]].
    2:{ split; [by apply (ks_owned _ _ _ _ _ _ K2)|]. by rewrite (kstep_table _ _ _ _ _ _ q1 K2). }
    2:{ split; [done|]. rewrite (kstep_table _ _ _ _ _ _ q2 K2). intros (j & wa & Hj & Et). apply Hn2.
      by apply (wf_own _ _ _ (proj2 (ks_ok _ _ _ _ _ _ K1)) j wa). }
    split; [|rewrite (ks_utable _ _ _ _ _ _ K2), (ks_utable _ _ _ _ _ _ K1) by lia; exact Hp].
    assert (E0 : ld64 (fs_ram k3) (ent root 0 0) = e0).
    { rewrite <- Er. replace (ent root 0 (apic_page k)) with (ent root 0 0) by (unfold ent; by rewrite Ia0).
      apply (ks_ld64 _ _ _ _ _ _ OS_PT_REG root _ K2'); [by apply (ks_owned _ _ _ _ _ _ K1)|].
      intros b Hb. pose proof (ent_in_frame _ _ _ _ Hb) as Hin. split; [done|]. intros Hb'%in_entry_frame. apply Hrp. by apply (frames_distinct _ _ b). }
    split.
    + rewrite E0. rewrite not_user_eq in En. apply negb_false_iff, andb_prop in En. apply En.
    + by rewrite E0.
    + rewrite <- L1. apply (ks_ld64 _ _ _ _ _ _ OS_PT_REG pud _ K2'); [by apply (ks_owned _ _ _ _ _ _ K1)|].
      intros b Hb. split; [by apply (ent_in_frame pud 1 0)|]. intros Hb'. by apply (Hfar b).
    + exact L2.
    + intros i Hi. exists (kmap_flags k). split; [unfold kmap_flags; destruct (negb _); auto|]. rewrite <- Hat by done.
      apply (ks_ld64 _ _ _ _ _ _ OS_PT_REG q1 _ K2' Ho1). intros b Hb. split; [unfold in_frame; lia|].
      intros Hb'%in_entry_frame. apply Hq1p. apply (frames_distinct _ _ b); [unfold in_frame; lia|done].
    + rewrite Hae. destruct (apic_entry_bits k2) as (_ & B0 & B7 & Ed); [by rewrite Ek2|]. cbv zeta.
      split; [exact B0|]. split; [exact B7|]. rewrite Ed. rewrite Ek2. reflexivity.
  - rewrite Ek3. rewrite Ek2. reflexivity.
  - rewrite Ek3. change (os_pmd_pfn (set_k_mm (k_mm k3) k2)) with (os_pmd_pfn k2). rewrite Ek2.
    change (os_pmd_pfn (set_os_pmd_pfn q1 _)) with q1. by apply (ks_owned _ _ _ _ _ _ K2).
  - rewrite Ek3. change (os_pmd_pfn (set_k_mm (k_mm k3) k2)) with (os_pmd_pfn k2). by rewrite Ek2.
Qed.

(** ** What keeps the kernel's half *)

(** Steps that leave its tables and those of the process alone. *)
Lemma kernel_half_frames k k' root ap q1 q2 :
  pt_ok k root -> kernel_half k root ap q1 q2 ->
  (forall q a, is_table (fs_ram k) root q \/ q = q1 \/ q = q2 -> in_frame q a -> ld8 (fs_ram k') a = ld8 (fs_ram k) a) ->
  owned (k_mm k') OS_PT_REG q1 -> owned (k_mm k') OS_PT_REG q2 -> kernel_half k' root ap q1 q2.
Proof.
  intros [_ Hwf] [(pud & Kt & Hp) [_ Hn1] [_ Hn2] Hpl] Hs Ho1 Ho2.
  assert (Hwf' : pt_wf (is_table (fs_ram k) root) (fs_ram k) root).
  { split; [apply Hwf | | apply Hwf]. intros i va f Hi E. by exists i, va. }
  pose proof (same_tree_intro _ _ (fs_ram k') _ Hwf' (fun q a H => Hs q a (or_introl H))) as Hst.
  assert (Hent : forall q j va, q = q1 \/ q = q2 -> ld64 (fs_ram k') (ent q j va) = ld64 (fs_ram k) (ent q j va)).
  { intros q j va Hq. apply ld64_ext. intros b Hb. apply (Hs q b); [by right|by apply (ent_in_frame q j va)]. }
  split; [exists pud|split; [done|by rewrite (st_table _ _ _ Hst)]|split; [done|by rewrite (st_table _ _ _ Hst)]|done].
  destruct Kt as [B0 Bf L1 L2 Hl Ha]. split; [|by rewrite (st_utable _ _ _ Hst) by lia].
  assert (E0 : ld64 (fs_ram k') (ent root 0 0) = ld64 (fs_ram k) (ent root 0 0)) by (apply (st_entry _ _ _ Hst 0%nat 0); [lia|done]).
  split.
  - by rewrite E0.
  - by rewrite E0.
  - by rewrite (st_entry _ _ _ Hst 1%nat 0) by (done || lia).
  - by rewrite (st_entry _ _ _ Hst 1%nat 0) by (done || lia).
  - intros i Hi. destruct (Hl i Hi) as (fl & Hfl & E). exists fl. split; [done|]. rewrite <- E.
    apply ld64_ext. intros b Hb. apply (Hs q1 b); [by auto|unfold in_frame; lia].
  - cbv zeta. by rewrite Hent by auto.
Qed.

(** Mapping a page of the process. *)
Lemma kernel_half_map_post n k k' root va e new ap q1 q2 :
  pt_ok k root -> map_post n k k' root va e new -> user_part ap va -> kernel_half k root ap q1 q2 -> kernel_half k' root ap q1 q2.
Proof.
  intros Hok P [U0 Ua] [(pud & Kt & Hp) [Ho1 Hn1] [Ho2 Hn2] [Hr Hal]].
  pose proof (mp_grown _ _ _ _ _ _ _ P) as [Gm _ Ge Gl].
  assert (Hbytes : forall q a, q = q1 \/ q = q2 -> in_frame q a -> ld8 (fs_ram k') a = ld8 (fs_ram k) a).
  { intros q a [-> | ->]; apply (mp_frame _ _ _ _ _ _ _ P OS_PT_REG); done. }
  assert (Hnt : forall q, owned (k_mm k) OS_PT_REG q -> ~ is_table (fs_ram k) root q -> ~ is_table (fs_ram k') root q).
  { intros q Ho Hn Ht. apply Hn. by apply (mp_table _ _ _ _ _ _ _ P). }
  split; [exists pud| | |done]; [|split; [by apply (mp_owned _ _ _ _ _ _ _ P)|by apply Hnt]..].
  split; [|apply Gm; [lia|done]].
  assert (Hpa : utable (fs_ram k) 1 root ap = Some pud).
  { rewrite <- Hp. apply utable_prefix; [lia|]. unfold prefix. change (2 ^ (48 - 9 * Z.of_nat 1)) with (2^39). change (2 ^ (9 * Z.of_nat 1)) with 512. zdm. }
  assert (Hn0 : not_user (ld64 (fs_ram k) (ent root 0 0)) = false).
  { revert Hp. cbn [utable]. set (x := ld64 _ _). by destruct (not_user x). }
  assert (E0 : ld64 (fs_ram k') (ent root 0 0) = ld64 (fs_ram k) (ent root 0 0)) by (apply (Gl 0%nat 0); [lia|done|done]).
  destruct Kt as [B0 Bf L1 L2 Hl Ha]. split.
  - by rewrite E0.
  - by rewrite E0.
  - rewrite (Ge 1%nat 0 pud) by (done || lia). done.
  - rewrite (Ge 1%nat ap pud) by (done || lia). done.
  - intros i Hi. destruct (Hl i Hi) as (fl & Hfl & E). exists fl. split; [done|]. rewrite <- E.
    apply ld64_ext. intros b Hb. apply (Hbytes q1 b); [by auto|unfold in_frame; lia].
  - cbv zeta. rewrite (ld64_ext (fs_ram k) (fs_ram k')); [done|]. intros b Hb. apply (Hbytes q2 b); [by auto|by apply (ent_in_frame q2 2 ap)].
Qed.

(** ** Where there is room for it *)

(** No table yet below the kernel's two second-level entries. *)
Record slots_free (m : mem) (root ap : Z) : Prop := {
  sf_low : utable m 2 root 0 = None;
  sf_high : utable m 2 root ap = None;
  sf_clear_low : path_clear m root 0;
  sf_clear_high : path_clear m root ap
}.

Lemma slots_free_map_post {S} `{FrameLaws S} n (s s' : S) root va e new ap :
  map_post n s s' root va e new -> user_part ap va -> slots_free (fs_ram s) root ap -> slots_free (fs_ram s') root ap.
Proof.
  intros P [U0 Ua] [L Hh C0 Ca]. pose proof (mp_grown _ _ _ _ _ _ _ P) as G. split.
  - rewrite (gr_other _ _ _ _ G); [done|lia|done].
  - rewrite (gr_other _ _ _ _ G); [done|lia|done].
  - by apply (mp_clear _ _ _ _ _ _ _ P).
  - by apply (mp_clear _ _ _ _ _ _ _ P).
Qed.

Lemma slots_free_empty m root ap :
  (forall a, in_frame root a -> ld8 m a = 0) -> (forall va, path_clear m root va) -> slots_free m root ap.
Proof. intros Hz Hc. split; [apply (empty_tables m root 2 0 Hz)|apply (empty_tables m root 2 ap Hz)|done|done]. Qed.

(** A page mapped in the same 512 GB shows that the second-level table is there. *)
Lemma slots_ready k root va e :
  apic_placed k -> slots_free (fs_ram k) root (apic_page k) -> mapping (fs_ram k) root va = Some e -> idx 0 va = 0 ->
  exists pud, kernel_slots k root pud.
Proof.
  intros Ha [L Hh C0 Ca] Hm Hi. destruct (mapping_leaf _ _ _ _ Hm) as (f & Hf & _).
  assert (E1 : utable (fs_ram k) 1 root 0 = utable (fs_ram k) 1 root va).
  { cbn [utable]. unfold ent. rewrite Hi. by change (idx 0 0) with 0. }
  destruct (utable (fs_ram k) 1 root va) as [pud|] eqn:E.
  - exists pud. by split.
  - rewrite (utable_none (fs_ram k) 1 3 root va) in Hf by (done || lia). done.
Qed.

Lemma install_os_pts_apic k root pud :
  pt_ok k root -> kernel_slots k root pud -> (2 <= fl_avail k OS_PT_REG)%nat ->
  apic_page (install_os_pts root k).2 = apic_page k.
Proof.
  intros Hok Hsl Hav. destruct (install_os_pts_ok k root pud Hok Hsl Hav) as (_ & _ & E & _).
  set (k' := (install_os_pts root k).2) in *. clearbody k'. by rewrite E.
Qed.

(** ** The kernel's mappings *)

Definition kernel_mapped (k : kernel) (root : Z) : Prop :=
  (forall a, 0 <= a < 2^27 -> kwalk (fs_ram k) root a = Some a) /\
  (forall a, apic_page k <= a < apic_page k + 2^21 -> kwalk (fs_ram k) root a = Some a).

(** The frames of a step that takes two. *)
Lemma kstep_two k k' root P W q1 q2 :
  kstep 2 k k' root P W -> owned (k_mm k') OS_PT_REG q1 -> owned (k_mm k') OS_PT_REG q2 -> q1 <> q2 ->
  ~ owned (k_mm k) OS_PT_REG q1 -> ~ owned (k_mm k) OS_PT_REG q2 ->
  forall r q, owned (k_mm k') r q <-> owned (k_mm k) r q \/ r = OS_PT_REG /\ (q = q1 \/ q = q2).
Proof.
  intros K H1 H2 Hne N1 N2 r q. destruct (ks_new _ _ _ _ _ _ K) as (l & El & _ & _ & O).
  unfold fl_owned, kernel_frame_laws in O. rewrite O.
  apply O in H1 as [?|[_ H1]]; [done|]. apply O in H2 as [?|[_ H2]]; [done|].
  destruct l as [|x [|y [|]]]; try done. clear O K El. set_solver.
Qed.

(** C8: [install_os_pts] maps, in an address space with no table at its two
    places yet, the low 128 MB and the 2 MB around the APIC at their own
    addresses for the kernel; no mapping of user mode changes, and the space
    stays well formed.  It takes two new frames, both from the page-table
    region, for the tables [q1] and [q2] of these mappings, and no other frame
    of any region.  A page fault that is handled later keeps the mappings. *)
Theorem install_os_pts_maps k root pud va error_code :
  pt_ok k root -> kernel_slots k root pud -> (2 <= fl_avail k OS_PT_REG)%nat ->
  let k' := (install_os_pts root k).2 in
  kernel_mapped k' root /\ pt_ok k' root /\ (forall wa, mapping (fs_ram k') root wa = mapping (fs_ram k) root wa) /\
  (exists q1 q2, kernel_half k' root (apic_page k) q1 q2 /\ q1 <> q2 /\
    ~ owned (k_mm k) OS_PT_REG q1 /\ ~ owned (k_mm k) OS_PT_REG q2 /\
    forall r q, owned (k_mm k') r q <-> owned (k_mm k) r q \/ r = OS_PT_REG /\ (q = q1 \/ q = q2)) /\
  (user_part (apic_page k) va -> path_clear (fs_ram k) root va ->
   (3 <= fl_avail k' OS_PT_REG)%nat -> (0 < fl_avail k' USER_REG)%nat ->
   kernel_mapped (install_page_table root va error_code k') root).
Proof.
  intros Hok Hsl Hav k'. destruct (install_os_pts_ok k root pud Hok Hsl Hav) as (K & (q2 & Hh & Hn2 & H12) & Ek & Ho1 & Hn1). fold k' in K, Hh, Ek, H12, Ho1, Hn1.
  assert (Ea : apic_page k' = apic_page k) by (by rewrite Ek). unfold kernel_mapped. rewrite Ea.
  pose proof (ks_ok _ _ _ _ _ _ K) as Hok'. split; [by apply (kernel_half_walks _ _ _ _ _ (proj1 Hok') Hh)|].
  split; [done|]. split; [apply K|]. split.
  { exists (os_pmd_pfn k'), q2. do 4 (split; [done|]). by apply (kstep_two k k' root _ _ (os_pmd_pfn k') q2 K); [|apply Hh|..]. }
  intros Hu Hc Hp Hus.
  destruct (install_page_table_post k' root va error_code Hok' (ks_clear _ _ _ _ _ _ K va Hu Hc) Hp Hus) as [q P].
  set (k'' := install_page_table root va error_code k') in *.
  assert (Ea' : apic_page k'' = apic_page k) by (unfold apic_page, k''; rewrite (frame_only_install_page_table root va error_code k'); exact Ea).
  rewrite Ea'. apply (kernel_half_walks k'' root _ (os_pmd_pfn k') q2); [apply (mp_ok _ _ _ _ _ _ _ P)|].
  by apply (kernel_half_map_post _ k' _ _ _ _ _ _ _ _ Hok' P Hu).
Qed.

(** The start-up space with one page of data, the APIC of gem5. *)
Definition gem5_kernel (s : mm) : kernel := Kernel s [] None (OsStats 0 0 0 0 0 0 0 0) (OsConfigs 0 0 0 0) 0 0xfee00000 0.
Definition one_page_kernel : kernel := gem5_kernel one_page_space.

Lemma gem5_kernel_slots s s' root va e new :
  pt_ok s root -> (forall a, in_frame root a -> ld8 (fs_ram s) a = 0) -> (forall wa, path_clear (fs_ram s) root wa) ->
  map_post 3 s s' root va (Some e) new -> user_part 0xfee00000 va -> idx 0 va = 0 -> (5 <= fl_avail s OS_PT_REG)%nat ->
  pt_ok (gem5_kernel s') root /\ (exists pud, kernel_slots (gem5_kernel s') root pud) /\ (2 <= fl_avail (gem5_kernel s') OS_PT_REG)%nat.
Proof.
  intros Hok Hz Hc P Hu Hi Hav. split; [exact (mp_ok _ _ _ _ _ _ _ P)|]. split.
  - apply (slots_ready (gem5_kernel s') root va e); [unfold apic_placed; cbn; lia| | |done].
    + apply (slots_free_map_post 3 s s' root va (Some e) new _ P Hu). by apply slots_free_empty.
    + change (fs_ram (gem5_kernel s')) with (fs_ram s'). rewrite (mp_mapping _ _ _ _ _ _ _ P). by rewrite decide_True.
  - pose proof (mp_avail_pt _ _ _ _ _ _ _ P) as Ha. change (fl_avail (gem5_kernel s') OS_PT_REG) with (fl_avail s' OS_PT_REG). lia.
Qed.

Lemma one_page_kernel_slots :
  pt_ok one_page_kernel fresh_root /\ (exists pud, kernel_slots one_page_kernel fresh_root pud) /\
  (2 <= fl_avail one_page_kernel OS_PT_REG)%nat.
Proof.
  destruct (install_page_table_post fresh_space fresh_root 0x180001000 6) as [q P].
  - exact fresh_space_ok.
  - exact (fresh_space_clear _).
  - exact fresh_space_avail_pt.
  - exact fresh_space_avail_user.
  - apply (gem5_kernel_slots fresh_space one_page_space fresh_root _ _ _ fresh_space_ok (ap_zero _ _ _ _ fresh_space_post eq_refl) fresh_space_clear P).
    + split; vm_compute; discriminate.
    + reflexivity.
    + exact (Nat.le_trans _ _ _ (ltac:(lia) : (5 <= 100)%nat) (proj1 fresh_space_available)).
Qed.

Lemma install_os_pts_maps_witness :
  kwalk (fs_ram (install_os_pts fresh_root one_page_kernel).2) fresh_root 0x200000 = Some 0x200000 /\
  kwalk (fs_ram (install_os_pts fresh_root one_page_kernel).2) fresh_root 0xfee000b0 = Some 0xfee000b0.
Proof.
  destruct one_page_kernel_slots as (Hok & (pud & Hsl) & Hav).
  destruct (install_os_pts_maps one_page_kernel fresh_root pud 0x180002000 6 Hok Hsl Hav) as ([Hl Hh] & _).
  pose proof (install_os_pts_apic one_page_kernel fresh_root pud Hok Hsl Hav) as Ea.
  assert (E0 : apic_page one_page_kernel = 0xfee00000) by (unfold apic_page; by cbn [apic_base one_page_kernel]).
  split; [apply Hl|apply Hh; rewrite Ea, E0]; clear; lia.
Defined.
