(* ===== verification/Idt.v ===== *)
(** * idt.c: descriptor tables and the task-state segment

    The interrupt descriptor table, the user segments and TSS descriptor
    appended to the GDT, and the kernel stack pointer kept in the TSS.  The
    packed structures of include/idt.h are laid out byte by byte in memory. *)
From S2P Require Import Prelude Mem Lib Machine Memory PageAlloc Frames PageTable PageMap Kernel Apic.
Local Open Scope gemos_scope.

Definition IDT_DESC_TYPE_INT_SW : Z := 0xEE.
Definition IDT_DESC_TYPE_INT_HW : Z := 0x8E.
Definition NUM_IDT_ENTRY : Z := 256.
Definition FAULT_DIVZERO : Z := 0x0.
Definition FAULT_GP : Z := 0xD.
Definition FAULT_PF : Z := 0xE.
Definition SYSCALL_IDT : Z := 0x80.

(** Stores into the memory of the kernel. *)
Definition kst8 (a v : Z) (k : kernel) : kernel := fs_set_ram (st8 (fs_ram k) a v) k.
Definition kst16 (a v : Z) (k : kernel) : kernel := fs_set_ram (st16 (fs_ram k) a v) k.
Definition kst32 (a v : Z) (k : kernel) : kernel := fs_set_ram (st32 (fs_ram k) a v) k.

(** ** The descriptor registers *)

(** [struct IDTR], packed: the operand of [lidt], [lgdt] and [sidt]. *)
Record IDTR := MkIDTR { limit : Z; base : Z }.

Definition install_idt (idt : IDTR) (k : kernel) : kernel := fs_emit (ELidt (limit idt) (base idt)) k.
Definition install_gdt (gdt : IDTR) (k : kernel) : kernel := fs_emit (ELgdt (limit gdt) (base gdt)) k.

(** The registers of the processor: what was loaded last. *)
Fixpoint cpu_idtr (l : list event) : option IDTR :=
  match l with [] => None | ELidt lim b :: _ => Some (MkIDTR lim b) | _ :: l => cpu_idtr l end.
Fixpoint cpu_gdtr (l : list event) : option IDTR :=
  match l with [] => None | ELgdt lim b :: _ => Some (MkIDTR lim b) | _ :: l => cpu_gdtr l end.
Fixpoint cpu_tr (l : list event) : option Z :=
  match l with [] => None | ELtr sel :: _ => Some sel | _ :: l => cpu_tr l end.

(** [sidt] fills the variable [idt]. *)
Definition read_idt (k : kernel) : option IDTR := cpu_idtr (trace (mach (k_mm k))).

(** [sgdt] stores ten bytes in the pointer [gdp], which has eight. *)
Definition read_gdt : M IDTR := fun k => Undefined k.

(** ** Interrupt descriptors *)

(** [struct idt_entry], packed: offset_low at 0, segment at 2, ist at 4,
    flags_type at 5, offset_mid at 6, offset_high at 8, unused at 12. *)
Definition sizeof_idt_entry : Z := 16.

Definition create_idt (e type callback ist : Z) (k : kernel) : kernel :=
  let k := kst32 (e + 12) 0 k in
  let k := kst8 (e + 4) ist k in
  let k := kst16 e (callback .& 0xffff) k in
  let k := kst16 (e + 6) ((callback >> 16) .& 0xffff) k in
  let k := kst32 (e + 8) (callback >> 32) k in
  let k := kst8 (e + 5) type k in
  kst16 (e + 2) 8 k.

Definition create_null_idt (e : Z) (k : kernel) : kernel := kst8 (e + 5) 0 k.

(** Addresses of the assembly entry points of boot_64.S. *)
Record handlers := Handlers {
  handle_div_by_zero : Z;
  handle_page_fault : Z;
  handle_gp : Z;
  handle_syscall : Z;
  handle_irq : Z
}.

(** One iteration of the loop of [setup_idt]. *)
Definition setup_idt_entry (h : handlers) (i idt_e : Z) (k : kernel) : kernel :=
  if i =? FAULT_DIVZERO then create_idt idt_e IDT_DESC_TYPE_INT_SW (handle_div_by_zero h) 0 k
  else if i =? FAULT_PF then create_idt idt_e IDT_DESC_TYPE_INT_SW (handle_page_fault h) 0 k
  else if i =? FAULT_GP then create_idt idt_e IDT_DESC_TYPE_INT_SW (handle_gp h) 0 k
  else if i =? SYSCALL_IDT then create_idt idt_e IDT_DESC_TYPE_INT_SW (handle_syscall h) 0 k
  else if (i =? IRQ_SPURIOUS) || (i =? APIC_TIMER)
  then create_idt idt_e IDT_DESC_TYPE_INT_HW (handle_irq h) 1 k
  else create_null_idt idt_e k.

Fixpoint setup_idt_loop (n : nat) (h : handlers) (i idt_e : Z) (k : kernel) : kernel :=
  match n with
  | O => k
  | S n => setup_idt_loop n h (i + 1) (idt_e + sizeof_idt_entry) (setup_idt_entry h i idt_e k)
  end.

(** The result is the value of the variable [idt]. *)
Definition setup_idt (h : handlers) (k : kernel) : IDTR * kernel :=
  let '(idt_table_base, k) := fs_alloc OS_PT_REG k in
  let idt_table_base := u64 (idt_table_base << PAGE_SHIFT) in
  let k := setup_idt_loop (Z.to_nat NUM_IDT_ENTRY) h 0 idt_table_base k in
  let idt := MkIDTR (u16 ((1 << 12) - 1)) idt_table_base in
  (idt, install_idt idt k).

(** ** Segments and TSS *)

Definition set_tss_page (v : Z) (k : kernel) : kernel :=
  Kernel (k_mm k) (ctx_list k) (current k) (stats k) (config k) (os_pmd_pfn k) (apic_base k) v.

(** [struct gdt_entry], packed in 8 bytes: limit_low at 0, base_low at 2,
    base_mid at 4, ac_byte at 5, the two halves limit_high and flags of byte
    6, base_high at 7. *)
Definition write_gdt_entry (e base_low base_mid base_high limit_low limit_high ac_byte flags : Z)
    (k : kernel) : kernel :=
  let k := kst16 (e + 2) base_low k in
  let k := kst8 (e + 4) base_mid k in
  let k := kst8 (e + 7) base_high k in
  let k := kst16 e limit_low k in
  let k := kst8 (e + 6) (limit_high .| (flags << 4)) k in
  kst8 (e + 5) ac_byte k.

(** The loop that prints the boot entries and widens their limits. *)
Fixpoint gdt_boot_loop (n : nat) (e : Z) (k : kernel) : Z * kernel :=
  match n with
  | O => (e, k)
  | S n =>
      let m := fs_ram k in
      let k := kprintf "base = %x " [PInt (ld16 m (e + 2) .| (ld8 m (e + 4) << 16) .| (ld8 m (e + 7) << 24))] k in
      let k := kprintf "limit low = %x high=%x ac_byte = %x flags=%x\n"
        [PInt (ld16 m e); PInt (ld8 m (e + 6) .& 0xf); PInt (ld8 m (e + 5)); PInt (ld8 m (e + 6) >> 4)] k in
      gdt_boot_loop n (e + 8) (kst16 e 0xffff k)
  end.

(** The user's code and data segments, at [e] and after it. *)
Definition user_segments (e : Z) (k : kernel) : kernel :=
  let k := kprintf "Initializing user segments\n" [] k in
  let k := write_gdt_entry e 0 0 0 0xffff 0xf 0xfa 0xa k in
  write_gdt_entry (e + 8) 0 0 0 0xffff 0xf 0xf2 0xa k.

(** The 16-byte descriptor of the TSS at address [tss], which is cleared. *)
Definition tss_descriptor (e tss : Z) (k : kernel) : kernel :=
  let k := set_tss_page tss k in
  let k := fs_set_ram (bzero (fs_ram k) tss PAGE_SIZE) k in
  let k := write_gdt_entry e (tss .& 0xffff) ((tss >> 16) .& 0xff) ((tss >> 24) .& 0xff) 1 0 0xe9 8 k in
  let k := kst32 (e + 8) (tss >> 32) k in
  kst32 (e + 8 + 4) 0 k.

(** The stack of interrupts, IST entry 1. *)
Definition tss_stack (tss irq_stack : Z) (k : kernel) : kernel :=
  let k := kst32 (tss + 36) (irq_stack .& 0xffffffff) k in
  kst32 (tss + 40) (irq_stack >> 32) k.

(** [ltr].  The processor also marks the descriptor as busy, which the model
    leaves out: nothing in the kernel reads it. *)
Definition load_tr (selector : Z) (k : kernel) : kernel := fs_emit (ELtr selector) k.

Definition setup_tss (gdt : IDTR) (e : Z) (k : kernel) : (IDTR * Z) * kernel :=
  let '(tss, k) := fs_alloc OS_PT_REG k in
  let tss := u64 (tss << PAGE_SHIFT) in
  let k := tss_descriptor e tss k in
  let gdt := MkIDTR (u16 (limit gdt + 8 + 8 + 16)) (base gdt) in
  let k := load_tr 0x33 (install_gdt gdt k) in
  let '(irq_stack, k) := fs_alloc OS_PT_REG k in
  let irq_stack := u64 ((irq_stack + 1) << PAGE_SHIFT) in
  ((gdt, irq_stack), tss_stack tss irq_stack k).

(** The result is the GDT register and the address of the interrupt stack. *)
Definition setup_gdt_tss (gdt : IDTR) (k : kernel) : (IDTR * Z) * kernel :=
  let total_gdts := (limit gdt + 1) / 8 in
  let '(e, k) := gdt_boot_loop (Z.to_nat total_gdts) (base gdt) k in
  setup_tss gdt (e + 16) (user_segments e k).

(** [struct tss]: rsp0_low at 4, rsp0_high at 8, ist1_low at 36. *)
Definition set_tss_stack_ptr (ctx : exec_context) (k : kernel) : kernel :=
  let sp := u64 (u32 (os_stack_pfn ctx + 1) << PAGE_SHIFT) in
  let k := kst32 (tss_page k + 4) (sp .& 0xffffffff) k in
  kst32 (tss_page k + 8) (sp >> 32) k.
