(* ===== verification/IdtSpec.v ===== *)
(** * The interrupt descriptor table as the processor reads it

    [gate_at] decodes a descriptor of the table in memory by the rules of the
    architecture; [setup_idt] installs the handlers of the kernel and nothing
    else. *)
From S2P Require Import Prelude Mem Lib Machine Memory PageAlloc Frames PageTable PageMap Kernel Apic Idt.
#[local] Open Scope gemos_scope.

(** A present 64-bit gate: the code segment and the entry point that the
    processor loads, the interrupt stack it switches to (0: none), the
    privilege level that may use it with [int], and the gate's type. *)
Record gate := Gate { g_segment : Z; g_offset : Z; g_ist : Z; g_dpl : Z; g_type : Z }.

Definition gate_at (m : mem) (e : Z) : option gate :=
  let flags := ld8 m (e + 5) in
  if Z.testbit flags 7 then
    Some (Gate (ld16 m (e + 2)) (ld16 m e + 2^16 * ld16 m (e + 6) + 2^32 * ld32 m (e + 8))
            (ld8 m (e + 4) mod 8) (flags / 32 mod 4) (flags mod 16))
  else None.

(** Vector [i] of the table at [base]. *)
Definition idt_gate (m : mem) (base i : Z) : option gate := gate_at m (base + 16 * i).

(** The gates of gemOS: 14 is the type of an interrupt gate, segment 8 the
    kernel's code. *)
Definition kernel_gate (h : handlers) (i : Z) : option gate :=
  match i with
  | 0 => Some (Gate 8 (handle_div_by_zero h) 0 3 14)
  | 13 => Some (Gate 8 (handle_gp h) 0 3 14)
  | 14 => Some (Gate 8 (handle_page_fault h) 0 3 14)
  | 32 => Some (Gate 8 (handle_irq h) 1 0 14)
  | 128 => Some (Gate 8 (handle_syscall h) 0 3 14)
  | 255 => Some (Gate 8 (handle_irq h) 1 0 14)
  | _ => None
  end.

Definition handlers_ok (h : handlers) : Prop :=
  Forall (fun a => 0 <= a < 2^64) [handle_div_by_zero h; handle_page_fault h; handle_gp h; handle_syscall h; handle_irq h].

(** ** One descriptor *)

Lemma ld8_ldn m a : ld8 m a = ldn 1 m a.
Proof. cbn [ldn]. lia. Qed.

(** The low, middle and high parts of a 64-bit address. *)
Lemma split_address a :
  0 <= a < 2^64 ->
  (a .& 0xffff) mod 2^16 + 2^16 * (((a >> 16) .& 0xffff) mod 2^16) + 2^32 * ((a >> 32) mod 2^32) = a.
Proof.
  intros Ha. change 0xffff with (Z.ones 16). rewrite !Z.land_ones, !Z.shiftr_div_pow2 by lia.
  rewrite !Z.mod_mod by lia. zdm.
Qed.

Lemma create_idt_ram e type cb ist k :
  create_idt e type cb ist k = fs_set_ram
    (st16 (st8 (st32 (st16 (st16 (st8 (st32 (fs_ram k) (e + 12) 0) (e + 4) ist) e (cb .& 0xffff)) (e + 6) ((cb >> 16) .& 0xffff))
       (e + 8) (cb >> 32)) (e + 5) type) (e + 2) 8) k.
Proof. reflexivity. Qed.

Ltac fields := unfold ld16, ld32, st16, st32; change st8 with (stn 1); repeat first [rewrite ldn_stn_eq | rewrite ldn_stn_ne by lia].

Lemma create_idt_gate e type cb ist k :
  0 <= cb < 2^64 -> 0x80 <= type < 0x100 -> 0 <= ist < 8 ->
  gate_at (fs_ram (create_idt e type cb ist k)) e = Some (Gate 8 cb ist (type / 32 mod 4) (type mod 16)).
Proof.
  intros Hcb Ht Hi. rewrite create_idt_ram. change (fs_ram (fs_set_ram ?m k)) with m.
  set (m := st16 _ _ _). unfold gate_at.
  assert (F5 : ld8 m (e + 5) = type) by (rewrite ld8_ldn; unfold m; fields; apply Z.mod_small; cbn; lia).
  assert (F4 : ld8 m (e + 4) = ist) by (rewrite ld8_ldn; unfold m; fields; apply Z.mod_small; cbn; lia).
  assert (F2 : ld16 m (e + 2) = 8) by (unfold m; fields; reflexivity).
  assert (F0 : ld16 m e = (cb .& 0xffff) mod 2^16) by (unfold m; fields; reflexivity).
  assert (F6 : ld16 m (e + 6) = ((cb >> 16) .& 0xffff) mod 2^16) by (unfold m; fields; reflexivity).
  assert (F8 : ld32 m (e + 8) = (cb >> 32) mod 2^32) by (unfold m; fields; reflexivity).
  rewrite F5, F4, F2, F0, F6, F8, split_address by done.
  rewrite (Z.mod_small ist) by lia.
  destruct (Z.testbit type 7) eqn:E; [done|]. exfalso. apply Z.testbit_false in E; [|lia]. change (2^7) with 128 in E. zdm.
Qed.

Lemma create_idt_untouched e type cb ist k :
  untouched (fun a => e <= a < e + 16) (fs_ram k) (fs_ram (create_idt e type cb ist k)).
Proof.
  rewrite create_idt_ram. change (fs_ram (fs_set_ram ?m k)) with m. intros a Ha.
  unfold st16, st32. change st8 with (stn 1). rewrite !ld8_stn_out by lia. done.
Qed.

(** ** The loop of setup_idt *)

Lemma setup_idt_entry_untouched h i e k :
  untouched (fun a => e <= a < e + 16) (fs_ram k) (fs_ram (setup_idt_entry h i e k)).
Proof.
  unfold setup_idt_entry. repeat (case_match; [apply create_idt_untouched|]).
  intros a Ha. unfold create_null_idt, kst8. change (fs_ram (fs_set_ram ?m k)) with m. rewrite ld8_st8. by zcase; [lia|].
Qed.

Lemma setup_idt_entry_gate h i e k :
  handlers_ok h -> 0 <= i < 256 -> gate_at (fs_ram (setup_idt_entry h i e k)) e = kernel_gate h i.
Proof.
  intros Hh Hi. unfold handlers_ok in Hh. rewrite !Forall_cons in Hh. cbv beta in Hh. destruct Hh as (H0 & H1 & H2 & H3 & H4 & _).
  unfold setup_idt_entry, FAULT_DIVZERO, FAULT_PF, FAULT_GP, SYSCALL_IDT, IRQ_SPURIOUS, APIC_TIMER.
  repeat match goal with
  | |- context [i =? ?n] => destruct (Z.eqb_spec i n) as [->|?]; cbn [orb]; [rewrite create_idt_gate by (done || lia); reflexivity|]
  end.
  unfold create_null_idt, kst8. change (fs_ram (fs_set_ram ?m k)) with m.
  unfold gate_at. rewrite ld8_st8, Z.eqb_refl. cbn.
  destruct i as [|p|p]; [lia| |lia]. unfold kernel_gate.
  repeat (destruct p as [p|p|]; try reflexivity; try lia).
Qed.

Lemma gate_at_same m m' e : (forall a, e <= a < e + 16 -> ld8 m' a = ld8 m a) -> gate_at m' e = gate_at m e.
Proof.
  intros H. unfold gate_at.
  rewrite (ld16_ext m m' e), (ld16_ext m m' (e + 2)), (ld16_ext m m' (e + 6)), (ld32_ext m m' (e + 8)), !H
    by (lia || (intros; apply H; lia)).
  done.
Qed.

Lemma setup_idt_loop_untouched n h i e k :
  untouched (fun a => e <= a < e + 16 * Z.of_nat n) (fs_ram k) (fs_ram (setup_idt_loop n h i e k)).
Proof.
  revert i e k. induction n as [|n IH]; intros i e k; [done|]. cbn [setup_idt_loop]. change sizeof_idt_entry with 16.
  apply untouched_trans with (m2 := fs_ram (setup_idt_entry h i e k)).
  - eapply untouched_weaken; [|apply setup_idt_entry_untouched]. cbv beta. lia.
  - eapply untouched_weaken; [|apply IH]. cbv beta. lia.
Qed.

Lemma setup_idt_loop_gates n h i e k j :
  handlers_ok h -> 0 <= i -> i + Z.of_nat n <= 256 -> 0 <= j < Z.of_nat n ->
  gate_at (fs_ram (setup_idt_loop n h i e k)) (e + 16 * j) = kernel_gate h (i + j).
Proof.
  intros Hh. revert i e k j. induction n as [|n IH]; intros i e k j Hi Hn Hj; [lia|]. cbn [setup_idt_loop]. change sizeof_idt_entry with 16.
  destruct (Z.eq_dec j 0) as [->|Hj0].
  - rewrite Z.mul_0_r, !Z.add_0_r. rewrite <- (setup_idt_entry_gate h i e k) by (done || lia).
    apply gate_at_same. intros a Ha. apply setup_idt_loop_untouched. lia.
  - replace (e + 16 * j) with (e + 16 + 16 * (j - 1)) by lia. rewrite IH by lia. f_equal. lia.
Qed.

Lemma install_idt_ram i k : fs_ram (install_idt i k) = fs_ram k.
Proof. reflexivity. Qed.

(** What [lidt] loads is what [sidt] finds. *)
Lemma read_install_idt i k : read_idt (install_idt i k) = Some i.
Proof. by destruct i. Qed.

(** The frame that holds the table. *)
Lemma fs_alloc_pt_addr k :
  mm_inv (k_mm k) -> (0 < available (k_mm k) OS_PT_REG)%nat ->
  let q := (fs_alloc OS_PT_REG k).1 in
  u64 (q << PAGE_SHIFT) = 4096 * q /\ 8193 <= q < 25600.
Proof.
  intros Hi Hav q. pose proof (ap_range _ _ _ _ (os_pfn_alloc_ok OS_PT_REG (k_mm k) Hi Hav)) as Hr.
  assert (Eq : q = (os_pfn_alloc OS_PT_REG (k_mm k)).1).
  { unfold q, fs_alloc, kernel_frames. by destruct (os_pfn_alloc OS_PT_REG (k_mm k)). }
  rewrite <- Eq in Hr. change (region_first OS_PT_REG) with 8193 in Hr.
  change (region_pfn OS_PT_REG + region_frames OS_PT_REG) with 25600 in Hr. split; [|done].
  unfold PAGE_SHIFT. rewrite shiftl_12, u64_small by lia. lia.
Qed.

Lemma setup_idt_ok h k :
  handlers_ok h -> mm_inv (k_mm k) -> (0 < available (k_mm k) OS_PT_REG)%nat ->
  let b := base (setup_idt h k).1 in let k' := (setup_idt h k).2 in
  (forall i, 0 <= i < 256 -> idt_gate (fs_ram k') b i = kernel_gate h i) /\
  read_idt k' = Some (MkIDTR 4095 b) /\
  (exists q, b = 4096 * q /\ ~ owned (k_mm k) OS_PT_REG q /\ 8193 <= q < 25600 /\
    untouched (in_frame q) (fs_ram (fs_alloc OS_PT_REG k).2) (fs_ram k')).
Proof.
  intros Hh Hi Hav. cbv zeta. unfold setup_idt.
  destruct (fs_alloc_pt_addr k Hi Hav) as [Eb Hr].
  pose proof (fl_alloc k OS_PT_REG Hi Hav) as (_ & Hno & _).
  destruct (fs_alloc OS_PT_REG k) as [q k1]. cbn [fst snd] in *. rewrite Eb. split; [|split; [exact (read_install_idt _ _)|]].
  - intros i Hi'. unfold idt_gate. change (Z.to_nat NUM_IDT_ENTRY) with 256%nat.
    rewrite install_idt_ram. cbn [base].
    rewrite setup_idt_loop_gates by (done || lia). done.
  - exists q. split; [done|]. split; [exact Hno|]. split; [done|].
    rewrite install_idt_ram. change (Z.to_nat NUM_IDT_ENTRY) with 256%nat. eapply untouched_weaken; [|apply setup_idt_loop_untouched].
    cbv beta. unfold in_frame. lia.
Qed.

(** A frame number tells the region. *)
Lemma fl_region_of k r q : mm_inv (k_mm k) -> owned (k_mm k) r q -> 8193 <= q < 25600 -> r = OS_PT_REG.
Proof.
  intros Hi Ho Hq. pose proof (owned_range _ _ _ Hi Ho) as Hr. region_nums r; [|done|]; vm_compute (_ + _) in Hr; lia.
Qed.

(** C17: [setup_idt] installs a table of 256 descriptors, in a frame of its own, in
    which the processor finds the handlers of divide error, protection fault,
    page fault, system call, timer and spurious interrupt at their vectors and
    no present gate elsewhere; the IDT register has its address and the limit
    4095; no owned frame changes.  The gates of the
    faults may be used from user mode (privilege level 3), like that of the
    system call. *)
Theorem setup_idt_gates h k :
  handlers_ok h -> mm_inv (k_mm k) -> (0 < available (k_mm k) OS_PT_REG)%nat ->
  let b := base (setup_idt h k).1 in let k' := (setup_idt h k).2 in
  (forall i, 0 <= i < 256 -> idt_gate (fs_ram k') b i = kernel_gate h i) /\
  read_idt k' = Some (MkIDTR 4095 b) /\
  (exists q, b = 4096 * q /\ ~ owned (k_mm k) OS_PT_REG q) /\
  frames_same (fun k => owned (k_mm k)) k (fs_ram k').
Proof.
  intros Hh Hi Hav b k'. destruct (setup_idt_ok h k Hh Hi Hav) as (Hg & Er & q & Eb & Hno & Hq & Hu). fold b k' in Hg, Eb, Hu.
  split; [exact Hg|]. split; [exact Er|]. split; [by exists q|]. intros r p a Hp Ha.
  pose proof (fl_alloc k OS_PT_REG Hi Hav) as (_ & _ & _ & _ & _ & _ & Hs).
  rewrite <- (Hs r p a Hp Ha). apply Hu. intros Hin. assert (p = q) as -> by (by apply (frames_distinct _ _ a)).
  apply Hno. by rewrite <- (fl_region_of k r q Hi Hp Hq).
Qed.

Lemma setup_idt_gates_witness :
  let k := Kernel boot_mm [] None (OsStats 0 0 0 0 0 0 0 0) (OsConfigs 0 0 0 0) 0 0 0 in
  let h := Handlers 0x100100 0x100200 0x100300 0x100400 0x100500 in
  idt_gate (fs_ram (setup_idt h k).2) (base (setup_idt h k).1) 128 = Some (Gate 8 0x100400 0 3 14).
Proof.
  intros k h. destruct (setup_idt_gates h k) as [H _].
  - repeat constructor; cbn; lia.
  - exact boot_mm_inv.
  - exact (boot_available OS_PT_REG).
  - exact (H 128 ltac:(lia)).
Defined.
