(* ===== verification/GdtSpec.v ===== *)
(** * Segments and the task-state segment as the processor reads them

    [descriptor_at] decodes an entry of the GDT in memory and [tss_ist1],
    [tss_rsp0] the stacks of the TSS by the rules of the architecture.
    [setup_gdt_tss] leaves the segments that [exec_init] names (0x23, 0x2b) as
    the user's, and a TSS whose interrupt stack is a frame of its own. *)
From S2P Require Import Prelude Mem Lib Machine Memory PageAlloc Frames PageTable PageMap Kernel Apic Idt IdtSpec.
#[local] Open Scope gemos_scope.

(** A present descriptor.  [d_segment] tells code and data from system
    descriptors, [d_long] marks 64-bit code. *)
Record descriptor := Descriptor {
  d_base : Z; d_limit : Z; d_type : Z; d_segment : bool; d_dpl : Z; d_long : bool; d_pages : bool
}.

Definition descriptor_at (m : mem) (e : Z) : option descriptor :=
  let ac := ld8 m (e + 5) in
  let hi := ld8 m (e + 6) in
  if Z.testbit ac 7 then
    Some (Descriptor (ld16 m (e + 2) + 2^16 * ld8 m (e + 4) + 2^24 * ld8 m (e + 7)) (ld16 m e + 2^16 * (hi mod 16))
            (ac mod 16) (Z.testbit ac 4) (ac / 32 mod 4) (Z.testbit hi 5) (Z.testbit hi 7))
  else None.

(** The entry that a selector names; its two low bits are a privilege level. *)
Definition gdt_descriptor (m : mem) (gdt : IDTR) (selector : Z) : option descriptor :=
  let e := 8 * (selector / 8) in
  if e + 7 <=? limit gdt then descriptor_at m (base gdt + e) else None.

(** 64-bit code and writable data that level 3 may use; a free 64-bit TSS. *)
Definition user_code : descriptor := Descriptor 0 0xfffff 10 true 3 true true.
Definition user_data : descriptor := Descriptor 0 0xfffff 2 true 3 true true.
Definition tss_segment (b : Z) : descriptor := Descriptor b 1 9 false 3 false true.

(** The stacks that the TSS at [t] names. *)
Definition tss_rsp0 (m : mem) (t : Z) : Z := ld32 m (t + 4) + 2^32 * ld32 m (t + 8).
Definition tss_ist1 (m : mem) (t : Z) : Z := ld32 m (t + 36) + 2^32 * ld32 m (t + 40).

(** ** One entry *)

Lemma write_gdt_entry_ram e bl bm bh ll lh ac fl k :
  fs_ram (write_gdt_entry e bl bm bh ll lh ac fl k) =
  st8 (st8 (st16 (st8 (st8 (st16 (fs_ram k) (e + 2) bl) (e + 4) bm) (e + 7) bh) e ll) (e + 6) (lh .| (fl << 4))) (e + 5) ac.
Proof. reflexivity. Qed.

Lemma write_gdt_entry_untouched e bl bm bh ll lh ac fl k :
  untouched (fun a => e <= a < e + 8) (fs_ram k) (fs_ram (write_gdt_entry e bl bm bh ll lh ac fl k)).
Proof.
  rewrite write_gdt_entry_ram. intros a Ha. unfold st16. change st8 with (stn 1). by rewrite !ld8_stn_out by lia.
Qed.

Lemma write_gdt_entry_descriptor e bl bm bh ll lh ac fl k :
  0 <= bl < 2^16 -> 0 <= bm < 2^8 -> 0 <= bh < 2^8 -> 0 <= ll < 2^16 -> 0 <= lh .| (fl << 4) < 2^8 -> 0 <= ac < 2^8 ->
  Z.testbit ac 7 = true ->
  descriptor_at (fs_ram (write_gdt_entry e bl bm bh ll lh ac fl k)) e =
    let hi := lh .| (fl << 4) in
    Some (Descriptor (bl + 2^16 * bm + 2^24 * bh) (ll + 2^16 * (hi mod 16)) (ac mod 16) (Z.testbit ac 4) (ac / 32 mod 4)
            (Z.testbit hi 5) (Z.testbit hi 7)).
Proof.
  intros Hbl Hbm Hbh Hll Hhi Hac Hp. rewrite write_gdt_entry_ram. set (m := st8 _ _ _). unfold descriptor_at.
  assert (F2 : ld16 m (e + 2) = bl) by (unfold m; fields; by apply Z.mod_small).
  assert (F4 : ld8 m (e + 4) = bm) by (rewrite ld8_ldn; unfold m; fields; by apply Z.mod_small).
  assert (F7 : ld8 m (e + 7) = bh) by (rewrite ld8_ldn; unfold m; fields; by apply Z.mod_small).
  assert (F0 : ld16 m e = ll) by (unfold m; fields; by apply Z.mod_small).
  assert (F6 : ld8 m (e + 6) = lh .| (fl << 4)) by (rewrite ld8_ldn; unfold m; fields; by apply Z.mod_small).
  assert (F5 : ld8 m (e + 5) = ac) by (rewrite ld8_ldn; unfold m; fields; by apply Z.mod_small).
  by rewrite F2, F4, F7, F0, F6, F5, Hp.
Qed.

Lemma descriptor_at_same m m' e : (forall a, e <= a < e + 8 -> ld8 m' a = ld8 m a) -> descriptor_at m' e = descriptor_at m e.
Proof. intros H. unfold descriptor_at. rewrite (ld16_ext m m' e), (ld16_ext m m' (e + 2)), !H by (lia || (intros; apply H; lia)). done. Qed.

(** ** The parts of setup_gdt_tss *)

Lemma user_segments_ok e k :
  let m := fs_ram (user_segments e k) in
  descriptor_at m e = Some user_code /\ descriptor_at m (e + 8) = Some user_data /\
  untouched (fun a => e <= a < e + 16) (fs_ram k) m.
Proof.
  unfold user_segments. set (k1 := kprintf _ _ k). change (fs_ram k) with (fs_ram k1). cbv zeta. split; [|split].
  - rewrite (descriptor_at_same (fs_ram (write_gdt_entry e 0 0 0 0xffff 0xf 0xfa 0xa k1))).
    + by rewrite write_gdt_entry_descriptor.
    + intros a Ha. apply write_gdt_entry_untouched. lia.
  - by rewrite write_gdt_entry_descriptor.
  - apply untouched_trans with (m2 := fs_ram (write_gdt_entry e 0 0 0 0xffff 0xf 0xfa 0xa k1));
      (eapply untouched_weaken; [|apply write_gdt_entry_untouched]); cbv beta; lia.
Qed.

(** The address of the TSS, taken apart for its descriptor. *)
Lemma tss_address t : 0 <= t < 2^32 ->
  (t .& 0xffff) + 2^16 * ((t >> 16) .& 0xff) + 2^24 * ((t >> 24) .& 0xff) = t /\ t >> 32 = 0 /\
  0 <= t .& 0xffff < 2^16 /\ 0 <= (t >> 16) .& 0xff < 2^8 /\ 0 <= (t >> 24) .& 0xff < 2^8.
Proof.
  intros Ht. change 0xffff with (Z.ones 16). change 0xff with (Z.ones 8). rewrite !Z.land_ones, !Z.shiftr_div_pow2 by lia.
  split_and!; zdm.
Qed.

Lemma tss_descriptor_ok e t k :
  0 <= t < 2^32 -> e + 16 <= t ->
  let k' := tss_descriptor e t k in let m := fs_ram k' in
  tss_page k' = t /\ descriptor_at m e = Some (tss_segment t) /\ ld64 m (e + 8) = 0 /\
  (forall a, t <= a < t + 4096 -> ld8 m a = 0) /\
  untouched (fun a => e <= a < e + 16 \/ t <= a < t + 4096) (fs_ram k) m.
Proof.
  intros Ht He. destruct (tss_address t Ht) as (Et & E32 & Hl & Hm & Hh). cbv zeta. unfold tss_descriptor. rewrite E32.
  set (k1 := fs_set_ram _ (set_tss_page t k)). set (k2 := write_gdt_entry _ _ _ _ _ _ _ _ k1).
  assert (U1 : untouched (fun a => t <= a < t + 4096) (fs_ram k) (fs_ram k1)) by (by apply untouched_bzero).
  assert (U2 : untouched (fun a => e <= a < e + 8) (fs_ram k1) (fs_ram k2)) by apply write_gdt_entry_untouched.
  assert (E : fs_ram (kst32 (e + 8 + 4) 0 (kst32 (e + 8) 0 k2)) = st32 (st32 (fs_ram k2) (e + 8) 0) (e + 8 + 4) 0) by reflexivity.
  assert (U3 : untouched (fun a => e + 8 <= a < e + 16) (fs_ram k2) (fs_ram (kst32 (e + 8 + 4) 0 (kst32 (e + 8) 0 k2)))).
  { rewrite E. intros a Ha. unfold st32. by rewrite !ld8_stn_out by lia. }
  split; [reflexivity|]. split; [|split; [|split]].
  - rewrite (descriptor_at_same (fs_ram k2)) by (intros a Ha; apply U3; lia).
    unfold k2. rewrite write_gdt_entry_descriptor by (assumption || (vm_compute; intuition congruence)). cbv zeta. by rewrite Et.
  - rewrite E. apply (ldn_zero 8). intros b Hb. unfold st32. rewrite !ld8_stn.
    assert (Z0 : forall n, 0 <= n -> (0 / 256 ^ n) mod 256 = 0) by (intros n Hn; by rewrite Z.div_0_l by (apply Z.pow_nonzero; lia)).
    zcase; cbn [andb]; first [apply Z0; lia | lia].
  - intros a Ha. rewrite U3, U2 by lia. change (fs_ram k1) with (bzero (fs_ram k) t PAGE_SIZE).
    rewrite ld8_bzero. change PAGE_SIZE with 4096. zcase; cbn [andb]; lia.
  - intros a Ha. by rewrite U3, U2, U1 by lia.
Qed.

Lemma word_halves v : 0 <= v < 2^64 -> (v .& 0xffffffff) mod 2^32 + 2^32 * ((v >> 32) mod 2^32) = v.
Proof.
  intros Hv. change 0xffffffff with (Z.ones 32). rewrite Z.land_ones, Z.shiftr_div_pow2, Z.mod_mod by lia. zdm.
Qed.

Lemma tss_descriptor_next e t k r : pglists (k_mm (tss_descriptor e t k)) r = pglists (k_mm k) r.
Proof. by destruct r. Qed.

Lemma tss_descriptor_trace e t k : trace (mach (k_mm (tss_descriptor e t k))) = trace (mach (k_mm k)).
Proof. done. Qed.

Lemma tss_stack_next t v k r : pglists (k_mm (tss_stack t v k)) r = pglists (k_mm k) r.
Proof. by destruct r. Qed.

Lemma tss_stack_trace t v k : trace (mach (k_mm (tss_stack t v k))) = trace (mach (k_mm k)).
Proof. done. Qed.

Lemma tss_stack_page t v k : tss_page (tss_stack t v k) = tss_page k.
Proof. done. Qed.

Lemma tss_stack_ok t v k :
  0 <= v < 2^64 -> let m := fs_ram (tss_stack t v k) in
  tss_ist1 m t = v /\ untouched (fun a => t + 36 <= a < t + 44) (fs_ram k) m.
Proof.
  intros Hv. assert (E : fs_ram (tss_stack t v k) = st32 (st32 (fs_ram k) (t + 36) (v .& 0xffffffff)) (t + 40) (v >> 32)) by reflexivity.
  cbv zeta. rewrite E. split.
  - unfold tss_ist1. fields. by apply word_halves.
  - intros a Ha. unfold st32. by rewrite !ld8_stn_out by lia.
Qed.

(** The loop over the boot entries: their limits become 0xffff. *)
Lemma gdt_boot_loop_ok n e k :
  (gdt_boot_loop n e k).1 = e + 8 * Z.of_nat n /\
  forall a, ld8 (fs_ram (gdt_boot_loop n e k).2) a =
    if (e <=? a) && (a <? e + 8 * Z.of_nat n) && ((a - e) mod 8 <? 2) then 255 else ld8 (fs_ram k) a.
Proof.
  revert e k. induction n as [|n IH]; intros e k; cbn [gdt_boot_loop].
  { split; [cbn; lia|]. intros a. cbn. zcase; cbn; done || lia. }
  match goal with |- context [gdt_boot_loop n (e + 8) ?k'] => destruct (IH (e + 8) k') as [E H] end.
  split; [rewrite E; lia|]. intros a. rewrite H. clear E H IH.
  assert (E : (a - (e + 8)) mod 8 = (a - e) mod 8) by (replace (a - (e + 8)) with (a - e + (-1) * 8) by lia; by rewrite Z.mod_add).
  rewrite E. unfold kst16. change (fs_ram (fs_set_ram ?m _)) with m. change (fs_ram (kprintf _ _ ?k)) with (fs_ram k).
  unfold st16. rewrite ld8_stn. assert (Hd : 0 <= a - e < 8 -> (a - e) mod 8 = a - e) by (intros; by apply Z.mod_small).
  zcase; cbn [andb]; try (done || lia).
  assert (a = e \/ a = e + 1) as [->| ->] by lia; [by rewrite Z.sub_diag|by replace (e + 1 - e) with 1 by lia].
Qed.

(** A page-table frame is taken. *)
Record pt_taken (k : kernel) (q : Z) (k1 : kernel) : Prop := {
  tk_addr : u64 (q << PAGE_SHIFT) = 4096 * q;
  tk_range : 8193 <= q < 25600;
  tk_inv : mm_inv (k_mm k1);
  tk_avail : available (k_mm k) OS_PT_REG = S (available (k_mm k1) OS_PT_REG);
  tk_new : ~ owned (k_mm k) OS_PT_REG q;
  tk_owned p : owned (k_mm k1) OS_PT_REG p <-> owned (k_mm k) OS_PT_REG p \/ p = q;
  tk_only : frame_only k k1;
  tk_trace : trace (mach (k_mm k1)) = trace (mach (k_mm k));
  tk_low a : a < 0x800000 -> ld8 (fs_ram k1) a = ld8 (fs_ram k) a;
  tk_frames p a : owned (k_mm k) OS_PT_REG p -> in_frame p a -> ld8 (fs_ram k1) a = ld8 (fs_ram k) a
}.

Lemma pt_taken_ok k :
  mm_inv (k_mm k) -> (0 < available (k_mm k) OS_PT_REG)%nat -> pt_taken k (fs_alloc OS_PT_REG k).1 (fs_alloc OS_PT_REG k).2.
Proof.
  intros Hi Hav. destruct (fs_alloc_pt_addr k Hi Hav) as [Ea Hr]. pose proof (frame_only_alloc OS_PT_REG k) as Hf.
  pose proof (fl_alloc k OS_PT_REG Hi Hav) as (I & Hno & _ & Ho & Ha & _ & Hs).
  pose proof (os_pfn_alloc_ok OS_PT_REG (k_mm k) Hi Hav) as Hp. revert Ea Hr Hf I Hno Ho Ha Hs.
  unfold fs_alloc, kernel_frames. destruct (os_pfn_alloc OS_PT_REG (k_mm k)) as [q s]. cbn [fst snd].
  intros Ea Hr Hf I Hno Ho Ha Hs. split; try done.
  - exact (Ha OS_PT_REG).
  - intros p. rewrite (Ho OS_PT_REG p). tauto.
  - exact (ap_trace _ _ _ _ Hp).
  - intros a Hlow. apply (ap_ram _ _ _ _ Hp). unfold bitmap_area, in_frame. change (region_start OS_PT_REG) with 0x2000000.
    cbn [fst]. lia.
  - intros p a Hop. exact (Hs OS_PT_REG p a Hop).
Qed.

(** ** The whole *)

(** The boot entries keep all but their limits. *)
Definition boot_entries_kept (m m' : mem) (b n : Z) : Prop :=
  forall i, 0 <= i < n -> ld16 m' (b + 8 * i) = 0xffff /\ ld16 m' (b + 8 * i + 2) = ld16 m (b + 8 * i + 2) /\
    ld32 m' (b + 8 * i + 4) = ld32 m (b + 8 * i + 4).

(** A step that stores at addresses [P] and prints. *)
Definition store_step (P : Z -> Prop) (k k' : kernel) : Prop :=
  (forall r, pglists (k_mm k') r = pglists (k_mm k) r) /\ untouched P (fs_ram k) (fs_ram k').

Lemma store_step_inv P k k' :
  store_step P k k' -> mm_inv (k_mm k) -> (forall r a, P a -> ~ bitmap_area r a) ->
  mm_inv (k_mm k') /\ (forall r q, owned (k_mm k') r q <-> owned (k_mm k) r q) /\
  (forall r, available (k_mm k') r = available (k_mm k) r).
Proof.
  intros [El Hu] Hi HP. destruct (mm_inv_untouched P (k_mm k) (fs_ram k') Hi Hu HP) as (I & O & A).
  unfold mm_inv, owned, available in *. setoid_rewrite El. auto.
Qed.

Lemma low_not_bitmap r a : a < 0x800000 \/ (exists q, 8193 <= q < 25600 /\ in_frame q a) -> ~ bitmap_area r a.
Proof. unfold bitmap_area, in_frame. intros [Hl|(q & Hq & Hf)]; region_nums r; lia. Qed.

Lemma gdt_boot_loop_step n e k : store_step (fun a => e <= a < e + 8 * Z.of_nat n) k (gdt_boot_loop n e k).2.
Proof.
  split.
  - intros r. revert e k. induction n as [|n IH]; intros e k; [done|]. cbn [gdt_boot_loop]. rewrite IH. by destruct r.
  - intros a Ha. destruct (gdt_boot_loop_ok n e k) as [_ ->]. zcase; cbn [andb]; done || lia.
Qed.

(** The descriptor and the contents of the TSS. *)
Record tss_ready (gdt : IDTR) (e : Z) (k k' : kernel) : Prop := {
  tr_gdtr : cpu_gdtr (trace (mach (k_mm k'))) = Some (MkIDTR (u16 (limit gdt + 8 + 8 + 16)) (base gdt));
  tr_tr : cpu_tr (trace (mach (k_mm k'))) = Some 0x33;
  tr_descriptor : descriptor_at (fs_ram k') e = Some (tss_segment (tss_page k')) /\ ld64 (fs_ram k') (e + 8) = 0;
  tr_clear i : 0 <= i < 4096 -> ~ (36 <= i < 44) -> ld8 (fs_ram k') (tss_page k' + i) = 0;
  tr_low a : a < 0x800000 -> ~ (e <= a < e + 16) -> ld8 (fs_ram k') a = ld8 (fs_ram k) a;
  tr_frames : exists q p, q <> p /\ tss_page k' = 4096 * q /\ tss_ist1 (fs_ram k') (tss_page k') = 4096 * (p + 1) /\
    (forall x, owned (k_mm k') OS_PT_REG x <-> owned (k_mm k) OS_PT_REG x \/ x = q \/ x = p) /\
    ~ owned (k_mm k) OS_PT_REG q /\ ~ owned (k_mm k) OS_PT_REG p
}.

(** A state under a name that hides what it is. *)
Lemma named {A} (x : A) : exists y, y = x.
Proof. by exists x. Qed.

Lemma setup_tss_ok gdt e k :
  mm_inv (k_mm k) -> (2 <= available (k_mm k) OS_PT_REG)%nat -> e + 16 <= 0x800000 -> tss_ready gdt e k (setup_tss gdt e k).2.
Proof.
  intros Hi Hav He. unfold setup_tss. pose proof (pt_taken_ok k Hi ltac:(lia)) as T1.
  destruct (fs_alloc OS_PT_REG k) as [q k1]. cbn [fst snd] in T1. rewrite (tk_addr _ _ _ T1). pose proof (tk_range _ _ _ T1) as Hq.
  destruct (tss_descriptor_ok e (4096 * q) k1 ltac:(lia) ltac:(lia)) as (Et & Dt & Dt' & Z2 & U2).
  assert (S2 : store_step (fun a => e <= a < e + 16 \/ 4096 * q <= a < 4096 * q + 4096) k1 (tss_descriptor e (4096 * q) k1))
    by (split; [apply tss_descriptor_next|exact U2]).
  pose proof (tss_descriptor_trace e (4096 * q) k1) as V2.
  destruct (named (tss_descriptor e (4096 * q) k1)) as [k2 E2]. rewrite <- E2 in *. clear E2. cbv zeta. set (g := MkIDTR _ _).
  destruct (named (load_tr 0x33 (install_gdt g k2))) as [k3 E3']. rewrite <- E3'.
  assert (S3 : store_step (fun a => e <= a < e + 16 \/ 4096 * q <= a < 4096 * q + 4096) k1 k3)
    by (rewrite E3'; exact S2).
  assert (E3 : trace (mach (k_mm k3)) = ELtr 0x33 :: ELgdt (limit g) (base g) :: trace (mach (k_mm k1))) by (by rewrite E3', <- V2).
  assert (R3 : fs_ram k3 = fs_ram k2) by (by rewrite E3'). rewrite <- R3 in Dt, Dt', Z2, U2.
  assert (Et3 : tss_page k3 = 4096 * q) by (by rewrite E3'). clear Et E3' R3.
  destruct (store_step_inv _ _ _ S3 (tk_inv _ _ _ T1)) as (I3 & O3 & A3).
  { intros r a Ha. apply low_not_bitmap. destruct Ha as [?|?]; [left; lia|right; exists q; split; [done|unfold in_frame; lia]]. }
  pose proof (tk_avail _ _ _ T1) as A1. pose proof (pt_taken_ok k3 I3 ltac:(rewrite A3; lia)) as T4.
  destruct (fs_alloc OS_PT_REG k3) as [p k4]. cbn [fst snd] in T4. pose proof (tk_range _ _ _ T4) as Hp.
  assert (Ev : u64 ((p + 1) << PAGE_SHIFT) = 4096 * (p + 1)) by (unfold PAGE_SHIFT; rewrite shiftl_12, u64_small by lia; lia).
  rewrite Ev. destruct (tss_stack_ok (4096 * q) (4096 * (p + 1)) k4 ltac:(lia)) as [Ei U5].
  pose proof (tss_stack_next (4096 * q) (4096 * (p + 1)) k4) as N5. pose proof (tss_stack_trace (4096 * q) (4096 * (p + 1)) k4) as E5.
  pose proof (tss_stack_page (4096 * q) (4096 * (p + 1)) k4) as Et5. cbn [snd].
  destruct (named (tss_stack (4096 * q) (4096 * (p + 1)) k4)) as [k5 E5']. rewrite <- E5' in *. clear E5'.
  assert (S5 : store_step (in_frame q) k4 k5).
  { split; [exact N5|]. eapply untouched_weaken; [|exact U5]. unfold in_frame. lia. }
  assert (Et4 : tss_page k4 = 4096 * q) by (rewrite <- Et3; by rewrite (tk_only _ _ _ T4)). rewrite Et4 in Et5.
  rewrite (tk_trace _ _ _ T4), E3 in E5.
  destruct (store_step_inv _ _ _ S5 (tk_inv _ _ _ T4)) as (I5 & O5 & _).
  { intros r a Ha. apply low_not_bitmap. right. by exists q. }
  assert (Hlow : forall a, a < 0x800000 -> ld8 (fs_ram k5) a = ld8 (fs_ram k3) a).
  { intros a Ha. rewrite (proj2 S5) by (unfold in_frame; lia). by apply (tk_low _ _ _ T4). }
  split; rewrite ?Et5, ?E5.
  - reflexivity.
  - reflexivity.
  - split; [rewrite <- Dt; apply descriptor_at_same|rewrite <- Dt'; apply ld64_ext]; intros a Ha; apply Hlow; lia.
  - intros i Hi4 Hni. rewrite U5 by lia. rewrite (tk_frames _ _ _ T4 q); [apply Z2; lia| |unfold in_frame; lia].
    apply O3, (tk_owned _ _ _ T1). by right.
  - intros a Ha Hn. rewrite Hlow, U2 by lia. by apply (tk_low _ _ _ T1).
  - assert (Hpq : owned (k_mm k3) OS_PT_REG q) by (apply O3, (tk_owned _ _ _ T1); by right).
    exists q, p. split; [intros ->; by apply (tk_new _ _ _ T4)|]. split; [done|]. split; [done|]. split; [|split].
    + intros x. rewrite O5, (tk_owned _ _ _ T4), O3, (tk_owned _ _ _ T1). tauto.
    + apply (tk_new _ _ _ T1).
    + intros Ho. apply (tk_new _ _ _ T4), O3, (tk_owned _ _ _ T1). by left.
Qed.

(** What [setup_gdt_tss] leaves, over a table of four entries at [b]. *)
Record segments_ready (k k' : kernel) (b : Z) : Prop := {
  sr_gdtr : cpu_gdtr (trace (mach (k_mm k'))) = Some (MkIDTR 63 b);
  sr_tr : cpu_tr (trace (mach (k_mm k'))) = Some 0x33;
  sr_code : gdt_descriptor (fs_ram k') (MkIDTR 63 b) 0x23 = Some user_code;
  sr_data : gdt_descriptor (fs_ram k') (MkIDTR 63 b) 0x2b = Some user_data;
  sr_tss : gdt_descriptor (fs_ram k') (MkIDTR 63 b) 0x33 = Some (tss_segment (tss_page k')) /\ ld64 (fs_ram k') (b + 56) = 0;
  sr_clear i : 0 <= i < 4096 -> ~ (36 <= i < 44) -> ld8 (fs_ram k') (tss_page k' + i) = 0;
  sr_boot : boot_entries_kept (fs_ram k) (fs_ram k') b 4;
  sr_frames : exists q p, q <> p /\ tss_page k' = 4096 * q /\ tss_ist1 (fs_ram k') (tss_page k') = 4096 * (p + 1) /\
    (forall x, owned (k_mm k') OS_PT_REG x <-> owned (k_mm k) OS_PT_REG x \/ x = q \/ x = p) /\
    ~ owned (k_mm k) OS_PT_REG q /\ ~ owned (k_mm k) OS_PT_REG p
}.

Lemma setup_gdt_tss_ok gdt k :
  mm_inv (k_mm k) -> (2 <= available (k_mm k) OS_PT_REG)%nat -> limit gdt = 31 -> 0 <= base gdt -> base gdt + 64 <= 0x800000 ->
  segments_ready k (setup_gdt_tss gdt k).2 (base gdt).
Proof.
  intros Hi Hav Hl Hb0 Hb. unfold setup_gdt_tss. rewrite Hl. change (Z.to_nat ((31 + 1) / 8)) with 4%nat. set (b := base gdt) in *.
  destruct (gdt_boot_loop_ok 4 b k) as [Ee Hm1]. pose proof (gdt_boot_loop_step 4 b k) as S1.
  destruct (gdt_boot_loop 4 b k) as [e k1]. cbn [fst snd] in *. change (8 * Z.of_nat 4) with 32 in *. subst e.
  destruct (user_segments_ok (b + 32) k1) as (Dc & Dd & U2). set (k2 := user_segments (b + 32) k1) in *.
  assert (S2 : store_step (fun a => b + 32 <= a < b + 32 + 16) k1 k2) by (split; [by intros []|exact U2]). clearbody k2.
  destruct (store_step_inv _ _ _ S1 Hi) as (I1 & O1 & A1). { intros r a Ha. apply low_not_bitmap. lia. }
  destruct (store_step_inv _ _ _ S2 I1) as (I2 & O2 & A2). { intros r a Ha. apply low_not_bitmap. lia. }
  destruct (setup_tss_ok gdt (b + 32 + 16) k2 I2 ltac:(rewrite A2, A1; lia) ltac:(lia)) as [G T [D D'] Hclr Hlow (q & p & Hqp & Eq & Ei & Ho & Hnq & Hnp)].
  destruct (setup_tss gdt (b + 32 + 16) k2) as [g k3]. cbn [snd] in *. rewrite Hl in G.
  assert (Hm : forall a, b <= a < b + 32 -> ld8 (fs_ram k3) a = if (a - b) mod 8 <? 2 then 255 else ld8 (fs_ram k) a).
  { intros a Ha. rewrite Hlow, U2, Hm1 by lia. zcase; cbn [andb]; done || lia. }
  split.
  - exact G.
  - exact T.
  - change (gdt_descriptor (fs_ram k3) (MkIDTR 63 b) 0x23) with (descriptor_at (fs_ram k3) (b + 32)).
    rewrite <- Dc. apply descriptor_at_same. intros a Ha. apply Hlow; lia.
  - change (gdt_descriptor (fs_ram k3) (MkIDTR 63 b) 0x2b) with (descriptor_at (fs_ram k3) (b + 40)).
    replace (b + 40) with (b + 32 + 8) by lia. rewrite <- Dd. apply descriptor_at_same. intros a Ha. apply Hlow; lia.
  - change (gdt_descriptor (fs_ram k3) (MkIDTR 63 b) 0x33) with (descriptor_at (fs_ram k3) (b + 48)).
    replace (b + 48) with (b + 32 + 16) by lia. replace (b + 56) with (b + 32 + 16 + 8) by lia. done.
  - exact Hclr.
  - assert (Hj : forall i j, 0 <= i < 4 -> 0 <= j < 8 -> ld8 (fs_ram k3) (b + 8 * i + j) = if j <? 2 then 255 else ld8 (fs_ram k) (b + 8 * i + j)).
    { intros i j Hi4 Hj. rewrite Hm by lia. replace (b + 8 * i + j - b) with (j + i * 8) by lia. rewrite Z.mod_add, Z.mod_small by lia. done. }
    intros i Hi4. split; [|split; [apply ld16_ext|apply ld32_ext]].
    + pose proof (Hj i 0 Hi4 ltac:(lia)) as H0. pose proof (Hj i 1 Hi4 ltac:(lia)) as H1. rewrite Z.add_0_r in H0.
      unfold ld16. cbn [ldn]. by rewrite H0, H1.
    + intros a Ha. replace a with (b + 8 * i + (a - b - 8 * i)) by lia. rewrite Hj by lia. zcase; [lia|done].
    + intros a Ha. replace a with (b + 8 * i + (a - b - 8 * i)) by lia. rewrite Hj by lia. zcase; [lia|done].
  - exists q, p. split_and!; try done; intros; rewrite <- ?O1, <- ?O2; done.
Qed.

(** The stack for entries from user mode. *)
Lemma set_tss_stack_ptr_ok c k :
  0 <= os_stack_pfn c < 2^31 ->
  let k' := set_tss_stack_ptr c k in let t := tss_page k in
  tss_page k' = t /\ tss_rsp0 (fs_ram k') t = 4096 * (os_stack_pfn c + 1) /\
  untouched (fun a => t + 4 <= a < t + 12) (fs_ram k) (fs_ram k').
Proof.
  intros Hc. cbv zeta. unfold set_tss_stack_ptr, PAGE_SHIFT. rewrite shiftl_12.
  assert (E : u64 (u32 (os_stack_pfn c + 1) * 4096) = 4096 * (os_stack_pfn c + 1)) by (unfold u32, u64; rewrite (Z.mod_small (os_stack_pfn c + 1)), Z.mod_small by lia; lia). rewrite E.
  set (sp := 4096 * (os_stack_pfn c + 1)).
  match goal with |- context [kst32 ?a ?v ?k0] =>
    change (fs_ram (kst32 a v k0)) with (st32 (st32 (fs_ram k) (tss_page k + 4) (sp .& 0xffffffff)) (tss_page k + 8) (sp >> 32)) end.
  split; [reflexivity|]. split.
  - unfold tss_rsp0. fields. apply word_halves. unfold sp. lia.
  - intros a Ha. unfold st32. by rewrite !ld8_stn_out by lia.
Qed.

Lemma tss_rsp0_same m m' t : (forall a, t + 4 <= a < t + 12 -> ld8 m' a = ld8 m a) -> tss_rsp0 m' t = tss_rsp0 m t.
Proof. intros H. unfold tss_rsp0. by rewrite !(ld32_ext m m') by (intros a Ha; apply H; lia). Qed.

Lemma tss_ist1_same m m' t : (forall a, t + 36 <= a < t + 44 -> ld8 m' a = ld8 m a) -> tss_ist1 m' t = tss_ist1 m t.
Proof. intros H. unfold tss_ist1. by rewrite !(ld32_ext m m') by (intros a Ha; apply H; lia). Qed.

(** C16: [setup_gdt_tss], given the four entries of the boot loader, loads a GDT
    in which the selectors 0x23 and 0x2b that [exec_init] pushes are 64-bit
    code and writable data of privilege level 3 and the task register's 0x33
    the TSS; the boot entries keep all but their limits; the TSS is a new
    frame, cleared but for its interrupt stack (entry 1 of the IST), which ends
    at the end of another new frame.
    [set_tss_stack_ptr] then makes a context's kernel stack the one for
    entries from user mode and leaves the interrupt stack. *)
Theorem setup_gdt_tss_segments gdt k c :
  mm_inv (k_mm k) -> (2 <= available (k_mm k) OS_PT_REG)%nat -> limit gdt = 31 -> 0 <= base gdt -> base gdt + 64 <= 0x800000 ->
  0 <= os_stack_pfn c < 2^31 ->
  let k' := (setup_gdt_tss gdt k).2 in let k2 := set_tss_stack_ptr c k' in
  segments_ready k k' (base gdt) /\
  tss_rsp0 (fs_ram k2) (tss_page k2) = 4096 * (os_stack_pfn c + 1) /\
  tss_ist1 (fs_ram k2) (tss_page k2) = tss_ist1 (fs_ram k') (tss_page k').
Proof.
  intros Hi Hav Hl Hb0 Hb Hc k' k2. split; [by apply setup_gdt_tss_ok|].
  destruct (set_tss_stack_ptr_ok c k' Hc) as (Et & Er & U). fold k2 in Et, Er, U. rewrite Et. split; [exact Er|].
  apply tss_ist1_same. intros a Ha. apply U. lia.
Qed.

(** After the boot loader, a context whose kernel stack is frame 9000. *)
Lemma setup_gdt_tss_segments_witness :
  let k := Kernel boot_mm [] None (OsStats 0 0 0 0 0 0 0 0) (OsConfigs 0 0 0 0) 0 0 0 in
  let k' := (setup_gdt_tss (MkIDTR 31 0x76000) k).2 in let c := set_os_stack 9000 0 zero_context in
  gdt_descriptor (fs_ram k') (MkIDTR 63 0x76000) 0x23 = Some user_code /\
  tss_rsp0 (fs_ram (set_tss_stack_ptr c k')) (tss_page (set_tss_stack_ptr c k')) = 36868096.
Proof.
  intros k k' c. destruct (setup_gdt_tss_segments (MkIDTR 31 0x76000) k c) as (S & R & _).
  - exact boot_mm_inv.
  - change (k_mm k) with boot_mm. unfold boot_mm. rewrite available_init_pagelists by apply bitmaps_zero_reset. lia.
  - reflexivity.
  - cbn. lia.
  - cbn. lia.
  - cbn. lia.
  - exact (conj (sr_code _ _ _ S) R).
Defined.
