(* ===== verification/Context.v ===== *)
(** * context.c: execution contexts and their address spaces

    Allocating a context, building the address space of init ([exec_init]) and
    of a forked child ([copy_mm]), and taking the last one down
    ([pt_cleanup], [do_cleanup]). *)
From S2P Require Import Prelude Mem Lib Machine Memory PageAlloc Frames PageTable PageMap Printf Kernel Apic Idt.
Local Open Scope gemos_scope.

(** ** The process table *)

(** The search of [get_new_ctx], [n] entries to go. *)
Fixpoint get_new_ctx_loop (n : nat) (ctr : nat) (k : kernel) : option nat * kernel :=
  match n with
  | O => (None, kprintf "%s: System limit on processes reached\n" [PStr (codes "get_new_ctx")] k)
  | S n =>
      if decide (state (ctx_at k ctr) = UNUSED) then
        (Some ctr, upd_ctx ctr (fun c => set_state NEW (set_pid (Z.of_nat ctr) c)) k)
      else get_new_ctx_loop n (ctr + 1) k
  end.

Definition get_new_ctx (k : kernel) : option nat * kernel :=
  get_new_ctx_loop (Z.to_nat MAX_PROCESSES) 0 k.

Definition get_ctx_by_pid (pid : Z) (k : kernel) : option nat * kernel :=
  if pid >=? MAX_PROCESSES then
    (None, kprintf "%s: invalid pid %d\n" [PStr (codes "get_ctx_by_pid"); PInt pid] k)
  else (Some (Z.to_nat pid), k).

Definition set_process_state (ctx : nat) (st : Z) (k : kernel) : Z * kernel :=
  if st >=? MAX_STATE then (-1, kprintf "%s: invalid state %d\n" [PStr (codes "set_process_state"); PInt st] k)
  else (0, upd_ctx ctx (set_state (process_state_of st)) k).

(** [memcpy(name, src, len)] into the array of [CNAME_MAX] characters. *)
Definition copy_name (src dst : list Z) : list Z := src ++ drop (length src) dst.

(** The segments that [create_context] lays out; CODE, DATA and STACK keep
    the [next_free] they had. *)
Definition layout_segments (c : exec_context) : exec_context :=
  let seg := mms c MM_SEG_CODE in
  let c := set_mms MM_SEG_CODE
    (MMSegment CODE_START (RODATA_START - 1) (seg_next_free seg) (MM_RD .| MM_EX)) c in
  let c := set_mms MM_SEG_RODATA
    (MMSegment RODATA_START (DATA_START - 1) RODATA_START MM_RD) c in
  let seg := mms c MM_SEG_DATA in
  let c := set_mms MM_SEG_DATA
    (MMSegment DATA_START (STACK_START - MAX_STACK_SIZE - 1) (seg_next_free seg) (MM_RD .| MM_WR)) c in
  let seg := mms c MM_SEG_STACK in
  set_mms MM_SEG_STACK
    (MMSegment (STACK_START - MAX_STACK_SIZE) STACK_START (seg_next_free seg) (MM_RD .| MM_WR)) c.

Definition create_context (nm : list Z) (type : Z) : M nat :=
  p <- run get_new_ctx ;;
  ctx <- deref p ;;
  modify (upd_ctx ctx (fun c => set_pgd 0 (set_used_mem 0 (set_ctype type (set_state NEW c))))) ;;;
  pfn <- run (fs_alloc OS_PT_REG) ;;
  modify (upd_ctx ctx (set_os_stack pfn (osmap (u32 (pfn + 1))))) ;;;
  modify (upd_ctx ctx (fun c => layout_segments (set_name (copy_name nm (name c)) c))) ;;;
  ret ctx.

(** ** The first process *)

Definition seg_set_next_free (v : Z) (s : mm_segment) : mm_segment :=
  MMSegment (seg_start s) (seg_end s) v (seg_access_flags s).
Definition seg_set_start (v : Z) (s : mm_segment) : mm_segment :=
  MMSegment v (seg_end s) (seg_next_free s) (seg_access_flags s).
Definition upd_mms (i : segment) (f : mm_segment -> mm_segment) (c : exec_context) : exec_context :=
  set_mms i (f (mms c i)) c.

Definition add_num_processes (d : Z) (st : os_stats) : os_stats :=
  OsStats (swapper_invocations st) (context_switches st) (lw_context_switches st) (ticks st)
    (page_faults st) (syscalls st) (used_memory st) (u64 (num_processes st + d)).

(** Where init is in the kernel's binary. *)
Definition INIT_IMAGE : Z := 0x200000.

(** The address space of init, up to the switch to it. *)
Definition exec_init_space (ctx : nat) (k : kernel) : kernel :=
  let k := kprintf "Setting up init process ...\n" [] k in
  let '(pfn, k) := fs_alloc OS_PT_REG k in
  let k := upd_ctx ctx (set_pgd pfn) k in
  let os_addr := osmap pfn in
  let k := fs_set_ram (bzero (fs_ram k) os_addr PAGE_SIZE) k in
  let '(textpfn, k) := install_ptable_multi os_addr (seg_start (mms (ctx_at k ctx) MM_SEG_CODE)) CODE_PAGES false k in
  let k := upd_ctx ctx (fun c => upd_mms MM_SEG_CODE
    (seg_set_next_free (seg_start (mms c MM_SEG_CODE) + (CODE_PAGES << PAGE_SHIFT))) c) k in
  let '(_, k) := install_ptable os_addr (mms (ctx_at k ctx) MM_SEG_DATA) 0 0 k in
  let k := upd_ctx ctx (fun c => upd_mms MM_SEG_DATA
    (seg_set_next_free (seg_start (mms c MM_SEG_DATA) + PAGE_SIZE)) c) k in
  let stack_start := seg_start (mms (ctx_at k ctx) MM_SEG_STACK) in
  let k := upd_ctx ctx (fun c => upd_mms MM_SEG_STACK
    (seg_set_start (seg_end (mms c MM_SEG_STACK) - PAGE_SIZE)) c) k in
  let '(_, k) := install_ptable os_addr (mms (ctx_at k ctx) MM_SEG_STACK) 0 0 k in
  let k := upd_ctx ctx (upd_mms MM_SEG_STACK (seg_set_start stack_start)) k in
  let k := upd_ctx ctx (fun c => upd_mms MM_SEG_STACK
    (seg_set_next_free (seg_end (mms c MM_SEG_STACK) - PAGE_SIZE)) c) k in
  let '(_, k) := install_os_pts (pgd (ctx_at k ctx)) k in
  let k := set_tss_stack_ptr (ctx_at k ctx) k in
  let k := set_stats (add_num_processes 1 (stats k)) k in
  let fmem := u64 (textpfn << PAGE_SHIFT) in
  let k := fs_set_ram (memcpy (fs_ram k) fmem INIT_IMAGE (CODE_PAGES << PAGE_SHIFT)) k in
  let k := set_current (Some ctx) k in
  let k := upd_ctx ctx (set_state RUNNING) k in
  kprintf "Page table setup done, launching init ...\n" [] k.

(** [struct init_args] of include/init.h, whose third word is that of rcx and
    the fourth that of rdx. *)
Record init_args := MkInitArgs { a_rdi : Z; a_rsi : Z; a_rcx : Z; a_rdx : Z; a_r8 : Z }.
Definition load_init_args (m : mem) (a : Z) : init_args :=
  MkInitArgs (ld64 m a) (ld64 m (a + 8)) (ld64 m (a + 16)) (ld64 m (a + 24)) (ld64 m (a + 32)).

(** The assembly at the end of [exec_init]: the user's segments, the flags with
    interrupts enabled, the start of the code, the top of the stack, and the
    registers named as in the structure. *)
Definition user_entry (args : init_args) : init_entry :=
  InitEntry CODE_START 0x23 0x200 STACK_START 0x2b 0x2b
    (a_rdi args) (a_rsi args) (a_rcx args) (a_rdx args) (a_r8 args).

(** [exec_init] does not come back: it ends in an [iretq].  The arguments are
    read from memory last, after the switch to the page tables of init, which
    map low memory to itself.  What it keeps in the variable saved_ebp, for
    [ret_from_user], is not part of the state. *)
Definition exec_init (ctx : nat) (args : Z) : M Z :=
  modify (exec_init_space ctx) ;;;
  modify (fun k => fs_emit (ELoadCr3 (u64 (pgd (ctx_at k ctx) << PAGE_SHIFT))) k) ;;;
  vals <- gets (fun k => load_init_args (fs_ram k) args) ;;
  leave_with (EnterInit (user_entry vals)).

(** What a C function that is entered with these registers takes for its
    arguments: rdi, rsi, rdx, rcx and r8, in this order. *)
Definition c_arguments (e : init_entry) : list Z := [ie_rdi e; ie_rsi e; ie_rdx e; ie_rcx e; ie_r8 e].

(** ** Fork *)

Section copy.
Context {S : Type} `{FrameStore S}.

(** Pages of a segment shared with the child: [n] iterations at most. *)
Fixpoint share_loop (n : nat) (os_addr ppgd : Z) (seg : mm_segment) (vaddr : Z) (s : S) : S :=
  match n with
  | O => s
  | Datatypes.S n =>
      if vaddr <? seg_next_free seg then
        let parent_pte := get_user_pte (fs_ram s) ppgd vaddr in
        let s := if parent_pte =? 0 then s
                 else (install_ptable os_addr seg vaddr
                         (u32 ((ld64 (fs_ram s) parent_pte .& FLAG_MASK) >> PAGE_SHIFT)) s).2 in
        share_loop n os_addr ppgd seg (vaddr + PAGE_SIZE) s
      else s
  end.

(** A page of the parent copied to a fresh frame of the child. *)
Definition copy_page (os_addr ppgd : Z) (seg : mm_segment) (vaddr : Z) (s : S) : S :=
  let parent_pte := get_user_pte (fs_ram s) ppgd vaddr in
  if parent_pte =? 0 then s
  else
    let '(pfn, s) := install_ptable os_addr seg vaddr 0 s in
    let pfn := osmap pfn in
    fs_set_ram (memcpy (fs_ram s) pfn (ld64 (fs_ram s) parent_pte .& FLAG_MASK) PAGE_SIZE) s.

Fixpoint copy_up_loop (n : nat) (os_addr ppgd : Z) (seg : mm_segment) (vaddr : Z) (s : S) : S :=
  match n with
  | O => s
  | Datatypes.S n =>
      if vaddr <? seg_next_free seg
      then copy_up_loop n os_addr ppgd seg (vaddr + PAGE_SIZE) (copy_page os_addr ppgd seg vaddr s)
      else s
  end.

Fixpoint copy_down_loop (n : nat) (os_addr ppgd : Z) (seg : mm_segment) (vaddr : Z) (s : S) : S :=
  match n with
  | O => s
  | Datatypes.S n =>
      if vaddr >=? seg_next_free seg
      then copy_down_loop n os_addr ppgd seg (u64 (vaddr - PAGE_SIZE)) (copy_page os_addr ppgd seg vaddr s)
      else s
  end.

(** Iterations that a loop over [lo .. hi) in steps of a page needs. *)
Definition page_steps (lo hi : Z) : nat := Z.to_nat ((hi - lo + PAGE_SIZE - 1) / PAGE_SIZE).

(** The four segment loops of [copy_mm]. *)
Definition copy_segments (os_addr ppgd : Z) (code rodata data stack : mm_segment) (s : S) : S :=
  let s := share_loop (page_steps (seg_start code) (seg_next_free code)) os_addr ppgd code (seg_start code) s in
  let s := share_loop (page_steps (seg_start rodata) (seg_next_free rodata)) os_addr ppgd rodata (seg_start rodata) s in
  let s := copy_up_loop (page_steps (seg_start data) (seg_next_free data)) os_addr ppgd data (seg_start data) s in
  copy_down_loop (page_steps (seg_next_free stack) (seg_end stack)) os_addr ppgd stack
    (seg_end stack - PAGE_SIZE) s.
End copy.

Definition copy_mm (child parent : nat) (k : kernel) : kernel :=
  let '(pfn, k) := fs_alloc OS_PT_REG k in
  let k := upd_ctx child (set_pgd pfn) k in
  let os_addr := osmap (pgd (ctx_at k child)) in
  let k := fs_set_ram (bzero (fs_ram k) os_addr PAGE_SIZE) k in
  let p := ctx_at k parent in
  let k := copy_segments os_addr (pgd p) (mms p MM_SEG_CODE) (mms p MM_SEG_RODATA)
             (mms p MM_SEG_DATA) (mms p MM_SEG_STACK) k in
  (install_os_pts (pgd (ctx_at k child)) k).2.

Definition setup_child_context (child : nat) (k : kernel) : kernel :=
  let '(pfn, k) := fs_alloc OS_PT_REG k in
  let k := upd_ctx child (fun c => set_state READY (set_os_stack pfn (u64 (u64 (pfn << PAGE_SHIFT) + PAGE_SIZE)) c)) k in
  set_stats (add_num_processes 1 (stats k)) k.

(** ** Taking an address space down *)

(** The loop over the entries of a table, [n] to go; [rec] cleans up what a
    present entry points to. *)
Fixpoint pt_cleanup_loop (rec : Z -> M ()) (n : nat) (v_add i : Z) : M () :=
  match n with
  | O => ret tt
  | S n =>
      let entry_addr := v_add + 8 * i in
      entry_val <- gets (fun k => ld64 (fs_ram k) entry_addr) ;;
      (if (entry_val .& 1) =? 0 then ret tt
       else rec (entry_val >> 12) ;;; modify (store64 entry_addr 0)) ;;;
      pt_cleanup_loop rec n v_add (i + 1)
  end.

(** At level 0 the page is freed; were it the APIC's page, the code would take
    device registers for table entries. *)
Fixpoint pt_cleanup (pfn : Z) (level : nat) : M () := fun k =>
  match level with
  | O => if is_apic_base pfn k =? 0 then Ret tt (fs_free USER_REG pfn k) else Undefined k
  | S level' =>
      let v_add := osmap pfn in
      let i := if decide (level = 3%nat) then 1 else 0 in
      (pt_cleanup_loop (fun pfn' => pt_cleanup pfn' level') (Z.to_nat (512 - i)) v_add i ;;;
       modify (fun k => if is_apic_base pfn k =? 0 then fs_free OS_PT_REG pfn k else k)) k
  end.

Definition do_cleanup : M () :=
  ctx <- get_current_ctx ;;
  modify (fun k => kprintf "Cleaned up %s process\n" [PStr (c_string (name (ctx_at k ctx)))] k) ;;;
  modify (fun k => fs_free OS_PT_REG (os_stack_pfn (ctx_at k ctx)) k) ;;;
  modify (fun k => kprintf "GemOS shell again!\n" [PStr (c_string (name (ctx_at k ctx)))] k) ;;;
  root <- gets (fun k => pgd (ctx_at k ctx)) ;;
  remove_apic_mapping root ;;;
  pt_cleanup root 4 ;;;
  modify (fun k => fs_free OS_PT_REG (os_pmd_pfn k) k) ;;;
  modify (upd_ctx ctx (set_state UNUSED)) ;;;
  modify (set_current None) ;;;
  leave_with RetFromUser.

(** [pt_cleanup] and [remove_apic_mapping] leave the table alone. *)
Definition keeps_ctx (x : M ()) : Prop := forall k, match x k with Ret _ k' => ctx_list k' = ctx_list k | Leave _ _ => False | Undefined _ => True end.

Lemma keeps_ctx_bind x y : keeps_ctx x -> keeps_ctx y -> keeps_ctx (bind x (fun _ => y)).
Proof. intros H1 H2 k. unfold bind. specialize (H1 k). destruct (x k) as [[] k1| |]; try done. specialize (H2 k1). destruct (y k1); congruence || done. Qed.

Lemma pt_cleanup_loop_ctx rec n v i : (forall p, keeps_ctx (rec p)) -> keeps_ctx (pt_cleanup_loop rec n v i).
Proof.
  intros Hr. revert i. induction n as [|n IH]; intros i; [done|]. cbn [pt_cleanup_loop]. intros k. unfold bind at 1, gets.
  assert (Hx : forall x : M (), keeps_ctx x -> match (x ;;; pt_cleanup_loop rec n v (i + 1)) k with
    Ret _ k' => ctx_list k' = ctx_list k | Leave _ _ => False | Undefined _ => True end) by (intros x Hx; by apply keeps_ctx_bind).
  apply Hx. case_match; [done|]. apply keeps_ctx_bind; [apply Hr|done].
Qed.

Lemma pt_cleanup_ctx level p : keeps_ctx (pt_cleanup p level).
Proof.
  revert p. induction level as [|l IH]; intros p; intros k; cbn [pt_cleanup].
  - by destruct (is_apic_base p k =? 0).
  - cbv zeta. apply (keeps_ctx_bind (pt_cleanup_loop _ _ _ _)); [by apply pt_cleanup_loop_ctx|]. intros k'. unfold modify. by destruct (is_apic_base p k' =? 0).
Qed.

Lemma remove_apic_ctx root : keeps_ctx (remove_apic_mapping root).
Proof.
  intros k. unfold remove_apic_mapping. cbv zeta. destruct (_ =? 0); [done|].
  destruct (_ =? 0); match goal with |- context [negb ?b] => destruct (negb b) end; done.
Qed.

(** ** The idle process *)

(** [ss], [cs] and [rflags] are read from the processor; [task] is the address
    of [swapper_task].  The table is a frame of its own. *)
Definition init_swapper (ss cs rflags task : Z) (k : kernel) : kernel :=
  let '(ctx_l, k) := fs_alloc OS_PT_REG k in
  let k := fs_set_ram (bzero (fs_ram k) (u64 (ctx_l << PAGE_SHIFT)) PAGE_SIZE) k in
  let k := set_ctx_list (replicate (Z.to_nat MAX_PROCESSES) zero_context) k in
  let k := upd_ctx 0 (fun c => set_pgd 0x70 (set_state READY c)) k in
  let k := upd_ctx 0 (fun c => set_name (copy_name [115; 119; 97; 112; 112; 101; 114; 0] (name c)) c) k in
  let '(pfn, k) := fs_alloc OS_PT_REG k in
  let rsp := u64 (u64 (pfn << PAGE_SHIFT) + PAGE_SIZE) in
  let k := upd_ctx 0 (set_os_stack pfn rsp) k in
  upd_ctx 0 (set_regs (UserRegs 0 0 0 0 0 0 0 0 0 0 0 0 0 0 0 task cs rflags rsp ss)) k.

(** What [swapper_task] does before it halts for ever. *)
Definition swapper_task (k : kernel) : kernel :=
  let st := stats k in
  set_stats (OsStats (u64 (swapper_invocations st + 1)) (context_switches st)
    (lw_context_switches st) (ticks st) (page_faults st) (syscalls st) (used_memory st)
    (num_processes st)) k.
