(* ===== verification/Space.v ===== *)
(** * Building the address space of a context

    What [exec_init] and [copy_mm] (context.c) share: a new root, changes of one
    context in between, stores in user frames and in the kernel's own frames. *)
From S2P Require Import Prelude Mem Lib Machine Memory PageAlloc NextFrames Frames PageTable PageMap Pages Kernel Apic Kmap Idt IdtSpec GdtSpec Context.
#[local] Open Scope gemos_scope.

(** ** Steps that change memory and one context *)

Definition ctx_only (i : nat) (f : exec_context -> exec_context) (k k' : kernel) : Prop :=
  k' = set_k_mm (k_mm k') (upd_ctx i f k).

Lemma alter_id_list {A} (i : nat) (l : list A) : alter (fun x => x) i l = l.
Proof. apply list_eq. intros j. destruct (decide (i = j)) as [->|]; [rewrite list_lookup_alter_eq; by destruct (l !! j)|by rewrite list_lookup_alter_ne]. Qed.

Lemma alter_twice_list {A} (i : nat) (f g : A -> A) (l : list A) : alter g i (alter f i l) = alter (fun x => g (f x)) i l.
Proof.
  apply list_eq. intros j. destruct (decide (i = j)) as [->|].
  - rewrite !list_lookup_alter_eq. by destruct (l !! j).
  - by rewrite !list_lookup_alter_ne.
Qed.

Lemma ctx_only_refl i k : ctx_only i (fun c => c) k k.
Proof. unfold ctx_only, upd_ctx. rewrite alter_id_list. by destruct k. Qed.

Lemma ctx_only_frame i f k k1 k2 : ctx_only i f k k1 -> frame_only k1 k2 -> ctx_only i f k k2.
Proof. unfold ctx_only, frame_only. intros E1 E2. rewrite E2, E1. reflexivity. Qed.

Lemma ctx_only_upd i f g k k1 : ctx_only i f k k1 -> ctx_only i (fun c => g (f c)) k (upd_ctx i g k1).
Proof.
  unfold ctx_only. intros E. rewrite E. unfold upd_ctx, set_ctx_list, set_k_mm. cbn. by rewrite alter_twice_list.
Qed.

Lemma ctx_only_at i f k k' j : ctx_only i f k k' -> (i < length (ctx_list k))%nat ->
  ctx_at k' j = if decide (i = j) then f (ctx_at k j) else ctx_at k j.
Proof. intros E Hi. rewrite E. change (ctx_at (set_k_mm ?m ?k0) j) with (ctx_at k0 j). by apply ctx_at_upd. Qed.

Lemma ctx_only_value i f k k' v : ctx_only i f k k' -> (i < length (ctx_list k))%nat -> f (ctx_at k i) = v ->
  ctx_only i (fun _ => v) k k'.
Proof.
  unfold ctx_only, ctx_at. intros -> Hi Hv. destruct (lookup_lt_is_Some_2 _ _ Hi) as [c E]. rewrite E in Hv. cbn in Hv.
  unfold upd_ctx, set_ctx_list, set_k_mm. cbn. f_equal. apply list_eq. intros j. destruct (decide (i = j)) as [<-|].
  - rewrite !list_lookup_alter_eq, E. cbn. by rewrite Hv.
  - by rewrite !list_lookup_alter_ne.
Qed.

Lemma frame_only_multi_loop n ctr ptep start last write k : frame_only k (ptable_multi_loop n ctr ptep start last write k).
Proof.
  revert ctr ptep last k. induction n as [|n IH]; intros ctr ptep last k; cbn [ptable_multi_loop]; [apply frame_only_refl|].
  assert (H1 : frame_only k (if ctr =? 0 then (start, k) else let '(pfn, s) := fs_alloc USER_REG k in
    (pfn, if last =? u64 (pfn - 1) then s else fs_emit (EPrintf "BUG! PFN not in sequence\n" []) s)).2).
  { case_match; [auto with gemos|]. pose proof (frame_only_alloc USER_REG k) as H2. destruct (fs_alloc USER_REG k) as [q k1].
    cbn [snd] in *. case_match; [done|]. frame_step H2. reflexivity. }
  destruct (if ctr =? 0 then _ else _) as [q k1]. cbn [snd] in H1. frame_step H1. eapply frame_only_trans; [|apply IH].
  destruct write; reflexivity.
Qed.

Lemma frame_only_install_ptable_multi base start count write k : frame_only k (install_ptable_multi base start count write k).2.
Proof.
  unfold install_ptable_multi.
  pose proof (frame_only_ptable_next (base + 8 * pgd_index start) k) as H1.
  destruct (ptable_next _ k) as [b1 k1]. frame_step H1. clear H1.
  pose proof (frame_only_ptable_next (b1 + 8 * pud_index start) k1) as H1.
  destruct (ptable_next _ k1) as [b2 k2]. frame_step H1. clear H1.
  pose proof (frame_only_ptable_next (b2 + 8 * pmd_index start) k2) as H1.
  destruct (ptable_next _ k2) as [b3 k3]. frame_step H1. clear H1.
  pose proof (frame_only_alloc USER_REG k3) as H1. destruct (fs_alloc USER_REG k3) as [q k4].
  frame_step H1. apply frame_only_multi_loop.
Qed.

Lemma frame_only_store m k : frame_only k (fs_set_ram m k).
Proof. reflexivity. Qed.
Lemma frame_only_print fmt args k : frame_only k (kprintf fmt args k).
Proof. reflexivity. Qed.

(** The facts about memory look at [k_mm] only. *)
Lemma pt_ok_mm (k k' : kernel) root : k_mm k' = k_mm k -> pt_ok k root -> pt_ok k' root.
Proof. destruct k, k'; cbn. intros ->. by intros []. Qed.

Lemma maps_mm n (k1 k1' k2 k2' : kernel) root l :
  k_mm k1' = k_mm k1 -> k_mm k2' = k_mm k2 -> maps n k1 k2 root l -> maps n k1' k2' root l.
Proof. destruct k1, k1', k2, k2'; cbn. intros -> ->. intros []. by split. Qed.

Lemma ram_mm (k k' : kernel) : k_mm k' = k_mm k -> fs_ram k' = fs_ram k.
Proof. unfold fs_ram, kernel_frames. by intros ->. Qed.

Lemma ms_avail_user {S} `{FrameLaws S} n (s s' : S) root l :
  maps n s s' root l -> fl_avail s USER_REG = (length l + fl_avail s' USER_REG)%nat.
Proof. intros P. by rewrite !fl_next_length, (ms_next _ _ _ _ _ P), length_app, length_fmap. Qed.

(** The first page of a segment. *)
Lemma segment_page_ok (k : kernel) root seg :
  pt_ok k root -> path_clear (fs_ram k) root (seg_start seg) ->
  (3 <= fl_avail k OS_PT_REG)%nat -> (0 < fl_avail k USER_REG)%nat ->
  let r := install_ptable (4096 * root) seg 0 0 k in
  frame_only k r.2 /\ maps 3 k r.2 root [(seg_start seg, 4096 * r.1 + seg_flags seg, r.1)].
Proof.
  intros Hok Hc Hp Hu. split; [apply frame_only_install_ptable|]. apply maps_one. by apply install_ptable_fresh.
Qed.

(** A store step keeps the frames that come next. *)
Lemma store_step_next P k k' r :
  store_step P k k' -> mm_inv (k_mm k) -> (forall r a, P a -> ~ bitmap_area r a) -> fl_next k' r = fl_next k r.
Proof. intros [El Hu] Hi HP. apply (next_untouched P (k_mm k) (k_mm k')); [done|exact Hu|apply HP|apply El]. Qed.

(** ** A new root *)

(** An empty space: a frame taken for the root, and cleared. *)
Record new_space (k k' : kernel) (root : Z) : Prop := {
  nw_ok : pt_ok k' root;
  nw_new : ~ owned (k_mm k) OS_PT_REG root;
  nw_zero a : in_frame root a -> ld8 (fs_ram k') a = 0;
  nw_empty va : mapping (fs_ram k') root va = None;
  nw_clear va : path_clear (fs_ram k') root va;
  nw_table q : is_table (fs_ram k') root q <-> q = root;
  nw_owned r q : owned (k_mm k') r q <-> owned (k_mm k) r q \/ (r = OS_PT_REG /\ q = root);
  nw_avail : available (k_mm k) OS_PT_REG = S (available (k_mm k') OS_PT_REG);
  nw_next : fl_next k' USER_REG = fl_next k USER_REG;
  nw_frame r q a : owned (k_mm k) r q -> in_frame q a -> ld8 (fs_ram k') a = ld8 (fs_ram k) a;
  nw_low a : low_memory a -> ld8 (fs_ram k') a = ld8 (fs_ram k) a
}.

Lemma new_space_mm k k1 k1' root : k_mm k1' = k_mm k1 -> new_space k k1 root -> new_space k k1' root.
Proof. destruct k1, k1'; cbn. intros ->. intros []. by split. Qed.

Lemma new_space_ok k :
  mm_inv (k_mm k) -> (0 < available (k_mm k) OS_PT_REG)%nat ->
  let root := (fs_alloc OS_PT_REG k).1 in let k1 := (fs_alloc OS_PT_REG k).2 in
  osmap root = 4096 * root /\ new_space k (fs_set_ram (bzero (fs_ram k1) (osmap root) PAGE_SIZE) k1) root.
Proof.
  intros Hi Hav root k1. pose proof (fl_alloc k OS_PT_REG Hi Hav) as (I1 & Hno & Hown & Ho & Ha & _ & Hs).
  pose proof (fl_next_alloc k OS_PT_REG USER_REG Hi Hav) as Hn. rewrite decide_False in Hn by done.
  pose proof (fun a => fl_alloc_low k OS_PT_REG a Hi Hav) as Hlow. fold root k1 in I1, Hno, Hown, Ho, Ha, Hs, Hn, Hlow.
  pose proof (owned_pt_number k1 root I1 Hown) as Hr. assert (Eo : osmap root = 4096 * root) by (apply osmap_eq; lia).
  split; [exact Eo|]. rewrite Eo. set (m := bzero _ _ _).
  assert (Hu : untouched (in_frame root) (fs_ram k1) m) by (apply untouched_bzero; unfold in_frame, PAGE_SIZE; lia).
  assert (Hz : forall a, in_frame root a -> ld8 m a = 0).
  { intros a Hin. unfold m, in_frame in *. rewrite ld8_bzero. change PAGE_SIZE with 4096. zcase; cbn [andb]; lia. }
  clearbody m root k1.
  pose proof (fl_store k1 OS_PT_REG root m I1 Hown Hu) as (I2 & O2 & A2).
  pose proof (fl_next_store k1 OS_PT_REG root m USER_REG I1 Hown Hu) as N2.
  pose proof (empty_space_tree (fs_set_ram m k1) root I2 (proj2 (O2 _ _) Hown) Hz) as (Hok & Hm & Hc & Ht).
  split; try done.
  - intros r q. exact (iff_trans (O2 r q) (Ho r q)).
  - pose proof (Ha OS_PT_REG) as E. rewrite decide_True in E by done. specialize (A2 OS_PT_REG).
    change (available (k_mm (fs_set_ram m k1)) OS_PT_REG) with (fl_avail (fs_set_ram m k1) OS_PT_REG). rewrite A2. exact E.
  - by rewrite N2.
  - intros r q a Hq Hin. change (fs_ram (fs_set_ram m k1)) with m. rewrite Hu; [by apply (Hs r q)|].
    intros Hin'. apply Hno. rewrite <- (frames_distinct q root a) by done.
    by rewrite <- (fl_region k1 r OS_PT_REG q I1 (proj2 (Ho _ _) (or_introl Hq)) ltac:(by rewrite (frames_distinct q root a))).
  - intros a Hl. change (fs_ram (fs_set_ram m k1)) with m. rewrite Hu; [by apply Hlow|]. intros Hin. by apply (fl_high k1 OS_PT_REG root a).
Qed.

(** ** Stores beside the tables *)

(** Stores in user frames. *)
Lemma user_store k m' root :
  pt_ok k root -> untouched (fun a => exists q, owned (k_mm k) USER_REG q /\ in_frame q a) (fs_ram k) m' ->
  let k' := fs_set_ram m' k in
  pt_ok k' root /\ same_tree (fs_ram k) m' root /\ (forall r q, owned (k_mm k') r q <-> owned (k_mm k) r q) /\
  (forall q a, owned (k_mm k) OS_PT_REG q -> in_frame q a -> ld8 m' a = ld8 (fs_ram k) a).
Proof.
  intros [Hi Hwf] Hu. destruct (mm_inv_untouched _ (k_mm k) m' Hi Hu) as (I & O & _).
  { intros r a (q & Hq & Hin). by apply (owned_not_bitmap (k_mm k) USER_REG r q a). }
  assert (Hs : forall q a, owned (k_mm k) OS_PT_REG q -> in_frame q a -> ld8 m' a = ld8 (fs_ram k) a).
  { intros q a Hq Hin. apply Hu. intros (p & Hp & Hin'). assert (p = q) as -> by (by apply (frames_distinct p q a)).
    by pose proof (fl_region k USER_REG OS_PT_REG q Hi Hp Hq). }
  split; [|split; [by apply (same_tree_intro (owned (k_mm k) OS_PT_REG))|by split]].
  split; [exact I|]. apply (pt_wf_same (owned (k_mm k) OS_PT_REG) _ (fs_ram k)); [done| |done]. intros q. apply O.
Qed.

(** Printing. *)
Lemma pt_ok_emit e (k k' : kernel) root : k_mm k' = mm_emit e (k_mm k) -> pt_ok k root ->
  pt_ok k' root /\ fs_ram k' = fs_ram k /\ (forall r q, owned (k_mm k') r q <-> owned (k_mm k) r q).
Proof.
  intros E [Hi Hwf]. assert (Er : fs_ram k' = fs_ram k) by (unfold fs_ram, kernel_frames; by rewrite E).
  destruct (Frames.fl_emit (S := mm) (FrameLaws := mm_frame_laws) e (k_mm k) Hi) as (I & O & _). cbn in I, O.
  split; [|split; [done|intros r q; rewrite E; apply O]]. split; [hnf; by rewrite E|]. rewrite Er.
  apply (pt_wf_same (owned (k_mm k) OS_PT_REG) _ (fs_ram k)); [done| |done]. intros q Hq. hnf. rewrite E. by apply O.
Qed.

Lemma kernel_half_emit e (k k' : kernel) root ap q1 q2 : k_mm k' = mm_emit e (k_mm k) -> pt_ok k root ->
  kernel_half k root ap q1 q2 -> kernel_half k' root ap q1 q2.
Proof.
  intros E Hok Hh. destruct (pt_ok_emit e k k' root E Hok) as (_ & Er & O).
  apply (kernel_half_frames k); [done|done| |apply O, Hh|apply O, Hh]. intros q a _ _. by rewrite Er.
Qed.

(** ** A new context *)

(** Below the region of the page tables, where the shell's buffers are. *)
Definition below_pt (a : Z) : Prop := a < REGION_OS_PT_START.

Lemma os_pt_alloc_below k a :
  mm_inv (k_mm k) -> (0 < available (k_mm k) OS_PT_REG)%nat -> below_pt a ->
  ld8 (fs_ram (fs_alloc OS_PT_REG k).2) a = ld8 (fs_ram k) a.
Proof.
  intros Hi Hav Ha. pose proof (os_pfn_alloc_ok OS_PT_REG (k_mm k) Hi Hav) as Hp.
  unfold fs_alloc, fs_ram, kernel_frames. destruct (os_pfn_alloc OS_PT_REG (k_mm k)) as [q s]. cbn [fst snd] in *.
  change (mm_ram (k_mm (set_k_mm s k))) with (mm_ram s). apply (ap_ram _ _ _ _ Hp).
  pose proof (ap_range _ _ _ _ Hp) as Hr. change (region_first OS_PT_REG) with 8193 in Hr.
  change (region_pfn OS_PT_REG + region_frames OS_PT_REG) with 25600 in Hr.
  unfold below_pt, REGION_OS_PT_START in Ha. intros [Hb|[_ Hb]].
  - unfold bitmap_area in Hb. change (region_start OS_PT_REG) with 0x2000000 in Hb. lia.
  - unfold in_frame in Hb. lia.
Qed.

Lemma get_new_ctx_some k i k1 :
  get_new_ctx k = (Some i, k1) -> k1 = upd_ctx i (fun c => set_state NEW (set_pid (Z.of_nat i) c)) k /\ (i < 16)%nat.
Proof.
  unfold get_new_ctx. change (Z.to_nat MAX_PROCESSES) with 16%nat.
  assert (H : forall n ctr, get_new_ctx_loop n ctr k = (Some i, k1) ->
    k1 = upd_ctx i (fun c => set_state NEW (set_pid (Z.of_nat i) c)) k /\ (i < ctr + n)%nat).
  { induction n as [|n IH]; intros ctr E; cbn [get_new_ctx_loop] in E; [done|].
    case_decide; [injection E as <- <-; split; [done|lia]|]. destruct (IH _ E). split; [done|lia]. }
  intros E. by apply H in E.
Qed.

(** The context that [create_context] makes of entry [i]; its kernel stack is
    frame [q]. *)
Definition new_context (nm : list Z) (ty : Z) (i : nat) (q : Z) (c : exec_context) : exec_context :=
  layout_segments (set_name (copy_name nm (name c)) (set_os_stack q (osmap (u32 (q + 1)))
    (set_pgd 0 (set_used_mem 0 (set_ctype ty (set_state NEW (set_pid (Z.of_nat i) c))))))).

Record created (nm : list Z) (ty : Z) (i : nat) (q : Z) (k k2 : kernel) : Prop := {
  cd_inv : mm_inv (k_mm k2);
  cd_ctx : ctx_only i (new_context nm ty i q) k k2;
  cd_stack : ~ owned (k_mm k) OS_PT_REG q /\ 0 <= q < 2^17;
  cd_owned r p : owned (k_mm k2) r p <-> owned (k_mm k) r p \/ (r = OS_PT_REG /\ p = q);
  cd_avail : fl_avail k OS_PT_REG = S (fl_avail k2 OS_PT_REG);
  cd_next : fl_next k2 USER_REG = fl_next k USER_REG;
  cd_below a : below_pt a -> ld8 (fs_ram k2) a = ld8 (fs_ram k) a;
  cd_low a : low_memory a -> ld8 (fs_ram k2) a = ld8 (fs_ram k) a
}.

Lemma set_state_twice a b c : set_state a (set_state b c) = set_state a c.
Proof. by destruct c. Qed.

Lemma create_context_ok nm ty k i k1 :
  get_new_ctx k = (Some i, k1) -> mm_inv (k_mm k) -> (0 < fl_avail k OS_PT_REG)%nat ->
  exists q k2, create_context nm ty k = Ret i k2 /\ created nm ty i q k k2.
Proof.
  intros Hg Hi Hav. destruct (get_new_ctx_some k i k1 Hg) as [E1 _]. unfold create_context, bind, run. rewrite Hg. cbn [deref modify].
  set (k3 := upd_ctx i _ k1). assert (C3 : ctx_only i (fun c => set_pgd 0 (set_used_mem 0 (set_ctype ty (set_state NEW (set_pid (Z.of_nat i) c))))) k k3).
  { unfold k3. rewrite E1. pose proof (ctx_only_upd i _ (fun c => set_pgd 0 (set_used_mem 0 (set_ctype ty (set_state NEW c)))) k _
      (ctx_only_upd i _ (fun c => set_state NEW (set_pid (Z.of_nat i) c)) k k (ctx_only_refl i k))) as C. exact C. }
  assert (E3 : k_mm k3 = k_mm k) by (unfold k3; by rewrite E1). clearbody k3.
  pose proof (fl_alloc k OS_PT_REG Hi Hav) as (I & Hn & Hown & Ho & Ha & _ & _).
  pose proof (fl_next_alloc k OS_PT_REG USER_REG Hi Hav) as Hx. rewrite decide_False in Hx by done.
  pose proof (fun a => fl_alloc_low k OS_PT_REG a Hi Hav) as Hl. pose proof (fun a => os_pt_alloc_below k a Hi Hav) as Hb. pose proof (Ha OS_PT_REG) as Hp. rewrite decide_True in Hp by done.
  assert (Ea : (fs_alloc OS_PT_REG k3).1 = (fs_alloc OS_PT_REG k).1 /\ k_mm (fs_alloc OS_PT_REG k3).2 = k_mm (fs_alloc OS_PT_REG k).2).
  { unfold fs_alloc, kernel_frames. rewrite E3. by destruct (os_pfn_alloc OS_PT_REG (k_mm k)). }
  pose proof (frame_only_alloc OS_PT_REG k3) as F3. destruct (fs_alloc OS_PT_REG k3) as [q k4]. cbn [fst snd] in *. destruct Ea as [-> Em].
  exists (fs_alloc OS_PT_REG k).1. eexists. split; [reflexivity|].
  pose proof (ctx_only_frame _ _ _ _ _ C3 F3) as C4. set (q' := (fs_alloc OS_PT_REG k).1) in *. set (k5 := (fs_alloc OS_PT_REG k).2) in *.
  pose proof (owned_pt_number k5 q' I Hown) as Hq. clearbody q' k5.
  match goal with |- created _ _ _ _ _ ?k6 => set (k' := k6); assert (E' : k_mm k' = k_mm k5) by exact Em;
    assert (C' : ctx_only i (new_context nm ty i q') k k') end.
  { exact (ctx_only_upd i _ _ k _ (ctx_only_upd i _ _ k _ C4)). }
  clearbody k'. clear C4 F3 Em k4 C3 E3 k3 E1 Hg. destruct k' as [mm' ?]. cbn in E'. subst mm'. split; try done.
Qed.
