(* ===== verification/Teardown.v ===== *)
(** * Taking an address space down

    [pt_cleanup] visits the tables of an address space and gives back the
    frames of the pages and of the tables.  [tree_frames] lists these frames;
    the theorem is that exactly they are freed, each once. *)
From S2P Require Import Prelude Mem Lib Machine Memory PageAlloc Frames PageTable PageMap Kernel Apic Idt Context.
#[local] Open Scope gemos_scope.

(** The first entry of a table that is visited: the kernel's own entry of a
    table of level 3 is left alone. *)
Definition first_entry (level : nat) : Z := if decide (level = 3%nat) then 1 else 0.

(** The frames below and of a table of level [level], in the order in which
    they are freed; a page has level 0. *)
Fixpoint tree_frames (m : mem) (level : nat) (pfn : Z) : list (region * Z) :=
  match level with
  | O => [(USER_REG, pfn)]
  | S l =>
      flat_map (fun i => let e := ld64 m (4096 * pfn + 8 * i) in if e .& 1 =? 0 then [] else tree_frames m l (e >> 12))
        (seqZ (first_entry level) (512 - first_entry level)) ++ [(OS_PT_REG, pfn)]
  end.

(** What the entries from [i] on lead to. *)
Definition entries_frames (m : mem) (l : nat) (pfn i : Z) (n : nat) : list (region * Z) :=
  flat_map (fun i => let e := ld64 m (4096 * pfn + 8 * i) in if e .& 1 =? 0 then [] else tree_frames m l (e >> 12))
    (seqZ i (Z.of_nat n)).

Lemma tree_frames_S m l pfn :
  tree_frames m (S l) pfn =
    entries_frames m l pfn (first_entry (S l)) (Z.to_nat (512 - first_entry (S l))) ++ [(OS_PT_REG, pfn)].
Proof. unfold entries_frames. rewrite Z2Nat.id; [done|]. unfold first_entry. case_decide; lia. Qed.

Lemma entries_frames_S m l pfn i n :
  entries_frames m l pfn i (S n) =
    (let e := ld64 m (4096 * pfn + 8 * i) in if e .& 1 =? 0 then [] else tree_frames m l (e >> 12)) ++
    entries_frames m l pfn (i + 1) n.
Proof.
  unfold entries_frames. rewrite seqZ_cons by lia. cbn [flat_map]. repeat f_equal; lia.
Qed.

(** The list depends on the tables only. *)
Definition same_tables (m m' : mem) (L : list (region * Z)) : Prop :=
  forall p a, (OS_PT_REG, p) ∈ L -> in_frame p a -> ld8 m' a = ld8 m a.

Lemma same_tables_app m m' L L' : same_tables m m' (L ++ L') -> same_tables m m' L /\ same_tables m m' L'.
Proof. intros H. split; intros p a Hp; apply H; rewrite elem_of_app; auto. Qed.

Lemma entries_frames_ext m m' l q i n :
  (forall p, same_tables m m' (tree_frames m l p) -> tree_frames m' l p = tree_frames m l p) ->
  (forall j, i <= j < i + Z.of_nat n -> ld64 m' (4096 * q + 8 * j) = ld64 m (4096 * q + 8 * j)) ->
  same_tables m m' (entries_frames m l q i n) -> entries_frames m' l q i n = entries_frames m l q i n.
Proof.
  intros IH. revert i. induction n as [|n IHn]; intros i Hq H; [done|]. rewrite !entries_frames_S in *. cbv zeta in *.
  apply same_tables_app in H as [H1 H2]. rewrite Hq by lia. f_equal.
  - destruct (_ =? 0); [done|]. by apply IH.
  - apply IHn; [|done]. intros j Hj. apply Hq. lia.
Qed.

Lemma tree_frames_ext m m' l pfn : same_tables m m' (tree_frames m l pfn) -> tree_frames m' l pfn = tree_frames m l pfn.
Proof.
  revert pfn. induction l as [|l IH]; intros pfn H; [done|]. rewrite !tree_frames_S in *. apply same_tables_app in H as [H1 H2].
  f_equal. apply entries_frames_ext; [done| |done]. intros j Hj. apply ld64_ext. intros b Hb. apply (H2 pfn).
  - by apply list_elem_of_singleton.
  - revert Hj. unfold in_frame, first_entry. case_decide; lia.
Qed.

(** [freed k k' L]: the frames of [L] are back, the others are owned as
    before, and what is still owned, [q] excepted, holds what it held. *)
Record freed (k k' : kernel) (L : list (region * Z)) (q : Z -> Prop) : Prop := {
  fr_only : frame_only k k';
  fr_inv : mm_inv (k_mm k');
  fr_owned r p : owned (k_mm k') r p <-> owned (k_mm k) r p /\ (r, p) ∉ L;
  fr_same r p a : owned (k_mm k') r p -> ~ q p -> in_frame p a -> ld8 (fs_ram k') a = ld8 (fs_ram k) a
}.

(** A tree whose frames can be given back: each is owned, none occurs twice,
    none is the page of the APIC. *)
Record tree_ok (k : kernel) (L : list (region * Z)) : Prop := {
  to_owned r p : (r, p) ∈ L -> owned (k_mm k) r p;
  to_nodup : NoDup L;
  to_apic r p : (r, p) ∈ L -> p <> apic_base k >> PAGE_SHIFT
}.

Lemma is_apic_base_no p k : p <> apic_base k >> PAGE_SHIFT -> is_apic_base p k = 0.
Proof. intros H. unfold is_apic_base. by rewrite (proj2 (Z.eqb_neq _ _)). Qed.

Lemma freed_free k r p :
  mm_inv (k_mm k) -> owned (k_mm k) r p -> freed k (fs_free r p k) [(r, p)] (fun _ => False).
Proof.
  intros Hi Ho. destruct (Frames.fl_free (S := kernel) (FrameLaws := kernel_frame_laws) k r p Hi Ho) as (I & O & _ & S). split; [reflexivity|exact I| |].
  - intros r' p'. rewrite (O r' p'). rewrite list_elem_of_singleton.
    change (fl_owned k r' p') with (owned (k_mm k) r' p').
    split; intros [H1 H2]; (split; [exact H1|]); [intros [= -> ->]; by apply H2|intros [-> ->]; by apply H2].
  - intros r' p' a Hp' _ Ha. apply (S r' p' a); [|exact Ha]. by apply (O r' p').
Qed.

Lemma freed_trans k1 k2 k3 L L' (q : Z -> Prop) :
  freed k1 k2 L q -> freed k2 k3 L' q -> freed k1 k3 (L ++ L') q.
Proof.
  intros [F1 I1 O1 S1] [F2 I2 O2 S2]. split.
  - exact (frame_only_trans _ _ _ F1 F2).
  - exact I2.
  - intros r p. rewrite O2, O1, elem_of_app. tauto.
  - intros r p a Hp Hq Ha. rewrite (S2 r p) by done. apply (S1 r p); [|done|done]. by apply O2 in Hp as [Hp _].
Qed.

Lemma freed_weaken k k' L (q q' : Z -> Prop) : (forall p, q p -> q' p) -> freed k k' L q -> freed k k' L q'.
Proof. intros H [F I O S]. split; [done..|]. intros r p a Hp Hq. apply (S r p); auto. Qed.

(** A store to an owned frame. *)
Lemma freed_store k r p m' :
  mm_inv (k_mm k) -> owned (k_mm k) r p -> untouched (in_frame p) (fs_ram k) m' ->
  freed k (fs_set_ram m' k) [] (eq p).
Proof.
  intros Hi Ho Hu. destruct (Frames.fl_store (S := kernel) (FrameLaws := kernel_frame_laws) k r p m' Hi Ho Hu) as (I & O & _).
  split; [reflexivity|exact I| |].
  - intros r' p'. rewrite (O r' p'). change (fl_owned k r' p') with (owned (k_mm k) r' p').
    split; [intros H; split; [exact H|by intros ?%not_elem_of_nil]|by intros [H _]].
  - intros r' p' a _ Hne Ha. change (fs_ram (fs_set_ram m' k)) with m'. apply Hu. intros Hin. by apply Hne, (frames_distinct _ _ a).
Qed.

Lemma tree_ok_app k L L' : tree_ok k (L ++ L') -> tree_ok k L /\ tree_ok k L' /\ (forall x, x ∈ L -> x ∈ L' -> False).
Proof.
  intros [Ho Hn Ha]. apply NoDup_app in Hn as (N1 & N2 & N3). split; [|split].
  - split; [intros r p H; apply Ho; rewrite elem_of_app; auto|done|intros r p H; apply (Ha r); rewrite elem_of_app; auto].
  - split; [intros r p H; apply Ho; rewrite elem_of_app; auto|done|intros r p H; apply (Ha r); rewrite elem_of_app; auto].
  - intros x H1 H2. by apply (N2 x).
Qed.

(** What has been freed does not disturb the rest. *)
Lemma tree_ok_freed k k' L L' q :
  freed k k' L q -> tree_ok k L' -> (forall x, x ∈ L -> x ∈ L' -> False) -> tree_ok k' L'.
Proof.
  intros [F _ O _] [Ho Hn Ha] Hd. split.
  - intros r p H. apply O. split; [by apply Ho|]. intros HL. by apply (Hd (r, p)).
  - done.
  - intros r p H. rewrite F. by apply (Ha r).
Qed.

(** ** The loop over a table *)

Section loop.
Context (l : nat) (rec : Z -> M ()).
Context (Hrec : forall p k, mm_inv (k_mm k) -> tree_ok k (tree_frames (fs_ram k) l p) ->
  exists k', rec p k = Ret tt k' /\ freed k k' (tree_frames (fs_ram k) l p) (fun _ => False)).

(** The rest of the table once a subtree is freed and its entry cleared. *)
Lemma entries_after k k' q i n L m' :
  0 <= i -> i + 1 + Z.of_nat n <= 512 ->
  freed k k' L (fun _ => False) -> owned (k_mm k') OS_PT_REG q ->
  tree_ok k (entries_frames (fs_ram k) l q (i + 1) n) ->
  (forall x, x ∈ L -> x ∈ entries_frames (fs_ram k) l q (i + 1) n -> False) ->
  (OS_PT_REG, q) ∉ entries_frames (fs_ram k) l q (i + 1) n ->
  untouched (fun a => 4096 * q + 8 * i <= a < 4096 * q + 8 * i + 8) (fs_ram k') m' ->
  entries_frames m' l q (i + 1) n = entries_frames (fs_ram k) l q (i + 1) n.
Proof.
  intros Hi Hn Hf Hq Hok Hd Hnq Hu. apply entries_frames_ext.
  - intros p. apply tree_frames_ext.
  - intros j Hj. apply ld64_ext. intros b Hb. rewrite Hu by lia.
    apply (fr_same _ _ _ _ Hf OS_PT_REG q); [done|auto|unfold in_frame; lia].
  - intros p a Hp Ha. rewrite Hu.
    + apply (fr_same _ _ _ _ Hf OS_PT_REG p); [|auto|done]. apply (fr_owned _ _ _ _ Hf).
      split; [by apply (to_owned _ _ Hok)|]. intros HL. by apply (Hd (OS_PT_REG, p)).
    + intros Hin. assert (p = q) as ->; [|by apply Hnq]. apply (frames_distinct _ _ a); [done|]. unfold in_frame. lia.
Qed.

Lemma pt_cleanup_loop_ok n i q k :
  0 <= i -> i + Z.of_nat n = 512 -> mm_inv (k_mm k) -> owned (k_mm k) OS_PT_REG q ->
  tree_ok k (entries_frames (fs_ram k) l q i n) -> (OS_PT_REG, q) ∉ entries_frames (fs_ram k) l q i n ->
  exists k', pt_cleanup_loop rec n (4096 * q) i k = Ret tt k' /\ freed k k' (entries_frames (fs_ram k) l q i n) (eq q).
Proof.
  revert i k. induction n as [|n IH]; intros i k Hi Hn Hinv Hq Hok Hnq; cbn [pt_cleanup_loop].
  { exists k. split; [done|]. split; [apply frame_only_refl|done| |done].
    intros r p. split; [intros H; split; [done|by intros ?%not_elem_of_nil]|by intros [H _]]. }
  rewrite entries_frames_S in *. cbv zeta in *. set (e := ld64 (fs_ram k) (4096 * q + 8 * i)) in *.
  unfold bind at 1, gets. fold e. unfold bind at 1. destruct (e .& 1 =? 0) eqn:Ee.
  { cbn [app] in *. unfold ret. apply IH; done || lia. }
  set (L := tree_frames (fs_ram k) l (e >> 12)) in *. set (L' := entries_frames (fs_ram k) l q (i + 1) n) in *.
  destruct (tree_ok_app k L L' Hok) as (Ok1 & Ok2 & Hd). rewrite not_elem_of_app in Hnq. destruct Hnq as [Hq1 Hq2].
  destruct (Hrec (e >> 12) k Hinv Ok1) as (k1 & E1 & F1). fold L in F1.
  assert (Hq' : owned (k_mm k1) OS_PT_REG q) by (by apply (fr_owned _ _ _ _ F1)).
  unfold bind at 1. rewrite E1. unfold modify, store64.
  set (m' := st64 (fs_ram k1) (4096 * q + 8 * i) 0). set (k2 := fs_set_ram m' k1).
  assert (Hu : untouched (fun a => 4096 * q + 8 * i <= a < 4096 * q + 8 * i + 8) (fs_ram k1) m') by (by apply untouched_stn).
  assert (F2 : freed k1 k2 [] (eq q)).
  { apply (freed_store k1 OS_PT_REG); [apply F1|done|]. eapply untouched_weaken; [|exact Hu]. cbv beta. unfold in_frame. lia. }
  assert (F12 : freed k k2 (L ++ []) (eq q)) by (apply (freed_trans _ k1); [by eapply freed_weaken; [|exact F1]|done]).
  rewrite app_nil_r in F12.
  assert (EL : entries_frames (fs_ram k2) l q (i + 1) n = L') by (apply (entries_after k k1 q i n L m'); done || lia).
  destruct (IH (i + 1) k2) as (k3 & E3 & F3); [lia|lia|apply F2|by apply (fr_owned _ _ _ _ F12)| | |].
  - rewrite EL. by apply (tree_ok_freed k k2 L L' (eq q)).
  - by rewrite EL.
  - exists k3. split; [exact E3|]. rewrite EL in F3. by apply (freed_trans _ k2).
Qed.
End loop.

Lemma owned_pt_osmap k q : mm_inv (k_mm k) -> owned (k_mm k) OS_PT_REG q -> osmap q = 4096 * q.
Proof.
  intros Hi Ho. pose proof (owned_range _ _ _ Hi Ho) as Hr. change (region_first OS_PT_REG) with 8193 in Hr.
  change (region_pfn OS_PT_REG + region_frames OS_PT_REG) with 25600 in Hr. apply osmap_eq. lia.
Qed.

Lemma pt_cleanup_ok level p k :
  mm_inv (k_mm k) -> tree_ok k (tree_frames (fs_ram k) level p) ->
  exists k', pt_cleanup p level k = Ret tt k' /\ freed k k' (tree_frames (fs_ram k) level p) (fun _ => False).
Proof.
  revert p k. induction level as [|l IH]; intros p k Hi Hok.
  { cbn [tree_frames pt_cleanup] in *. rewrite is_apic_base_no by (apply (to_apic _ _ Hok USER_REG); by apply list_elem_of_singleton).
    eexists. split; [reflexivity|]. apply freed_free; [done|]. apply (to_owned _ _ Hok). by apply list_elem_of_singleton. }
  rewrite tree_frames_S in *. set (i := first_entry (S l)) in *. set (n := Z.to_nat (512 - i)) in *.
  destruct (tree_ok_app k _ _ Hok) as (Ok1 & Ok2 & Hd).
  assert (Hq : owned (k_mm k) OS_PT_REG p) by (apply (to_owned _ _ Ok2); by apply list_elem_of_singleton).
  assert (Hr : 0 <= i /\ i + Z.of_nat n = 512) by (unfold n, i, first_entry; case_decide; lia).
  destruct (pt_cleanup_loop_ok l (fun p => pt_cleanup p l) IH n i p k) as (k1 & E1 & F1); try done; try lia.
  { intros H. apply (Hd _ H). by apply list_elem_of_singleton. }
  assert (Hna : is_apic_base p k1 = 0).
  { apply is_apic_base_no. rewrite (fr_only _ _ _ _ F1). apply (to_apic _ _ Ok2 OS_PT_REG). by apply list_elem_of_singleton. }
  assert (Hq1 : owned (k_mm k1) OS_PT_REG p).
  { apply (fr_owned _ _ _ _ F1). split; [done|]. intros H. apply (Hd _ H). by apply list_elem_of_singleton. }
  pose proof (freed_free k1 OS_PT_REG p (fr_inv _ _ _ _ F1) Hq1) as F2.
  exists (fs_free OS_PT_REG p k1). split.
  - cbn [pt_cleanup]. rewrite (owned_pt_osmap k p Hi Hq). unfold bind.
    change (if decide (S l = 3%nat) then 1 else 0) with i. fold n. rewrite E1. unfold modify. by rewrite Hna.
  - assert (F : freed k (fs_free OS_PT_REG p k1) (entries_frames (fs_ram k) l p i n ++ [(OS_PT_REG, p)]) (eq p)).
    { apply (freed_trans _ k1); [done|]. by eapply freed_weaken; [|exact F2]. }
    destruct F as [F I O Sm]. split; [done..|]. intros r a x Ho _ Hx. apply (Sm r a x); [done| |done].
    intros <-. assert (r = OS_PT_REG) as ->.
    { apply (Frames.fl_region (S := kernel) (H0 := kernel_frame_laws) k1 r OS_PT_REG p (fr_inv _ _ _ _ F1)); [|exact Hq1].
      by apply (fr_owned _ _ _ _ F2) in Ho as [Ho _]. }
    apply O in Ho as [_ Ho]. apply Ho. rewrite elem_of_app. right. by apply list_elem_of_singleton.
Qed.

(** C12: [pt_cleanup] always ends, and gives back exactly the frames of the
    address space, pages and tables, each once: whatever else is owned stays
    owned and holds what it held, and nothing but memory and the frame
    allocator changes. *)
Theorem pt_cleanup_frees level p k :
  mm_inv (k_mm k) -> tree_ok k (tree_frames (fs_ram k) level p) ->
  exists k', pt_cleanup p level k = Ret tt k' /\
    mm_inv (k_mm k') /\ frame_only k k' /\
    (forall r q, owned (k_mm k') r q <-> owned (k_mm k) r q /\ (r, q) ∉ tree_frames (fs_ram k) level p) /\
    frames_same (fun _ => owned (k_mm k')) k (fs_ram k').
Proof.
  intros Hi Hok. destruct (pt_cleanup_ok level p k Hi Hok) as (k' & E & [F I O S]).
  exists k'. split; [exact E|]. split; [exact I|]. split; [exact F|]. split; [exact O|].
  intros r q a Hq Ha. apply (S r q a Hq); [by intros []|done].
Qed.

(** ** A table with one page *)

Lemma flat_map_nil {A B} (f : A -> list B) l : (forall x, x ∈ l -> f x = []) -> flat_map f l = [].
Proof.
  induction l as [|x l IH]; intros H; [done|]. cbn [flat_map]. rewrite H by (by apply elem_of_cons; left).
  apply IH. intros y Hy. apply H. apply elem_of_cons. by right.
Qed.

Lemma one_page_frames m q u :
  (forall a, in_frame q a -> ld8 m a = 0) -> 0 <= u < 2^40 ->
  tree_frames (st64 m (4096 * q) (4096 * u + 7)) 1 q = [(USER_REG, u); (OS_PT_REG, q)].
Proof.
  intros Hz Hu. rewrite tree_frames_S. change (first_entry 1) with 0. change (Z.to_nat (512 - 0)) with (S 511).
  rewrite entries_frames_S. cbv zeta. rewrite Z.mul_0_r, Z.add_0_r, ld64_st64_eq by lia.
  assert (E1 : (4096 * u + 7) .& 1 = 1).
  { change 1 with (Z.ones 1) at 1. rewrite Z.land_ones by lia. zdm. }
  rewrite E1. cbn [Z.eqb]. change (tree_frames _ 0 ?p) with [(USER_REG, p)]. rewrite shiftr_12.
  replace ((4096 * u + 7) / 4096) with u by zdm. cbn [app]. f_equal.
  unfold entries_frames. rewrite flat_map_nil; [done|]. intros i Hi%elem_of_seqZ. change (Z.of_nat 511) with 511 in Hi.
  rewrite ld64_st64_ne by lia. replace (ld64 m (4096 * q + 8 * i)) with 0; [done|].
  symmetry. unfold ld64. change 0 with (ldn 8 ∅ (4096 * q + 8 * i)). apply ldn_ext.
  intros b Hb. rewrite ld8_empty. apply Hz. unfold in_frame. lia.
Qed.

Lemma owned_not_apic k r p : mm_inv (k_mm k) -> owned (k_mm k) r p -> apic_base k = 0xfee00000 -> p <> apic_base k >> PAGE_SHIFT.
Proof.
  intros Hi Ho ->. pose proof (owned_range _ _ _ Hi Ho). change (0xfee00000 >> PAGE_SHIFT) with 0xfee00.
  pose proof (region_bounds r). lia.
Qed.

Lemma one_page_tree k :
  mm_inv (k_mm k) -> (0 < available (k_mm k) OS_PT_REG)%nat -> (0 < available (k_mm k) USER_REG)%nat -> apic_base k = 0xfee00000 ->
  exists k' q u, mm_inv (k_mm k') /\ owned (k_mm k') USER_REG u /\ tree_ok k' (tree_frames (fs_ram k') 1 q) /\
    tree_frames (fs_ram k') 1 q = [(USER_REG, u); (OS_PT_REG, q)].
Proof.
  intros Hi Hp Hu Hb.
  pose proof (Frames.fl_alloc (S := kernel) (FrameLaws := kernel_frame_laws) k OS_PT_REG Hi Hp) as (I1 & _ & O1 & _ & A1 & Z1 & _).
  pose proof (frame_only_alloc OS_PT_REG k) as F1.
  destruct (fs_alloc OS_PT_REG k) as [q k1]. cbn [fst snd] in *.
  assert (Hu1 : (0 < available (k_mm k1) USER_REG)%nat) by (pose proof (A1 USER_REG) as A; exact (eq_ind _ (fun n => (0 < n)%nat) Hu _ A)).
  pose proof (Frames.fl_alloc (S := kernel) (FrameLaws := kernel_frame_laws) k1 USER_REG I1 Hu1) as (I2 & _ & O2 & O2' & _ & _ & S2).
  pose proof (frame_only_alloc USER_REG k1) as F2.
  destruct (fs_alloc USER_REG k1) as [u k2]. cbn [fst snd] in *.
  assert (Oq : owned (k_mm k2) OS_PT_REG q) by (apply O2'; by left).
  set (m := st64 (fs_ram k2) (4096 * q) (4096 * u + 7)).
  assert (Hum : untouched (in_frame q) (fs_ram k2) m) by (apply untouched_stn; unfold in_frame; lia).
  pose proof (freed_store k2 OS_PT_REG q m I2 Oq Hum) as [F3 I3 O3 _].
  exists (fs_set_ram m k2), q, u.
  pose proof (owned_range _ _ _ I2 O2) as Hr. change (region_first USER_REG) with 25604 in Hr.
  change (region_pfn USER_REG + region_frames USER_REG) with 131072 in Hr.
  assert (E : tree_frames (fs_ram (fs_set_ram m k2)) 1 q = [(USER_REG, u); (OS_PT_REG, q)]).
  { apply one_page_frames; [|lia]. intros a Ha. rewrite (S2 OS_PT_REG q a O1 Ha). by apply Z1. }
  assert (Oall : forall r p, (r, p) ∈ [(USER_REG, u); (OS_PT_REG, q)] -> owned (k_mm (fs_set_ram m k2)) r p).
  { intros r p Hin. apply O3. split; [|by apply not_elem_of_nil]. rewrite elem_of_cons, list_elem_of_singleton in Hin.
    by destruct Hin as [[= -> ->]|[= -> ->]]. }
  split; [exact I3|]. split; [apply Oall; left|]. rewrite E. split; [|done]. split; [exact Oall| |].
  - apply NoDup_cons. split; [rewrite list_elem_of_singleton; discriminate|apply NoDup_singleton].
  - intros r p Hin. apply (owned_not_apic _ r); [exact I3|by apply Oall|]. rewrite F2, F1. exact Hb.
Qed.

Lemma pt_cleanup_frees_witness : exists k q u k',
  owned (k_mm k) USER_REG u /\ pt_cleanup q 1 k = Ret tt k' /\ ~ owned (k_mm k') USER_REG u.
Proof.
  destruct (one_page_tree (Kernel boot_mm [] None (OsStats 0 0 0 0 0 0 0 0) (OsConfigs 0 0 0 0) 0 0xfee00000 0)
    boot_mm_inv (boot_available OS_PT_REG) (boot_available USER_REG) eq_refl) as (k & q & u & Hi & Ho & Hok & E).
  destruct (pt_cleanup_frees 1 q k Hi Hok) as (k' & Er & _ & _ & O & _).
  exists k, q, u, k'. split; [exact Ho|]. split; [exact Er|]. rewrite O, E. intros [_ Hn]. apply Hn. left.
Defined.
