(* ===== verification/Boot.v ===== *)
(** * What the steps of the boot sequence preserve

    [kept n k k'] says what a step that takes at most [n] page-table frames
    guarantees to those around it: the frame allocator's invariant, the other
    regions, and the memory and frames of the object allocator. *)
From S2P Require Import Prelude Mem Lib Machine Memory PageAlloc NextFrames Frames OsAlloc OsHeap HeapInit PageTable PageMap Kernel Apic Idt IdtSpec GdtSpec Context.
#[local] Open Scope gemos_scope.

(** Where the boot code stores: low memory but for the image of init, and
    page-table frames. *)
Definition image (a : Z) : Prop := INIT_IMAGE <= a < INIT_IMAGE + 0x8000.
Definition boot_area (a : Z) : Prop := a < 0x800000 /\ ~ image a \/ 4096 * 8193 <= a < 0x6400000.
Definition pt_frame (q : Z) : Prop := 8193 <= q < 25600.

Definition ds_memory (a : Z) : Prop := 0x800000 <= a < 0x2000000.

Record kept_post (n : nat) (k k' : kernel) : Prop := {
  kp_inv : mm_inv (k_mm k');
  kp_pt : available (k_mm k) OS_PT_REG = (n + available (k_mm k') OS_PT_REG)%nat;
  kp_next : next (k_mm k') USER_REG = next (k_mm k) USER_REG;
  kp_list : pgl_os_ds (k_mm k') = pgl_os_ds (k_mm k);
  kp_owned q : owned (k_mm k) OS_PT_REG q -> owned (k_mm k') OS_PT_REG q;
  kp_ram a : ds_memory a \/ image a -> ld8 (fs_ram k') a = ld8 (fs_ram k) a
}.

Lemma kp_user n k k' : kept_post n k k' -> available (k_mm k') USER_REG = available (k_mm k) USER_REG.
Proof. intros K. by rewrite !available_next, (kp_next _ _ _ K). Qed.

Definition kept (n : nat) (k k' : kernel) : Prop :=
  mm_inv (k_mm k) -> (n <= available (k_mm k) OS_PT_REG)%nat -> kept_post n k k'.

Lemma kept_refl k : kept 0 k k.
Proof. intros Hi _. by split. Qed.

Lemma kept_trans n m k1 k2 k3 : kept n k1 k2 -> kept m k2 k3 -> kept (n + m) k1 k3.
Proof.
  intros H1 H2 Hi Hn. destruct (H1 Hi) as [I1 P1 U1 L1 O1 R1]; [lia|].
  destruct (H2 I1) as [I2 P2 U2 L2 O2 R2]; [lia|]. split; [done|lia|congruence|congruence|auto|].
  intros a Ha. by rewrite R2, R1.
Qed.

(** Steps that take no frame. *)
Lemma kept_then m k1 k2 k3 : kept 0 k1 k2 -> kept m k2 k3 -> kept m k1 k3.
Proof. apply (kept_trans 0). Qed.

Lemma kept_after m k1 k2 k3 : kept m k1 k2 -> kept 0 k2 k3 -> kept m k1 k3.
Proof. intros H1 H2. rewrite <- (Nat.add_0_r m). by apply (kept_trans m 0 _ k2). Qed.

(** Only [k_mm] matters. *)
Lemma kept_same n k k1 k2 : k_mm k1 = k_mm k2 -> kept n k k1 -> kept n k k2.
Proof.
  intros E H Hi Hn. destruct (H Hi Hn) as [I P U L O R].
  assert (Er : fs_ram k2 = fs_ram k1) by (unfold fs_ram, kernel_frames; by rewrite E).
  split; [| | | | |intros a Ha; rewrite Er; auto]; rewrite <- E; auto.
Qed.

Lemma kept_mm k k' : k_mm k' = k_mm k -> kept 0 k k'.
Proof. intros E. apply (kept_same 0 k k k'); [done|apply kept_refl]. Qed.

Lemma kept_emit e k : kept 0 k (fs_emit e k).
Proof.
  intros Hi _. destruct (Frames.fl_emit (S := mm) (FrameLaws := mm_frame_laws) e (k_mm k) Hi) as (I & O & A).
  split; [exact I|symmetry; exact (A OS_PT_REG)|apply next_emit|done| |done]. intros q. apply O.
Qed.

Lemma kept_printf fmt args k : kept 0 k (kprintf fmt args k).
Proof. apply kept_emit. Qed.

Lemma boot_area_bitmap r a : boot_area a -> ~ bitmap_area r a.
Proof. unfold boot_area, bitmap_area. region_nums r; lia. Qed.

Lemma kept_store m k : untouched boot_area (fs_ram k) m -> kept 0 k (fs_set_ram m k).
Proof.
  intros Hu Hi _. destruct (mm_inv_untouched boot_area (k_mm k) m Hi Hu) as (I & O & A); [intros r a; apply boot_area_bitmap|].
  split; [exact I|symmetry; exact (A OS_PT_REG)| |done| |].
  - apply (next_untouched boot_area (k_mm k) (set_mm_ram m (k_mm k))); [done|exact Hu|intros a; apply boot_area_bitmap|done].
  - intros q. apply O.
  - intros a Ha. apply Hu. unfold boot_area, ds_memory, image, INIT_IMAGE in *. lia.
Qed.

Lemma kept_bytes n a v k :
  (forall b, a <= b < a + Z.of_nat n -> boot_area b) -> kept 0 k (fs_set_ram (stn n (fs_ram k) a v) k).
Proof. intros H. apply kept_store, untouched_stn, H. Qed.

Lemma kept_kst8 a v k : boot_area a -> kept 0 k (kst8 a v k).
Proof. intros H. apply (kept_bytes 1). intros b Hb. by replace b with a by lia. Qed.

(** Ranges below OS_DS or in the page-table frames. *)
Definition boot_range (a n : Z) : Prop :=
  a + n <= INIT_IMAGE \/ INIT_IMAGE + 0x8000 <= a /\ a + n <= 0x800000 \/ 4096 * 8193 <= a /\ a + n <= 0x6400000.

Lemma boot_range_area a n b : boot_range a n -> a <= b < a + n -> boot_area b.
Proof. unfold boot_range, boot_area, image, INIT_IMAGE. lia. Qed.

Lemma boot_range_sub a n b m : boot_range a n -> a <= b -> b + m <= a + n -> boot_range b m.
Proof. unfold boot_range, INIT_IMAGE. lia. Qed.

Lemma pt_frame_range q : pt_frame q -> boot_range (4096 * q) 4096.
Proof. unfold pt_frame, boot_range, INIT_IMAGE. lia. Qed.

Lemma kept_kst16 a v k : boot_range a 2 -> kept 0 k (kst16 a v k).
Proof. intros H. apply (kept_bytes 2). intros b Hb. by apply (boot_range_area a 2). Qed.
Lemma kept_kst32 a v k : boot_range a 4 -> kept 0 k (kst32 a v k).
Proof. intros H. apply (kept_bytes 4). intros b Hb. by apply (boot_range_area a 4). Qed.
Lemma kept_store64 a v k : boot_range a 8 -> kept 0 k (store64 a v k).
Proof. intros H. apply (kept_bytes 8). intros b Hb. by apply (boot_range_area a 8). Qed.

Lemma kept_bzero a n k : 0 <= n -> boot_range a n -> kept 0 k (fs_set_ram (bzero (fs_ram k) a n) k).
Proof. intros Hn H. apply kept_store, untouched_bzero. intros b Hb. by apply (boot_range_area a n). Qed.

(** A page-table frame is taken, then [f] goes on with it. *)
Lemma kept_alloc {A} m k (f : Z -> kernel -> A * kernel) :
  (forall q k1, pt_frame q -> u64 (q << PAGE_SHIFT) = 4096 * q -> kept m k1 (f q k1).2) ->
  kept (S m) k (let '(q, k1) := fs_alloc OS_PT_REG k in f q k1).2.
Proof.
  intros Hf Hi Hn. assert (Hav : (0 < available (k_mm k) OS_PT_REG)%nat) by lia.
  destruct (fs_alloc_pt_addr k Hi Hav) as [Ea Hr].
  assert (H1 : kept_post 1 k (fs_alloc OS_PT_REG k).2).
  { pose proof (os_pfn_alloc_ok OS_PT_REG (k_mm k) Hi Hav) as Hp.
    unfold fs_alloc, kernel_frames. destruct (os_pfn_alloc OS_PT_REG (k_mm k)) as [q s] eqn:E. cbn [fst snd] in *.
    split; cbn [k_mm set_k_mm].
    - apply Hp.
    - exact (ap_avail _ _ _ _ Hp OS_PT_REG).
    - pose proof (next_alloc OS_PT_REG (k_mm k) USER_REG Hi Hav) as En. rewrite E in En. by rewrite En.
    - revert E. unfold os_pfn_alloc. case_match; [by intros [= _ <-]|]. case_match. case_match. case_decide; by intros [= _ <-].
    - intros p Hpo. apply (ap_owned _ _ _ _ Hp). by left.
    - intros a Ha. apply (ap_ram _ _ _ _ Hp). pose proof (ap_range _ _ _ _ Hp) as Hq.
      change (region_first OS_PT_REG) with 8193 in Hq. unfold ds_memory, image, INIT_IMAGE in Ha. intros [Hb|[_ Hb]].
      + unfold bitmap_area in Hb. change (region_start OS_PT_REG) with 0x2000000 in Hb. lia.
      + unfold in_frame in Hb. lia. }
  destruct (fs_alloc OS_PT_REG k) as [q k1]. cbn [fst snd] in *.
  specialize (Hf q k1 Hr Ea). destruct H1 as [I1 P1 U1 L1 O1 R1].
  destruct (Hf I1) as [I2 P2 U2 L2 O2 R2]; [lia|].
  split; [done|lia|congruence|congruence|auto|]. intros a Ha. by rewrite R2, R1.
Qed.

#[export] Hint Resolve kept_refl kept_printf kept_emit : gemos.

(** ** The steps of the boot *)

Lemma kept_create_idt e type cb ist k : boot_range e 16 -> kept 0 k (create_idt e type cb ist k).
Proof.
  intros H. rewrite create_idt_ram. apply kept_store.
  change (untouched boot_area (fs_ram k) (fs_ram (create_idt e type cb ist k))).
  eapply untouched_weaken; [|apply create_idt_untouched]. intros a Ha. by apply (boot_range_area e 16).
Qed.

Lemma kept_setup_idt_entry h i e k : boot_range e 16 -> kept 0 k (setup_idt_entry h i e k).
Proof.
  intros H. unfold setup_idt_entry. repeat (case_match; [by apply kept_create_idt|]).
  apply kept_kst8. apply (boot_range_area e 16); [done|lia].
Qed.

Lemma kept_setup_idt_loop n h i e k : boot_range e (16 * Z.of_nat n) -> kept 0 k (setup_idt_loop n h i e k).
Proof.
  revert i e k. induction n as [|n IH]; intros i e k H; [apply kept_refl|]. cbn [setup_idt_loop]. change sizeof_idt_entry with 16.
  eapply kept_then; [apply (kept_setup_idt_entry h i e)|apply IH]; apply (boot_range_sub e (16 * Z.of_nat (S n))); done || lia.
Qed.

Lemma kept_setup_idt h k : kept 1 k (setup_idt h k).2.
Proof.
  unfold setup_idt. apply (kept_alloc 0). intros q k1 Hq Eq. cbn [snd]. rewrite Eq.
  eapply kept_then; [|apply kept_emit]. apply (kept_setup_idt_loop 256). exact (pt_frame_range q Hq).
Qed.

Lemma kept_gdt_entry e bl bm bh ll lh ac fl k : boot_range e 8 -> kept 0 k (write_gdt_entry e bl bm bh ll lh ac fl k).
Proof.
  intros H. unfold write_gdt_entry.
  assert (H1 : forall b, e <= b < e + 8 -> boot_area b) by (intros b Hb; by apply (boot_range_area e 8)).
  assert (H2 : forall b, e <= b <= e + 6 -> boot_range b 2) by (intros b Hb; apply (boot_range_sub e 8); done || lia).
  do 6 (eapply kept_after; [|first [apply kept_kst16, H2; lia | apply kept_kst8, H1; lia]]).
  apply kept_refl.
Qed.

Lemma kept_gdt_boot_loop n e k :
  boot_range e (8 * Z.of_nat n) ->
  (gdt_boot_loop n e k).1 = e + 8 * Z.of_nat n /\ kept 0 k (gdt_boot_loop n e k).2.
Proof.
  revert e k. induction n as [|n IH]; intros e k H; cbn [gdt_boot_loop].
  { split; [cbn; lia|apply kept_refl]. }
  match goal with |- context [gdt_boot_loop n (e + 8) ?k'] => destruct (IH (e + 8) k') as [E K] end.
  { apply (boot_range_sub e (8 * Z.of_nat (S n))); [done|lia..]. }
  split; [rewrite E; lia|]. eapply kept_then; [|exact K].
  eapply kept_after; [|apply kept_kst16, (boot_range_sub e (8 * Z.of_nat (S n))); [done|lia..]].
  do 2 (eapply kept_after; [|apply kept_printf]). apply kept_refl.
Qed.

(** The GDT is in low memory, with room for four more descriptors. *)
Definition gdt_ok (gdt : IDTR) : Prop := 0 <= limit gdt /\ base gdt + (limit gdt + 1) + 32 <= INIT_IMAGE.

Lemma kept_user_segments e k : boot_range e 16 -> kept 0 k (user_segments e k).
Proof.
  intros H. unfold user_segments. do 2 (eapply kept_after; [|apply kept_gdt_entry, (boot_range_sub e 16); done || lia]).
  apply kept_printf.
Qed.

Lemma kept_tss_descriptor e q k : boot_range e 16 -> pt_frame q -> kept 0 k (tss_descriptor e (4096 * q) k).
Proof.
  intros H Hq. unfold tss_descriptor. do 2 (eapply kept_after; [|apply kept_kst32, (boot_range_sub e 16); done || lia]).
  eapply kept_after; [|apply kept_gdt_entry, (boot_range_sub e 16); done || lia].
  eapply kept_after; [|apply (kept_bzero (4096 * q) PAGE_SIZE); [done|exact (pt_frame_range q Hq)]]. by apply kept_mm.
Qed.

Lemma kept_tss_stack q st k : pt_frame q -> kept 0 k (tss_stack (4096 * q) st k).
Proof.
  intros Hq. pose proof (pt_frame_range q Hq) as Hf. unfold tss_stack.
  do 2 (eapply kept_after; [|apply kept_kst32, (boot_range_sub (4096 * q) 4096); done || lia]). apply kept_refl.
Qed.

Lemma kept_install_gdt gdt k : kept 0 k (install_gdt gdt k).
Proof. apply kept_emit. Qed.
Lemma kept_load_tr sel k : kept 0 k (load_tr sel k).
Proof. apply kept_emit. Qed.

Lemma kept_setup_tss gdt e k : boot_range e 16 -> kept 2 k (setup_tss gdt e k).2.
Proof.
  intros H. unfold setup_tss. apply (kept_alloc 1). intros q k1 Hq ->.
  eapply kept_then; [apply (kept_tss_descriptor e q k1 H Hq)|]. cbv zeta.
  set (k2 := tss_descriptor _ _ _). clearbody k2. set (g := MkIDTR _ _).
  eapply kept_then; [apply (kept_install_gdt g)|]. eapply kept_then; [apply (kept_load_tr 0x33)|].
  apply (kept_alloc 0). intros p k3 Hp _. by apply kept_tss_stack.
Qed.

Lemma kept_setup_gdt_tss gdt k : gdt_ok gdt -> kept 2 k (setup_gdt_tss gdt k).2.
Proof.
  intros [Hl Hg]. unfold setup_gdt_tss. set (n := (limit gdt + 1) / 8).
  assert (Hn : 0 <= n /\ 8 * n <= limit gdt + 1) by (unfold n; zdm).
  destruct (kept_gdt_boot_loop (Z.to_nat n) (base gdt) k) as [E K]; [left; lia|].
  destruct (gdt_boot_loop _ _ _) as [e k1]. cbn [fst snd] in E, K.
  eapply kept_then; [exact K|]. eapply kept_then; [|apply kept_setup_tss; left; lia]. apply kept_user_segments. left. lia.
Qed.

Lemma kept_mmio a v k : kept 0 k (mmio a v k).
Proof. apply kept_emit. Qed.
Lemma kept_clflush a k : kept 0 k (clflush a k).
Proof. apply kept_emit. Qed.

Lemma kept_init_apic hi lo l1 l2 k : kept 0 k (init_apic hi lo l1 l2 k).
Proof.
  unfold init_apic. repeat (eapply kept_after; [|first [apply kept_mmio | apply kept_clflush]]).
  eapply kept_after; [apply kept_printf|by apply kept_mm].
Qed.

Lemma kept_init_swapper ss cs rflags task k : kept 2 k (init_swapper ss cs rflags task k).
Proof.
  unfold init_swapper.
  pose proof (kept_alloc (A := unit) 1 k (fun ctx_l k1 =>
    (tt, (let k := fs_set_ram (bzero (fs_ram k1) (u64 (ctx_l << PAGE_SHIFT)) PAGE_SIZE) k1 in
          (fs_alloc OS_PT_REG k).2)))) as H. cbn [snd] in H.
  destruct (fs_alloc OS_PT_REG k) as [q1 k1]. cbn [snd] in H.
  eapply kept_same; [|apply H].
  - rewrite (surjective_pairing (fs_alloc OS_PT_REG _)). cbn [k_mm upd_ctx set_ctx_list].
    unfold fs_alloc, kernel_frames. cbn [k_mm upd_ctx set_ctx_list].
    by destruct (os_pfn_alloc OS_PT_REG _).
  - intros q k2 Hq Eq. rewrite Eq. pose proof (pt_frame_range q Hq) as Hf. cbv zeta.
    eapply kept_then; [apply (kept_bzero (4096 * q) PAGE_SIZE); [done|exact Hf]|].
    match goal with |- kept 1 ?k3 _ => set (k4 := k3) end. clearbody k4.
    pose proof (kept_alloc (A := unit) 0 k4 (fun _ k => (tt, k))) as H'. cbn [snd] in H'.
    rewrite (surjective_pairing (fs_alloc OS_PT_REG k4)) in H'. apply H'. intros. apply kept_refl.
Qed.

(** ** The heap is not disturbed *)

Lemma kept_post_owned n k k' q :
  mm_inv (k_mm k) -> kept_post n k k' -> owned (k_mm k') OS_DS_REG q <-> owned (k_mm k) OS_DS_REG q.
Proof.
  intros Hi [_ _ _ L _ R]. unfold owned. cbn [pglists]. rewrite L.
  destruct (Hi OS_DS_REG) as (Hp & Hst & Hsz). cbn [pglists] in *.
  destruct (pgl_inv_untouched (fun a => ~ ds_memory a) (mm_ram (k_mm k)) (mm_ram (k_mm k')) _ Hp) as (_ & E & _).
  - intros a Ha. destruct (decide (0x800000 <= a < 0x2000000)) as [Hd|Hd]; [exact (R a (or_introl Hd))|by destruct Ha].
  - rewrite Hst, Hsz. change (pages_to_reserve (region_frames OS_DS_REG)) with 1. change (region_start OS_DS_REG) with 0x800000.
    unfold ds_memory. intros a Ha Hn. apply Hn. lia.
  - by rewrite E.
Qed.

Lemma heap_rep_kept n k k' b nm A Nf c :
  heap_rep (Heap (k_mm k) b nm) A Nf c -> kept_post n k k' -> heap_rep (Heap (k_mm k') b nm) A Nf c.
Proof.
  intros Hr K. pose proof (hr_mm _ _ _ _ Hr) as Hm.
  apply (heap_rep_same (Heap (k_mm k) b nm)); try done; [apply K|intros q; by apply (kept_post_owned n)|].
  intros a Harea. apply (kp_ram _ _ _ K). left. destruct (heap_area_owned _ _ _ _ a Hr Harea) as (x & Hx & Hin).
  pose proof (owned_range _ _ _ Hm Hx) as Hxr. change (region_first OS_DS_REG) with 2049 in Hxr.
  change (region_pfn OS_DS_REG + region_frames OS_DS_REG) with 8192 in Hxr. unfold in_frame, ds_memory in *. lia.
Qed.

(** ** The process table after init_swapper *)

Lemma init_swapper_table ss cs rflags task k :
  let k' := init_swapper ss cs rflags task k in
  length (ctx_list k') = 16%nat /\ state (ctx_at k' 0) = READY /\ pid (ctx_at k' 0) = 0 /\
  (forall i, (0 < i)%nat -> ctx_at k' i = zero_context) /\
  current k' = current k /\ config k' = config k /\ stats k' = stats k /\
  apic_base k' = apic_base k /\ tss_page k' = tss_page k.
Proof.
  unfold init_swapper. pose proof (frame_only_alloc OS_PT_REG k) as H1. destruct (fs_alloc OS_PT_REG k) as [q k1]. cbn [snd] in H1.
  match goal with |- context [fs_alloc OS_PT_REG ?x] => pose proof (frame_only_alloc OS_PT_REG x) as H2; destruct (fs_alloc OS_PT_REG x) as [p k2] end.
  cbn [snd] in H2. rewrite H2, H1. cbv zeta. change (Z.to_nat MAX_PROCESSES) with 16%nat.
  split; [reflexivity|]. split; [reflexivity|]. split; [reflexivity|]. split; [|done].
  intros i Hi. destruct i as [|i]; [lia|]. do 15 (destruct i as [|i]; [reflexivity|]). reflexivity.
Qed.

(** ** What setup_tables leaves to the first process *)

Lemma frame_only_setup_idt_loop n h i e k : frame_only k (setup_idt_loop n h i e k).
Proof.
  revert i e k. induction n as [|n IH]; intros i e k; cbn [setup_idt_loop]; [apply frame_only_refl|].
  eapply frame_only_trans; [|apply IH]. unfold setup_idt_entry. repeat (case_match; [reflexivity|]). reflexivity.
Qed.

Lemma frame_only_setup_idt h k : frame_only k (setup_idt h k).2.
Proof.
  unfold setup_idt. pose proof (frame_only_alloc OS_PT_REG k) as H1. destruct (fs_alloc OS_PT_REG k) as [q k1]. cbn [snd] in *.
  frame_step H1. eapply frame_only_trans; [apply frame_only_setup_idt_loop|]. reflexivity.
Qed.

(** The TSS of [setup_gdt_tss] stays in place. *)
Lemma setup_gdt_tss_page gdt k :
  mm_inv (k_mm k) -> (2 <= available (k_mm k) OS_PT_REG)%nat -> limit gdt = 31 -> 0 <= base gdt -> base gdt + 64 <= 0x800000 ->
  exists t, tss_page (setup_gdt_tss gdt k).2 = 4096 * t /\ owned (k_mm (setup_gdt_tss gdt k).2) OS_PT_REG t.
Proof.
  intros Hi Hav Hl Hb0 Hb. destruct (sr_frames _ _ _ (setup_gdt_tss_ok gdt k Hi Hav Hl Hb0 Hb)) as (q & p & _ & Eq & _ & Ho & _).
  exists q. split; [done|]. apply Ho. auto.
Qed.
