(* ===== verification/Shell.v ===== *)
(** * The command line of the shell: parse_init (shell.c) and init.h

    [parse_init] on the bytes of the command in memory, and the structure of
    the arguments that it fills. *)
From S2P Require Import Prelude Mem Lib Machine Memory PageAlloc Frames Printf Serial Kbd PageTable PageMap Kernel Apic Idt Context.
#[local] Open Scope gemos_scope.

(** ** parse_init *)

Definition blank (c : Z) : bool := (c =? 32) || (c =? 9).

(** [while(cmd[ctr] == 32 || cmd[ctr] == '\t') ++ctr;] *)
Fixpoint skip_blanks (fuel : nat) (m : mem) (cmd ctr : Z) : option Z :=
  match fuel with
  | O => None
  | S fuel => if blank (ld8 m (cmd + ctr)) then skip_blanks fuel m cmd (ctr + 1) else Some ctr
  end.

(** The store of [value] as the 64-bit word number [num] of [args]. *)
Definition store_arg (m : mem) (args num value : Z) : mem := st64 m (args + 8 * num) value.

(** The [for] loop; [fuel] bounds the characters read. *)
Fixpoint parse_loop (fuel : nat) (m : mem) (cmd args ctr num value : Z) : option mem :=
  match fuel with
  | O => None
  | S fuel =>
      if ld8 m (cmd + ctr) =? 0 then Some (store_arg m args num value)
      else
        let digit m ctr num value :=
          parse_loop fuel m cmd args (ctr + 1) num (u64 (u64 (value * 10) + (s8 (ld8 m (cmd + ctr)) - 48))) in
        if blank (ld8 m (cmd + ctr)) then
          let m := store_arg m args num value in
          match skip_blanks (S fuel) m cmd ctr with
          | None => None
          | Some ctr => digit m ctr (num + 1) 0
          end
        else digit m ctr num value
  end.

Definition parse_init (fuel : nat) (m : mem) (cmd args : Z) : option mem := parse_loop fuel m cmd args 5 0 0.

(** The words of [struct init_args], as [parse_init] numbers them. *)
Definition init_words (v : init_args) : list Z := [a_rdi v; a_rsi v; a_rcx v; a_rdx v; a_r8 v].
Definition sizeof_init_args : Z := 40.

(** ** Numbers on the command line *)

(** The command after "init ": a word, then blanks and words. *)
Definition words := list (list Z * list Z).
Definition words_text (w : list Z) (ws : words) : list Z := w ++ flat_map (fun bw => bw.1 ++ bw.2) ws.
Definition word_ok (w : list Z) : Prop := w <> [] /\ Forall is_digit w.
Definition blanks_ok (b : list Z) : Prop := b <> [] /\ Forall (fun c => blank c = true) b.
Definition words_ok (ws : words) : Prop := Forall (fun bw => blanks_ok bw.1 /\ word_ok bw.2) ws.

(** The arguments they give, stored one after the other. *)
Fixpoint store_args (m : mem) (args num : Z) (vs : list Z) : mem :=
  match vs with [] => m | v :: vs => store_args (store_arg m args num v) args (num + 1) vs end.
Definition word_value (w : list Z) : Z := u64 (read_dec w).

(** The stores of [n] arguments leave the command alone. *)
Definition apart (cmd len args n : Z) : Prop := cmd + len <= args \/ args + 8 * n <= cmd.

Lemma read_dec_snoc w c : read_dec (w ++ [c]) = 10 * read_dec w + (c - 48).
Proof. unfold read_dec. by rewrite fold_left_app. Qed.

Lemma s8_digit c : is_digit c -> s8 c = c.
Proof. unfold is_digit, s8. intros. rewrite Z.mod_small by lia. lia. Qed.

Lemma digit_not_blank c : is_digit c -> blank c = false /\ c <> 0.
Proof.
  unfold is_digit, blank. intros. split; [|lia]. rewrite !(proj2 (Z.eqb_neq _ _)) by lia. done.
Qed.

(** Characters [cs] at [a]. *)
Definition chars_at (m : mem) (a : Z) (cs : list Z) : Prop :=
  forall i c, cs !! i = Some c -> ld8 m (a + Z.of_nat i) = c.

Lemma chars_at_cons m a c cs : chars_at m a (c :: cs) -> ld8 m a = c /\ chars_at m (a + 1) cs.
Proof.
  intros H. split.
  - rewrite <- (Z.add_0_r a). apply (H 0%nat). done.
  - intros i c' Hi. rewrite <- (H (S i) c' Hi). f_equal. lia.
Qed.

Lemma chars_at_app m a xs ys : chars_at m a (xs ++ ys) -> chars_at m a xs /\ chars_at m (a + Z.of_nat (length xs)) ys.
Proof.
  intros H. split; intros i c Hi.
  - apply H. rewrite lookup_app_l; [done|]. by apply lookup_lt_Some in Hi.
  - rewrite <- (H (length xs + i)%nat c); [f_equal; lia|]. rewrite lookup_app_r by lia. rewrite <- Hi. f_equal. lia.
Qed.

Lemma chars_at_same m m' a cs :
  chars_at m a cs -> (forall b, a <= b < a + Z.of_nat (length cs) -> ld8 m' b = ld8 m b) -> chars_at m' a cs.
Proof. intros H Hs i c Hi. rewrite Hs; [by apply H|]. apply lookup_lt_Some in Hi. lia. Qed.

(** A word is read digit by digit. *)
Lemma parse_word fuel m cmd args ctr num v w after :
  chars_at m (cmd + ctr) (w ++ after) -> Forall is_digit w ->
  parse_loop (length w + fuel) m cmd args ctr num (u64 v) =
    parse_loop fuel m cmd args (ctr + Z.of_nat (length w)) num
      (u64 (fold_left (fun acc c => 10 * acc + (c - 48)) w v)).
Proof.
  revert ctr v. induction w as [|c w IH]; intros ctr v Hc Hw; cbn [length Nat.add fold_left].
  { by rewrite Z.add_0_r. }
  apply Forall_cons in Hw as [Hd Hw]. cbn [app] in Hc. apply chars_at_cons in Hc as [Ec Hc].
  destruct (digit_not_blank c Hd) as [Hb H0]. cbn [parse_loop]. rewrite Ec, (proj2 (Z.eqb_neq c 0)) by done.
  rewrite Hb, s8_digit by done.
  assert (Ev : u64 (u64 (u64 v * 10) + (c - 48)) = u64 (10 * v + (c - 48))).
  { unfold u64. rewrite Zplus_mod_idemp_l, <- Zplus_mod_idemp_l, Zmult_mod_idemp_l, Zplus_mod_idemp_l. f_equal. lia. }
  rewrite Ev, IH; [|by replace (cmd + (ctr + 1)) with (cmd + ctr + 1) by lia|done].
  by replace (ctr + 1 + Z.of_nat (length w)) with (ctr + Z.of_nat (S (length w))) by lia.
Qed.

Lemma skip_blanks_run fuel m cmd ctr b c after :
  chars_at m (cmd + ctr) (b ++ c :: after) -> Forall (fun c => blank c = true) b -> blank c = false ->
  (length b < fuel)%nat -> skip_blanks fuel m cmd ctr = Some (ctr + Z.of_nat (length b)).
Proof.
  revert fuel ctr. induction b as [|x b IH]; intros fuel ctr Hc Hb Hn Hf; (destruct fuel as [|fuel]; [lia|]);
    cbn [app] in Hc; apply chars_at_cons in Hc as [Ec Hc]; cbn [skip_blanks length] in *; rewrite Ec.
  - by rewrite Hn, Z.add_0_r.
  - apply Forall_cons in Hb as [-> Hb]. rewrite IH; [f_equal; lia| |done|done|lia].
    by replace (cmd + (ctr + 1)) with (cmd + ctr + 1) by lia.
Qed.

Lemma store_arg_apart m cmd len args num v b :
  cmd <= b < cmd + len -> cmd + len <= args + 8 * num \/ args + 8 * num + 8 <= cmd -> ld8 (store_arg m args num v) b = ld8 m b.
Proof. intros Hb Ha. apply (ld8_stn_out 8). lia. Qed.

(** One more word: the value so far is stored, and the next one begins. *)
Lemma parse_words ws : forall fuel m cmd args ctr num v len,
  words_ok ws -> chars_at m (cmd + ctr) (flat_map (fun bw => bw.1 ++ bw.2) ws ++ [0]) ->
  0 <= ctr -> ctr + Z.of_nat (length (flat_map (fun bw => bw.1 ++ bw.2) ws ++ [0])) <= len ->
  0 <= num -> apart cmd len args (num + Z.of_nat (length ws) + 1) ->
  (length (flat_map (fun bw => bw.1 ++ bw.2) ws) < fuel)%nat ->
  parse_loop fuel m cmd args ctr num (u64 v) =
    Some (store_args m args num (u64 v :: map (fun bw => word_value bw.2) ws)).
Proof.
  induction ws as [|[b w] ws IH]; intros fuel m cmd args ctr num v len Hok Hc H0 Hlen Hnum Hap Hf;
    (destruct fuel as [|fuel]; [cbn in Hf; lia|]).
  - cbn [flat_map app] in Hc. apply chars_at_cons in Hc as [Ec _]. cbn [parse_loop]. by rewrite Ec.
  - apply Forall_cons in Hok as [[[Hb Hbb] [Hw Hwd]] Hok]. cbn [fst snd] in *. cbn [flat_map] in Hc, Hlen, Hf. cbn [fst snd] in Hc, Hlen, Hf.
    rewrite <- !app_assoc in Hc. repeat rewrite length_app in Hlen. repeat rewrite length_app in Hf.
    destruct b as [|x b]; [done|]. destruct w as [|c w]; [done|].
    cbn [length] in Hlen, Hap, Hf.
    pose proof Hbb as Hbb'. apply Forall_cons in Hbb' as [Hx _]. pose proof Hwd as Hwd'. apply Forall_cons in Hwd' as [Hd Hwt].
    destruct (digit_not_blank c Hd) as [Hcb Hc0].
    assert (Hx0 : ld8 m (cmd + ctr) = x) by (by apply chars_at_cons in Hc as [Ec _]).
    cbn [parse_loop]. rewrite Hx0. assert (Hxn : x <> 0) by (intros ->; discriminate Hx).
    rewrite (proj2 (Z.eqb_neq _ _)) by done. rewrite Hx.
    set (m1 := store_arg m args num (u64 v)).
    assert (Hc1 : chars_at m1 (cmd + ctr) ((x :: b) ++ (c :: w) ++ flat_map (fun bw => bw.1 ++ bw.2) ws ++ [0])).
    { apply (chars_at_same m); [done|]. intros a Ha. rewrite !length_app in Ha. cbn [length] in Ha.
      apply (store_arg_apart m cmd len); unfold apart in Hap; lia. }
    rewrite (skip_blanks_run (S fuel) m1 cmd ctr (x :: b) c (w ++ flat_map (fun bw => bw.1 ++ bw.2) ws ++ [0]));
      [|exact Hc1|done|done|cbn [length]; lia].
    apply chars_at_app in Hc1 as [_ Hc1]. rewrite <- Z.add_assoc in Hc1. set (ctr1 := ctr + Z.of_nat (length (x :: b))) in *.
    cbn [app] in Hc1. apply chars_at_cons in Hc1 as [Ec Hc1].
    rewrite Ec, s8_digit by done. change (u64 (0 * 10)) with 0. rewrite Z.add_0_l.
    assert (Ef : exists f, fuel = (length w + f)%nat /\ (length (flat_map (fun bw => bw.1 ++ bw.2) ws) < f)%nat).
    { exists (fuel - length w)%nat. cbn [length] in Hf. lia. }
    destruct Ef as (f & -> & Hff).
    rewrite (parse_word f m1 cmd args (ctr1 + 1) (num + 1) (c - 48) w (flat_map (fun bw => bw.1 ++ bw.2) ws ++ [0]));
      [|by replace (cmd + (ctr1 + 1)) with (cmd + ctr1 + 1) by lia|done].
    rewrite (IH f m1 cmd args (ctr1 + 1 + Z.of_nat (length w)) (num + 1) _ len); [| done | | | | | | done].
    + cbn [map snd store_args]. do 4 f_equal.
    + apply chars_at_app in Hc1 as [_ Hc1]. by replace (cmd + (ctr1 + 1 + Z.of_nat (length w))) with (cmd + ctr1 + 1 + Z.of_nat (length w)) by lia.
    + unfold ctr1. cbn [length]. lia.
    + unfold ctr1. rewrite length_app. cbn [length]. lia.
    + lia.
    + unfold apart in *. lia.
Qed.

Lemma parse_init_ok fuel m cmd args w ws :
  word_ok w -> words_ok ws -> chars_at m (cmd + 5) (words_text w ws ++ [0]) ->
  (length (words_text w ws) < fuel)%nat ->
  apart cmd (5 + Z.of_nat (length (words_text w ws)) + 1) args (Z.of_nat (length ws) + 1) ->
  parse_init fuel m cmd args = Some (store_args m args 0 (word_value w :: map (fun bw => word_value bw.2) ws)).
Proof.
  intros [Hw Hwd] Hok Hc Hf Hap. unfold parse_init, words_text in *. rewrite <- app_assoc in Hc. rewrite length_app in Hf, Hap.
  assert (Ef : exists f, fuel = (length w + f)%nat /\ (length (flat_map (fun bw => bw.1 ++ bw.2) ws) < f)%nat) by (exists (fuel - length w)%nat; lia).
  destruct Ef as (f & -> & Hff). change 0 with (u64 0) at 2.
  rewrite (parse_word f m cmd args 5 0 0 w (flat_map (fun bw => bw.1 ++ bw.2) ws ++ [0]) Hc Hwd).
  apply (parse_words ws f m cmd args _ 0 _ (5 + Z.of_nat (length w + length (flat_map (fun bw => bw.1 ++ bw.2) ws)) + 1)); try done; try lia.
  - apply chars_at_app in Hc as [_ Hc]. by rewrite Z.add_assoc.
  - rewrite length_app. cbn [length]. lia.
Qed.

Lemma ld64_store_args m args num vs i v :
  Forall (fun v => 0 <= v < 2^64) vs -> vs !! i = Some v -> ld64 (store_args m args num vs) (args + 8 * (num + Z.of_nat i)) = v.
Proof.
  revert m num i. induction vs as [|x vs IH]; intros m num i Hr Hi; [done|]. apply Forall_cons in Hr as [Hx Hr]. cbn [store_args].
  destruct i as [|i].
  - injection Hi as ->. rewrite Z.add_0_r. rewrite (ld64_ext (store_arg m args num v)).
    + unfold store_arg. by rewrite ld64_st64_eq.
    + intros b Hb. clear IH Hx Hr. assert (Hn : num < num + 1) by lia. revert Hn. generalize (num + 1) as num'.
      generalize (store_arg m args num v). induction vs as [|y vs IH]; intros m' num' Hn; [done|]. cbn [store_args].
      rewrite IH by lia. apply (ld8_stn_out 8). lia.
  - cbn [lookup list_lookup] in Hi. rewrite <- (IH (store_arg m args num x) (num + 1) i Hr Hi). f_equal. lia.
Qed.

Lemma store_args_untouched m args num vs :
  untouched (fun a => args + 8 * num <= a < args + 8 * (num + Z.of_nat (length vs))) m (store_args m args num vs).
Proof.
  revert m num. induction vs as [|v vs IH]; intros m num; [done|]. cbn [store_args length].
  eapply untouched_trans; [apply untouched_stn; cbv beta; intros b Hb|eapply untouched_weaken; [|apply IH]; cbv beta; intros b Hb]; lia.
Qed.

(** C39: parse_init reads "init" followed by numbers: the number i goes, modulo
    2^64, to the i-th word of the arguments, whatever the blanks between
    them, and nothing else changes; a sixth number lands behind the
    five-word structure. *)
Theorem parse_init_stores fuel m cmd args w ws :
  word_ok w -> words_ok ws -> chars_at m (cmd + 5) (words_text w ws ++ [0]) ->
  (length (words_text w ws) < fuel)%nat ->
  apart cmd (5 + Z.of_nat (length (words_text w ws)) + 1) args (Z.of_nat (length ws) + 1) ->
  exists m', parse_init fuel m cmd args = Some m' /\
    (forall i x, (w :: (snd <$> ws)) !! i = Some x -> ld64 m' (args + 8 * Z.of_nat i) = u64 (read_dec x)) /\
    untouched (fun a => args <= a < args + 8 * (Z.of_nat (length ws) + 1)) m m'.
Proof.
  intros Hw Hws Hc Hf Ha. exists (store_args m args 0 (word_value w :: map (fun bw => word_value bw.2) ws)).
  split; [by apply parse_init_ok|]. split.
  - intros i x Hx. change (word_value w :: map (fun bw => word_value bw.2) ws) with (map (fun bw : list Z * list Z => word_value bw.2) (([], w) :: ws)).
    rewrite <- (Z.add_0_l (Z.of_nat i)). apply ld64_store_args.
    + apply List.Forall_map, List.Forall_forall. intros bw _. apply Z.mod_pos_bound. lia.
    + change (w :: (snd <$> ws)) with (snd <$> (([], w) :: ws)) in Hx. rewrite list_lookup_fmap in Hx.
      change (map ?f ?l) with (f <$> l). rewrite list_lookup_fmap.
      destruct ((([], w) :: ws) !! i) as [bw|]; [|done]. cbn in Hx |- *. by injection Hx as <-.
  - replace (Z.of_nat (length ws) + 1) with (0 + Z.of_nat (length (word_value w :: map (fun bw => word_value bw.2) ws)))
      by (cbn [length]; rewrite length_map; lia).
    eapply untouched_weaken; [|apply store_args_untouched]. cbv beta. lia.
Qed.

(** "init 7 	42" *)
Definition init_command : mem := store_bytes ∅ 0x6000 (codes "init 7" ++ [32; 9] ++ codes "42" ++ [0]).

Lemma store_bytes_chars m a cs : Forall (fun c => 0 <= c < 256) cs -> chars_at (store_bytes m a cs) a cs.
Proof.
  intros H. revert m a. induction H as [|c cs Hc _ IH]; intros m a i x Hi; [done|]. cbn [store_bytes]. destruct i as [|i].
  - injection Hi as ->. rewrite Z.add_0_r, store_bytes_untouched by lia. rewrite ld8_st8, Z.eqb_refl. apply Z.mod_small. lia.
  - rewrite <- (IH (st8 m a c) (a + 1) i x Hi). f_equal. lia.
Qed.

Lemma chars_at_drop m a cs n : chars_at m a cs -> (n <= length cs)%nat -> chars_at m (a + Z.of_nat n) (drop n cs).
Proof.
  intros H Hn i c Hi. rewrite lookup_drop in Hi. rewrite <- (H _ _ Hi). f_equal. lia.
Qed.

Lemma parse_init_stores_witness : exists m',
  parse_init 100 init_command 0x6000 0x7000 = Some m' /\ ld64 m' 0x7000 = 7 /\ ld64 m' 0x7008 = 42.
Proof.
  destruct (parse_init_stores 100 init_command 0x6000 0x7000 [55] [([32; 9], [52; 50])]) as (m' & E & H & _).
  - split; [discriminate|]. repeat constructor; unfold is_digit; discriminate.
  - repeat constructor; unfold is_digit; discriminate.
  - apply (chars_at_drop init_command 0x6000 (codes "init 7" ++ [32; 9] ++ codes "42" ++ [0]) 5); [|cbn; lia].
    apply store_bytes_chars. by apply Forall_between.
  - cbn. lia.
  - left. discriminate.
  - exists m'. split; [exact E|]. split; [exact (H 0%nat [55] eq_refl)|exact (H 1%nat [52; 50] eq_refl)].
Defined.
