(* ===== verification/Fork.v ===== *)
(** * What fork does to memory

    The segment loops of [copy_mm] (context.c) as a list of page jobs, and the
    theorem that the child sees the parent's memory: shared frames for code
    and read-only data, private copies with the same contents for data and
    stack, the parent's own space untouched. *)
From S2P Require Import Prelude Mem Lib Machine Memory PageAlloc Frames PageTable PageMap Printf Kernel Apic Idt Context.
Local Open Scope gemos_scope.

(** ** The loops as jobs *)

(** A page to hand to the child: copied or shared, its segment, its address. *)
Record job := Job { job_copy : bool; job_seg : mm_segment; job_va : Z }.

(** The addresses that a loop visits. *)
Fixpoint pages_up (n : nat) (vaddr stop : Z) : list Z :=
  match n with
  | O => []
  | S n => if vaddr <? stop then vaddr :: pages_up n (vaddr + PAGE_SIZE) stop else []
  end.

Fixpoint pages_down (n : nat) (vaddr stop : Z) : list Z :=
  match n with
  | O => []
  | S n => if vaddr >=? stop then vaddr :: pages_down n (u64 (vaddr - PAGE_SIZE)) stop else []
  end.

(** The jobs of [copy_mm], in its order. *)
Definition fork_jobs (code rodata data stack : mm_segment) : list job :=
  map (Job false code) (pages_up (page_steps (seg_start code) (seg_next_free code)) (seg_start code) (seg_next_free code)) ++
  map (Job false rodata) (pages_up (page_steps (seg_start rodata) (seg_next_free rodata)) (seg_start rodata) (seg_next_free rodata)) ++
  map (Job true data) (pages_up (page_steps (seg_start data) (seg_next_free data)) (seg_start data) (seg_next_free data)) ++
  map (Job true stack) (pages_down (page_steps (seg_next_free stack) (seg_end stack)) (seg_end stack - PAGE_SIZE) (seg_next_free stack)).

(** *** The pages of the loops are distinct *)

Lemma pages_up_in n lo stop va :
  va ∈ pages_up n lo stop -> lo <= va < stop /\ va mod 4096 = lo mod 4096.
Proof.
  revert lo. induction n as [|n IH]; intros lo; cbn [pages_up]; [set_solver|].
  destruct (Z.ltb_spec lo stop); [|set_solver]. intros [->|Hin]%elem_of_cons; [split; [lia|done]|].
  apply IH in Hin. unfold PAGE_SIZE in Hin. destruct Hin as [? ->]. split; [lia|]. clear. zdm.
Qed.

Lemma pages_up_nodup n lo stop :
  0 <= lo -> stop <= 2^47 -> NoDup (map (prefix 4) (pages_up n lo stop)).
Proof.
  intros Hlo Hst. revert lo Hlo. induction n as [|n IH]; intros lo Hlo; cbn [pages_up map]; [constructor|].
  destruct (Z.ltb_spec lo stop); [|constructor]. cbn [map]. constructor; [|by apply IH; unfold PAGE_SIZE; lia].
  intros (va & E & Hin)%list_elem_of_fmap. apply pages_up_in in Hin as [Hr _]. unfold PAGE_SIZE in Hr.
  rewrite !prefix4 in E by lia. clear -E Hr. zdm.
Qed.

Lemma pages_down_in n hi stop va :
  4096 <= stop -> hi < 2^47 ->
  va ∈ pages_down n hi stop -> stop <= va <= hi /\ va mod 4096 = hi mod 4096.
Proof.
  intros Hst. revert hi. induction n as [|n IH]; intros hi Hhi; cbn [pages_down]; [set_solver|].
  rewrite Z.geb_leb. destruct (Z.leb_spec stop hi); [|set_solver]. unfold PAGE_SIZE. rewrite u64_small by lia.
  intros [->|Hin]%elem_of_cons; [split; [lia|done]|].
  apply IH in Hin as [? ->]; [|lia]. split; [lia|]. clear. zdm.
Qed.

Lemma pages_down_nodup n hi stop :
  4096 <= stop -> hi < 2^47 -> NoDup (map (prefix 4) (pages_down n hi stop)).
Proof.
  intros Hst. revert hi. induction n as [|n IH]; intros hi Hhi; cbn [pages_down map]; [constructor|].
  rewrite Z.geb_leb. destruct (Z.leb_spec stop hi); [|constructor]. unfold PAGE_SIZE. rewrite u64_small by lia.
  cbn [map]. constructor; [|apply IH; lia].
  intros (va & E & Hin)%list_elem_of_fmap. apply pages_down_in in Hin as [Hr _]; [|lia..].
  rewrite !prefix4 in E by lia. clear -E Hr. zdm.
Qed.

(** Segments in ascending order, on page boundaries. *)
Record fork_layout (code rodata data stack : mm_segment) : Prop := {
  fl_code : 4096 <= seg_start code /\ seg_start code <= seg_next_free code /\ seg_start code mod 4096 = 0;
  fl_rodata : seg_next_free code <= seg_start rodata /\ seg_start rodata <= seg_next_free rodata /\ seg_start rodata mod 4096 = 0;
  fl_data : seg_next_free rodata <= seg_start data /\ seg_start data <= seg_next_free data /\ seg_start data mod 4096 = 0;
  fl_stack : seg_next_free data <= seg_next_free stack /\ seg_end stack <= 2^47 /\ seg_next_free stack <= seg_end stack /\
             seg_end stack mod 4096 = 0 /\ seg_next_free stack mod 4096 = 0
}.

Definition job_page (j : job) : Z := prefix 4 (job_va j).

Lemma map_job_page c seg l : map job_page (map (Job c seg) l) = map (prefix 4) l.
Proof. by rewrite map_map. Qed.

(** The pages below [hi] and those from [lo] on are different. *)
Lemma pages_apart (A B : list Z) mid :
  (forall va, va ∈ A -> 0 <= va < mid /\ va mod 4096 = 0) -> (forall va, va ∈ B -> mid <= va < 2^47 /\ va mod 4096 = 0) ->
  forall p, p ∈ map (prefix 4) A -> p ∉ map (prefix 4) B.
Proof.
  intros HA HB p (va & -> & Hva)%list_elem_of_fmap (wa & E & Hwa)%list_elem_of_fmap.
  apply HA in Hva as [Hv Mv]. apply HB in Hwa as [Hw Mw]. rewrite !prefix4 in E by lia.
  clear -E Hv Hw Mv Mw. zdm.
Qed.

Lemma fork_jobs_nodup code rodata data stack :
  fork_layout code rodata data stack -> NoDup (map job_page (fork_jobs code rodata data stack)).
Proof.
  intros [(C1 & C2 & C3) (R1 & R2 & R3) (D1 & D2 & D3) (S1 & S2 & S3 & S4 & S5)].
  unfold fork_jobs. rewrite !map_app, !map_job_page.
  set (A := pages_up _ (seg_start code) _). set (B := pages_up _ (seg_start rodata) _).
  set (D := pages_up _ (seg_start data) _). set (E := pages_down _ _ _).
  assert (HA : forall va, va ∈ A -> seg_start code <= va < seg_next_free code /\ va mod 4096 = 0)
    by (intros va Hin; apply pages_up_in in Hin as [? ->]; done).
  assert (HB : forall va, va ∈ B -> seg_start rodata <= va < seg_next_free rodata /\ va mod 4096 = 0)
    by (intros va Hin; apply pages_up_in in Hin as [? ->]; done).
  assert (HD : forall va, va ∈ D -> seg_start data <= va < seg_next_free data /\ va mod 4096 = 0)
    by (intros va Hin; apply pages_up_in in Hin as [? ->]; done).
  assert (HE : forall va, va ∈ E -> seg_next_free stack <= va <= seg_end stack - 4096 /\ va mod 4096 = 0).
  { intros va Hin. apply pages_down_in in Hin as [Hr ->]; unfold PAGE_SIZE in *; [|lia..]. split; [lia|]. clear -S4. zdm. }
  assert (NA : NoDup (map (prefix 4) A)) by (apply pages_up_nodup; lia).
  assert (NB : NoDup (map (prefix 4) B)) by (apply pages_up_nodup; lia).
  assert (ND : NoDup (map (prefix 4) D)) by (apply pages_up_nodup; lia).
  assert (NE : NoDup (map (prefix 4) E)) by (apply pages_down_nodup; unfold PAGE_SIZE; lia).
  clearbody A B D E. rewrite <- !map_app.
  assert (HDE : forall va, va ∈ D ++ E -> seg_start data <= va < 2^47 /\ va mod 4096 = 0)
    by (intros va [[]%HD|[]%HE]%elem_of_app; (split; [lia|done])).
  assert (HBDE : forall va, va ∈ B ++ D ++ E -> seg_start rodata <= va < 2^47 /\ va mod 4096 = 0)
    by (intros va [[]%HB|[]%HDE]%elem_of_app; (split; [lia|done])).
  rewrite map_app. apply NoDup_app. split; [done|]. split.
  { apply (pages_apart A (B ++ D ++ E) (seg_start rodata)); [|done]. intros va []%HA. split; [lia|done]. }
  rewrite map_app. apply NoDup_app. split; [done|]. split.
  { apply (pages_apart B (D ++ E) (seg_start data)); [|done]. intros va []%HB. split; [lia|done]. }
  rewrite map_app. apply NoDup_app. split; [done|]. split; [|done].
  apply (pages_apart D E (seg_next_free stack)); [intros va []%HD | intros va []%HE]; (split; [lia|done]).
Qed.

Section fork.
Context {S : Type} `{FL : FrameLaws S}.
Implicit Types s : S.
Abbreviation own_pt s := (fl_owned s OS_PT_REG).

Definition share_page (os_addr ppgd : Z) (seg : mm_segment) (vaddr : Z) (s : S) : S :=
  let parent_pte := get_user_pte (fs_ram s) ppgd vaddr in
  if parent_pte =? 0 then s
  else (install_ptable os_addr seg vaddr (u32 ((ld64 (fs_ram s) parent_pte .& FLAG_MASK) >> PAGE_SHIFT)) s).2.

Definition do_job (os_addr ppgd : Z) (j : job) (s : S) : S :=
  if job_copy j then copy_page os_addr ppgd (job_seg j) (job_va j) s
  else share_page os_addr ppgd (job_seg j) (job_va j) s.

Definition do_jobs (os_addr ppgd : Z) (js : list job) (s : S) : S :=
  fold_left (fun s j => do_job os_addr ppgd j s) js s.

Lemma share_loop_jobs n os_addr ppgd seg va s :
  share_loop n os_addr ppgd seg va s = do_jobs os_addr ppgd (map (Job false seg) (pages_up n va (seg_next_free seg))) s.
Proof.
  revert va s. induction n as [|n IH]; intros va s; [done|]. cbn [share_loop pages_up].
  destruct (va <? seg_next_free seg); [|done]. apply IH.
Qed.

Lemma copy_up_loop_jobs n os_addr ppgd seg va s :
  copy_up_loop n os_addr ppgd seg va s = do_jobs os_addr ppgd (map (Job true seg) (pages_up n va (seg_next_free seg))) s.
Proof.
  revert va s. induction n as [|n IH]; intros va s; [done|]. cbn [copy_up_loop pages_up].
  destruct (va <? seg_next_free seg); [|done]. apply IH.
Qed.

Lemma copy_down_loop_jobs n os_addr ppgd seg va s :
  copy_down_loop n os_addr ppgd seg va s = do_jobs os_addr ppgd (map (Job true seg) (pages_down n va (seg_next_free seg))) s.
Proof.
  revert va s. induction n as [|n IH]; intros va s; [done|]. cbn [copy_down_loop pages_down].
  destruct (va >=? seg_next_free seg); [|done]. apply IH.
Qed.

Lemma copy_segments_jobs os_addr ppgd code rodata data stack s :
  copy_segments os_addr ppgd code rodata data stack s = do_jobs os_addr ppgd (fork_jobs code rodata data stack) s.
Proof.
  unfold copy_segments, fork_jobs, do_jobs. rewrite !fold_left_app.
  by rewrite share_loop_jobs, share_loop_jobs, copy_up_loop_jobs, copy_down_loop_jobs.
Qed.

(** ** One page *)

(** The effect of a job for the page of [va]: the child's mapping becomes [e]. *)
Record page_step s s' (P C va : Z) (e : option Z) : Prop := {
  ps_parent : pt_ok s' P;
  ps_child : pt_ok s' C;
  ps_disjoint : disjoint_spaces (fs_ram s') P C;
  ps_clear wa : path_clear (fs_ram s) C wa -> path_clear (fs_ram s') C wa;
  ps_map_parent wa : mapping (fs_ram s') P wa = mapping (fs_ram s) P wa;
  ps_map_child wa : mapping (fs_ram s') C wa =
    if decide (prefix 4 wa = prefix 4 va) then e else mapping (fs_ram s) C wa;
  ps_owned r q : fl_owned s r q -> fl_owned s' r q;
  ps_keep q a : fl_owned s USER_REG q -> in_frame q a -> ld8 (fs_ram s') a = ld8 (fs_ram s) a;
  ps_avail_pt : (fl_avail s OS_PT_REG <= 3 + fl_avail s' OS_PT_REG)%nat;
  ps_avail_user : (fl_avail s USER_REG <= 1 + fl_avail s' USER_REG)%nat
}.

(** A private copy of frame [p]. *)
Definition copied s s' (p q : Z) : Prop :=
  ~ fl_owned s USER_REG q /\ fl_owned s' USER_REG q /\
  forall o, 0 <= o < 4096 -> ld8 (fs_ram s') (4096 * q + o) = ld8 (fs_ram s) (4096 * p + o).

(** The spaces of parent and child, before a job. *)
Definition fork_pre s (P C : Z) : Prop :=
  pt_ok s P /\ pt_ok s C /\ disjoint_spaces (fs_ram s) P C /\ (forall wa, path_clear (fs_ram s) C wa).

Lemma disjoint_sym m A B : disjoint_spaces m A B -> disjoint_spaces m B A.
Proof. intros Hd q HB HA. by apply (Hd q). Qed.

(** [install_ptable] on the child is a step. *)
Lemma map_post_step s s' P C va e new :
  fork_pre s P C -> map_post 3 s s' C va e new -> page_step s s' P C va e.
Proof.
  intros (HP & HC & Hd & Hc) M.
  destruct (map_post_other _ _ _ _ P _ _ _ M HC HP (disjoint_sym _ _ _ Hd)) as (HP' & Hd' & Hst).
  split.
  - done.
  - apply M.
  - by apply disjoint_sym.
  - intros wa. apply (mp_clear _ _ _ _ _ _ _ M).
  - intros wa. apply Hst.
  - apply M.
  - apply M.
  - intros q a Hq Ha. by apply (mp_frame _ _ _ _ _ _ _ M USER_REG q).
  - apply M.
  - rewrite (mp_avail_user _ _ _ _ _ _ _ M). by case_match; lia.
Qed.

Lemma page_step_refl s P C va :
  fork_pre s P C -> mapping (fs_ram s) C va = None -> page_step s s P C va None.
Proof.
  intros (HP & HC & Hd & Hc) Hm. split; try done; try lia.
  intros wa. case_decide as E; [|done]. rewrite <- Hm. apply mapping_prefix. done.
Qed.

(** The state seen through one owned frame written by [memcpy]. *)
Lemma page_step_copy s s1 P C va e q m' :
  page_step s s1 P C va e -> fl_owned s1 USER_REG q -> ~ fl_owned s USER_REG q ->
  untouched (in_frame q) (fs_ram s1) m' -> page_step s (fs_set_ram m' s1) P C va e.
Proof.
  intros [[HiP HwP] [HiC HwC] Hd Hc HmP HmC Ho Hk Hp Hu] Hq Hnq Hun.
  destruct (fl_store s1 USER_REG q m' HiP Hq Hun) as (Hi' & Ho' & Ha').
  assert (Hs : forall f a, own_pt s1 f -> in_frame f a -> ld8 m' a = ld8 (fs_ram s1) a).
  { intros f a Hf Ha. apply Hun. intros Hin. rewrite (frames_distinct f q a Ha Hin) in Hf.
    discriminate (fl_region s1 USER_REG OS_PT_REG q HiP Hq Hf). }
  pose proof (same_tree_intro _ _ _ _ HwP Hs) as StP. pose proof (same_tree_intro _ _ _ _ HwC Hs) as StC.
  assert (Hpt : forall f, own_pt s1 f -> own_pt (fs_set_ram m' s1) f) by (intros f; apply Ho').
  split; rewrite ?fl_set_ram, ?Ha'; try done.
  - split; [done|]. rewrite fl_set_ram. by apply (pt_wf_same _ _ _ _ _ HwP).
  - split; [done|]. rewrite fl_set_ram. by apply (pt_wf_same _ _ _ _ _ HwC).
  - intros f HfP HfC. apply (st_table _ _ _ StP) in HfP. apply (st_table _ _ _ StC) in HfC. by apply (Hd f).
  - intros wa Hcl. apply (st_clear _ _ _ StC). by apply Hc.
  - intros wa. by rewrite (st_mapping _ _ _ StP).
  - intros wa. by rewrite (st_mapping _ _ _ StC).
  - intros r f Hf. by apply Ho', Ho.
  - intros f a Hf Ha. rewrite Hun; [by apply (Hk f)|]. intros Hin.
    apply Hnq. by rewrite <- (frames_distinct f q a Ha Hin).
Qed.

(** What a job needs of the parent's page. *)
Definition parent_page s (P va : Z) : Prop :=
  va <> 0 /\ forall e, mapping (fs_ram s) P va = Some e -> e < 2^44 /\ fl_owned s USER_REG (entry_pfn e).

Definition job_result s s' (P C : Z) (j : job) : Prop :=
  match mapping (fs_ram s) P (job_va j) with
  | None => mapping (fs_ram s') C (job_va j) = None
  | Some e =>
      if job_copy j then
        exists q, mapping (fs_ram s') C (job_va j) = Some (4096 * q + seg_flags (job_seg j)) /\
          copied s s' (entry_pfn e) q
      else mapping (fs_ram s') C (job_va j) = Some (4096 * entry_pfn e + seg_flags (job_seg j))
  end.

Lemma user_frame_range s q : fl_inv s -> fl_owned s USER_REG q -> 0 < q < 2^20.
Proof.
  intros Hi Ho. apply fl_range in Ho; [|done]. change (region_first USER_REG) with 25604 in Ho.
  change (region_pfn USER_REG + region_frames USER_REG) with 131072 in Ho. lia.
Qed.

Lemma entry_frame s va e P :
  pt_ok s P -> parent_page s P va -> mapping (fs_ram s) P va = Some e ->
  u32 ((e .& FLAG_MASK) >> PAGE_SHIFT) = entry_pfn e /\ e .& FLAG_MASK = 4096 * entry_pfn e /\ 0 < entry_pfn e < 2^20.
Proof.
  intros [Hi _] [_ Hpp] Em. destruct (Hpp e Em) as [He Ho]. pose proof (user_frame_range s _ Hi Ho) as Hr.
  assert (He0 : 0 <= e).
  { unfold mapping in Em. destruct (utable _ 3 P va); [|done]. destruct (not_user _); [done|]. injection Em as <-. apply ld64_range. }
  pose proof (flag_mask_pfn e ltac:(lia)) as Ef. rewrite Ef. split_and!; [|done|lia..].
  unfold PAGE_SHIFT. rewrite Z.shiftr_div_pow2 by lia. change (2^12) with 4096.
  rewrite Z.mul_comm, Z.div_mul by lia. apply u32_small. lia.
Qed.

Lemma do_job_step s P C j :
  fork_pre s P C -> parent_page s P (job_va j) -> mapping (fs_ram s) C (job_va j) = None ->
  (3 <= fl_avail s OS_PT_REG)%nat -> (0 < fl_avail s USER_REG)%nat ->
  let s' := do_job (4096 * C) P j s in
  (exists e, page_step s s' P C (job_va j) e) /\ job_result s s' P C j.
Proof.
  intros Hpre Hpp Hnone Hpt Hus s'. pose proof Hpre as (HP & HC & Hd & Hc).
  set (va := job_va j) in *. set (seg := job_seg j) in *.
  pose proof (get_user_pte_correct_ok s P va HP) as Hpte. unfold job_result. fold va seg.
  destruct (mapping (fs_ram s) P va) as [e|] eqn:Em.
  2:{ assert (E : s' = s).
      { unfold s', do_job, copy_page, share_page. fold va seg. rewrite Hpte. by destruct (job_copy j). }
      rewrite E. split; [|done]. exists None. by apply page_step_refl. }
  destruct Hpte as [Hne Hld]. destruct (entry_frame s va e P HP Hpp Em) as (Eu & Ef & Hr).
  unfold s', do_job. fold va seg. destruct (job_copy j).
  - unfold copy_page. destruct (Z.eqb_spec (get_user_pte (fs_ram s) P va) 0); [done|].
    pose proof (install_ptable_fresh s C seg va) as M. cbn zeta in M.
    assert (Eva : ptable_address seg va = va).
    { unfold ptable_address. destruct (Z.eqb_spec va 0) as [E0|]; [|done]. destruct Hpp as [Hva _]. done. }
    rewrite Eva in M. specialize (M HC (Hc va) Hpt Hus).
    destruct (install_ptable (4096 * C) seg va 0 s) as [q s1]. cbn [fst snd] in M.
    pose proof (map_post_step s s1 P C va _ _ Hpre M) as St.
    pose proof (mp_new _ _ _ _ _ _ _ M q eq_refl) as Hnq.
    assert (Hq : fl_owned s1 USER_REG q) by (apply (mp_user _ _ _ _ _ _ _ M); auto).
    pose proof (user_frame_range s1 q (proj1 (ps_parent _ _ _ _ _ _ St)) Hq) as Hqr.
    assert (Hld1 : ld64 (fs_ram s1) (get_user_pte (fs_ram s) P va) = e).
    { pose proof (get_user_pte_walk (fs_ram s) P va (wf_root _ _ _ (proj2 HP))) as Ew.
      destruct (mapping_leaf _ _ _ _ Em) as (f & Uf & El & Nf). rewrite Uf, El, Nf in Ew. rewrite Ew.
      destruct (map_post_other _ _ _ _ P _ _ _ M HC HP (disjoint_sym _ _ _ Hd)) as (_ & _ & Hst).
      rewrite (st_entry _ _ _ Hst 3 va f) by (done || lia). exact El. }
    rewrite Hld1, Ef, (osmap_eq q) by lia. set (m' := memcpy _ _ _ _).
    assert (Hneq : entry_pfn e <> q).
    { intros E. apply Hnq. rewrite <- E. by apply (proj2 Hpp). }
    assert (Hun : untouched (in_frame q) (fs_ram s1) m').
    { apply untouched_memcpy; unfold PAGE_SIZE; [lia|]. unfold in_frame. lia. }
    pose proof (page_step_copy s s1 P C va _ q m' St Hq Hnq Hun) as St'. split; [by eexists|].
    exists q. split; [|split; [done|split]].
    + rewrite (ps_map_child _ _ _ _ _ _ St'). by rewrite decide_True.
    + destruct (fl_store s1 USER_REG q m' (proj1 (ps_parent _ _ _ _ _ _ St)) Hq Hun) as (_ & Ho' & _). by apply Ho'.
    + intros o Ho. rewrite fl_set_ram. unfold m'. rewrite ld8_memcpy by (unfold PAGE_SIZE; lia).
      unfold PAGE_SIZE. destruct (Z.leb_spec (4096 * q) (4096 * q + o)); [|lia].
      destruct (Z.ltb_spec (4096 * q + o) (4096 * q + 4096)); [|lia]. cbn [andb].
      replace (4096 * entry_pfn e + (4096 * q + o - 4096 * q)) with (4096 * entry_pfn e + o) by lia.
      apply (ps_keep _ _ _ _ _ _ St (entry_pfn e)); [by apply (proj2 Hpp) | unfold in_frame; lia].
  - unfold share_page. destruct (Z.eqb_spec (get_user_pte (fs_ram s) P va) 0); [done|].
    rewrite Hld, Eu. pose proof (install_ptable_given s C seg va (entry_pfn e)) as M. cbn zeta in M.
    assert (Eva : ptable_address seg va = va).
    { unfold ptable_address. destruct (Z.eqb_spec va 0) as [E0|]; [|done]. destruct Hpp as [Hva _]. done. }
    rewrite Eva in M. specialize (M HC (Hc va) Hpt ltac:(lia)). destruct M as [_ M].
    pose proof (map_post_step s _ P C va _ _ Hpre M) as St. split; [by eexists|].
    rewrite (ps_map_child _ _ _ _ _ _ St). by rewrite decide_True.
Qed.

(** ** All pages *)

(** The spaces after the jobs [js] have been done from [s0]. *)
Record forked s0 s (P C : Z) (js : list job) : Prop := {
  fk_parent : pt_ok s P;
  fk_child : pt_ok s C;
  fk_disjoint : disjoint_spaces (fs_ram s) P C;
  fk_clear wa : path_clear (fs_ram s) C wa;
  fk_map_parent wa : mapping (fs_ram s) P wa = mapping (fs_ram s0) P wa;
  fk_others wa : (forall j, j ∈ js -> prefix 4 wa <> prefix 4 (job_va j)) -> mapping (fs_ram s) C wa = None;
  fk_done j : j ∈ js -> job_result s0 s P C j;
  fk_owned r q : fl_owned s0 r q -> fl_owned s r q;
  fk_keep q a : fl_owned s0 USER_REG q -> in_frame q a -> ld8 (fs_ram s) a = ld8 (fs_ram s0) a;
  fk_avail_pt : (fl_avail s0 OS_PT_REG <= 3 * length js + fl_avail s OS_PT_REG)%nat;
  fk_avail_user : (fl_avail s0 USER_REG <= length js + fl_avail s USER_REG)%nat
}.

(** A finished job stays done when another page is handled. *)
Lemma job_result_keep s0 s s' P C j va e :
  job_result s0 s P C j -> page_step s s' P C va e -> prefix 4 (job_va j) <> prefix 4 va ->
  job_result s0 s' P C j.
Proof.
  intros Hj St Hne. unfold job_result in *.
  assert (Em : mapping (fs_ram s') C (job_va j) = mapping (fs_ram s) C (job_va j))
    by (rewrite (ps_map_child _ _ _ _ _ _ St); by rewrite decide_False).
  rewrite Em. destruct (mapping (fs_ram s0) P (job_va j)) as [e0|]; [|done].
  destruct (job_copy j); [|done]. destruct Hj as (q & Eq & Hn & Ho & Hb). exists q. split; [done|].
  split; [done|]. split; [by apply (ps_owned _ _ _ _ _ _ St)|]. intros o Hr.
  rewrite (ps_keep _ _ _ _ _ _ St q); [by apply Hb | done | unfold in_frame; lia].
Qed.

(** A job done from a later state with the parent's memory unchanged. *)
Lemma job_result_from s0 s s' P C j :
  (forall wa, mapping (fs_ram s) P wa = mapping (fs_ram s0) P wa) ->
  (forall q, fl_owned s0 USER_REG q -> fl_owned s USER_REG q) ->
  (forall q a, fl_owned s0 USER_REG q -> in_frame q a -> ld8 (fs_ram s) a = ld8 (fs_ram s0) a) ->
  parent_page s0 P (job_va j) -> job_result s s' P C j -> job_result s0 s' P C j.
Proof.
  intros Hm Ho Hk [_ Hpp] Hj. unfold job_result in *. rewrite Hm in Hj.
  destruct (mapping (fs_ram s0) P (job_va j)) as [e|]; [|done].
  destruct (job_copy j); [|done]. destruct Hj as (q & Eq & Hn & Ho' & Hb). exists q. split; [done|].
  split; [intros Hq; by apply Hn, Ho|]. split; [done|]. intros o Hr. rewrite Hb by done.
  apply (Hk (entry_pfn e)); [by apply Hpp | unfold in_frame; lia].
Qed.

Lemma do_jobs_forked s0 s P C js done :
  forked s0 s P C done -> fork_pre s0 P C ->
  (forall j, j ∈ done ++ js -> parent_page s0 P (job_va j)) ->
  NoDup (map (fun j => prefix 4 (job_va j)) (done ++ js)) ->
  (3 * length (done ++ js) <= fl_avail s0 OS_PT_REG)%nat -> (length (done ++ js) <= fl_avail s0 USER_REG)%nat ->
  forked s0 (do_jobs (4096 * C) P js s) P C (done ++ js).
Proof.
  revert s done. induction js as [|j js IH]; intros s done Hf Hpre Hpp Hnd Hpt Hus.
  - by rewrite app_nil_r.
  - replace (done ++ j :: js) with ((done ++ [j]) ++ js) in * by by rewrite <- app_assoc.
    assert (Hlen : (length done < length ((done ++ [j]) ++ js))%nat) by (rewrite !length_app; cbn; lia).
    pose proof (fk_avail_pt _ _ _ _ _ Hf). pose proof (fk_avail_user _ _ _ _ _ Hf).
    assert (Hppj : parent_page s0 P (job_va j)) by (apply Hpp; set_solver).
    assert (Hfresh : forall j', j' ∈ done -> prefix 4 (job_va j) <> prefix 4 (job_va j')).
    { intros j' Hj' E. rewrite !map_app, <- app_assoc in Hnd. apply NoDup_app in Hnd as (_ & Hnd & _).
      apply (Hnd (prefix 4 (job_va j'))).
      - apply list_elem_of_fmap. by exists j'.
      - rewrite <- E. cbn. left. }
    assert (Hstep : fork_pre s P C) by (split_and!; apply Hf).
    destruct (do_job_step s P C j Hstep) as [[e St] Hres].
    + destruct Hppj as [Hva Hm]. split; [done|]. intros e. rewrite (fk_map_parent _ _ _ _ _ Hf). intros E.
      destruct (Hm e E) as [He Ho]. split; [done|]. by apply (fk_owned _ _ _ _ _ Hf).
    + by apply (fk_others _ _ _ _ _ Hf).
    + lia.
    + lia.
    + change (do_jobs (4096 * C) P (j :: js) s) with (do_jobs (4096 * C) P js (do_job (4096 * C) P j s)).
      set (s1 := do_job (4096 * C) P j s) in *. apply IH; try done. split.
      * apply St.
      * apply St.
      * apply St.
      * intros wa. apply (ps_clear _ _ _ _ _ _ St). apply Hf.
      * intros wa. by rewrite (ps_map_parent _ _ _ _ _ _ St), (fk_map_parent _ _ _ _ _ Hf).
      * intros wa Hwa. rewrite (ps_map_child _ _ _ _ _ _ St), decide_False by (apply Hwa; set_solver).
        apply (fk_others _ _ _ _ _ Hf). intros j' Hj'. apply Hwa. set_solver.
      * intros j' Hj'. apply elem_of_app in Hj' as [Hj'|Hj'%list_elem_of_singleton].
        -- apply (job_result_keep s0 s s1 P C j' (job_va j) e); [by apply Hf | exact St|]. intros E. by apply (Hfresh j' Hj').
        -- subst j'. apply (job_result_from s0 s); [apply Hf | apply Hf | apply Hf | done | done].
      * intros r q Hq. by apply (ps_owned _ _ _ _ _ _ St), (fk_owned _ _ _ _ _ Hf).
      * intros q a Hq Ha. rewrite (ps_keep _ _ _ _ _ _ St q); [by apply (fk_keep _ _ _ _ _ Hf q) | by apply (fk_owned _ _ _ _ _ Hf) | done].
      * pose proof (ps_avail_pt _ _ _ _ _ _ St). rewrite length_app. cbn. lia.
      * pose proof (ps_avail_user _ _ _ _ _ _ St). rewrite length_app. cbn. lia.
Qed.

(** *** The theorem *)

Lemma copy_segments_forked s P C code rodata data stack :
  let jobs := fork_jobs code rodata data stack in
  fork_layout code rodata data stack -> fork_pre s P C ->
  (forall va, mapping (fs_ram s) C va = None) ->
  (forall va e, mapping (fs_ram s) P va = Some e -> e < 2^44 /\ fl_owned s USER_REG (entry_pfn e)) ->
  (3 * length jobs <= fl_avail s OS_PT_REG)%nat -> (length jobs <= fl_avail s USER_REG)%nat ->
  forked s (copy_segments (4096 * C) P code rodata data stack s) P C jobs.
Proof.
  intros jobs Hlay Hpre Hnone Hpar Hpt Hus. rewrite copy_segments_jobs. fold jobs.
  apply (do_jobs_forked s s P C jobs []); try done.
  - pose proof Hpre as (HP & HC & Hd & Hc). split; try done; try lia. set_solver.
  - intros j Hj. split; [|by apply Hpar]. cbn [app] in Hj. revert Hj. unfold jobs, fork_jobs.
    destruct Hlay as [(C1 & C2 & C3) (R1 & R2 & R3) (D1 & D2 & D3) (S1 & S2 & S3 & S4 & S5)].
    rewrite !elem_of_app. intros [Hj|[Hj|[Hj|Hj]]]; apply list_elem_of_fmap in Hj as (va & -> & Hva); cbn [job_va].
    1-3: apply pages_up_in in Hva; lia.
    apply pages_down_in in Hva; unfold PAGE_SIZE in *; lia.
  - by apply fork_jobs_nodup.
Qed.

(** The four ranges are apart, so that the stack below its mark is in none of
    the pages that are copied. *)
Lemma stack_below_mark_no_job code rodata data stack wa j :
  fork_layout code rodata data stack -> seg_next_free data + 4096 <= wa < seg_next_free stack ->
  j ∈ fork_jobs code rodata data stack -> prefix 4 wa <> prefix 4 (job_va j).
Proof.
  intros [(C1 & C2 & C3) (R1 & R2 & R3) (D1 & D2 & D3) (S1 & S2 & S3 & S4 & S5)] Hwa Hj.
  assert (Hv : 0 <= job_va j < 2^47 /\ (job_va j < seg_next_free data \/ seg_next_free stack <= job_va j)).
  { unfold fork_jobs in Hj. rewrite !elem_of_app in Hj.
    destruct Hj as [Hj|[Hj|[Hj|Hj]]]; apply list_elem_of_fmap in Hj as (va & -> & Hva); cbn [job_va].
    1-3: apply pages_up_in in Hva; lia.
    apply pages_down_in in Hva; unfold PAGE_SIZE in *; lia. }
  rewrite !prefix4 by lia. clear - Hv Hwa S5. zdm.
Qed.

(** C9: When fork copies a process, every mapped page of the parent's code and
    read-only data is mapped in the child to the same frame.  Every mapped
    page of its data, and of its stack from the stack's mark [next_free] to
    the end, gets a fresh frame with the same contents, writable iff the
    segment is.  No other address is mapped in the child; the stack below the
    mark, where a stack that has grown has its pages, is not copied.  The
    parent keeps all its mappings and their contents. *)
Theorem fork_copies_memory s P C code rodata data stack :
  let jobs := fork_jobs code rodata data stack in
  fork_layout code rodata data stack -> fork_pre s P C ->
  (forall va, mapping (fs_ram s) C va = None) ->
  (forall va e, mapping (fs_ram s) P va = Some e -> e < 2^44 /\ fl_owned s USER_REG (entry_pfn e)) ->
  (3 * length jobs <= fl_avail s OS_PT_REG)%nat -> (length jobs <= fl_avail s USER_REG)%nat ->
  let s' := copy_segments (4096 * C) P code rodata data stack s in
  forked s s' P C jobs /\
  (forall wa, seg_next_free data + 4096 <= wa < seg_next_free stack -> mapping (fs_ram s') C wa = None).
Proof.
  intros jobs Hlay Hpre Hnone Hpar Hpt Hus s'.
  assert (F : forked s s' P C jobs) by (by apply copy_segments_forked). split; [exact F|].
  intros wa Hwa. apply (fk_others _ _ _ _ _ F). intros j Hj. by apply (stack_below_mark_no_job code rodata data stack).
Qed.

(** A fresh page-table frame is an empty child. *)
Lemma new_child s P :
  pt_ok s P -> (0 < fl_avail s OS_PT_REG)%nat ->
  let C := (fs_alloc OS_PT_REG s).1 in let s' := (fs_alloc OS_PT_REG s).2 in
  fork_pre s' P C /\ (forall va, mapping (fs_ram s') C va = None) /\
  (forall va, mapping (fs_ram s') P va = mapping (fs_ram s) P va) /\
  (forall r q, fl_owned s r q -> fl_owned s' r q) /\
  fl_avail s OS_PT_REG = Datatypes.S (fl_avail s' OS_PT_REG) /\ fl_avail s USER_REG = fl_avail s' USER_REG.
Proof.
  intros [Hinv Hwf] Hav C s'.
  destruct (fl_alloc s OS_PT_REG Hinv Hav) as (Hinv' & Hn & Ho & Ho' & Hav' & Hz & Hfr).
  fold C s' in Hinv', Hn, Ho, Ho', Hav', Hz, Hfr.
  destruct (empty_space_tree s' C Hinv' Ho (Hz eq_refl)) as (HokC & HmC & HcC & HtC).
  assert (Hs : forall q a, own_pt s q -> in_frame q a -> ld8 (fs_ram s') a = ld8 (fs_ram s) a)
    by (intros q a; apply Hfr).
  pose proof (same_tree_intro _ _ _ _ Hwf Hs) as Hst.
  split; [split; [|split; [done|split; [|done]]]|split; [done|split; [|split; [|split]]]].
  - split; [done|]. apply (pt_wf_same _ _ _ _ _ Hwf); [|done]. intros q Hq. apply Ho'. by left.
  - intros q HqP HqC. apply HtC in HqC. subst q. apply (st_table _ _ _ Hst) in HqP.
    destruct HqP as (k & va & Hk & E). apply Hn. by apply (wf_own _ _ _ Hwf k va).
  - apply Hst.
  - intros r q Hq. apply Ho'. by left.
  - pose proof (Hav' OS_PT_REG) as E. by rewrite decide_True in E.
  - pose proof (Hav' USER_REG) as E. by rewrite decide_False in E.
Qed.
(** The result of the job of one copied page. *)
Lemma forked_page s s' P C jobs j q0 :
  forked s s' P C jobs -> j ∈ jobs -> job_copy j = true -> mapping (fs_ram s) P (job_va j) = Some (4096 * q0 + 7) ->
  exists q, mapping (fs_ram s') C (job_va j) = Some (4096 * q + seg_flags (job_seg j)) /\
    copied s s' (entry_pfn (4096 * q0 + 7)) q.
Proof.
  intros Hf Hj Hc D. pose proof (fk_done _ _ _ _ _ Hf j Hj) as R. unfold job_result in R. by rewrite Hc, D in R.
Qed.

End fork.

(** ** A concrete fork for the witness *)

(** The process of [one_page_space] and a fresh child. *)
Definition child_root : Z := (os_pfn_alloc OS_PT_REG one_page_space).1.
Definition fork_space : mm := (os_pfn_alloc OS_PT_REG one_page_space).2.

Lemma one_page_post : exists q, map_post 3 fresh_space one_page_space fresh_root 0x180001000 (Some (4096 * q + 7)) (Some q).
Proof.
  exact (install_page_table_post fresh_space fresh_root 0x180001000 6 fresh_space_ok (fresh_space_clear _)
    fresh_space_avail_pt fresh_space_avail_user).
Qed.

(** Everything the theorem needs of a space with one page, and of its child. *)
Lemma fork_start (s0 s1 : mm) (root q : Z) :
  (forall va, mapping (fs_ram s0) root va = None) -> (100 <= available s0 OS_PT_REG)%nat ->
  (100 <= available s0 USER_REG)%nat ->
  map_post 3 s0 s1 root 0x180001000 (Some (4096 * q + 7)) (Some q) ->
  let C := (os_pfn_alloc OS_PT_REG s1).1 in let s := (os_pfn_alloc OS_PT_REG s1).2 in
  fork_pre s root C /\ (forall va, mapping (fs_ram s) C va = None) /\
  (forall va e, mapping (fs_ram s) root va = Some e -> e < 2^44 /\ fl_owned s USER_REG (entry_pfn e)) /\
  mapping (fs_ram s) root 0x180001000 = Some (4096 * q + 7) /\
  (90 <= fl_avail s OS_PT_REG)%nat /\ (90 <= fl_avail s USER_REG)%nat.
Proof.
  intros Hm0 Hp Hu M C s. pose proof (mp_avail_pt _ _ _ _ _ _ _ M) as Ap. pose proof (mp_avail_user _ _ _ _ _ _ _ M) as Au.
  assert (Hp' : (100 <= fl_avail s0 OS_PT_REG)%nat) by exact Hp.
  assert (Hu' : (100 <= fl_avail s0 USER_REG)%nat) by exact Hu. clear Hp Hu.
  destruct (new_child s1 root (mp_ok _ _ _ _ _ _ _ M)) as (Hpre & HnC & HmP & Ho & Ep & Eu); [lia|].
  assert (Hq : fl_owned s1 USER_REG q) by (apply (mp_user _ _ _ _ _ _ _ M); auto).
  pose proof (user_frame_range s1 q (proj1 (mp_ok _ _ _ _ _ _ _ M)) Hq) as Hqr.
  destruct (entry_value q 7) as (_ & Eq & _); [lia..|].
  split; [exact Hpre|]. split; [exact HnC|]. split; [|split; [|split]].
  - intros va e. rewrite HmP, (mp_mapping _ _ _ _ _ _ _ M). case_decide; [|by rewrite Hm0].
    intros [= <-]. split; [lia|]. rewrite (Z.mul_comm 4096), Eq. by apply Ho.
  - rewrite HmP, (mp_mapping _ _ _ _ _ _ _ M). by rewrite decide_True.
  - assert (Ep' : fl_avail s1 OS_PT_REG = Datatypes.S (fl_avail s OS_PT_REG)) by exact Ep. lia.
  - assert (Eu' : fl_avail s1 USER_REG = fl_avail s USER_REG) by exact Eu.
    assert (Au' : fl_avail s0 USER_REG = (1 + fl_avail s1 USER_REG)%nat) by exact Au. lia.
Qed.

(** No code, no read-only data, two pages of data, an empty stack. *)
Definition w_code : mm_segment := MMSegment 0x100000000 0x13fffffff 0x100000000 5.
Definition w_rodata : mm_segment := MMSegment 0x140000000 0x17fffffff 0x140000000 1.
Definition w_data : mm_segment := MMSegment 0x180000000 0x7fefffffff 0x180002000 3.
Definition w_stack : mm_segment := MMSegment 0x7ff000000 0x800000000 0x800000000 3.

Lemma w_layout : fork_layout w_code w_rodata w_data w_stack.
Proof. split; repeat split; vm_compute; first [reflexivity | discriminate]. Qed.

Lemma fork_start_one_page :
  fork_pre fork_space fresh_root child_root /\ (forall va, mapping (fs_ram fork_space) child_root va = None) /\
  (forall va e, mapping (fs_ram fork_space) fresh_root va = Some e -> e < 2^44 /\ fl_owned fork_space USER_REG (entry_pfn e)) /\
  (exists q, mapping (fs_ram fork_space) fresh_root 0x180001000 = Some (4096 * q + 7)) /\
  (90 <= fl_avail fork_space OS_PT_REG)%nat /\ (90 <= fl_avail fork_space USER_REG)%nat.
Proof.
  destruct one_page_post as [q M].
  destruct (fork_start fresh_space one_page_space fresh_root q) as (A & B & C & D & E & F);
    [exact (proj1 (proj2 fresh_space_tree)) | exact (proj1 fresh_space_available) | exact (proj2 fresh_space_available) | exact M |].
  split; [exact A|]. split; [exact B|]. split; [exact C|]. split; [exists q; exact D|]. exact (conj E F).
Qed.

#[local] Opaque one_page_space fork_space child_root fresh_space fresh_root copy_segments.
(** The child of the one-page process has a page of data of its own. *)
Lemma fork_copies_memory_witness : exists q p,
  let s' := copy_segments (4096 * child_root) fresh_root w_code w_rodata w_data w_stack fork_space in
  mapping (fs_ram s') child_root 0x180001000 = Some (4096 * q + 7) /\ copied fork_space s' p q.
Proof.
  destruct fork_start_one_page as (A & B & C & [q0 D] & E & F).
  pose proof (fork_copies_memory fork_space fresh_root child_root w_code w_rodata w_data w_stack w_layout A B C) as H. cbv zeta in H.
  assert (El : length (fork_jobs w_code w_rodata w_data w_stack) = 2%nat) by reflexivity.
  rewrite El in H. specialize (H (Nat.le_trans _ _ _ (proj1 (Nat.leb_le 6 90) eq_refl) E) (Nat.le_trans _ _ _ (proj1 (Nat.leb_le 2 90) eq_refl) F)). destruct H as [H _].
  assert (Hj : Job true w_data 0x180001000 ∈ fork_jobs w_code w_rodata w_data w_stack).
  { apply list_elem_of_lookup. exists 1%nat. reflexivity. }
  destruct (forked_page _ _ _ _ _ _ q0 H Hj eq_refl D) as (q & E1 & E2).
  exists q, (entry_pfn (4096 * q0 + 7)). exact (conj E1 E2).
Defined.
