(* ===== verification/ExecInit.v ===== *)
(** * The address space of the first process

    [exec_init] (context.c) gives init eight pages of code, one of data and one
    of stack, the kernel's half, and the code itself; [init_space] says what
    the processor then finds. *)
From S2P Require Import Prelude Mem Lib Machine Memory PageAlloc NextFrames Frames PageTable PageMap Pages Kernel Apic Kmap Idt IdtSpec GdtSpec Context Space.
#[local] Open Scope gemos_scope.

(** ** The user's pages *)

(** The part of [exec_init_space] that maps them. *)
Definition init_pages (ctx : nat) (os_addr : Z) (k : kernel) : Z * kernel :=
  let '(textpfn, k) := install_ptable_multi os_addr (seg_start (mms (ctx_at k ctx) MM_SEG_CODE)) CODE_PAGES false k in
  let k := upd_ctx ctx (fun c => upd_mms MM_SEG_CODE
    (seg_set_next_free (seg_start (mms c MM_SEG_CODE) + (CODE_PAGES << PAGE_SHIFT))) c) k in
  let '(_, k) := install_ptable os_addr (mms (ctx_at k ctx) MM_SEG_DATA) 0 0 k in
  let k := upd_ctx ctx (fun c => upd_mms MM_SEG_DATA
    (seg_set_next_free (seg_start (mms c MM_SEG_DATA) + PAGE_SIZE)) c) k in
  let stack_start := seg_start (mms (ctx_at k ctx) MM_SEG_STACK) in
  let k := upd_ctx ctx (fun c => upd_mms MM_SEG_STACK
    (seg_set_start (seg_end (mms c MM_SEG_STACK) - PAGE_SIZE)) c) k in
  let '(_, k) := install_ptable os_addr (mms (ctx_at k ctx) MM_SEG_STACK) 0 0 k in
  let k := upd_ctx ctx (upd_mms MM_SEG_STACK (seg_set_start stack_start)) k in
  (textpfn, upd_ctx ctx (fun c => upd_mms MM_SEG_STACK
    (seg_set_next_free (seg_end (mms c MM_SEG_STACK) - PAGE_SIZE)) c) k).

Lemma exec_init_space_eq ctx k :
  exec_init_space ctx k =
    let k := kprintf "Setting up init process ...\n" [] k in
    let '(pfn, k) := fs_alloc OS_PT_REG k in
    let k := fs_set_ram (bzero (fs_ram k) (osmap pfn) PAGE_SIZE) (upd_ctx ctx (set_pgd pfn) k) in
    let '(textpfn, k) := init_pages ctx (osmap pfn) k in
    let k := (install_os_pts (pgd (ctx_at k ctx)) k).2 in
    let k := set_tss_stack_ptr (ctx_at k ctx) k in
    let k := set_stats (add_num_processes 1 (stats k)) k in
    let k := fs_set_ram (memcpy (fs_ram k) (u64 (textpfn << PAGE_SHIFT)) INIT_IMAGE (CODE_PAGES << PAGE_SHIFT)) k in
    let k := upd_ctx ctx (set_state RUNNING) (set_current (Some ctx) k) in
    kprintf "Page table setup done, launching init ...\n" [] k.
Proof.
  unfold exec_init_space, init_pages. cbv zeta. destruct (fs_alloc OS_PT_REG _) as [pfn k1].
  destruct (install_ptable_multi _ _ _ _ _) as [t k2]. destruct (install_ptable _ _ _ _ _) as [d k3].
  destruct (install_ptable _ _ _ _ _) as [s k4]. destruct (install_os_pts _ _) as [r k5]. cbv beta iota delta [snd].
  match goal with |- ?a = ?b => constr_eq a b end. reflexivity.
Qed.

(** The segments that [create_context] laid out, as far as they matter. *)
Record laid_out (c : exec_context) : Prop := {
  lo_code : seg_start (mms c MM_SEG_CODE) = CODE_START;
  lo_data : seg_start (mms c MM_SEG_DATA) = DATA_START;
  lo_data_flags : seg_flags (mms c MM_SEG_DATA) = 7;
  lo_stack : seg_end (mms c MM_SEG_STACK) = STACK_START;
  lo_stack_flags : seg_flags (mms c MM_SEG_STACK) = 7
}.

Lemma layout_laid_out c : laid_out (layout_segments c).
Proof. by split. Qed.

(** The context afterwards. *)
Definition init_segments (c : exec_context) : exec_context :=
  set_mms MM_SEG_STACK (seg_set_next_free (STACK_START - PAGE_SIZE) (mms c MM_SEG_STACK))
    (set_mms MM_SEG_DATA (seg_set_next_free (DATA_START + PAGE_SIZE) (mms c MM_SEG_DATA))
      (set_mms MM_SEG_CODE (seg_set_next_free (CODE_START + 0x8000) (mms c MM_SEG_CODE)) c)).

(** The pages: eight of code from frame [q0], one of data, one of stack. *)
Definition user_pages (q0 d t : Z) : list page :=
  consecutive 8 CODE_START q0 5 ++ [(DATA_START, 4096 * d + 7, d)] ++ [(STACK_START - PAGE_SIZE, 4096 * t + 7, t)].

Lemma init_pages_ok ctx root k q0 :
  pt_ok k root -> (forall va, path_clear (fs_ram k) root va) -> (ctx < length (ctx_list k))%nat -> laid_out (ctx_at k ctx) ->
  (9 <= fl_avail k OS_PT_REG)%nat -> (10 <= fl_avail k USER_REG)%nat ->
  take 8 (fl_next k USER_REG) = seqZ q0 8 ->
  let r := init_pages ctx (4096 * root) k in
  r.1 = q0 /\ ctx_only ctx (fun _ => init_segments (ctx_at k ctx)) k r.2 /\
  exists d t, maps 9 k r.2 root (user_pages q0 d t).
Proof.
  intros Hok Hc Hctx [L1 L2 L3 L4 L5] Hpt Hus Hnx. unfold init_pages.
  assert (M : let r := install_ptable_multi (4096 * root) CODE_START CODE_PAGES false k in
    r.1 = q0 /\ maps 3 k r.2 root (consecutive 8 CODE_START q0 5)).
  { apply (install_ptable_multi_ok k root CODE_START CODE_PAGES false q0 Hok (Hc _)); [lia| |done|done|exact Hnx].
    change (Z.to_nat CODE_PAGES) with 8%nat. lia. }
  rewrite L1. pose proof (frame_only_install_ptable_multi (4096 * root) CODE_START CODE_PAGES false k) as F1.
  destruct (install_ptable_multi _ _ _ _ k) as [t0 k1]. cbn [fst snd] in M, F1. destruct M as [-> M1].
  pose proof (ctx_only_upd ctx _ (fun c => upd_mms MM_SEG_CODE
    (seg_set_next_free (seg_start (mms c MM_SEG_CODE) + (CODE_PAGES << PAGE_SHIFT))) c) k k1 (ctx_only_frame _ _ _ _ _ (ctx_only_refl ctx k) F1)) as C1.
  set (k2 := upd_ctx ctx _ k1) in *. assert (E2 : k_mm k2 = k_mm k1) by reflexivity. clearbody k2.
  assert (D1 : ctx_at k2 ctx = upd_mms MM_SEG_CODE (seg_set_next_free (CODE_START + 0x8000)) (ctx_at k ctx)).
  { rewrite (ctx_only_at _ _ _ _ ctx C1 Hctx), decide_True by done. cbv beta. by rewrite L1. }
  apply (maps_mm 3 k k k1 k2 root _ eq_refl E2) in M1.
  pose proof (ms_avail_pt _ _ _ _ _ M1) as A1. pose proof (ms_avail_user _ _ _ _ _ M1) as U1. cbn [length consecutive] in U1.
  rewrite D1. change (mms (upd_mms MM_SEG_CODE ?f ?c) MM_SEG_DATA) with (mms c MM_SEG_DATA).
  destruct (segment_page_ok k2 root (mms (ctx_at k ctx) MM_SEG_DATA)) as [F2 M2].
  { apply M1. } { by apply (ms_clear _ _ _ _ _ M1). } { lia. } { lia. }
  rewrite L2, L3 in M2. destruct (install_ptable _ _ _ _ k2) as [d k3]. cbn [fst snd] in F2, M2.
  pose proof (ctx_only_upd ctx _ (fun c => upd_mms MM_SEG_DATA
    (seg_set_next_free (seg_start (mms c MM_SEG_DATA) + PAGE_SIZE)) c) k k3 (ctx_only_frame _ _ _ _ _ C1 F2)) as C2.
  set (k4 := upd_ctx ctx _ k3) in *. assert (E4 : k_mm k4 = k_mm k3) by reflexivity. clearbody k4.
  assert (D2 : mms (ctx_at k4 ctx) MM_SEG_STACK = mms (ctx_at k ctx) MM_SEG_STACK).
  { rewrite (ctx_only_at _ _ _ _ ctx C2 Hctx), decide_True by done. reflexivity. }
  rewrite D2.
  pose proof (ctx_only_upd ctx _ (fun c => upd_mms MM_SEG_STACK (seg_set_start (seg_end (mms c MM_SEG_STACK) - PAGE_SIZE)) c) k k4 C2) as C3.
  set (k5 := upd_ctx ctx _ k4) in *. assert (E5 : k_mm k5 = k_mm k4) by reflexivity. clearbody k5.
  assert (D3 : mms (ctx_at k5 ctx) MM_SEG_STACK = seg_set_start (STACK_START - PAGE_SIZE) (mms (ctx_at k ctx) MM_SEG_STACK)).
  { rewrite (ctx_only_at _ _ _ _ ctx C3 Hctx), decide_True by done. cbn. by rewrite <- L4. }
  apply (maps_mm 3 k2 k2 k3 k5 root _ eq_refl (eq_trans E5 E4)) in M2.
  pose proof (ms_avail_pt _ _ _ _ _ M2) as A2. pose proof (ms_avail_user _ _ _ _ _ M2) as U2. cbn [length] in U2.
  rewrite D3. set (seg := seg_set_start _ _). assert (Es : seg_start seg = STACK_START - PAGE_SIZE) by done.
  assert (Ef : seg_flags seg = 7) by exact L5. clearbody seg.
  destruct (segment_page_ok k5 root seg) as [F3 M3].
  { apply M2. } { by apply (ms_clear _ _ _ _ _ M2), (ms_clear _ _ _ _ _ M1). }
  { lia. } { lia. }
  rewrite Es, Ef in M3. destruct (install_ptable _ _ _ _ k5) as [t k6]. cbn [fst snd] in F3, M3.
  pose proof (ctx_only_frame _ _ _ _ _ C3 F3) as C4. clear C1 C2 C3.
  split; [done|]. split.
  - apply (ctx_only_value _ _ _ _ _ (ctx_only_upd ctx _ _ k _ (ctx_only_upd ctx _ _ k k6 C4))); [done|].
    clear -L1 L2 L4. destruct (ctx_at k ctx) as [? ? ? ? ? ? ? ? [] ? [] [] ? ? ? ? ? ? ?]. cbn in L1, L2, L4. subst. reflexivity.
  - exists d, t. unfold user_pages. apply (maps_trans 3 6 k k2); [done|]. apply (maps_trans 3 3 k2 k5); [done|].
    by apply (maps_mm 3 k5 k5 k6 _ root _ eq_refl).
Qed.

(** ** Before the kernel's half *)

(** What [exec_init] needs: a context that [create_context] made, enough free
    frames, of which the next eight are consecutive, the APIC between 1 and 4
    GB, and the TSS [setup_gdt_tss] left. *)
Record init_ready (ctx : nat) (k : kernel) (q0 t : Z) : Prop := {
  ir_inv : mm_inv (k_mm k);
  ir_ctx : (ctx < length (ctx_list k))%nat;
  ir_laid : laid_out (ctx_at k ctx);
  ir_stack : 0 <= os_stack_pfn (ctx_at k ctx) < 2^31;
  ir_pt : (12 <= fl_avail k OS_PT_REG)%nat;
  ir_user : (10 <= fl_avail k USER_REG)%nat;
  ir_next : take 8 (fl_next k USER_REG) = seqZ q0 8;
  ir_apic : 2^30 <= apic_base k < 2^32;
  ir_tss : tss_page k = 4096 * t /\ owned (k_mm k) OS_PT_REG t
}.

(** The user's part of the space of init. *)
Definition init_mapping (q0 d t wa : Z) : option Z :=
  if (CODE_START <=? wa) && (wa <? CODE_START + 0x8000) then Some (4096 * (q0 + (wa - CODE_START) / 4096) + 5)
  else if (DATA_START <=? wa) && (wa <? DATA_START + 4096) then Some (4096 * d + 7)
  else if (STACK_START - 4096 <=? wa) && (wa <? STACK_START) then Some (4096 * t + 7)
  else None.

Lemma user_pages_entry q0 d t wa : 0 <= wa < 2^48 -> page_entry (user_pages q0 d t) wa None = init_mapping q0 d t wa.
Proof.
  intros Hw. unfold user_pages, init_mapping, CODE_START, DATA_START, STACK_START, PAGE_SIZE.
  rewrite !page_entry_app, page_entry_consecutive by (done || lia). cbn [page_entry].
  change (Z.of_nat 8) with 8. rewrite !prefix4 by lia.
  repeat case_decide; zcase; cbn [andb]; done || zdm.
Qed.

Lemma prefix2 va : prefix 2 va = va / 2^30 mod 2^18.
Proof. reflexivity. Qed.

(** The pages share no second-level entry with the kernel. *)
Lemma user_pages_part q0 d t ap : 2^30 <= ap < 2^32 ->
  Forall (fun p => prefix 2 0 <> prefix 2 p.1.1) (user_pages q0 d t) /\ Forall (fun p => prefix 2 ap <> prefix 2 p.1.1) (user_pages q0 d t).
Proof.
  intros Ha. split; repeat (apply Forall_cons; split); try apply Forall_nil_2; cbn [fst]; rewrite !prefix2; unfold CODE_START, DATA_START, STACK_START, PAGE_SIZE; zdm.
Qed.

(** The space up to the kernel's half. *)
Record user_half (ctx : nat) (k k4 : kernel) (root q0 d t : Z) : Prop := {
  uh_ok : pt_ok k4 root;
  uh_ctx : ctx_only ctx (fun _ => init_segments (set_pgd root (ctx_at k ctx))) k k4;
  uh_slots : exists pud, kernel_slots k4 root pud;
  uh_mapping wa : 0 <= wa < 2^48 -> mapping (fs_ram k4) root wa = init_mapping q0 d t wa;
  uh_user q : owned (k_mm k4) USER_REG q <-> owned (k_mm k) USER_REG q \/ q ∈ seqZ q0 8 \/ q = d \/ q = t;
  uh_frames : take 10 (fl_next k USER_REG) = seqZ q0 8 ++ [d; t];
  uh_owned q : owned (k_mm k) OS_PT_REG q -> owned (k_mm k4) OS_PT_REG q /\ ~ is_table (fs_ram k4) root q;
  uh_avail : (2 <= fl_avail k4 OS_PT_REG)%nat;
  uh_low a : low_memory a -> ld8 (fs_ram k4) a = ld8 (fs_ram k) a
}.

Lemma user_half_ok ctx k q0 t :
  init_ready ctx k q0 t ->
  let r0 := fs_alloc OS_PT_REG (kprintf "Setting up init process ...\n" [] k) in
  let k2 := fs_set_ram (bzero (fs_ram r0.2) (osmap r0.1) PAGE_SIZE) (upd_ctx ctx (set_pgd r0.1) r0.2) in
  let r := init_pages ctx (osmap r0.1) k2 in
  r.1 = q0 /\ exists d s, user_half ctx k r.2 r0.1 q0 d s.
Proof.
  intros [Hi Hctx Hl Hst Hpt Hus Hnx Hap _] r0. set (k0 := kprintf _ _ k) in *.
  assert (Hi0 : mm_inv (k_mm k0) /\ (forall r q, owned (k_mm k0) r q <-> owned (k_mm k) r q) /\ forall r, fl_avail k0 r = fl_avail k r)
    by exact (Frames.fl_emit (S := kernel) _ k Hi).
  destruct Hi0 as (Hi0 & Ho0 & Ha0). assert (Hr0 : fs_ram k0 = fs_ram k) by reflexivity.
  assert (Hn0 : fl_next k0 USER_REG = fl_next k USER_REG) by apply (fl_next_emit (S := kernel)).
  assert (Hav0 : (0 < available (k_mm k0) OS_PT_REG)%nat).
  { change (available (k_mm k0) OS_PT_REG) with (fl_avail k0 OS_PT_REG). rewrite Ha0. lia. }
  destruct (new_space_ok k0 Hi0 Hav0) as [Eo N]. pose proof (frame_only_alloc OS_PT_REG k0) as F0. fold r0 in Eo, N, F0.
  intros k2. rewrite Eo in *. set (root := r0.1) in *.
  apply (new_space_mm _ _ k2) in N; [|unfold k2; rewrite Eo; reflexivity].
  assert (C2 : ctx_only ctx (set_pgd root) k k2).
  { apply (ctx_only_frame _ _ _ (upd_ctx ctx (set_pgd root) r0.2)); [|apply frame_only_store].
    apply (ctx_only_upd _ (fun c => c)). apply (ctx_only_frame _ _ _ k0); [|done].
    apply (ctx_only_frame _ _ _ k); [apply ctx_only_refl|apply frame_only_print]. }
  clearbody k2 root k0. clear r0 F0 Eo.
  assert (D2 : ctx_at k2 ctx = set_pgd root (ctx_at k ctx)) by (rewrite (ctx_only_at _ _ _ _ ctx C2 Hctx), decide_True by done; done).
  pose proof (nw_avail _ _ _ N) as Av. change (available (k_mm k0) OS_PT_REG) with (fl_avail k0 OS_PT_REG) in Av.
  rewrite Ha0 in Av. change (available (k_mm k2) OS_PT_REG) with (fl_avail k2 OS_PT_REG) in Av.
  assert (N2 : fl_next k2 USER_REG = fl_next k USER_REG) by (by rewrite (nw_next _ _ _ N)).
  assert (Au : fl_avail k2 USER_REG = fl_avail k USER_REG) by (by rewrite !fl_next_length, N2).
  destruct (init_pages_ok ctx root k2 q0) as (E & C4 & d & s & M).
  { apply N. } { apply N. } { rewrite C2. change (ctx_list (set_k_mm ?m ?x)) with (ctx_list x). by rewrite length_upd_ctx. } { rewrite D2. by destruct Hl. } { lia. } { lia. } { by rewrite N2. }
  destruct (init_pages ctx (4096 * root) k2) as [q k4]. cbn [fst snd] in *. split; [done|]. exists d, s. rewrite D2 in C4.
  assert (C : ctx_only ctx (fun _ => init_segments (set_pgd root (ctx_at k ctx))) k k4).
  { rewrite C4, C2. unfold ctx_only, upd_ctx, set_ctx_list, set_k_mm. cbn. by rewrite alter_twice_list. }
  assert (Eap : apic_base k4 = apic_base k) by (rewrite C; reflexivity).
  assert (Hpl : apic_placed k4) by (unfold apic_placed; lia).
  assert (Hpp : 2^30 <= apic_page k4 < 2^32) by (unfold apic_page; rewrite Eap; zdm).
  assert (Hm : forall wa, 0 <= wa < 2^48 -> mapping (fs_ram k4) root wa = init_mapping q0 d s wa).
  { intros wa Hw. by rewrite (ms_mapping _ _ _ _ _ M), (nw_empty _ _ _ N), user_pages_entry. }
  destruct (user_pages_part q0 d s (apic_page k4) Hpp) as [P0 Pa].
  assert (Hz : forall j wa, (1 <= j)%nat -> utable (fs_ram k2) j root wa = None).
  { intros j wa Hj. rewrite (empty_tables (fs_ram k2) root j wa (nw_zero _ _ _ N)). destruct j; [lia|done]. }
  pose proof (ms_avail_pt _ _ _ _ _ M) as Ap. pose proof (ms_next _ _ _ _ _ M) as Nx. rewrite N2 in Nx.
  assert (Ef : page_frame <$> user_pages q0 d s = seqZ q0 8 ++ [d; s]).
  { unfold user_pages. rewrite !fmap_app, consecutive_frames. reflexivity. }
  rewrite Ef in Nx. split.
  - apply M.
  - exact C.
  - apply (slots_ready k4 root CODE_START (4096 * q0 + 5)); [done| | |done].
    + split; [rewrite (ms_other _ _ _ _ _ M 2%nat 0), Hz by (done || lia); done| | |].
      * rewrite (ms_other _ _ _ _ _ M 2%nat), Hz by (done || lia). done.
      * apply (ms_clear _ _ _ _ _ M), N.
      * apply (ms_clear _ _ _ _ _ M), N.
    + rewrite Hm by (unfold CODE_START; lia). unfold init_mapping. change (CODE_START - CODE_START) with 0.
      cbn [Z.leb Z.ltb CODE_START]. rewrite Z.div_0_l, Z.add_0_r by lia. reflexivity.
  - exact Hm.
  - intros q'. rewrite (ms_user _ _ _ _ _ M q'), Ef. change (fl_owned k2 USER_REG q') with (owned (k_mm k2) USER_REG q').
    rewrite (nw_owned _ _ _ N), Ho0, elem_of_app, !elem_of_cons. assert (USER_REG <> OS_PT_REG) by done. set_solver.
  - rewrite Nx. rewrite take_app_le by (rewrite length_app, length_seqZ; cbn; lia).
    apply take_ge. rewrite length_app, length_seqZ. cbn. lia.
  - intros q' Hq. assert (Hq2 : owned (k_mm k2) OS_PT_REG q') by (apply (nw_owned _ _ _ N); left; by apply Ho0).
    split; [by apply (ms_owned _ _ _ _ _ M)|]. intros Ht. apply (ms_table _ _ _ _ _ M) in Ht; [|done].
    apply (nw_table _ _ _ N) in Ht. subst q'. apply (nw_new _ _ _ N). by apply Ho0.
  - lia.
  - intros a Ha. by rewrite (ms_low _ _ _ _ _ M), (nw_low _ _ _ N), Hr0.
Qed.

(** ** The kernel's half, and the stack for entries from user mode *)

Record os_half (k4 k6 : kernel) (root t stack : Z) : Prop := {
  oh_ok : pt_ok k6 root;
  oh_only : exists p, k6 = set_os_pmd_pfn p (set_k_mm (k_mm k6) k4);
  oh_mapping wa : mapping (fs_ram k6) root wa = mapping (fs_ram k4) root wa;
  oh_half : exists q1 q2, kernel_half k6 root (apic_page k4) q1 q2;
  oh_user q : owned (k_mm k6) USER_REG q <-> owned (k_mm k4) USER_REG q;
  oh_owned q : owned (k_mm k4) OS_PT_REG q -> owned (k_mm k6) OS_PT_REG q;
  oh_rsp0 : tss_rsp0 (fs_ram k6) (4096 * t) = 4096 * (stack + 1);
  oh_low a : low_memory a -> ld8 (fs_ram k6) a = ld8 (fs_ram k4) a
}.

Lemma set_tss_stack_ptr_store c k : set_tss_stack_ptr c k = fs_set_ram (fs_ram (set_tss_stack_ptr c k)) k.
Proof. destruct k as [[[] ? ? ?] ? ? ? ? ? ? ?]. reflexivity. Qed.

Lemma os_half_ok k4 root t c :
  pt_ok k4 root -> (exists pud, kernel_slots k4 root pud) -> (2 <= fl_avail k4 OS_PT_REG)%nat ->
  tss_page k4 = 4096 * t -> owned (k_mm k4) OS_PT_REG t -> ~ is_table (fs_ram k4) root t -> 0 <= os_stack_pfn c < 2^31 ->
  os_half k4 (set_tss_stack_ptr c (install_os_pts root k4).2) root t (os_stack_pfn c).
Proof.
  intros Hok [pud Hsl] Hav Ht Hot Hnt Hc.
  destruct (install_os_pts_ok k4 root pud Hok Hsl Hav) as (K & (q2 & Hh & Hn2 & _) & Ek & _ & Hn1).
  set (k5 := (install_os_pts root k4).2) in *. clearbody k5.
  assert (Ht5 : tss_page k5 = 4096 * t) by (by rewrite Ek).
  destruct (set_tss_stack_ptr_ok c k5 Hc) as (_ & Er & U). rewrite Ht5 in Er, U.
  assert (Uf : untouched (in_frame t) (fs_ram k5) (fs_ram (set_tss_stack_ptr c k5))).
  { eapply untouched_weaken; [|exact U]. unfold in_frame. lia. }
  rewrite set_tss_stack_ptr_store. set (m := fs_ram (set_tss_stack_ptr c k5)) in *. clearbody m.
  pose proof (ks_owned _ _ _ _ _ _ K OS_PT_REG t Hot) as Hot5.
  assert (Hnt5 : ~ is_table (fs_ram k5) root t) by (by rewrite (kstep_table _ _ _ _ _ _ t K)).
  pose proof (side_store k5 root t m (fun _ => True) (ks_ok _ _ _ _ _ _ K) Hot5 Hnt5 Uf) as K6.
  split.
  - apply K6.
  - exists (os_pmd_pfn k5). rewrite Ek at 1. reflexivity.
  - intros wa. by rewrite (ks_mapping _ _ _ _ _ _ K6), (ks_mapping _ _ _ _ _ _ K).
  - exists (os_pmd_pfn k5), q2. pose proof (kh_low _ _ _ _ _ Hh) as [Ho1 _]. pose proof (kh_high _ _ _ _ _ Hh) as [Ho2 _].
    apply (kernel_half_frames k5); [apply K|done| |by apply (ks_owned _ _ _ _ _ _ K6)..].
    intros q a Hq Ha. apply Uf. intros Ha'. assert (q = t) as -> by (by apply (frames_distinct q t a)).
    destruct Hq as [Hq|[-> | ->]]; contradiction.
  - intros q. by rewrite (ks_user _ _ _ _ _ _ K6 q), (ks_user _ _ _ _ _ _ K q).
  - intros q Hq. by apply (ks_owned _ _ _ _ _ _ K6), (ks_owned _ _ _ _ _ _ K).
  - exact Er.
  - intros a Ha. by rewrite (ks_low _ _ _ _ _ _ K6), (ks_low _ _ _ _ _ _ K).
Qed.

(** ** The whole *)

(** The context that runs. *)
Definition init_context (root : Z) (c : exec_context) : exec_context := set_state RUNNING (init_segments (set_pgd root c)).

(** What the processor finds when it enters init. *)
Record init_space (ctx : nat) (k k' : kernel) (root q0 d s : Z) : Prop := {
  in_ok : pt_ok k' root;
  in_mapping wa : 0 <= wa < 2^48 -> mapping (fs_ram k') root wa = init_mapping q0 d s wa;
  in_kernel : kernel_mapped k' root;
  in_code i : 0 <= i < 0x8000 -> ld8 (fs_ram k') (4096 * q0 + i) = ld8 (fs_ram k) (INIT_IMAGE + i);
  in_frames : take 10 (fl_next k USER_REG) = seqZ q0 8 ++ [d; s];
  in_owned q : owned (k_mm k') USER_REG q <-> owned (k_mm k) USER_REG q \/ q ∈ seqZ q0 8 \/ q = d \/ q = s;
  in_context j : ctx_at k' j = if decide (ctx = j) then init_context root (ctx_at k j) else ctx_at k j;
  in_current : current k' = Some ctx;
  in_stats : stats k' = add_num_processes 1 (stats k);
  in_rsp0 : tss_rsp0 (fs_ram k') (tss_page k') = 4096 * (os_stack_pfn (ctx_at k ctx) + 1);
  in_low a : low_memory a -> ld8 (fs_ram k') a = ld8 (fs_ram k) a
}.

Lemma exec_init_space_ok ctx k q0 t :
  init_ready ctx k q0 t ->
  exists root d s, init_space ctx k (exec_init_space ctx k) root q0 d s.
Proof.
  intros H. rewrite exec_init_space_eq. destruct (user_half_ok ctx k q0 t H) as (Eq & d & s & U).
  pose proof H as [Hi Hctx Hl Hst Hpt Hus Hnx Hap [Ht Hot]]. cbv zeta in *.
  destruct (fs_alloc OS_PT_REG (kprintf _ _ k)) as [root k1]. cbn [fst snd] in U, Eq.
  destruct (init_pages ctx (osmap root) _) as [q k4]. cbn [fst snd] in U, Eq. subst q. exists root, d, s.
  destruct U as [Hok C Hsl Hm Hu Hf Ho Hav Hlow].
  assert (D4 : ctx_at k4 ctx = init_segments (set_pgd root (ctx_at k ctx))) by (by rewrite (ctx_only_at _ _ _ _ ctx C Hctx), decide_True by done).
  assert (Epgd : pgd (ctx_at k4 ctx) = root) by (by rewrite D4). rewrite Epgd.
  assert (Ht4 : tss_page k4 = 4096 * t) by (by rewrite C). destruct (Ho t Hot) as [Hot4 Hnt4].
  assert (Ec : ctx_at (install_os_pts root k4).2 ctx = ctx_at k4 ctx).
  { destruct Hsl as [pud Hsl]. destruct (install_os_pts_ok k4 root pud Hok Hsl Hav) as (_ & _ & E & _). set (k5 := _.2) in *. clearbody k5. by rewrite E. }
  rewrite Ec. pose proof (os_half_ok k4 root t (ctx_at k4 ctx) Hok Hsl Hav Ht4 Hot4 Hnt4) as O.
  assert (Es : os_stack_pfn (ctx_at k4 ctx) = os_stack_pfn (ctx_at k ctx)) by (by rewrite D4).
  rewrite Es in O. specialize (O Hst). clear Ec Es Hnt4 Hav Hsl Epgd D4.
  set (k6 := set_tss_stack_ptr _ _) in *. clearbody k6.
  destruct O as [Hok6 [p E6] Hm6 (q1 & q2 & Hh) Hu6 Ho6 Hr6 Hl6].
  assert (Hq : forall i, 0 <= i < 8 -> owned (k_mm k6) USER_REG (q0 + i)).
  { intros i Hr. apply Hu6, Hu. right. left. apply elem_of_seqZ. lia. }
  destruct (fl_range k6 USER_REG _ (proj1 Hok6) (Hq 0 ltac:(lia))) as [Hlo Hhi].
  change (region_first USER_REG) with 25604 in Hlo. change (region_pfn USER_REG + region_frames USER_REG) with 131072 in Hhi.
  assert (Ea : u64 (q0 << PAGE_SHIFT) = 4096 * q0) by (unfold PAGE_SHIFT; rewrite shiftl_12, u64_small by lia; lia). rewrite Ea.
  change (CODE_PAGES << PAGE_SHIFT) with 0x8000. change (fs_ram (set_stats ?x k6)) with (fs_ram k6).
  assert (Hcopy : forall a, ld8 (memcpy (fs_ram k6) (4096 * q0) INIT_IMAGE 0x8000) a =
    if (4096 * q0 <=? a) && (a <? 4096 * q0 + 0x8000) then ld8 (fs_ram k6) (INIT_IMAGE + (a - 4096 * q0)) else ld8 (fs_ram k6) a)
    by (intros a; apply ld8_memcpy; unfold INIT_IMAGE; lia).
  assert (Um : untouched (fun a => exists q, owned (k_mm k6) USER_REG q /\ in_frame q a) (fs_ram k6) (memcpy (fs_ram k6) (4096 * q0) INIT_IMAGE 0x8000)).
  { apply untouched_memcpy; [lia|]. intros b Hb. exists (q0 + (b - 4096 * q0) / 4096). split; [apply Hq; zdm|unfold in_frame; zdm]. }
  set (m := memcpy _ _ _ _) in *. clearbody m.
  destruct (user_store k6 m root Hok6 Um) as (Hok7 & Hst7 & Ho7 & Hb7).
  set (k7 := fs_set_ram m k6) in *. assert (Hr7 : fs_ram k7 = m) by reflexivity.
  assert (Hh7 : kernel_half k7 root (apic_page k4) q1 q2).
  { apply (kernel_half_frames k6); [done|done| |apply Ho7, Hh|apply Ho7, Hh]. rewrite Hr7. intros q a Hor Ha. apply (Hb7 q a); [|done].
    destruct Hor as [(j & wa & Hj & E)|[-> | ->]]; [by apply (wf_own _ _ _ (proj2 Hok6) j wa)|apply Hh|apply Hh]. }
  set (k' := kprintf _ _ _). assert (E7 : k_mm k' = mm_emit (EPrintf "Page table setup done, launching init ...\n" []) (k_mm k7)) by reflexivity.
  destruct (pt_ok_emit _ k7 k' root E7 Hok7) as (Hok' & Hr' & Ho').
  apply (kernel_half_emit _ k7 k' root _ _ _ E7 Hok7) in Hh7.
  assert (E6c : forall j, ctx_at k6 j = ctx_at k4 j) by (intros j; by rewrite E6).
  assert (E6l : length (ctx_list k6) = length (ctx_list k)).
  { rewrite E6. change (ctx_list (set_os_pmd_pfn p (set_k_mm _ k4))) with (ctx_list k4). rewrite C. exact (length_upd_ctx ctx _ k). }
  assert (Eap : apic_page k' = apic_page k4) by (change (apic_page k') with (apic_page k6); by rewrite E6).
  split.
  - done.
  - intros wa Hw. by rewrite Hr', Hr7, (st_mapping _ _ _ Hst7), Hm6, Hm.
  - unfold kernel_mapped. rewrite Eap. by apply (kernel_half_walks k' root _ q1 q2 (proj1 Hok')).
  - intros i Hi'. rewrite Hr', Hr7, Hcopy. unfold INIT_IMAGE in *. zcase; cbn [andb]; [|lia..].
    replace (4096 * q0 + i - 4096 * q0) with i by lia. rewrite Hl6, Hlow by (unfold low_memory; lia). done.
  - done.
  - intros q. by rewrite (Ho' USER_REG q), (Ho7 USER_REG q), Hu6, Hu.
  - intros j. change (ctx_at k' j) with (ctx_at (upd_ctx ctx (set_state RUNNING) k6) j).
    rewrite ctx_at_upd by lia. rewrite E6c, (ctx_only_at _ _ _ _ j C Hctx). case_decide as Ej; [by rewrite <- Ej|done].
  - reflexivity.
  - change (stats k') with (add_num_processes 1 (stats k6)). rewrite E6. change (stats (set_os_pmd_pfn _ _)) with (stats k4). by rewrite C.
  - rewrite Hr', Hr7. change (tss_page k') with (tss_page k6).
    assert (E6t : tss_page k6 = 4096 * t) by (by rewrite E6).
    rewrite E6t, <- Hr6. apply tss_rsp0_same. intros a Ha. apply (Hb7 t); [by apply Ho6|unfold in_frame; lia].
  - intros a Ha. rewrite Hr', Hr7, Um; [by rewrite Hl6, Hlow|]. intros (q & Hqo & Hqa).
    apply (fl_high k6 USER_REG q a (proj1 Hok6) Hqo Hqa Ha).
Qed.

(** The arguments lie in low memory, which the space leaves as it was. *)
Lemma load_init_args_same m m' a :
  (forall b, a <= b < a + 40 -> ld8 m' b = ld8 m b) -> load_init_args m' a = load_init_args m a.
Proof. intros H. unfold load_init_args. f_equal; apply ldn_ext; intros b Hb; apply H; lia. Qed.

Lemma exec_init_eq ctx args k q0 root d s :
  init_space ctx k (exec_init_space ctx k) root q0 d s -> args + 40 <= 0x800000 ->
  exec_init ctx args k = Leave (EnterInit (user_entry (load_init_args (fs_ram k) args)))
    (fs_emit (ELoadCr3 (4096 * root)) (exec_init_space ctx k)).
Proof.
  intros P Ha. unfold exec_init. mrun. set (k' := exec_init_space ctx k) in *. clearbody k'.
  assert (E : pgd (ctx_at k' ctx) = root) by (rewrite (in_context _ _ _ _ _ _ _ P ctx), decide_True by done; reflexivity).
  rewrite E. destruct (in_ok _ _ _ _ _ _ _ P) as [_ Hwf]. pose proof (wf_root _ _ _ Hwf) as Hr.
  unfold PAGE_SHIFT. rewrite shiftl_12, u64_small, Z.mul_comm by lia.
  change (fs_ram (fs_emit ?e k')) with (fs_ram k').
  rewrite (load_init_args_same (fs_ram k) (fs_ram k') args); [done|].
  intros b Hb. apply (in_low _ _ _ _ _ _ _ P). unfold low_memory. lia.
Qed.

(** C5: [exec_init] enters user mode at the start of the code segment, with the
    page tables of a space in which the processor finds exactly eight
    read-only pages of code, one writable page of data and the writable top
    page of the stack, all in frames of their own, the code being a copy of
    the image of init, and, for the kernel, the low 128 MB and the APIC; the
    context is the running one with the marks of its segments behind these
    pages, the other contexts are as before, and the stack for entries from
    user mode is that of the context. *)
Theorem exec_init_enters ctx args k q0 t :
  init_ready ctx k q0 t -> args + 40 <= 0x800000 ->
  let k' := exec_init_space ctx k in
  exists root d s, init_space ctx k k' root q0 d s /\
    exec_init ctx args k = Leave (EnterInit (user_entry (load_init_args (fs_ram k) args))) (fs_emit (ELoadCr3 (4096 * root)) k').
Proof.
  intros H Ha k'. destruct (exec_init_space_ok ctx k q0 t H) as (root & d & s & P). exists root, d, s. split; [exact P|].
  exact (exec_init_eq ctx args k q0 root d s P Ha).
Qed.

(** A table of new contexts over a memory in which frame [t] holds the TSS. *)
Definition first_kernel (s : mm) (t : Z) : kernel :=
  Kernel s (replicate 16 (layout_segments zero_context)) None (OsStats 0 0 0 0 0 0 0 0) (OsConfigs 0 32 0 0) 0 0xfee00000 (4096 * t).

Lemma first_kernel_ready s t :
  mm_inv s -> owned s OS_PT_REG t -> (12 <= available s OS_PT_REG)%nat -> (10 <= available s USER_REG)%nat ->
  next s USER_REG = seqZ 25604 13180 -> init_ready 1 (first_kernel s t) 25604 t.
Proof.
  intros Hi Ho Hp Hu Hn. split; try done.
  - cbn. lia.
  - assert (E : fl_next (first_kernel s t) USER_REG = next s USER_REG) by reflexivity. rewrite E, Hn.
    change 13180 with (8 + 13172). rewrite seqZ_app, take_app_le by (rewrite ?length_seqZ; lia). by apply take_ge; rewrite length_seqZ.
Qed.

Lemma fresh_space_next : next fresh_space USER_REG = seqZ 25604 13180.
Proof.
  pose proof (next_alloc OS_PT_REG boot_mm USER_REG boot_mm_inv (boot_available _)) as E. rewrite decide_False in E by done.
  etransitivity; [symmetry; exact E|]. apply (next_init_pagelists reset_mm USER_REG bitmaps_zero_reset).
Qed.

Lemma exec_init_enters_witness : exists root k',
  exec_init 1 0x3000 (first_kernel fresh_space fresh_root) = Leave (EnterInit (user_entry (load_init_args (fs_ram (first_kernel fresh_space fresh_root)) 0x3000))) k' /\
  mapping (fs_ram (exec_init_space 1 (first_kernel fresh_space fresh_root))) root 0x100003000 = Some (4096 * 25607 + 5).
Proof.
  destruct (exec_init_enters 1 0x3000 (first_kernel fresh_space fresh_root) 25604 fresh_root) as (root & d & s & P & E).
  - apply first_kernel_ready.
    + exact (proj1 fresh_space_ok).
    + apply (ap_owned _ _ _ _ fresh_space_post). right. exact (conj eq_refl eq_refl).
    + exact (Nat.le_trans _ _ _ (ltac:(lia) : (12 <= 100)%nat) (proj1 fresh_space_available)).
    + exact (Nat.le_trans _ _ _ (ltac:(lia) : (10 <= 100)%nat) (proj2 fresh_space_available)).
    + exact fresh_space_next.
  - lia.
  - exists root. eexists. split; [exact E|]. rewrite (in_mapping _ _ _ _ _ _ _ P) by lia. reflexivity.
Defined.
