(* ===== verification/Sched.v ===== *)
(** * schedule.c: choosing and entering the next context

    [pick_next_context] is the round-robin choice, [schedule] the switch that
    does not come back.  The choice is shown equal to a reference: the first
    ready context in the cyclic order that starts after the current one. *)
From S2P Require Import Prelude Mem Lib Machine Memory PageAlloc Frames PageTable PageMap Kernel Apic Idt Context.
Local Open Scope gemos_scope.

(** ** The choice *)

(** The loop of [pick_next_context] for a context with identifier [cpid];
    [None] when [n] iterations do not suffice. *)
Fixpoint pick_loop (n : nat) (cpid pid : Z) (k : kernel) : option nat :=
  match n with
  | O => None
  | S n =>
      if decide (state (ctx_at k (Z.to_nat pid)) = READY) then Some (Z.to_nat pid)
      else
        let pid := pid + 1 in
        let pid := if pid =? u32 (cpid + 1) then 0 else pid in
        let '(pid, break) :=
          if pid =? MAX_PROCESSES then (1, cpid =? 0) else (pid, false) in
        if break then Some 0%nat
        else if pid =? 0 then Some 0%nat
        else pick_loop n cpid pid k
  end.

(** 16 iterations are enough ([pick_next_context_terminates]). *)
Definition pick_next_context (ctx : nat) (k : kernel) : option nat :=
  let cpid := pid (ctx_at k ctx) in
  let pid := if u32 (cpid + 1) =? MAX_PROCESSES then 1 else u32 (cpid + 1) in
  if pid =? 0 then Some 0%nat else pick_loop (Z.to_nat MAX_PROCESSES) cpid pid k.

(** ** The switch *)

(** [memcpy] of a register frame, as its words. *)
Fixpoint store_words (m : mem) (a : Z) (ws : list Z) : mem :=
  match ws with [] => m | w :: ws => store_words (st64 m a w) (a + 8) ws end.

Fixpoint load_words (n : nat) (m : mem) (a : Z) : list Z :=
  match n with O => [] | S n => ld64 m a :: load_words n m (a + 8) end.

(** The page-table base loaded last. *)
Fixpoint last_cr3 (l : list event) : option Z :=
  match l with [] => None | ELoadCr3 v :: _ => Some v | _ :: l => last_cr3 l end.

(** CR3 is loaded only when it changes; the registers are popped from the
    frame at [rsp_stack] by [return_from_os]. *)
Definition schedule {A} (new_ctx : nat) : M A := fun k =>
  let c := ctx_at k new_ctx in
  let rsp_stack := u64 (os_rsp c - sizeof_user_regs) in
  let k := fs_set_ram (store_words (fs_ram k) rsp_stack (regs_words (regs c))) k in
  let k := set_tss_stack_ptr c k in
  let k := set_current (Some new_ctx) k in
  let k := upd_ctx new_ctx (set_state RUNNING) k in
  let cr3 := u32 (pgd c << PAGE_SHIFT) in
  let k := if decide (last_cr3 (trace (mach (k_mm k))) = Some cr3) then k
           else fs_emit (ELoadCr3 cr3) k in
  Leave (ReturnFromOs rsp_stack) k.

(** ** The process table *)

(** There are [MAX_PROCESSES] contexts, and those in use carry their index
    as identifier; context 0, the swapper, is always in use. *)
Record table_ok (k : kernel) : Prop := {
  tab_length : length (ctx_list k) = 16%nat;
  tab_pid i : (i < 16)%nat -> state (ctx_at k i) <> UNUSED -> pid (ctx_at k i) = Z.of_nat i;
  tab_swapper : state (ctx_at k 0) <> UNUSED
}.

Lemma table_ok_upd k k' i v :
  upd_at k k' i v -> table_ok k -> (i < 16)%nat -> pid v = Z.of_nat i -> state v <> UNUSED -> table_ok k'.
Proof.
  intros U [Hl Hp Hs] Hi Hpid Hst. split.
  - by rewrite (ua_length _ _ _ _ U).
  - intros j Hj. destruct (decide (j = i)) as [->|Hne]; [by rewrite (ua_value _ _ _ _ U)|].
    rewrite (ua_others _ _ _ _ U) by done. by apply Hp.
  - destruct (decide (i = 0%nat)) as [->|Hne]; [by rewrite (ua_value _ _ _ _ U)|].
    rewrite (ua_others _ _ _ _ U) by congruence. done.
Qed.

(** The cyclic order after context [p]: p+1 .. 15, 1 .. p. *)
Definition candidates (p : nat) : list nat := seq (p + 1) (15 - p) ++ seq 1 p.

(** The first context of a list that is ready, given the states. *)
Definition first_ready (st : nat -> process_state) (l : list nat) : option nat :=
  find (fun i => bool_decide (st i = READY)) l.

Definition state_of (k : kernel) (i : nat) : process_state := state (ctx_at k i).

Lemma pick_loop_done n cpid i k :
  (0 < n)%nat -> state (ctx_at k i) = READY -> pick_loop n cpid (Z.of_nat i) k = Some i.
Proof. intros Hn Hr. destruct n; [lia|]. cbn [pick_loop]. rewrite Nat2Z.id. by rewrite decide_True. Qed.

(** From [pid] with [l] still to visit, the loop finds the first ready context
    of [l]. *)
Lemma pick_loop_upper (p : nat) k l i n :
  (p < 16)%nat -> (1 <= i)%nat ->
  (exists u, (i + u = 15)%nat /\ (p < i)%nat /\ l = seq i (Datatypes.S u) ++ seq 1 p) \/
  (exists u, (i + u = p)%nat /\ l = seq i (Datatypes.S u)) ->
  (length l <= n)%nat ->
  pick_loop n (Z.of_nat p) (Z.of_nat i) k = Some (default 0%nat (first_ready (state_of k) l)).
Proof.
  revert i l. induction n as [|n IH]; intros i l Hp Hi Hl Hn.
  { destruct Hl as [(u & _ & _ & ->)|(u & _ & ->)]; cbn in Hn; lia. }
  cbn [pick_loop]. rewrite Nat2Z.id.
  assert (Hhd : exists l', l = i :: l').
  { destruct Hl as [(u & _ & _ & ->)|(u & _ & ->)]; cbn; by eexists. }
  destruct Hhd as [l' ->]. unfold first_ready. cbn [find length] in *. unfold state_of at 1.
  destruct (decide (state (ctx_at k i) = READY)) as [Hr|Hr]; [by rewrite bool_decide_true|].
  rewrite bool_decide_false by done. fold (first_ready (state_of k) l').
  rewrite u32_small by lia. unfold MAX_PROCESSES.
  destruct Hl as [(u & Hu & Hpi & E)|(u & Hu & E)].
  - cbn [seq app] in E. injection E as ->.
    destruct (Z.eqb_spec (Z.of_nat i + 1) (Z.of_nat p + 1)); [lia|].
    destruct (Z.eqb_spec (Z.of_nat i + 1) 16) as [E16|E16].
    + assert (u = 0)%nat as -> by lia. cbn [seq app] in *.
      destruct (Z.eqb_spec (Z.of_nat p) 0) as [Ep|Ep].
      * by assert (p = 0)%nat as -> by lia.
      * cbn [Z.eqb]. apply (IH 1%nat); [lia.. | | lia]. right. exists (p - 1)%nat.
        split; [lia|]. change (1%nat :: seq 2 (p - 1)) with (seq 1 (Datatypes.S (p - 1))). f_equal. lia.
    + destruct (Z.eqb_spec (Z.of_nat i + 1) 0); [lia|].
      replace (Z.of_nat i + 1) with (Z.of_nat (Datatypes.S i)) by lia.
      apply IH; [lia.. | | lia]. left. exists (u - 1)%nat. split_and!; [lia..|].
      do 2 f_equal. lia.
  - cbn [seq] in E. injection E as ->.
    destruct (Z.eqb_spec (Z.of_nat i + 1) (Z.of_nat p + 1)).
    + assert (u = 0)%nat as -> by lia. done.
    + destruct (Z.eqb_spec (Z.of_nat i + 1) 16); [lia|].
      destruct (Z.eqb_spec (Z.of_nat i + 1) 0); [lia|].
      replace (Z.of_nat i + 1) with (Z.of_nat (Datatypes.S i)) by lia.
      apply IH; [lia.. | | lia]. right. exists (u - 1)%nat. split; [lia|]. f_equal. lia.
Qed.

Lemma candidates_perm p : (p < 16)%nat -> candidates p ≡ₚ seq 1 15.
Proof.
  intros Hp. unfold candidates. rewrite (Permutation_app_comm (seq (p + 1) (15 - p))).
  replace (p + 1)%nat with (1 + p)%nat by lia. rewrite <- seq_app. by replace (p + (15 - p))%nat with 15%nat by lia.
Qed.

Lemma candidates_range p j : (p < 16)%nat -> j ∈ candidates p <-> (1 <= j < 16)%nat.
Proof. intros Hp. rewrite (candidates_perm p Hp), elem_of_seq. lia. Qed.

Lemma first_ready_range st p :
  (p < 16)%nat -> (default 0%nat (first_ready st (candidates p)) < 16)%nat.
Proof.
  intros Hp. unfold first_ready. destruct (find _ _) as [i|] eqn:E; cbn; [|lia].
  apply find_some in E as [Hi _]. apply list_elem_of_In, candidates_range in Hi; [|done]. unfold id. lia.
Qed.

Lemma first_ready_ready st l :
  default 0%nat (first_ready st l) <> 0%nat -> st (default 0%nat (first_ready st l)) = READY.
Proof.
  unfold first_ready. destruct (find _ l) as [i|] eqn:E; cbn [default from_option id]; [|done].
  intros _. apply find_some in E as [_ E]. by apply bool_decide_eq_true in E.
Qed.

Lemma pick_next_context_first p k :
  (p < 16)%nat -> pid (ctx_at k p) = Z.of_nat p ->
  pick_next_context p k = Some (default 0%nat (first_ready (state_of k) (candidates p))).
Proof.
  intros Hp Epid. unfold pick_next_context. rewrite Epid, u32_small by lia. unfold MAX_PROCESSES.
  destruct (Z.eqb_spec (Z.of_nat p + 1) 16) as [E|E].
  - assert (p = 15)%nat as -> by lia. change (1 =? 0) with false. cbn iota.
    change 1 with (Z.of_nat 1). apply pick_loop_upper; [lia.. | | cbn; lia]. right. by exists 14%nat.
  - destruct (Z.eqb_spec (Z.of_nat p + 1) 0); [lia|].
    replace (Z.of_nat p + 1) with (Z.of_nat (p + 1)) by lia.
    apply pick_loop_upper; [lia.. | |].
    + left. exists (14 - p)%nat. split_and!; [lia..|]. unfold candidates. do 2 f_equal. lia.
    + rewrite (candidates_perm p), length_seq by lia. cbn. lia.
Qed.

(** C15: [pick_next_context] is round robin: it returns the first ready context
    in the cyclic order after the caller, itself last, and the swapper when no
    other context is ready.  Its loop ends within 16 iterations. *)
Theorem pick_next_context_round_robin p k :
  (p < 16)%nat -> pid (ctx_at k p) = Z.of_nat p ->
  exists i, pick_next_context p k = Some i /\ (i < 16)%nat /\
    ((exists l1 l2, candidates p = l1 ++ i :: l2 /\ state (ctx_at k i) = READY /\
        Forall (fun j => state (ctx_at k j) <> READY) l1) \/
     (i = 0%nat /\ forall j, (1 <= j < 16)%nat -> state (ctx_at k j) <> READY)).
Proof.
  intros Hp Epid. rewrite pick_next_context_first by done. eexists. split; [done|].
  pose proof (candidates_perm p Hp) as Hperm. unfold first_ready, state_of.
  destruct (find _ (candidates p)) as [i|] eqn:E; cbn [from_option id].
  - apply find_split in E as (l1 & l2 & E & Hr & Hl). apply bool_decide_eq_true in Hr.
    assert (Hi : i ∈ seq 1 15) by (rewrite <- Hperm, E; set_solver).
    apply elem_of_seq in Hi. split; [lia|]. left. exists l1, l2. split_and!; [done..|].
    eapply Forall_impl; [exact Hl|]. intros j Hj. by apply bool_decide_eq_false in Hj.
  - split; [lia|]. right. split; [done|]. intros j Hj Hr.
    assert (Hin : j ∈ candidates p) by (rewrite Hperm; apply elem_of_seq; lia).
    apply list_elem_of_In in Hin.
    pose proof (find_none _ _ E j Hin) as Hn. by apply bool_decide_eq_false in Hn.
Qed.

(** ** Witness *)

(** Contexts 1 and 4 of a table of 16 are ready, 2 runs. *)
Definition three_procs : kernel :=
  Kernel reset_mm
    (imap (fun i st => set_pid (Z.of_nat i) (set_state st zero_context))
       ([READY; READY; RUNNING; UNUSED; READY] ++ replicate 11 UNUSED))
    (Some 2%nat) (OsStats 0 0 0 0 0 0 0 3) (OsConfigs 0 32 0 0) 0 0 0.

Lemma pick_next_context_round_robin_witness :
  pick_next_context 2 three_procs = Some 4%nat /\
  exists i, pick_next_context 2 three_procs = Some i /\ (i < 16)%nat.
Proof.
  split; [reflexivity|].
  destruct (pick_next_context_round_robin 2 three_procs) as (i & E & Hi & _); [lia | reflexivity |].
  exists i. exact (conj E Hi).
Defined.
