(* ===== verification/Dsh.v ===== *)
(** * The shell's loop: dsh_help and invoke_dsh

    One iteration of the loop of [invoke_dsh] composes the serial console, the
    string routines, [parse_init], the keyboard controller's reset and the
    creation of the first process.  A [printf] is the event of the trace whose
    effect on the line is [Serial.printf_transmits]; the answers of the
    device are those left for the other calls. *)
From S2P Require Import Prelude Mem Lib Machine Memory PageAlloc Frames Printf Serial Kbd PageTable PageMap Kernel Apic Idt GdtSpec Context Space Sched Shell.
#[local] Open Scope gemos_scope.

(** The kernel's machine as the console sees it. *)
Definition k_io (inp : list Z) (k : kernel) : io := IO (mach (k_mm k)) inp.
Definition set_k_io (d : io) (k : kernel) : kernel := set_k_mm (set_mach (io_mach d) (k_mm k)) k.

(** [strcmp] and [memcmp] against a string literal of the kernel's binary. *)
Fixpoint strcmp_text (m : mem) (s : Z) (lit : list Z) : Z :=
  match lit with
  | [] => if ld8 m s =? 0 then 0 else -1
  | c :: lit => if ld8 m s =? c then strcmp_text m (s + 1) lit else -1
  end.

Fixpoint memcmp_text (m : mem) (s : Z) (lit : list Z) : Z :=
  match lit with
  | [] => 0
  | c :: lit => if ld8 m s =? c then memcmp_text m (s + 1) lit else s8 (ld8 m s) - s8 c
  end.

Definition dsh_help (k : kernel) : kernel :=
  let k := kprintf "This is a minimal shell.\n" [] k in
  let k := kprintf "---------\n" [] k in
  let k := kprintf "commands:\n" [] k in
  let k := kprintf "---------\n" [] k in
  let k := kprintf "help: prints this help\n" [] k in
  let k := kprintf "clear: clears the screen\n" [] k in
  let k := kprintf "config: set and get the current configuration. To set use #config set var=value\n" [] k in
  let k := kprintf "stats: displays the OS statistics\n" [] k in
  let k := kprintf "init: launch the init process. usage: init [arg1] [arg2] ... [arg5]\n" [] k in
  kprintf "exit|shutdown: shutdown the OS\n" [] k.

Definition dsh_stats (k : kernel) : kernel :=
  let st := stats k in
  let k := kprintf "ticks = %d swapper_invocations = %d context_switches = %d lw_context_switches = %d\n"
    [PInt (ticks st); PInt (swapper_invocations st); PInt (context_switches st); PInt (lw_context_switches st)] k in
  kprintf "syscalls = %d page_faults = %d used_memory = %d num_processes = %d\n"
    [PInt (syscalls st); PInt (page_faults st); PInt (used_memory st); PInt (num_processes st)] k.

(** The escape sequence that clears the screen. *)
Definition clear_sequence : list Z := [27; 91; 50; 74; 27; 91; 72].

(** How an iteration ends: the next one follows, the machine is reset, or the
    kernel waits for a device that has nothing more to say. *)
Inductive dsh_result :=
| DshNext (inp : list Z)
| DshReboot (inp : list Z)
| DshWait.

(** [command], [args] and [abc] are the addresses of the buffer that os_alloc
    gave, of the arguments and of the array of the clear command; [fuel]
    bounds the length of a command. *)
Section dsh.
Context (fuel : nat) (command args abc : Z).

Definition dsh_clear (inp : list Z) : M dsh_result := fun k =>
  match serial_write 8 abc (set_io_ram (store_bytes (fs_ram k) abc (clear_sequence ++ [0])) (k_io inp k)) with
  | None => Ret DshWait k
  | Some d => Ret (DshNext (io_in d)) (set_k_io d k)
  end.

Definition dsh_reboot (inp : list Z) : M dsh_result := fun k =>
  match kbd_reboot (k_io inp k) with
  | None => Ret DshWait k
  | Some d => Ret (DshReboot (io_in d)) (set_k_io d k)
  end.

Definition dsh_init (inp : list Z) : M dsh_result :=
  ctx <- create_context (codes "init" ++ [0]) EXEC_CTX_USER ;;
  (fun k => match parse_init fuel (fs_ram k) command args with
            | None => Undefined k
            | Some m => Ret tt (fs_set_ram m k)
            end) ;;;
  exec_init ctx args ;;;
  ret (DshNext inp).

(** The command in the buffer is carried out. *)
Definition dsh_command (inp : list Z) : M dsh_result := fun k =>
  let m := fs_ram k in
  if ld8 m command =? 0 then Ret (DshNext inp) k
  else if strcmp_text m command (codes "help") =? 0 then Ret (DshNext inp) (dsh_help k)
  else if strcmp_text m command (codes "clear") =? 0 then dsh_clear inp k
  else if (strcmp_text m command (codes "exit") =? 0) || (strcmp_text m command (codes "shutdown") =? 0) then dsh_reboot inp k
  else if memcmp_text m command (codes "init") =? 0 then dsh_init inp k
  else if strcmp_text m command (codes "stats") =? 0 then Ret (DshNext inp) (dsh_stats k)
  else Ret (DshNext inp) (kprintf "Invalid command\n" [] k).

Definition dsh_iteration (inp : list Z) : M dsh_result := fun k =>
  let k := kprintf "GemOS# " [] k in
  match serial_read command (k_io inp k) with
  | None => Ret DshWait k
  | Some d => dsh_command (io_in d) (set_k_io d k)
  end.

(** [n] iterations at most. *)
Fixpoint dsh_loop (n : nat) (inp : list Z) : M dsh_result :=
  match n with
  | O => ret (DshNext inp)
  | S n => fun k =>
      match dsh_iteration inp k with
      | Ret (DshNext inp) k => dsh_loop n inp k
      | o => o
      end
  end.
End dsh.

Definition invoke_dsh (n fuel : nat) (command args abc : Z) (inp : list Z) : M dsh_result := fun k =>
  let k := fs_set_ram (store_args (fs_ram k) args 0 [0; 0; 0; 0; 0]) k in
  dsh_loop fuel command args abc n inp k.

(** ** Comparisons with literals *)

Lemma strcmp_text_loop n m s d ctr lit :
  cstr_at m (d + ctr) lit -> (length lit < n)%nat ->
  strcmp_loop n m s d ctr = Some (strcmp_text m (s + ctr) lit).
Proof.
  revert n ctr. induction lit as [|c lit IH]; intros n ctr Hd Hn; (destruct n as [|n]; [cbn in Hn; lia|]); cbn [strcmp_loop strcmp_text].
  - cbn [cstr_at] in Hd. rewrite Hd. cbn. rewrite andb_false_r. cbn. by destruct (ld8 m (s + ctr) =? 0).
  - destruct Hd as (Hc & Hne & Hd). rewrite Hc, (proj2 (Z.eqb_neq c 0)) by done. cbn [negb andb]. rewrite andb_true_r, andb_false_r.
    destruct (Z.eqb_spec (ld8 m (s + ctr)) c) as [->|Hs].
    + rewrite (proj2 (Z.eqb_neq c 0)) by done. cbn [negb andb]. rewrite IH; [|by rewrite Z.add_assoc|cbn in Hn; lia]. by rewrite Z.add_assoc.
    + by rewrite andb_false_r.
Qed.

(** [strcmp_text] is [strcmp] when the literal is in memory. *)
Lemma strcmp_text_ok n m s d lit : cstr_at m d lit -> (length lit < n)%nat -> strcmp n m s d = Some (strcmp_text m s lit).
Proof. intros Hd Hn. unfold strcmp. rewrite <- (Z.add_0_r d) in Hd. rewrite (strcmp_text_loop n m s d 0 lit Hd Hn). by rewrite Z.add_0_r. Qed.

Lemma strcmp_text_same m s text lit :
  cstr_at m s text -> Forall (fun c => c <> 0) lit -> strcmp_text m s lit = if decide (text = lit) then 0 else -1.
Proof.
  revert s text. induction lit as [|c lit IH]; intros s text Hs Hl; cbn [strcmp_text].
  - destruct text as [|x text]; cbn [cstr_at] in Hs; [by rewrite Hs|]. destruct Hs as (Hx & Hne & _).
    rewrite Hx, (proj2 (Z.eqb_neq _ _)) by done. done.
  - apply Forall_cons in Hl as [Hc Hl]. destruct text as [|x text]; cbn [cstr_at] in Hs.
    + rewrite Hs, (proj2 (Z.eqb_neq _ _)) by done. done.
    + destruct Hs as (Hx & Hne & Hs). rewrite Hx. destruct (Z.eqb_spec x c) as [->|Hxc].
      * rewrite (IH _ text Hs Hl). destruct (decide (text = lit)) as [->|Hn].
        -- by rewrite decide_True.
        -- rewrite decide_False; [done|]. by intros [= ->].
      * rewrite decide_False; [done|]. by intros [= -> _].
Qed.

Lemma memcmp_text_prefix m s lit after : chars_at m s (lit ++ after) -> memcmp_text m s lit = 0.
Proof.
  revert s. induction lit as [|c lit IH]; intros s Hs; [done|]. cbn [app memcmp_text] in *.
  apply chars_at_cons in Hs as [-> Hs]. rewrite Z.eqb_refl. by apply IH.
Qed.

(** ** Dispatch *)

Lemma cstr_at_chars m a s : cstr_at m a s -> chars_at m a (s ++ [0]).
Proof.
  revert a. induction s as [|c s IH]; intros a Hs i x Hi; cbn [cstr_at app] in *.
  - destruct i as [|i]; [|by destruct i]. injection Hi as <-. by rewrite Z.add_0_r.
  - destruct Hs as (Hc & _ & Hs). destruct i as [|i].
    + injection Hi as <-. by rewrite Z.add_0_r.
    + rewrite <- (IH _ Hs i x Hi). f_equal. lia.
Qed.

Lemma memcmp_text_spec m s text lit :
  cstr_at m s text -> Forall (fun c => 0 < c < 128) lit -> Forall (fun c => 0 < c < 256) text ->
  (memcmp_text m s lit =? 0) = bool_decide (lit `prefix_of` text).
Proof.
  revert s text. induction lit as [|c lit IH]; intros s text Hs Hl Ht; cbn [memcmp_text].
  { rewrite bool_decide_eq_true_2; [done|]. apply prefix_nil. }
  apply Forall_cons in Hl as [Hc Hl].
  assert (Hne : forall x, 0 <= x < 256 -> x <> c -> (s8 x - s8 c =? 0) = false).
  { intros x Hx Hxc. apply Z.eqb_neq. unfold s8. rewrite (Z.mod_small (c + 128)) by lia.
    destruct (Z.lt_ge_cases x 128); [rewrite Z.mod_small by lia; lia|].
    replace (x + 128) with (x - 128 + 1 * 256) by lia. rewrite Z.mod_add, Z.mod_small by lia. lia. }
  destruct text as [|x text]; cbn [cstr_at] in Hs.
  - rewrite Hs, (proj2 (Z.eqb_neq 0 c)) by lia. rewrite Hne by lia. rewrite bool_decide_eq_false_2; [done|].
    intros Hp. by apply prefix_nil_not in Hp.
  - destruct Hs as (Hx & _ & Hs). apply Forall_cons in Ht as [Hxr Ht]. rewrite Hx. destruct (Z.eqb_spec x c) as [->|Hxc].
    + rewrite (IH _ text Hs Hl Ht). apply bool_decide_ext. split; [apply prefix_cons|apply prefix_cons_inv_2].
    + rewrite Hne by lia. rewrite bool_decide_eq_false_2; [done|]. intros Hp. by apply prefix_cons_inv_1 in Hp as ->.
Qed.

Lemma dsh_command_text fuel command args abc inp k text :
  cstr_at (fs_ram k) command text -> Forall (fun c => 0 < c < 256) text ->
  dsh_command fuel command args abc inp k =
    if decide (text = []) then Ret (DshNext inp) k
    else if decide (text = codes "help") then Ret (DshNext inp) (dsh_help k)
    else if decide (text = codes "clear") then dsh_clear abc inp k
    else if decide (text = codes "exit" \/ text = codes "shutdown") then dsh_reboot inp k
    else if decide (codes "init" `prefix_of` text) then dsh_init fuel command args inp k
    else if decide (text = codes "stats") then Ret (DshNext inp) (dsh_stats k)
    else Ret (DshNext inp) (kprintf "Invalid command\n" [] k).
Proof.
  intros Hs Ht. unfold dsh_command.
  assert (Hlit : forall lit, Forall (fun c => 0 < c < 128) lit -> (strcmp_text (fs_ram k) command lit =? 0) = bool_decide (text = lit)).
  { intros lit Hl. rewrite (strcmp_text_same _ _ text) by (done || (eapply Forall_impl; [exact Hl|cbv beta; intros; lia])).
    destruct (decide (text = lit)); [by rewrite bool_decide_eq_true_2|by rewrite bool_decide_eq_false_2]. }
  assert (Hok : forall lit, forallb (fun c => (1 <=? c) && (c <? 128)) lit = true -> Forall (fun c => 0 < c < 128) lit).
  { intros lit H. apply Forall_between in H. eapply Forall_impl; [exact H|cbv beta; intros; lia]. }
  assert (H0 : (ld8 (fs_ram k) command =? 0) = bool_decide (text = [])).
  { destruct text as [|x text]; cbn [cstr_at] in Hs; [by rewrite Hs|]. destruct Hs as (-> & Hne & _). by rewrite (proj2 (Z.eqb_neq _ _)). }
  rewrite H0, !Hlit, (memcmp_text_spec _ _ text) by (done || by apply Hok). clear.
  assert (Hb : forall (P : Prop) `{Decision P}, (P /\ bool_decide P = true) \/ (~ P /\ bool_decide P = false)).
  { intros P HP. destruct (decide P); [left|right]; split; try done; [by apply bool_decide_eq_true_2|by apply bool_decide_eq_false_2]. }
  destruct (Hb (text = []) _) as [[E ->]|[E ->]]; [by rewrite decide_True|rewrite decide_False by done].
  destruct (Hb (text = codes "help") _) as [[E1 ->]|[E1 ->]]; [by rewrite decide_True|rewrite decide_False by done].
  destruct (Hb (text = codes "clear") _) as [[E2 ->]|[E2 ->]]; [by rewrite decide_True|rewrite decide_False by done].
  destruct (Hb (text = codes "exit") _) as [[E3 ->]|[E3 ->]]; [by rewrite decide_True by auto|].
  destruct (Hb (text = codes "shutdown") _) as [[E4 ->]|[E4 ->]]; [by rewrite decide_True by auto|].
  rewrite (decide_False (P := text = codes "exit" \/ text = codes "shutdown")) by tauto. cbn [orb].
  destruct (Hb (codes "init" `prefix_of` text) _) as [[E5 ->]|[E5 ->]]; [by rewrite decide_True|rewrite decide_False by done].
  destruct (Hb (text = codes "stats") _) as [[E6 ->]|[E6 ->]]; [by rewrite decide_True|by rewrite decide_False].
Qed.

(** ** Launching init *)

(** The line in the buffer, as the shell reads it. *)
Lemma read_string m a line :
  Forall (fun c => 0 < c < 256) line -> cstr_at (st8 (store_bytes m a line) (a + Z.of_nat (length line)) 0) a line.
Proof.
  revert m a. induction line as [|c line IH]; intros m a Hl; cbn [store_bytes length cstr_at].
  { rewrite Nat2Z.inj_0, Z.add_0_r, ld8_st8, Z.eqb_refl. done. }
  apply Forall_cons in Hl as [Hc Hl]. split; [|split; [lia|]].
  - rewrite ld8_st8. zcase; [lia|]. rewrite store_bytes_untouched by lia. rewrite ld8_st8, Z.eqb_refl. apply Z.mod_small. lia.
  - replace (a + Z.of_nat (S (length line))) with (a + 1 + Z.of_nat (length line)) by lia. by apply IH.
Qed.

Definition init_line (w : list Z) (ws : words) : list Z := codes "init " ++ words_text w ws.

(** ** What lies between the command and [exec_init] *)

(** The shell made context [i] and stored the arguments at [args]. *)
Record launched (args : Z) (i : nat) (q : Z) (k k3 : kernel) : Prop := {
  la_inv : mm_inv (k_mm k3);
  la_ctx : ctx_only i (new_context (codes "init" ++ [0]) EXEC_CTX_USER i q) k k3;
  la_stack : ~ owned (k_mm k) OS_PT_REG q /\ 0 <= q < 2^17;
  la_owned r p : owned (k_mm k) r p -> owned (k_mm k3) r p;
  la_avail : fl_avail k OS_PT_REG = S (fl_avail k3 OS_PT_REG);
  la_next : fl_next k3 USER_REG = fl_next k USER_REG;
  la_low a : low_memory a -> ~ (args <= a < args + 40) -> ld8 (fs_ram k3) a = ld8 (fs_ram k) a
}.

(** Steps before and after that only store elsewhere. *)
Lemma launched_before P args i q k k1 k3 :
  launched args i q k1 k3 -> frame_only k k1 -> store_step P k k1 -> mm_inv (k_mm k) ->
  (forall r a, P a -> ~ bitmap_area r a) -> (forall a, P a -> ~ low_memory a) -> launched args i q k k3.
Proof.
  intros [I C [Hn Hq] Ho Ha Hx Hl] F S Hi HP Hlow. destruct (store_step_inv P k k1 S Hi HP) as (_ & O & A).
  split; try done.
  - unfold ctx_only in *. rewrite C, F. reflexivity.
  - split; [|done]. intros Hq'. by apply Hn, O.
  - intros r p Hp. by apply Ho, O.
  - rewrite <- Ha. symmetry. exact (A OS_PT_REG).
  - rewrite Hx. exact (store_step_next P k k1 USER_REG S Hi HP).
  - intros a Hlo Hna. rewrite Hl by done. apply (proj2 S). intros HPa. by apply (Hlow a HPa).
Qed.

(** The arguments are stored in low memory. *)
Lemma launched_after args i q k k2 m :
  created (codes "init" ++ [0]) EXEC_CTX_USER i q k k2 -> args + 40 <= 0x800000 ->
  untouched (fun a => args <= a < args + 40) (fs_ram k2) m -> launched args i q k (fs_set_ram m k2).
Proof.
  intros [I C Hq Ho Ha Hx _ Hl] Hargs Hu.
  assert (S : store_step (fun a => args <= a < args + 40) k2 (fs_set_ram m k2)) by (split; [by intros []|exact Hu]).
  assert (HP : forall r a, args <= a < args + 40 -> ~ bitmap_area r a) by (intros r a Hr; apply low_not_bitmap; lia).
  destruct (store_step_inv _ _ _ S I HP) as (I' & O & A). split; try done.
  - apply (ctx_only_frame _ _ _ _ _ C). reflexivity.
  - intros r p Hp. apply O, Ho. by left.
  - rewrite Ha. f_equal. symmetry. exact (A OS_PT_REG).
  - rewrite <- Hx. exact (store_step_next _ k2 _ USER_REG S I HP).
  - intros a Hlo Hna. change (fs_ram (fs_set_ram m k2)) with m. rewrite Hu by done. by apply Hl.
Qed.

Lemma dsh_init_enters fuel command args inp k w ws i k1 :
  cstr_at (fs_ram k) command (init_line w ws) -> word_ok w -> words_ok ws ->
  (length (words_text w ws) < fuel)%nat -> (length ws < 5)%nat ->
  apart command (5 + Z.of_nat (length (words_text w ws)) + 1) args 5 ->
  command + 5 + Z.of_nat (length (words_text w ws)) < REGION_OS_PT_START -> args + 40 <= 0x800000 ->
  get_new_ctx k = (Some i, k1) -> mm_inv (k_mm k) -> (0 < fl_avail k OS_PT_REG)%nat ->
  exists q k3, dsh_init fuel command args inp k = (exec_init i args ;;; ret (DshNext inp)) k3 /\ launched args i q k k3 /\
    (forall j x, (w :: (snd <$> ws)) !! j = Some x -> init_words (load_init_args (fs_ram k3) args) !! j = Some (u64 (read_dec x))).
Proof.
  intros Hs Hw Hws Hf H5 Hap Hlow Hargs Hg Hi Hav.
  destruct (create_context_ok (codes "init" ++ [0]) EXEC_CTX_USER k i k1 Hg Hi Hav) as (q & k2 & Ec & D).
  assert (Hc : chars_at (fs_ram k2) (command + 5) (words_text w ws ++ [0])).
  { apply (chars_at_same (fs_ram k)).
    - apply cstr_at_chars in Hs. unfold init_line in Hs. rewrite <- app_assoc in Hs.
      apply (chars_at_app _ _ (codes "init ")) in Hs as [_ Hs]. exact Hs.
    - intros b Hb. rewrite length_app in Hb. cbn [length] in Hb. apply (cd_below _ _ _ _ _ _ D). unfold below_pt. lia. }
  assert (Hvs : Forall (fun v => 0 <= v < 2^64) (word_value w :: map (fun bw => word_value bw.2) ws)).
  { change (word_value w :: map (fun bw => word_value bw.2) ws) with (map (fun bw : list Z * list Z => word_value bw.2) (([], w) :: ws)).
    apply List.Forall_map, List.Forall_forall. intros bw _. apply Z.mod_pos_bound. lia. }
  pose proof (parse_init_ok fuel (fs_ram k2) command args w ws Hw Hws Hc Hf) as Hp.
  set (vs := word_value w :: map (fun bw => word_value bw.2) ws) in *.
  assert (Hlen : Z.of_nat (length vs) = Z.of_nat (length ws) + 1) by (unfold vs; cbn [length]; rewrite length_map; lia).
  assert (Hap' : apart command (5 + Z.of_nat (length (words_text w ws)) + 1) args (Z.of_nat (length ws) + 1)) by (unfold apart in *; lia).
  specialize (Hp Hap').
  exists q, (fs_set_ram (store_args (fs_ram k2) args 0 vs) k2).
  split; [|split].
  - unfold dsh_init, bind. rewrite Ec. rewrite Hp. reflexivity.
  - apply (launched_after args i q k k2); [done|done|]. eapply untouched_weaken; [|apply store_args_untouched]. cbv beta. lia.
  - intros j x Hx.
    assert (Hj : vs !! j = Some (u64 (read_dec x))).
    { unfold vs. change (word_value w :: map (fun bw => word_value bw.2) ws) with ((fun bw : list Z * list Z => word_value bw.2) <$> (([], w) :: ws)).
      change (w :: (snd <$> ws)) with (snd <$> (([], w) :: ws)) in Hx. rewrite list_lookup_fmap in Hx. rewrite list_lookup_fmap.
      destruct ((([], w) :: ws) !! j) as [bw|]; [|done]. cbn in Hx |- *. by injection Hx as <-. }
    pose proof (ld64_store_args (fs_ram k2) args 0 vs j _ Hvs Hj) as Hld. rewrite Z.add_0_l in Hld.
    assert (Hjl : (j < 5)%nat) by (apply lookup_lt_Some in Hx; cbn [length] in Hx; rewrite length_fmap in Hx; lia).
    change (fs_ram (fs_set_ram ?m k2)) with m.
    destruct j as [|[|[|[|[|]]]]]; try lia; cbn [init_words load_init_args a_rdi a_rsi a_rcx a_rdx a_r8 lookup list_lookup]; f_equal; (etransitivity; [|exact Hld]); f_equal; lia.
Qed.
