(* ===== verification/Entry.v ===== *)
(** * entry.c: system calls, signals, exits and page faults

    The handlers that boot_64.S calls, over the state of [Kernel].  The user
    registers that the entry code saved on the kernel stack are an argument
    and a result; CR2 and what user memory holds at a [configure] call come
    from the hardware and are arguments. *)
From S2P Require Import Prelude Mem Lib Machine Memory PageAlloc Frames PageTable PageMap Printf Serial Kernel Apic Idt Context Sched.
Local Open Scope gemos_scope.

Definition MAX_WRITE_LEN : Z := 1024.
Definition MAX_EXPAND_PAGES : Z := 1024.
Definition MAP_RD : Z := 0.
Definition MAP_WR : Z := 1.

Definition SYSCALL_EXIT : Z := 1.
Definition SYSCALL_GETPID : Z := 2.
Definition SYSCALL_WRITE : Z := 3.
Definition SYSCALL_EXPAND : Z := 4.
Definition SYSCALL_SHRINK : Z := 5.
Definition SYSCALL_ALARM : Z := 6.
Definition SYSCALL_SLEEP : Z := 7.
Definition SYSCALL_SIGNAL : Z := 8.
Definition SYSCALL_CLONE : Z := 9.
Definition SYSCALL_FORK : Z := 10.
Definition SYSCALL_STATS : Z := 11.
Definition SYSCALL_CONFIGURE : Z := 12.

(** ** User memory *)

(** The physical address behind a user address: the processor's walk. *)
Definition user_phys (m : mem) (root va : Z) : option Z :=
  match mapping m root va with
  | Some e => Some (4096 * entry_pfn e + va mod 4096)
  | None => None
  end.

(** The bytes that kernel code reads at [va], as long as they are mapped. *)
Fixpoint user_bytes (n : nat) (m : mem) (root va : Z) : list Z :=
  match n with
  | O => []
  | S n => match user_phys m root va with
           | Some a => ld8 m a :: user_bytes n m root (va + 1)
           | None => []
           end
  end.

(** [print_user]: the copied bytes up to their first 0 go to the serial line, as
    [Serial.print_user_transmits] shows for [console_print_user]. *)
Definition print_user (root user length : Z) (k : kernel) : kernel :=
  fs_emit (EPrintUser (crlf (c_string (user_bytes (Z.to_nat length) (fs_ram k) root user)))) k.

(** ** write, expand, shrink *)

Definition do_write (ctx : nat) (address length : Z) (k : kernel) : Z * kernel :=
  let root := pgd (ctx_at k ctx) in
  let m := fs_ram k in
  let bad_write := (-1, kprintf "Bad write address = %x length=%d\n" [PInt address; PInt length] k) in
  if length >? MAX_WRITE_LEN then bad_write
  else if (get_user_pte m root address =? 0) ||
    (negb (address >> PAGE_SHIFT =? u64 (address + length) >> PAGE_SHIFT) &&
     (get_user_pte m root (u64 (address + length)) =? 0)) then bad_write
  else (length, print_user root address length k).

(** The segment that [expand] and [shrink] act on. *)
Definition mapped_segment (segment_t : Z) : option segment :=
  if segment_t =? MAP_RD then Some MM_SEG_RODATA
  else if segment_t =? MAP_WR then Some MM_SEG_DATA
  else None.

Definition do_expand (ctx : nat) (size segment_t : Z) (k : kernel) : Z * kernel :=
  if size >? MAX_EXPAND_PAGES then (0, k)
  else match mapped_segment segment_t with
  | None => (0, k)
  | Some i =>
      let segment := mms (ctx_at k ctx) i in
      if u64 (seg_next_free segment + u64 (size << PAGE_SHIFT)) >? seg_end segment then (0, k)
      else
        let old_next_free := seg_next_free segment in
        (old_next_free, upd_ctx ctx (upd_mms i
           (seg_set_next_free (u64 (seg_next_free segment + u64 (size << PAGE_SHIFT))))) k)
  end.

(** The loop of [do_shrink], [n] iterations at most. *)
Fixpoint unmap_loop {S} `{FrameStore S} (n : nat) (root address stop : Z) (s : S) : S :=
  match n with
  | O => s
  | Datatypes.S n =>
      if address <? stop
      then unmap_loop n root (address + PAGE_SIZE) stop (do_unmap_user root address s).2
      else s
  end.

Definition do_shrink (ctx : nat) (size segment_t : Z) (k : kernel) : Z * kernel :=
  if size >? MAX_EXPAND_PAGES then (0, k)
  else match mapped_segment segment_t with
  | None => (0, k)
  | Some i =>
      let segment := mms (ctx_at k ctx) i in
      if u64 (seg_next_free segment - u64 (size << PAGE_SHIFT)) <? seg_start segment then (0, k)
      else
        let next_free := u64 (seg_next_free segment - u64 (size << PAGE_SHIFT)) in
        let k := upd_ctx ctx (upd_mms i (seg_set_next_free next_free)) k in
        let stop := u64 (next_free + u64 (size << PAGE_SHIFT)) in
        let k := unmap_loop (page_steps next_free stop) (pgd (ctx_at k ctx)) next_free stop k in
        (next_free, k)
  end.

(** ** exit and sleep *)

(** Is a context other than the swapper in use?  [n] identifiers to go. *)
Fixpoint proc_exist (n : nat) (ctr : nat) (k : kernel) : bool :=
  match n with
  | O => false
  | S n => if decide (state (ctx_at k ctr) = UNUSED) then proc_exist n (ctr + 1) k else true
  end.

Definition do_exit : M () :=
  ctx <- get_current_ctx ;;
  modify (fun k => fs_free OS_PT_REG (os_stack_pfn (ctx_at k ctx)) k) ;;;
  modify (upd_ctx ctx (set_state UNUSED)) ;;;
  others <- gets (proc_exist (Z.to_nat (MAX_PROCESSES - 1)) 1) ;;
  modify (fun k => set_stats (add_num_processes (-1) (stats k)) k) ;;;
  (if others : bool then ret tt else do_cleanup) ;;;
  p <- gets (pick_next_context ctx) ;;
  new_ctx <- deref p ;;
  schedule new_ctx.

Definition do_sleep (ticks : Z) : M Z :=
  ctx <- get_current_ctx ;;
  modify (upd_ctx ctx (fun c => set_state WAITING
    (set_ticks (u32 ticks) (alarm_config_time c) (ticks_to_alarm c) c))) ;;;
  p <- gets (pick_next_context ctx) ;;
  new_ctx <- deref p ;;
  schedule new_ctx.

(** ** fork and clone *)

Definition do_fork : M Z :=
  p <- run get_new_ctx ;;
  ctx <- get_current_ctx ;;
  new_ctx <- deref p ;;
  pid' <- gets (fun k => pid (ctx_at k new_ctx)) ;;
  modify (fun k => upd_ctx new_ctx (fun _ =>
    set_ppid (pid (ctx_at k ctx)) (set_pid pid' (ctx_at k ctx))) k) ;;;
  modify (copy_mm new_ctx ctx) ;;;
  modify (setup_child_context new_ctx) ;;;
  ret pid'.

(** A name that does not fit the array would run over the registers saved
    behind it. *)
Definition do_clone (th_func user_stack : Z) : M Z :=
  p <- run get_new_ctx ;;
  ctx <- get_current_ctx ;;
  new_ctx <- deref p ;;
  modify (fun k => let c := ctx_at k ctx in
    upd_ctx new_ctx (fun n => set_pgd (pgd c) (set_used_mem (used_mem c)
      (set_state READY (set_ctype (ctype c) n)))) k) ;;;
  pfn <- run (fs_alloc OS_PT_REG) ;;
  modify (upd_ctx new_ctx (set_os_stack pfn (osmap (u32 (pfn + 1))))) ;;;
  modify (fun k => let c := ctx_at k ctx in
    upd_ctx new_ctx (fun n =>
      set_signals (pending_signal_bitmap c) (sighandlers c)
        (set_ticks (ticks_to_sleep c) (alarm_config_time c) (ticks_to_alarm c)
          (set_regs (regs_set_rbp user_stack (regs_set_rip_rsp th_func user_stack (regs c)))
            (set_mms MM_SEG_STACK (mm_stack c) (set_mms MM_SEG_DATA (mm_data c)
              (set_mms MM_SEG_RODATA (mm_rodata c) (set_mms MM_SEG_CODE (mm_code c) n)))))))  k) ;;;
  nm <- gets (fun k => let c := ctx_at k ctx in
    c_string (name c) ++ sprintf [37; 100] [PInt (pid c + 1)]) ;;
  (if Z.of_nat (length nm) <=? CNAME_MAX then ret tt else deref None) ;;;
  modify (upd_ctx new_ctx (fun n => set_name (copy_name nm (name n)) n)) ;;;
  ret 0.

(** ** Signals *)

Definition sighandler (c : exec_context) (signo : Z) : Z := default 0 (sighandlers c !! Z.to_nat signo).

(** The user stack pointer and instruction pointer are those of [regs]. *)
Definition invoke_sync_signal (signo : Z) (regs : user_regs) : M user_regs :=
  ctx <- get_current_ctx ;;
  handler <- gets (fun k => sighandler (ctx_at k ctx) signo) ;;
  if (handler =? 0) && negb (signo =? SIGALRM) then do_exit ;;; ret regs
  else if negb (handler =? 0) then
    let rsp := entry_rsp regs in
    modify (fs_emit (EUserStore (u64 (rsp - 8)) (entry_rip regs))) ;;;
    ret (regs_set_rip_rsp handler (u64 (rsp - 8)) regs)
  else ret regs.

Definition do_signal (signo handler : Z) : M Z :=
  ctx <- get_current_ctx ;;
  if (signo <? MAX_SIGNALS) && (signo >? -1) then
    modify (upd_ctx ctx (fun c =>
      set_signals (pending_signal_bitmap c) (<[Z.to_nat signo := handler]> (sighandlers c)) c)) ;;;
    ret 0
  else ret (-1).

Definition do_alarm (ticks : Z) : M Z :=
  ctx <- get_current_ctx ;;
  if ticks >? 0 then
    modify (upd_ctx ctx (fun c => set_ticks (ticks_to_sleep c) ticks ticks c)) ;;;
    ret 0
  else ret (-1).

(** ** System calls *)

Definition count_syscall (st : os_stats) : os_stats :=
  OsStats (swapper_invocations st) (context_switches st) (lw_context_switches st) (ticks st)
    (page_faults st) (u64 (syscalls st + 1)) (used_memory st) (num_processes st).
Definition count_page_fault (st : os_stats) : os_stats :=
  OsStats (swapper_invocations st) (context_switches st) (lw_context_switches st) (ticks st)
    (u64 (page_faults st + 1)) (syscalls st) (used_memory st) (num_processes st).

Definition print_stats (k : kernel) : kernel :=
  let st := stats k in
  let k := kprintf "ticks = %d swapper_invocations = %d context_switches = %d lw_context_switches = %d\n"
    [PInt (ticks st); PInt (swapper_invocations st); PInt (context_switches st); PInt (lw_context_switches st)] k in
  kprintf "syscalls = %d page_faults = %d used_memory = %d num_processes = %d\n"
    [PInt (syscalls st); PInt (page_faults st); PInt (used_memory st); PInt (num_processes st)] k.

(** [regs] is the frame that the entry code saved; [user_config] the
    [struct os_configs] that user memory holds at [param1]. *)
Definition do_syscall (user_config : os_configs) (regs : user_regs) (syscall param1 param2 : Z) : M Z :=
  current <- get_current_ctx ;;
  modify (upd_ctx current (set_regs regs)) ;;;
  modify (fun k => set_stats (count_syscall (stats k)) k) ;;;
  if syscall =? SYSCALL_EXIT then do_exit ;;; ret 0
  else if syscall =? SYSCALL_GETPID then gets (fun k => pid (ctx_at k current))
  else if syscall =? SYSCALL_WRITE then run (do_write current param1 param2)
  else if syscall =? SYSCALL_EXPAND then run (do_expand current param1 (s32 param2))
  else if syscall =? SYSCALL_SHRINK then run (do_shrink current param1 (s32 param2))
  else if syscall =? SYSCALL_ALARM then do_alarm (u32 param1)
  else if syscall =? SYSCALL_SLEEP then do_sleep (u32 param1)
  else if syscall =? SYSCALL_SIGNAL then do_signal (s32 param1) param2
  else if syscall =? SYSCALL_CLONE then do_clone param1 param2
  else if syscall =? SYSCALL_FORK then do_fork
  else if syscall =? SYSCALL_STATS then modify print_stats ;;; ret 0
  else if syscall =? SYSCALL_CONFIGURE then modify (set_config user_config) ;;; ret 0
  else ret (-1).

(** ** Faults *)

Definition do_div_by_zero (regs : user_regs) : M user_regs :=
  modify (kprintf "Div-by-zero @ [%x]\n" [PInt (entry_rip regs)]) ;;;
  invoke_sync_signal SIGFPE regs.

(** What [do_page_fault] decides for a fault at [cr2]. *)
Inductive fault_action := HandleFault | SignalFault.

Definition in_segment (seg : mm_segment) (a : Z) : bool := (a >=? seg_start seg) && (a <=? seg_end seg).

Definition fault_decision (c : exec_context) (cr2 error_code : Z) : fault_action :=
  if negb ((error_code .& 1) =? 0) then SignalFault
  else if in_segment (mms c MM_SEG_DATA) cr2 then
    if cr2 <? seg_next_free (mms c MM_SEG_DATA) then HandleFault else SignalFault
  else if in_segment (mms c MM_SEG_RODATA) cr2 then
    if (cr2 <? seg_next_free (mms c MM_SEG_RODATA)) && ((error_code .& 2) =? 0) then HandleFault else SignalFault
  else if in_segment (mms c MM_SEG_STACK) cr2 then
    if cr2 <? seg_next_free (mms c MM_SEG_STACK) then HandleFault else SignalFault
  else SignalFault.

Definition do_page_fault (cr2 error_code : Z) (regs : user_regs) : M user_regs :=
  current <- get_current_ctx ;;
  modify (fun k => set_stats (count_page_fault (stats k)) k) ;;;
  c <- gets (fun k => ctx_at k current) ;;
  match fault_decision c cr2 error_code with
  | HandleFault => modify (install_page_table (pgd c) cr2 error_code) ;;; ret regs
  | SignalFault =>
      modify (kprintf "PF Error @ [RIP: %x] [accessed VA: %x] [error code: %x]\n"
        [PInt (entry_rip regs); PInt cr2; PInt error_code]) ;;;
      invoke_sync_signal SIGSEGV regs
  end.

(** A general protection fault (idt.c) ends the process. *)
Definition do_gp (error rip cr2 : Z) : M Z :=
  modify (kprintf "General protection fault @ RIP = %x error=%x UserVA=%x\n" [PInt rip; PInt error; PInt cr2]) ;;;
  do_exit ;;; ret 0.
