(* ===== verification/User.v ===== *)
(** * user/: the programs that run as init

    A user program is a tree of the system calls it makes and of its loads and
    stores; [urun] runs it on a memory and a list of answers of the kernel,
    and records what it does in order.  Local arrays and structures are at
    addresses that the compiler chose, parameters of the programs. *)
From S2P Require Import Prelude Mem Lib Machine Memory PageAlloc Frames Printf Serial PageTable PageMap Kernel Apic Idt Context Sched Shell Dsh Entry.
#[local] Open Scope gemos_scope.

Inductive uprog (A : Type) : Type :=
| Done (a : A)
| Syscall (num : Z) (args : list Z) (k : Z -> uprog A)
| Load (a : Z) (k : Z -> uprog A)
| Store (n : nat) (a v : Z) (p : uprog A).
Arguments Done {A}.
Arguments Syscall {A}.
Arguments Load {A}.
Arguments Store {A}.

Fixpoint ubind {A B} (p : uprog A) (f : A -> uprog B) : uprog B :=
  match p with
  | Done a => f a
  | Syscall num args k => Syscall num args (fun r => ubind (k r) f)
  | Load a k => Load a (fun v => ubind (k v) f)
  | Store n a v p => Store n a v (ubind p f)
  end.

Notation "'do' x <- p ; q" := (ubind p (fun x => q)) (at level 10, x name, p at level 100, q at level 200) : gemos_scope.
Notation "p ;> q" := (ubind p (fun _ => q)) (at level 110, right associativity) : gemos_scope.

(** ** Running a program *)

Inductive uevent :=
| UCall (num : Z) (args : list Z)
| UStore (n : nat) (a v : Z).

Record ustate := UState { u_mem : mem; u_answers : list Z; u_done : list uevent }.

(** No result: the process waits for an answer that does not come, or has
    exited. *)
Fixpoint urun {A} (p : uprog A) (s : ustate) : option A * ustate :=
  match p with
  | Done a => (Some a, s)
  | Syscall num args k =>
      let s' ans := UState (u_mem s) ans (u_done s ++ [UCall num args]) in
      match u_answers s with
      | [] => (None, s' [])
      | r :: ans => urun (k r) (s' ans)
      end
  | Load a k => urun (k (ld8 (u_mem s) a)) s
  | Store n a v p => urun p (UState (stn n (u_mem s) a v) (u_answers s) (u_done s ++ [UStore n a v]))
  end.

Lemma urun_bind {A B} (p : uprog A) (f : A -> uprog B) s :
  urun (ubind p f) s = match urun p s with (Some a, s') => urun (f a) s' | (None, s') => (None, s') end.
Proof.
  revert s. induction p as [a|num args k IH|a k IH|n a v p IH]; intros s; cbn [ubind urun]; [done| | |].
  - case_match; [done|]. apply IH.
  - apply IH.
  - apply IH.
Qed.

(** ** System calls *)

Definition ret_u64 (r : Z) : uprog Z := Done r.

Definition _syscall0 (syscall_num : Z) : uprog Z := Syscall syscall_num [] ret_u64.
Definition _syscall1 (syscall_num arg : Z) : uprog Z := Syscall syscall_num [u64 arg] ret_u64.
Definition _syscall2 (syscall_num arg1 arg2 : Z) : uprog Z := Syscall syscall_num [u64 arg1; u64 arg2] ret_u64.

Definition exit (code : Z) : uprog Z := _syscall1 SYSCALL_EXIT code.
Definition getpid : uprog Z := _syscall0 SYSCALL_GETPID.
Definition fork : uprog Z := _syscall0 SYSCALL_FORK.
Definition get_stats : uprog Z := _syscall0 SYSCALL_STATS.
Definition configure (new_config : Z) : uprog Z := _syscall1 SYSCALL_CONFIGURE new_config.
Definition write (ptr size : Z) : uprog Z := _syscall2 SYSCALL_WRITE ptr size.
Definition signal (num handler : Z) : uprog Z := _syscall2 SYSCALL_SIGNAL num handler.
Definition sleep (ticks : Z) : uprog Z := _syscall1 SYSCALL_SLEEP ticks.
Definition expand (size flags : Z) : uprog Z := _syscall2 SYSCALL_EXPAND size flags.
Definition clone (func stack_addr : Z) : uprog Z := _syscall2 SYSCALL_CLONE func stack_addr.

(** [init_start] calls [main] and exits. *)
Definition init_start (main : list Z -> uprog Z) (args : list Z) : uprog Z :=
  do _ <- main args ; exit 0.

(** Characters stored one after the other. *)
Fixpoint put_chars (a : Z) (cs : list Z) : uprog Z :=
  match cs with
  | [] => Done a
  | c :: cs => Store 1 a c (put_chars (a + 1) cs)
  end.

(** [DECLARE_MSG]: the text [MSG] and its NUL, the digit of [pid] in place of
    the last character but one. *)
Definition declare_msg (MSG : list Z) (msg pid : Z) : uprog unit :=
  put_chars msg (MSG ++ [0]) ;> Store 1 (msg + Z.of_nat (length MSG) + 1 - 3) (48 + pid) (Done tt).

(** ** user/init.c *)

Module Init.
Definition MSG : list Z := codes "pid = &" ++ [10].

(** [n] iterations to go of the loop that touches a page. *)
Fixpoint pageset_loop (n : nat) (p val : Z) : uprog unit :=
  match n with
  | O => Done tt
  | S n => Store 8 p val (pageset_loop n (p + 8 * 128) val)
  end.

(** ctr is 0, 1024, 2048 and 3072. *)
Definition pageset (p val : Z) : uprog unit := pageset_loop 4 p val.

Fixpoint pages_loop (n : nat) (ptr ctr : Z) : uprog unit :=
  match n with
  | O => Done tt
  | S n => pageset (ptr + (ctr << 12)) 0x1000 ;> pages_loop n ptr (ctr + 1)
  end.

Fixpoint rounds_loop (total_count : nat) (ptr : Z) : uprog unit :=
  match total_count with
  | O => Done tt
  | S n => pages_loop 512 ptr 0 ;> rounds_loop n ptr
  end.

(** What the first child and its own child do. *)
Definition child (msg' : Z) : uprog unit :=
  fork ;>
  do mpid <- getpid ;
  declare_msg MSG msg' mpid ;>
  do ptr <- expand 512 MAP_WR ;
  rounds_loop 64 ptr.

(** [msg], [msg'] and [new_config] are the addresses of the locals. *)
Definition main (msg msg' new_config : Z) (args : list Z) : uprog Z :=
  do pid <- getpid ;
  declare_msg MSG msg pid ;>
  write msg (Z.of_nat (length MSG) + 1) ;>
  Store 8 new_config 1 (Store 8 (new_config + 8) 8 (Store 8 (new_config + 16) 0 (Store 8 (new_config + 24) 1 (Done tt)))) ;>
  configure new_config ;>
  do pid <- fork ;
  (if pid =? 0 then child msg' else sleep 1000 ;> Done tt) ;>
  get_stats ;>
  Done 0.
End Init.

(** ** user/init_args.c *)

Module InitArgs.
(** The digits of [arg1], lowest first, into [number]; 20 iterations are
    enough for 64 bits. *)
Fixpoint digits_loop (n : nat) (number arg1 ctr : Z) : uprog Z :=
  match n with
  | O => Done ctr
  | S n =>
      if arg1 =? 0 then Done ctr
      else Store 1 (number + ctr) (arg1 mod 10 + 48) (digits_loop n number (arg1 / 10) (ctr + 1))
  end.

(** [n = ctr + 1] digits are copied to the message, highest first. *)
Fixpoint copy_loop (n : nat) (number message ctr ctr1 ctr2 : Z) : uprog Z :=
  match n with
  | O => Done ctr2
  | S n => Load (number + ctr) (fun c => Store 1 (message + (ctr1 + ctr2)) c (copy_loop n number message (ctr - 1) ctr1 (ctr2 + 1)))
  end.

Definition main (message number : Z) (args : list Z) : uprog Z :=
  let arg1 := nth 0 args 0 in
  put_chars message (codes "ARG1=") ;>
  do ctr <- digits_loop 20 number arg1 0 ;
  let ctr1 := 5 in
  do ctr2 <- copy_loop (Z.to_nat ctr) number message (ctr - 1) ctr1 0 ;
  let ctr1 := ctr1 + ctr2 in
  Store 1 (message + ctr1) 10 (
  let ctr1 := ctr1 + 1 in
  Store 1 (message + ctr1) 0 (
  let ctr1 := ctr1 + 1 in
  write message ctr1 ;>
  Done 0)).
End InitArgs.

(** ** user/init_clone.c *)

Module InitClone.
Definition MSG : list Z := codes "------------------------------- This line is from pid = &" ++ [10].
Definition HANDLER : list Z :=
  codes "---------------- Give 0.5 marks if there was a segmentation fault prior to this and process exits with code 10. -------------------" ++ [10].
Definition sizeof_MSG : Z := Z.of_nat (length MSG) + 1.

(** [handler] is the address of the text. *)
Definition signal_handler (handler : Z) : uprog Z :=
  write handler (Z.of_nat (length HANDLER) + 1) ;> exit 10.

Definition thread1 (msg : Z) : uprog Z :=
  do pid <- getpid ;
  declare_msg MSG msg pid ;>
  write msg sizeof_MSG ;>
  sleep 10 ;>
  write msg sizeof_MSG ;>
  exit 2.

Fixpoint write_loop (j : nat) (msg : Z) : uprog unit :=
  match j with
  | O => Done tt
  | S j => write msg sizeof_MSG ;> write_loop j msg
  end.

Definition thread2 (msg : Z) : uprog Z :=
  do pid <- getpid ;
  declare_msg MSG msg pid ;>
  write msg sizeof_MSG ;>
  sleep 5 ;>
  write_loop 20 msg ;>
  exit 3.

(** [thread1_fn] and [thread2_fn] are the addresses of the functions. *)
Definition main (msg thread1_fn thread2_fn : Z) (args : list Z) : uprog Z :=
  do stack1 <- expand 1 MAP_WR ;
  do stack2 <- expand 1 MAP_WR ;
  Store 8 stack1 0 (Store 8 stack2 0 (
  do pid <- getpid ;
  declare_msg MSG msg pid ;>
  write msg sizeof_MSG ;>
  clone thread1_fn stack1 ;>
  clone thread2_fn stack2 ;>
  sleep 10 ;>
  write msg sizeof_MSG ;>
  exit 1 ;>
  Done 0)).
End InitClone.

(** ** Tests *)

(** init_args with argument 42. *)
Example init_args_42 :
  (urun (init_start (InitArgs.main 0x1000 0x2000) [42; 0; 0; 0; 0]) (UState ∅ [9; 0] [])).2.(u_done)
    = [UStore 1 0x1000 65; UStore 1 0x1001 82; UStore 1 0x1002 71; UStore 1 0x1003 49; UStore 1 0x1004 61;
       UStore 1 0x2000 50; UStore 1 0x2001 52; UStore 1 0x1005 52; UStore 1 0x1006 50;
       UStore 1 0x1007 10; UStore 1 0x1008 0; UCall SYSCALL_WRITE [0x1000; 9]; UCall SYSCALL_EXIT [0]].
Proof. vm_compute. reflexivity. Qed.
