(* ===== verification/Timer.v ===== *)
(** * schedule.c: the timer interrupt

    [do_sleep_and_alarm_account] counts sleeping contexts down and raises
    SIGALRM; [handle_timer_tick] then switches round robin. *)
From S2P Require Import Prelude Mem Lib Machine Memory PageAlloc Frames PageTable PageMap Printf Kernel Apic Idt Context Sched Entry.
Local Open Scope gemos_scope.

(** What one tick does to a context that sleeps. *)
Definition account_sleep (c : exec_context) : exec_context :=
  if bool_decide (state c = WAITING) && (ticks_to_sleep c >? 0) then
    let c := set_ticks (ticks_to_sleep c - 1) (alarm_config_time c) (ticks_to_alarm c) c in
    if ticks_to_sleep c =? 0 then set_state READY c else c
  else c.

(** The loop over the process table, [n] identifiers to go. *)
Fixpoint account_loop (n : nat) (ctr : nat) (k : kernel) : kernel :=
  match n with
  | O => k
  | S n => account_loop n (ctr + 1) (upd_ctx ctr account_sleep k)
  end.

Definition do_sleep_and_alarm_account (regs : user_regs) : M user_regs :=
  ctx <- get_current_ctx ;;
  modify (account_loop (Z.to_nat MAX_PROCESSES) 0) ;;;
  c <- gets (fun k => ctx_at k ctx) ;;
  if ticks_to_alarm c >? 0 then
    modify (upd_ctx ctx (fun c => set_ticks (ticks_to_sleep c) (alarm_config_time c) (ticks_to_alarm c - 1) c)) ;;;
    if ticks_to_alarm c - 1 =? 0 then
      regs <- invoke_sync_signal SIGALRM regs ;;
      modify (upd_ctx ctx (fun c => set_ticks (ticks_to_sleep c) (alarm_config_time c) (alarm_config_time c) c)) ;;;
      ret regs
    else ret regs
  else ret regs.

Definition count_tick (st : os_stats) : os_stats :=
  OsStats (swapper_invocations st) (context_switches st) (lw_context_switches st) (u64 (ticks st + 1))
    (page_faults st) (syscalls st) (used_memory st) (num_processes st).
Definition count_switch (st : os_stats) : os_stats :=
  OsStats (swapper_invocations st) (u64 (context_switches st + 1)) (lw_context_switches st) (ticks st)
    (page_faults st) (syscalls st) (used_memory st) (num_processes st).

(** CR3 is loaded when the contexts have different address spaces.  The other
    branch of the code evaluates [stats->lw_context_switches] and changes nothing. *)
Definition switch_cr3 (ctx new_ctx : nat) (k : kernel) : kernel :=
  if negb (pgd (ctx_at k ctx) =? pgd (ctx_at k new_ctx))
  then fs_emit (ELoadCr3 (u32 (pgd (ctx_at k new_ctx) << PAGE_SHIFT))) k
  else k.

(** The switch of [handle_timer_tick]: the interrupted registers are saved,
    those of the next context returned. *)
Definition switch_on_tick (ctx new_ctx : nat) (regs : user_regs) : M user_regs :=
  modify (fun k => set_stats (count_switch (stats k)) k) ;;;
  modify (upd_ctx ctx (set_regs regs)) ;;;
  regs' <- gets (fun k => Kernel.regs (ctx_at k new_ctx)) ;;
  modify (switch_cr3 ctx new_ctx) ;;;
  modify (fun k => set_tss_stack_ptr (ctx_at k new_ctx) k) ;;;
  modify (set_current (Some new_ctx)) ;;;
  modify (upd_ctx new_ctx (set_state RUNNING)) ;;;
  ret regs'.

Definition handle_timer_tick (regs : user_regs) : M user_regs :=
  ctx <- get_current_ctx ;;
  regs <- do_sleep_and_alarm_account regs ;;
  modify (fun k => set_stats (count_tick (stats k)) k) ;;;
  modify (upd_ctx ctx (set_state READY)) ;;;
  p <- gets (pick_next_context ctx) ;;
  new_ctx <- deref p ;;
  regs <- (if decide (ctx = new_ctx) then ret regs else switch_on_tick ctx new_ctx regs) ;;
  modify ack_irq ;;;
  ret regs.

Definition do_irq (regs : user_regs) : M user_regs := handle_timer_tick regs.

(** ** The accounting of a tick *)

Lemma account_loop_at n ctr k j :
  length (ctx_list k) = 16%nat -> (ctr + n <= 16)%nat ->
  ctx_at (account_loop n ctr k) j =
    (if decide (ctr <= j < ctr + n)%nat then account_sleep (ctx_at k j) else ctx_at k j) /\
  length (ctx_list (account_loop n ctr k)) = 16%nat /\
  current (account_loop n ctr k) = current k /\ stats (account_loop n ctr k) = stats k.
Proof.
  revert ctr k. induction n as [|n IH]; intros ctr k Hl Hn; cbn [account_loop].
  - rewrite decide_False by lia. done.
  - destruct (IH (ctr + 1)%nat (upd_ctx ctr account_sleep k)) as (E & El & Ec & Es);
      [by rewrite length_upd_ctx | lia |].
    rewrite E, El, Ec, Es, ctx_at_upd by lia. split; [|done].
    repeat case_decide; first [done | lia].
Qed.

(** What a tick's accounting leaves of a context: all but its alarm. *)
Definition same_but_alarm (c c' : exec_context) : Prop :=
  state c' = state c /\ ticks_to_sleep c' = ticks_to_sleep c /\ pid c' = pid c /\ pgd c' = pgd c /\
  regs c' = regs c /\ os_stack_pfn c' = os_stack_pfn c.

(** The alarm of the interrupted context: its counter, reloaded when it runs
    out, and the registers, redirected to the handler if there is one. *)
Definition alarm_next (c : exec_context) : Z :=
  if ticks_to_alarm c >? 0 then
    if ticks_to_alarm c - 1 =? 0 then alarm_config_time c else ticks_to_alarm c - 1
  else ticks_to_alarm c.

Definition alarm_regs (c : exec_context) (regs : user_regs) : user_regs :=
  if (ticks_to_alarm c =? 1) && negb (sighandler c SIGALRM =? 0)
  then regs_set_rip_rsp (sighandler c SIGALRM) (u64 (entry_rsp regs - 8)) regs
  else regs.

Lemma account_sleep_alarm c :
  ticks_to_alarm (account_sleep c) = ticks_to_alarm c /\
  alarm_config_time (account_sleep c) = alarm_config_time c /\
  sighandlers (account_sleep c) = sighandlers c.
Proof. unfold account_sleep. by repeat case_match. Qed.

(** The table is that of [k] after the sleep accounting, up to the alarm
    counter of [c]. *)
Record accounted (k : kernel) (c : nat) (k2 : kernel) : Prop := {
  acc_length : length (ctx_list k2) = 16%nat;
  acc_current : current k2 = Some c;
  acc_stats : stats k2 = stats k;
  acc_same j : (j < 16)%nat -> same_but_alarm (account_sleep (ctx_at k j)) (ctx_at k2 j);
  acc_others j : (j < 16)%nat -> j <> c -> ticks_to_alarm (ctx_at k2 j) = ticks_to_alarm (ctx_at k j);
  acc_config : alarm_config_time (ctx_at k2 c) = alarm_config_time (ctx_at k c);
  acc_handlers : sighandlers (ctx_at k2 c) = sighandlers (ctx_at k c)
}.

Lemma accounted_upd k c k2 (v w : exec_context -> Z) :
  accounted k c k2 -> (c < 16)%nat ->
  (forall c, v c = alarm_config_time c) ->
  let k3 := upd_ctx c (fun c => set_ticks (ticks_to_sleep c) (v c) (w c) c) k2 in
  accounted k c k3 /\ ticks_to_alarm (ctx_at k3 c) = w (ctx_at k2 c).
Proof.
  intros Ha Hc Hv k3. pose proof (acc_length _ _ _ Ha) as Hl.
  assert (Hat : forall j, ctx_at k3 j = if decide (c = j)
    then set_ticks (ticks_to_sleep (ctx_at k2 j)) (v (ctx_at k2 j)) (w (ctx_at k2 j)) (ctx_at k2 j)
    else ctx_at k2 j) by (intros j; unfold k3; by rewrite ctx_at_upd by lia).
  split; [split|].
  - unfold k3. by rewrite length_upd_ctx.
  - apply Ha.
  - apply Ha.
  - intros j Hj. rewrite Hat. case_decide; apply (acc_same _ _ _ Ha j Hj).
  - intros j Hj Hne. rewrite Hat, decide_False by congruence. by apply Ha.
  - rewrite Hat, decide_True by done. cbn. rewrite Hv. apply Ha.
  - rewrite Hat, decide_True by done. apply Ha.
  - by rewrite Hat, decide_True.
Qed.

Lemma account_loop_ok k c :
  length (ctx_list k) = 16%nat -> current k = Some c -> (c < 16)%nat ->
  let k0 := account_loop (Z.to_nat MAX_PROCESSES) 0 k in
  accounted k c k0 /\ ticks_to_alarm (ctx_at k0 c) = ticks_to_alarm (ctx_at k c).
Proof.
  change (Z.to_nat MAX_PROCESSES) with 16%nat. intros Hl Hc Hc16 k0.
  assert (Hk0 : forall j, (j < 16)%nat -> ctx_at k0 j = account_sleep (ctx_at k j)).
  { intros j Hj. destruct (account_loop_at 16 0 k j) as (E & _); [done | lia |].
    unfold k0. rewrite E. by rewrite decide_True by lia. }
  destruct (account_loop_at 16 0 k 0) as (_ & El0 & Ecur0 & Es0); [done | lia |].
  destruct (account_sleep_alarm (ctx_at k c)) as (At & Ac & As). rewrite <- (Hk0 c Hc16) in At, Ac, As.
  split; [split | ]; try done.
  - intros j Hj. by rewrite Hk0.
  - intros j Hj _. rewrite Hk0 by done. apply account_sleep_alarm.
Qed.

Lemma do_sleep_and_alarm_account_ok regs k c :
  length (ctx_list k) = 16%nat -> current k = Some c -> (c < 16)%nat ->
  exists k1, do_sleep_and_alarm_account regs k = Ret (alarm_regs (ctx_at k c) regs) k1 /\
    accounted k c k1 /\ ticks_to_alarm (ctx_at k1 c) = alarm_next (ctx_at k c).
Proof.
  intros Hl Hc Hc16. unfold do_sleep_and_alarm_account. mrun.
  destruct (account_loop_ok k c Hl Hc Hc16) as [A0 E0]. set (k0 := account_loop _ 0 k) in *. clearbody k0.
  unfold alarm_regs, alarm_next, sighandler. rewrite E0. set (t := ticks_to_alarm (ctx_at k c)) in *.
  rewrite Z.gtb_ltb. destruct (Z.ltb_spec 0 t) as [Ht|Ht].
  2:{ destruct (Z.eqb_spec t 1); [lia|]. by exists k0. }
  destruct (accounted_upd k c k0 alarm_config_time (fun c => ticks_to_alarm c - 1) A0 Hc16) as [A1 E1]; [done|].
  set (k1 := upd_ctx c _ k0) in *. rewrite E0 in E1. fold t in E1. clearbody k1.
  destruct (Z.eqb_spec (t - 1) 0) as [Et|Et].
  2:{ destruct (Z.eqb_spec t 1); [lia|]. by exists k1. }
  destruct (Z.eqb_spec t 1); [|lia]. cbn [andb]. unfold invoke_sync_signal. pose proof (acc_current _ _ _ A1) as Hc1.
  mrun. unfold sighandler. rewrite (acc_handlers _ _ _ A1). set (h := default 0 _).
  change (SIGALRM =? SIGALRM) with true. rewrite andb_false_r.
  assert (Hfin : forall k2, ctx_list k2 = ctx_list k1 -> current k2 = current k1 -> stats k2 = stats k1 ->
    accounted k c k2).
  { intros k2 El Ecur Est. destruct A1 as [a1 a2 a3 a4 a5 a6 a7].
    assert (Hat : forall j, ctx_at k2 j = ctx_at k1 j) by (intros j; unfold ctx_at; by rewrite El).
    split; rewrite ?El, ?Ecur, ?Est, ?Hat; try done; intros j; rewrite Hat; auto. }
  destruct (h =? 0); cbn [negb].
  - eexists. split; [done|].
    destruct (accounted_upd k c k1 alarm_config_time alarm_config_time A1 Hc16) as [A2 E2]; [done|].
    split; [exact A2|]. etransitivity; [exact E2|]. apply A1.
  - eexists. split; [done|].
    set (k2 := fs_emit _ k1).
    assert (A2 : accounted k c k2) by (by apply Hfin).
    destruct (accounted_upd k c k2 alarm_config_time alarm_config_time A2 Hc16) as [A3 E3]; [done|].
    split; [exact A3|]. etransitivity; [exact E3|]. apply A2.
Qed.

(** ** A tick *)

(** Context [c] of a well-formed table is current and in use. *)
Record running_ok (k : kernel) (c : nat) : Prop := {
  run_table : table_ok k;
  run_current : current k = Some c;
  run_range : (c < 16)%nat;
  run_used : state_of k c <> UNUSED
}.

(** The states among which a tick in context [c] chooses. *)
Definition tick_state (k : kernel) (c j : nat) : process_state :=
  if decide (j = c) then READY else state (account_sleep (ctx_at k j)).

(** The effect of a tick that interrupts [c], whose registers are [regs], and
    goes on with [i] and the registers [regs']. *)
Record tick_post (k k' : kernel) (c i : nat) (regs regs' : user_regs) : Prop := {
  tp_running : running_ok k' i;
  tp_choice : i = default 0%nat (first_ready (tick_state k c) (candidates c));
  tp_state j : (j < 16)%nat ->
    state_of k' j = if decide (j = i /\ i <> c) then RUNNING else tick_state k c j;
  tp_sleep j : (j < 16)%nat ->
    ticks_to_sleep (ctx_at k' j) = ticks_to_sleep (account_sleep (ctx_at k j));
  tp_load : regs' = if decide (i = c) then alarm_regs (ctx_at k c) regs else Kernel.regs (ctx_at k i);
  tp_save j : (j < 16)%nat ->
    Kernel.regs (ctx_at k' j) =
      if decide (j = c /\ i <> c) then alarm_regs (ctx_at k c) regs else Kernel.regs (ctx_at k j);
  tp_alarm : ticks_to_alarm (ctx_at k' c) = alarm_next (ctx_at k c);
  tp_ticks : ticks (stats k') = u64 (ticks (stats k) + 1)
}.

Lemma first_ready_ext st st' l :
  (forall j, j ∈ l -> st j = st' j) -> first_ready st l = first_ready st' l.
Proof.
  unfold first_ready. induction l as [|x l IH]; intros E; [done|]. cbn [find].
  rewrite (E x) by set_solver. case_match; [done|]. apply IH. set_solver.
Qed.

Lemma account_sleep_used c : state (account_sleep c) <> UNUSED <-> state c <> UNUSED.
Proof.
  unfold account_sleep. destruct (bool_decide (state c = WAITING)) eqn:E; cbn [andb]; [|done].
  apply bool_decide_eq_true in E. destruct (ticks_to_sleep c >? 0); [|done]. cbn [set_ticks ticks_to_sleep].
  destruct (ticks_to_sleep c - 1 =? 0); cbn [set_state set_ticks state]; rewrite E; by split.
Qed.

Lemma account_sleep_pid c : pid (account_sleep c) = pid c.
Proof. unfold account_sleep. by repeat case_match. Qed.

Lemma account_sleep_regs c : Kernel.regs (account_sleep c) = Kernel.regs c.
Proof. unfold account_sleep. by repeat case_match. Qed.

(** A table whose contexts have the identifiers of a well-formed one, and are
    in use where they were, is well formed. *)
Lemma table_ok_same k k' :
  table_ok k -> length (ctx_list k') = 16%nat ->
  (forall j, (j < 16)%nat -> pid (ctx_at k' j) = pid (ctx_at k j) /\
    (state_of k' j <> UNUSED <-> state_of k j <> UNUSED)) -> table_ok k'.
Proof.
  intros [_ Hp Hs] Hl H. split; [done| |].
  - intros j Hj Hu. destruct (H j Hj) as [-> Hiff]. apply Hp; [done|]. by apply Hiff.
  - apply H; [lia | done].
Qed.

(** The contexts after the end of the handler, once [i] is chosen. *)
Definition switched (k : kernel) (c i : nat) (regs : user_regs) (j : nat) : exec_context :=
  if decide (i = c) then ctx_at k j
  else if decide (j = c) then set_regs regs (ctx_at k j)
  else if decide (j = i) then set_state RUNNING (ctx_at k j)
  else ctx_at k j.

Lemma finish_tick_ok regs k c i :
  length (ctx_list k) = 16%nat -> current k = Some c -> (c < 16)%nat -> (i < 16)%nat ->
  exists k',
    (regs <- (if decide (c = i) then ret regs else switch_on_tick c i regs) ;;
     modify ack_irq ;;; ret regs) k
      = Ret (if decide (i = c) then regs else Kernel.regs (ctx_at k i)) k' /\
    length (ctx_list k') = 16%nat /\ current k' = Some i /\ ticks (stats k') = ticks (stats k) /\
    forall j, (j < 16)%nat -> ctx_at k' j = switched k c i regs j.
Proof.
  intros Hl Hcur Hc Hi. unfold switched. destruct (decide (c = i)) as [<-|Hne].
  - rewrite decide_True by done. mrun. eexists. split; [done|]. split_and!; [done..|].
    intros j Hj. by rewrite decide_True.
  - rewrite !(decide_False (P := i = c)) by done. unfold switch_on_tick. mrun. set (k1 := upd_ctx c (set_regs regs) _).
    assert (H1 : forall j, ctx_at k1 j = if decide (c = j) then set_regs regs (ctx_at k j) else ctx_at k j).
    { intros j. unfold k1. by rewrite ctx_at_upd by (cbn; lia). }
    assert (Hl1 : length (ctx_list k1) = 16%nat) by (unfold k1; by rewrite length_upd_ctx).
    assert (Ht1 : ticks (stats k1) = ticks (stats k)) by done.
    clearbody k1. rewrite (H1 i), (decide_False (P := c = i)) by done. set (k2 := switch_cr3 c i k1).
    assert (E2 : ctx_list k2 = ctx_list k1 /\ stats k2 = stats k1)
      by (unfold k2, switch_cr3; by destruct (negb _)).
    clearbody k2. destruct E2 as [E2 Es2]. eexists. split; [done|].
    set (k3 := upd_ctx i (set_state RUNNING) _).
    change (length (ctx_list k3) = 16%nat /\ Some i = Some i /\ ticks (stats k2) = ticks (stats k) /\
      forall j, (j < 16)%nat -> ctx_at k3 j =
        if decide (i = c) then ctx_at k j
        else if decide (j = c) then set_regs regs (ctx_at k j)
        else if decide (j = i) then set_state RUNNING (ctx_at k j) else ctx_at k j).
    rewrite Es2. unfold k3. rewrite length_upd_ctx.
    match goal with |- context [upd_ctx i (set_state RUNNING) ?k'] => set (k4 := k') end.
    assert (E4 : ctx_list k4 = ctx_list k1) by exact E2. clearbody k4.
    rewrite E4. split_and!; [done..|]. intros j Hj.
    rewrite ctx_at_upd by (rewrite E4; lia). rewrite (decide_False (P := i = c)) by done.
    assert (ctx_at k4 j = ctx_at k1 j) as -> by (unfold ctx_at; by rewrite E4).
    rewrite H1. destruct (decide (c = j)) as [<-|Hcj].
    + rewrite !decide_False by congruence. by rewrite decide_True.
    + rewrite (decide_False (P := j = c)) by congruence.
      destruct (decide (i = j)) as [<-|Hij]; [by rewrite decide_True | by rewrite decide_False by congruence].
Qed.

Lemma switched_keeps {A} (f : exec_context -> A) k c i regs j :
  (forall r x, f (set_regs r x) = f x) -> (forall st x, f (set_state st x) = f x) ->
  f (switched k c i regs j) = f (ctx_at k j).
Proof. intros Hr Hs. unfold switched. by repeat case_decide. Qed.

(** From the contexts [k2] among which [i] was chosen to the effect of the tick. *)
Lemma tick_post_intro k k1 k2 k' c i regs :
  table_ok k -> (c < 16)%nat -> state_of k c <> UNUSED -> (i < 16)%nat ->
  (forall j, (j < 16)%nat -> state_of k2 j = tick_state k c j /\
    ticks_to_sleep (ctx_at k2 j) = ticks_to_sleep (account_sleep (ctx_at k j)) /\
    pid (ctx_at k2 j) = pid (ctx_at k j) /\ Kernel.regs (ctx_at k2 j) = Kernel.regs (ctx_at k j) /\
    ticks_to_alarm (ctx_at k2 j) = ticks_to_alarm (ctx_at k1 j)) ->
  ticks_to_alarm (ctx_at k1 c) = alarm_next (ctx_at k c) ->
  ticks (stats k2) = u64 (ticks (stats k) + 1) -> (i <> 0%nat -> tick_state k c i = READY) ->
  i = default 0%nat (first_ready (tick_state k c) (candidates c)) ->
  length (ctx_list k') = 16%nat -> current k' = Some i -> ticks (stats k') = ticks (stats k2) ->
  (forall j, (j < 16)%nat -> ctx_at k' j = switched k2 c i (alarm_regs (ctx_at k c) regs) j) ->
  tick_post k k' c i regs
    (if decide (i = c) then alarm_regs (ctx_at k c) regs else Kernel.regs (ctx_at k2 i)).
Proof.
  intros Htab Hc Hu Hi H2 Hal1 Htk2 Hready Eic Hl' Hcur' Htk' H'.
  assert (Hst : forall j, (j < 16)%nat ->
    state_of k' j = if decide (j = i /\ i <> c) then RUNNING else tick_state k c j).
  { intros j Hj. destruct (H2 j Hj) as (E & _). unfold state_of in *. rewrite (H' j Hj), <- E. unfold switched.
    destruct (decide (i = c)) as [->|Hic]; [by rewrite decide_False by tauto|].
    destruct (decide (j = c)) as [->|Hjc]; [by rewrite decide_False by (intros [? _]; congruence)|].
    destruct (decide (j = i)) as [->|Hji]; [by rewrite decide_True | by rewrite decide_False by tauto]. }
  assert (Huse : forall j, (j < 16)%nat -> tick_state k c j <> UNUSED <-> state_of k j <> UNUSED).
  { intros j Hj. unfold tick_state. destruct (decide (j = c)) as [->|_]; [split; [by intros _ | done]|].
    apply account_sleep_used. }
  assert (Hused : tick_state k c i <> UNUSED).
  { destruct (decide (i = 0%nat)) as [E0|E0]; [|by rewrite Hready]. apply Huse; [done|]. rewrite E0. apply Htab. }
  assert (Htab' : table_ok k').
  { apply (table_ok_same k); [done..|]. intros j Hj. rewrite Hst, <- Huse by done. split.
    - destruct (H2 j Hj) as (_ & _ & <- & _). rewrite (H' j Hj). by rewrite switched_keeps.
    - destruct (decide (j = i /\ i <> c)) as [[-> _]|_]; [by split | done]. }
  split; [split; [done..|] | done | done | | | | | ].
  - rewrite Hst by done. by destruct (decide _).
  - intros j Hj. destruct (H2 j Hj) as (_ & <- & _). rewrite (H' j Hj). by rewrite switched_keeps.
  - destruct (H2 i Hi) as (_ & _ & _ & -> & _). done.
  - intros j Hj. destruct (H2 j Hj) as (_ & _ & _ & <- & _). rewrite (H' j Hj). unfold switched.
    destruct (decide (i = c)) as [->|Hic]; [by rewrite decide_False by tauto|].
    destruct (decide (j = c)) as [->|Hjc]; [by rewrite decide_True|].
    rewrite (decide_False (P := j = c /\ i <> c)) by tauto. by destruct (decide (j = i)).
  - rewrite <- Hal1. destruct (H2 c Hc) as (_ & _ & _ & _ & <-). rewrite (H' c Hc). unfold switched.
    by repeat case_decide.
  - by rewrite Htk'.
Qed.

Lemma handle_timer_tick_ok regs k c :
  running_ok k c ->
  exists regs' k' i, handle_timer_tick regs k = Ret regs' k' /\ tick_post k k' c i regs regs'.
Proof.
  intros [Htab Hcur Hc Hu]. pose proof (tab_length _ Htab) as Hl.
  destruct (do_sleep_and_alarm_account_ok regs k c Hl Hcur Hc) as (k1 & E1 & [Hl1 Hcur1 Hst1 Hs1 _ _ _] & Hal1).
  unfold handle_timer_tick. mrun. rewrite E1. mrun. set (regs1 := alarm_regs _ regs).
  set (k2 := upd_ctx c (set_state READY) _).
  assert (H2 : forall j, (j < 16)%nat -> state_of k2 j = tick_state k c j /\
    ticks_to_sleep (ctx_at k2 j) = ticks_to_sleep (account_sleep (ctx_at k j)) /\
    pid (ctx_at k2 j) = pid (ctx_at k j) /\ Kernel.regs (ctx_at k2 j) = Kernel.regs (ctx_at k j) /\
    ticks_to_alarm (ctx_at k2 j) = ticks_to_alarm (ctx_at k1 j)).
  { intros j Hj. unfold state_of, k2. rewrite ctx_at_upd by (cbn; lia).
    destruct (Hs1 j Hj) as (Es & Et & Ep & _ & Er & _). unfold tick_state.
    rewrite account_sleep_pid in Ep. rewrite account_sleep_regs in Er. repeat case_decide; by subst. }
  assert (Hl2 : length (ctx_list k2) = 16%nat) by (unfold k2; by rewrite length_upd_ctx).
  assert (Hcur2 : current k2 = Some c) by done.
  assert (Htk2 : ticks (stats k2) = u64 (ticks (stats k) + 1)) by (unfold k2; cbn; by rewrite Hst1).
  clearbody k2.
  assert (Hpid : pid (ctx_at k2 c) = Z.of_nat c).
  { destruct (H2 c Hc) as (_ & _ & -> & _). by apply (tab_pid _ Htab). }
  rewrite (pick_next_context_first c k2 Hc Hpid).
  rewrite (first_ready_ext (state_of k2) (tick_state k c))
    by (intros j Hj%candidates_range; [apply H2; lia | done]).
  set (i := default 0%nat _). cbn [deref].
  assert (Hi : (i < 16)%nat) by (by apply first_ready_range).
  assert (Hready : i <> 0%nat -> tick_state k c i = READY) by apply first_ready_ready.
  assert (Eic : i = default 0%nat (first_ready (tick_state k c) (candidates c))) by done.
  clearbody i. destruct (finish_tick_ok regs1 k2 c i Hl2 Hcur2 Hc Hi) as (k' & E' & Hl' & Hcur' & Htk' & H').
  eexists _, k', i. split; [exact E'|]. by apply (tick_post_intro k k1 k2).
Qed.

(** ** Fairness *)

(** The place of [i] in the cyclic order after [p]. *)
Definition rank (p i : nat) : nat :=
  if decide (p < i)%nat then (i - p - 1)%nat else (15 - p + (i - 1))%nat.

Lemma candidates_rank p n i :
  (p < 16)%nat -> candidates p !! n = Some i -> (1 <= i < 16)%nat /\ n = rank p i.
Proof.
  intros Hp H. unfold candidates in H. unfold rank. apply lookup_app_Some in H as [H|[Hn H]].
  - apply lookup_seq in H as [-> H]. rewrite decide_True by lia. lia.
  - rewrite length_seq in Hn, H. apply lookup_seq in H as [-> H]. rewrite decide_False by lia. lia.
Qed.

Lemma first_ready_rank st p i :
  (p < 16)%nat -> (1 <= i < 16)%nat -> st i = READY ->
  exists j, first_ready st (candidates p) = Some j /\ (1 <= j < 16)%nat /\ (rank p j <= rank p i)%nat.
Proof.
  intros Hp Hi Hr. unfold first_ready.
  assert (Hin : i ∈ candidates p) by (by apply candidates_range).
  destruct (find _ _) as [j|] eqn:E.
  - apply find_split in E as (l1 & l2 & E & _ & Hl1).
    destruct (candidates_rank p (length l1) j Hp) as [Hj Hrj]; [by rewrite E, list_lookup_middle|].
    exists j. split_and!; [done..| lia | lia |].
    apply list_elem_of_lookup in Hin as [n Hn]. destruct (candidates_rank p n i Hp Hn) as [_ <-].
    rewrite <- Hrj. destruct (decide (n < length l1)%nat); [|lia].
    rewrite E, lookup_app_l in Hn by done. apply (Forall_lookup_1 _ _ _ _ Hl1) in Hn.
    by apply bool_decide_eq_false in Hn.
  - apply list_elem_of_In in Hin. pose proof (find_none _ _ E i Hin) as Hn.
    by apply bool_decide_eq_false in Hn.
Qed.

(** Going on with a context closer than [i] brings [i] nearer. *)
Lemma rank_decreases p j i :
  (p < 16)%nat -> (1 <= j < 16)%nat -> (1 <= i < 16)%nat -> (rank p j <= rank p i)%nat -> j <> i ->
  p <> i -> (rank j i < rank p i)%nat.
Proof. unfold rank. intros. repeat case_decide; lia. Qed.

(** Timer ticks in a row, with the registers that each interrupts. *)
Fixpoint run_ticks (rs : list user_regs) (k : kernel) : option kernel :=
  match rs with
  | [] => Some k
  | r :: rs => match handle_timer_tick r k with Ret _ k => run_ticks rs k | _ => None end
  end.

Lemma account_sleep_ready c : state c = READY -> state (account_sleep c) = READY.
Proof. unfold account_sleep. intros E. by rewrite E. Qed.

Lemma ready_scheduled n rs k c i :
  running_ok k c -> (1 <= i < 16)%nat -> state_of k i = READY -> c <> i ->
  (rank c i <= n)%nat -> (n < length rs)%nat ->
  exists rs1 rs2 k', rs = rs1 ++ rs2 /\ run_ticks rs1 k = Some k' /\ current k' = Some i.
Proof.
  revert rs k c. induction n as [|n IH]; intros rs k c Hok Hi Hr Hne Hn Hl;
    (destruct rs as [|r rs]; [cbn in Hl; lia|]);
    destruct (handle_timer_tick_ok r k c Hok) as (r' & k1 & j & E & P);
    pose proof (run_range _ _ Hok) as Hc;
    assert (Hti : tick_state k c i = READY)
      by (unfold tick_state; rewrite decide_False by congruence; by apply account_sleep_ready);
    destruct (first_ready_rank (tick_state k c) c i Hc Hi Hti) as (j' & Ej & Hj & Hrk);
    pose proof (tp_choice _ _ _ _ _ _ P) as Ech; rewrite Ej in Ech; cbn [default from_option id] in Ech; subst j';
    (destruct (decide (j = i)) as [->|Hji];
      [exists [r], rs, k1; split_and!; [done | cbn; by rewrite E | apply P] | ]).
  - pose proof (rank_decreases c j i Hc Hj Hi Hrk Hji Hne). lia.
  - destruct (IH rs k1 j) as (rs1 & rs2 & k' & -> & Er & Hcur').
    + apply P.
    + done.
    + rewrite (tp_state _ _ _ _ _ _ P) by lia. rewrite decide_False by (intros [? _]; congruence). done.
    + done.
    + pose proof (rank_decreases c j i Hc Hj Hi Hrk Hji Hne). lia.
    + cbn in Hl. lia.
    + exists (r :: rs1), rs2, k'. split_and!; [done | cbn; by rewrite E | done].
Qed.

(** ** Properties *)

(** C11: the timer handler always returns; it goes on with the round-robin
    choice among the contexts ready after one tick of sleep accounting, saves
    the interrupted registers and loads those of the next context, keeps every
    other context's state and registers, counts the alarm of the interrupted
    context down, and leaves the process table well formed. *)
Theorem handle_timer_tick_correct regs k c :
  running_ok k c ->
  exists regs' k' i, handle_timer_tick regs k = Ret regs' k' /\ tick_post k k' c i regs regs'.
Proof. apply handle_timer_tick_ok. Qed.

(** C13: no ready process starves: whatever the registers at each tick, a ready
    context other than the swapper is current after at most 15 ticks. *)
Theorem ready_process_scheduled rs k c i :
  running_ok k c -> (1 <= i < 16)%nat -> state_of k i = READY -> (15 <= length rs)%nat ->
  exists rs1 rs2 k', rs = rs1 ++ rs2 /\ run_ticks rs1 k = Some k' /\ current k' = Some i.
Proof.
  intros Hok Hi Hr Hl. destruct (decide (c = i)) as [<-|Hne].
  - exists [], rs, k. split_and!; [done..|apply Hok].
  - apply (ready_scheduled 14 rs k c i); try done.
    pose proof (run_range _ _ Hok). unfold rank. case_decide; lia.
Qed.

Lemma tick_sleeper k k' c j i r r' :
  tick_post k k' c j r r' -> (c < 16)%nat -> (1 <= i < 16)%nat -> i <> c -> state_of k i = WAITING ->
  let t := ticks_to_sleep (ctx_at k i) in
  if decide (t = 1) then state_of k' i = READY \/ state_of k' i = RUNNING
  else 0 <= t ->
    state_of k' i = WAITING /\ ticks_to_sleep (ctx_at k' i) = Z.max 0 (t - 1) /\ j <> i.
Proof.
  intros P Hc Hi Hne Hw t.
  assert (Ets : tick_state k c i = state (account_sleep (ctx_at k i)))
    by (unfold tick_state; by rewrite decide_False).
  pose proof (tp_state _ _ _ _ _ _ P i ltac:(lia)) as Es.
  pose proof (tp_sleep _ _ _ _ _ _ P i ltac:(lia)) as Et.
  unfold account_sleep in Ets, Et. rewrite bool_decide_true in Ets, Et by done. fold t in Ets, Et.
  cbn [andb] in Ets, Et. rewrite Z.gtb_ltb in Ets, Et. destruct (decide (t = 1)) as [E1|E1].
  - rewrite E1 in Ets. change (0 <? 1) with true in Ets. cbn [set_ticks ticks_to_sleep Z.sub Z.eqb] in Ets.
    rewrite Es, Ets. destruct (decide _); auto.
  - intros Ht0. assert (Hj : tick_state k c i = WAITING -> j <> i).
    { intros Hwt ->. pose proof (first_ready_ready (tick_state k c) (candidates c)) as Hr.
      rewrite <- (tp_choice _ _ _ _ _ _ P) in Hr. rewrite Hr in Hwt by lia. done. }
    destruct (Z.ltb_spec 0 t) as [Hp|Hp]; cbn [set_ticks ticks_to_sleep] in Ets, Et.
    + destruct (Z.eqb_spec (t - 1) 0); [lia|]. cbn [set_ticks ticks_to_sleep state] in Ets, Et.
      assert (Hwt : tick_state k c i = WAITING) by (by rewrite Ets).
      rewrite Es, Et, decide_False by (intros [-> _]; by apply Hj). split_and!; [done | lia | by apply Hj].
    + assert (Hwt : tick_state k c i = WAITING) by (by rewrite Ets).
      rewrite Es, Et, decide_False by (intros [-> _]; by apply Hj). fold t. split_and!; [done | lia | by apply Hj].
Qed.

(** C26: a process that sleeps for n > 0 ticks waits through the next n - 1
    timer ticks, its counter going down by one, and is ready or running after
    the n-th; one that sleeps for 0 ticks is never woken by the timer. *)
Theorem sleep_duration rs k k' c i :
  running_ok k c -> (1 <= i < 16)%nat -> i <> c -> state_of k i = WAITING ->
  0 <= ticks_to_sleep (ctx_at k i) -> run_ticks rs k = Some k' ->
  let n := ticks_to_sleep (ctx_at k i) in
  (Z.of_nat (length rs) < n ->
     state_of k' i = WAITING /\ ticks_to_sleep (ctx_at k' i) = n - Z.of_nat (length rs)) /\
  (n <> 0 -> Z.of_nat (length rs) = n -> state_of k' i = READY \/ state_of k' i = RUNNING) /\
  (n = 0 -> state_of k' i = WAITING).
Proof.
  revert k c. induction rs as [|r rs IH]; intros k c Hok Hi Hne Hw Hn Hrun; cbn zeta.
  - cbn in Hrun. injection Hrun as <-. cbn [length]. split_and!; [intros _; split; [done|lia] | lia | done].
  - cbn [run_ticks] in Hrun. destruct (handle_timer_tick_ok r k c Hok) as (r' & k1 & j & E & P).
    rewrite E in Hrun.
    pose proof (tick_sleeper _ _ _ _ i _ _ P (run_range _ _ Hok) Hi Hne Hw) as Ht. cbn zeta in Ht.
    cbn [length]. rewrite Nat2Z.inj_succ. destruct (decide (ticks_to_sleep (ctx_at k i) = 1)) as [E1|E1].
    + rewrite E1. split_and!; [lia | | lia]. intros _ Hl.
      assert (rs = []) as -> by (apply length_zero_iff_nil; lia). cbn in Hrun. by injection Hrun as <-.
    + destruct (Ht Hn) as (Hw' & Et & Hj).
      destruct (IH k1 j (tp_running _ _ _ _ _ _ P) Hi ltac:(congruence) Hw' ltac:(lia) Hrun) as (A & B & C).
      rewrite Et in A, B, C. split_and!.
      * intros Hlt. destruct A as [? ->]; [lia|]. split; [done|lia].
      * intros H0 Hl. apply B; lia.
      * intros H0. apply C. lia.
Qed.

(** A tick that finds no other context ready leaves the interrupted process
    current but in state READY: only a switch sets RUNNING. *)
Theorem tick_alone_leaves_ready regs k c :
  running_ok k c -> (1 <= c)%nat ->
  (forall j, (1 <= j < 16)%nat -> j <> c -> state (account_sleep (ctx_at k j)) <> READY) ->
  exists k', handle_timer_tick regs k = Ret (alarm_regs (ctx_at k c) regs) k' /\
    current k' = Some c /\ state_of k' c = READY.
Proof.
  intros Hok Hc1 Hn. pose proof (run_range _ _ Hok) as Hc.
  destruct (handle_timer_tick_ok regs k c Hok) as (regs' & k' & i & E & P).
  assert (Hself : tick_state k c c = READY) by (unfold tick_state; by rewrite decide_True).
  destruct (first_ready_rank (tick_state k c) c c Hc ltac:(lia) Hself) as (j & Ej & Hj & _).
  pose proof (tp_choice _ _ _ _ _ _ P) as Ech. pose proof (first_ready_ready (tick_state k c) (candidates c)) as Hr.
  rewrite Ej in Ech, Hr. cbn [default from_option id] in Ech, Hr. subst j.
  destruct (decide (i = c)) as [->|Hic].
  - exists k'. pose proof (tp_load _ _ _ _ _ _ P) as Hl. rewrite decide_True in Hl by done. subst regs'.
    split_and!; [done | apply P |]. rewrite (tp_state _ _ _ _ _ _ P) by done. by rewrite decide_False by tauto.
  - exfalso. apply (Hn i); [done..|]. specialize (Hr ltac:(lia)). unfold tick_state in Hr.
    by rewrite decide_False in Hr.
Qed.

(** ** A concrete table for the witnesses *)

(** The swapper, a process that runs, one that is ready, one asleep for two
    ticks; the machine is that of start-up. *)
Definition proc (p : Z) (st : process_state) (sleep : Z) : exec_context :=
  set_ticks sleep 0 0 (set_state st (set_pid p zero_context)).

Definition four_procs : kernel :=
  Kernel boot_mm ([proc 0 READY 0; proc 1 RUNNING 0; proc 2 READY 0; proc 3 WAITING 2] ++ replicate 12 zero_context)
    (Some 1%nat) (OsStats 0 0 0 0 0 0 0 3) (OsConfigs 0 32 0 0) 0 0xfee00000 0.

Lemma four_procs_ok : running_ok four_procs 1.
Proof.
  split; [|done|lia|done]. split; [done | | done]. intros i Hi.
  do 16 (destruct i as [|i]; [first [done | intros Hu; by destruct Hu]|]). lia.
Qed.

Definition two_procs : kernel := set_ctx_list (<[2%nat := zero_context]> (ctx_list four_procs)) four_procs.

Lemma two_procs_ok : running_ok two_procs 1.
Proof.
  split; [|done|lia|done]. split; [done | | done]. intros i Hi.
  do 16 (destruct i as [|i]; [first [done | intros Hu; by destruct Hu]|]). lia.
Qed.

(** ** Witnesses *)

Lemma handle_timer_tick_correct_witness : exists regs' k',
  handle_timer_tick zero_regs four_procs = Ret regs' k' /\ current k' = Some 2%nat.
Proof.
  destruct (handle_timer_tick_correct zero_regs four_procs 1 four_procs_ok) as (regs' & k' & i & E & P).
  exists regs', k'. split; [exact E|]. rewrite (run_current _ _ (tp_running _ _ _ _ _ _ P)).
  by rewrite (tp_choice _ _ _ _ _ _ P).
Defined.

Lemma ready_process_scheduled_witness : exists rs1 rs2 k',
  replicate 15 zero_regs = rs1 ++ rs2 /\ run_ticks rs1 four_procs = Some k' /\ current k' = Some 2%nat.
Proof.
  apply (ready_process_scheduled (replicate 15 zero_regs) four_procs 1 2 four_procs_ok); [lia | reflexivity | cbn; lia].
Defined.

Lemma sleep_duration_witness : exists k',
  run_ticks [zero_regs] four_procs = Some k' /\ state_of k' 3 = WAITING.
Proof.
  destruct (handle_timer_tick_ok zero_regs four_procs 1 four_procs_ok) as (r' & k' & i & E & _).
  assert (Hrun : run_ticks [zero_regs] four_procs = Some k') by (cbn [run_ticks]; by rewrite E).
  exists k'. split; [exact Hrun|].
  destruct (sleep_duration [zero_regs] four_procs k' 1 3 four_procs_ok) as (A & _); [lia | done | reflexivity | lazy; done | exact Hrun |].
  apply A. lazy. done.
Defined.

Lemma tick_alone_leaves_ready_witness : exists k',
  handle_timer_tick zero_regs two_procs = Ret zero_regs k' /\ current k' = Some 1%nat /\ state_of k' 1 = READY.
Proof.
  apply (tick_alone_leaves_ready zero_regs two_procs 1 two_procs_ok); [lia|].
  intros j Hj Hne. do 16 (destruct j as [|j]; [first [lia | done]|]). lia.
Defined.
