(* ===== verification/Syscalls.v ===== *)
(** * What the system calls and fault handlers do

    The theorems on the handlers of [Entry]: which user memory [write] reads,
    the growth of segments and the pages [shrink] gives back, page faults,
    signals, and the calls that never come back. *)
From S2P Require Import Prelude Mem Lib Machine Memory PageAlloc Frames PageTable PageMap Printf Serial Kernel Apic Idt Context Sched Entry.
Local Open Scope gemos_scope.

(** ** write *)

Lemma user_bytes_all n m root va :
  (forall i, 0 <= i < Z.of_nat n -> mapping m root (va + i) <> None) ->
  length (user_bytes n m root va) = n /\
  forall i a, (i < n)%nat -> user_phys m root (va + Z.of_nat i) = Some a ->
    user_bytes n m root va !! i = Some (ld8 m a).
Proof.
  revert va. induction n as [|n IH]; intros va Hm; cbn [user_bytes]; [split; [done|lia]|].
  destruct (user_phys m root va) as [a0|] eqn:E.
  2:{ exfalso. apply (Hm 0); [lia|]. rewrite Z.add_0_r. unfold user_phys in E. by destruct (mapping m root va). }
  destruct (IH (va + 1)) as [El Hat].
  { intros i Hi. rewrite <- Z.add_assoc. apply Hm. lia. }
  cbn [length]. split; [by rewrite El|]. intros [|i] a Hi Ha.
  - rewrite Z.add_0_r, E in Ha. by injection Ha as ->.
  - cbn. apply Hat; [lia|]. rewrite <- Ha. f_equal. lia.
Qed.

(** [write] looks at the page of the first byte and at that of the byte behind
    the last one. *)
Definition write_accepted (m : mem) (root address length : Z) : Prop :=
  length <= MAX_WRITE_LEN /\ mapping m root address <> None /\ mapping m root (address + length) <> None.

Lemma accepted_mapped m root address length i :
  write_accepted m root address length -> 0 <= address -> address + length < 2^48 -> 0 <= i < length ->
  mapping m root (address + i) <> None.
Proof.
  intros (Hm & H0 & H1) Ha Hlt Hi. unfold MAX_WRITE_LEN in Hm.
  destruct (decide ((address + i) / 4096 = address / 4096)) as [E|E].
  - by rewrite (mapping_page _ _ (address + i) address) by (done || lia).
  - rewrite (mapping_page _ _ (address + i) (address + length)) by (lia || zdm). done.
Qed.

(** The tests of [do_write]. *)
Lemma do_write_tests k ctx address length :
  let root := pgd (ctx_at k ctx) in
  pt_ok k root -> 0 <= address -> 0 <= length -> address + length < 2^48 ->
  (write_accepted (fs_ram k) root address length -> do_write ctx address length k = (length, print_user root address length k)) /\
  (~ write_accepted (fs_ram k) root address length ->
    do_write ctx address length k = (-1, kprintf "Bad write address = %x length=%d\n" [PInt address; PInt length] k)).
Proof.
  intros root Hok Ha Hl Hlt. unfold do_write. fold root. cbv zeta. rewrite (u64_small (address + length)) by lia.
  assert (Hg : forall va, (get_user_pte (fs_ram k) root va =? 0) = true <-> mapping (fs_ram k) root va = None).
  { intros va. rewrite Z.eqb_eq. pose proof (get_user_pte_correct_ok k root va Hok) as Hc.
    destruct (mapping (fs_ram k) root va); [|done]. split; [intros E; by destruct Hc|done]. }
  assert (Hp : (address >> PAGE_SHIFT =? (address + length) >> PAGE_SHIFT) = true ->
    mapping (fs_ram k) root (address + length) = mapping (fs_ram k) root address).
  { unfold PAGE_SHIFT. rewrite !Z.shiftr_div_pow2, Z.eqb_eq by done. intros E. apply mapping_page; [lia..|]. symmetry. exact E. }
  rewrite Z.gtb_ltb. unfold write_accepted.
  pose proof (Hg address) as H0. pose proof (Hg (address + length)) as H1. clear Hg.
  destruct (Z.ltb_spec MAX_WRITE_LEN length) as [|Hmax]; [split; [lia|done]|].
  destruct (get_user_pte (fs_ram k) root address =? 0); [cbn [orb]; split; [intuition|done]|].
  destruct (address >> PAGE_SHIFT =? (address + length) >> PAGE_SHIFT); cbn [orb negb andb].
  - split; [done|]. intros Hn. exfalso. apply Hn. rewrite (Hp eq_refl). split; [done|].
    assert (mapping (fs_ram k) root address <> None) by (intros E; by apply H0 in E). done.
  - destruct (get_user_pte (fs_ram k) root (address + length) =? 0); [split; [intuition|done]|].
    split; [done|]. intros Hn. exfalso. apply Hn. split; [done|]. split; intros E; [by apply H0 in E|by apply H1 in E].
Qed.

(** C22: [write] only ever reads mapped user memory.  It is accepted exactly
    when at most 1024 bytes are asked for and both the first byte and the one
    behind the last are mapped; then the whole range is, the bytes up to the
    first 0 among them are sent, with a carriage return after each line feed,
    and the answer is the length.  Else the answer is -1, with a message.  A
    buffer that ends where its page ends is refused when the next page is not
    mapped. *)
Theorem do_write_reads_mapped k ctx address length :
  let root := pgd (ctx_at k ctx) in
  pt_ok k root -> 0 <= address -> 0 <= length -> address + length < 2^48 ->
  (~ write_accepted (fs_ram k) root address length ->
    do_write ctx address length k = (-1, kprintf "Bad write address = %x length=%d\n" [PInt address; PInt length] k)) /\
  (write_accepted (fs_ram k) root address length ->
    (forall i, 0 <= i < length -> mapping (fs_ram k) root (address + i) <> None) /\
    exists bytes, do_write ctx address length k = (length, fs_emit (EPrintUser (crlf (c_string bytes))) k) /\
      Z.of_nat (List.length bytes) = length /\
      forall i a, 0 <= i < length -> user_phys (fs_ram k) root (address + i) = Some a ->
        bytes !! Z.to_nat i = Some (ld8 (fs_ram k) a)).
Proof.
  intros root Hok Ha Hl Hlt. destruct (do_write_tests k ctx address length Hok Ha Hl Hlt) as [Hyes Hno]. fold root in Hyes, Hno.
  split; [exact Hno|]. intros Hw.
  assert (Hall : forall i, 0 <= i < length -> mapping (fs_ram k) root (address + i) <> None)
    by (intros i Hi; by apply (accepted_mapped _ _ _ length)).
  split; [exact Hall|].
  destruct (user_bytes_all (Z.to_nat length) (fs_ram k) root address) as [El Hat].
  { intros i Hi. apply Hall. lia. }
  exists (user_bytes (Z.to_nat length) (fs_ram k) root address). split; [by apply Hyes|].
  split; [rewrite El; lia|]. intros i a Hi Hp. apply Hat; [lia|]. by rewrite Z2Nat.id by lia.
Qed.

(** ** expand and shrink *)

Definition seg_ok (seg : mm_segment) : Prop :=
  0 <= seg_start seg /\ seg_start seg <= seg_next_free seg /\ seg_next_free seg <= seg_end seg /\
  seg_end seg < 2^47.

Lemma do_expand_ok k ctx size segment_t i :
  (ctx < length (ctx_list k))%nat -> 0 <= size -> mapped_segment segment_t = Some i ->
  let seg := mms (ctx_at k ctx) i in
  seg_ok seg ->
  if decide (size <= MAX_EXPAND_PAGES /\ seg_next_free seg + 4096 * size <= seg_end seg) then
    let seg' := seg_set_next_free (seg_next_free seg + 4096 * size) seg in
    do_expand ctx size segment_t k = (seg_next_free seg, upd_ctx ctx (set_mms i seg') k) /\ seg_ok seg'
  else do_expand ctx size segment_t k = (0, k).
Proof.
  intros Hctx Hs Ei seg (H0 & H1 & H2 & H3). unfold do_expand. rewrite Ei. cbv zeta. fold seg.
  unfold PAGE_SHIFT, MAX_EXPAND_PAGES. rewrite shiftl_12, !Z.gtb_ltb.
  destruct (Z.ltb_spec 1024 size) as [Hgt|Hle]; [by rewrite decide_False by lia|].
  rewrite (u64_small (size * 4096)), u64_small by lia.
  destruct (Z.ltb_spec (seg_end seg) (seg_next_free seg + size * 4096)) as [Hgt|Hfit].
  - by rewrite decide_False by lia.
  - rewrite decide_True by lia. rewrite (Z.mul_comm size). split.
    + f_equal. unfold upd_ctx. f_equal. unfold seg, ctx_at.
      apply list_eq. intros j. destruct (decide (ctx = j)) as [<-|Hne].
      * rewrite !list_lookup_alter_eq. by destruct (ctx_list k !! ctx).
      * by rewrite !list_lookup_alter_ne.
    + unfold seg_ok. cbn. lia.
Qed.

(** C28: [expand] answers the old end of the segment's used part and moves it up
    by the pages asked for, exactly when there are at most 1024 of them and
    they fit below the segment's end; else it answers 0 and changes nothing.
    The segment stays within its bounds, and nothing else changes. *)
Theorem do_expand_spec k ctx size segment_t i :
  (ctx < length (ctx_list k))%nat -> 0 <= size -> mapped_segment segment_t = Some i ->
  let seg := mms (ctx_at k ctx) i in
  seg_ok seg ->
  if decide (size <= MAX_EXPAND_PAGES /\ seg_next_free seg + 4096 * size <= seg_end seg) then
    let seg' := seg_set_next_free (seg_next_free seg + 4096 * size) seg in
    do_expand ctx size segment_t k = (seg_next_free seg, upd_ctx ctx (set_mms i seg') k) /\ seg_ok seg'
  else do_expand ctx size segment_t k = (0, k).
Proof. exact (do_expand_ok k ctx size segment_t i). Qed.

Section unmap.
Context {S : Type} `{FL : FrameLaws S}.
Implicit Types s : S.

(** Addresses of different pages below 2^48 that have a mapping in [lo .. hi)
    are mapped to different owned user frames. *)
Record private_pages s (root lo hi : Z) : Prop := {
  pp_owned va e : lo <= va < hi -> mapping (fs_ram s) root va = Some e -> fl_owned s USER_REG (entry_pfn e);
  pp_inj va wa e e' : lo <= va < hi -> lo <= wa < hi ->
    mapping (fs_ram s) root va = Some e -> mapping (fs_ram s) root wa = Some e' ->
    entry_pfn e = entry_pfn e' -> va / 4096 = wa / 4096
}.

(** The effect of giving back the pages in [lo .. hi). *)
Record unmapped s s' (root lo hi : Z) : Prop := {
  um_ok : pt_ok s' root;
  um_mapping wa : 0 <= wa < 2^48 -> mapping (fs_ram s') root wa =
    if decide (lo <= wa < hi) then None else mapping (fs_ram s) root wa;
  um_owned r q : fl_owned s' r q <-> fl_owned s r q /\
    ~ (r = USER_REG /\ exists va e, lo <= va < hi /\ mapping (fs_ram s) root va = Some e /\ entry_pfn e = q)
}.

Lemma unmap_page s root va :
  pt_ok s root -> 0 <= va -> va + 4096 <= 2^47 -> va mod 4096 = 0 ->
  private_pages s root va (va + 4096) ->
  unmapped s (do_unmap_user root va s).2 root va (va + 4096).
Proof.
  intros Hok Hge Hle Hal [Ho _].
  assert (Hp : forall wa, 0 <= wa < 2^48 -> prefix 4 wa = prefix 4 va <-> va <= wa < va + 4096).
  { intros wa Hw. rewrite !prefix4 by lia. zdm. }
  assert (Hpage : forall wa, va <= wa < va + 4096 -> mapping (fs_ram s) root wa = mapping (fs_ram s) root va).
  { intros wa Hw. apply mapping_prefix, Hp; lia. }
  destruct (mapping (fs_ram s) root va) as [e|] eqn:Em.
  - destruct (do_unmap_user_mapped s root va e Hok Em) as [_ U]; [by apply (Ho va); [lia|]|].
    split; [apply U| |].
    + intros wa Hw. rewrite (up_mapping _ _ _ _ _ U). apply decide_ext, Hp. done.
    + intros r q. rewrite (up_owned _ _ _ _ _ U). apply and_iff_compat_l, not_iff_compat, and_iff_compat_l. split.
      * intros ->. exists va, e. split; [lia|done].
      * intros (wa & e' & Hw & E' & <-). rewrite (Hpage wa Hw) in E'. by injection E' as <-.
  - assert (E : do_unmap_user root va s = (-1, s)).
    { unfold do_unmap_user. pose proof (get_user_pte_walk (fs_ram s) root va (wf_root _ _ _ (proj2 Hok))) as ->.
      unfold mapping in Em. destruct (utable (fs_ram s) 3 root va) as [f|]; [|done]. by destruct (not_user _). }
    rewrite E. cbn [snd]. split; [done| |].
    + intros wa Hw. case_decide as Hd; [|done]. by rewrite Hpage.
    + intros r q. split; [|tauto]. intros Hq. split; [done|]. intros (_ & wa & e & Hw & E' & _).
      by rewrite (Hpage wa Hw) in E'.
Qed.

Lemma unmap_loop_spec n s root lo :
  pt_ok s root -> 0 <= lo -> lo mod 4096 = 0 -> lo + 4096 * Z.of_nat n <= 2^47 ->
  private_pages s root lo (lo + 4096 * Z.of_nat n) ->
  unmapped s (unmap_loop n root lo (lo + 4096 * Z.of_nat n) s) root lo (lo + 4096 * Z.of_nat n).
Proof.
  revert s lo. induction n as [|n IH]; intros s lo Hok Hge Hal Hle Hpp; cbn [unmap_loop].
  - split; [done| |]; intros; [by rewrite decide_False by lia|]. split; [|tauto]. intros Hq. split; [done|].
    intros (_ & va & e & Hv & _). lia.
  - set (hi := lo + 4096 * Z.of_nat (Datatypes.S n)) in *. unfold PAGE_SIZE.
    destruct (Z.ltb_spec lo hi); [|unfold hi in *; lia].
    assert (Hpp1 : private_pages s root lo (lo + 4096)).
    { destruct Hpp as [A B]. split; [intros va e Hv; apply A; unfold hi in *; lia|].
      intros va wa e e' Hv Hw. apply B; unfold hi in *; lia. }
    pose proof (unmap_page s root lo Hok Hge ltac:(unfold hi in *; lia) Hal Hpp1) as U1.
    set (s1 := (do_unmap_user root lo s).2) in *.
    assert (Hm1 : forall va, lo + 4096 <= va < hi -> mapping (fs_ram s1) root va = mapping (fs_ram s) root va).
    { intros va Hv. rewrite (um_mapping _ _ _ _ _ U1) by (unfold hi in *; lia). by rewrite decide_False by lia. }
    assert (Ehi : lo + 4096 + 4096 * Z.of_nat n = hi) by (unfold hi; lia).
    pose proof (IH s1 (lo + 4096) (um_ok _ _ _ _ _ U1)) as U2. rewrite Ehi in U2.
    assert (U2' : unmapped s1 (unmap_loop n root (lo + 4096) hi s1) root (lo + 4096) hi).
    { apply U2; [lia | clear -Hal; zdm | lia |]. split.
      - intros va e Hv E. rewrite Hm1 in E by done. apply (um_owned _ _ _ _ _ U1).
        split; [apply (pp_owned _ _ _ _ Hpp va); [lia|done]|].
        intros (_ & wa & e' & Hw & E' & Ep). pose proof (pp_inj _ _ _ _ Hpp va wa e e' ltac:(lia) ltac:(lia) E E' ltac:(congruence)) as Epg.
        revert Epg. clear -Hv Hw Hal. zdm.
      - intros va wa e e' Hv Hw E E'. rewrite Hm1 in E, E' by done. apply (pp_inj _ _ _ _ Hpp va wa e e'); (done || lia). }
    split.
    + apply U2'.
    + intros wa Hw. rewrite (um_mapping _ _ _ _ _ U2' wa Hw), (um_mapping _ _ _ _ _ U1 wa Hw).
      repeat case_decide; (done || (exfalso; unfold hi in *; lia)).
    + intros r q. rewrite (um_owned _ _ _ _ _ U2'), (um_owned _ _ _ _ _ U1). split.
      * intros [[Hq N1] N2]. split; [done|]. intros (Er & va & e & Hv & E & Ep).
        destruct (decide (va < lo + 4096)).
        -- apply N1. split; [done|]. exists va, e. split; [lia|done].
        -- apply N2. split; [done|]. exists va, e. rewrite Hm1 by lia. split; [lia|done].
      * intros [Hq N]. split; [split; [done|]|]; intros (Er & va & e & Hv & E & Ep); apply N; (split; [done|]).
        -- exists va, e. split; [unfold hi in *; lia|done].
        -- exists va, e. rewrite Hm1 in E by lia. split; [lia|done].
Qed.
End unmap.

Lemma frame_only_unmap_loop n root a stop k : frame_only k (unmap_loop n root a stop k).
Proof.
  revert a k. induction n as [|n IH]; intros a k; cbn [unmap_loop]; [apply frame_only_refl|].
  case_match; [|apply frame_only_refl]. eapply frame_only_trans; [apply frame_only_do_unmap_user | apply IH].
Qed.

Lemma frame_only_fields k k' :
  frame_only k k' -> ctx_list k' = ctx_list k /\ current k' = current k /\ stats k' = stats k.
Proof. intros ->. done. Qed.

(** C23: [shrink] answers the new end of the segment's used part, gives back
    exactly the pages between the new end and the old one, with their frames,
    and keeps every other mapping and frame; it answers 0 and changes nothing
    when more than 1024 pages are asked for or the segment has not so many. *)
Theorem do_shrink_spec k ctx size segment_t i :
  (ctx < length (ctx_list k))%nat -> 0 <= size -> mapped_segment segment_t = Some i ->
  let seg := mms (ctx_at k ctx) i in
  let root := pgd (ctx_at k ctx) in
  let lo := seg_next_free seg - 4096 * size in
  seg_ok seg -> 2^22 <= seg_start seg -> seg_next_free seg mod 4096 = 0 -> pt_ok k root ->
  private_pages k root lo (seg_next_free seg) ->
  if decide (size <= MAX_EXPAND_PAGES /\ seg_start seg <= lo) then
    exists k', do_shrink ctx size segment_t k = (lo, k') /\
      unmapped k k' root lo (seg_next_free seg) /\
      ctx_at k' ctx = set_mms i (seg_set_next_free lo seg) (ctx_at k ctx)
  else do_shrink ctx size segment_t k = (0, k).
Proof.
  intros Hctx Hs Ei seg root lo (Hs0 & Hs1 & Hs2 & Hs3) Hst Hal Hok Hpp. unfold do_shrink. rewrite Ei.
  cbv zeta. fold seg. unfold PAGE_SHIFT, MAX_EXPAND_PAGES. rewrite shiftl_12, !Z.gtb_ltb.
  destruct (Z.ltb_spec 1024 size) as [Hgt|Hle]; [by rewrite decide_False by lia|].
  rewrite (u64_small (size * 4096)), (u64_small (seg_next_free seg - size * 4096)) by lia.
  replace (seg_next_free seg - size * 4096) with lo by (unfold lo; lia).
  destruct (Z.ltb_spec lo (seg_start seg)) as [Hgt|Hfit]; [by rewrite decide_False by lia|].
  rewrite decide_True by lia. rewrite u64_small by (unfold lo in *; lia).
  replace (lo + size * 4096) with (seg_next_free seg) by (unfold lo; lia).
  set (k1 := upd_ctx ctx _ k). assert (Ek1 : ctx_at k1 ctx = set_mms i (seg_set_next_free lo seg) (ctx_at k ctx)).
  { unfold k1. rewrite ctx_at_upd by done. by rewrite decide_True. }
  assert (Er : pgd (ctx_at k1 ctx) = root) by (rewrite Ek1; done). rewrite Er.
  assert (Ep : page_steps lo (seg_next_free seg) = Z.to_nat size).
  { unfold page_steps, PAGE_SIZE. f_equal. unfold lo. clear. zdm. }
  rewrite Ep. eexists. split; [done|].
  assert (Ehi : seg_next_free seg = lo + 4096 * Z.of_nat (Z.to_nat size)) by (unfold lo; lia).
  split.
  - destruct (unmap_loop_spec (Z.to_nat size) k1 root lo) as [U1 U2 U3].
    + exact Hok.
    + lia.
    + unfold lo. clear -Hal. zdm.
    + lia.
    + rewrite <- Ehi. destruct Hpp as [P1 P2]. split; [exact P1 | exact P2].
    + rewrite <- Ehi in U1, U2, U3. split; [exact U1 | exact U2 | exact U3].
  - destruct (frame_only_fields _ _ (frame_only_unmap_loop (Z.to_nat size) root lo (seg_next_free seg) k1)) as (El & _).
    unfold ctx_at at 1. rewrite El. exact Ek1.
Qed.

(** ** Calls that do not come back *)

(** [c] never returns to its caller. *)
Definition never_returns {A} (c : M A) : Prop := forall k a k', c k <> Ret a k'.

Lemma never_bind_r {A B} (x : M A) (f : A -> M B) : (forall a, never_returns (f a)) -> never_returns (bind x f).
Proof. intros Hf k b k'. unfold bind. destruct (x k) as [a k1| |] eqn:E; [apply Hf | done..]. Qed.

Lemma never_schedule {A} i : never_returns (schedule (A := A) i).
Proof. intros k a k'. done. Qed.

Lemma never_leave {A} l : never_returns (leave_with (A := A) l).
Proof. intros k a k'. done. Qed.

Lemma exit_sleep_init_never_return_ok :
  never_returns do_exit /\ never_returns do_cleanup /\
  (forall ticks, never_returns (do_sleep ticks)) /\
  (forall ctx args, never_returns (exec_init ctx args)).
Proof.
  split_and!.
  - unfold do_exit. repeat (apply never_bind_r; intros ?). apply never_schedule.
  - unfold do_cleanup. repeat (apply never_bind_r; intros ?). apply never_leave.
  - intros ticks. unfold do_sleep. repeat (apply never_bind_r; intros ?). apply never_schedule.
  - intros ctx args. unfold exec_init. repeat (apply never_bind_r; intros ?). apply never_leave.
Qed.

(** [exit], [sleep] and the launch of init never return to the code that
    called them: they end in the scheduler, in the shell, in user mode, or in
    an undefined access. *)
Theorem exit_sleep_init_never_return :
  never_returns do_exit /\ never_returns do_cleanup /\
  (forall ticks, never_returns (do_sleep ticks)) /\
  (forall ctx args, never_returns (exec_init ctx args)).
Proof. exact (exit_sleep_init_never_return_ok). Qed.

(** ** Signals *)

(** A handler that [signal] accepts is what the next signal of that number
    runs: the interrupted instruction's address is stored below the user stack
    pointer, which moves down by 8, and execution goes on at the handler; the
    other signals keep their handlers.  Numbers outside 0 .. 2 are refused. *)
Theorem do_signal_invoke k c signo handler r :
  current k = Some c -> (c < length (ctx_list k))%nat -> length (sighandlers (ctx_at k c)) = 3%nat ->
  0 < handler ->
  if decide (0 <= signo < MAX_SIGNALS) then
    exists k', do_signal signo handler k = Ret 0 k' /\
      invoke_sync_signal signo r k' =
        Ret (regs_set_rip_rsp handler (u64 (entry_rsp r - 8)) r)
            (fs_emit (EUserStore (u64 (entry_rsp r - 8)) (entry_rip r)) k') /\
      forall n, 0 <= n < MAX_SIGNALS -> n <> signo ->
        sighandler (ctx_at k' c) n = sighandler (ctx_at k c) n
  else do_signal signo handler k = Ret (-1) k.
Proof.
  intros Hcur Hc Hl Hh. unfold do_signal, MAX_SIGNALS. mrun. rewrite Z.gtb_ltb. case_decide as Hs.
  - destruct (Z.ltb_spec signo 3); [|lia]. destruct (Z.ltb_spec (-1) signo); [|lia]. cbn [andb].
    eexists. split; [done|]. set (k' := upd_ctx c _ k).
    assert (Eh : ctx_at k' c = set_signals (pending_signal_bitmap (ctx_at k c))
      (<[Z.to_nat signo := handler]> (sighandlers (ctx_at k c))) (ctx_at k c)).
    { unfold k'. rewrite ctx_at_upd by done. by rewrite decide_True. }
    assert (Hcur' : current k' = Some c) by done. clearbody k'. split.
    + unfold invoke_sync_signal. mrun. unfold sighandler. rewrite Eh. cbn [sighandlers set_signals].
      rewrite list_lookup_insert_eq by lia. cbn [default from_option id].
      destruct (Z.eqb_spec handler 0); [lia|]. done.
    + intros n Hn Hne. unfold sighandler. rewrite Eh. cbn [sighandlers set_signals].
      rewrite list_lookup_insert_ne by lia. done.
  - destruct (Z.ltb_spec signo 3), (Z.ltb_spec (-1) signo); (done || lia).
Qed.

(** ** New contexts *)

Lemma get_new_ctx_loop_spec n ctr k :
  (ctr + n = 16)%nat ->
  get_new_ctx_loop n ctr k =
    match find (fun i => bool_decide (state_of k i = UNUSED)) (seq ctr n) with
    | Some i => (Some i, upd_ctx i (fun c => set_state NEW (set_pid (Z.of_nat i) c)) k)
    | None => (None, kprintf "%s: System limit on processes reached\n" [PStr (codes "get_new_ctx")] k)
    end.
Proof.
  revert ctr. induction n as [|n IH]; intros ctr Hn; [done|]. cbn [get_new_ctx_loop seq find].
  unfold state_of at 1. case_decide as E; [by rewrite bool_decide_true|]. rewrite bool_decide_false by done.
  replace (ctr + 1)%nat with (Datatypes.S ctr) by lia. apply IH. lia.
Qed.

Lemma get_new_ctx_spec_ok k :
  table_ok k ->
  match get_new_ctx k with
  | (Some i, k') => (i < 16)%nat /\ state_of k i = UNUSED /\ (forall j, (j < i)%nat -> state_of k j <> UNUSED) /\
      k' = upd_ctx i (fun c => set_state NEW (set_pid (Z.of_nat i) c)) k /\ table_ok k'
  | (None, k') => (forall j, (j < 16)%nat -> state_of k j <> UNUSED) /\
      k' = kprintf "%s: System limit on processes reached\n" [PStr (codes "get_new_ctx")] k
  end.
Proof.
  intros Htab. unfold get_new_ctx. change (Z.to_nat MAX_PROCESSES) with 16%nat.
  rewrite get_new_ctx_loop_spec by done. destruct (find _ _) as [i|] eqn:E.
  - apply find_split in E as (l1 & l2 & E & Hu & Hl1). apply bool_decide_eq_true in Hu.
    assert (Ei : seq 0 16 !! length l1 = Some i) by (by rewrite E, list_lookup_middle).
    apply lookup_seq in Ei as [Ei Hi]. cbn in Ei. subst i.
    split; [done|]. split; [done|]. split.
    { intros j Hj. assert (Ej : l1 !! j = Some j).
      { rewrite <- (lookup_app_l l1 (length l1 :: l2)) by done. rewrite <- E. apply lookup_seq. lia. }
      apply (Forall_lookup_1 _ _ _ _ Hl1) in Ej. by apply bool_decide_eq_false in Ej. }
    split; [done|]. pose proof (tab_length _ Htab) as Hl.
    set (k' := upd_ctx _ _ k).
    assert (Hat : forall j, ctx_at k' j = if decide (length l1 = j)
      then set_state NEW (set_pid (Z.of_nat (length l1)) (ctx_at k j)) else ctx_at k j)
      by (intros j; unfold k'; by rewrite ctx_at_upd by lia).
    split; [by unfold k'; rewrite length_upd_ctx| |].
    + intros j Hj. rewrite Hat. destruct (decide (length l1 = j)) as [->|]; [done|]. by apply (tab_pid _ Htab).
    + rewrite Hat. destruct (decide (length l1 = 0%nat)); [done|]. apply Htab.
  - split; [|done]. intros j Hj Hu. pose proof (find_none _ _ E j) as Hn.
    cbn beta in Hn. rewrite in_seq in Hn. specialize (Hn ltac:(lia)). by apply bool_decide_eq_false in Hn.
Qed.

(** [get_new_ctx] takes the first unused context, gives it its index as
    identifier and makes it NEW, keeping the table well formed; it answers
    NULL, with a message, exactly when all 16 contexts are in use. *)
Theorem get_new_ctx_spec k :
  table_ok k ->
  match get_new_ctx k with
  | (Some i, k') => (i < 16)%nat /\ state_of k i = UNUSED /\ (forall j, (j < i)%nat -> state_of k j <> UNUSED) /\
      k' = upd_ctx i (fun c => set_state NEW (set_pid (Z.of_nat i) c)) k /\ table_ok k'
  | (None, k') => (forall j, (j < 16)%nat -> state_of k j <> UNUSED) /\
      k' = kprintf "%s: System limit on processes reached\n" [PStr (codes "get_new_ctx")] k
  end.
Proof. exact (get_new_ctx_spec_ok k). Qed.

(** C33: with all 16 contexts in use, [fork], [clone] and the shell's
    [create_context] go on with the NULL that [get_new_ctx] returns and
    dereference it. *)
Theorem full_table_null_dereference k c :
  table_ok k -> current k = Some c -> (forall j, (j < 16)%nat -> state_of k j <> UNUSED) ->
  let k' := kprintf "%s: System limit on processes reached\n" [PStr (codes "get_new_ctx")] k in
  do_fork k = Undefined k' /\ (forall f st, do_clone f st k = Undefined k') /\
  (forall nm type, create_context nm type k = Undefined k').
Proof.
  intros Htab Hcur Hfull k'. pose proof (get_new_ctx_spec_ok k Htab) as Hg.
  destruct (get_new_ctx k) as [[i|] k1] eqn:E.
  { destruct Hg as (Hi & Hu & _). by destruct (Hfull i Hi). }
  destruct Hg as [_ ->]. fold k' in E. split_and!.
  - unfold do_fork, bind, run. rewrite E. unfold get_current_ctx. change (current k') with (current k). by rewrite Hcur.
  - intros f st. unfold do_clone, bind, run. rewrite E. unfold get_current_ctx.
    change (current k') with (current k). by rewrite Hcur.
  - intros nm type. unfold create_context, bind, run. by rewrite E.
Qed.

(** ** Page faults *)

(** The segment bounds that [create_context] sets. *)
Record laid_out (c : exec_context) : Prop := {
  lo_rodata : seg_start (mm_rodata c) = RODATA_START /\ seg_end (mm_rodata c) = DATA_START - 1;
  lo_data : seg_start (mm_data c) = DATA_START /\ seg_end (mm_data c) = STACK_START - MAX_STACK_SIZE - 1;
  lo_stack : seg_start (mm_stack c) = STACK_START - MAX_STACK_SIZE /\ seg_end (mm_stack c) = STACK_START
}.

Lemma layout_segments_laid_out c : laid_out (layout_segments c).
Proof. by split. Qed.

Definition below_free (seg : mm_segment) (a : Z) : Prop :=
  seg_start seg <= a <= seg_end seg /\ a < seg_next_free seg.

Lemma fault_decision_spec_ok c cr2 error_code :
  laid_out c ->
  fault_decision c cr2 error_code = HandleFault <->
  error_code .& 1 = 0 /\
  (below_free (mm_data c) cr2 \/ below_free (mm_stack c) cr2 \/
   (below_free (mm_rodata c) cr2 /\ error_code .& 2 = 0)).
Proof.
  intros [[R1 R2] [D1 D2] [S1 S2]]. unfold fault_decision, in_segment, below_free, mms.
  rewrite R1, R2, D1, D2, S1, S2, !Z.geb_leb.
  unfold RODATA_START, DATA_START, STACK_START, MAX_STACK_SIZE.
  destruct (Z.eqb_spec (error_code .& 1) 0); cbn [negb]; [|split; [discriminate | tauto]].
  destruct (Z.eqb_spec (error_code .& 2) 0); zcase; cbn [andb];
    (split; [intros; first [discriminate | lia] | intros; first [done | lia]]).
Qed.

(** C25: a page fault is handled by mapping a page exactly when the page was not
    present and the address lies in the used part of the data segment or of
    the stack segment, or, for a read, of the read-only data segment; no other
    address, the code segment included, ever gets a page. *)
Theorem fault_decision_spec c cr2 error_code :
  laid_out c ->
  fault_decision c cr2 error_code = HandleFault <->
  error_code .& 1 = 0 /\
  (below_free (mm_data c) cr2 \/ below_free (mm_stack c) cr2 \/
   (below_free (mm_rodata c) cr2 /\ error_code .& 2 = 0)).
Proof. exact (fault_decision_spec_ok c cr2 error_code). Qed.

Lemma do_page_fault_handled_ok k c cr2 error_code r :
  let root := pgd (ctx_at k c) in
  current k = Some c -> fault_decision (ctx_at k c) cr2 error_code = HandleFault ->
  pt_ok k root -> path_clear (fs_ram k) root cr2 ->
  (3 <= fl_avail k OS_PT_REG)%nat -> (0 < fl_avail k USER_REG)%nat ->
  exists k' q, do_page_fault cr2 error_code r k = Ret r k' /\
    map_post 3 k k' root cr2 (Some (4096 * q + (5 .| (error_code .& 2)))) (Some q) /\
    ctx_list k' = ctx_list k /\ current k' = Some c /\ stats k' = count_page_fault (stats k).
Proof.
  intros root Hcur Hd Hok Hc Hpt Hus. unfold do_page_fault. mrun.
  change (ctx_at (set_stats (count_page_fault (stats k)) k) c) with (ctx_at k c). rewrite Hd. mrun.
  set (k1 := set_stats (count_page_fault (stats k)) k). fold root.
  assert (Hok1 : pt_ok k1 root) by (destruct Hok as [Hi [W1 W2 W3]]; split; [exact Hi|]; by split).
  destruct (install_page_table_post k1 root cr2 error_code Hok1 Hc Hpt Hus) as [q P].
  eexists _, q. split; [done|].
  destruct (frame_only_fields _ _ (frame_only_install_page_table root cr2 error_code k1)) as (E1 & E2 & E3).
  rewrite E1, E2, E3. split; [|done]. destruct P. split; assumption.
Qed.

(** C24: a fault that is handled counts, takes one user frame and maps it at the
    page of the address, with the write bit of the fault; the interrupted
    instruction is retried, and the process table is as it was. *)
Theorem do_page_fault_handled k c cr2 error_code r :
  let root := pgd (ctx_at k c) in
  current k = Some c -> fault_decision (ctx_at k c) cr2 error_code = HandleFault ->
  pt_ok k root -> path_clear (fs_ram k) root cr2 ->
  (3 <= fl_avail k OS_PT_REG)%nat -> (0 < fl_avail k USER_REG)%nat ->
  exists k' q, do_page_fault cr2 error_code r k = Ret r k' /\
    map_post 3 k k' root cr2 (Some (4096 * q + (5 .| (error_code .& 2)))) (Some q) /\
    ctx_list k' = ctx_list k /\ current k' = Some c /\ stats k' = count_page_fault (stats k).
Proof. exact (do_page_fault_handled_ok k c cr2 error_code r). Qed.

(** Context [c] is out of use and does not run. *)
Definition ended (c : nat) (k : kernel) : Prop := state_of k c = UNUSED /\ current k <> Some c.

Lemma state_set_unused c k : state_of (upd_ctx c (set_state UNUSED) k) c = UNUSED.
Proof. unfold state_of, ctx_at, upd_ctx. cbn [ctx_list set_ctx_list]. rewrite list_lookup_alter_eq. by destruct (ctx_list k !! c). Qed.

Lemma do_cleanup_ends c k : current k = Some c ->
  match do_cleanup k with Ret _ _ => False | Leave _ k' => ended c k' | Undefined _ => True end.
Proof.
  intros Hcur. unfold do_cleanup, bind at 1, get_current_ctx. rewrite Hcur. cbn [deref].
  do 3 (unfold bind at 1, modify). unfold bind at 1, gets. match goal with |- context [bind _ _ ?k1] => generalize k1 end.
  intros k1. set (root := pgd _). unfold bind at 1.
  pose proof (remove_apic_ctx root k1) as H1. destruct (remove_apic_mapping root k1) as [[] k2|l k2|k2]; [|done|done]. clear H1.
  unfold bind at 1. pose proof (pt_cleanup_ctx 4 root k2) as H2. destruct (pt_cleanup root 4 k2) as [[] k3|l k3|k3]; [|done|done].
  unfold bind, modify, leave_with. split; [|done]. apply (state_set_unused c).
Qed.

Lemma proc_exist_spec n i k :
  proc_exist n i k = false <-> forall j, (i <= j < i + n)%nat -> state_of k j = UNUSED.
Proof.
  revert i. induction n as [|n IH]; intros i; cbn [proc_exist]; [split; [lia|done]|].
  unfold state_of. destruct (decide (state (ctx_at k i) = UNUSED)) as [E|E].
  - rewrite (IH (i + 1)%nat). split; intros H j Hj; [|apply H; lia].
    destruct (decide (j = i)) as [->|]; [done|apply H; lia].
  - split; [done|]. intros H. by destruct E; apply (H i); lia.
Qed.

(** [exit] ends the process: the scheduler enters another context or the
    kernel goes back to the shell.  Only the teardown of the last process may
    go wrong. *)
Lemma do_exit_ends c k :
  table_ok k -> current k = Some c -> (0 < c < 16)%nat -> state_of k c <> UNUSED ->
  match do_exit k with
  | Ret _ _ => False
  | Leave _ k' => ended c k'
  | Undefined _ => forall j, (0 < j < 16)%nat -> j <> c -> state_of k j = UNUSED
  end.
Proof.
  intros Htab Hcur Hc Hu. unfold do_exit, bind at 1, get_current_ctx. rewrite Hcur. cbn [deref].
  do 2 (unfold bind at 1, modify). unfold bind at 1, gets. unfold bind at 1.
  set (k1 := fs_free OS_PT_REG _ k). assert (E1 : ctx_list k1 = ctx_list k) by reflexivity.
  assert (C1 : current k1 = Some c) by exact Hcur. clearbody k1.
  set (k2 := upd_ctx c (set_state UNUSED) k1). set (k3 := set_stats _ k2).
  assert (Hl : length (ctx_list k1) = 16%nat) by (rewrite E1; apply Htab).
  assert (At : forall j, ctx_at k3 j = if decide (c = j) then set_state UNUSED (ctx_at k j) else ctx_at k j).
  { intros j. change (ctx_at k3 j) with (ctx_at k2 j). unfold k2. rewrite ctx_at_upd by lia. unfold ctx_at. by rewrite E1. }
  assert (C3 : current k3 = Some c) by exact C1. change (proc_exist _ 1 k2) with (proc_exist (Z.to_nat (MAX_PROCESSES - 1)) 1 k3).
  clearbody k3. clear k2.
  destruct (proc_exist _ 1 k3) eqn:Ex.
  - unfold bind at 1, ret. unfold bind at 1, gets.
    rewrite pick_next_context_first; [|lia|rewrite At, decide_True by done; exact (tab_pid k Htab c (proj2 Hc) Hu)].
    set (i := default 0%nat _). unfold bind at 1. cbn [deref]. unfold schedule.
    assert (Hi : i <> c).
    { intros E. assert (Hr : state_of k3 i = READY) by (apply (first_ready_ready (state_of k3) (candidates c)); fold i; lia).
      unfold state_of in Hr. rewrite At, decide_True in Hr by done. discriminate Hr. }
    assert (Hst : state_of k3 c = UNUSED) by (unfold state_of; rewrite At, decide_True by done; done).
    assert (H : forall k4, ctx_list k4 = alter (set_state RUNNING) i (ctx_list k3) -> current k4 = Some i -> ended c k4).
    { intros k4 El Ec. split; [|congruence]. unfold state_of, ctx_at in *. rewrite El, list_lookup_alter_ne by done. exact Hst. }
    case_decide; apply H; done.
  - pose proof (do_cleanup_ends c k3 C3) as H. unfold bind at 1.
    destruct (do_cleanup k3) as [[] k4|l k4|k4]; [done|exact H|].
    rewrite proc_exist_spec in Ex. intros j Hj Hne. specialize (Ex j ltac:(change (Z.to_nat (MAX_PROCESSES - 1)) with 15%nat; lia)).
    unfold state_of in *. rewrite At, decide_False in Ex by congruence. exact Ex.
Qed.

(** C34: A page of the data segment that is first read is mapped read-only, and
    the write that follows, a protection fault, ends the process when it has
    no SIGSEGV handler, although the segment is writable: the handler does not
    return to it, its context is out of use and another one, or none, runs.
    (When no other process is left, the teardown that follows may be
    undefined.) *)
Theorem read_fault_then_write_kills k c cr2 r :
  let root := pgd (ctx_at k c) in
  table_ok k -> current k = Some c -> (0 < c < 16)%nat -> state_of k c <> UNUSED ->
  laid_out (ctx_at k c) -> below_free (mm_data (ctx_at k c)) cr2 ->
  sighandler (ctx_at k c) SIGSEGV = 0 ->
  pt_ok k root -> path_clear (fs_ram k) root cr2 ->
  (3 <= fl_avail k OS_PT_REG)%nat -> (0 < fl_avail k USER_REG)%nat ->
  exists k' e, do_page_fault cr2 4 r k = Ret r k' /\
    mapping (fs_ram k') root cr2 = Some e /\ Z.testbit e 1 = false /\
    match do_page_fault cr2 7 r k' with
    | Ret _ _ => False
    | Leave _ k'' => ended c k''
    | Undefined _ => forall j, (0 < j < 16)%nat -> j <> c -> state_of k j = UNUSED
    end.
Proof.
  intros root Htab Hcur Hc16 Hu Hlay Hb Hh Hok Hc Hpt Hus.
  destruct (do_page_fault_handled_ok k c cr2 4 r Hcur) as (k' & q & E & P & El & Ec & _); try done.
  { apply fault_decision_spec_ok; [done|]. auto. }
  exists k', (4096 * q + 5). split; [exact E|]. split; [|split].
  - rewrite (mp_mapping _ _ _ _ _ _ _ P). by rewrite decide_True.
  - rewrite (Z.mul_comm 4096), <- lor_page_flags by lia. rewrite Z.lor_spec.
    change 4096 with (2^12). by rewrite Z.mul_pow2_bits_low by lia.
  - unfold do_page_fault. mrun.
    assert (Eat : forall x, ctx_list x = ctx_list k' -> forall j, ctx_at x j = ctx_at k j)
      by (intros x Ex j; unfold ctx_at; by rewrite Ex, El).
    rewrite (Eat (set_stats (count_page_fault (stats k')) k')) by done.
    unfold fault_decision. change (negb (7 .& 1 =? 0)) with true. cbn iota. mrun.
    set (k2 := kprintf _ _ _). assert (E2 : ctx_list k2 = ctx_list k') by reflexivity.
    assert (C2 : current k2 = Some c) by exact Ec. clearbody k2. pose proof (Eat k2 E2) as At2. clear Eat.
    unfold invoke_sync_signal. mrun. rewrite At2, Hh. change (SIGSEGV =? SIGALRM) with false. cbn [Z.eqb negb andb].
    assert (Ht2 : table_ok k2).
    { destruct Htab as [T1 T2 T3]. split; [by rewrite E2, El| |]; intros; rewrite At2 in *; auto. }
    pose proof (do_exit_ends c k2 Ht2 C2 Hc16) as H. unfold state_of in H at 1. rewrite At2 in H. specialize (H Hu).
    destruct (do_exit k2) as [u k3|l k3|k3]; [done|exact H|].
    intros j Hj Hne. specialize (H j Hj Hne). unfold state_of in *. by rewrite At2 in H.
Qed.

(** ** clone *)

(** The context that [clone] makes for the caller [c]. *)
Record clone_of (c n : exec_context) (i : nat) (th_func user_stack : Z) : Prop := {
  cl_pid : pid n = Z.of_nat i;
  cl_state : state n = READY;
  cl_pgd : pgd n = pgd c;
  cl_mms j : mms n j = mms c j;
  cl_regs : regs n = regs_set_rbp user_stack (regs_set_rip_rsp th_func user_stack (regs c));
  cl_handlers : sighandlers n = sighandlers c;
  cl_ticks : ticks_to_sleep n = ticks_to_sleep c /\ ticks_to_alarm n = ticks_to_alarm c
}.

Lemma do_clone_ok k c i k0 th_func user_stack :
  table_ok k -> current k = Some c -> (c < 16)%nat -> state_of k c <> UNUSED ->
  get_new_ctx k = (Some i, k0) ->
  let nm := c_string (name (ctx_at k c)) ++ sprintf [37; 100] [PInt (pid (ctx_at k c) + 1)] in
  exists k1 k', do_clone th_func user_stack k = (if Z.of_nat (length nm) <=? CNAME_MAX then Ret 0 k' else Undefined k1) /\
    clone_of (ctx_at k c) (ctx_at k' i) i th_func user_stack /\
    name (ctx_at k' i) = copy_name nm (name (ctx_at k i)) /\
    (forall j, j <> i -> ctx_at k' j = ctx_at k j) /\ table_ok k' /\
    num_processes (stats k') = num_processes (stats k).
Proof.
  intros Htab Hcur Hc Hu Eg nm0. pose proof (get_new_ctx_spec_ok k Htab) as Hg. rewrite Eg in Hg.
  destruct Hg as (Hi & Hui & _ & Ek0 & _). pose proof (tab_length _ Htab) as Hl.
  assert (Hic : i <> c) by congruence.
  set (f0 := fun c => set_state NEW (set_pid (Z.of_nat i) c)) in Ek0.
  unfold do_clone. rewrite (bind_ret _ _ k (Some i) k0) by (unfold run; by rewrite Eg).
  assert (U0 : upd_at k k0 i (f0 (ctx_at k i))) by (rewrite Ek0; apply upd_at_step; [apply upd_at_refl | lia]).
  clear Ek0. assert (Ic : forall k1 v, upd_at k k1 i v -> ctx_at k1 c = ctx_at k c)
    by (intros k1 v U; by apply (ua_others _ _ _ _ U)).
  rewrite (bind_ret _ _ k0 c k0) by (apply get_current_ok; by rewrite (ua_current _ _ _ _ U0)).
  rewrite (bind_ret _ _ k0 i k0) by done.
  erewrite bind_ret by reflexivity. cbv zeta. rewrite (Ic _ _ U0).
  pose proof (fun f => upd_at_step _ _ _ _ f U0 ltac:(lia)) as U1.
  match goal with |- context [upd_ctx i ?f k0] => specialize (U1 f); set (k1 := upd_ctx i f k0) in * end.
  pose proof (frame_only_alloc OS_PT_REG k1) as F. unfold bind at 1, run at 1.
  destruct (fs_alloc OS_PT_REG k1) as [pfn k2]. cbn [snd] in F. cbn beta iota.
  pose proof (upd_at_frame _ _ _ _ _ U1 F) as U2. clearbody k1.
  erewrite bind_ret by reflexivity.
  pose proof (upd_at_step _ _ _ _ (set_os_stack pfn (osmap (u32 (pfn + 1)))) U2 ltac:(lia)) as U3.
  set (k3 := upd_ctx i _ k2) in *. clearbody k3.
  erewrite bind_ret by reflexivity. cbv zeta. rewrite (Ic _ _ U3).
  pose proof (fun f => upd_at_step _ _ _ _ f U3 ltac:(lia)) as U4.
  match goal with |- context [upd_ctx i ?f k3] => specialize (U4 f); set (k4 := upd_ctx i f k3) in * end.
  clearbody k4. erewrite bind_ret by reflexivity. cbv zeta. rewrite (Ic _ _ U4). fold nm0.
  pose proof (upd_at_step _ _ _ _ (fun n => set_name (copy_name nm0 (name n)) n) U4 ltac:(lia)) as U5.
  set (k5 := upd_ctx i _ k4) in *.
  exists k4, k5. split; [|split; [|split; [|split; [apply U5|split]]]].
  - unfold bind, ret, modify, deref. by destruct (_ <=? CNAME_MAX).
  - rewrite (ua_value _ _ _ _ U5). split; try done.
  - by rewrite (ua_value _ _ _ _ U5).
  - apply (table_ok_upd k k5 i _ U5 Htab Hi); done.
  - by rewrite (ua_stats _ _ _ _ U5).
Qed.

(** C31: [clone] makes a ready context in the caller's address space that starts
    at the given function on the given stack, leaves every other context as it
    was, and does not count it in [num_processes], which [exit] will decrement. *)
Theorem do_clone_shares_space k c i k0 th_func user_stack :
  table_ok k -> current k = Some c -> (c < 16)%nat -> state_of k c <> UNUSED ->
  get_new_ctx k = (Some i, k0) ->
  Z.of_nat (length (c_string (name (ctx_at k c)) ++ sprintf [37; 100] [PInt (pid (ctx_at k c) + 1)])) <= CNAME_MAX ->
  exists k', do_clone th_func user_stack k = Ret 0 k' /\
    clone_of (ctx_at k c) (ctx_at k' i) i th_func user_stack /\
    (forall j, j <> i -> ctx_at k' j = ctx_at k j) /\ table_ok k' /\
    num_processes (stats k') = num_processes (stats k).
Proof.
  intros Htab Hcur Hc Hu Eg Hnm. destruct (do_clone_ok k c i k0 th_func user_stack Htab Hcur Hc Hu Eg) as (k1 & k' & E & Hcl & _ & H).
  rewrite (proj2 (Z.leb_le _ _) Hnm) in E. exists k'. exact (conj E (conj Hcl H)).
Qed.

(** ** A concrete kernel for the witnesses *)

(** init, running, with two pages of data below its break. *)
Definition init_ctx (root : Z) : exec_context :=
  upd_mms MM_SEG_DATA (seg_set_next_free 0x180002000) (layout_segments (set_pgd root (set_state RUNNING (set_pid 1 zero_context)))).

Definition init_kernel (s : mm) : kernel :=
  Kernel s ([set_state READY zero_context; init_ctx fresh_root] ++ replicate 14 zero_context)
    (Some 1%nat) (OsStats 0 0 0 0 0 0 0 1) (OsConfigs 0 32 0 0) 0 0xfee00000 0.

Definition full_kernel (s : mm) : kernel :=
  set_ctx_list (imap (fun i _ => set_state READY (set_pid (Z.of_nat i) zero_context)) (replicate 16 tt)) (init_kernel s).

Lemma init_kernel_table s : table_ok (init_kernel s).
Proof.
  split; [done | | done]. intros i Hi.
  do 16 (destruct i as [|i]; [first [done | intros Hu; by destruct Hu]|]). lia.
Qed.

Lemma full_kernel_table s : table_ok (full_kernel s) /\ forall j, (j < 16)%nat -> state_of (full_kernel s) j <> UNUSED.
Proof.
  split; [split; [done | | done] |]; intros i Hi; do 16 (destruct i as [|i]; [done|]); lia.
Qed.

Lemma init_ctx_laid_out root : laid_out (init_ctx root).
Proof. by split. Qed.

Lemma init_seg_ok root : seg_ok (mms (init_ctx root) MM_SEG_DATA).
Proof. unfold seg_ok. vm_compute. intuition congruence. Qed.

(** [init_kernel s] has the memory and frames of [s]. *)
Lemma init_kernel_space s root :
  pt_ok s root -> (forall va, path_clear (fs_ram s) root va) ->
  (3 <= fl_avail s OS_PT_REG)%nat -> (0 < fl_avail s USER_REG)%nat ->
  pt_ok (init_kernel s) root /\ (forall va, path_clear (fs_ram (init_kernel s)) root va) /\
  (3 <= fl_avail (init_kernel s) OS_PT_REG)%nat /\ (0 < fl_avail (init_kernel s) USER_REG)%nat.
Proof. intros [Hi [W1 W2 W3]] Hc Hp Hu. split_and!; [split; [exact Hi|]; by split | done..]. Qed.

(** A space with one mapped page of data, in a frame of its own. *)
Lemma init_kernel_private s root q :
  pt_ok s root -> mapping (fs_ram s) root 0x180001000 = Some (4096 * q + 7) ->
  fl_owned s USER_REG (entry_pfn (4096 * q + 7)) ->
  pt_ok (init_kernel s) root /\ private_pages (init_kernel s) root 0x180001000 0x180002000.
Proof.
  intros [Hi [W1 W2 W3]] Hm Ho.
  assert (Hp : forall va, 0x180001000 <= va < 0x180002000 ->
    mapping (fs_ram (init_kernel s)) root va = Some (4096 * q + 7)).
  { intros va Hv. change (fs_ram (init_kernel s)) with (fs_ram s). rewrite <- Hm.
    apply mapping_page; [lia..|]. clear -Hv. zdm. }
  split; [split; [exact Hi|]; by split|]. split.
  - intros va e Hv E. rewrite Hp in E by done. injection E as <-. exact Ho.
  - intros va wa e e' Hv Hw _ _ _. clear -Hv Hw. zdm.
Qed.

#[local] Opaque fresh_root fresh_space one_page_space.

(** Context 2 is the first unused one. *)
Lemma init_kernel_new s : exists k', get_new_ctx (init_kernel s) = (Some 2%nat, k').
Proof.
  unfold get_new_ctx. change (Z.to_nat MAX_PROCESSES) with 16%nat. rewrite get_new_ctx_loop_spec by done.
  replace (find _ (seq 0 16)) with (Some 2%nat) by (lazy; reflexivity). by eexists.
Qed.

Definition fresh_kernel_space :=
  init_kernel_space fresh_space fresh_root fresh_space_ok fresh_space_clear fresh_space_avail_pt fresh_space_avail_user.

Definition fresh_kernel_ok := proj1 fresh_kernel_space.
Definition fresh_kernel_clear := proj1 (proj2 fresh_kernel_space).
Definition fresh_kernel_pt := proj1 (proj2 (proj2 fresh_kernel_space)).
Definition fresh_kernel_user := proj2 (proj2 (proj2 fresh_kernel_space)).

Lemma one_page_kernel : 
  pt_ok (init_kernel one_page_space) fresh_root /\
  private_pages (init_kernel one_page_space) fresh_root 0x180001000 0x180002000.
Proof.
  destruct one_page_space_ok as (q & Hok & Hm & Ho). exact (init_kernel_private _ _ q Hok Hm Ho).
Qed.

(** ** Witnesses *)

Lemma do_write_reads_mapped_witness :
  let k := init_kernel one_page_space in
  exists bytes, do_write 1 0x180001000 8 k = (8, fs_emit (EPrintUser (crlf (c_string bytes))) k) /\ Z.of_nat (length bytes) = 8.
Proof.
  destruct (do_write_reads_mapped (init_kernel one_page_space) 1 0x180001000 8 (proj1 one_page_kernel))
    as [_ H]; [lia | lia | lia |]. destruct H as (_ & bytes & E & El & _).
  - destruct one_page_space_ok as (q & _ & Hm & _). change (fs_ram (init_kernel one_page_space)) with (fs_ram one_page_space).
    change (pgd (ctx_at (init_kernel one_page_space) 1)) with fresh_root.
    split; [discriminate|]. split; [rewrite Hm; discriminate|].
    rewrite (mapping_page _ _ (0x180001000 + 8) 0x180001000) by (lia || reflexivity). rewrite Hm. discriminate.
  - exists bytes. exact (conj E El).
Defined.

Lemma do_expand_spec_witness :
  do_expand 1 3 MAP_WR (init_kernel fresh_space) =
    (0x180002000, upd_ctx 1 (set_mms MM_SEG_DATA
       (seg_set_next_free 0x180005000 (mms (init_ctx fresh_root) MM_SEG_DATA))) (init_kernel fresh_space)).
Proof.
  assert (Hl : (1 < length (ctx_list (init_kernel fresh_space)))%nat) by (lazy; lia).
  pose proof (do_expand_spec (init_kernel fresh_space) 1 3 MAP_WR MM_SEG_DATA Hl ltac:(lia) eq_refl
    (init_seg_ok fresh_root)) as H.
  rewrite decide_True in H by (lazy; intuition congruence). exact (proj1 H).
Defined.

Lemma do_shrink_spec_witness : exists k',
  do_shrink 1 1 MAP_WR (init_kernel one_page_space) = (0x180001000, k') /\
  unmapped (init_kernel one_page_space) k' fresh_root 0x180001000 0x180002000.
Proof.
  destruct (do_shrink_spec (init_kernel one_page_space) 1 1 MAP_WR MM_SEG_DATA) as (k' & E & U & _);
    [cbn; lia | lia | reflexivity | apply init_seg_ok | lazy; discriminate | reflexivity |
     exact (proj1 one_page_kernel) | exact (proj2 one_page_kernel) |].
  exists k'. exact (conj E U).
Defined.

Lemma do_signal_invoke_witness : exists k',
  do_signal SIGSEGV 0x100000400 (init_kernel fresh_space) = Ret 0 k' /\
  invoke_sync_signal SIGSEGV zero_regs k' =
    Ret (regs_set_rip_rsp 0x100000400 (u64 (-8)) zero_regs) (fs_emit (EUserStore (u64 (-8)) 0) k').
Proof.
  destruct (do_signal_invoke (init_kernel fresh_space) 1 SIGSEGV 0x100000400 zero_regs) as (k' & E & I & _);
    [reflexivity | cbn; lia | reflexivity | lia |]. exists k'. exact (conj E I).
Defined.

Lemma get_new_ctx_spec_witness : exists k', get_new_ctx (init_kernel fresh_space) = (Some 2%nat, k') /\ table_ok k'.
Proof.
  pose proof (get_new_ctx_spec (init_kernel fresh_space) (init_kernel_table _)) as H.
  destruct (init_kernel_new fresh_space) as [k' E]. rewrite E in H. exists k'. split; [exact E | apply H].
Defined.

Lemma full_table_null_dereference_witness : exists k', do_fork (full_kernel fresh_space) = Undefined k'.
Proof.
  eexists. apply (full_table_null_dereference (full_kernel fresh_space) 1);
    [apply full_kernel_table | reflexivity | apply full_kernel_table].
Defined.

Lemma fault_decision_spec_witness :
  fault_decision (init_ctx fresh_root) 0x180001000 6 = HandleFault.
Proof. apply (fault_decision_spec (init_ctx fresh_root) 0x180001000 6 (init_ctx_laid_out _)). lazy. intuition congruence. Defined.

Lemma do_page_fault_handled_witness : exists k' q,
  do_page_fault 0x180001000 6 zero_regs (init_kernel fresh_space) = Ret zero_regs k' /\
  map_post 3 (init_kernel fresh_space) k' fresh_root 0x180001000 (Some (4096 * q + 7)) (Some q).
Proof.
  destruct (do_page_fault_handled (init_kernel fresh_space) 1 0x180001000 6 zero_regs) as (k' & q & E & P & _);
    [reflexivity | reflexivity | exact fresh_kernel_ok | exact (fresh_kernel_clear _) |
     exact fresh_kernel_pt | exact fresh_kernel_user |].
  exists k', q. exact (conj E P).
Defined.

(** Another process is ready. *)
Definition init_and_another : kernel := upd_ctx 2 (fun c => set_state READY (set_pid 2 c)) (init_kernel fresh_space).

Lemma read_fault_then_write_kills_witness : exists k' l k'',
  do_page_fault 0x180001000 4 zero_regs init_and_another = Ret zero_regs k' /\
  do_page_fault 0x180001000 7 zero_regs k' = Leave l k'' /\ ended 1 k''.
Proof.
  destruct (read_fault_then_write_kills init_and_another 1 0x180001000 zero_regs) as (k' & e & E & _ & _ & N).
  - split; [done | | done]. intros i Hi. do 16 (destruct i as [|i]; [first [done | intros Hu; by destruct Hu]|]). lia.
  - reflexivity.
  - lia.
  - discriminate.
  - apply init_ctx_laid_out.
  - lazy; intuition congruence.
  - reflexivity.
  - exact fresh_kernel_ok.
  - exact (fresh_kernel_clear _).
  - exact fresh_kernel_pt.
  - exact fresh_kernel_user.
  - exists k'. destruct (do_page_fault 0x180001000 7 zero_regs k') as [r k2|l k2|k2]; [destruct N| |].
    + exists l, k2. exact (conj E (conj eq_refl N)).
    + discriminate (N 2%nat ltac:(lia) ltac:(lia)).
Defined.

Lemma do_clone_shares_space_witness : exists k',
  do_clone 0x100000400 0x180001ff0 (init_kernel fresh_space) = Ret 0 k' /\
  num_processes (stats k') = 1.
Proof.
  destruct (init_kernel_new fresh_space) as [k0 E0].
  destruct (do_clone_shares_space (init_kernel fresh_space) 1 2 k0
    0x100000400 0x180001ff0) as (k' & E & _ & _ & _ & En);
    [apply init_kernel_table | reflexivity | lia | discriminate | exact E0 | lazy; discriminate |].
  exists k'. exact (conj E En).
Defined.
