(* ===== verification/Typed.v ===== *)
(** * The process table stays well typed

    Every context of the table has arrays of the declared lengths; a context
    in use carries its index as identifier, and its segments have the fixed
    layout of the address space, with the end of the used part within bounds.
    Every system call and every fault handler preserves this, whether it
    returns or leaves for another context. *)
From S2P Require Import Prelude Mem Lib Machine Memory PageAlloc Frames Printf PageTable PageMap Kernel Apic Idt Context Sched Entry Timer Syscalls.
#[local] Open Scope gemos_scope.

Definition seg_in (seg : mm_segment) (lo hi : Z) : Prop :=
  seg_start seg = lo /\ seg_end seg = hi /\ lo <= seg_next_free seg <= hi.

Record space_ok (c : exec_context) : Prop := {
  so_code : seg_in (mm_code c) CODE_START (RODATA_START - 1);
  so_rodata : seg_in (mm_rodata c) RODATA_START (DATA_START - 1);
  so_data : seg_in (mm_data c) DATA_START (STACK_START - MAX_STACK_SIZE - 1);
  so_stack : seg_in (mm_stack c) (STACK_START - MAX_STACK_SIZE) STACK_START
}.

Record ctx_ok (i : nat) (c : exec_context) : Prop := {
  co_name : length (name c) = 64%nat;
  co_handlers : length (sighandlers c) = 3%nat;
  co_pid : state c <> UNUSED -> pid c = Z.of_nat i;
  co_space : state c <> UNUSED -> i <> 0%nat -> space_ok c;
  co_swapper : i = 0%nat -> state c <> UNUSED
}.

Definition typed (k : kernel) : Prop :=
  length (ctx_list k) = 16%nat /\ forall i, (i < 16)%nat -> ctx_ok i (ctx_at k i).

(** All contexts but [i]. *)
Definition typed_but (i : nat) (k : kernel) : Prop :=
  length (ctx_list k) = 16%nat /\ forall j, (j < 16)%nat -> j <> i -> ctx_ok j (ctx_at k j).

(** What code that may leave the kernel guarantees. *)
Definition post {A} (Q : A -> kernel -> Prop) (o : outcome A) : Prop :=
  match o with Ret a k => Q a k | Leave _ k => typed k | Undefined _ => True end.

Lemma post_bind {A B} (x : M A) (f : A -> M B) (Q : B -> kernel -> Prop) k :
  post (fun a k => post Q (f a k)) (x k) -> post Q (bind x f k).
Proof. unfold bind. by destruct (x k). Qed.

Lemma post_weaken {A} (P Q : A -> kernel -> Prop) o : (forall a k, P a k -> Q a k) -> post P o -> post Q o.
Proof. destruct o; cbn; auto. Qed.

Lemma typed_table k : typed k -> table_ok k.
Proof.
  intros [Hl H]. split; [done| |by apply H; [lia|]].
  intros i Hi Hu. by apply (co_pid i _ (H i Hi)).
Qed.

Lemma typed_same k k' : ctx_list k' = ctx_list k -> typed k -> typed k'.
Proof.
  intros E [Hl H]. split; [by rewrite E|]. intros i Hi. unfold ctx_at. rewrite E. by apply H.
Qed.

Lemma frame_only_ctx k k' : frame_only k k' -> ctx_list k' = ctx_list k /\ current k' = current k.
Proof. intros ->. done. Qed.

Lemma typed_frame k k' : frame_only k k' -> typed k -> typed k'.
Proof. intros [E _]%frame_only_ctx. by apply typed_same. Qed.

Lemma typed_upd k i f : typed k -> (i < 16)%nat -> ctx_ok i (f (ctx_at k i)) -> typed (upd_ctx i f k).
Proof.
  intros [Hl H] Hi Hf. split; [by rewrite length_upd_ctx|]. intros j Hj. rewrite ctx_at_upd by lia.
  case_decide as E; [by subst j|by apply H].
Qed.

Lemma typed_but_upd k i f : typed_but i k -> (i < 16)%nat -> typed_but i (upd_ctx i f k).
Proof.
  intros [Hl H] Hi. split; [by rewrite length_upd_ctx|]. intros j Hj Hne. rewrite ctx_at_upd by lia.
  rewrite decide_False by done. by apply H.
Qed.

Lemma typed_but_same i k k' : ctx_list k' = ctx_list k -> typed_but i k -> typed_but i k'.
Proof. intros E [Hl H]. split; [by rewrite E|]. intros j Hj Hne. unfold ctx_at. rewrite E. by apply H. Qed.

Lemma typed_fill i k : typed_but i k -> ctx_ok i (ctx_at k i) -> typed k.
Proof. intros [Hl H] Hi. split; [done|]. intros j Hj. destruct (decide (j = i)) as [->|Hne]; [done|by apply H]. Qed.

Lemma space_ok_mms c c' : (forall s, mms c' s = mms c s) -> space_ok c -> space_ok c'.
Proof.
  intros Em [A B C D].
  split; [rewrite (Em MM_SEG_CODE : mm_code c' = mm_code c)|rewrite (Em MM_SEG_RODATA : mm_rodata c' = mm_rodata c)
    |rewrite (Em MM_SEG_DATA : mm_data c' = mm_data c)|rewrite (Em MM_SEG_STACK : mm_stack c' = mm_stack c)]; done.
Qed.

(** Assignments that do not touch what the type is about. *)
Lemma ctx_ok_keeps i c c' :
  ctx_ok i c -> name c' = name c -> length (sighandlers c') = length (sighandlers c) -> pid c' = pid c ->
  (forall s, mms c' s = mms c s) -> (state c' <> UNUSED -> state c <> UNUSED) -> (i = 0%nat -> state c' <> UNUSED) ->
  ctx_ok i c'.
Proof.
  intros [H1 H2 H3 H4 H5] En Eh Ep Em Hs H0. split.
  - by rewrite En.
  - by rewrite Eh.
  - intros Hu. rewrite Ep. auto.
  - intros Hu Hi. exact (space_ok_mms _ _ Em (H4 (Hs Hu) Hi)).
  - done.
Qed.

Ltac keeps := intros; eapply ctx_ok_keeps; [eassumption | try first [done | by intros []]..].

(** ** The segments *)

Definition lo_of (s : segment) : Z :=
  match s with MM_SEG_CODE => CODE_START | MM_SEG_RODATA => RODATA_START | MM_SEG_DATA => DATA_START | MM_SEG_STACK => STACK_START - MAX_STACK_SIZE end.
Definition hi_of (s : segment) : Z :=
  match s with MM_SEG_CODE => RODATA_START - 1 | MM_SEG_RODATA => DATA_START - 1 | MM_SEG_DATA => STACK_START - MAX_STACK_SIZE - 1 | MM_SEG_STACK => STACK_START end.

Lemma space_seg c s : space_ok c -> seg_in (mms c s) (lo_of s) (hi_of s).
Proof. intros [A B C D]. by destruct s. Qed.

Lemma space_seg_ok c s : space_ok c -> seg_ok (mms c s).
Proof.
  intros H%(space_seg c s). destruct H as (E1 & E2 & E3). unfold seg_ok. rewrite E1, E2.
  destruct s; cbn [lo_of hi_of] in *; unfold CODE_START, RODATA_START, DATA_START, STACK_START, MAX_STACK_SIZE in *; lia.
Qed.

Lemma seg_in_move seg lo hi v : seg_in seg lo hi -> lo <= v <= hi -> seg_in (seg_set_next_free v seg) lo hi.
Proof. intros (E1 & E2 & _) Hv. split; [exact E1|]. split; [exact E2|exact Hv]. Qed.

(** The end of the used part moves within the segment. *)
Lemma ctx_ok_seg i c s v :
  ctx_ok i c -> state c <> UNUSED -> i <> 0%nat -> seg_start (mms c s) <= v <= seg_end (mms c s) ->
  ctx_ok i (upd_mms s (seg_set_next_free v) c).
Proof.
  intros [H1 H2 H3 H4 H5] Hu Hi Hv. destruct (space_seg c s (H4 Hu Hi)) as (E1 & E2 & _). rewrite E1, E2 in Hv.
  split; [by destruct s|by destruct s|by destruct s| |done]. intros _ _. destruct (H4 Hu Hi) as [A B C D].
  destruct s; cbn [lo_of hi_of] in Hv; split; first
    [exact A|exact B|exact C|exact D|exact (seg_in_move _ _ _ v A Hv)|exact (seg_in_move _ _ _ v B Hv)
    |exact (seg_in_move _ _ _ v C Hv)|exact (seg_in_move _ _ _ v D Hv)].
Qed.

Lemma do_expand_typed k ctx size t :
  typed k -> (ctx < 16)%nat -> ctx <> 0%nat -> state_of k ctx <> UNUSED -> 0 <= size -> typed (do_expand ctx size t k).2.
Proof.
  intros Ht Hc Hc0 Hu Hs. destruct (mapped_segment t) as [i|] eqn:Ei.
  - pose proof Ht as [Hl H]. pose proof (co_space _ _ (H ctx Hc) Hu Hc0) as Hsp.
    pose proof (space_seg_ok _ i Hsp) as Hok. pose proof (do_expand_ok k ctx size t i ltac:(lia) Hs Ei Hok) as E. cbv zeta in E.
    case_decide as Hd; [|by rewrite E]. destruct E as [-> _]. cbn [snd]. apply typed_upd; [done|done|].
    apply (ctx_ok_seg ctx (ctx_at k ctx) i); [by apply H|done|done|]. destruct Hok. lia.
  - unfold do_expand. rewrite Ei. by case_match.
Qed.

Lemma do_shrink_typed k ctx size t :
  typed k -> (ctx < 16)%nat -> ctx <> 0%nat -> state_of k ctx <> UNUSED -> 0 <= size -> typed (do_shrink ctx size t k).2.
Proof.
  intros Ht Hc Hc0 Hu Hs. unfold do_shrink. rewrite Z.gtb_ltb. destruct (Z.ltb_spec MAX_EXPAND_PAGES size) as [|Hmax]; [done|].
  destruct (mapped_segment t) as [i|]; [|done]. cbv zeta. case_match eqn:El; [done|]. apply Z.ltb_ge in El. cbn [snd].
  eapply typed_frame; [apply frame_only_unmap_loop|]. pose proof Ht as [Hl H].
  pose proof (co_space _ _ (H ctx Hc) Hu Hc0) as Hsp. pose proof (space_seg _ i Hsp) as (E1 & E2 & E3).
  unfold MAX_EXPAND_PAGES, PAGE_SHIFT in *. rewrite shiftl_12 in *.
  assert (Hlo : 0x100000000 <= lo_of i /\ hi_of i < 2^63).
  { destruct i; cbn [lo_of hi_of]; unfold CODE_START, RODATA_START, DATA_START, STACK_START, MAX_STACK_SIZE; lia. }
  rewrite (u64_small (size * 4096)) in * by lia. rewrite u64_small in * by lia.
  apply typed_upd; [done|done|]. apply ctx_ok_seg; [by apply H|done|done|lia].
Qed.

(** ** Leaving and scheduling *)

Lemma schedule_typed {A} i k (Q : A -> kernel -> Prop) : typed k -> (i < 16)%nat -> pid (ctx_at k i) = Z.of_nat i ->
  (i <> 0%nat -> space_ok (ctx_at k i)) -> post Q (schedule i k).
Proof.
  intros Ht Hi Hp Hsp. unfold schedule. cbv zeta. cbn [post].
  set (k1 := fs_set_ram _ k). set (k2 := set_tss_stack_ptr _ k1). set (k3 := set_current _ k2).
  assert (E3 : ctx_list k3 = ctx_list k) by reflexivity.
  assert (T3 : typed k3) by (by apply (typed_same k)).
  assert (T4 : typed (upd_ctx i (set_state RUNNING) k3)).
  { apply typed_upd; [done|done|]. destruct T3 as [_ H]. pose proof (H i Hi) as [H1 H2 H3 H4 H5].
    assert (Ea : ctx_at k3 i = ctx_at k i) by reflexivity. rewrite Ea in *.
    split; [done|done|intros _; exact Hp|intros _ Hne; refine (space_ok_mms _ _ _ (Hsp Hne)); by intros []|done]. }
  case_decide; [done|]. by apply (typed_same (upd_ctx i (set_state RUNNING) k3)).
Qed.

(** The choice of the scheduler, made and followed. *)
Lemma pick_and_schedule {A} c k (Q : A -> kernel -> Prop) :
  typed k -> (c < 16)%nat -> pid (ctx_at k c) = Z.of_nat c ->
  post Q ((p <- gets (pick_next_context c) ;; new_ctx <- deref p ;; schedule new_ctx) k).
Proof.
  intros Ht Hc Hp. unfold bind at 1, gets. rewrite pick_next_context_first by done.
  set (i := default 0%nat (first_ready (state_of k) (candidates c))). unfold bind at 1. cbn [deref].
  pose proof Ht as [_ H]. assert (Hi : (i < 16)%nat) by (by apply first_ready_range).
  assert (Hr : i <> 0%nat -> state (ctx_at k i) = READY) by exact (first_ready_ready (state_of k) (candidates c)).
  pose proof (H i Hi) as [_ _ Hpid Hsp Hsw]. apply schedule_typed; [done|done| |].
  - apply Hpid. destruct (decide (i = 0%nat)) as [E0|Hne]; [by apply Hsw|]. by rewrite (Hr Hne).
  - intros Hne. apply Hsp; [|done]. by rewrite (Hr Hne).
Qed.

(** ** exit *)

Lemma typed_unused k c : typed k -> (c < 16)%nat -> c <> 0%nat -> typed (upd_ctx c (set_state UNUSED) k).
Proof.
  intros Ht Hc H0. apply typed_upd; [done|done|]. destruct Ht as [_ H]. destruct (H c Hc) as [H1 H2 _ _ _]. by split.
Qed.

Lemma do_cleanup_typed k c (Q : () -> kernel -> Prop) :
  typed k -> current k = Some c -> (c < 16)%nat -> c <> 0%nat -> post Q (do_cleanup k).
Proof.
  intros Ht Hcur Hc H0. unfold do_cleanup, bind at 1, get_current_ctx. rewrite Hcur. cbn [deref].
  do 3 (unfold bind at 1, modify). unfold bind at 1, gets.
  match goal with |- post Q (bind _ _ ?k1) => set (k2 := k1); assert (E2 : ctx_list k2 = ctx_list k) by reflexivity; clearbody k2 end.
  set (root := pgd _). unfold bind at 1. pose proof (remove_apic_ctx root k2) as H3. destruct (remove_apic_mapping root k2) as [[] k3| |]; [|done|done].
  unfold bind at 1. pose proof (pt_cleanup_ctx 4 root k3) as H4. destruct (pt_cleanup root 4 k3) as [[] k4| |]; [|done|done].
  cbn [post bind modify leave_with].
  apply (typed_same (upd_ctx c (set_state UNUSED) k4)); [reflexivity|]. apply typed_unused; [|done|done].
  apply (typed_same k); [congruence|done].
Qed.

Lemma do_exit_typed k c (Q : () -> kernel -> Prop) :
  typed k -> current k = Some c -> (c < 16)%nat -> c <> 0%nat -> state_of k c <> UNUSED -> post Q (do_exit k).
Proof.
  intros Ht Hcur Hc H0 Hu. unfold do_exit, bind at 1, get_current_ctx. rewrite Hcur. cbn [deref].
  do 2 (unfold bind at 1, modify). unfold bind at 1, gets. unfold bind at 1.
  match goal with |- context [set_stats _ (upd_ctx c (set_state UNUSED) ?k1)] => set (k2 := k1) end.
  set (k3 := upd_ctx c (set_state UNUSED) k2).
  assert (T3 : typed k3) by (apply typed_unused; [by apply (typed_same k)|done|done]).
  assert (Ep : pid (ctx_at k3 c) = Z.of_nat c).
  { unfold k3. destruct Ht as [Hl H]. rewrite ctx_at_upd by (change (ctx_list k2) with (ctx_list k); lia). rewrite decide_True by done.
    change (ctx_at k2 c) with (ctx_at k c). by apply (co_pid c _ (H c Hc)). }
  set (k4 := set_stats _ k3). assert (T4 : typed k4) by (by apply (typed_same k3)).
  apply post_bind. case_match; cbn [post ret].
  - by apply pick_and_schedule.
  - by apply (do_cleanup_typed k4 c).
Qed.

(** ** Code that leaves the table alone *)

Definition same_ctx (k k' : kernel) : Prop := ctx_list k' = ctx_list k.

Lemma same_ctx_trans k1 k2 k3 : same_ctx k1 k2 -> same_ctx k2 k3 -> same_ctx k1 k3.
Proof. unfold same_ctx. congruence. Qed.

Lemma same_ctx_frame k k' : frame_only k k' -> same_ctx k k'.
Proof. by intros [E _]%frame_only_ctx. Qed.

Lemma same_ctx_ptable base seg va upfn k : same_ctx k (install_ptable base seg va upfn k).2.
Proof. apply same_ctx_frame, frame_only_install_ptable. Qed.

Lemma same_ctx_share n os_addr ppgd seg va k : same_ctx k (share_loop n os_addr ppgd seg va k).
Proof.
  revert va k. induction n as [|n IH]; intros va k; [done|]. cbn [share_loop]. case_match; [|done].
  eapply same_ctx_trans; [|apply IH]. case_match; [done|apply same_ctx_ptable].
Qed.

Lemma same_ctx_copy_page os_addr ppgd seg va k : same_ctx k (copy_page os_addr ppgd seg va k).
Proof.
  unfold copy_page. case_match; [done|]. pose proof (same_ctx_ptable os_addr seg va 0 k) as H'.
  destruct (install_ptable os_addr seg va 0 k) as [q k1]. exact H'.
Qed.

Lemma same_ctx_copy_up n os_addr ppgd seg va k : same_ctx k (copy_up_loop n os_addr ppgd seg va k).
Proof.
  revert va k. induction n as [|n IH]; intros va k; [done|]. cbn [copy_up_loop]. case_match; [|done].
  eapply same_ctx_trans; [apply same_ctx_copy_page|apply IH].
Qed.

Lemma same_ctx_copy_down n os_addr ppgd seg va k : same_ctx k (copy_down_loop n os_addr ppgd seg va k).
Proof.
  revert va k. induction n as [|n IH]; intros va k; [done|]. cbn [copy_down_loop]. case_match; [|done].
  eapply same_ctx_trans; [apply same_ctx_copy_page|apply IH].
Qed.

Lemma same_ctx_copy_segments os_addr ppgd c r d st k : same_ctx k (copy_segments os_addr ppgd c r d st k).
Proof.
  unfold copy_segments. eapply same_ctx_trans; [|apply same_ctx_copy_down]. eapply same_ctx_trans; [|apply same_ctx_copy_up].
  eapply same_ctx_trans; apply same_ctx_share.
Qed.

Lemma same_ctx_apic_next e k : same_ctx k (apic_next e k).2.
Proof.
  unfold apic_next. case_match; [|done]. pose proof (same_ctx_frame _ _ (frame_only_alloc OS_PT_REG k)) as H'.
  destruct (fs_alloc OS_PT_REG k) as [q k1]. exact H'.
Qed.

Lemma same_ctx_apic_mapping pl4 k : same_ctx k (install_apic_mapping pl4 k).
Proof.
  unfold install_apic_mapping. cbv zeta.
  match goal with |- context [apic_next ?e k] => pose proof (same_ctx_apic_next e k) as H1; destruct (apic_next e k) as [p1 k1] end.
  match goal with |- context [apic_next ?e k1] => pose proof (same_ctx_apic_next e k1) as H2; destruct (apic_next e k1) as [p2 k2] end.
  eapply same_ctx_trans; [exact H1|]. eapply same_ctx_trans; [exact H2|].
  set (m := negb (ld64 _ _ .& 1 =? 0)). by destruct m.
Qed.

Lemma same_ctx_os_maps n pfn e k : same_ctx k (os_maps_loop n pfn e k).
Proof.
  revert pfn e k. induction n as [|n IH]; intros pfn e k; [done|]. cbn [os_maps_loop]. cbv zeta.
  eapply same_ctx_trans; [|apply IH]. set (m := negb (global_mapping _ =? 0)). by destruct m.
Qed.

Lemma same_ctx_os_pts pl4 k : same_ctx k (install_os_pts pl4 k).2.
Proof.
  unfold install_os_pts. cbv zeta.
  match goal with |- context [let '(_, _) := ?x in _] => assert (H1 : same_ctx k x.2); [|destruct x as [p1 k1]] end.
  { case_match; [|done]. pose proof (same_ctx_frame _ _ (frame_only_alloc OS_PT_REG k)) as H'.
    destruct (fs_alloc OS_PT_REG k) as [q k1]. exact H'. }
  match goal with |- context [let '(_, _) := ?x in _] => assert (H2 : same_ctx k1 x.2); [|destruct x as [p2 k2]] end.
  { case_match; [done|]. pose proof (same_ctx_frame _ _ (frame_only_alloc OS_PT_REG k1)) as H'.
    destruct (fs_alloc OS_PT_REG k1) as [q k2]. exact H'. }
  cbn [snd] in *. eapply same_ctx_trans; [exact H1|]. eapply same_ctx_trans; [exact H2|].
  eapply same_ctx_trans; [apply same_ctx_os_maps|apply same_ctx_apic_mapping].
Qed.

Lemma copy_mm_ctx child parent k : exists q, ctx_list (copy_mm child parent k) = alter (set_pgd q) child (ctx_list k).
Proof.
  unfold copy_mm. pose proof (same_ctx_frame _ _ (frame_only_alloc OS_PT_REG k)) as H1.
  destruct (fs_alloc OS_PT_REG k) as [q k1]. cbn [snd] in H1. exists q. rewrite <- H1. cbv zeta.
  etransitivity; [apply same_ctx_os_pts|]. etransitivity; [apply same_ctx_copy_segments|]. reflexivity.
Qed.

Lemma copy_mm_typed child parent k : typed k -> (child < 16)%nat -> typed (copy_mm child parent k).
Proof.
  intros Ht Hc. destruct (copy_mm_ctx child parent k) as [q E].
  apply (typed_same (upd_ctx child (set_pgd q) k)); [exact E|].
  apply typed_upd; [done|done|]. pose proof (proj2 Ht child Hc) as Hok. keeps. exact (co_swapper _ _ Hok).
Qed.

Lemma copy_mm_state child parent k i : state_of (copy_mm child parent k) i = state_of k i.
Proof.
  destruct (copy_mm_ctx child parent k) as [q E]. unfold state_of, ctx_at. rewrite E, list_lookup_alter.
  case_decide as Ei; [subst i|done]. by destruct (ctx_list k !! child).
Qed.

Lemma setup_child_typed child k :
  typed k -> (child < 16)%nat -> state_of k child <> UNUSED -> typed (setup_child_context child k).
Proof.
  intros Ht Hc Hu. unfold setup_child_context. pose proof (same_ctx_frame _ _ (frame_only_alloc OS_PT_REG k)) as H1.
  destruct (fs_alloc OS_PT_REG k) as [q k1]. cbn [snd] in H1.
  assert (T1 : typed k1) by (by apply (typed_same k)).
  apply (typed_same (upd_ctx child (fun c => set_state READY (set_os_stack q (u64 (u64 (q << PAGE_SHIFT) + PAGE_SIZE)) c)) k1)); [done|].
  apply typed_upd; [done|done|]. pose proof (proj2 T1 child Hc) as Hok. unfold state_of, ctx_at in Hu.
  keeps. unfold ctx_at. rewrite H1. exact (fun _ => Hu).
Qed.

(** ** fork and clone *)

(** A process in user mode: its context is used, and not the swapper's. *)
Record in_user (k : kernel) (c : nat) : Prop := {
  iu_current : current k = Some c;
  iu_range : (c < 16)%nat;
  iu_user : c <> 0%nat;
  iu_used : state_of k c <> UNUSED
}.

Lemma ctx_ok_user k c : typed k -> in_user k c ->
  length (name (ctx_at k c)) = 64%nat /\ length (sighandlers (ctx_at k c)) = 3%nat /\ space_ok (ctx_at k c).
Proof. intros [_ H] [_ Hc H0 Hu]. destruct (H c Hc) as [H1 H2 _ H4 _]. split_and!; [exact H1|exact H2|by apply H4]. Qed.

Lemma get_new_ctx_typed k : typed k ->
  match get_new_ctx k with
  | (Some i, k') => (i < 16)%nat /\ i <> 0%nat /\ state_of k i = UNUSED /\
      k' = upd_ctx i (fun c => set_state NEW (set_pid (Z.of_nat i) c)) k /\ typed_but i k'
  | (None, k') => k' = kprintf "%s: System limit on processes reached\n" [PStr (codes "get_new_ctx")] k
  end.
Proof.
  intros Ht. pose proof (get_new_ctx_spec_ok k (typed_table k Ht)) as H.
  destruct (get_new_ctx k) as [[i|] k']; [|by destruct H]. destruct H as (Hi & Hu & _ & -> & _).
  split_and!; [done| |done|done|].
  - intros ->. exact (co_swapper _ _ (proj2 Ht 0%nat ltac:(lia)) eq_refl Hu).
  - apply typed_but_upd; [|done]. destruct Ht as [Hl H]. split; [done|]. intros j Hj _. by apply H.
Qed.

Lemma do_fork_typed k c : typed k -> in_user k c -> post (fun _ k' => typed k') (do_fork k).
Proof.
  intros Ht Hin. pose proof (ctx_ok_user k c Ht Hin) as (Hnm & Hsh & Hsp). destruct Hin as [Hcur Hc H0 Hu].
  unfold do_fork, bind at 1, run. pose proof (get_new_ctx_typed k Ht) as Hg. destruct (get_new_ctx k) as [[i|] k1].
  2:{ subst k1. unfold bind, get_current_ctx. change (current (kprintf _ _ k)) with (current k). by rewrite Hcur. }
  destruct Hg as (Hi & Hi0 & Hui & -> & Tb). set (k1 := upd_ctx i _ k) in *.
  unfold bind at 1, get_current_ctx. change (current k1) with (current k). rewrite Hcur. cbn [deref].
  unfold bind at 1. cbn [deref]. unfold bind at 1, gets.
  assert (Hl : length (ctx_list k) = 16%nat) by apply Ht.
  assert (Ei : pid (ctx_at k1 i) = Z.of_nat i) by (unfold k1; rewrite ctx_at_upd by lia; by rewrite decide_True).
  assert (Ec : ctx_at k1 c = ctx_at k c) by (unfold k1; rewrite ctx_at_upd by lia; rewrite decide_False; [done|congruence]).
  rewrite Ei. unfold bind, modify. rewrite Ec. set (v := set_ppid _ _). set (k2 := upd_ctx i (fun _ => v) k1).
  assert (Hv : ctx_at k2 i = v) by (unfold k2; rewrite ctx_at_upd by (unfold k1; rewrite length_upd_ctx; lia); by rewrite decide_True).
  assert (T2 : typed k2).
  { apply (typed_fill i); [by apply typed_but_upd|]. rewrite Hv. split; [exact Hnm|exact Hsh|done| |done].
    intros _ _. revert Hsp. apply space_ok_mms. by intros []. }
  cbn [post ret]. apply setup_child_typed; [by apply copy_mm_typed|done|].
  rewrite copy_mm_state. unfold state_of. rewrite Hv. exact Hu.
Qed.

Lemma length_copy_name src dst n : length dst = n -> (length src <= n)%nat -> length (copy_name src dst) = n.
Proof. intros Hd Hs. unfold copy_name. rewrite length_app, length_drop. lia. Qed.

Lemma do_clone_typed k c th_func user_stack :
  typed k -> in_user k c -> post (fun _ k' => typed k') (do_clone th_func user_stack k).
Proof.
  intros Ht Hin. pose proof (ctx_ok_user k c Ht Hin) as (Hnm & Hsh & Hsp). destruct Hin as [Hcur Hc H0 Hu].
  pose proof (get_new_ctx_typed k Ht) as Hg. destruct (get_new_ctx k) as [[i|] k0] eqn:Eg.
  2:{ subst k0. unfold do_clone, bind at 1, run. rewrite Eg. unfold bind, get_current_ctx. change (current (kprintf _ _ k)) with (current k). by rewrite Hcur. }
  destruct (do_clone_ok k c i k0 th_func user_stack (typed_table k Ht) Hcur Hc Hu Eg) as (k1 & k' & -> & Hcl & En & Ho & Htab & _).
  destruct Hg as (Hi & Hi0 & _ & _ & Tb). destruct Ht as [Hl H].
  match goal with |- context [_ <=? CNAME_MAX] => destruct (Z.leb_spec (Z.of_nat (length (c_string (name (ctx_at k c)) ++
    sprintf [37; 100] [PInt (pid (ctx_at k c) + 1)]))) CNAME_MAX) as [Hfit|]; [|done] end.
  cbn [post]. apply (typed_fill i).
  - split; [apply Htab|]. intros j Hj Hne. rewrite Ho by done. by apply H.
  - destruct Hcl as [C1 C2 C3 C4 C5 C6 C7]. split.
    + rewrite En. apply length_copy_name; [by apply (co_name i _ (H i Hi))|]. unfold CNAME_MAX in Hfit. lia.
    + by rewrite C6.
    + by rewrite C1.
    + intros _ _. by apply (space_ok_mms (ctx_at k c)).
    + intros _. by rewrite C2.
Qed.

(** ** The other handlers *)

Lemma in_user_same k k' c : ctx_list k' = ctx_list k -> current k' = current k -> in_user k c -> in_user k' c.
Proof. intros El Ec [A B C D]. split; [congruence|done|done|]. unfold state_of, ctx_at. by rewrite El. Qed.

Lemma in_user_upd k c f : typed k -> in_user k c -> state (f (ctx_at k c)) <> UNUSED -> in_user (upd_ctx c f k) c.
Proof.
  intros [Hl _] [A B C D] Hf. split; [done..|]. unfold state_of. rewrite ctx_at_upd by lia. by rewrite decide_True.
Qed.

Lemma ctx_ok_at k c : typed k -> in_user k c -> ctx_ok c (ctx_at k c).
Proof. intros [_ H] [_ Hc _ _]. by apply H. Qed.

(** The running context is changed where its type says nothing. *)
Lemma typed_upd_user k c f :
  typed k -> in_user k c -> (ctx_ok c (ctx_at k c) -> ctx_ok c (f (ctx_at k c))) -> typed (upd_ctx c f k).
Proof. intros Ht Hin Hf. apply typed_upd; [done|apply Hin|]. by apply Hf, ctx_ok_at. Qed.

Lemma do_sleep_typed k c n : typed k -> in_user k c -> post (fun _ k' => typed k') (do_sleep n k).
Proof.
  intros Ht Hin. unfold do_sleep, bind at 1. rewrite (get_current_ok _ _ (iu_current _ _ Hin)). unfold bind at 1, modify.
  apply pick_and_schedule; [|apply Hin|].
  - apply typed_upd_user; [done|done|]. intros Hok. apply (ctx_ok_keeps _ _ _ Hok); try done.
    intros _. exact (iu_used _ _ Hin).
  - destruct Ht as [Hl H]. destruct Hin as [_ Hc _ Hu]. rewrite ctx_at_upd by lia. rewrite decide_True by done. by apply (co_pid c _ (H c Hc)).
Qed.

Lemma do_alarm_typed k c n : typed k -> in_user k c -> post (fun _ k' => typed k') (do_alarm n k).
Proof.
  intros Ht Hin. unfold do_alarm, bind at 1. rewrite (get_current_ok _ _ (iu_current _ _ Hin)). case_match; [|done].
  cbn [post bind modify ret]. apply typed_upd_user; [done|done|]. intros Hok. keeps. exact (co_swapper _ _ Hok).
Qed.

Lemma do_signal_typed k c signo h : typed k -> in_user k c -> post (fun _ k' => typed k') (do_signal signo h k).
Proof.
  intros Ht Hin. unfold do_signal, bind at 1. rewrite (get_current_ok _ _ (iu_current _ _ Hin)). case_match; [|done].
  cbn [post bind modify ret]. apply typed_upd_user; [done|done|]. intros Hok. keeps; [apply length_insert|exact (co_swapper _ _ Hok)].
Qed.

Lemma do_write_typed k c a n : typed k -> typed (do_write c a n k).2.
Proof. intros Ht. unfold do_write. cbv zeta. repeat case_match; by apply (typed_same k). Qed.

Lemma exit_typed {A} k c (a : A) : typed k -> in_user k c -> post (fun _ k' => typed k') ((do_exit ;;; ret a) k).
Proof. intros Ht [A0 B C D]. apply post_bind. by apply (do_exit_typed k c). Qed.

Lemma invoke_signal_typed k c signo regs :
  typed k -> in_user k c -> post (fun _ k' => typed k') (invoke_sync_signal signo regs k).
Proof.
  intros Ht Hin. unfold invoke_sync_signal, bind at 1. rewrite (get_current_ok _ _ (iu_current _ _ Hin)).
  unfold bind at 1, gets. case_match; [by apply (exit_typed k c)|]. case_match; [|done].
  cbn [post bind modify ret]. by apply (typed_same k).
Qed.

(** ** The timer *)

Lemma account_sleep_ok i c : ctx_ok i c -> ctx_ok i (account_sleep c).
Proof.
  intros Hok. unfold account_sleep. case_match eqn:Ew; [|done]. cbv zeta.
  apply andb_prop in Ew as [Ew _]. apply bool_decide_eq_true in Ew.
  case_match; apply (ctx_ok_keeps _ _ _ Hok); try done; intros _; cbn; by rewrite Ew.
Qed.

Lemma account_loop_typed k c : typed k -> in_user k c ->
  typed (account_loop 16 0 k) /\ in_user (account_loop 16 0 k) c.
Proof.
  intros [Hl H] [Hcur Hc H0 Hu].
  assert (E : forall j, (j < 16)%nat -> ctx_at (account_loop 16 0 k) j = account_sleep (ctx_at k j)).
  { intros j Hj. destruct (account_loop_at 16 0 k j Hl ltac:(lia)) as [E _]. rewrite E. by rewrite decide_True by lia. }
  destruct (account_loop_at 16 0 k 0 Hl ltac:(lia)) as (_ & El & Ec & _). split; [split|split].
  - exact El.
  - intros j Hj. rewrite E by done. apply account_sleep_ok. by apply H.
  - by rewrite Ec.
  - exact Hc.
  - exact H0.
  - unfold state_of. rewrite E by done. by apply account_sleep_used.
Qed.

(** SIGALRM does not end the process. *)
Lemma alarm_signal_typed k c regs : typed k -> in_user k c ->
  post (fun _ k' => typed k' /\ in_user k' c) (invoke_sync_signal SIGALRM regs k).
Proof.
  intros Ht Hin. unfold invoke_sync_signal, bind at 1. rewrite (get_current_ok _ _ (iu_current _ _ Hin)).
  unfold bind at 1, gets. change (negb (SIGALRM =? SIGALRM)) with false. rewrite andb_false_r. case_match; [|done].
  cbn [post bind modify ret]. split; [by apply (typed_same k)|by apply (in_user_same k)].
Qed.

Lemma set_ticks_typed k c f : typed k -> in_user k c ->
  (forall x, exists a b d, f x = set_ticks a b d x) -> typed (upd_ctx c f k) /\ in_user (upd_ctx c f k) c.
Proof.
  intros Ht Hin Hf. destruct (Hf (ctx_at k c)) as (a & b & d & E). split.
  - apply typed_upd_user; [done|done|]. rewrite E. intros Hok. keeps. exact (co_swapper _ _ Hok).
  - apply in_user_upd; [done|done|]. rewrite E. exact (iu_used _ _ Hin).
Qed.

Lemma alarm_account_typed k c regs : typed k -> in_user k c ->
  post (fun _ k' => typed k' /\ in_user k' c) (do_sleep_and_alarm_account regs k).
Proof.
  intros Ht Hin. unfold do_sleep_and_alarm_account, bind at 1. rewrite (get_current_ok _ _ (iu_current _ _ Hin)).
  unfold bind at 1, modify. change (Z.to_nat MAX_PROCESSES) with 16%nat. destruct (account_loop_typed k c Ht Hin) as [T1 I1].
  set (k1 := account_loop 16 0 k) in *. clearbody k1. unfold bind at 1, gets. case_match; [|done].
  unfold bind at 1. set (f := fun x => set_ticks (ticks_to_sleep x) (alarm_config_time x) (ticks_to_alarm x - 1) x).
  destruct (set_ticks_typed k1 c f T1 I1) as [T2 I2]; [intros x; by do 3 eexists|].
  set (k2 := upd_ctx c f k1) in *. clearbody k2. destruct (ticks_to_alarm _ - 1 =? 0); [|exact (conj T2 I2)].
  apply post_bind. eapply post_weaken; [|by apply alarm_signal_typed]. intros regs' k3 [T3 I3]. cbn beta.
  cbn [post bind modify ret]. apply set_ticks_typed; [done|done|]. intros x. by do 3 eexists.
Qed.

Lemma switch_typed k c i regs : typed k -> in_user k c -> (i < 16)%nat -> (i <> 0%nat -> state_of k i <> UNUSED) ->
  post (fun _ k' => typed k') (switch_on_tick c i regs k).
Proof.
  intros Ht Hin Hi Hu. unfold switch_on_tick. unfold bind, modify, gets, ret. cbn [post].
  set (k1 := set_stats _ k).
  assert (T1 : typed k1) by (by apply (typed_same k)). assert (I1 : in_user k1 c) by (by apply (in_user_same k)).
  assert (T2 : typed (upd_ctx c (set_regs regs) k1)).
  { apply typed_upd_user; [done|done|]. intros Hok. keeps. exact (co_swapper _ _ Hok). }
  assert (U2 : i <> 0%nat -> state (ctx_at (upd_ctx c (set_regs regs) k1) i) <> UNUSED).
  { intros Hne. rewrite ctx_at_upd by (destruct T1; destruct I1; lia). case_decide as E; [subst i|]; exact (Hu Hne). }
  set (k2 := upd_ctx c (set_regs regs) k1) in *. clearbody k2.
  assert (E3 : ctx_list (switch_cr3 c i k2) = ctx_list k2) by (unfold switch_cr3; by case_match).
  set (k3 := switch_cr3 c i k2) in *. clearbody k3. set (k4 := set_current (Some i) _).
  assert (E4 : ctx_list k4 = ctx_list k2) by exact E3. clearbody k4.
  apply typed_upd; [by apply (typed_same k2)|done|].
  assert (E : ctx_at k4 i = ctx_at k2 i) by (unfold ctx_at; by rewrite E4). rewrite E. clear E.
  pose proof (proj2 T2 i Hi) as Hok. keeps. intros _. destruct (decide (i = 0%nat)) as [->|Hne]; [by apply (co_swapper _ _ Hok)|by apply U2].
Qed.

Lemma timer_tick_typed k c regs : typed k -> in_user k c -> post (fun _ k' => typed k') (handle_timer_tick regs k).
Proof.
  intros Ht Hin. unfold handle_timer_tick, bind at 1. rewrite (get_current_ok _ _ (iu_current _ _ Hin)).
  apply post_bind. eapply post_weaken; [|by apply alarm_account_typed]. intros regs' k1 [T1 I1]. cbn beta.
  unfold bind at 1, modify. set (k2 := set_stats _ k1). unfold bind at 1.
  assert (T2 : typed k2) by (by apply (typed_same k1)). assert (I2 : in_user k2 c) by (by apply (in_user_same k1)). clearbody k2.
  assert (T3 : typed (upd_ctx c (set_state READY) k2)).
  { apply typed_upd_user; [done|done|]. intros Hok. keeps. intros _. exact (iu_used _ _ I2). }
  assert (I3 : in_user (upd_ctx c (set_state READY) k2) c) by (by apply in_user_upd).
  set (k3 := upd_ctx c (set_state READY) k2) in *. clearbody k3. unfold bind at 1, gets.
  rewrite pick_next_context_first by (apply I3 || exact (co_pid _ _ (ctx_ok_at _ _ T3 I3) (iu_used _ _ I3))).
  set (i := default 0%nat (first_ready (state_of k3) (candidates c))). unfold bind at 1. cbn [deref].
  assert (Hi : (i < 16)%nat) by (apply first_ready_range, I3).
  assert (Hr : i <> 0%nat -> state_of k3 i = READY) by exact (first_ready_ready (state_of k3) (candidates c)).
  apply post_bind.
  assert (H4 : post (fun _ k4 => typed k4) ((if decide (c = i) then ret regs' else switch_on_tick c i regs') k3)).
  { case_decide; [exact T3|]. apply switch_typed; [done|done|done|]. intros Hne. by rewrite (Hr Hne). }
  eapply post_weaken; [|exact H4]. intros r k4 T4. cbn [post bind modify ret]. by apply (typed_same k4).
Qed.

(** ** Every entry from user mode *)

(** The ways from user mode into the kernel: what the entry code and the
    processor hand over. *)
Inductive kernel_entry :=
| ESyscall (user_config : os_configs) (regs : user_regs) (syscall param1 param2 : Z)
| EDivByZero (regs : user_regs)
| EProtection (error rip cr2 : Z)
| EPageFault (cr2 error_code : Z) (regs : user_regs)
| ETimer (regs : user_regs).

Definition handle (e : kernel_entry) : M () :=
  match e with
  | ESyscall uc regs n p1 p2 => do_syscall uc regs n p1 p2 ;;; ret tt
  | EDivByZero regs => do_div_by_zero regs ;;; ret tt
  | EProtection error rip cr2 => do_gp error rip cr2 ;;; ret tt
  | EPageFault cr2 ec regs => do_page_fault cr2 ec regs ;;; ret tt
  | ETimer regs => do_irq regs ;;; ret tt
  end.

(** Registers hold unsigned words. *)
Definition entry_ok (e : kernel_entry) : Prop :=
  match e with ESyscall _ _ _ p1 _ => 0 <= p1 | _ => True end.

Lemma post_return {A} (x : M A) k : post (fun _ k' => typed k') (x k) -> post (fun _ k' => typed k') ((x ;;; ret tt) k).
Proof. intros H. by apply post_bind. Qed.

Lemma do_syscall_typed uc regs n p1 p2 k c :
  typed k -> in_user k c -> 0 <= p1 -> post (fun _ k' => typed k') (do_syscall uc regs n p1 p2 k).
Proof.
  intros Ht Hin Hp. unfold do_syscall, bind at 1. rewrite (get_current_ok _ _ (iu_current _ _ Hin)). do 2 (unfold bind at 1, modify).
  assert (T1 : typed (upd_ctx c (set_regs regs) k)).
  { apply typed_upd_user; [done|done|]. intros Hok. keeps. exact (co_swapper _ _ Hok). }
  assert (I1 : in_user (upd_ctx c (set_regs regs) k) c) by (apply in_user_upd; [done|done|exact (iu_used _ _ Hin)]).
  set (k1 := upd_ctx c (set_regs regs) k) in *. clearbody k1. set (k2 := set_stats _ k1).
  assert (T2 : typed k2) by (by apply (typed_same k1)). assert (I2 : in_user k2 c) by (by apply (in_user_same k1)). clearbody k2.
  pose proof I2 as [_ Hc H0 Hu].
  destruct (n =? SYSCALL_EXIT); [by apply (exit_typed k2 c)|].
  destruct (n =? SYSCALL_GETPID); [done|].
  destruct (n =? SYSCALL_WRITE). { unfold run. pose proof (do_write_typed k2 c p1 p2 T2). by destruct (do_write c p1 p2 k2). }
  destruct (n =? SYSCALL_EXPAND).
  { unfold run. pose proof (do_expand_typed k2 c p1 (s32 p2) T2 Hc H0 Hu Hp). by destruct (do_expand c p1 (s32 p2) k2). }
  destruct (n =? SYSCALL_SHRINK).
  { unfold run. pose proof (do_shrink_typed k2 c p1 (s32 p2) T2 Hc H0 Hu Hp). by destruct (do_shrink c p1 (s32 p2) k2). }
  destruct (n =? SYSCALL_ALARM); [by apply (do_alarm_typed k2 c)|].
  destruct (n =? SYSCALL_SLEEP); [by apply (do_sleep_typed k2 c)|].
  destruct (n =? SYSCALL_SIGNAL); [by apply (do_signal_typed k2 c)|].
  destruct (n =? SYSCALL_CLONE); [by apply (do_clone_typed k2 c)|].
  destruct (n =? SYSCALL_FORK); [by apply (do_fork_typed k2 c)|].
  destruct (n =? SYSCALL_STATS); [by apply (typed_same k2)|].
  destruct (n =? SYSCALL_CONFIGURE); [by apply (typed_same k2)|done].
Qed.

Lemma do_page_fault_typed cr2 ec regs k c :
  typed k -> in_user k c -> post (fun _ k' => typed k') (do_page_fault cr2 ec regs k).
Proof.
  intros Ht Hin. unfold do_page_fault, bind at 1. rewrite (get_current_ok _ _ (iu_current _ _ Hin)).
  unfold bind at 1, modify. set (k2 := set_stats _ k).
  assert (T2 : typed k2) by (by apply (typed_same k)). assert (I2 : in_user k2 c) by (by apply (in_user_same k)). clearbody k2.
  unfold bind at 1, gets. destruct (fault_decision _ _ _).
  - cbn [post bind ret]. eapply typed_frame; [apply frame_only_install_page_table|done].
  - unfold bind at 1. apply (invoke_signal_typed _ c); [by apply (typed_same k2)|by apply (in_user_same k2)].
Qed.

(** C4: Whatever brings a process into the kernel - a system call with any
    number and arguments, a division by zero, a protection or page fault, the
    timer - the process table keeps its type: names, handler tables and
    segments of the declared lengths and bounds, identifiers equal to the
    indices.  It holds when the handler returns and when it leaves for another
    context. *)
Theorem kernel_entry_keeps_types e k c :
  typed k -> in_user k c -> entry_ok e -> post (fun _ k' => typed k') (handle e k).
Proof.
  intros Ht Hin He. destruct e as [uc regs n p1 p2|regs|error rip cr2|cr2 ec regs|regs]; cbn [handle]; apply post_return.
  - by apply (do_syscall_typed _ _ _ _ _ k c).
  - unfold do_div_by_zero, bind at 1, modify. apply (invoke_signal_typed _ c); [by apply (typed_same k)|by apply (in_user_same k)].
  - unfold do_gp, bind at 1, modify. apply (exit_typed _ c); [by apply (typed_same k)|by apply (in_user_same k)].
  - by apply (do_page_fault_typed _ _ _ k c).
  - by apply (timer_tick_typed k c).
Qed.

(** A process with two pages of data, beside the swapper. *)
Definition placed_ctx : exec_context :=
  upd_mms MM_SEG_STACK (seg_set_next_free STACK_START) (upd_mms MM_SEG_RODATA (seg_set_next_free RODATA_START)
    (upd_mms MM_SEG_CODE (seg_set_next_free (CODE_START + 4096 * CODE_PAGES)) (init_ctx fresh_root))).

Definition placed_kernel : kernel :=
  set_ctx_list ([set_state READY zero_context; placed_ctx] ++ replicate 14 zero_context) (init_kernel reset_mm).

Lemma placed_kernel_typed : typed placed_kernel.
Proof.
  split; [done|]. intros i Hi. destruct i as [|[|i]].
  - by split.
  - split; [done|done|done| |done]. intros _ _. split; (split; [done|split; [done|]]); vm_compute; intuition congruence.
  - replace (ctx_at placed_kernel (Datatypes.S (Datatypes.S i))) with zero_context; [by split|].
    unfold ctx_at. do 14 (destruct i as [|i]; [done|]). lia.
Qed.

Lemma placed_kernel_user : in_user placed_kernel 1.
Proof. split; [done|lia|done|done]. Qed.

Lemma kernel_entry_keeps_types_witness :
  post (fun _ k' => typed k') (handle (ESyscall (OsConfigs 0 32 0 0) zero_regs SYSCALL_FORK 0 0) placed_kernel) /\
  post (fun _ k' => typed k') (handle (EPageFault 0x180001000 6 zero_regs) placed_kernel) /\
  post (fun _ k' => typed k') (handle (EProtection 0 0 0) placed_kernel).
Proof.
  refine (conj _ (conj _ _)); apply (kernel_entry_keeps_types _ _ 1 placed_kernel_typed placed_kernel_user); (exact I || discriminate).
Defined.
