(* ===== verification/UserSpec.v ===== *)
(** * Theorems on the programs of user/

    The text that init_args.c prints, and the pages that init.c touches, which
    are those that [do_expand] granted and [do_page_fault] maps. *)
From S2P Require Import Prelude Mem Lib Machine Memory PageAlloc Frames Printf Serial PageTable PageMap Kernel Apic Idt Context Sched Shell Dsh Entry User Timer Syscalls.
#[local] Open Scope gemos_scope.

(** ** Characters in memory *)

Lemma chars_at_join m a xs ys : chars_at m a xs -> chars_at m (a + Z.of_nat (length xs)) ys -> chars_at m a (xs ++ ys).
Proof.
  intros Hx Hy i c Hi. destruct (decide (i < length xs)%nat) as [Hl|Hl].
  - rewrite lookup_app_l in Hi by done. by apply Hx.
  - rewrite lookup_app_r in Hi by lia. rewrite <- (Hy _ c Hi). f_equal. lia.
Qed.

(** The events of [put_chars]. *)
Fixpoint puts (a : Z) (cs : list Z) : list uevent :=
  match cs with [] => [] | c :: cs => UStore 1 a c :: puts (a + 1) cs end.

Lemma put_chars_run a cs m ans ev :
  urun (put_chars a cs) (UState m ans ev) = (Some (a + Z.of_nat (length cs)), UState (store_bytes m a cs) ans (ev ++ puts a cs)).
Proof.
  revert a m ev. induction cs as [|c cs IH]; intros a m ev; cbn [put_chars urun puts store_bytes length u_mem u_answers u_done].
  - by rewrite Z.add_0_r, app_nil_r.
  - rewrite IH, <- app_assoc. do 2 f_equal. lia.
Qed.

(** ** init_args *)

(** The decimal digits of a number, lowest first. *)
Fixpoint low_digits (n : nat) (z : Z) : list Z :=
  match n with
  | O => []
  | S n => if z =? 0 then [] else (z mod 10 + 48) :: low_digits n (z / 10)
  end.

Lemma low_digits_spec n z :
  0 <= z < 10 ^ Z.of_nat n -> Forall is_digit (low_digits n z) /\ read_dec (rev (low_digits n z)) = z /\
  (z <> 0 -> low_digits n z <> []).
Proof.
  revert z. induction n as [|n IH]; intros z Hz; cbn [low_digits].
  { cbn in Hz. split; [constructor|]. split; [cbn; lia|lia]. }
  destruct (Z.eqb_spec z 0) as [->|Hne]; [done|].
  rewrite Nat2Z.inj_succ, Z.pow_succ_r in Hz by lia.
  destruct (IH (z / 10)) as (Hd & Hr & _).
  { split; [apply Z.div_pos; lia|]. apply Z.div_lt_upper_bound; lia. }
  split; [|split; [|done]].
  - constructor; [unfold is_digit; pose proof (Z.mod_pos_bound z 10); lia|done].
  - cbn [rev]. unfold read_dec in *. rewrite fold_left_app, Hr. cbn [fold_left]. pose proof (Z.div_mod z 10). lia.
Qed.

Lemma low_digits_length k n z : 0 <= z < 10 ^ Z.of_nat k -> (length (low_digits n z) <= k)%nat.
Proof.
  revert k z. induction n as [|n IH]; intros k z Hz; cbn [low_digits]; [cbn; lia|].
  destruct (Z.eqb_spec z 0) as [->|Hne]; [cbn; lia|].
  destruct k as [|k]; [cbn in Hz; lia|]. rewrite Nat2Z.inj_succ, Z.pow_succ_r in Hz by lia.
  cbn [length]. specialize (IH k (z / 10)). enough (length (low_digits n (z / 10)) <= k)%nat by lia. apply IH.
  split; [apply Z.div_pos; lia|]. apply Z.div_lt_upper_bound; lia.
Qed.

Lemma digits_run n number z ctr m ans ev :
  urun (InitArgs.digits_loop n number z ctr) (UState m ans ev) =
    (Some (ctr + Z.of_nat (length (low_digits n z))),
     UState (store_bytes m (number + ctr) (low_digits n z)) ans (ev ++ puts (number + ctr) (low_digits n z))).
Proof.
  revert z ctr m ev. induction n as [|n IH]; intros z ctr m ev; cbn [InitArgs.digits_loop low_digits].
  { cbn. by rewrite Z.add_0_r, app_nil_r. }
  destruct (z =? 0); cbn [urun puts store_bytes length u_mem u_answers u_done].
  { by rewrite Z.add_0_r, app_nil_r. }
  rewrite IH, <- app_assoc. rewrite (Z.add_assoc number ctr 1). do 2 f_equal. lia.
Qed.

Lemma copy_run n number message ctr1 ctr2 ds m ans ev :
  chars_at m number ds -> (n <= length ds)%nat -> Forall (fun c => 0 <= c < 256) ds ->
  number + Z.of_nat (length ds) <= message + ctr1 \/ message + ctr1 + ctr2 + Z.of_nat n <= number -> 0 <= ctr2 ->
  urun (InitArgs.copy_loop n number message (Z.of_nat n - 1) ctr1 ctr2) (UState m ans ev) =
    (Some (ctr2 + Z.of_nat n),
     UState (store_bytes m (message + ctr1 + ctr2) (rev (take n ds))) ans (ev ++ puts (message + ctr1 + ctr2) (rev (take n ds)))).
Proof.
  revert ctr2 m ev. induction n as [|n IH]; intros ctr2 m ev Hc Hn Hd Hap H2; cbn [InitArgs.copy_loop].
  { cbn. by rewrite Z.add_0_r, app_nil_r. }
  destruct (lookup_lt_is_Some_2 ds n) as [c Ec]; [lia|].
  rewrite (take_S_r ds n c Ec), rev_app_distr. cbn [rev app urun puts store_bytes u_mem u_answers u_done].
  replace (Z.of_nat (S n) - 1) with (Z.of_nat n) by lia. rewrite (Hc n c Ec), (Z.add_assoc message).
  rewrite IH; [|..|lia].
  - rewrite <- app_assoc. replace (message + ctr1 + (ctr2 + 1)) with (message + ctr1 + ctr2 + 1) by lia. do 2 f_equal. lia.
  - apply (chars_at_same m); [done|]. intros b Hb. change (stn 1 m ?a c) with (st8 m a c). rewrite ld8_st8. zcase; [lia|done].
  - lia.
  - done.
  - lia.
Qed.

Lemma store_bytes_range m a cs : untouched (fun b => a <= b < a + Z.of_nat (length cs)) m (store_bytes m a cs).
Proof. intros b Hb. by apply store_bytes_untouched. Qed.

Lemma ten_digits z : 0 <= z < 10^10 -> 0 <= z < 10 ^ Z.of_nat 20.
Proof.
  intros [H0 H1]. split; [done|]. apply (Z.lt_le_trans _ _ _ H1). apply Z.pow_le_mono_r; lia.
Qed.

(** Everything that [main] does, up to the last store. *)
Definition args_memory (m : mem) (message number : Z) (ds : list Z) : mem :=
  store_bytes (store_bytes (store_bytes m message (codes "ARG1=")) number (rev ds)) (message + 5) (ds ++ [10; 0]).

Lemma init_args_run message number arg1 rest m r ans ev :
  0 <= arg1 < 10^10 -> 0 <= message -> message + 20 < 2^64 -> message + 20 <= number \/ number + 10 <= message ->
  let ds := rev (low_digits 20 arg1) in
  exists ev', urun (InitArgs.main message number (arg1 :: rest)) (UState m (r :: ans) ev) =
    (Some 0, UState (args_memory m message number ds) ans (ev' ++ [UCall SYSCALL_WRITE [message; 7 + Z.of_nat (length ds)]])).
Proof.
  intros Ha H0 Hm Hap ds. set (l := low_digits 20 arg1) in *. assert (El : rev ds = l) by apply rev_involutive.
  assert (Hlen : (length l <= 10)%nat) by (apply (low_digits_length 10); exact Ha).
  assert (Hld : length ds = length l) by apply length_rev.
  destruct (low_digits_spec 20 arg1 (ten_digits arg1 Ha)) as (Hd & _ & _). fold l in Hd.
  unfold InitArgs.main. cbn [nth]. rewrite urun_bind, (put_chars_run message (codes "ARG1=") m (r :: ans) ev).
  rewrite urun_bind, (digits_run 20 number arg1 0). fold l.
  rewrite !Z.add_0_l, !Z.add_0_r, Nat2Z.id. rewrite urun_bind.
  set (m1 := store_bytes m message (codes "ARG1=")).
  rewrite (copy_run (length l) number message 5 0 l).
  - rewrite firstn_all, Z.add_0_r, Z.add_0_l. fold ds. cbn [urun u_mem u_answers u_done]. rewrite urun_bind.
    unfold write, _syscall2. cbn [urun ret_u64 u_mem u_answers u_done].
    eexists. f_equal. f_equal.
    + unfold args_memory. rewrite El. fold m1. rewrite store_bytes_app. cbn [store_bytes].
      rewrite Hld, !Z.add_assoc. reflexivity.
    + f_equal. clearbody l ds. clear - Hlen Hld H0 Hm.
      rewrite (u64_small message) by lia. rewrite u64_small by lia. rewrite Hld. do 4 f_equal. lia.
  - apply store_bytes_chars. eapply Forall_impl; [exact Hd|]. unfold is_digit. intros; lia.
  - lia.
  - eapply Forall_impl; [exact Hd|]. unfold is_digit. intros; lia.
  - lia.
  - lia.
Qed.

Lemma args_memory_text m message number ds :
  Forall is_digit ds -> (length ds <= 10)%nat -> message + 20 <= number \/ number + 10 <= message ->
  chars_at (args_memory m message number ds) message (codes "ARG1=" ++ ds ++ [10; 0]) /\
  untouched (fun a => message <= a < message + 20 \/ number <= a < number + 10) m (args_memory m message number ds).
Proof.
  intros Hd Hl Hap. unfold args_memory. set (m1 := store_bytes m message _). split.
  - apply chars_at_join.
    + apply (chars_at_same m1).
      * apply store_bytes_chars. by apply Forall_between.
      * intros b Hb. change (length (codes "ARG1=")) with 5%nat in Hb.
        rewrite !store_bytes_untouched; [done| |]; rewrite ?length_rev, ?length_app; cbn [length]; lia.
    + apply store_bytes_chars. apply Forall_app. split; [|repeat constructor; lia].
      eapply Forall_impl; [exact Hd|]. unfold is_digit. intros; lia.
  - apply untouched_trans with (m2 := m1); [|apply untouched_trans with (m2 := store_bytes m1 number (rev ds))].
    + eapply untouched_weaken; [|apply store_bytes_range]. change (length (codes "ARG1=")) with 5%nat. cbv beta. lia.
    + eapply untouched_weaken; [|apply store_bytes_range]. rewrite length_rev. cbv beta. lia.
    + eapply untouched_weaken; [|apply store_bytes_range]. rewrite length_app. cbn [length]. cbv beta. lia.
Qed.

(** C19: init_args.c writes "ARG1=", its first argument in decimal (nothing for 0),
    a newline and the terminating 0, all of them, and stores nowhere but in
    its two arrays, as long as the argument has at most ten digits. *)
Theorem init_args_message message number arg1 rest m r ans ev :
  0 <= arg1 < 10^10 -> 0 <= message -> message + 20 < 2^64 -> message + 20 <= number \/ number + 10 <= message ->
  exists ds ev' m', urun (InitArgs.main message number (arg1 :: rest)) (UState m (r :: ans) ev) =
      (Some 0, UState m' ans (ev' ++ [UCall SYSCALL_WRITE [message; 7 + Z.of_nat (length ds)]])) /\
    Forall is_digit ds /\ read_dec ds = arg1 /\ (arg1 <> 0 -> ds <> []) /\
    chars_at m' message (codes "ARG1=" ++ ds ++ [10; 0]) /\
    untouched (fun a => message <= a < message + 20 \/ number <= a < number + 10) m m'.
Proof.
  intros Ha H0 Hm Hap. destruct (init_args_run message number arg1 rest m r ans ev Ha H0 Hm Hap) as [ev' E].
  destruct (low_digits_spec 20 arg1 (ten_digits arg1 Ha)) as (Hd & Hr & Hn).
  set (ds := rev (low_digits 20 arg1)) in *. exists ds, ev', (args_memory m message number ds). split; [exact E|].
  assert (Hdd : Forall is_digit ds) by (by apply Forall_rev).
  assert (Hlen : (length ds <= 10)%nat) by (unfold ds; rewrite length_rev; apply (low_digits_length 10); exact Ha).
  split; [exact Hdd|]. split; [exact Hr|]. split; [|by apply args_memory_text].
  intros Hne E0. apply (Hn Hne). rewrite <- (rev_involutive (low_digits 20 arg1)). fold ds. by rewrite E0.
Qed.

(** ** init *)

(** [emits p a evs]: [p] ends with [a], needs no answer and does [evs]. *)
Definition emits {A} (p : uprog A) (a : A) (evs : list uevent) : Prop :=
  forall m ans ev, exists m', urun p (UState m ans ev) = (Some a, UState m' ans (ev ++ evs)).

Lemma emits_done {A} (a : A) : emits (Done a) a [].
Proof. intros m ans ev. exists m. cbn. by rewrite app_nil_r. Qed.

Lemma emits_store {A} n b v (p : uprog A) a evs : emits p a evs -> emits (Store n b v p) a (UStore n b v :: evs).
Proof.
  intros H m ans ev. cbn [urun u_mem u_answers u_done]. destruct (H (stn n m b v) ans (ev ++ [UStore n b v])) as [m' E].
  exists m'. by rewrite E, <- app_assoc.
Qed.

Lemma emits_bind {A B} (p : uprog A) (f : A -> uprog B) a b evs evs' :
  emits p a evs -> emits (f a) b evs' -> emits (ubind p f) b (evs ++ evs').
Proof.
  intros H1 H2 m ans ev. destruct (H1 m ans ev) as [m1 E1]. destruct (H2 m1 ans (ev ++ evs)) as [m2 E2].
  exists m2. by rewrite urun_bind, E1, E2, app_assoc.
Qed.

(** The stores of one page, of [n] pages from number [c] on, and of all rounds. *)
Definition page_stores (a : Z) : list uevent := map (fun j => UStore 8 (a + 1024 * j) 0x1000) [0; 1; 2; 3].
Definition pages_stores (n : nat) (ptr c : Z) : list uevent := flat_map (fun i => page_stores (ptr + 4096 * i)) (seqZ c (Z.of_nat n)).

Lemma pageset_emits a : emits (Init.pageset a 0x1000) tt (page_stores a).
Proof.
  unfold Init.pageset, page_stores. cbn [Init.pageset_loop map].
  replace (a + 1024 * 0) with a by lia. replace (a + 1024 * 1) with (a + 8 * 128) by lia.
  replace (a + 1024 * 2) with (a + 8 * 128 + 8 * 128) by lia. replace (a + 1024 * 3) with (a + 8 * 128 + 8 * 128 + 8 * 128) by lia.
  do 4 apply emits_store. apply emits_done.
Qed.

Lemma pages_emits n ptr c : emits (Init.pages_loop n ptr c) tt (pages_stores n ptr c).
Proof.
  revert c. induction n as [|n IH]; intros c; cbn [Init.pages_loop]; [apply emits_done|].
  unfold pages_stores. rewrite seqZ_cons by lia. cbn [flat_map]. rewrite shiftl_12, (Z.mul_comm c).
  apply (emits_bind _ _ tt); [apply pageset_emits|]. replace (Z.pred (Z.of_nat (S n))) with (Z.of_nat n) by lia.
  replace (Z.succ c) with (c + 1) by lia. apply IH.
Qed.

Lemma rounds_emits n ptr : emits (Init.rounds_loop n ptr) tt (concat (replicate n (pages_stores 512 ptr 0))).
Proof.
  induction n as [|n IH]; [apply emits_done|]. cbn [Init.rounds_loop replicate concat].
  apply (emits_bind _ _ tt); [apply pages_emits|exact IH].
Qed.

Lemma in_pages_stores n ptr e :
  e ∈ pages_stores n ptr 0 <-> exists i j, 0 <= i < Z.of_nat n /\ 0 <= j < 4 /\ e = UStore 8 (ptr + 4096 * i + 1024 * j) 0x1000.
Proof.
  unfold pages_stores. rewrite list_elem_of_In, in_flat_map. split.
  - intros (i & Hi & He). apply list_elem_of_In, elem_of_seqZ in Hi.
    unfold page_stores in He. apply in_map_iff in He as (j & <- & Hj). exists i, j.
    split; [lia|]. split; [|done]. cbn in Hj. lia.
  - intros (i & j & Hi & Hj & ->). exists i. split; [apply list_elem_of_In, elem_of_seqZ; lia|].
    unfold page_stores. apply in_map_iff. exists j. split; [done|].
    assert (j = 0 \/ j = 1 \/ j = 2 \/ j = 3) as Hc by lia. cbn. intuition.
Qed.

Lemma in_rounds n ptr e : (0 < n)%nat -> e ∈ concat (replicate n (pages_stores 512 ptr 0)) <-> e ∈ pages_stores 512 ptr 0.
Proof.
  intros Hn. rewrite list_elem_of_In, in_concat. split.
  - intros (l & Hl & He). apply list_elem_of_In, elem_of_replicate in Hl as [-> _]. by apply list_elem_of_In.
  - intros He. exists (pages_stores 512 ptr 0). split; [|by apply list_elem_of_In].
    apply list_elem_of_In, elem_of_replicate. split; [done|lia].
Qed.

(** What [DECLARE_MSG] stores: the text with its NUL, then the digit. *)
Definition message_stores (msg pid : Z) : list uevent := puts msg (Init.MSG ++ [0]) ++ [UStore 1 (msg + 6) (48 + pid)].

Lemma declare_msg_emits msg pid : emits (declare_msg Init.MSG msg pid) tt (message_stores msg pid).
Proof.
  unfold declare_msg, message_stores. eapply emits_bind.
  - intros m ans ev. eexists. apply put_chars_run.
  - replace (msg + Z.of_nat (length Init.MSG) + 1 - 3) with (msg + 6) by (change (Z.of_nat (length Init.MSG)) with 8; lia).
    apply emits_store, emits_done.
Qed.

Lemma child_run msg' f mpid ptr ans m ev evs :
  emits (Init.rounds_loop 64 ptr) tt evs ->
  exists m', urun (Init.child msg') (UState m (f :: mpid :: ptr :: ans) ev) =
    (Some tt, UState m' ans (ev ++ [UCall SYSCALL_FORK []; UCall SYSCALL_GETPID []] ++ message_stores msg' mpid ++
       UCall SYSCALL_EXPAND [512; MAP_WR] :: evs)).
Proof.
  intros H. unfold Init.child. rewrite urun_bind. unfold fork, _syscall0. cbn [urun ret_u64 u_mem u_answers u_done].
  rewrite urun_bind. unfold getpid, _syscall0. cbn [urun ret_u64 u_mem u_answers u_done]. rewrite urun_bind.
  destruct (declare_msg_emits msg' mpid m (ptr :: ans) ((ev ++ [UCall SYSCALL_FORK []]) ++ [UCall SYSCALL_GETPID []])) as [m1 E1].
  rewrite E1, urun_bind. unfold expand, _syscall2. cbn [urun ret_u64 u_mem u_answers u_done].
  match goal with |- context [UState m1 ans ?ev1] => destruct (H m1 ans ev1) as [m2 E2] end.
  exists m2. rewrite E2. change (u64 512) with 512. change (u64 MAP_WR) with MAP_WR. by rewrite <- !app_assoc.
Qed.

(** An address of the pages that [expand] granted is one that the kernel maps
    at the first store. *)
Lemma expanded_store_handled k c a r :
  laid_out (ctx_at k c) -> below_free (mm_data (ctx_at k c)) a ->
  current k = Some c -> pt_ok k (pgd (ctx_at k c)) -> path_clear (fs_ram k) (pgd (ctx_at k c)) a ->
  (3 <= fl_avail k OS_PT_REG)%nat -> (0 < fl_avail k USER_REG)%nat ->
  exists k' q, do_page_fault a 6 r k = Ret r k' /\ map_post 3 k k' (pgd (ctx_at k c)) a (Some (4096 * q + 7)) (Some q).
Proof.
  intros Hl Hb Hcur Hok Hc Hpt Hus.
  destruct (do_page_fault_handled_ok k c a 6 r Hcur) as (k' & q & E & P & _); [|done..|by exists k', q].
  apply fault_decision_spec_ok; auto.
Qed.

(** C18: The first child of init forks, asks for its pid, stores its message,
    asks for 512 pages and, when [expand] grants them, runs its 64 rounds to
    the end without another system call.  Besides the message it stores four
    words in each of the 512 pages and nothing anywhere else.  Whenever one of
    these stores faults because its page is not mapped, the kernel maps a new
    frame there, with an entry that permits writes, and returns to the child
    with the same registers, as long as frames are left. *)
Theorem init_touches_expanded k c ptr k' msg' f mpid ans m ev :
  laid_out (ctx_at k c) -> (c < length (ctx_list k))%nat -> seg_ok (mms (ctx_at k c) MM_SEG_DATA) ->
  do_expand c 512 MAP_WR k = (ptr, k') -> ptr <> 0 ->
  exists evs m', urun (Init.child msg') (UState m (f :: mpid :: ptr :: ans) ev) =
      (Some tt, UState m' ans (ev ++ [UCall SYSCALL_FORK []; UCall SYSCALL_GETPID []] ++ message_stores msg' mpid ++
         UCall SYSCALL_EXPAND [512; MAP_WR] :: evs)) /\
    (forall e, e ∈ evs <-> exists i j, 0 <= i < 512 /\ 0 <= j < 4 /\ e = UStore 8 (ptr + 4096 * i + 1024 * j) 0x1000) /\
    (forall n a v k2 r, UStore n a v ∈ evs ->
       let root := pgd (ctx_at k c) in
       ctx_at k2 c = ctx_at k' c -> current k2 = Some c -> pt_ok k2 root -> path_clear (fs_ram k2) root a ->
       (3 <= fl_avail k2 OS_PT_REG)%nat -> (0 < fl_avail k2 USER_REG)%nat ->
       exists k3 q, do_page_fault a 6 r k2 = Ret r k3 /\ map_post 3 k2 k3 root a (Some (4096 * q + 7)) (Some q)).
Proof.
  intros Hl Hc Hseg E Hptr. pose proof (do_expand_ok k c 512 MAP_WR MM_SEG_DATA Hc ltac:(lia) eq_refl Hseg) as H. cbv zeta in H.
  case_decide as Hfit; [|rewrite E in H; congruence]. destruct H as [H Hok]. rewrite E in H. injection H as -> ->.
  eexists. destruct (child_run msg' f mpid _ ans m ev _ (rounds_emits 64 (seg_next_free (mms (ctx_at k c) MM_SEG_DATA)))) as [m' Em].
  exists m'. split; [exact Em|]. clear Em.
  split.
  - intros e. rewrite in_rounds, in_pages_stores by lia. change (Z.of_nat 512) with 512. done.
  - intros n a v k2 r He root Hk2 Hcur. rewrite in_rounds, in_pages_stores in He by lia.
    destruct He as (i & j & Hi & Hj & [= -> -> ->]). change (Z.of_nat 512) with 512 in Hi.
    rewrite ctx_at_upd, decide_True in Hk2 by done.
    assert (Hroot : root = pgd (ctx_at k2 c)) by (by rewrite Hk2). rewrite Hroot. apply expanded_store_handled; [| |done].
    + rewrite Hk2. destruct Hl as [L1 L2 L3]. by split.
    + rewrite Hk2. destruct Hl as [_ [L1 L2] _]. destruct Hseg as (S1 & S2 & S3 & S4). clear Hk2 Hroot.
      unfold below_free. change (mms (ctx_at k c) MM_SEG_DATA) with (mm_data (ctx_at k c)) in *.
      set (d := mm_data (ctx_at k c)) in *.
      change (seg_start d <= seg_next_free d + 4096 * i + 1024 * j <= seg_end d /\
        seg_next_free d + 4096 * i + 1024 * j < seg_next_free d + 4096 * 512). lia.
Qed.

(** ** Witnesses *)

Lemma init_args_message_witness : exists ds ev' m',
  urun (InitArgs.main 0x7ffffff00 0x7ffffff20 [1234; 0; 0; 0; 0]) (UState ∅ [11] []) =
    (Some 0, UState m' [] (ev' ++ [UCall SYSCALL_WRITE [0x7ffffff00; 7 + Z.of_nat (length ds)]])) /\ read_dec ds = 1234.
Proof.
  destruct (init_args_message 0x7ffffff00 0x7ffffff20 1234 [0; 0; 0; 0] ∅ 11 [] []) as (ds & ev' & m' & E & _ & R & _);
    [lia|lia|lia|left; lia|]. exists ds, ev', m'. exact (conj E R).
Defined.

#[local] Opaque fresh_root fresh_space.

Lemma upd_ctx_space c f k root :
  pt_ok k root /\ (forall va, path_clear (fs_ram k) root va) /\ (3 <= fl_avail k OS_PT_REG)%nat /\ (0 < fl_avail k USER_REG)%nat ->
  let k' := upd_ctx c f k in
  pt_ok k' root /\ (forall va, path_clear (fs_ram k') root va) /\ (3 <= fl_avail k' OS_PT_REG)%nat /\ (0 < fl_avail k' USER_REG)%nat.
Proof. intros ([Hi [W1 W2 W3]] & H). split; [split; [exact Hi|]; by split|exact H]. Qed.

(** The kernel in which init has the pages that [expand] gave. *)
Definition expanded : kernel :=
  upd_ctx 1 (set_mms MM_SEG_DATA (seg_set_next_free (0x180002000 + 4096 * 512) (mms (init_ctx fresh_root) MM_SEG_DATA)))
    (init_kernel fresh_space).

Definition expanded_space := upd_ctx_space 1 _ _ _ fresh_kernel_space
  : pt_ok expanded fresh_root /\ (forall va, path_clear (fs_ram expanded) fresh_root va) /\
    (3 <= fl_avail expanded OS_PT_REG)%nat /\ (0 < fl_avail expanded USER_REG)%nat.

Lemma init_touches_expanded_witness : exists evs m' k3 q,
  urun (Init.child 0x7fff00000) (UState ∅ [0; 3; 0x180002000] []) =
    (Some tt, UState m' [] (UCall SYSCALL_FORK [] :: UCall SYSCALL_GETPID [] :: message_stores 0x7fff00000 3 ++
       UCall SYSCALL_EXPAND [512; MAP_WR] :: evs)) /\
  UStore 8 0x180002c00 0x1000 ∈ evs /\
  do_page_fault 0x180002c00 6 zero_regs expanded = Ret zero_regs k3 /\
  mapping (fs_ram k3) fresh_root 0x180002c00 = Some (4096 * q + 7).
Proof.
  destruct (init_touches_expanded (init_kernel fresh_space) 1 0x180002000 expanded 0x7fff00000 0 3 [] ∅ [])
    as (evs & m' & H & Hin & Hf).
  - exact (init_ctx_laid_out fresh_root).
  - cbn. lia.
  - exact (init_seg_ok fresh_root).
  - reflexivity.
  - discriminate.
  - assert (He : UStore 8 0x180002c00 0x1000 ∈ evs) by (apply Hin; exists 0, 3; repeat split; discriminate).
    destruct expanded_space as (S1 & S2 & S3 & S4).
    destruct (Hf 8%nat 0x180002c00 0x1000 expanded zero_regs He) as (k3 & q & E & P);
      [reflexivity | reflexivity | exact S1 | exact (S2 _) | exact S3 | exact S4 |].
    exists evs, m', k3, q. split; [exact H|]. split; [exact He|]. split; [exact E|].
    change (mapping (fs_ram k3) (pgd (ctx_at (init_kernel fresh_space) 1)) 0x180002c00 = Some (4096 * q + 7)).
    rewrite (mp_mapping _ _ _ _ _ _ _ P). by rewrite decide_True.
Defined.
