(* ===== verification/DshSpec.v ===== *)
(** * Theorems on the shell

    Which command the loop carries out, and that a typed "init" starts a
    process: the composition of [Serial], [Shell], [Context] and [Sched]. *)
From S2P Require Import Prelude Mem Lib Machine Memory PageAlloc Frames OsAlloc OsHeap HeapInit Printf Serial Kbd PageTable PageMap Kernel Apic Idt GdtSpec Context Space Sched Shell Dsh Entry Timer Syscalls.
#[local] Open Scope gemos_scope.

Lemma blank_char c : blank c = true -> c = 32 \/ c = 9.
Proof. unfold blank. rewrite orb_true_iff, !Z.eqb_eq. done. Qed.

(** The characters of an init command. *)
Lemma init_line_chars w ws :
  word_ok w -> words_ok ws -> Forall (fun c => 0 < c < 256 /\ c <> 13) (init_line w ws).
Proof.
  intros [_ Hw] Hws.
  assert (Hd : forall l, Forall is_digit l -> Forall (fun c => 0 < c < 256 /\ c <> 13) l).
  { intros l Hl. eapply Forall_impl; [exact Hl|]. unfold is_digit. intros; lia. }
  unfold init_line, words_text. apply Forall_app. split.
  { eapply List.Forall_impl; [|apply (Forall_between 32 128); reflexivity]. cbv beta. lia. }
  apply Forall_app. split; [by apply Hd|]. induction Hws as [|[b x] ws [[_ Hb] [_ Hx]] _ IH]; [constructor|]. cbn [flat_map fst snd] in *.
  apply Forall_app. split; [|done]. apply Forall_app. split; [|by apply Hd].
  eapply Forall_impl; [exact Hb|]. intros c Hc%blank_char. lia.
Qed.

(** The kernel after a line was read into the buffer. *)
Lemma read_line_kernel k m tr :
  mm_inv (k_mm k) -> untouched ds_area (fs_ram k) m ->
  let k' := set_k_io (IO (Machine m tr) []) k in
  mm_inv (k_mm k') /\ (forall r, available (k_mm k') r = available (k_mm k) r).
Proof.
  intros Hi Hu k'. destruct (mm_inv_untouched ds_area (k_mm k) m Hi Hu) as (Hi' & _ & Ha); [intros r a; apply ds_area_bitmap|].
  split; [exact Hi'|exact Ha].
Qed.

(** A text that begins with "init" is the init command. *)
Lemma dsh_command_init fuel command args abc inp k text :
  cstr_at (fs_ram k) command text -> Forall (fun c => 0 < c < 256) text -> codes "init" `prefix_of` text ->
  dsh_command fuel command args abc inp k = dsh_init fuel command args inp k.
Proof.
  intros Hs Ht Hp. rewrite (dsh_command_text fuel command args abc inp k text Hs Ht).
  rewrite !decide_False by (destruct Hp as [x ->]; cbn; intros H; repeat destruct H as [H|H]; discriminate H).
  by rewrite decide_True.
Qed.

Lemma init_line_prefix w ws : codes "init" `prefix_of` init_line w ws.
Proof. by exists ([32] ++ words_text w ws). Qed.

Lemma typed_init fuel command args abc k inp rest w ws junk :
  delivers (init_line w ws ++ 13 :: junk ++ [10]) inp rest -> Forall (fun c => c <> 10) junk ->
  word_ok w -> words_ok ws -> (length (words_text w ws) < fuel)%nat -> (length ws < 5)%nat ->
  4096 * 2049 <= command -> command + 6 + Z.of_nat (length (words_text w ws)) < REGION_OS_PT_START ->
  apart command (6 + Z.of_nat (length (words_text w ws))) args 5 ->
  args + 40 <= 0x800000 -> table_ok k -> (exists i, (i < 16)%nat /\ state_of k i = UNUSED) ->
  mm_inv (k_mm k) -> (0 < fl_avail k OS_PT_REG)%nat ->
  exists i q k3, dsh_iteration fuel command args abc inp k = (exec_init i args ;;; ret (DshNext rest)) k3 /\
    launched args i q k k3 /\ (0 < i < 16)%nat /\
    (forall j x, (w :: (snd <$> ws)) !! j = Some x -> init_words (load_init_args (fs_ram k3) args) !! j = Some (u64 (read_dec x))).
Proof.
  intros Hd Hj Hw Hws Hf H5 Hlo Hhi Hap Hargs Htab Hun Hi Hav.
  pose proof (init_line_chars w ws Hw Hws) as Hch.
  assert (Hll : Z.of_nat (length (init_line w ws)) = 5 + Z.of_nat (length (words_text w ws))).
  { unfold init_line. rewrite length_app. change (length (codes "init ")) with 5%nat. lia. }
  unfold REGION_OS_PT_START in *.
  set (k0 := kprintf "GemOS# " [] k).
  destruct (serial_read_ok idle_uart command (init_line w ws) junk rest (k_io inp k0) Hd) as (d & E & Ei & Er & _).
  { eapply Forall_impl; [exact Hch|]. cbv beta. intros; lia. }
  { done. }
  { rewrite Hll. lia. }
  unfold dsh_iteration. fold k0. rewrite E. set (k1 := set_k_io d k0).
  change (io_ram (k_io inp k0)) with (fs_ram k) in Er.
  assert (Hu : untouched ds_area (fs_ram k) (io_ram d)).
  { rewrite Er. intros a Ha. rewrite ld8_st8. unfold ds_area in Ha. zcase; [lia|].
    apply store_bytes_untouched. lia. }
  assert (F1 : frame_only k k1) by reflexivity.
  assert (S1 : store_step ds_area k k1) by (split; [by intros []|exact Hu]).
  destruct (store_step_inv ds_area k k1 S1 Hi) as (Hi1 & _ & Hav1); [intros r a; apply ds_area_bitmap|].
  assert (Hav1' : (0 < fl_avail k1 OS_PT_REG)%nat) by (change (fl_avail k1 OS_PT_REG) with (available (k_mm k1) OS_PT_REG); by rewrite Hav1).
  assert (Hs : cstr_at (fs_ram k1) command (init_line w ws)).
  { change (fs_ram k1) with (io_ram d). rewrite Er. apply read_string. eapply Forall_impl; [exact Hch|]. cbv beta. intros; lia. }
  rewrite (dsh_command_init fuel command args abc (io_in d) k1 (init_line w ws) Hs);
    [|eapply Forall_impl; [exact Hch|]; cbv beta; intros; lia|apply init_line_prefix].
  assert (Htab1 : table_ok k1) by (destruct Htab; split; done).
  pose proof (get_new_ctx_spec_ok k1 Htab1) as Hg. destruct (get_new_ctx k1) as [[i|] k2] eqn:Eg.
  2:{ destruct Hg as [Hfull _]. destruct Hun as (i & Hi16 & Hst). by destruct (Hfull i Hi16). }
  destruct Hg as (Hi16 & Hst & _). rewrite Ei.
  destruct (dsh_init_enters fuel command args rest k1 w ws i k2) as (q & k3 & E3 & L & Hv); try done; try lia.
  { unfold apart in *. lia. }
  { unfold REGION_OS_PT_START. lia. }
  exists i, q, k3. split; [exact E3|]. split; [|split; [|exact Hv]].
  - apply (launched_before ds_area args i q k k1 k3 L F1 S1 Hi); [intros r a; apply ds_area_bitmap|].
    intros a. unfold ds_area, low_memory. lia.
  - split; [|done]. destruct i; [|lia]. by destruct (tab_swapper k1 Htab1).
Qed.

(** ** What a command does *)

(** The kernel printed [lines], in order, and did nothing else. *)
Definition said (lines : list (string * list parg)) (k k' : kernel) : Prop :=
  k' = set_k_mm (set_mach (Machine (fs_ram k) (rev (map (fun l => EPrintf l.1 l.2) lines) ++ trace (mach (k_mm k)))) (k_mm k)) k.

Definition help_lines : list (string * list parg) :=
  map (fun s => (s, []))
    ["This is a minimal shell.\n"; "---------\n"; "commands:\n"; "---------\n"; "help: prints this help\n";
     "clear: clears the screen\n";
     "config: set and get the current configuration. To set use #config set var=value\n";
     "stats: displays the OS statistics\n";
     "init: launch the init process. usage: init [arg1] [arg2] ... [arg5]\n";
     "exit|shutdown: shutdown the OS\n"]%string.

Definition stats_lines (st : os_stats) : list (string * list parg) :=
  [("ticks = %d swapper_invocations = %d context_switches = %d lw_context_switches = %d\n"%string,
    map PInt [ticks st; swapper_invocations st; context_switches st; lw_context_switches st]);
   ("syscalls = %d page_faults = %d used_memory = %d num_processes = %d\n"%string,
    map PInt [syscalls st; page_faults st; used_memory st; num_processes st])].

(** The texts that are commands. *)
Definition is_command (text : list Z) : Prop :=
  text ∈ map codes ["help"; "clear"; "exit"; "shutdown"; "stats"]%string \/ codes "init" `prefix_of` text.

Lemma dsh_clear_sends u0 abc inp rest k :
  u_lcr (uart_of u0 (k_io inp k)) .& DLAB = 0 -> ready XMTRDY 7 inp rest ->
  exists m tr, dsh_clear abc inp k = Ret (DshNext rest) (set_k_io (IO (Machine m tr) rest) k) /\
    uart_after u0 tr = send clear_sequence (uart_of u0 (k_io inp k)) /\
    untouched (fun a => abc <= a < abc + 8) (fs_ram k) m.
Proof.
  intros Hd Hr. unfold dsh_clear. set (m := store_bytes (fs_ram k) abc (clear_sequence ++ [0])).
  assert (Hs : cstr_at m abc clear_sequence).
  { unfold m. rewrite store_bytes_app. apply read_string. unfold clear_sequence. repeat constructor; lia. }
  destruct (serial_write_sends u0 8 abc (set_io_ram m (k_io inp k)) clear_sequence rest Hd Hs) as ([[m' tr] inp'] & E & Ei & [R U]);
    [cbn; lia|exact Hr|].
  rewrite E. cbn [io_in] in *. subst inp'. exists m', tr. split; [reflexivity|]. split; [exact U|].
  change (m' = m) in R. subst m'. intros a Ha. apply store_bytes_untouched. exact Ha.
Qed.

Lemma dsh_reboot_resets inp rest k : drained inp rest ->
  exists reads, Forall is_read reads /\
    dsh_reboot inp k = Ret (DshReboot rest)
      (set_k_io (IO (Machine (fs_ram k) (EOutb KBD_CTRL_PORT KBRD_RESET :: reads ++ trace (mach (k_mm k)))) rest) k).
Proof.
  intros Hd. destruct (kbd_reboot_resets inp rest (mach (k_mm k)) Hd) as (reads & Hr & E). exists reads. split; [done|].
  unfold dsh_reboot. change (k_io inp k) with (IO (mach (k_mm k)) inp). by rewrite E.
Qed.

Lemma dsh_init_full fuel command args inp k :
  table_ok k -> (forall j, (j < 16)%nat -> state_of k j <> UNUSED) ->
  exists k', said [("%s: System limit on processes reached\n"%string, [PStr (codes "get_new_ctx")])] k k' /\
    dsh_init fuel command args inp k = Undefined k'.
Proof.
  intros Htab Hfull. pose proof (get_new_ctx_spec_ok k Htab) as Hg. destruct (get_new_ctx k) as [[i|] k1] eqn:E.
  { destruct Hg as (Hi & Hu & _). by destruct (Hfull i Hi). }
  destruct Hg as [_ ->]. eexists. split; [reflexivity|]. unfold dsh_init, create_context, bind, run. by rewrite E.
Qed.

(** C40: What the shell does with the text in its buffer.  An empty line does
    nothing; help and stats print their lines and do nothing else; clear sends
    the escape sequence that clears the screen; exit and shutdown empty the
    keyboard controller and write the reset command to it.  "init" followed by
    numbers makes a context, stores the numbers and goes on as [exec_init]
    does; with the table full it dereferences NULL.  Anything else, "config"
    of the help text included, prints "Invalid command". *)
Theorem dsh_command_dispatch u0 fuel command args abc inp rest k text :
  cstr_at (fs_ram k) command text -> Forall (fun c => 0 < c < 256) text ->
  let o := dsh_command fuel command args abc inp k in
  (text = [] -> o = Ret (DshNext inp) k) /\
  (text = codes "help" -> exists k', o = Ret (DshNext inp) k' /\ said help_lines k k') /\
  (text = codes "stats" -> exists k', o = Ret (DshNext inp) k' /\ said (stats_lines (stats k)) k k') /\
  (text = codes "clear" -> u_lcr (uart_of u0 (k_io inp k)) .& DLAB = 0 -> ready XMTRDY 7 inp rest ->
     exists m tr, o = Ret (DshNext rest) (set_k_io (IO (Machine m tr) rest) k) /\
       uart_after u0 tr = send [27; 91; 50; 74; 27; 91; 72] (uart_of u0 (k_io inp k)) /\
       untouched (fun a => abc <= a < abc + 8) (fs_ram k) m) /\
  (text = codes "exit" \/ text = codes "shutdown" -> drained inp rest ->
     exists reads, Forall is_read reads /\
       o = Ret (DshReboot rest)
         (set_k_io (IO (Machine (fs_ram k) (EOutb KBD_CTRL_PORT KBRD_RESET :: reads ++ trace (mach (k_mm k)))) rest) k)) /\
  (codes "init" `prefix_of` text -> table_ok k -> (forall j, (j < 16)%nat -> state_of k j <> UNUSED) ->
     exists k', said [("%s: System limit on processes reached\n"%string, [PStr (codes "get_new_ctx")])] k k' /\ o = Undefined k') /\
  (forall w ws i k1, text = init_line w ws -> word_ok w -> words_ok ws ->
     (length (words_text w ws) < fuel)%nat -> (length ws < 5)%nat ->
     apart command (5 + Z.of_nat (length (words_text w ws)) + 1) args 5 ->
     command + 5 + Z.of_nat (length (words_text w ws)) < REGION_OS_PT_START -> args + 40 <= 0x800000 ->
     get_new_ctx k = (Some i, k1) -> mm_inv (k_mm k) -> (0 < fl_avail k OS_PT_REG)%nat ->
     exists q k3, o = (exec_init i args ;;; ret (DshNext inp)) k3 /\ launched args i q k k3 /\
       (forall j x, (w :: (snd <$> ws)) !! j = Some x -> init_words (load_init_args (fs_ram k3) args) !! j = Some (u64 (read_dec x)))) /\
  (text <> [] -> ~ is_command text -> exists k', o = Ret (DshNext inp) k' /\ said [("Invalid command\n"%string, [])] k k').
Proof.
  intros Hs Ht o.
  assert (E : codes "init" `prefix_of` text -> o = dsh_init fuel command args inp k) by (intros; by apply dsh_command_init with text).
  assert (E' := dsh_command_text fuel command args abc inp k text Hs Ht). fold o in E'. clearbody o. split_and!.
  - by intros ->.
  - intros ->. eexists. split; [exact E'|reflexivity].
  - intros ->. eexists. split; [exact E'|reflexivity].
  - intros -> Hd Hr. rewrite E'. exact (dsh_clear_sends u0 abc inp rest k Hd Hr).
  - intros [->| ->] Hd; rewrite E'; exact (dsh_reboot_resets inp rest k Hd).
  - intros Hp Htab Hfull. rewrite (E Hp). by apply dsh_init_full.
  - intros w ws i k1 -> Hw Hws. intros. rewrite (E (init_line_prefix w ws)). by apply (dsh_init_enters fuel command args inp k w ws i k1).
  - intros Hne Hnot. eexists. split; [rewrite E'|reflexivity].
    rewrite !decide_False; [reflexivity|..]; try done; intros H; apply Hnot; unfold is_command; cbn [map];
      rewrite !elem_of_cons; naive_solver.
Qed.

(** ** Witnesses *)

(** What the terminal sends for a line: each character, ready at once. *)
Definition keys (line : list Z) : list Z := flat_map (fun c => [1; c]) (line ++ [13; 10]).

Lemma keys_deliver line : Forall (fun c => 0 <= c < 256) line -> delivers (line ++ 13 :: [] ++ [10]) (keys line) [].
Proof.
  intros H. unfold keys. cbn [app]. rewrite <- (app_nil_r (flat_map _ _)). apply delivers_ready.
  apply Forall_app. split; [exact H|]. repeat constructor; lia.
Qed.

(** "config" in the buffer. *)
Definition config_kernel : kernel := fs_set_ram (store_bytes ∅ 0x807000 (codes "config" ++ [0])) (init_kernel reset_mm).

Lemma dsh_command_dispatch_witness : exists k',
  dsh_command 100 0x807000 0x2000 0x3000 [] config_kernel = Ret (DshNext []) k' /\
  said [("Invalid command\n"%string, [])] config_kernel k'.
Proof.
  refine (proj2 (proj2 (proj2 (proj2 (proj2 (proj2 (proj2
    (dsh_command_dispatch idle_uart 100 0x807000 0x2000 0x3000 [] [] config_kernel (codes "config") _ _))))))) _ _).
  - vm_compute. intuition discriminate.
  - eapply List.Forall_impl; [|apply (Forall_between 1 256); reflexivity]. cbv beta. lia.
  - discriminate.
  - intros [H|[x H]]; [|discriminate H]. cbn [map] in H. rewrite !elem_of_cons, elem_of_nil in H. destruct_or! H; done || discriminate H.
Defined.
