(* ===== verification/Main.v ===== *)
(** * main.c: the boot sequence

    [main] composes every part of the kernel: the console, the allocators, the
    descriptor tables, the APIC, the swapper, and the shell, which it enters.
    The statistics and the configuration are objects of [os_alloc]; their
    contents are the records [stats] and [config] of [Kernel]. *)
From S2P Require Import Prelude Mem Lib Machine Memory PageAlloc Frames OsAlloc OsHeap HeapInit Printf Serial Kbd PageTable PageMap Kernel Apic Idt IdtSpec Context Boot Sched Shell Dsh.
#[local] Open Scope gemos_scope.

(** The kernel and the statics of the object allocator. *)
Record system := System { s_kernel : kernel; s_base : Z; s_nodemem : nodealloc_memory }.

Definition s_heap (s : system) : heap := Heap (k_mm (s_kernel s)) (s_base s) (s_nodemem s).
Definition put_heap (h : heap) (s : system) : system :=
  System (set_k_mm (h_mm h) (s_kernel s)) (osalloc_base h) (nodemem h).
Definition on_kernel (f : kernel -> kernel) (s : system) : system := System (f (s_kernel s)) (s_base s) (s_nodemem s).

Definition sys_os_alloc (size : Z) (s : system) : option (Z * system) :=
  match os_alloc size (s_heap s) with
  | None => None
  | Some (p, h) => Some (p, put_heap h s)
  end.

Definition sizeof_os_stats : Z := 64.
Definition sizeof_os_configs : Z := 32.
Definition zero_stats : os_stats := OsStats 0 0 0 0 0 0 0 0.

(** What the processor and the devices answer during the boot, and the
    addresses of the assembly entry points and of [swapper_task]. *)
Record hardware := Hardware {
  hw_cs : Z; hw_ds : Z; hw_ss : Z; hw_esp : Z; hw_ebp : Z; hw_rflags : Z;
  hw_cr0 : Z; hw_cr3 : Z; hw_cr4 : Z;
  hw_msr_high : Z; hw_msr_low : Z; hw_ldr : Z; hw_ldr' : Z;
  hw_handlers : handlers; hw_task : Z
}.

(** The GDT that the boot loader left. *)
Definition boot_gdt : IDTR := MkIDTR 31 0x76000.

Section main.
Context (hw : hardware).

Definition print_registers (k : kernel) : kernel :=
  let k := kprintf "Initial Segment Map: cs = %x ds = %x ss = %x\n" [PInt (hw_cs hw); PInt (hw_ds hw); PInt (hw_ss hw)] k in
  let k := kprintf "ESP=%x EBP=%x\n" [PInt (hw_esp hw); PInt (hw_ebp hw)] k in
  let k := kprintf "cr0=%x cr3=%x cr4=%x\n" [PInt (hw_cr0 hw); PInt (hw_cr3 hw); PInt (hw_cr4 hw)] k in
  kprintf "Initializing memory\n" [] k.

(** The caching bits of the first entry of the boot page table are cleared,
    and CR3 is loaded again. *)
Definition uncache_tables (k : kernel) : kernel :=
  let k := store64 (hw_cr3 hw) (ld64 (fs_ram k) (hw_cr3 hw) .& 0xfffffffffffffff3) k in
  fs_emit (ELoadCr3 (hw_cr3 hw)) k.

(** The set-up that follows [init_mems]. *)
Definition setup_tables (k : kernel) : kernel :=
  let '(_, k) := setup_gdt_tss boot_gdt k in
  let '(_, k) := setup_idt (hw_handlers hw) k in
  let k := uncache_tables k in
  let k := init_apic (hw_msr_high hw) (hw_msr_low hw) (hw_ldr hw) (hw_ldr' hw) k in
  let k := kprintf "gemOS shell... \n" [] k in
  init_swapper (hw_ss hw) (hw_cs hw) (hw_rflags hw) (hw_task hw) k.

(** Zeroed objects for the statistics and the configuration. *)
Definition alloc_globals (s : system) : option system :=
  match sys_os_alloc sizeof_os_stats s with
  | None => None
  | Some (st, s) =>
      let s := on_kernel (fun k => fs_set_ram (bzero (fs_ram k) st sizeof_os_stats) k) s in
      let s := on_kernel (set_stats zero_stats) s in
      match sys_os_alloc sizeof_os_configs s with
      | None => None
      | Some (cf, s) =>
          let s := on_kernel (fun k => fs_set_ram (bzero (fs_ram k) cf sizeof_os_configs) k) s in
          Some (on_kernel (set_config (OsConfigs 0 32 0 0)) s)
      end
  end.

(** Up to the shell: the answers left and the state. *)
Definition main_boot (inp : list Z) (s : system) : option (list Z * system) :=
  match console_init (k_io inp (s_kernel s)) with
  | None => None
  | Some d =>
      let s := on_kernel (set_k_io d) s in
      let s := on_kernel (kprintf "            Starting IITK gemOS ......\n" []) s in
      let s := on_kernel print_registers s in
      let s := put_heap (init_mems (s_heap s)) s in
      let s := on_kernel setup_tables s in
      match alloc_globals s with
      | None => None
      | Some s => Some (io_in d, s)
      end
  end.

(** [n] iterations of the shell; [args] and [abc] are its locals. *)
Definition main (n fuel : nat) (args abc : Z) (inp : list Z) (s : system) : option (outcome dsh_result) :=
  match main_boot inp s with
  | None => None
  | Some (inp, s) =>
      match sys_os_alloc 1024 s with
      | None => None
      | Some (command, s) => Some (invoke_dsh n fuel command args abc inp (s_kernel s))
      end
  end.
End main.
