(* ===== verification/BootSpec.v ===== *)
(** * Theorems on the boot

    From zeroed memory the boot sequence reaches the shell with every
    component's invariant in place, and a command typed at the prompt starts
    the first process. *)
From S2P Require Import Prelude Mem Lib Machine Memory PageAlloc NextFrames Frames OsAlloc OsHeap HeapInit HeapSpec Printf Serial Kbd PageTable PageMap Kernel Apic Kmap Idt IdtSpec GdtSpec Context Space ExecInit Boot Sched Shell Dsh Entry Timer Syscalls DshSpec Main.
#[local] Open Scope gemos_scope.

(** The address of the APIC, from the model-specific register. *)
Definition hw_apic (hw : hardware) : Z := u64 (((u64 (hw_msr_high hw << 32) .| hw_msr_low hw) >> 12) << 12).

(** What the boot loader, the linker and the processor promise: the page table
    in use is in low memory but not in the image of init, the entry points are
    addresses, and the APIC is between 1 and 4 GB. *)
Definition hardware_ok (hw : hardware) : Prop :=
  boot_range (hw_cr3 hw) 8 /\ handlers_ok (hw_handlers hw) /\ 2^30 <= hw_apic hw < 2^32.

Lemma setup_tables_kept hw k : hardware_ok hw -> kept 5 k (setup_tables hw k).
Proof.
  intros [Hc _]. unfold setup_tables.
  pose proof (kept_setup_gdt_tss boot_gdt k) as K1. destruct (setup_gdt_tss boot_gdt k) as [g k1]. cbn [snd] in K1.
  pose proof (kept_setup_idt (hw_handlers hw) k1) as K2. destruct (setup_idt (hw_handlers hw) k1) as [b k2]. cbn [snd] in K2.
  apply (kept_trans 2 3 _ k1); [apply K1; unfold gdt_ok, INIT_IMAGE; cbn; lia|]. apply (kept_trans 1 2 _ k2); [exact K2|].
  eapply kept_then; [|apply kept_init_swapper]. eapply kept_after; [|apply kept_printf].
  eapply kept_after; [|apply kept_init_apic]. unfold uncache_tables. eapply kept_after; [|apply kept_emit].
  by apply kept_store64.
Qed.

Lemma setup_tables_places hw k :
  hardware_ok hw -> mm_inv (k_mm k) -> (5 <= available (k_mm k) OS_PT_REG)%nat ->
  let k' := setup_tables hw k in
  apic_base k' = hw_apic hw /\ exists t, tss_page k' = 4096 * t /\ owned (k_mm k') OS_PT_REG t.
Proof.
  intros [Hc _] Hi Hav. unfold setup_tables.
  pose proof (kept_setup_gdt_tss boot_gdt k) as K1. destruct (setup_gdt_tss_page boot_gdt k Hi ltac:(lia) eq_refl) as (t & Et & Ho); [done..|].
  destruct (setup_gdt_tss boot_gdt k) as [g k1]. cbn [snd] in K1, Et, Ho.
  assert (Hg : gdt_ok boot_gdt) by (unfold gdt_ok, INIT_IMAGE; cbn; lia). destruct (K1 Hg Hi ltac:(lia)) as [I1 A1 _ _ _ _].
  pose proof (kept_setup_idt (hw_handlers hw) k1) as K2. pose proof (frame_only_setup_idt (hw_handlers hw) k1) as F2.
  destruct (setup_idt (hw_handlers hw) k1) as [b k2]. cbn [snd] in K2, F2.
  match goal with |- context [init_swapper _ _ _ _ ?k3] => set (k4 := k3) end.
  assert (K4 : kept 0 k2 k4).
  { eapply kept_after; [|apply kept_printf]. eapply kept_after; [|apply kept_init_apic].
    unfold uncache_tables. eapply kept_after; [|apply kept_emit]. by apply kept_store64. }
  assert (E4 : apic_base k4 = hw_apic hw /\ tss_page k4 = tss_page k2) by (split; reflexivity). clearbody k4.
  pose proof (kept_init_swapper (hw_ss hw) (hw_cs hw) (hw_rflags hw) (hw_task hw) k4) as K5.
  destruct (init_swapper_table (hw_ss hw) (hw_cs hw) (hw_rflags hw) (hw_task hw) k4) as (_ & _ & _ & _ & _ & _ & _ & Ea & Es).
  pose proof (kept_trans 1 2 _ _ _ K2 (kept_then 2 _ _ _ K4 K5) I1 ltac:(lia)) as K.
  cbv zeta. rewrite Ea, Es. destruct E4 as [-> ->]. split; [done|]. exists t. split; [by rewrite F2|]. by apply (kp_owned _ _ _ K).
Qed.

(** The process table at the prompt: the swapper and nobody else. *)
Definition only_swapper (k : kernel) : Prop :=
  table_ok k /\ state_of k 0 = READY /\ forall i, (0 < i < 16)%nat -> state_of k i = UNUSED.

Lemma only_swapper_ctx k k' : ctx_list k' = ctx_list k -> only_swapper k -> only_swapper k'.
Proof.
  intros E ([Hl Hp Hs] & H0 & Hu). unfold only_swapper, state_of in *.
  assert (Ea : forall i, ctx_at k' i = ctx_at k i) by (intros i; unfold ctx_at; by rewrite E).
  rewrite Ea. split; [split|split; [done|]].
  - by rewrite E.
  - intros i Hi. rewrite Ea. by apply Hp.
  - by rewrite Ea.
  - intros i Hi. rewrite Ea. by apply Hu.
Qed.

Lemma setup_tables_table hw k : only_swapper (setup_tables hw k).
Proof.
  unfold setup_tables. destruct (setup_gdt_tss boot_gdt k) as [g k1]. destruct (setup_idt (hw_handlers hw) k1) as [b k2].
  match goal with |- only_swapper (init_swapper _ _ _ _ ?k3) => set (k4 := k3); clearbody k4 end.
  destruct (init_swapper_table (hw_ss hw) (hw_cs hw) (hw_rflags hw) (hw_task hw) k4) as (Hl & Hs & Hp & Hz & _).
  set (k' := init_swapper _ _ _ _ _) in *. clearbody k'. split; [split|split].
  - done.
  - intros i Hi. destruct i as [|i]; [by rewrite Hp|]. rewrite Hz by lia. done.
  - by rewrite Hs.
  - done.
  - intros i Hi. unfold state_of. by rewrite Hz by lia.
Qed.

(** ** The globals *)

(** Objects of the size classes; the heap keeps its own state elsewhere. *)
Definition heap_placed (s : system) : Prop := s_base s = 4096 * 2049 /\ nodes (s_nodemem s) = 4096 * 2057.

Lemma object_not_heap s p n a :
  heap_placed s -> 4096 * 2050 <= p -> p + n <= 4096 * 2057 -> p <= a < p + n -> ~ heap_area (s_heap s) a.
Proof. intros [Hb Hn] Hp He Ha. unfold heap_area, s_heap. cbn [osalloc_base nodemem]. rewrite Hb, Hn. lia. Qed.

(** [os_alloc] on a class at its first position, as a change of memory. *)
Lemma sys_os_alloc_ok s A Nf c size pfn :
  heap_rep (s_heap s) A Nf c -> size_ok size -> A (alloc_class size) = AClass [] pfn 0 ->
  exists m', sys_os_alloc size s = Some (4096 * pfn, on_kernel (fs_set_ram m') s) /\
    untouched (heap_area (s_heap s)) (fs_ram (s_kernel s)) m' /\
    heap_rep (s_heap (on_kernel (fs_set_ram m') s)) (set_class (alloc_class size) (AClass [] pfn 1) A) Nf c.
Proof.
  intros Hr Hs EA. destruct (alloc_class_range size Hs) as [Hc _]. destruct (class_pos_bound _ Hc) as [Hp _].
  destruct (os_alloc_bump (s_heap s) A Nf c size pfn 0 Hr Hs EA) as (m' & E & Hu & Hr').
  { apply Z.div_pos; lia. }
  exists m'. split; [|split; [exact Hu|exact Hr']].
  unfold sys_os_alloc. rewrite E, Z.div_0_l, Z.add_0_r by lia. reflexivity.
Qed.

(** Clearing an object. *)
Lemma clear_object s A Nf c p n :
  heap_rep (s_heap s) A Nf c -> heap_placed s -> 4096 * 2050 <= p -> p + n <= 4096 * 2057 -> 0 <= n ->
  heap_rep (s_heap (on_kernel (fun k => fs_set_ram (bzero (fs_ram k) p n) k) s)) A Nf c.
Proof.
  intros Hr Hpl Hp He Hn.
  apply (heap_rep_store (fun a => p <= a < p + n) (s_heap s) A Nf c (bzero (fs_ram (s_kernel s)) p n) Hr).
  - apply untouched_bzero. lia.
  - intros a Ha. by apply (object_not_heap s p n).
  - intros r a Ha. apply ds_area_bitmap. unfold ds_area. lia.
Qed.

(** The classes after the statistics and the configuration were allocated. *)
Definition booted_classes : aheap := set_class 5 (AClass [] 2050 1) (set_class 6 (AClass [] 2051 1) boot_classes).

Lemma alloc_globals_ok s c :
  heap_rep (s_heap s) boot_classes (fun _ => []) c -> heap_placed s ->
  exists m', let k' := set_config (OsConfigs 0 32 0 0) (set_stats zero_stats (fs_set_ram m' (s_kernel s))) in
    alloc_globals s = Some (System k' (s_base s) (s_nodemem s)) /\
    untouched ds_area (fs_ram (s_kernel s)) m' /\
    heap_rep (s_heap (System k' (s_base s) (s_nodemem s))) booted_classes (fun _ => []) c.
Proof.
  intros Hr Hp. assert (Hha : forall a, heap_area (s_heap s) a -> ds_area a).
  { intros a. destruct Hp as [Hb Hn]. unfold heap_area, s_heap, ds_area. cbn [osalloc_base nodemem]. rewrite Hb, Hn. lia. }
  destruct (sys_os_alloc_ok s _ _ c sizeof_os_stats 2051 Hr) as (m1 & E1 & U1 & R1); [unfold size_ok, sizeof_os_stats; lia|reflexivity|].
  set (s1 := on_kernel (fs_set_ram m1) s) in *.
  pose proof (clear_object s1 _ _ c (4096 * 2051) sizeof_os_stats R1 Hp ltac:(lia) ltac:(unfold sizeof_os_stats; lia) ltac:(done)) as R2.
  set (s2 := on_kernel (set_stats zero_stats) (on_kernel (fun k => fs_set_ram (bzero (fs_ram k) (4096 * 2051) sizeof_os_stats) k) s1)).
  destruct (sys_os_alloc_ok s2 _ _ c sizeof_os_configs 2050 R2) as (m3 & E3 & U3 & R3); [unfold size_ok, sizeof_os_configs; lia|reflexivity|].
  set (s3 := on_kernel (fs_set_ram m3) s2) in *.
  pose proof (clear_object s3 _ _ c (4096 * 2050) sizeof_os_configs R3 Hp ltac:(lia) ltac:(unfold sizeof_os_configs; lia) ltac:(done)) as R4.
  exists (bzero m3 (4096 * 2050) sizeof_os_configs). cbv zeta. split; [|split].
  - unfold alloc_globals. rewrite E1. fold s1. cbv zeta. fold s2. rewrite E3. reflexivity.
  - apply untouched_trans with (m2 := m1); [eapply untouched_weaken; [|exact U1]; exact Hha|].
    apply untouched_trans with (m2 := bzero m1 (4096 * 2051) sizeof_os_stats).
    { apply untouched_bzero. unfold sizeof_os_stats, ds_area. lia. }
    apply untouched_trans with (m2 := m3); [eapply untouched_weaken; [|exact U3]; exact Hha|].
    apply untouched_bzero. unfold sizeof_os_configs, ds_area. lia.
  - exact R4.
Qed.

(** ** The boot *)

(** The state in which the shell starts, booted by [hw] from [s0]. *)
Record booted (hw : hardware) (s0 s : system) : Prop := {
  bt_heap : heap_rep (s_heap s) booted_classes (fun _ => []) 25344;
  bt_place : heap_placed s;
  bt_table : only_swapper (s_kernel s);
  bt_stats : stats (s_kernel s) = zero_stats;
  bt_config : config (s_kernel s) = OsConfigs 0 32 0 0;
  bt_pt : Z.of_nat (available (k_mm (s_kernel s)) OS_PT_REG) = 2170;
  bt_user : fl_next (s_kernel s) USER_REG = seqZ 25604 13180;
  bt_apic : apic_base (s_kernel s) = hw_apic hw;
  bt_tss : exists t, tss_page (s_kernel s) = 4096 * t /\ owned (k_mm (s_kernel s)) OS_PT_REG t;
  bt_image a : image a -> ld8 (fs_ram (s_kernel s)) a = ld8 (fs_ram (s_kernel s0)) a
}.

Lemma power_up_same h h' :
  power_up h -> h_ram h' = h_ram h -> nodemem h' = nodemem h -> power_up h'.
Proof.
  intros (Hz & Hn & Hd) Er En. unfold power_up, bitmaps_zero, h_ram in *. rewrite En. split; [|split; [done|]].
  - intros r a Ha. rewrite Er. by apply (Hz r).
  - intros a Ha. rewrite Er. by apply Hd.
Qed.

Lemma image_low a : image a -> low_memory a /\ ~ ds_area a.
Proof. unfold image, low_memory, ds_area, INIT_IMAGE. lia. Qed.

(** The globals, once the tables are set up. *)
Lemma globals_booted hw s0 k k1 base nm :
  heap_rep (Heap (k_mm k) base nm) boot_classes (fun _ => []) 25344 -> kept_post 5 k k1 ->
  base = 4096 * 2049 -> nodes nm = 4096 * 2057 -> only_swapper k1 ->
  Z.of_nat (available (k_mm k) OS_PT_REG) = 2175 -> fl_next k USER_REG = seqZ 25604 13180 ->
  apic_base k1 = hw_apic hw -> (exists t, tss_page k1 = 4096 * t /\ owned (k_mm k1) OS_PT_REG t) ->
  (forall a, image a -> ld8 (fs_ram k) a = ld8 (fs_ram (s_kernel s0)) a) ->
  exists s', alloc_globals (System k1 base nm) = Some s' /\ booted hw s0 s'.
Proof.
  intros Hr K Hb Hn Ht Ap Au Ea (t & Et & Ho) Him. pose proof (heap_rep_kept 5 k k1 base nm _ _ _ Hr K) as Hr1.
  destruct (alloc_globals_ok (System k1 base nm) 25344 Hr1) as (m & E & U & R); [split; [exact Hb|exact Hn]|]. cbv zeta in E, R.
  eexists. split; [exact E|].
  destruct (mm_inv_untouched ds_area (k_mm k1) m (kp_inv _ _ _ K) U) as (_ & Om & Am); [intros r a; apply ds_area_bitmap|].
  pose proof (next_untouched ds_area (k_mm k1) (set_mm_ram m (k_mm k1)) USER_REG (kp_inv _ _ _ K) U (fun a => ds_area_bitmap USER_REG a) eq_refl) as Nm.
  split; [exact R|split; [exact Hb|exact Hn]|by apply (only_swapper_ctx k1)|reflexivity|reflexivity| | |exact Ea| |].
  - change (Z.of_nat (available (set_mm_ram m (k_mm k1)) OS_PT_REG) = 2170). rewrite Am. pose proof (kp_pt _ _ _ K). lia.
  - exact (eq_trans Nm (eq_trans (kp_next _ _ _ K) Au)).
  - exists t. split; [exact Et|]. apply (Om OS_PT_REG t). exact Ho.
  - intros a Hi. rewrite <- (Him a Hi), <- (kp_ram _ _ _ K a (or_intror Hi)). exact (U a (proj2 (image_low a Hi))).
Qed.

(** After [init_mems], over any state. *)
Lemma tables_and_globals hw s0 s h :
  boot_heap (s_heap s) h -> available (h_mm h) OS_PT_REG = Z.to_nat 2175 -> next (h_mm h) USER_REG = seqZ 25604 13180 ->
  (forall a, image a -> ld8 (h_ram h) a = ld8 (fs_ram (s_kernel s0)) a) -> hardware_ok hw ->
  exists s', alloc_globals (on_kernel (setup_tables hw) (put_heap h s)) = Some s' /\ booted hw s0 s'.
Proof.
  intros [Hr _ _ _ [Hb Hn] _] Ap Au Him Hw. pose proof (hr_mm _ _ _ _ Hr) as Hm.
  assert (Av : (5 <= available (h_mm h) OS_PT_REG)%nat) by (rewrite Ap; lia).
  destruct (setup_tables_places hw (set_k_mm (h_mm h) (s_kernel s)) Hw Hm Av) as [Ea Et].
  apply (globals_booted hw s0 (set_k_mm (h_mm h) (s_kernel s))).
  - destruct h. exact Hr.
  - apply setup_tables_kept; [exact Hw|exact Hm|exact Av].
  - exact Hb.
  - exact Hn.
  - apply setup_tables_table.
  - change (Z.of_nat (available (h_mm h) OS_PT_REG) = 2175). rewrite Ap. lia.
  - exact Au.
  - exact Ea.
  - exact Et.
  - exact Him.
Qed.

Lemma main_boot_ok hw inp c s :
  power_up (s_heap s) -> hardware_ok hw ->
  exists s', main_boot hw (c :: inp) s = Some (inp, s') /\ booted hw s s'.
Proof.
  intros Hp Hw. destruct (serial_init_ok idle_uart (k_io (c :: inp) (s_kernel s)) c inp eq_refl) as (d & E & Ei & Er & _).
  unfold main_boot, console_init. rewrite E. cbv zeta.
  set (s1 := on_kernel (set_k_io d) s). set (s2 := on_kernel (print_registers hw) _).
  assert (Hp2 : power_up (s_heap s2)) by (apply (power_up_same (s_heap s)); [done|exact Er|reflexivity]).
  destruct (init_mems_other _ OS_PT_REG Hp2 ltac:(done)) as [Ap _]. destruct (init_mems_other _ USER_REG Hp2 ltac:(done)) as [_ Au].
  rewrite (available_init_pagelists _ OS_PT_REG (proj1 Hp2)) in Ap. rewrite (next_init_pagelists _ USER_REG (proj1 Hp2)) in Au.
  destruct (tables_and_globals hw s s2 _ (init_mems_ok _ Hp2) Ap Au) as (s' & Eg & Hb); [|exact Hw|].
  { intros a Ha. rewrite (init_mems_low _ a Hp2 (proj1 (image_low a Ha))).
    change (h_ram (s_heap s2)) with (io_ram d). change (fs_ram (s_kernel s)) with (io_ram (k_io (c :: inp) (s_kernel s))). by rewrite Er. }
  rewrite Eg, Ei. by exists s'.
Qed.

(** The buffer of the shell. *)
Lemma command_buffer hw s0 s :
  booted hw s0 s -> exists m', sys_os_alloc 1024 s = Some (4096 * 2055, on_kernel (fs_set_ram m') s) /\
    untouched ds_area (fs_ram (s_kernel s)) m'.
Proof.
  intros [Hr [Hb Hn] _ _ _ _ _ _ _ _].
  destruct (sys_os_alloc_ok s _ _ 25344 1024 2055 Hr) as (m & E & U & _); [unfold size_ok; lia|reflexivity|].
  exists m. split; [exact E|]. eapply untouched_weaken; [|exact U].
  intros a. unfold heap_area, s_heap, ds_area. cbn [osalloc_base nodemem]. rewrite Hb, Hn. lia.
Qed.

(** C14: From zeroed memory, the boot sequence always reaches the shell: the
    statistics and the configuration are objects of their own, zero but for
    the timer interval of 32; the process table holds the swapper alone, the
    heap is well formed, and of the page-table frames five are in use. *)
Theorem main_boots hw c inp s :
  power_up (s_heap s) -> hardware_ok hw ->
  exists s', main_boot hw (c :: inp) s = Some (inp, s') /\ booted hw s s' /\
    (exists m', sys_os_alloc 1024 s' = Some (4096 * 2055, on_kernel (fs_set_ram m') s')).
Proof.
  intros Hp Hw. destruct (main_boot_ok hw inp c s Hp Hw) as (s' & E & Hb).
  exists s'. split; [done|]. split; [done|]. destruct (command_buffer hw s s' Hb) as (m & Em & _). by exists m.
Qed.

(** ** The first process *)

(** What the shell leaves is what [exec_init] needs. *)
Lemma launched_ready hw args i q k k3 t :
  launched args i q k k3 -> (0 < i < 16)%nat -> length (ctx_list k) = 16%nat -> (13 <= fl_avail k OS_PT_REG)%nat ->
  fl_next k USER_REG = seqZ 25604 13180 -> apic_base k = hw_apic hw -> 2^30 <= hw_apic hw < 2^32 ->
  tss_page k = 4096 * t -> owned (k_mm k) OS_PT_REG t -> init_ready i k3 25604 t.
Proof.
  intros [I C [_ Hq] Ho Ha Hx _] Hi Hl Hav Hu Eap Hap Et Hot.
  assert (D : ctx_at k3 i = new_context (codes "init" ++ [0]) EXEC_CTX_USER i q (ctx_at k i)).
  { rewrite (ctx_only_at _ _ _ _ i C) by lia. by rewrite decide_True. }
  split.
  - exact I.
  - rewrite C. change (ctx_list (set_k_mm ?m ?x)) with (ctx_list x). rewrite length_upd_ctx. lia.
  - rewrite D. apply layout_laid_out.
  - rewrite D. change (0 <= q < 2^31). lia.
  - lia.
  - rewrite fl_next_length, Hx, Hu, length_seqZ. lia.
  - rewrite Hx, Hu. change 13180 with (8 + 13172). rewrite seqZ_app, take_app_le by (rewrite ?length_seqZ; lia).
    by apply take_ge; rewrite length_seqZ.
  - assert (E : apic_base k3 = apic_base k) by (by rewrite C). by rewrite E, Eap.
  - split; [|by apply Ho]. by rewrite C.
Qed.

(** The first ten user frames. *)
Lemma first_frames d s : take 10 (seqZ 25604 13180) = seqZ 25604 8 ++ [d; s] -> d = 25612 /\ s = 25613.
Proof.
  change 13180 with (10 + 13170). rewrite seqZ_app, take_app_le, take_ge by (rewrite ?length_seqZ; lia).
  change (seqZ 25604 10) with (seqZ 25604 8 ++ [25612; 25613]). intros E%app_inv_head. by injection E as <- <-.
Qed.

(** The machine in user mode: [root] is the loaded page table, of the process
    that owns the frames 25604 to 25613. *)
Record user_mode (m0 : mem) (k : kernel) (root : Z) : Prop := {
  um_cr3 : last_cr3 (trace (mach (k_mm k))) = Some (4096 * root);
  um_mapping wa : 0 <= wa < 2^48 -> mapping (fs_ram k) root wa = init_mapping 25604 25612 25613 wa;
  um_kernel : kernel_mapped k root;
  um_code i : 0 <= i < 0x8000 -> ld8 (fs_ram k) (4096 * 25604 + i) = ld8 m0 (INIT_IMAGE + i);
  um_current : exists i, current k = Some i /\ (0 < i < 16)%nat /\ state_of k i = RUNNING /\ pid (ctx_at k i) = Z.of_nat i /\
    tss_rsp0 (fs_ram k) (tss_page k) = 4096 * (os_stack_pfn (ctx_at k i) + 1)
}.

Lemma exec_init_user_mode args i q k k3 t m0 :
  launched args i q k k3 -> (0 < i < 16)%nat -> length (ctx_list k) = 16%nat -> init_ready i k3 25604 t -> fl_next k USER_REG = seqZ 25604 13180 ->
  boot_range args 40 -> args + 40 <= 0x800000 -> (forall a, image a -> ld8 (fs_ram k) a = ld8 m0 a) ->
  exists k' root, exec_init i args k3 = Leave (EnterInit (user_entry (load_init_args (fs_ram k3) args))) k' /\ user_mode m0 k' root.
Proof.
  intros L Hi Hlen R Hu Ha Ha8 Him. destruct (exec_init_space_ok i k3 25604 t R) as (root & d & s & P).
  destruct (first_frames d s) as [-> ->].
  { rewrite <- Hu, <- (la_next _ _ _ _ _ L). exact (in_frames _ _ _ _ _ _ _ P). }
  exists (fs_emit (ELoadCr3 (4096 * root)) (exec_init_space i k3)), root.
  pose proof (exec_init_eq i args k3 _ root _ _ P Ha8) as Ex. set (k4 := exec_init_space i k3) in *.
  assert (D : ctx_at k3 i = new_context (codes "init" ++ [0]) EXEC_CTX_USER i q (ctx_at k i)).
  { rewrite (ctx_only_at _ _ _ _ i (la_ctx _ _ _ _ _ L)) by lia. by rewrite decide_True. }
  split.
  - exact Ex.
  - clearbody k4. split.
    + reflexivity.
    + exact (in_mapping _ _ _ _ _ _ _ P).
    + exact (in_kernel _ _ _ _ _ _ _ P).
    + intros j Hj. rewrite <- (Him (INIT_IMAGE + j)) by (unfold image; lia).
      rewrite <- (la_low _ _ _ _ _ L) by (unfold boot_range, low_memory, INIT_IMAGE in *; lia). exact (in_code _ _ _ _ _ _ _ P j Hj).
    + exists i. split; [exact (in_current _ _ _ _ _ _ _ P)|]. split; [done|].
      change (state_of (fs_emit ?e k4) i) with (state_of k4 i). change (ctx_at (fs_emit ?e k4) i) with (ctx_at k4 i).
      unfold state_of. rewrite (in_context _ _ _ _ _ _ _ P i), decide_True by done. split; [reflexivity|].
      split; [by rewrite D|]. exact (in_rsp0 _ _ _ _ _ _ _ P).
Qed.

(** A C function takes the third and fourth word of a [struct init_args] for
    its fourth and third argument. *)
Definition swap34 (j : nat) : nat := match j with 2 => 3 | 3 => 2 | _ => j end%nat.

Lemma init_words_arguments v j : c_arguments (user_entry v) !! swap34 j = init_words v !! j.
Proof. by do 5 (destruct j as [|j]; [done|]). Qed.

(** The shell on a booted machine. *)
Lemma shell_starts_init hw n fuel args abc s s0 m inp rest w ws junk :
  booted hw s0 s -> hardware_ok hw -> untouched ds_area (fs_ram (s_kernel s)) m -> boot_range args 40 -> args + 40 <= 0x800000 ->
  delivers (init_line w ws ++ 13 :: junk ++ [10]) inp rest -> Forall (fun c => c <> 10) junk ->
  word_ok w -> words_ok ws -> (length (words_text w ws) < fuel)%nat -> (length ws < 5)%nat ->
  (length (words_text w ws) <= 1018)%nat ->
  exists v k' root, invoke_dsh (S n) fuel (4096 * 2055) args abc inp (fs_set_ram m (s_kernel s)) = Leave (EnterInit (user_entry v)) k' /\
    (forall j x, (w :: (snd <$> ws)) !! j = Some x -> c_arguments (user_entry v) !! swap34 j = Some (u64 (read_dec x))) /\
    user_mode (fs_ram (s_kernel s0)) k' root.
Proof.
  intros Hb [_ [_ Hap]] U Ha Hlow Hd Hj Hw Hws Hf H5 Hlen.
  destruct Hb as [Hr _ Ht _ _ Hpt Hu Eap (t & Et & Hot) Him].
  pose proof (hr_mm _ _ _ _ Hr) as Hm. change (h_mm (s_heap s)) with (k_mm (s_kernel s)) in Hm.
  set (k := s_kernel s) in *. clearbody k. clear Hr.
  destruct (mm_inv_untouched ds_area (k_mm k) m Hm U) as (Hm1 & Ow & Av); [intros r a; apply ds_area_bitmap|].
  pose proof (next_untouched ds_area (k_mm k) (set_mm_ram m (k_mm k)) USER_REG Hm U (fun a => ds_area_bitmap USER_REG a) eq_refl) as Hu1.
  set (k1 := fs_set_ram m k). set (k2 := fs_set_ram (store_args (fs_ram k1) args 0 [0; 0; 0; 0; 0]) k1).
  assert (K : kept_post 0 k1 k2).
  { apply kept_store; [|exact Hm1|lia]. eapply untouched_weaken; [|apply store_args_untouched]. cbn [length].
    intros a Hin. apply (boot_range_area args 40); [exact Ha|lia]. }
  destruct (only_swapper_ctx k k2 eq_refl Ht) as (Htab & _ & Hun).
  assert (Nx : fl_next k2 USER_REG = seqZ 25604 13180) by exact (eq_trans (kp_next _ _ _ K) (eq_trans Hu1 Hu)).
  assert (Avl : (13 <= fl_avail k2 OS_PT_REG)%nat).
  { pose proof (kp_pt _ _ _ K) as E. change (fl_avail k2 OS_PT_REG) with (available (k_mm k2) OS_PT_REG).
    change (available (k_mm k1) OS_PT_REG) with (available (set_mm_ram m (k_mm k)) OS_PT_REG) in E. rewrite (Av OS_PT_REG) in E. lia. }
  destruct (typed_init fuel (4096 * 2055) args abc k2 inp rest w ws junk Hd Hj Hw Hws Hf H5) as (i & q & k3 & E & L & Hi & Hv).
  - lia.
  - unfold REGION_OS_PT_START. lia.
  - right. lia.
  - exact Hlow.
  - exact Htab.
  - exists 1%nat. split; [lia|]. apply Hun. lia.
  - exact (kp_inv _ _ _ K).
  - lia.
  - assert (Ot : owned (k_mm k2) OS_PT_REG t) by (apply (kp_owned _ _ _ K), (Ow OS_PT_REG t), Hot).
    pose proof (tab_length _ Htab) as Hl2.
    pose proof (launched_ready hw args i q k2 k3 t L Hi Hl2 Avl Nx Eap Hap Et Ot) as R.
    destruct (exec_init_user_mode args i q k2 k3 t (fs_ram (s_kernel s0)) L Hi Hl2 R Nx Ha Hlow) as (k' & root & Ex & UM).
    { intros a Hia. rewrite (kp_ram _ _ _ K a (or_intror Hia)).
      rewrite <- (Him a Hia). exact (U a (proj2 (image_low a Hia))). }
    exists (load_init_args (fs_ram k3) args), k', root. split; [|split; [|exact UM]].
    2:{ intros j x Hx. rewrite init_words_arguments. by apply Hv. }
    unfold invoke_dsh. fold k1 k2. cbn [dsh_loop]. rewrite E. unfold bind. by rewrite Ex.
Qed.

(** C1: End to end: after a reset, typing "init" and up to five numbers at the
    prompt makes [main] leave through the [iretq] of [exec_init], to the start
    of the code segment in user mode.  Read as the arguments of a C function,
    the registers hold the numbers, the third and the fourth exchanged. The
    loaded page table maps the code, data and stack of init to the first ten
    user frames, with the image of init in the code, and nothing else of the
    user half; its kernel half maps the memory of the kernel; system calls and
    faults will enter the kernel on the stack of the process (rsp0 of the
    TSS). *)
Theorem boot_starts_init hw n fuel args abc s c inp rest w ws junk :
  power_up (s_heap s) -> hardware_ok hw -> boot_range args 40 -> args + 40 <= 0x800000 ->
  delivers (init_line w ws ++ 13 :: junk ++ [10]) inp rest -> Forall (fun c => c <> 10) junk ->
  word_ok w -> words_ok ws -> (length (words_text w ws) < fuel)%nat -> (length ws < 5)%nat ->
  (length (words_text w ws) <= 1018)%nat ->
  exists v k' root, main hw (S n) fuel args abc (c :: inp) s = Some (Leave (EnterInit (user_entry v)) k') /\
    (forall j x, (w :: (snd <$> ws)) !! j = Some x -> c_arguments (user_entry v) !! swap34 j = Some (u64 (read_dec x))) /\
    user_mode (fs_ram (s_kernel s)) k' root.
Proof.
  intros Hp Hw Ha Hlow Hd Hj Hwo Hws Hf H5 Hlen.
  destruct (main_boot_ok hw inp c s Hp Hw) as (s' & E & Hb).
  destruct (command_buffer hw s s' Hb) as (m & Em & U).
  destruct (shell_starts_init hw n fuel args abc s' s m inp rest w ws junk) as (v & k' & root & Es & Hv & UM); try done.
  exists v, k', root. split; [|split; [exact Hv|exact UM]].
  unfold main. rewrite E, Em. change (s_kernel (on_kernel ?f s')) with (f (s_kernel s')). by rewrite Es.
Qed.

(** ** Witnesses *)

Definition reset_kernel : kernel := Kernel reset_mm [] None zero_stats (OsConfigs 0 0 0 0) 0 0 0.
Definition reset_system : system := System reset_kernel 0 (NodeMem 0 0 0 0).
Definition gem5 : hardware :=
  Hardware 0x10 0x18 0x18 0x90000 0x90000 2 0x80000011 0x70000 0x20 0 0xfee00900 0 0
    (Handlers 0x100100 0x100200 0x100300 0x100400 0x100500) 0x101000.

Lemma reset_system_power_up : power_up (s_heap reset_system).
Proof. exact reset_power_up. Qed.

Lemma gem5_ok : hardware_ok gem5.
Proof. split; [left; vm_compute; discriminate|]. split; [repeat constructor; cbn; lia|]. vm_compute. split; [discriminate|reflexivity]. Qed.

Lemma main_boots_witness : exists s', main_boot gem5 [3] reset_system = Some ([], s') /\ booted gem5 reset_system s'.
Proof.
  destruct (main_boots gem5 3 [] reset_system reset_system_power_up gem5_ok) as (s' & E & B & _).
  exists s'. exact (conj E B).
Defined.

(** The user types "init 7 42 5 9" at the first prompt: init takes 9 for its
    third argument and 5 for the fourth. *)
Lemma boot_starts_init_witness : exists v k' root,
  main gem5 1 100 0x3000 0x3100 (3 :: keys (codes "init 7 42 5 9")) reset_system = Some (Leave (EnterInit (user_entry v)) k') /\
  take 4 (c_arguments (user_entry v)) = [7; 42; 9; 5] /\ user_mode (fs_ram (s_kernel reset_system)) k' root.
Proof.
  destruct (boot_starts_init gem5 0 100 0x3000 0x3100 reset_system 3 (keys (codes "init 7 42 5 9")) []
    [55] [([32], [52; 50]); ([32], [53]); ([32], [57])] []) as (v & k' & root & E & H & U).
  - exact reset_system_power_up.
  - exact gem5_ok.
  - left. unfold INIT_IMAGE. lia.
  - lia.
  - apply (keys_deliver (codes "init 7 42 5 9")). by apply Forall_between.
  - constructor.
  - split; [discriminate|]. repeat constructor; unfold is_digit; discriminate.
  - repeat constructor; unfold is_digit; discriminate.
  - cbn. lia.
  - cbn. lia.
  - cbn. lia.
  - exists v, k', root. split; [exact E|]. split; [|exact U].
    pose proof (H 0%nat [55] eq_refl) as H0. pose proof (H 1%nat [52; 50] eq_refl) as H1.
    pose proof (H 2%nat [53] eq_refl) as H2. pose proof (H 3%nat [57] eq_refl) as H3. clear - H0 H1 H2 H3.
    destruct v as [a b c d e]. injection H0 as ->. injection H1 as ->. injection H2 as ->. injection H3 as ->. reflexivity.
Defined.
